(* ===== verification/_CoqProject ===== *)
-Q . S2P
Prelude.v
Memory.v
KernelState.v
KBitmap.v
KBitmapSpec.v
KernelMain.v
KernelInv.v
KernelSteps.v
KernelProps.v
KernelIoctls.v
KernelTrace.v
Tracker.v
WinState.v
WinFilter.v
WinSpec.v
WinProps.v
TrackerProps.v
WinInv.v
WinLoad.v
WinLimits.v
WinExample.v
CMonad.v
CString.v
World.v
UBitmap.v
Db.v
Config.v
Partner.v
Relation.v
Disk.v
Header.v
ReplicServer.v
ConnServer.v
Resync.v
ReplicClient.v
Recovery.v
Daemon.v
Adm.v
WinAdm.v
CommonLink.v
CommonDb.v
CommonResync.v
CommonServer.v
CommonDaemon.v
WinDb.v
WinClient.v
WinObjects.v
WinServer.v
WinResync.v
WinProtocol.v
WinDaemon.v
WorldTac.v
UBitmapSpec.v
TransferLoop.v
ResyncSpec.v
ServerSpec.v
Sim.v
LinkSpec.v
ResyncProps.v
CommonLinkProps.v
SnapshotSpec.v
SnapshotProps.v
SnapshotResume.v
CommonProps.v
ServerProps.v
EndToEnd.v
DaemonProps.v
WinSnapshot.v
WinClientProps.v
WinHost.v
WinResyncSpec.v
WinServerSpec.v
WinPair.v
WinResyncProps.v
WinFetch.v
WinClientFetch.v
WinEndToEnd.v
WinFiles.v
WinServerProps.v
WinAdmProps.v
