(* ===== verification/Prelude.v ===== *)
(** * Greko (eBDR) block-device replication: a verification development

    eBDR replicates a block device from a server to clients.  A kernel module
    puts a virtual device in front of the source disk and marks, in a bitmap
    with one bit per grain, what is written.  The server daemon takes
    snapshots of that bitmap and answers the requests of client daemons; a
    client fetches the bitmap and copies the chunks of the dirty grains to its
    target disk.  An administration command drives both daemons through
    fifos, a MySQL database keeps partners, relations, disks and the progress
    of resyncs across restarts.

    The development models the Linux sources, kernel/atdr_linux,
    user/atdr_linux and utils/atdr_linux, and their Windows counterparts: the
    volume filter driver, kernel/atdr_windows/atdrvolflt, the daemon,
    user/atdr_windows/windows_client, and the command,
    utils/atdr_windows (all below src/atdr_base_code/), and the Linux daemon's
    older copy, user/common, where it differs.  Each daemon's source is built
    as server and as client.

    ** The model

    Shared files: [Prelude] (record update, arrays as finite maps with a zero
    default, machine integers, loops over intervals), [Memory] (byte buffers,
    little-endian words, the bit [mem_bit m k]), [CMonad] (the daemon's state
    monad, whose results distinguish a return from the ways a thread can stop:
    process exit, cancellation, blocking for ever, undefined behaviour),
    [CString] (char arrays, sscanf and the decimal conversions of sprintf).

    Kernel module.  [KernelState]: the globals of the module, the ioctl
    protocol; [KBitmap]: atdr_bitmap.c, in a layer on bytes and a layer that
    follows the pointers of the device; [KernelMain]: atdr_device.c,
    atdr_memctl.c, atdr_req.c, the ioctls of atdr_main.c.  An operation is a
    function [kstate -> option ..]: [None] is undefined behaviour.

    Windows filter driver.  [WinState]: device objects, extensions, volume and
    bitmap structures, nonpaged pool, descriptor lists; [WinFilter]:
    atdrvolflt.c.  A dispatch routine is a function of the device, the request
    and the state; the trace of the state records how the driver lets go of
    the request.

    Daemon.  [World]: the global arrays of objects, the heap, the started
    threads, the interface [OS]; [UBitmap]: atdr_bitmap_server.c,
    atdr_bitmap_client.c; [Db], [Config]: atdr_db.c; [Partner], [Relation],
    [Disk], [Header]: the objects of the same names with their server and
    client operations (headers, connections, I/O engines and replication
    objects are in [Header]); [ReplicServer]: replic_server.c;
    [ConnServer]: atdr_conn_server.c; [Resync]: atdr_resync.c and the resync
    thread; [ReplicClient]: replic_client.c, atdr_conn_client.c and the client
    requests of atdr_daemon.c; [Recovery]: atdr_recovery.c; [Daemon]: the
    commands of atdr_daemon.c and the start-up of atdr_db.c.
    Administration command: [Adm].

    Windows daemon.  [WinDb]: the statements of atdr_db.c and their mutex, the
    interface [WinOS]; [WinClient]: the control requests of atdr_daemon.c, the
    bitmap of atdr_bitmap_server.c, the disks and the I/O engines;
    [WinObjects]: the interface [WinSock], the readers of atdr_db.c, partners,
    relations, headers, replication objects, the client's bitmap and its file;
    [WinServer]: replic_server.c and atdr_conn_server.c; [WinResync]:
    atdr_resync.c, the resync thread and the sending half of replic_client.c;
    [WinProtocol]: the receiving half, atdr_conn_client.c and the client
    requests of atdr_daemon.c; [WinDaemon]: parse_daemon_request, the control
    loop, the configuration file, db_init and atdr_recovery.c.  They work on
    the [World] of the Linux daemon, whose structures they share.  A file that
    is the Linux text apart from names (the searches in the arrays of objects,
    is_bit_set) is used from its Linux model.  Administration command:
    [WinAdm].

    The daemon of user/common.  [CommonLink]: the link monitor of
    atdr_daemon.c; [CommonDb]: atdr_db.c; [CommonResync]: atdr_resync.c,
    atdr_recovery.c, the resync thread; [CommonServer]: atdr_bitmap_server.c,
    replic_server.c, atdr_conn_server.c; [CommonDaemon]: parse_daemon_request,
    the control loop and db_init.  Each has the functions that differ from
    user/atdr_linux ([cm_..]); the rest is the Linux daemon's text and is used
    from its models.

    ** Interfaces

    - [KBitops], [KBitopsLaws] ([KernelState]): the kernel's __set_bit and what
      its documentation says; [x86_bitops] is an implementation that satisfies
      the laws.
    - [Tracker], [TrackerLaws] ([Tracker]): what a change tracker promises,
      two sets of marked grains that are exchanged on request.  [TrackerProps]
      has the instances for the kernel module and for the filter driver.
    - [wenv] ([WinState]): the answers of the Windows kernel's services to one
      dispatch; [MountDev]: the control code of <mountdev.h>.
    - [kenv] ([KernelState]): the answers of the kernel services (copies from
      and to user space, allocations, opening a block device) to one call.
    - [OS] ([World]): sockets, files, ioctl, the shared mapping, the database
      client.  [Sim] gives two instances: [host_os], one machine with a kernel
      module, and [link_os], a machine connected to a server process.
    - [LinkOS] ([CommonLink]): the netlink socket, select, and the global
      [link_down] of user/common.
    - [PeerLaws] ([ResyncSpec]): what a resync needs of the other end: what a
      receive delivers, which may be less than asked for or nothing at all, is
      the beginning of the source's bytes at the place asked for; the target
      disk keeps what is written.  That no receive is short is a hypothesis of
      its own ([answers_whole]), that no call fails another ([peer_up]); the
      theorems that need them say so.  [ServerProps] proves that the modelled
      server process satisfies the laws, so the theorems on the resync apply
      to the pair of processes.
    - [WinOS] ([WinDb]), [WinSock] ([WinObjects]): the Windows calls of the
      daemon: devices, control requests and statements in the first,
      connections, threads, text files and results of queries in the second; [WinDbLaws] ([WinClientProps]): a
      connection that was closed is not usable.
    - [WinPeerLaws] ([WinResyncSpec]): what a Windows resync needs of the other
      end; [win_answers_whole], [win_peer_up]: that no receive is short, that
      no call fails.  The Windows client receives without MSG_WAITALL and
      ignores the count, so the first is a real restriction there.  [WinPair] connects a
      client's machine to the modelled server process on a machine with a
      volume and a filter driver, over a byte stream of which a network, any
      function, delivers a part at each receive ([unsegmented]: all of it);
      [WinServerSpec] and [WinResyncProps] prove the laws for it.
    - [WinQuiet] ([WinFetch]): the part of a machine beside the filter
      driver, which control requests leave alone.
    - [AdmPipe] ([WinAdm]): the pipes as the command sees them.
    - [WinLink] ([WinSnapshot]): DeviceIoControl reaches the modelled filter
      driver through the I/O manager.  [WinHost] is a machine with a volume
      and a driver that satisfies it.
    - [KernelLink] ([SnapshotSpec]): the daemon's ioctls and mapping reach the
      modelled kernel module.

    ** What is proved

    - Bitmap ([KBitmapSpec], [KernelProps], [KernelIoctls]): every operation
      changes exactly the bits it should; the word-wise and the bit-wise
      version agree; the search loop is a quotient; the invariant [kwf]
      ([KernelInv]) is kept by every ioctl and request ([KernelSteps]), hence
      no request of a reachable state leaves the memory of its device; a write
      marks the grains it touches and is then submitted.  [KernelTrace] lifts
      this to sequences of writes.
    - The two drivers ([Tracker], [TrackerProps]): both refine the
      specification of a change tracker, so they mark the same grains for the
      same writes and exchanges, as long as the writes end before the last
      tracked sector.
    - Filter driver ([WinSpec], [WinProps], [WinInv], [WinLoad]): which bits a
      write sets; from DriverEntry over AddDevice to the first creation of a
      bitmap; the invariant [volume], kept by every request but the removal of
      the device and of the bitmap, each of them given up exactly once.
      [WinLimits]: the writes and control requests that leave the bitmap or
      use freed memory; [WinExample]: a concrete driver for the witnesses.
    - Bit tests and counts of the daemon agree with the kernel's numbering
      ([UBitmapSpec]).
    - Snapshots ([SnapshotSpec], [SnapshotProps]): copy and flip lose nothing
      if no write comes between them; with one in between, bits are lost.
      [SnapshotResume]: the snapshot of a connection that is resumed, which
      exchanges nothing.
    - The daemon of user/common: [CommonLinkProps]: the messages of a datagram
      are handled in order, and what the handling of one does; [CommonProps]:
      rounds of the recovery thread, the snapshot of a resumed connection or
      of a restarted server, whose mode no step resets.
    - Windows daemon and driver ([WinSnapshot], [WinClientProps], [WinHost]):
      from the creation of the bitmap over writes to the snapshot, every grain
      written is delivered once; a failed mapping that is reported as success;
      the 32-bit offset of a chunk; a refused database statement.
    - Resync ([TransferLoop], the part the ports share; [ResyncSpec],
      [ResyncProps]): termination for every behaviour of the connection, orderly
      closes and short receives included, with nothing written outside the
      selected grains; when no receive is short, exact effect on the target if
      the connection holds and resumption after a failure;
      [closed_connection_writes_stale_chunk]: what a close in good order does.
      [EndToEnd] composes the write path, the bitmap, the resync and the server
      process.
    - Windows resync ([WinResyncSpec], [WinServerSpec], [WinResyncProps]): the
      same theorems for the Windows daemon, and that both ports leave the same
      target; [windows_short_receive_writes_stale_bytes],
      [short_bitmap_forgets_grains]: what a receive cut short does to a chunk
      and to the bitmap.  [WinFetch], [WinClientFetch]: the client's request for the
      metadata brings the bitmap of the server's snapshot.  [WinEndToEnd]
      composes the filter driver's write path, the snapshot, the transfer of
      the bitmap and the resync thread.
    - [WinServerProps], [WinFiles]: dispatch of requests, the layout of a
      control request, the argument of the receiving threads, the bitmap's
      file in text mode.
    - Windows command ([WinAdmProps]): from the command line over the pipe to
      the operation of the daemon; the commands no daemon serves.
    - Server ([ServerSpec], [LinkSpec], [ServerProps]): one handler per
      request, refinement of the peer, negotiation, idempotent termination.
    - Daemon ([DaemonProps]): the database lock, which the start-up of a server
      takes twice, identifiers, twelve commands from the command line through
      the fifo, the control loop and the parser to the operation, pause.
    - Error behaviour and limits: the theorems that name a defect (overflows of
      fixed buffers, a closed connection, cancellation with the lock held,
      SET_GRAIN_SIZE) state what the code does there.

    ** Bounds and fuel

    Integers are [Z] with their wrap-around written out ([u64], [u32], [i32]);
    unsigned long has 64 bits in the Linux sources, 32 in the Windows sources.
    The theorems on a Windows resync are for disks of at most 4 GB, where the
    32-bit products of an offset are exact ([chunks_4GB_apart_collide] is what
    happens beyond).  The theorems on sequences of writes of the Windows driver
    are for writes that end before the last tracked sector ([op_fits]);
    [write_to_the_end_leaves_half] is what happens beyond.
    Loops over intervals are [iter_up] with the exact number of rounds.
    [grain_loop] and [win_grain_loop] have fuel MAX_BITS_LEN + 1: a bitmap has at most
    MAX_BITS_LEN bits and the loop leaves at the first position beyond, so
    the fuel is never exhausted ([resync_returns_safe]).  [assign_loop] has
    one unit per partner row plus one, the bound of the source's loop.
    [find_pos_loop] and [atdr_find_pos_loop] have one unit per bit.
    [ioctl_tries] recurs on the retries left, MAX_RETRIES in the source.  [link_fuel] is one
    more than the 16-byte headers that fit the buffer; when it is used up the
    loop does not advance and its result is [Blocked].  The fuel
    of [unload_loop] is a parameter: the loop of atdrFltUnload need not end.  The endless loops (receive loop,
    accept loop, recovery, control loop) are given as the body of one
    iteration; [send_recv_loop] iterates the receive step a given number of
    times, and its theorem is for every number.

    ** Deviations from the memory layout

    [ebdr_conn_server] has MAX_CONN+1 elements in the source, which uses
    element MAX_CONN+1 for the listening socket; the model gives that element
    a place of its own instead of making every connection undefined.  [recovery_mode]
    is one [int] in user/common, element 0 of the array here, and so is its one
    [sockfd_pid_var].  Locals that are read without being set are explicit [garbage] arguments.  Locks
    other than [db_lock] protect one step each and are not part of the state.
    The bitmap of a Windows volume is nested in its VOL_INFO and that in the
    extension of the device, which are its only owners; what a pool
    allocation holds before it is written is an argument.

    ** Not modelled

    the code of user/common under #ifdef WINDOWS; atdr_ip*.c (addresses, not
    used by the replication paths); main of the daemons, daemonize, the Windows
    service's functions, the creation of fifos and pipes, log files (process
    glue); printing functions; replic_verify_start (under if (0)) and the
    other daemons' insert_into_db (no caller); atdr_memctl_old.c (not built); the headers derived from DRBD.
    The logging macro is a step whose only effect is that it is a
    cancellation point. *)
From stdpp Require Export base gmap list strings numbers pretty.
From Stdlib Require Export ZArith Lia.

Declare Scope greko_scope.
Delimit Scope greko_scope with greko.
#[global] Open Scope Z_scope.
#[global] Open Scope greko_scope.

(** ** Functional update of the fields of a C struct

    [Settable R] holds the eta-expansion of the record [R]; the setter of a
    field is derived from it by abstracting the projection. *)
Class Settable (R : Type) := eta_of : R -> R.

Class Setter {R T : Type} (f : R -> T) := set_field : (T -> T) -> R -> R.

Arguments set_field {R T} f {_} _ _.

Ltac term_head t := lazymatch t with ?a _ => term_head a | _ => t end.

Ltac solve_setter :=
  lazymatch goal with
  | |- @Setter ?R ?T ?f =>
      let inst := constr:(_ : Settable R) in
      let body := eval cbv [eta_of] in (@eta_of R inst) in
      let body := (let h := term_head body in eval unfold h in body) in
      lazymatch eval pattern f in body with
      | ?g _ =>
          let t := eval cbv beta in (fun (u : T -> T) (r : R) => g (fun r0 => u (f r0)) r) in
          exact t
      end
  end.

#[export] Hint Extern 1 (Setter _) => solve_setter : typeclass_instances.

Notation "r '<|' f '::=' g '|>'" := (set_field f g r)
  (at level 1, f at next level, left associativity) : greko_scope.
Notation "r '<|' f ':=' v '|>'" := (set_field f (fun _ => v) r)
  (at level 1, f at next level, left associativity) : greko_scope.

(** ** C static storage: every object starts zeroed *)
Class Zeroed (A : Type) := zeroed : A.

#[export] Instance zeroed_Z : Zeroed Z := 0.
#[export] Instance zeroed_bool : Zeroed bool := false.
#[export] Instance zeroed_string : Zeroed string := EmptyString.
#[export] Instance zeroed_option {A} : Zeroed (option A) := None.
#[export] Instance zeroed_list {A} : Zeroed (list A) := [].

(** A C array with static storage: the cells ever written, the others being
    zero.  [aget] reads a cell, [aset] writes it; the bounds are checked where
    the source's array has them. *)
Definition aget {A} `{Zeroed A} (a : gmap Z A) (i : Z) : A := default zeroed (a !! i).
Definition aset {A} `{Zeroed A} (i : Z) (f : A -> A) (a : gmap Z A) : gmap Z A :=
  <[i := f (aget a i)]> a.
Definition inb (n i : Z) : bool := (0 <=? i) && (i <? n).

Section array_lemmas.
Context {A : Type} `{Zeroed A}.

Lemma aget_empty i : aget (∅ : gmap Z A) i = zeroed.
Proof. unfold aget. by rewrite lookup_empty. Qed.

Lemma aget_aset (a : gmap Z A) i j f :
  aget (aset i f a) j = if decide (i = j) then f (aget a i) else aget a j.
Proof. unfold aget, aset. rewrite lookup_insert. by case_decide. Qed.

Lemma aget_aset_eq (a : gmap Z A) i f : aget (aset i f a) i = f (aget a i).
Proof. rewrite aget_aset. by rewrite decide_True. Qed.

Lemma aget_aset_ne (a : gmap Z A) i j f : i ≠ j -> aget (aset i f a) j = aget a j.
Proof. intros. rewrite aget_aset. by rewrite decide_False. Qed.

Lemma aset_aset (a : gmap Z A) i f g : aset i f (aset i g a) = aset i (fun x => f (g x)) a.
Proof. unfold aset. by rewrite insert_insert_eq, aget_aset_eq || (unfold aget; rewrite lookup_insert_eq; rewrite insert_insert_eq). Qed.
End array_lemmas.

Lemma inb_spec n i : inb n i = true <-> 0 <= i < n.
Proof. unfold inb. rewrite andb_true_iff, Z.leb_le, Z.ltb_lt. lia. Qed.

Lemma inb_true n i : 0 <= i < n -> inb n i = true.
Proof. apply inb_spec. Qed.

Lemma inb_false n i : ~ 0 <= i < n -> inb n i = false.
Proof. intros Hn. destruct (inb n i) eqn:E; [|done]. by apply inb_spec in E. Qed.

(** ** Machine integers, with the wrap-around of an LP64 target *)
Definition u64 (z : Z) : Z := z mod 2 ^ 64.
Definition u32 (z : Z) : Z := z mod 2 ^ 32.
Definition i32 (z : Z) : Z := (z + 2 ^ 31) mod 2 ^ 32 - 2 ^ 31.
Definition i64 (z : Z) : Z := (z + 2 ^ 63) mod 2 ^ 64 - 2 ^ 63.

Lemma u64_range z : 0 <= u64 z < 2 ^ 64.
Proof. apply Z.mod_pos_bound. lia. Qed.

Lemma u64_id z : 0 <= z < 2 ^ 64 -> u64 z = z.
Proof. apply Z.mod_small. Qed.

Lemma i32_id z : - 2 ^ 31 <= z < 2 ^ 31 -> i32 z = z.
Proof. intros. unfold i32. rewrite Z.mod_small; lia. Qed.

Lemma i32_range z : - 2 ^ 31 <= i32 z < 2 ^ 31.
Proof. unfold i32. pose proof (Z.mod_pos_bound (z + 2 ^ 31) (2 ^ 32)). lia. Qed.

Lemma i64_id z : - 2 ^ 63 <= z < 2 ^ 63 -> i64 z = z.
Proof. intros. unfold i64. rewrite Z.mod_small; lia. Qed.

Lemma u32_id z : 0 <= z < 2 ^ 32 -> u32 z = z.
Proof. apply Z.mod_small. Qed.

Lemma u32_range z : 0 <= u32 z < 2 ^ 32.
Proof. apply Z.mod_pos_bound. lia. Qed.

Create HintDb greko.
Create Rewrite HintDb greko.
#[export] Hint Rewrite @aget_aset_eq @aget_empty : greko.
#[export] Hint Rewrite u64_id i32_id inb_true using lia : greko.

(** ** Shared tactics *)

(** [lia] also decides divisions and remainders by constants. *)
Ltac Zify.zify_post_hook ::= Z.div_mod_to_equations.

Ltac bool_to_prop :=
  repeat match goal with
    | H : _ && _ = true |- _ => apply andb_true_iff in H; destruct H
    | H : _ || _ = false |- _ => apply orb_false_iff in H; destruct H
    | H : negb _ = true |- _ => apply negb_true_iff in H
    | H : negb _ = false |- _ => apply negb_false_iff in H
    | H : (_ <? _) = true |- _ => apply Z.ltb_lt in H
    | H : (_ <? _) = false |- _ => apply Z.ltb_ge in H
    | H : (_ <=? _) = true |- _ => apply Z.leb_le in H
    | H : (_ <=? _) = false |- _ => apply Z.leb_gt in H
    | H : (_ =? _) = true |- _ => apply Z.eqb_eq in H
    | H : (_ =? _) = false |- _ => apply Z.eqb_neq in H
    | H : inb _ _ = true |- _ => apply inb_spec in H
    end.

(** Case analysis on the innermost test of a boolean expression. *)
Ltac destruct_bool_tests :=
  repeat match goal with
    | |- context [?a <? ?b] => destruct (Z.ltb_spec a b)
    | |- context [?a <=? ?b] => destruct (Z.leb_spec a b)
    | |- context [?a =? ?b] => destruct (Z.eqb_spec a b)
    end.

Ltac bool_solve := destruct_bool_tests; cbn [andb orb negb]; try reflexivity; try lia; try done.

(** ** Loops over an interval of integers *)
Definition zseq (a n : Z) : list Z := map (fun i => a + Z.of_nat i) (seq 0 (Z.to_nat n)).

Lemma elem_of_zseq a n x : x ∈ zseq a n <-> a <= x < a + n.
Proof.
  unfold zseq. rewrite list_elem_of_In, in_map_iff. split.
  - intros (i & <- & Hi%in_seq). lia.
  - intros. exists (Z.to_nat (x - a)). rewrite in_seq. split; lia.
Qed.

Lemma zseq_nil a n : n <= 0 -> zseq a n = [].
Proof. intros. unfold zseq. by replace (Z.to_nat n) with O by lia. Qed.

Lemma zseq_cons a n : 0 < n -> zseq a n = a :: zseq (a + 1) (n - 1).
Proof.
  intros. unfold zseq. replace (Z.to_nat n) with (S (Z.to_nat (n - 1))) by lia.
  cbn [seq map]. f_equal; [lia|]. rewrite <- seq_shift, map_map.
  apply map_ext. intros. lia.
Qed.

Lemma zseq_snoc a n : 0 <= n -> zseq a (n + 1) = zseq a n ++ [a + n].
Proof.
  intros. unfold zseq. replace (Z.to_nat (n + 1)) with (S (Z.to_nat n)) by lia.
  rewrite seq_S, map_app. cbn. do 2 f_equal. lia.
Qed.

(** [for (i = a; n more rounds; i++) body]: the C loops with a known number
    of rounds; the body may fail (undefined behaviour), which ends the loop. *)
Fixpoint iter_up {S : Type} (n : nat) (i : Z) (body : Z -> S -> option S) (s : S) : option S :=
  match n with
  | O => Some s
  | Datatypes.S n' => s' ← body i s; iter_up n' (i + 1) body s'
  end.

(** The loop rule: an invariant indexed by the loop counter. *)
Lemma iter_up_inv {S} (P : Z -> S -> Prop) (body : Z -> S -> option S) n a s :
  P a s ->
  (forall i s, a <= i < a + Z.of_nat n -> P i s -> exists s', body i s = Some s' /\ P (i + 1) s') ->
  exists s', iter_up n a body s = Some s' /\ P (a + Z.of_nat n) s'.
Proof.
  revert a s. induction n as [|n IH]; intros a s HP Hstep.
  - exists s. split; [done|]. by replace (a + Z.of_nat 0) with a by lia.
  - destruct (Hstep a s) as (s1 & E & HP1); [lia|done|]. cbn [iter_up]. rewrite E. cbn.
    destruct (IH (a + 1) s1 HP1) as (s2 & E2 & HP2).
    + intros i s' Hi. apply Hstep. lia.
    + exists s2. split; [done|]. by replace (a + Z.of_nat (Datatypes.S n)) with (a + 1 + Z.of_nat n) by lia.
Qed.
