(* ===== verification/Memory.v ===== *)
(** * Byte-addressed memory

    The bitmaps of the program are raw byte buffers that the kernel module
    accesses as [unsigned long] words, the client daemon as [unsigned int]
    words and the server daemon byte by byte.  A buffer is a list of bytes;
    [load] and [store] are the little-endian accesses of the target, [None]
    being an access outside the buffer.  The bit view [mem_bit] is the common
    vocabulary in which the three numberings of the bits are compared. *)
From S2P Require Import Prelude.

Abbreviation mem := (list Z).

Definition is_byte (b : Z) : Prop := 0 <= b < 256.
Definition wf_mem (m : mem) : Prop := Forall is_byte m.

Definition mem_bit (m : mem) (k : Z) : bool :=
  (0 <=? k) && match m !! Z.to_nat (k / 8) with
               | Some b => Z.testbit b (k mod 8)
               | None => false
               end.

Fixpoint le_value (l : mem) : Z :=
  match l with
  | [] => 0
  | b :: l' => b + 256 * le_value l'
  end.

Fixpoint le_bytes (n : nat) (v : Z) : mem :=
  match n with
  | O => []
  | S n' => v mod 256 :: le_bytes n' (v / 256)
  end.

Definition in_buffer (n : nat) (m : mem) (off : Z) : bool :=
  (0 <=? off) && (off + Z.of_nat n <=? Z.of_nat (length m)).

Definition load (n : nat) (m : mem) (off : Z) : option Z :=
  if in_buffer n m off then Some (le_value (take n (drop (Z.to_nat off) m))) else None.

Definition store (n : nat) (m : mem) (off : Z) (v : Z) : option mem :=
  if in_buffer n m off
  then Some (take (Z.to_nat off) m ++ le_bytes n v ++ drop (Z.to_nat off + n) m)
  else None.

(** ** Bytes and bits *)
Lemma testbit_cons b r k :
  is_byte b -> 0 <= k ->
  Z.testbit (b + 256 * r) k = if k <? 8 then Z.testbit b k else Z.testbit r (k - 8).
Proof.
  intros Hb Hk. unfold is_byte in Hb. destruct (Z.ltb_spec k 8).
  - rewrite <- (Z.mod_pow2_bits_low (b + 256 * r) 8 k) by lia.
    f_equal. change (2 ^ 8) with 256. rewrite Z.mul_comm, Z.mod_add by lia. by apply Z.mod_small.
  - replace k with (k - 8 + 8) at 1 by lia. rewrite <- Z.div_pow2_bits by lia.
    f_equal. change (2 ^ 8) with 256. rewrite Z.mul_comm, Z.div_add by lia.
    rewrite Z.div_small; lia.
Qed.

Lemma mem_bit_nonneg m k : mem_bit m k = true -> 0 <= k.
Proof. unfold mem_bit. intros H. bool_to_prop. lia. Qed.

Lemma mem_bit_neg m k : k < 0 -> mem_bit m k = false.
Proof. intros. unfold mem_bit. by replace (0 <=? k) with false by bool_solve. Qed.

Lemma mem_bit_nil k : mem_bit [] k = false.
Proof. unfold mem_bit. rewrite lookup_nil. by rewrite andb_false_r. Qed.

Lemma mem_bit_high m k : 8 * Z.of_nat (length m) <= k -> mem_bit m k = false.
Proof.
  intros. unfold mem_bit. rewrite lookup_ge_None_2; [by rewrite andb_false_r|]. lia.
Qed.

Lemma mem_bit_app l1 l2 k :
  mem_bit (l1 ++ l2) k =
  if k <? 8 * Z.of_nat (length l1) then mem_bit l1 k
  else mem_bit l2 (k - 8 * Z.of_nat (length l1)).
Proof.
  unfold mem_bit. destruct (Z.leb_spec 0 k).
  - destruct (Z.ltb_spec k (8 * Z.of_nat (length l1))).
    + by rewrite lookup_app_l by lia.
    + rewrite lookup_app_r by lia.
      replace (0 <=? k - _) with true by bool_solve.
      replace (k - 8 * Z.of_nat (length l1)) with (k + (- Z.of_nat (length l1)) * 8) by lia.
      rewrite Z.div_add, Z.mod_add by lia.
      replace (Z.to_nat (k / 8 + - Z.of_nat (length l1))) with (Z.to_nat (k / 8) - length l1)%nat by lia.
      done.
  - destruct (Z.ltb_spec k (8 * Z.of_nat (length l1))); [done|lia].
Qed.

Lemma mem_bit_cons b l k :
  mem_bit (b :: l) k = if k <? 8 then (0 <=? k) && Z.testbit b k else mem_bit l (k - 8).
Proof.
  change (b :: l) with ([b] ++ l). rewrite mem_bit_app. cbn [length].
  change (8 * Z.of_nat 1) with 8. destruct (Z.ltb_spec k 8); [|done].
  unfold mem_bit. destruct (Z.leb_spec 0 k); [|done].
  rewrite Z.div_small, Z.mod_small by lia. done.
Qed.

Lemma mem_bit_take n m k :
  mem_bit (take n m) k = (k <? 8 * Z.of_nat n) && mem_bit m k.
Proof.
  unfold mem_bit. destruct (Z.leb_spec 0 k); [|by rewrite andb_false_r].
  destruct (Z.ltb_spec k (8 * Z.of_nat n)); cbn [andb].
  - by rewrite lookup_take_lt by lia.
  - by rewrite lookup_take_ge by lia.
Qed.

Lemma mem_bit_drop n m k :
  mem_bit (drop n m) k = (0 <=? k) && mem_bit m (k + 8 * Z.of_nat n).
Proof.
  unfold mem_bit. destruct (Z.leb_spec 0 k); [cbn [andb]|done].
  replace (0 <=? k + _) with true by bool_solve.
  rewrite lookup_drop. replace (k + 8 * Z.of_nat n) with (k + Z.of_nat n * 8) by lia.
  rewrite Z.div_add, Z.mod_add by lia.
  by replace (Z.to_nat (k / 8 + Z.of_nat n)) with (n + Z.to_nat (k / 8))%nat by lia.
Qed.

Lemma le_value_testbit l k :
  wf_mem l -> 0 <= k -> Z.testbit (le_value l) k = mem_bit l k.
Proof.
  intros Hwf. revert k. induction Hwf as [|b l Hb Hl IH]; intros k Hk; cbn [le_value].
  - by rewrite Z.testbit_0_l, mem_bit_nil.
  - rewrite testbit_cons, mem_bit_cons by done. destruct (Z.ltb_spec k 8).
    + by replace (0 <=? k) with true by bool_solve.
    + apply IH. lia.
Qed.

Lemma length_le_bytes n v : length (le_bytes n v) = n.
Proof. revert v. induction n; intros; cbn; [done|]. by rewrite IHn. Qed.

Lemma wf_le_bytes n v : wf_mem (le_bytes n v).
Proof.
  revert v. induction n as [|n IH]; intros; cbn; [by constructor|].
  apply Forall_cons_2; [|apply IH]. unfold is_byte. lia.
Qed.

Lemma le_bytes_bit n v k :
  mem_bit (le_bytes n v) k = (0 <=? k) && (k <? 8 * Z.of_nat n) && Z.testbit v k.
Proof.
  revert v k. induction n as [|n IH]; intros v k; cbn [le_bytes].
  - rewrite mem_bit_nil. bool_solve.
  - rewrite mem_bit_cons, IH.
    destruct (Z.leb_spec 0 k); [|bool_solve].
    destruct (Z.ltb_spec k 8).
    + replace (k <? 8 * Z.of_nat (S n)) with true by bool_solve. cbn [andb].
      change 256 with (2 ^ 8). by rewrite Z.mod_pow2_bits_low by lia.
    + replace (0 <=? k - 8) with true by bool_solve.
      replace (k - 8 <? 8 * Z.of_nat n) with (k <? 8 * Z.of_nat (S n)) by bool_solve.
      change 256 with (2 ^ 8). rewrite Z.div_pow2_bits by lia.
      by replace (k - 8 + 8) with k by lia.
Qed.

(** ** The two accesses, bit by bit *)
Lemma in_buffer_spec n m off :
  in_buffer n m off = true <-> 0 <= off /\ off + Z.of_nat n <= Z.of_nat (length m).
Proof. unfold in_buffer. rewrite andb_true_iff, Z.leb_le, Z.leb_le. done. Qed.

Lemma load_bit n m off v j :
  wf_mem m -> load n m off = Some v -> 0 <= j ->
  Z.testbit v j = (j <? 8 * Z.of_nat n) && mem_bit m (8 * off + j).
Proof.
  unfold load. intros Hwf Hl Hj. destruct (in_buffer n m off) eqn:E; [|done].
  apply in_buffer_spec in E. injection Hl as <-.
  rewrite le_value_testbit; [|by apply Forall_take, Forall_drop|done].
  rewrite mem_bit_take, mem_bit_drop.
  replace (0 <=? j) with true by bool_solve.
  by replace (j + 8 * Z.of_nat (Z.to_nat off)) with (8 * off + j) by lia.
Qed.

Lemma store_length n m off v m' : store n m off v = Some m' -> length m' = length m.
Proof.
  unfold store. intros Hs. destruct (in_buffer n m off) eqn:E; [|done].
  apply in_buffer_spec in E. injection Hs as <-.
  rewrite !length_app, length_le_bytes, length_take, length_drop. lia.
Qed.

Lemma store_wf n m off v m' : wf_mem m -> store n m off v = Some m' -> wf_mem m'.
Proof.
  unfold store. intros Hwf Hs. destruct (in_buffer n m off) eqn:E; [|done]. injection Hs as <-.
  apply Forall_app_2; [by apply Forall_take|].
  apply Forall_app_2; [apply wf_le_bytes|by apply Forall_drop].
Qed.

Lemma store_bit n m off v m' k :
  store n m off v = Some m' ->
  mem_bit m' k =
  if (8 * off <=? k) && (k <? 8 * (off + Z.of_nat n)) then Z.testbit v (k - 8 * off)
  else mem_bit m k.
Proof.
  unfold store. intros Hs. destruct (in_buffer n m off) eqn:E; [|done].
  apply in_buffer_spec in E. injection Hs as <-.
  rewrite !mem_bit_app, length_take, length_le_bytes, mem_bit_take, le_bytes_bit, mem_bit_drop.
  replace (Z.of_nat (Z.to_nat off `min` length m)) with off by lia.
  destruct (Z.ltb_spec k (8 * off)).
  - replace (8 * off <=? k) with false by bool_solve. cbn [andb].
    by replace (k <? 8 * Z.of_nat (Z.to_nat off)) with true by bool_solve.
  - replace (8 * off <=? k) with true by bool_solve. cbn [andb].
    destruct (Z.ltb_spec (k - 8 * off) (8 * Z.of_nat n)).
    + replace (0 <=? k - 8 * off) with true by bool_solve.
      by replace (k <? 8 * (off + Z.of_nat n)) with true by bool_solve.
    + replace (k <? 8 * (off + Z.of_nat n)) with false by bool_solve.
      replace (0 <=? _) with true by bool_solve. cbn [andb]. f_equal. lia.
Qed.

Lemma load_Some n m off :
  0 <= off -> off + Z.of_nat n <= Z.of_nat (length m) -> is_Some (load n m off).
Proof.
  intros. unfold load. replace (in_buffer n m off) with true; [eauto|].
  symmetry. by apply in_buffer_spec.
Qed.

Lemma store_Some n m off v :
  0 <= off -> off + Z.of_nat n <= Z.of_nat (length m) -> is_Some (store n m off v).
Proof.
  intros. unfold store. replace (in_buffer n m off) with true; [eauto|].
  symmetry. by apply in_buffer_spec.
Qed.

(** A well-formed buffer is determined by its length and its bits. *)
Lemma mem_ext m1 m2 :
  wf_mem m1 -> wf_mem m2 -> length m1 = length m2 ->
  (forall k, mem_bit m1 k = mem_bit m2 k) -> m1 = m2.
Proof.
  intros H1. revert m2. induction H1 as [|b1 m1 Hb1 _ IH]; intros m2 H2 Hlen Hbits.
  - by destruct m2.
  - destruct m2 as [|b2 m2]; [done|]. apply Forall_cons_1 in H2 as [Hb2 H2].
    assert (b1 = b2) as ->.
    { apply Z.bits_inj'. intros n Hn. destruct (Z.ltb_spec n 8).
      - specialize (Hbits n). rewrite !mem_bit_cons in Hbits.
        replace (n <? 8) with true in Hbits by bool_solve.
        replace (0 <=? n) with true in Hbits by bool_solve. done.
      - unfold is_byte in *. rewrite <- (Z.mod_small b1 (2 ^ 8)), <- (Z.mod_small b2 (2 ^ 8)) by lia.
        by rewrite !Z.mod_pow2_bits_high by lia. }
    f_equal. apply IH; [done|by injection Hlen|]. intros k.
    destruct (Z.ltb_spec k 0); [by rewrite !mem_bit_neg|].
    specialize (Hbits (k + 8)). rewrite !mem_bit_cons in Hbits.
    replace (k + 8 <? 8) with false in Hbits by bool_solve.
    by replace (k + 8 - 8) with k in Hbits by lia.
Qed.

Lemma mem_bit_replicate n k : mem_bit (replicate n 0) k = false.
Proof.
  unfold mem_bit. destruct (0 <=? k); [cbn [andb]|done].
  destruct (decide (Z.to_nat (k / 8) < n)%nat).
  - rewrite (lookup_replicate_2 n 0) by done. by rewrite Z.testbit_0_l.
  - rewrite lookup_ge_None_2; [done|]. rewrite length_replicate. lia.
Qed.

Lemma wf_replicate n : wf_mem (replicate n 0).
Proof. apply (Forall_replicate is_byte n 0). unfold is_byte. lia. Qed.

#[export] Hint Resolve store_wf wf_replicate wf_le_bytes : greko.

(** ** Read-modify-write of a 64-bit word *)
Definition word_rmw (f : Z -> Z) (off : Z) (m : mem) : option mem :=
  w ← load 8 m off; store 8 m off (u64 (f w)).

(** What a store leaves untouched, and what its callers rely on. *)
Record same_shape (m m' : mem) : Prop := {
  shape_len : length m' = length m;
  shape_wf : wf_mem m -> wf_mem m';
}.

Lemma same_shape_refl m : same_shape m m.
Proof. by split. Qed.

Lemma same_shape_trans m1 m2 m3 : same_shape m1 m2 -> same_shape m2 m3 -> same_shape m1 m3.
Proof. intros [] []. split; [congruence|auto]. Qed.

#[export] Hint Resolve same_shape_refl : greko.

Lemma word_rmw_spec f off m (g : Z -> bool -> bool) :
  wf_mem m -> 0 <= off -> off + 8 <= Z.of_nat (length m) ->
  (forall w j, 0 <= j < 64 -> Z.testbit (f w) j = g j (Z.testbit w j)) ->
  exists m', word_rmw f off m = Some m' /\ same_shape m m' /\
    forall k, mem_bit m' k =
      if (8 * off <=? k) && (k <? 8 * off + 64) then g (k - 8 * off) (mem_bit m k)
      else mem_bit m k.
Proof.
  intros Hwf Hoff Hlen Hf.
  destruct (load_Some 8 m off) as [w Hw]; [lia..|].
  destruct (store_Some 8 m off (u64 (f w))) as [m' Hm']; [lia..|].
  exists m'. unfold word_rmw. rewrite Hw. split; [done|]. split.
  { split; [by eapply store_length|by intros; eapply store_wf]. }
  intros k. rewrite (store_bit _ _ _ _ _ _ Hm').
  replace (8 * (off + Z.of_nat 8)) with (8 * off + 64) by lia.
  destruct ((8 * off <=? k) && (k <? 8 * off + 64)) eqn:E; [|done]. bool_to_prop.
  unfold u64. rewrite Z.mod_pow2_bits_low by lia. rewrite Hf by lia. f_equal.
  rewrite (load_bit _ _ _ _ _ Hwf Hw) by lia.
  replace (k - 8 * off <? 8 * Z.of_nat 8) with true by bool_solve.
  cbn [andb]. f_equal. lia.
Qed.

Lemma testbit_shiftl1 t j : 0 <= t -> 0 <= j -> Z.testbit (Z.shiftl 1 t) j = (j =? t).
Proof.
  intros. rewrite Z.shiftl_spec by lia. destruct (Z.eqb_spec j t) as [->|].
  - by rewrite Z.sub_diag.
  - destruct (Z.ltb_spec j t); [by rewrite Z.testbit_neg_r by lia|].
    replace 1 with (Z.ones 1) by done. apply Z.ones_spec_high. lia.
Qed.

(** [*var |= 1UL << (num % 64)] and [*var &= ~(1UL << (num % 64))] on the word
    [num / 64] of the array at [off] change exactly the bit [num]. *)
Lemma word_set_bit_spec off num m :
  wf_mem m -> 0 <= off -> 0 <= num -> off + 8 * (num / 64) + 8 <= Z.of_nat (length m) ->
  exists m', word_rmw (fun w => Z.lor w (Z.shiftl 1 (num mod 64))) (off + 8 * (num / 64)) m = Some m' /\
    same_shape m m' /\
    forall k, mem_bit m' k = (k =? 8 * off + num) || mem_bit m k.
Proof.
  intros. destruct (word_rmw_spec (fun w => Z.lor w (Z.shiftl 1 (num mod 64)))
    (off + 8 * (num / 64)) m (fun j b => b || (j =? num mod 64))) as (m' & E & Hs & Hb); [done|lia..| |].
  - intros w j Hj. rewrite Z.lor_spec, testbit_shiftl1; [done|lia..].
  - exists m'. split; [done|]. split; [done|]. intros k. rewrite Hb.
    destruct (Z.eqb_spec k (8 * off + num)) as [->|].
    + replace (_ && _) with true by bool_solve.
      replace (_ =? _) with true by bool_solve. by rewrite orb_true_r.
    + destruct (_ && _) eqn:E2; [bool_to_prop|done].
      replace (_ =? _) with false by bool_solve. by rewrite orb_false_r.
Qed.

Lemma word_clear_bit_spec off num m :
  wf_mem m -> 0 <= off -> 0 <= num -> off + 8 * (num / 64) + 8 <= Z.of_nat (length m) ->
  exists m', word_rmw (fun w => Z.land w (Z.lnot (Z.shiftl 1 (num mod 64)))) (off + 8 * (num / 64)) m = Some m' /\
    same_shape m m' /\
    forall k, mem_bit m' k = negb (k =? 8 * off + num) && mem_bit m k.
Proof.
  intros. destruct (word_rmw_spec (fun w => Z.land w (Z.lnot (Z.shiftl 1 (num mod 64))))
    (off + 8 * (num / 64)) m (fun j b => b && negb (j =? num mod 64))) as (m' & E & Hs & Hb); [done|lia..| |].
  - intros w j Hj. rewrite Z.land_spec, Z.lnot_spec, testbit_shiftl1; [done|lia..].
  - exists m'. split; [done|]. split; [done|]. intros k. rewrite Hb.
    destruct (Z.eqb_spec k (8 * off + num)) as [->|].
    + replace (_ && _) with true by bool_solve.
      replace (_ =? _) with true by bool_solve. by rewrite andb_false_r.
    + destruct (_ && _) eqn:E2; [bool_to_prop|done].
      replace (_ =? _) with false by bool_solve. by rewrite andb_true_r.
Qed.

(** ** Words inside a buffer *)
Lemma le_value_le_bytes n v : le_value (le_bytes n v) = v mod 2 ^ (8 * Z.of_nat n).
Proof.
  apply Z.bits_inj'. intros k Hk. rewrite le_value_testbit by (done || apply wf_le_bytes). rewrite le_bytes_bit.
  destruct (Z.ltb_spec k (8 * Z.of_nat n)).
  - rewrite Z.mod_pow2_bits_low by lia. by replace (0 <=? k) with true by bool_solve.
  - rewrite Z.mod_pow2_bits_high by lia. by replace (_ && _) with false by bool_solve.
Qed.

(** A word in the middle of a buffer. *)
Lemma load_app n l1 v l2 off :
  off = Z.of_nat (length l1) -> load n (l1 ++ le_bytes n v ++ l2) off = Some (v mod 2 ^ (8 * Z.of_nat n)).
Proof.
  intros ->. unfold load. replace (in_buffer n _ _) with true.
  2:{ symmetry. apply in_buffer_spec. rewrite !length_app, length_le_bytes. lia. }
  f_equal. rewrite Nat2Z.id, drop_app_length, take_app_le, take_ge by (rewrite length_le_bytes; lia). apply le_value_le_bytes.
Qed.
