(* ===== verification/KernelState.v ===== *)
(** * State of the kernel module

    The globals of kernel/atdr_linux: the [IOCTL] request block, the vmalloc'ed
    bitmap areas, the devices, the heap of [struct ebdr_bitmap] objects (the
    global [bitmap] and [device[i].bitmap] alias the same object) and a trace
    of the calls into the block layer.  Services of the kernel proper are
    parameters: the answers of one system call are the record [kenv], and
    [__set_bit] is the class [KBitops]. *)
From S2P Require Import Prelude Memory.

(** ** Constants *)
Definition MAX_MINOR : Z := 64.
Definition MAX_EBDR_DEVICES : Z := 10.
Definition EBDR_MAJOR : Z := 187.
Definition MEMCTL_MAJOR : Z := 188.
Definition DISK_NAME : Z := 64.
Definition KERNEL : Z := 0.
Definition USER : Z := 1.
Definition B_ALLOCATED : Z := 2.
Definition MEMCTL_DEV_REG_ERROR : Z := 2.
Definition ENOMEM : Z := 12.
Definition EFAULT : Z := 14.

Inductive ebdr_ioctl_cmds :=
  | EBDRCTL_DEV_CREATE
  | EBDRCTL_BLKDEV_CREATE
  | EBDRCTL_BLKDEV_ATTACH
  | EBDRCTL_BLKDEV_DESTROY
  | EBDRCTL_DEV_DESTROY
  | EBDRCTL_MEMCTL_CREATE
  | EBDRCTL_SET_GRAIN_SIZE
  | EBDRCTL_SET_BITMAP_SIZE
  | EBDR_FLIP_BITMAP_AREA
  | EBDRCTL_GET_GRAIN_SIZE
  | EBDRCTL_GET_USER
  | EBDRCTL_BLKDEV_SEARCH.

(** [IOCTL]: the request block shared with the daemon; [src_disk] is the raw
    64-byte buffer. *)
Record IOCTL := mk_IOCTL {
  src_disk : mem;
  u_grain_size : Z;
  u_bitmap_size : Z;
  io_bmap_user : Z;
  io_bmap_ver : Z;
  io_index : Z;
}.

#[export] Instance eta_IOCTL : Settable IOCTL := fun r =>
  mk_IOCTL (src_disk r) (u_grain_size r) (u_bitmap_size r) (io_bmap_user r) (io_bmap_ver r) (io_index r).
#[export] Instance zeroed_IOCTL : Zeroed IOCTL := mk_IOCTL (replicate 64 0) 0 0 0 0 0.

(** A [char *] into the vmalloc area of a minor. *)
Record kptr := mk_kptr { kp_blk : Z; kp_off : Z }.

Record ebdr_bitmap := mk_bitmap {
  kb_area : option kptr;
  kb_size : Z;
  kb_grain_size : Z;
  kb_version : Z;
  kb_state : Z;
  kb_user : Z;
  kb_device : Z;
}.

#[export] Instance eta_bitmap : Settable ebdr_bitmap := fun r =>
  mk_bitmap (kb_area r) (kb_size r) (kb_grain_size r) (kb_version r) (kb_state r) (kb_user r) (kb_device r).

Record ebdr_backing_dev := mk_backing_dev { backing_bdev : option Z; known_size : Z }.
#[export] Instance eta_backing_dev : Settable ebdr_backing_dev := fun r =>
  mk_backing_dev (backing_bdev r) (known_size r).
#[export] Instance zeroed_backing_dev : Zeroed ebdr_backing_dev := mk_backing_dev None 0.

(** [this_bdev] keeps the [i_size] of the inode of the virtual device, and
    [ldev] the index of the entry of [bd_dev] it points to. *)
Record ebdr_device := mk_device {
  dev_disk_name : mem;
  dev_minor : Z;
  dev_vnr : Z;
  dev_bitmap : option Z;
  dev_ldev : option Z;
  dev_rq_queue : bool;
  dev_vdisk : option Z;
  dev_this_bdev : option Z;
}.

#[export] Instance eta_device : Settable ebdr_device := fun r =>
  mk_device (dev_disk_name r) (dev_minor r) (dev_vnr r) (dev_bitmap r) (dev_ldev r)
    (dev_rq_queue r) (dev_vdisk r) (dev_this_bdev r).
#[export] Instance zeroed_device : Zeroed ebdr_device :=
  mk_device (replicate 64 0) 0 0 None None false None None.

(** The part of [struct bio] the module reads. *)
Record bio := mk_bio { bi_sector : Z; bi_size : Z; bi_write : bool; bi_data : list Z }.

(** Calls into the block layer and the allocator, in program order. *)
Inductive kevent :=
  | EvSubmit (bdev : Z) (b : bio)
  | EvPutDisk (d : Z)
  | EvDelGendisk (d : Z)
  | EvBlkdevPut (bdev : Z)
  | EvBdput (d : Z)
  | EvCleanupQueue (d : Z)
  | EvVfree (d : Z)
  | EvUnregister (d : Z).

Record kstate := mk_kstate {
  k_ioctl_obj : IOCTL;
  vmalloc_area : gmap Z mem;
  vmalloc_area_sz : gmap Z Z;
  minor : Z;
  device : gmap Z ebdr_device;
  bitmaps : gmap Z ebdr_bitmap;
  bitmap : option Z;
  next_bitmap : Z;
  blkdev : gmap Z (option Z);
  bd_dev : gmap Z ebdr_backing_dev;
  grain_size : Z;
  g_u_grain_size : Z;
  memctl_dev : gmap Z bool;
  kevents : list kevent;
}.

#[export] Instance eta_kstate : Settable kstate := fun r =>
  mk_kstate (k_ioctl_obj r) (vmalloc_area r) (vmalloc_area_sz r) (minor r) (device r) (bitmaps r)
    (bitmap r) (next_bitmap r) (blkdev r) (bd_dev r) (grain_size r) (g_u_grain_size r)
    (memctl_dev r) (kevents r).

(** The module just loaded ([int minor = 1]). *)
Definition kinit : kstate :=
  mk_kstate zeroed ∅ ∅ 1 ∅ ∅ None 0 ∅ ∅ 0 0 ∅ [].

Definition kemit (e : kevent) (s : kstate) : kstate := s <| kevents ::= fun l => l ++ [e] |>.

(** The answers of the kernel services used by one system call. *)
Record kenv := mk_kenv {
  env_copy_from_user : bool;
  env_copy_to_user : bool;
  env_kzalloc : bool;
  env_vmalloc_user : Z -> option mem;
  env_class_create : bool;
  env_blk_alloc_queue : bool;
  env_alloc_disk : bool;
  env_bdget : bool;
  env_blkdev_get_by_path : mem -> option Z;
  env_i_size : Z -> Z;
}.

(** [__set_bit(nr, addr)] of <linux/bitops.h>, on the array that starts at
    byte [off] of a buffer. *)
Class KBitops := kset_bit : Z -> Z -> mem -> option mem.

(** What its documentation says: bit [nr] of the array of [unsigned long] is
    set, nothing else changes. *)
Class KBitopsLaws `{KBitops} : Prop :=
  kset_bit_spec : forall nr off m,
    wf_mem m -> 0 <= off -> 0 <= nr -> off + 8 * (nr / 64) + 8 <= Z.of_nat (length m) ->
    exists m', kset_bit nr off m = Some m' /\ same_shape m m' /\
      forall k, mem_bit m' k = (k =? 8 * off + nr) || mem_bit m k.

(** The little-endian 64-bit implementation. *)
Definition x86_bitops : KBitops := fun nr off m =>
  word_rmw (fun w => Z.lor w (Z.shiftl 1 (nr mod 64))) (off + 8 * (nr / 64)) m.

Lemma x86_bitops_laws : @KBitopsLaws x86_bitops.
Proof. intros nr off m **. unfold kset_bit, x86_bitops. by apply word_set_bit_spec. Qed.

(** ** Access paths *)
Definition get_bmap (d : Z) (s : kstate) : option ebdr_bitmap :=
  b ← dev_bitmap (aget (device s) d); bitmaps s !! b.

Definition upd_bmap (d : Z) (f : ebdr_bitmap -> ebdr_bitmap) (s : kstate) : option kstate :=
  b ← dev_bitmap (aget (device s) d);
  bm ← bitmaps s !! b;
  Some (s <| bitmaps ::= fun h => <[b := f bm]> h |>).

(** Run a memory operation on the block a pointer points into. *)
Definition with_block (blk : Z) (f : mem -> option mem) (s : kstate) : option kstate :=
  m ← vmalloc_area s !! blk;
  m' ← f m;
  Some (s <| vmalloc_area ::= fun a => <[blk := m']> a |>).
