(* ===== verification/KBitmap.v ===== *)
(** * kernel/atdr_linux/atdr_bitmap.c: the change-tracking bitmap

    Every write that passes through the virtual device sets the bits of the
    grains it touches.  The operations come in two layers: the memory layer
    works on the bytes of one vmalloc area ([base] is the offset the C pointer
    [bitmap_area] has in it), and the functions of the source, which follow
    [device->bitmap->bitmap_area] through the kernel state. *)
From S2P Require Import Prelude Memory KernelState.

(** ** Constants of atdr_bitmap.h and atdr_memctl.h on x86-64 *)
Definition BITS_PER_LONG : Z := 64.
Definition NUM_BPL : Z := 6.
Definition PAGE_SHIFT : Z := 12.
Definition PAGE_SIZE : Z := Z.shiftl 1 PAGE_SHIFT.
Definition NUM_BITS_PER_PAGE : Z := Z.shiftl 1 (PAGE_SHIFT + 3).
Definition NUM_BITS_PER_PAGE_MASK : Z := NUM_BITS_PER_PAGE - 1.
Definition NUM_WORDS_PER_PAGE : Z := Z.shiftr PAGE_SIZE (NUM_BPL - 3).
Definition PLKT_MAX_KMALLOC_BYTES : Z := 4 * 4096.
Definition BM_RESET_BITS : Z := 0.
Definition BM_SET_BITS : Z := 1.

Definition NEXT_LONG_BOUNDARY (val : Z) : Z :=
  Z.land (u64 (val + BITS_PER_LONG - 1)) (u64 (Z.lnot (BITS_PER_LONG - 1))).

(** ** Memory layer *)
Definition ebdr_bm_bit_to_page (bnum : Z) : Z := i32 (Z.shiftr bnum (PAGE_SHIFT + 3)).

Definition ebdr_get_page_ptr (bitmap : Z) (pnum : Z) : option Z :=
  if PLKT_MAX_KMALLOC_BYTES <? u64 (pnum * NUM_BITS_PER_PAGE) / 8
  then None
  else Some (bitmap + u64 (pnum * NUM_BITS_PER_PAGE) / 8).

Definition ebdr_bm_set_words (bmap pno start fin : Z) (m : mem) : option (Z * mem) :=
  match ebdr_get_page_ptr bmap pno with
  | None => Some (- EFAULT, m)
  | Some padd =>
      m' ← iter_up (Z.to_nat (fin - start)) start
             (fun i m => store 8 m (padd + 8 * i) (u64 (Z.lnot 0))) m;
      Some (0, m')
  end.

Definition ebdr_bm_set_bit2 (num : Z) (arg : option Z) (m : mem) : option (Z * mem) :=
  match arg with
  | None => Some (- EFAULT, m)
  | Some a =>
      m' ← word_rmw (fun var => Z.lor var (Z.shiftl 1 (num mod BITS_PER_LONG)))
             (a + 8 * (num / BITS_PER_LONG)) m;
      Some (0, m')
  end.

Definition ebdr_bm_clear_bit2 (num : Z) (arg : option Z) (m : mem) : option (Z * mem) :=
  match arg with
  | None => Some (- EFAULT, m)
  | Some a =>
      m' ← word_rmw (fun var => Z.land var (Z.lnot (Z.shiftl 1 (num mod BITS_PER_LONG))))
             (a + 8 * (num / BITS_PER_LONG)) m;
      Some (0, m')
  end.

(** One round of the loop of [ebdr_bm_change_bits]: the locals [lpage] and
    [paddr] cache the address of the page the previous bit was in. *)
Definition change_bits_round (base arg : Z) (i : Z) (st : Z * option Z * mem)
    : option (Z * option Z * mem) :=
  let '(lpage, paddr, m) := st in
  let pnum := ebdr_bm_bit_to_page i in
  let paddr' := if lpage =? pnum then paddr else ebdr_get_page_ptr base pnum in
  let op := if arg =? BM_SET_BITS then ebdr_bm_set_bit2 else ebdr_bm_clear_bit2 in
  '(_, m') ← op (Z.land i NUM_BITS_PER_PAGE_MASK) paddr' m;
  Some (pnum, paddr', m').

Definition change_bits_mem (nbits base start fin arg : Z) (m : mem) : option mem :=
  let fin' := if (0 <? nbits) && (nbits <=? fin) then nbits - 1 else fin in
  '(_, _, m') ← iter_up (Z.to_nat (fin' - start + 1)) start (change_bits_round base arg) (-1, None, m);
  Some m'.

(** The loop over the pages [fpage .. lpage-1]: words [fword..] of the first,
    whole pages after it. *)
Definition set_pages (base : Z) (fpage lpage fword : Z) (m : mem) : option (Z * mem) :=
  iter_up (Z.to_nat (lpage - fpage)) fpage
    (fun pnum '(fword, m) =>
       '(_, m') ← ebdr_bm_set_words base pnum fword NUM_WORDS_PER_PAGE m; Some (0, m'))
    (fword, m).

Definition bm_set_bits_mem (nbits base begin fin : Z) (m : mem) : option mem :=
  let delta := 3 * BITS_PER_LONG in
  let b1 := NEXT_LONG_BOUNDARY begin in
  let e1 := Z.land (u64 (fin + 1)) (u64 (Z.lnot (BITS_PER_LONG - 1))) in
  if u64 (fin - begin) <=? delta then change_bits_mem nbits base begin fin BM_SET_BITS m
  else
    m1 ← (if b1 =? 0 then Some m else change_bits_mem nbits base begin (b1 - 1) BM_SET_BITS m);
    let fpage := Z.shiftr b1 (PAGE_SHIFT + 3) in
    let lpage := Z.shiftr e1 (PAGE_SHIFT + 3) in
    let fword := Z.shiftr b1 NUM_BPL mod NUM_WORDS_PER_PAGE in
    '(fword', m2) ← set_pages base fpage lpage fword m1;
    let lword := Z.shiftr e1 NUM_BPL mod NUM_WORDS_PER_PAGE in
    m3 ← (if lword =? 0 then Some m2
          else '(_, m3) ← ebdr_bm_set_words base lpage fword' lword m2; Some m3);
    if e1 <=? fin then change_bits_mem nbits base e1 fin BM_SET_BITS m3 else Some m3.

Definition clear_bmap_mem (nbits base : Z) (m : mem) : option mem :=
  let size := i32 (nbits / 8) in
  iter_up (Z.to_nat (u64 size / 8)) 0 (fun i m => store 8 m (base + 8 * i) 0) m.

Definition clear_bmap_range_mem (nbits base begin fin : Z) (m : mem) : option mem :=
  let size := i32 nbits in
  if u64 size <=? fin then Some m
  else iter_up (Z.to_nat (fin / 8 - begin / 8 + 1)) (begin / 8) (fun i m => store 1 m (base + i) 0) m.

(** [*bmap |= (1 << first)]: an [int] shift, sign-extended to the word. *)
Definition set_bit_mem (base first : Z) (m : mem) : option mem :=
  if inb 32 first then word_rmw (fun w => Z.lor w (u64 (i32 (Z.shiftl 1 first)))) base m else None.

(** [ebdr_find_pos]'s loop: the first position whose grain ends beyond [addr]. *)
Fixpoint find_pos_loop (fuel : nat) (cur num_bits addr sectors : Z) : Z :=
  match fuel with
  | O => u64 (num_bits - 1)
  | S fuel' =>
      if addr <? u64 ((cur + 1) * sectors) then cur
      else find_pos_loop fuel' (cur + 1) num_bits addr sectors
  end.

(** ** The functions of the source *)
Section with_bitops.
Context `{KBitops}.

(** The loop of [ebdr_set_bits] under [bm_lock]. *)
Definition set_bits_mem (base first last : Z) (m : mem) : option mem :=
  iter_up (Z.to_nat (last - first + 1)) first (fun i m => kset_bit i base m) m.

Definition on_area (d : Z) (f : ebdr_bitmap -> Z -> mem -> option mem) (s : kstate) : option kstate :=
  bm ← get_bmap d s;
  p ← kb_area bm;
  with_block (kp_blk p) (f bm (kp_off p)) s.

Definition ebdr_clear_bmap (d : Z) : kstate -> option kstate :=
  on_area d (fun bm base => clear_bmap_mem (kb_size bm) base).

Definition ebdr_clear_bmap_range (d begin fin : Z) : kstate -> option kstate :=
  on_area d (fun bm base => clear_bmap_range_mem (kb_size bm) base begin fin).

Definition ebdr_bm_change_bits (d start fin arg : Z) : kstate -> option kstate :=
  on_area d (fun bm base => change_bits_mem (kb_size bm) base start fin arg).

Definition ebdr_bm_set_bits (d begin fin : Z) : kstate -> option kstate :=
  on_area d (fun bm base => bm_set_bits_mem (kb_size bm) base begin fin).

Definition ebdr_set_bit (d first : Z) : kstate -> option kstate :=
  on_area d (fun _ base => set_bit_mem base first).

(** [first] and [last] are [int] parameters. *)
Definition ebdr_set_bits (d first last : Z) : kstate -> option kstate :=
  on_area d (fun _ base => set_bits_mem base (i32 first) (i32 last)).

Definition ebdr_find_pos (d addr : Z) (s : kstate) : option (Z * kstate) :=
  bm ← get_bmap d s;
  _ ← dev_this_bdev (aget (device s) d);
  let s' := s <| grain_size := kb_grain_size bm |> in
  Some (find_pos_loop (Z.to_nat (kb_size bm)) 0 (kb_size bm) addr (Z.shiftr (kb_grain_size bm) 9), s').

Definition bio_sectors (b : bio) : Z := Z.shiftr (bi_size b) 9.
Definition bio_end_sector (b : bio) : Z := u64 (bi_sector b + bio_sectors b).

Definition ebdr_set_bitmap (d : Z) (b : bio) (s : kstate) : option kstate :=
  let start_addr := bi_sector b in
  let end_addr := bio_end_sector b in
  '(first, s1) ← ebdr_find_pos d start_addr s;
  '(last, s2) ← ebdr_find_pos d end_addr s1;
  ebdr_set_bits d first last s2.

Definition ebdr_write_bitmap_and_sync_disk (d : Z) (s : kstate) : option kstate := Some s.

Definition ebdr_update_bmap_and_sync (d : Z) (b : bio) (s : kstate) : option kstate :=
  s' ← (if bi_write b then ebdr_set_bitmap d b s else Some s);
  ebdr_write_bitmap_and_sync_disk d s'.

(** [ebdr_init_bmap]: the object is filled with the character '0' (0x30)
    before its fields are set, so [bitmap_version] and [bitmap_state] start
    as 0x30303030. *)
Definition char_zero_int : Z := 0x30303030.

Definition ebdr_init_bmap (env : kenv) (d : Z) (s : kstate) : option (Z * kstate) :=
  if env_kzalloc env then
    let id := next_bitmap s in
    let blk := dev_minor (aget (device s) d) in
    let bm := mk_bitmap ((fun _ => mk_kptr blk 0) <$> (vmalloc_area s !! blk))
                (u64 (aget (vmalloc_area_sz s) blk * 8))
                (u_grain_size (k_ioctl_obj s)) char_zero_int char_zero_int KERNEL d in
    let s1 := s <| bitmaps ::= fun h => <[id := bm]> h |> <| next_bitmap := id + 1 |>
                <| bitmap := Some id |>
                <| device ::= aset d (fun x => x <| dev_bitmap := Some id |>) |> in
    s2 ← ebdr_clear_bmap d s1;
    Some (0, s2)
  else Some (- ENOMEM, s <| bitmap := None |>).

Definition ebdr_free_bitmap (d : Z) (s : kstate) : kstate :=
  let h := match dev_bitmap (aget (device s) d) with
           | Some b => delete b (bitmaps s)
           | None => bitmaps s
           end in
  s <| bitmaps := h |> <| device ::= aset d (fun x => x <| dev_bitmap := None |>) |>.
End with_bitops.
