(* ===== verification/KBitmapSpec.v ===== *)
(** * Correctness of the change-tracking bitmap

    Bit-level specifications of the operations of [KBitmap] and the properties
    of the write path: which grains a write marks, that the marking of a range
    word by word agrees with the marking bit by bit, and that every access
    stays inside the bitmap area. *)
From S2P Require Import Prelude Memory KernelState KBitmap.

(** ** Position of a sector *)
Lemma find_pos_loop_spec fuel cur n addr g :
  0 < g -> 0 <= cur -> cur * g <= addr -> cur + Z.of_nat fuel = n -> 0 < n -> n * g < 2 ^ 64 ->
  n < 2 ^ 64 ->
  find_pos_loop fuel cur n addr g = Z.min (addr / g) (n - 1).
Proof.
  intros Hg Hcur Haddr Hfuel Hn Hov Hn64. revert cur Hcur Haddr Hfuel.
  induction fuel as [|fuel IH]; intros cur Hcur Haddr Hfuel; cbn [find_pos_loop].
  - rewrite u64_id by lia. assert (cur <= addr / g) by (apply Z.div_le_lower_bound; lia). lia.
  - rewrite u64_id by nia. destruct (Z.ltb_spec addr ((cur + 1) * g)).
    + assert (addr / g = cur) as -> by (symmetry; apply (Z.div_unique_pos _ _ _ (addr - cur * g)); lia).
      lia.
    + apply IH; lia.
Qed.

(** ** Setting a range, one [__set_bit] at a time *)
Definition in_range (a b k : Z) : bool := (a <=? k) && (k <=? b).

Lemma set_bits_mem_spec `{KBitopsLaws} base first last m :
  wf_mem m -> 0 <= base -> 0 <= first -> 0 <= last ->
  base + 8 * (last / 64) + 8 <= Z.of_nat (length m) ->
  exists m', set_bits_mem base first last m = Some m' /\ same_shape m m' /\
    forall k, mem_bit m' k = in_range (8 * base + first) (8 * base + last) k || mem_bit m k.
Proof.
  intros Hwf Hbase Hfirst Hlast Hlen. unfold set_bits_mem.
  destruct (Z.le_gt_cases first last) as [Hle|Hgt].
  2:{ exists m. replace (Z.to_nat _) with O by lia. split; [done|]. split; [apply same_shape_refl|].
      intros k. unfold in_range. by replace (_ && _) with false by bool_solve. }
  destruct (iter_up_inv
    (fun i m' => same_shape m m' /\
       forall k, mem_bit m' k = in_range (8 * base + first) (8 * base + i - 1) k || mem_bit m k)
    (fun i m => kset_bit i base m) (Z.to_nat (last - first + 1)) first m) as (m' & E & Hs & Hb).
  - split; [apply same_shape_refl|]. intros k. unfold in_range.
    by replace (_ && _) with false by bool_solve.
  - intros i m1 Hi [Hs1 Hb1].
    destruct (kset_bit_spec i base m1) as (m2 & E2 & Hs2 & Hb2); [by apply Hs1|lia..| |].
    { rewrite (shape_len _ _ Hs1). lia. }
    exists m2. split; [done|]. split; [by eapply same_shape_trans|].
    intros k. rewrite Hb2, Hb1. unfold in_range. destruct (mem_bit m k); bool_solve.
  - exists m'. split; [done|]. split; [done|]. intros k. rewrite Hb. do 2 f_equal. lia.
Qed.

(** ** Bit-by-bit change of a range through the page cache *)

(** [ebdr_get_page_ptr] hands out pages 0 to 4 of the area. *)
Definition page_limit : Z := 5 * NUM_BITS_PER_PAGE.

Lemma get_page_ptr_spec base p :
  0 <= p < 2 ^ 31 ->
  ebdr_get_page_ptr base p = if p <=? 4 then Some (base + 4096 * p) else None.
Proof.
  intros. unfold ebdr_get_page_ptr, PLKT_MAX_KMALLOC_BYTES, NUM_BITS_PER_PAGE, PAGE_SHIFT.
  change (Z.shiftl 1 (12 + 3)) with 32768. rewrite u64_id by lia.
  destruct (Z.ltb_spec (4 * 4096) (p * 32768 / 8)); destruct (Z.leb_spec p 4); try lia; [done|].
  f_equal. lia.
Qed.

Lemma bit_to_page_spec i : 0 <= i < 2 ^ 46 -> ebdr_bm_bit_to_page i = i / 32768.
Proof.
  intros. unfold ebdr_bm_bit_to_page, PAGE_SHIFT. rewrite Z.shiftr_div_pow2 by lia.
  change (2 ^ (12 + 3)) with 32768. apply i32_id. lia.
Qed.

Lemma land_page_mask i : Z.land i NUM_BITS_PER_PAGE_MASK = i mod 32768.
Proof. change NUM_BITS_PER_PAGE_MASK with (Z.ones 15). by rewrite Z.land_ones by lia. Qed.

Definition changed (base arg start fin : Z) (m : mem) (k : Z) : bool :=
  if in_range (8 * base + start) (8 * base + fin) k && (k <? 8 * base + page_limit)
  then arg =? BM_SET_BITS else mem_bit m k.

Lemma change_bits_round_spec base arg i lpage paddr m :
  wf_mem m -> 0 <= base -> 0 <= i < 2 ^ 46 ->
  (i < page_limit -> base + 8 * (i / 64) + 8 <= Z.of_nat (length m)) ->
  (lpage = -1 \/ 0 <= lpage < 2 ^ 31 /\ paddr = ebdr_get_page_ptr base lpage) ->
  exists m', change_bits_round base arg i (lpage, paddr, m)
      = Some (i / 32768, ebdr_get_page_ptr base (i / 32768), m') /\
    same_shape m m' /\ forall k, mem_bit m' k = changed base arg i i m k.
Proof.
  intros Hwf Hbase Hi Hlen Hcache. unfold change_bits_round.
  rewrite bit_to_page_spec by done. rewrite land_page_mask.
  set (p := i / 32768).
  replace (if lpage =? p then paddr else ebdr_get_page_ptr base p) with (ebdr_get_page_ptr base p)
    by (destruct (Z.eqb_spec lpage p) as [->|]; [destruct Hcache as [?|[_ ->]]; [lia|done]|done]).
  rewrite get_page_ptr_spec by lia. unfold changed, in_range, page_limit in *.
  change NUM_BITS_PER_PAGE with 32768 in *.
  destruct (Z.leb_spec p 4).
  - replace (base + 8 * (i / 64)) with (base + 4096 * p + 8 * (i mod 32768 / 64)) in Hlen by lia.
    destruct (Z.eqb_spec arg BM_SET_BITS) as [->|Harg]; cbn [ebdr_bm_set_bit2 ebdr_bm_clear_bit2].
    + destruct (word_set_bit_spec (base + 4096 * p) (i mod 32768) m) as (m' & E & Hs & Hb); [done|lia..|].
      unfold BITS_PER_LONG. rewrite E. cbn. exists m'. split; [done|]. split; [done|].
      intros k. rewrite Hb. destruct (mem_bit m k); bool_solve.
    + destruct (word_clear_bit_spec (base + 4096 * p) (i mod 32768) m) as (m' & E & Hs & Hb); [done|lia..|].
      unfold BITS_PER_LONG. rewrite E. cbn. exists m'. split; [done|]. split; [done|].
      intros k. rewrite Hb. destruct (mem_bit m k); bool_solve.
  - exists m. split; [by destruct (arg =? BM_SET_BITS)|]. split; [apply same_shape_refl|].
    intros k. replace (_ && _) with false by bool_solve. done.
Qed.

Lemma change_bits_mem_spec nbits base start fin arg m :
  wf_mem m -> 0 <= base -> 0 <= start -> fin < nbits ->
  fin < 2 ^ 46 ->
  (Z.min fin (page_limit - 1) < start \/
   base + 8 * (Z.min fin (page_limit - 1) / 64) + 8 <= Z.of_nat (length m)) ->
  exists m', change_bits_mem nbits base start fin arg m = Some m' /\ same_shape m m' /\
    forall k, mem_bit m' k = changed base arg start fin m k.
Proof.
  intros Hwf Hbase Hstart Hfin Hb46 Hlen. unfold change_bits_mem.
  replace ((0 <? nbits) && (nbits <=? fin)) with false by (symmetry; bool_solve).
  destruct (Z.le_gt_cases start fin) as [Hle|Hgt].
  2:{ exists m. replace (Z.to_nat _) with O by lia. split; [done|]. split; [apply same_shape_refl|].
      intros k. unfold changed, in_range. by replace (_ && _) with false by bool_solve. }
  destruct (iter_up_inv
    (fun i '(lpage, paddr, m') =>
       (lpage = -1 \/ 0 <= lpage < 2 ^ 31 /\ paddr = ebdr_get_page_ptr base lpage) /\
       same_shape m m' /\ forall k, mem_bit m' k = changed base arg start (i - 1) m k)
    (change_bits_round base arg) (Z.to_nat (fin - start + 1)) start (-1, None, m))
    as ([[lp pa] m'] & E & _ & Hs & Hb).
  - split; [by left|]. split; [apply same_shape_refl|]. intros k.
    unfold changed, in_range. by replace (_ && _) with false by bool_solve.
  - intros i [[lp pa] m1] Hi (Hc & Hs1 & Hb1).
    destruct (change_bits_round_spec base arg i lp pa m1) as (m2 & E2 & Hs2 & Hb2);
      [by apply Hs1|lia..| |done|].
    { rewrite (shape_len _ _ Hs1). unfold page_limit in *. change NUM_BITS_PER_PAGE with 32768 in *. lia. }
    rewrite E2. eexists. split; [done|]. split; [right; split; [lia|done]|].
    split; [by eapply same_shape_trans|]. intros k. rewrite Hb2. unfold changed at 1. rewrite Hb1.
    unfold changed, in_range, page_limit. change NUM_BITS_PER_PAGE with 32768.
    destruct (mem_bit m k), (arg =? BM_SET_BITS); bool_solve.
  - rewrite E. cbn. exists m'. split; [done|]. split; [done|]. intros k. rewrite Hb.
    by replace (start + Z.of_nat (Z.to_nat (fin - start + 1)) - 1) with fin by lia.
Qed.

(** ** Word-by-word setting of a range *)

(** [m'] is [m] with the bits [a .. b-1] of the bitmap at [base] set, up to
    the last page [ebdr_get_page_ptr] reaches. *)
Definition sets (base a b : Z) (m m' : mem) : Prop :=
  same_shape m m' /\
  forall k, mem_bit m' k =
    ((8 * base + a <=? k) && (k <? 8 * base + b) && (k <? 8 * base + page_limit)) || mem_bit m k.

Lemma sets_refl base a b m : b <= a -> sets base a b m m.
Proof.
  intros. split; [apply same_shape_refl|]. intros k.
  replace ((8 * base + a <=? k) && (k <? 8 * base + b)) with false by bool_solve. done.
Qed.

Lemma sets_trans base a b c m1 m2 m3 :
  a <= b <= c -> sets base a b m1 m2 -> sets base b c m2 m3 -> sets base a c m1 m3.
Proof.
  intros ? [Hs1 Hb1] [Hs2 Hb2]. split; [by eapply same_shape_trans|]. intros k.
  rewrite Hb2, Hb1. destruct (mem_bit m1 k); bool_solve.
Qed.

Lemma sets_unique base a b m m1 m2 : wf_mem m -> sets base a b m m1 -> sets base a b m m2 -> m1 = m2.
Proof.
  intros Hwf [Hs1 Hb1] [Hs2 Hb2]. apply mem_ext.
  - by apply Hs1.
  - by apply Hs2.
  - by rewrite (shape_len _ _ Hs1), (shape_len _ _ Hs2).
  - intros k. by rewrite Hb1, Hb2.
Qed.

Lemma store_ones_spec off m :
  0 <= off -> off + 8 <= Z.of_nat (length m) ->
  exists m', store 8 m off (u64 (Z.lnot 0)) = Some m' /\ same_shape m m' /\
    forall k, mem_bit m' k = ((8 * off <=? k) && (k <? 8 * off + 64)) || mem_bit m k.
Proof.
  intros. destruct (store_Some 8 m off (u64 (Z.lnot 0))) as [m' E]; [lia..|].
  exists m'. split; [done|]. split.
  { split; [by eapply store_length|by intros; eapply store_wf]. }
  intros k. rewrite (store_bit _ _ _ _ _ _ E).
  replace (8 * (off + Z.of_nat 8)) with (8 * off + 64) by lia.
  destruct ((8 * off <=? k) && (k <? 8 * off + 64)) eqn:E2; [|done]. bool_to_prop.
  change (u64 (Z.lnot 0)) with (Z.ones 64). by rewrite Z.ones_spec_low by lia.
Qed.

Lemma set_words_spec base p a b m :
  wf_mem m -> 0 <= base -> 0 <= p < 2 ^ 31 -> 0 <= a <= b -> b <= 512 ->
  (p <= 4 -> a < b -> base + 4096 * p + 8 * b <= Z.of_nat (length m)) ->
  exists r m', ebdr_bm_set_words base p a b m = Some (r, m') /\
    sets base (32768 * p + 64 * a) (32768 * p + 64 * b) m m'.
Proof.
  intros Hwf Hbase Hp Hab Hb Hlen. unfold ebdr_bm_set_words. rewrite get_page_ptr_spec by done.
  destruct (Z.leb_spec p 4).
  - destruct (iter_up_inv
      (fun i m' => sets base (32768 * p + 64 * a) (32768 * p + 64 * i) m m')
      (fun i m => store 8 m (base + 4096 * p + 8 * i) (u64 (Z.lnot 0))) (Z.to_nat (b - a)) a m)
      as (m' & E & Hm').
    + apply sets_refl. lia.
    + intros i m1 Hi Hm1. destruct Hm1 as [Hs1 Hb1].
      destruct (store_ones_spec (base + 4096 * p + 8 * i) m1) as (m2 & E2 & Hs2 & Hb2); [lia| |].
      { rewrite (shape_len _ _ Hs1). lia. }
      exists m2. split; [done|]. split; [by eapply same_shape_trans|]. intros k. rewrite Hb2, Hb1.
      unfold page_limit. change NUM_BITS_PER_PAGE with 32768. destruct (mem_bit m k); bool_solve.
    + rewrite E. cbn. do 2 eexists. split; [done|].
      by replace (a + Z.of_nat (Z.to_nat (b - a))) with b in Hm' by lia.
  - do 2 eexists. split; [done|]. split; [apply same_shape_refl|]. intros k.
    unfold page_limit. change NUM_BITS_PER_PAGE with 32768.
    replace (_ && (k <? 8 * base + 5 * 32768)) with false by bool_solve. done.
Qed.

Lemma set_pages_spec base fpage lpage fword m :
  wf_mem m -> 0 <= base -> 0 <= fpage -> lpage < 2 ^ 31 -> 0 <= fword < 512 ->
  (fpage < lpage -> base + 4096 * Z.min lpage 5 <= Z.of_nat (length m)) ->
  exists fword' m', set_pages base fpage lpage fword m = Some (fword', m') /\
    fword' = (if fpage <? lpage then 0 else fword) /\
    sets base (32768 * fpage + 64 * fword) (32768 * Z.max fpage lpage + 64 * fword') m m'.
Proof.
  intros Hwf Hbase Hfp Hlp Hfw Hlen. unfold set_pages.
  destruct (iter_up_inv
    (fun i '(fw, m') => fw = (if fpage <? i then 0 else fword) /\
       sets base (32768 * fpage + 64 * fword) (32768 * i + 64 * fw) m m')
    (fun pnum '(fword, m) =>
       '(_, m') ← ebdr_bm_set_words base pnum fword NUM_WORDS_PER_PAGE m; Some (0, m'))
    (Z.to_nat (lpage - fpage)) fpage (fword, m)) as ([fw m'] & E & -> & Hm').
  - rewrite Z.ltb_irrefl. split; [done|]. apply sets_refl. lia.
  - intros i [fw m1] Hi [Hfw1 Hm1].
    destruct (set_words_spec base i fw NUM_WORDS_PER_PAGE m1) as (r & m2 & E2 & Hm2).
    + by apply Hm1.
    + done.
    + lia.
    + change NUM_WORDS_PER_PAGE with 512. subst fw. destruct (Z.ltb_spec fpage i); lia.
    + done.
    + intros. rewrite (shape_len _ _ (proj1 Hm1)). change NUM_WORDS_PER_PAGE with 512. lia.
    + rewrite E2. cbn. eexists. split; [done|]. cbn beta iota.
      replace (fpage <? i + 1) with true by (symmetry; bool_solve). split; [done|].
      change NUM_WORDS_PER_PAGE with 512 in Hm2.
      replace (32768 * (i + 1) + 64 * 0) with (32768 * i + 64 * 512) by lia.
      eapply sets_trans; [|exact Hm1|exact Hm2]. subst fw. destruct (Z.ltb_spec fpage i); lia.
  - do 2 eexists. split; [done|].
    destruct (Z.ltb_spec fpage lpage).
    + replace (fpage + Z.of_nat (Z.to_nat (lpage - fpage))) with lpage in * by lia.
      replace (fpage <? lpage) with true in * by (symmetry; bool_solve).
      split; [done|]. by replace (Z.max fpage lpage) with lpage by lia.
    + replace (fpage + Z.of_nat (Z.to_nat (lpage - fpage))) with fpage in * by lia.
      rewrite Z.ltb_irrefl in *. split; [done|]. by replace (Z.max fpage lpage) with fpage by lia.
Qed.

Lemma land_long_mask x : 0 <= x < 2 ^ 64 -> Z.land x (u64 (Z.lnot (BITS_PER_LONG - 1))) = 64 * (x / 64).
Proof.
  intros. change (u64 (Z.lnot (BITS_PER_LONG - 1))) with (Z.land (Z.lnot (Z.ones 6)) (Z.ones 64)).
  rewrite (Z.land_comm (Z.lnot _)), Z.land_assoc, Z.land_ones by lia.
  rewrite Z.mod_small by lia. rewrite <- Z.ldiff_land, Z.ldiff_ones_r by lia.
  rewrite Z.shiftr_div_pow2, Z.shiftl_mul_pow2 by lia. change (2 ^ 6) with 64. lia.
Qed.

Lemma change_bits_sets nbits base start fin m :
  wf_mem m -> 0 <= base -> 0 <= start -> fin < nbits -> fin < 2 ^ 46 ->
  (Z.min fin (page_limit - 1) < start \/
   base + 8 * (Z.min fin (page_limit - 1) / 64) + 8 <= Z.of_nat (length m)) ->
  exists m', change_bits_mem nbits base start fin BM_SET_BITS m = Some m' /\ sets base start (fin + 1) m m'.
Proof.
  intros. destruct (change_bits_mem_spec nbits base start fin BM_SET_BITS m) as (m' & E & Hs & Hb); [done..|].
  exists m'. split; [done|]. split; [done|]. intros k. rewrite Hb. unfold changed, in_range.
  destruct (mem_bit m k); bool_solve.
Qed.

(** The bits below the first word boundary. *)
Lemma set_head_sets nbits base begin b1 m :
  wf_mem m -> 0 <= base -> 0 <= begin <= b1 -> b1 <= nbits -> b1 <= 2 ^ 46 ->
  base + 8 * (Z.min (b1 - 1) (page_limit - 1) / 64) + 8 <= Z.of_nat (length m) ->
  exists m1, (if b1 =? 0 then Some m else change_bits_mem nbits base begin (b1 - 1) BM_SET_BITS m) = Some m1 /\
    sets base begin b1 m m1.
Proof.
  intros Hwf Hbase Hb Hn H46 Hlen. destruct (Z.eqb_spec b1 0).
  - exists m. split; [done|]. apply sets_refl. lia.
  - destruct (change_bits_sets nbits base begin (b1 - 1) m) as (m1 & E & Hm1); try lia; try done.
    exists m1. split; [done|]. by replace (b1 - 1 + 1) with b1 in Hm1 by lia.
Qed.

(** The words of the last page. *)
Lemma set_last_words_sets base e1 fw m :
  wf_mem m -> 0 <= base -> 0 <= e1 < 2 ^ 46 -> e1 mod 64 = 0 -> 0 <= fw <= e1 / 64 mod 512 ->
  (e1 / 32768 <= 4 -> fw < e1 / 64 mod 512 -> base + 4096 * (e1 / 32768) + 8 * (e1 / 64 mod 512) <= Z.of_nat (length m)) ->
  exists m', (if e1 / 64 mod 512 =? 0 then Some m
      else '(_, m') ← ebdr_bm_set_words base (e1 / 32768) fw (e1 / 64 mod 512) m; Some m') = Some m' /\
    sets base (32768 * (e1 / 32768) + 64 * fw) e1 m m'.
Proof.
  intros Hwf Hbase He Hmod Hfw Hlen. destruct (Z.eqb_spec (e1 / 64 mod 512) 0).
  - exists m. split; [done|]. apply sets_refl. lia.
  - destruct (set_words_spec base (e1 / 32768) fw (e1 / 64 mod 512) m) as (r & m' & -> & Hm'); try done; try lia.
    exists m'. split; [done|]. by replace (32768 * (e1 / 32768) + 64 * (e1 / 64 mod 512)) with e1 in Hm' by lia.
Qed.

Lemma bm_set_bits_sets nbits base begin fin m :
  wf_mem m -> 0 <= base -> 0 <= begin <= fin -> fin < nbits -> fin < 2 ^ 46 - 1 ->
  base + 8 * (Z.min fin (page_limit - 1) / 64) + 8 <= Z.of_nat (length m) ->
  exists m', bm_set_bits_mem nbits base begin fin m = Some m' /\ sets base begin (fin + 1) m m'.
Proof.
  intros Hwf Hbase Hbeg Hfin Hb46 Hlen. unfold bm_set_bits_mem, NEXT_LONG_BOUNDARY.
  rewrite (u64_id (fin - begin)), (u64_id (begin + BITS_PER_LONG - 1)), (u64_id (fin + 1))
    by (unfold BITS_PER_LONG; lia).
  rewrite <- Z.add_sub_assoc. rewrite !land_long_mask by (unfold BITS_PER_LONG; lia).
  destruct (Z.leb_spec (fin - begin) (3 * BITS_PER_LONG)) as [|Hbig].
  { apply change_bits_sets; try lia. done. }
  unfold BITS_PER_LONG in *. unfold page_limit in *. change NUM_BITS_PER_PAGE with 32768 in *.
  set (b1 := 64 * ((begin + (64 - 1)) / 64)). set (e1 := 64 * ((fin + 1) / 64)).
  destruct (set_head_sets nbits base begin b1 m) as (m1 & -> & Hm1); try lia; try done.
  { unfold page_limit. change NUM_BITS_PER_PAGE with 32768. lia. }
  cbn [mbind option_bind].
  rewrite !Z.shiftr_div_pow2 by done. unfold PAGE_SHIFT, NUM_BPL. change NUM_WORDS_PER_PAGE with 512.
  change (2 ^ (12 + 3)) with 32768. change (2 ^ 6) with 64.
  destruct (set_pages_spec base (b1 / 32768) (e1 / 32768) (b1 / 64 mod 512) m1)
    as (fw & m2 & -> & Hfw & Hm2).
  { by apply Hm1. } { done. } { lia. } { lia. } { lia. }
  { intros. rewrite (shape_len _ _ (proj1 Hm1)). lia. }
  cbn [mbind option_bind].
  replace (Z.max (b1 / 32768) (e1 / 32768)) with (e1 / 32768) in Hm2 by lia.
  assert (Hfwle : 0 <= fw <= e1 / 64 mod 512) by (subst fw; destruct (Z.ltb_spec (b1 / 32768) (e1 / 32768)); lia).
  destruct (set_last_words_sets base e1 fw m2) as (m3 & -> & Hm3); try done; try lia.
  { apply Hm2. by apply Hm1. }
  { intros. rewrite (shape_len _ _ (proj1 Hm2)), (shape_len _ _ (proj1 Hm1)). lia. }
  cbn [mbind option_bind].
  replace (32768 * (b1 / 32768) + 64 * (b1 / 64 mod 512)) with b1 in Hm2 by lia.
  assert (H13 : sets base begin e1 m m3).
  { eapply sets_trans; [|exact Hm1|eapply sets_trans; [|exact Hm2|exact Hm3]];
      subst fw; destruct (Z.ltb_spec (b1 / 32768) (e1 / 32768)); lia. }
  destruct (Z.leb_spec e1 fin).
  - destruct (change_bits_sets nbits base e1 fin m3) as (m4 & -> & Hm4); try lia.
    + by apply H13.
    + rewrite (shape_len _ _ (proj1 H13)).
      unfold page_limit. change NUM_BITS_PER_PAGE with 32768. lia.
    + exists m4. split; [done|]. eapply sets_trans; [|exact H13|exact Hm4]. lia.
  - exists m3. split; [done|]. by replace (fin + 1) with e1 by lia.
Qed.
