(* ===== verification/KernelMain.v ===== *)
(** * Devices, requests and ioctls of the kernel module

    kernel/atdr_linux/atdr_device.c, atdr_memctl.c, atdr_req.c and atdr_main.c:
    the life of a device (memory area, control device, bitmap object, block
    device, backing device), the request path of the virtual device and the
    ioctls of /dev/ebdr_base.  An operation returns [None] where the C code
    has undefined behaviour (an index outside an array, a null pointer
    dereference); otherwise its [int] result and the new state. *)
From S2P Require Import Prelude Memory KernelState KBitmap.

Section kernel.
Context `{KBitops}.
Variable env : kenv.

(** ** atdr_memctl.c *)
Definition ebdr_alloc_memory_mmap (mn : Z) (s : kstate) : option (Z * kstate) :=
  if inb MAX_MINOR mn then
    match env_vmalloc_user env (u64 (2 * aget (vmalloc_area_sz s) mn)) with
    | None => Some (- ENOMEM, s <| vmalloc_area ::= delete mn |>)
    | Some m => Some (0, s <| vmalloc_area ::= fun a => <[mn := m]> a |>)
    end
  else None.

Definition ebdr_free_vmalloc_area (mn : Z) (s : kstate) : kstate :=
  match vmalloc_area s !! mn with
  | Some _ => kemit (EvVfree mn) s <| vmalloc_area ::= delete mn |>
  | None => s
  end.

(** [register_chrdev] may fail: the failure is only printed. *)
Definition ebdr_register_kernel_memctl_device (mn : Z) (s : kstate) : option (Z * kstate) :=
  if inb MAX_MINOR mn then
    if env_class_create env then Some (0, s <| memctl_dev ::= aset mn (fun _ => true) |>)
    else Some (- ENOMEM, s <| memctl_dev ::= aset mn (fun _ => false) |>)
  else None.

Definition ebdr_dev_ctr_mmap (mn : Z) (s : kstate) : option mem :=
  bm ← get_bmap mn s; vmalloc_area s !! mn.

(** ** atdr_device.c *)
Definition ebdr_get_capacity (bdev : Z) : Z := Z.shiftr (env_i_size env bdev) 9.

Definition ebdr_device_create (mn : Z) (s : kstate) : option (Z * kstate) :=
  if inb MAX_MINOR mn then
    let s1 := s <| device ::= aset mn (fun d => d <| dev_minor := mn |> <| dev_vnr := 10 |>) |> in
    '(_, s2) ← ebdr_init_bmap env mn s1;
    Some (0, s2)
  else None.

Definition ebdr_blkdev_create (mn : Z) (s : kstate) : option (Z * kstate) :=
  if env_blk_alloc_queue env then
    let s1 := s <| device ::= aset mn (fun d => d <| dev_rq_queue := true |>) |> in
    if env_alloc_disk env then
      if env_bdget env then
        Some (0, s1 <| device ::= aset mn (fun d => d <| dev_vdisk := Some 0 |> <| dev_this_bdev := Some 0 |>) |>)
      else None
    else Some (-1, kemit (EvCleanupQueue mn) s1)
  else Some (-1, s).

(** Attaches the disk named in [ioctl_obj]; [known_size] is in sectors and is
    written both to the gendisk and to the [i_size] of the inode. *)
Definition ebdr_device_attach_blkdev (d : Z) (s : kstate) : option (Z * kstate) :=
  let mn := minor s in
  if inb MAX_MINOR mn then
    match env_blkdev_get_by_path env (src_disk (k_ioctl_obj s)) with
    | None => Some (-1, s <| blkdev ::= aset mn (fun _ => None) |>)
    | Some bdev =>
        let ks := ebdr_get_capacity bdev in
        let s1 := s <| blkdev ::= aset mn (fun _ => Some bdev) |>
                    <| bd_dev ::= aset mn (fun _ => mk_backing_dev (Some bdev) ks) |>
                    <| device ::= aset d (fun x => x <| dev_ldev := Some mn |>) |> in
        match dev_this_bdev (aget (device s1) d) with
        | None => None
        | Some _ =>
            Some (0, s1 <| device ::= aset d (fun x => x <| dev_vdisk := Some ks |>
                                                          <| dev_this_bdev := Some ks |>) |>)
        end
    end
  else None.

Definition ebdr_blkdev_destroy (d mn : Z) (s : kstate) : kstate :=
  let s1 := s <| device ::= aset d (fun x => x <| dev_ldev := None |>) |> in
  let s2 := match dev_vdisk (aget (device s1) d) with
            | Some _ => kemit (EvDelGendisk d) (kemit (EvPutDisk d) s1)
                          <| device ::= aset d (fun x => x <| dev_vdisk := None |>) |>
            | None => s1
            end in
  let s3 := match aget (blkdev s2) mn with
            | Some bdev => kemit (EvBlkdevPut bdev) s2
            | None => s2
            end in
  let s4 := match dev_this_bdev (aget (device s3) d) with
            | Some _ => kemit (EvBdput d) s3
            | None => s3
            end in
  kemit (EvCleanupQueue d) s4.

(** [ebdr_device_state]: the create states chain into one another. *)
Definition state_attach (s : kstate) : option (Z * kstate) :=
  '(ret, s1) ← ebdr_device_attach_blkdev (minor s) s;
  if ret <? 0 then Some (ret, ebdr_blkdev_destroy (minor s1) (minor s1) s1) else Some (0, s1).

Definition state_blkdev_create (s : kstate) : option (Z * kstate) :=
  '(ret, s1) ← ebdr_blkdev_create (minor s) s;
  if ret <? 0 then Some (ret, s1) else state_attach s1.

Definition state_create (s : kstate) : option (Z * kstate) :=
  '(ret, s1) ← ebdr_device_create (minor s) s;
  if ret <? 0 then Some (ret, s1) else state_blkdev_create s1.

Definition state_destroy (s : kstate) : kstate :=
  foldl (fun s i => ebdr_blkdev_destroy i i s) s (zseq 1 (minor s - 1)).

(** ** atdr_main.c *)
Definition ebdr_minor_cleanup (mn : Z) (s : kstate) : kstate :=
  let s1 := state_destroy s in
  let s2 := ebdr_free_vmalloc_area mn s1 in
  kemit (EvUnregister mn) s2.

(** EBDRCTL_DEV_CREATE *)
Definition ioctl_dev_create (arg : IOCTL) (s : kstate) : option (Z * kstate) :=
  if negb (env_copy_from_user env) then Some (-1, s) else
  let s0 := s <| k_ioctl_obj := arg |> in
  if negb (inb MAX_MINOR (minor s0)) then None else
  let s1 := s0 <| vmalloc_area_sz ::= aset (minor s0) (fun _ => u_bitmap_size arg) |> in
  '(err, s2) ← ebdr_alloc_memory_mmap (minor s1) s1;
  if negb (err =? 0) then Some (MEMCTL_DEV_REG_ERROR, s2) else
  '(err, s3) ← ebdr_register_kernel_memctl_device (minor s2) s2;
  if negb (err =? 0) then Some (MEMCTL_DEV_REG_ERROR, s3) else
  '(err, s4) ← state_create s3;
  if err <? 0 then Some (MEMCTL_DEV_REG_ERROR, ebdr_minor_cleanup (minor s4) s4) else
  s5 ← upd_bmap (minor s4) (fun b => b <| kb_user := KERNEL |> <| kb_state := B_ALLOCATED |>) s4;
  let s6 := s5 <| device ::= aset (minor s5) (fun d => d <| dev_disk_name := src_disk arg |>) |> in
  Some (0, s6 <| minor ::= Z.succ |>).

(** EBDRCTL_GET_GRAIN_SIZE copies the 8 bytes of the global to the start of
    the user's block. *)
Definition ioctl_get_grain_size (arg : IOCTL) (s : kstate) : option (Z * IOCTL * kstate) :=
  if env_copy_to_user env
  then Some (0, arg <| src_disk ::= fun b => le_bytes 8 (grain_size s) ++ drop 8 b |>, s)
  else Some (-1, arg, s).

(** EBDRCTL_SET_GRAIN_SIZE: the lock taken is that of the device named in the
    request; what is written is the size of the next minor and the object of
    the last device created. *)
Definition ioctl_set_grain_size (arg : IOCTL) (s : kstate) : option (Z * kstate) :=
  if negb (env_copy_from_user env) then Some (-1, s) else
  let s0 := s <| k_ioctl_obj := arg |> in
  if negb (inb MAX_MINOR (io_index arg)) then None else
  _ ← get_bmap (io_index arg) s0;
  if negb (inb MAX_MINOR (minor s0)) then None else
  let s1 := s0 <| g_u_grain_size := u_grain_size arg |>
               <| vmalloc_area_sz ::= aset (minor s0) (fun _ => u_bitmap_size arg) |> in
  b ← bitmap s1;
  bm ← bitmaps s1 !! b;
  Some (0, s1 <| bitmaps ::= fun h =>
    <[b := bm <| kb_grain_size := u_grain_size arg |>
              <| kb_size := u64 (aget (vmalloc_area_sz s1) (minor s1) * 8) |>]> h |>).

(** EBDRCTL_GET_USER *)
Definition ioctl_get_user (arg : IOCTL) (s : kstate) : option (Z * kstate) :=
  if negb (env_copy_from_user env) then Some (-1, s) else
  let s0 := s <| k_ioctl_obj := arg |> in
  if negb (inb MAX_MINOR (io_index arg)) then None else
  bm ← get_bmap (io_index arg) s0;
  p ← kb_area bm;
  m ← vmalloc_area s0 !! kp_blk p;
  _ ← load 8 m (kp_off p);
  Some (kb_user bm, s0).

(** EBDR_FLIP_BITMAP_AREA: the kernel's writes move to the other half. *)
Definition ioctl_flip (arg : IOCTL) (s : kstate) : option (Z * kstate) :=
  if negb (env_copy_from_user env) then Some (-1, s) else
  let s0 := s <| k_ioctl_obj := arg |> in
  let i := io_index arg in
  if negb (inb MAX_MINOR i) then None else
  bm ← get_bmap i s0;
  s1 ← upd_bmap i (fun b =>
    if kb_user b =? USER
    then b <| kb_area := (fun _ => mk_kptr i 0) <$> (vmalloc_area s0 !! i) |> <| kb_user := KERNEL |>
    else b <| kb_area ::= fmap (fun p => mk_kptr (kp_blk p) (kp_off p + aget (vmalloc_area_sz s0) i)) |>
           <| kb_user := USER |>) s0;
  Some (0, s1).

(** EBDRCTL_BLKDEV_SEARCH: the answer overwrites the first [int] of the
    user's block. *)
Definition same_disk (a b : mem) : bool := bool_decide (take 20 a = take 20 b).

Definition ioctl_search (arg : IOCTL) (s : kstate) : option (Z * IOCTL * kstate) :=
  if negb (env_copy_from_user env) then Some (-1, arg, s) else
  let s0 := s <| k_ioctl_obj := arg |> in
  let exists_ := existsb (fun i => same_disk (dev_disk_name (aget (device s0) i)) (src_disk arg))
                   (zseq 0 MAX_EBDR_DEVICES) in
  let arg' := if env_copy_to_user env
              then arg <| src_disk ::= fun b => le_bytes 4 (if exists_ then 1 else 0) ++ drop 4 b |>
              else arg in
  Some (0, arg', s0).

Definition ebdr_ctl_ioctl (cmd : ebdr_ioctl_cmds) (arg : IOCTL) (s : kstate)
    : option (Z * IOCTL * kstate) :=
  match cmd with
  | EBDRCTL_DEV_CREATE => '(r, s') ← ioctl_dev_create arg s; Some (r, arg, s')
  | EBDRCTL_BLKDEV_DESTROY => Some (0, arg, state_destroy s)
  | EBDRCTL_GET_GRAIN_SIZE => ioctl_get_grain_size arg s
  | EBDRCTL_SET_GRAIN_SIZE => '(r, s') ← ioctl_set_grain_size arg s; Some (r, arg, s')
  | EBDRCTL_GET_USER => '(r, s') ← ioctl_get_user arg s; Some (r, arg, s')
  | EBDR_FLIP_BITMAP_AREA => '(r, s') ← ioctl_flip arg s; Some (r, arg, s')
  | EBDRCTL_BLKDEV_SEARCH => ioctl_search arg s
  | _ => Some (0, arg, s)
  end.

(** Module unload. *)
Definition ebdr_cleanup (s : kstate) : kstate :=
  let mx := minor s in
  let s1 := state_destroy s in
  let s2 := foldl (fun s i => ebdr_free_vmalloc_area i s) s1 (zseq 1 (mx - 1)) in
  foldl (fun s i => kemit (EvUnregister i) s <| minor ::= Z.pred |>) s2 (zseq 1 (mx - 1)).

(** ** atdr_req.c *)
Definition ebdr_submit_req_private_bio (b : bio) (d : Z) (s : kstate) : option kstate :=
  i ← dev_ldev (aget (device s) d);
  bdev ← backing_bdev (aget (bd_dev s) i);
  Some (kemit (EvSubmit bdev b) s).

Definition ebdr_make_request (d : Z) (b : bio) (s : kstate) : option kstate :=
  s1 ← ebdr_update_bmap_and_sync d b s;
  ebdr_submit_req_private_bio b d s1.
End kernel.
