(* ===== verification/KernelInv.v ===== *)
(** * Invariant of the kernel module

    [kwf]: every created device owns a bitmap object and a zero-initialised
    area of twice its bitmap size, and [bitmap_area] points to the half that
    [bmap_user] selects.  The system calls (except EBDRCTL_SET_GRAIN_SIZE, see
    [KernelProps]) and the block requests preserve it. *)
From S2P Require Import Prelude Memory KernelState KBitmap KBitmapSpec KernelMain.

Definition area_sz (s : kstate) (i : Z) : Z := aget (vmalloc_area_sz s) i.

(** A bitmap size the allocator and the bit operations can work with: whole
    64-bit words, below 128 MB. *)
Definition size_ok (sz : Z) : Prop := 0 < sz < 2 ^ 27 /\ sz mod 8 = 0.

Record bm_ok (s : kstate) (i : Z) (bm : ebdr_bitmap) (p : kptr) (m : mem) : Prop := {
  bo_get : get_bmap i s = Some bm;
  bo_area : kb_area bm = Some p;
  bo_blk : kp_blk p = i;
  bo_mem : vmalloc_area s !! i = Some m;
  bo_wf : wf_mem m;
  bo_len : Z.of_nat (length m) = 2 * area_sz s i;
  bo_size : kb_size bm = 8 * area_sz s i;
  bo_half : kb_user bm = KERNEL /\ kp_off p = 0 \/ kb_user bm = USER /\ kp_off p = area_sz s i;
  bo_sz : size_ok (area_sz s i);
  bo_dev : kb_device bm = i;
}.

Definition inode_ok (s : kstate) (i : Z) : Prop := is_Some (dev_this_bdev (aget (device s) i)).

Definition ids_ok (s : kstate) : Prop :=
  forall b bm, bitmaps s !! b = Some bm -> b < next_bitmap s.

Definition kwf (s : kstate) : Prop :=
  1 <= minor s <= MAX_MINOR /\ ids_ok s /\
  forall i, 1 <= i < minor s -> inode_ok s i /\ exists bm p m, bm_ok s i bm p m.

Lemma kwf_kinit : kwf kinit.
Proof. split; [cbn; unfold MAX_MINOR; lia|]. split; [|cbn; lia]. intros b bm Hb. by cbn in Hb; rewrite lookup_empty in Hb. Qed.

(** ** Frames: what an operation leaves alone *)
Record frame (s s' : kstate) (i : Z) : Prop := {
  fr_bitmap : dev_bitmap (aget (device s') i) = dev_bitmap (aget (device s) i);
  fr_obj : forall b bm, dev_bitmap (aget (device s) i) = Some b ->
    bitmaps s !! b = Some bm -> bitmaps s' !! b = Some bm;
  fr_mem : vmalloc_area s' !! i = vmalloc_area s !! i;
  fr_sz : area_sz s' i = area_sz s i;
}.

Record frames (s s' : kstate) : Prop := {
  frs_minor : minor s' = minor s;
  frs_next : next_bitmap s <= next_bitmap s';
  frs_ids : ids_ok s -> ids_ok s';
  frs_dev : ids_ok s -> forall i, 1 <= i < minor s -> frame s s' i;
  frs_inode : forall i, 1 <= i < minor s -> inode_ok s i -> inode_ok s' i;
}.

Lemma bm_ok_frame s s' i bm p m : frame s s' i -> bm_ok s i bm p m -> bm_ok s' i bm p m.
Proof.
  intros [Fb Fo Fm Fs] [G A B M W L S Hh Z1 D].
  assert (G' : get_bmap i s' = Some bm).
  { unfold get_bmap in *. rewrite Fb. destruct (dev_bitmap (aget (device s) i)) as [b|] eqn:E; [|done].
    cbn in *. by apply (Fo b bm). }
  split; rewrite ?Fm, ?Fs; done.
Qed.

Lemma frame_refl s i : frame s s i.
Proof. by split. Qed.

Lemma frame_trans s1 s2 s3 i : frame s1 s2 i -> frame s2 s3 i -> frame s1 s3 i.
Proof.
  intros [B1 O1 M1 S1] [B2 O2 M2 S2]. split; try congruence.
  intros b bm Hb Hbm. apply O2; [congruence|]. by apply O1.
Qed.

Lemma frames_refl s : frames s s.
Proof. split; auto using frame_refl. lia. Qed.

Lemma frames_trans s1 s2 s3 : frames s1 s2 -> frames s2 s3 -> frames s1 s3.
Proof.
  intros [M1 N1 I1 D1 J1] [M2 N2 I2 D2 J2]. split; [congruence|lia|auto| |].
  - intros Hids i Hi. apply (frame_trans _ s2); [by apply D1|]. apply D2; [auto|lia].
  - intros i Hi Hn. apply J2; [lia|]. by apply J1.
Qed.

Lemma frames_kwf s s' : frames s s' -> kwf s -> kwf s'.
Proof.
  intros [M N I D J] (Hm & Hids & Hdev). split; [by rewrite M|]. split; [auto|].
  intros i Hi. rewrite M in Hi. destruct (Hdev i Hi) as (Hn & bm & p & m & Hok).
  split; [auto|]. exists bm, p, m. by apply (bm_ok_frame s); [apply D|].
Qed.

(** Operations that change only fields the invariant does not read, or the
    slot of the minor being created. *)
Ltac frame_tac :=
  unfold kemit, set_field, area_sz, inode_ok in *; cbn in *;
  split; cbn; unfold area_sz, inode_ok; cbn; auto; try lia; intros;
  try (split; cbn; unfold area_sz; cbn);
  rewrite ?aget_aset, ?lookup_insert, ?lookup_delete; repeat case_decide; subst; cbn; auto; try lia; try done.

Lemma emit_frames e s : frames s (kemit e s).
Proof. frame_tac. Qed.

Lemma device_frames d f s :
  (forall x, dev_bitmap (f x) = dev_bitmap x /\
     (is_Some (dev_this_bdev x) -> is_Some (dev_this_bdev (f x)))) ->
  frames s (s <| device ::= aset d f |>).
Proof. intros Hf. frame_tac; by apply Hf. Qed.

(** One [let] of a function written as a sequence of state updates: the value
    bound is framed, and only that is remembered of it. *)
Ltac frames_let :=
  lazymatch goal with
  | |- frames ?s (let x := ?e in @?b x) =>
      let F := fresh "F" in
      assert (F : frames s e);
      [ | change (frames s (b e)); revert F; generalize e; cbv beta; intros ? F ]
  end.

Ltac frames_chain :=
  repeat first
    [ eassumption
    | eapply frames_trans; [|apply emit_frames]
    | eapply frames_trans; [|by apply device_frames]
    | apply frames_refl ].

Lemma blkdev_destroy_frames d mn s : frames s (ebdr_blkdev_destroy d mn s).
Proof.
  cbv beta delta [ebdr_blkdev_destroy].
  do 4 (frames_let; [repeat case_match; frames_chain|]).
  frames_chain.
Qed.

Lemma state_destroy_frames s : frames s (state_destroy s).
Proof.
  unfold state_destroy. generalize (zseq 1 (minor s - 1)) as l. intros l.
  revert s. induction l as [|i l IH]; intros s; cbn [foldl]; [apply frames_refl|].
  eapply frames_trans; [apply blkdev_destroy_frames|apply IH].
Qed.

Lemma minor_cleanup_frames s : frames s (ebdr_minor_cleanup (minor s) s).
Proof.
  unfold ebdr_minor_cleanup. eapply frames_trans; [apply state_destroy_frames|].
  pose proof (frs_minor _ _ (state_destroy_frames s)) as Hm.
  eapply frames_trans; [|apply emit_frames]. unfold ebdr_free_vmalloc_area. rewrite <- Hm.
  case_match; [|apply frames_refl]. frame_tac.
Qed.

Lemma alloc_frames env s r s' :
  ebdr_alloc_memory_mmap env (minor s) s = Some (r, s') -> frames s s'.
Proof.
  unfold ebdr_alloc_memory_mmap. case_match; [|done].
  case_match; intros; simplify_eq; frame_tac.
Qed.

Lemma register_frames env s r s' :
  ebdr_register_kernel_memctl_device env (minor s) s = Some (r, s') -> frames s s'.
Proof.
  unfold ebdr_register_kernel_memctl_device. case_match; [|done].
  case_match; intros; simplify_eq; frame_tac.
Qed.

Section with_bitops.
Context `{KBitops}.

(** What [on_area] does to the state: the bytes of one block. *)
Lemma on_area_inv d f s s' :
  on_area d f s = Some s' ->
  exists bm p m m', get_bmap d s = Some bm /\ kb_area bm = Some p /\
    vmalloc_area s !! kp_blk p = Some m /\ f bm (kp_off p) m = Some m' /\
    s' = s <| vmalloc_area ::= fun a => <[kp_blk p := m']> a |>.
Proof.
  unfold on_area, with_block. intros Hs.
  destruct (get_bmap d s) as [bm|] eqn:E1; [|done]. cbn in Hs.
  destruct (kb_area bm) as [p|] eqn:E2; [|done]. cbn in Hs.
  destruct (vmalloc_area s !! kp_blk p) as [m|] eqn:E3; [|done]. cbn in Hs.
  destruct (f bm (kp_off p) m) as [m'|] eqn:E4; [|done]. cbn in Hs. injection Hs as <-.
  by exists bm, p, m, m'.
Qed.

Lemma on_area_ok f s i bm p m m' :
  bm_ok s i bm p m -> f bm (kp_off p) m = Some m' ->
  on_area i f s = Some (s <| vmalloc_area ::= fun a => <[i := m']> a |>).
Proof.
  intros Hok Hf. unfold on_area, with_block. rewrite (bo_get _ _ _ _ _ Hok). cbn.
  rewrite (bo_area _ _ _ _ _ Hok). cbn. rewrite (bo_blk _ _ _ _ _ Hok), (bo_mem _ _ _ _ _ Hok). cbn.
  by rewrite Hf.
Qed.

(** Writing the bytes of a device keeps the invariant. *)
Lemma bm_ok_write s i bm p m m' :
  bm_ok s i bm p m -> same_shape m m' ->
  bm_ok (s <| vmalloc_area ::= fun a => <[i := m']> a |>) i bm p m'.
Proof.
  intros [G A B M W L S Hh Z1 D] [Hl Hw]. split; cbn; try done.
  - by rewrite lookup_insert_eq.
  - auto.
  - by rewrite Hl.
Qed.

Lemma kwf_write s i m' bm p m :
  kwf s -> bm_ok s i bm p m -> same_shape m m' ->
  kwf (s <| vmalloc_area ::= fun a => <[i := m']> a |>).
Proof.
  intros (Hm & Hids & Hdev) Hok Hs. split; [done|]. split; [done|]. cbn. intros j Hj.
  destruct (Hdev j Hj) as (Hn & bm2 & p2 & m2 & Hok2). split; [done|].
  destruct (decide (j = i)) as [->|Hne]; [exists bm, p, m'; by eapply bm_ok_write|].
  exists bm2, p2, m2.
  eapply bm_ok_frame; [|exact Hok2]. split; cbn; auto. by rewrite lookup_insert_ne.
Qed.

Lemma find_pos_frames d addr s r s' : ebdr_find_pos d addr s = Some (r, s') ->
  s' = s <| grain_size := grain_size s' |> /\ exists bm, get_bmap d s = Some bm /\
    r = find_pos_loop (Z.to_nat (kb_size bm)) 0 (kb_size bm) addr (Z.shiftr (kb_grain_size bm) 9).
Proof.
  unfold ebdr_find_pos. intros Hs. destruct (get_bmap d s) as [bm|]; [|done]. cbn in Hs.
  destruct (dev_this_bdev (aget (device s) d)); [|done]. cbn in Hs. injection Hs as <- <-.
  split; [done|]. by exists bm.
Qed.
End with_bitops.

(** ** Creating a device *)
Lemma clear_bmap_mem_spec sz base m :
  size_ok sz -> wf_mem m -> 0 <= base -> base + sz <= Z.of_nat (length m) ->
  exists m', clear_bmap_mem (8 * sz) base m = Some m' /\ same_shape m m' /\
    forall k, mem_bit m' k = negb (in_range (8 * base) (8 * base + 8 * sz - 1) k) && mem_bit m k.
Proof.
  intros [Hsz Hmod] Hwf Hbase Hlen. unfold clear_bmap_mem.
  replace (8 * sz / 8) with sz by lia. rewrite i32_id, u64_id by lia.
  destruct (iter_up_inv
    (fun i m' => same_shape m m' /\
       forall k, mem_bit m' k = negb (in_range (8 * base) (8 * base + 64 * i - 1) k) && mem_bit m k)
    (fun i m => store 8 m (base + 8 * i) 0) (Z.to_nat (sz / 8)) 0 m) as (m' & E & Hs & Hb).
  - split; [apply same_shape_refl|]. intros k. unfold in_range.
    by replace (_ && (k <=? _)) with false by bool_solve.
  - intros i m1 Hi [Hs1 Hb1].
    destruct (store_Some 8 m1 (base + 8 * i) 0) as [m2 E2]; [lia| |].
    { rewrite (shape_len _ _ Hs1). lia. }
    exists m2. split; [done|]. split.
    { eapply same_shape_trans; [done|]. split; [by eapply store_length|by intros; eapply store_wf]. }
    intros k. rewrite (store_bit _ _ _ _ _ _ E2), Z.testbit_0_l, Hb1. unfold in_range.
    replace (8 * (base + 8 * i + Z.of_nat 8)) with (8 * base + 64 * (i + 1)) by lia.
    destruct (mem_bit m k); bool_solve.
  - exists m'. split; [done|]. split; [done|]. intros k. rewrite Hb. do 3 f_equal. lia.
Qed.

Lemma bm_ok_shape_frames s i m' bm p m :
  bm_ok s i bm p m -> minor s <= i -> frames s (s <| vmalloc_area ::= fun a => <[i := m']> a |>).
Proof. intros Hok Hi. frame_tac. Qed.

(** The slot of the device being created, [minor]: its area has just been
    allocated. *)
Record slot_ready (s : kstate) (m : mem) : Prop := {
  sr_mem : vmalloc_area s !! minor s = Some m;
  sr_wf : wf_mem m;
  sr_sz : size_ok (area_sz s (minor s));
  sr_len : Z.of_nat (length m) = 2 * area_sz s (minor s);
}.

Lemma init_bmap_new env s m :
  env_kzalloc env = true -> ids_ok s -> slot_ready s m ->
  dev_minor (aget (device s) (minor s)) = minor s ->
  exists s' bm m', ebdr_init_bmap env (minor s) s = Some (0, s') /\ frames s s' /\
    bm_ok s' (minor s) bm (mk_kptr (minor s) 0) m' /\
    dev_bitmap (aget (device s') (minor s)) = Some (next_bitmap s) /\
    forall k, 0 <= k < 8 * area_sz s (minor s) -> mem_bit m' k = false.
Proof.
  intros Hk Hids [Hm Hwf Hsz Hlen] Hmn. unfold ebdr_init_bmap. rewrite Hk, Hmn, Hm. cbn [fmap option_fmap option_map].
  set (bm := mk_bitmap _ _ _ _ _ _ _). set (s1 := set_field device _ _).
  assert (Hbm : kb_size bm = 8 * area_sz s (minor s)).
  { cbn. unfold area_sz, size_ok in *. rewrite u64_id by lia. lia. }
  assert (Hok : bm_ok s1 (minor s) bm (mk_kptr (minor s) 0) m).
  { split; try done.
    - unfold get_bmap. cbn. rewrite aget_aset_eq. cbn. by rewrite lookup_insert_eq.
    - by left. }
  assert (Hfr : frames s s1).
  { split; try done.
    - cbn. lia.
    - intros _ b bm'. cbn. rewrite lookup_insert. case_decide; [lia|]. intros Hb. specialize (Hids b bm' Hb). lia.
    - intros _ i Hi. split; try done; cbn; rewrite ?aget_aset_ne by lia; try done.
      intros b bm' Hb Hb'. rewrite lookup_insert_ne; [done|]. specialize (Hids b bm' Hb'). lia.
    - intros i Hi. unfold inode_ok. cbn. by rewrite aget_aset_ne by lia. }
  destruct (clear_bmap_mem_spec (area_sz s (minor s)) 0 m) as (m' & E & Hs & Hb); [done|done|lia|lia|].
  rewrite <- Hbm in E. exists (s1 <| vmalloc_area ::= fun a => <[minor s := m']> a |>), bm, m'.
  split.
  { unfold ebdr_clear_bmap.
    by rewrite (on_area_ok (fun bm base => clear_bmap_mem (kb_size bm) base) s1 (minor s) bm _ m m' Hok E). }
  split; [eapply frames_trans; [exact Hfr|]; by eapply bm_ok_shape_frames|].
  split; [by eapply bm_ok_write|]. split; [cbn; by rewrite aget_aset_eq|].
  intros k Hkk. rewrite Hb. unfold in_range. by replace ((_ <=? k) && (k <=? _)) with true by bool_solve.
Qed.

(** Later steps of the creation touch other fields of the slot. *)
Lemma bm_ok_device s i d f bm p m :
  (forall x, dev_bitmap (f x) = dev_bitmap x) ->
  bm_ok s i bm p m -> bm_ok (s <| device ::= aset d f |>) i bm p m.
Proof.
  intros Hf. apply bm_ok_frame. split; cbn; try done. rewrite aget_aset. case_decide; [by subst|done].
Qed.
