(* ===== verification/KernelSteps.v ===== *)
(** * The invariant is preserved by the ioctls and the request path

    One lemma per entry point of the module, and the step relation of the
    module with its reachable states. *)
From S2P Require Import Prelude Memory KernelState KBitmap KBitmapSpec KernelMain KernelInv.

(** Documented behaviour of the allocators: [vmalloc_user] returns zeroed
    memory of the requested size; [kzalloc] of the small bitmap object
    succeeds. *)
Record env_ok (env : kenv) : Prop := {
  eo_vmalloc : forall n m, env_vmalloc_user env n = Some m -> m = replicate (Z.to_nat n) 0;
  eo_kzalloc : env_kzalloc env = true;
}.

Section steps.
Context `{KBitopsLaws}.
Variable env : kenv.
Hypothesis Henv : env_ok env.

Lemma blkdev_create_spec s r s' :
  ebdr_blkdev_create env (minor s) s = Some (r, s') ->
  frames s s' /\ (r = -1 \/ r = 0 /\ inode_ok s' (minor s) /\
    forall bm p m, bm_ok s (minor s) bm p m -> bm_ok s' (minor s) bm p m) /\
  dev_bitmap (aget (device s') (minor s)) = dev_bitmap (aget (device s) (minor s)).
Proof.
  unfold ebdr_blkdev_create. intros Hs.
  repeat case_match; simplify_eq; (split; [repeat frames_chain; frame_tac|]).
  - split; [right|].
    + split; [done|]. split; [unfold inode_ok; cbn; rewrite aget_aset_eq; by eexists|].
      intros. by apply bm_ok_device, bm_ok_device.
    + cbn. by rewrite !aget_aset_eq.
  - split; [by left|]. cbn. by rewrite aget_aset_eq.
  - split; [by left|done].
Qed.

Lemma attach_spec s r s' :
  ebdr_device_attach_blkdev env (minor s) s = Some (r, s') ->
  frames s s' /\ (r = -1 \/ r = 0) /\
  dev_bitmap (aget (device s') (minor s)) = dev_bitmap (aget (device s) (minor s)) /\
  (inode_ok s (minor s) -> inode_ok s' (minor s)) /\
  (forall bm p m, bm_ok s (minor s) bm p m -> bm_ok s' (minor s) bm p m).
Proof.
  unfold ebdr_device_attach_blkdev. intros Hs.
  case_match; [|done]. case_match; [|simplify_eq].
  - destruct (dev_this_bdev _) eqn:E in Hs; [|done]. simplify_eq. split.
    { split; cbn; auto; try lia.
      - intros ? i Hi. split; cbn; try done. by rewrite !aget_aset_ne by lia.
      - intros i Hi. unfold inode_ok. cbn. by rewrite !aget_aset_ne by lia. }
    split; [by right|]. split; [cbn; by rewrite !aget_aset_eq|]. split.
    + intros _. unfold inode_ok. cbn. rewrite aget_aset_eq. by eexists.
    + intros bm p m Hok. apply bm_ok_device; [done|]. apply (bm_ok_device _ _ (minor s)); [done|].
      eapply bm_ok_frame; [|exact Hok]. by split.
  - split; [frame_tac|]. split; [by left|]. split; [done|]. split; [done|].
    intros bm p m Hok. eapply bm_ok_frame; [|exact Hok]. by split.
Qed.

Lemma state_create_spec s m r s' :
  1 <= minor s -> ids_ok s -> slot_ready s m -> state_create env s = Some (r, s') ->
  frames s s' /\ (r = 0 -> inode_ok s' (minor s) /\
    dev_bitmap (aget (device s') (minor s)) = Some (next_bitmap s) /\
    exists bm m', bm_ok s' (minor s) bm (mk_kptr (minor s) 0) m').
Proof.
  intros Hmin Hids Hslot Hs. unfold state_create, ebdr_device_create in Hs.
  destruct (inb MAX_MINOR (minor s)); [|done].
  set (s0 := set_field device _ s) in Hs.
  assert (Hm0 : minor s0 = minor s) by done.
  assert (Hf0 : frames s s0).
  { apply device_frames. intros x. by split. }
  assert (Hslot0 : slot_ready s0 m) by by destruct Hslot.
  destruct (init_bmap_new env s0 m) as (s1 & bm & m' & E1 & Hf1 & Hok1 & Hb1 & _);
    [by apply Henv|by apply Hf0|done|by cbn; rewrite aget_aset_eq|].
  rewrite Hm0 in E1. rewrite E1 in Hs. cbn in Hs.
  assert (Hm1 : minor s1 = minor s) by by rewrite (frs_minor _ _ Hf1).
  unfold state_blkdev_create in Hs.
  destruct (ebdr_blkdev_create env (minor s1) s1) as [[r2 s2]|] eqn:E2; [|done]. cbn in Hs.
  destruct (blkdev_create_spec _ _ _ E2) as (Hf2 & Hr2 & Hb2).
  assert (F02 : frames s s2) by (eapply frames_trans; [exact Hf0|]; by eapply frames_trans).
  destruct (Z.ltb_spec r2 0); [simplify_eq; split; [done|lia]|].
  destruct Hr2 as [->|(-> & Hn2 & Hk2)]; [done|].
  unfold state_attach in Hs.
  assert (Hm2 : minor s2 = minor s) by by rewrite (frs_minor _ _ F02).
  destruct (ebdr_device_attach_blkdev env (minor s2) s2) as [[r3 s3]|] eqn:E3; [|done]. cbn in Hs.
  destruct (attach_spec _ _ _ E3) as (Hf3 & Hr3 & Hb3 & Hn3 & Hk3).
  assert (F03 : frames s s3) by by eapply frames_trans.
  destruct (Z.ltb_spec r3 0); simplify_eq.
  - split; [|lia]. eapply frames_trans; [exact F03|apply blkdev_destroy_frames].
  - split; [done|]. intros _. rewrite Hm1 in *. rewrite Hm2 in *.
    split; [auto|]. split; [rewrite Hb3, Hb2; exact Hb1|].
    exists bm, m'. auto.
Qed.

Lemma state_create_nonpos s r s' : state_create env s = Some (r, s') -> 0 <= r -> r = 0.
Proof.
  unfold state_create, state_blkdev_create, state_attach. intros Hs Hr.
  destruct (ebdr_device_create env _ s) as [[r1 s1]|] eqn:E1; [|done]. cbn in Hs.
  destruct (Z.ltb_spec r1 0); [simplify_eq; lia|].
  destruct (ebdr_blkdev_create env _ s1) as [[r2 s2]|] eqn:E2; [|done]. cbn in Hs.
  destruct (Z.ltb_spec r2 0); [simplify_eq; lia|].
  destruct (ebdr_device_attach_blkdev env _ s2) as [[r3 s3]|] eqn:E3; [|done]. cbn in Hs.
  destruct (Z.ltb_spec r3 0); simplify_eq; lia.
Qed.

(** The last lines of EBDRCTL_DEV_CREATE: flags, name, [minor++]. *)
Lemma dev_create_commit arg s s4 bm m' n r s' :
  kwf s -> frames s s4 -> minor s4 = minor s -> 0 <= minor s < MAX_MINOR ->
  inode_ok s4 (minor s) -> dev_bitmap (aget (device s4) (minor s)) = Some n -> next_bitmap s <= n ->
  bm_ok s4 (minor s) bm (mk_kptr (minor s) 0) m' ->
  (s5 ← upd_bmap (minor s4) (fun b => b <| kb_user := KERNEL |> <| kb_state := B_ALLOCATED |>) s4;
   let s6 := s5 <| device ::= aset (minor s5) (fun d => d <| dev_disk_name := src_disk arg |>) |> in
   Some (0, s6 <| minor ::= Z.succ |>)) = Some (r, s') ->
  kwf s' /\ minor s' = (if r =? 0 then minor s + 1 else minor s).
Proof.
  intros Hwf F4 Hm4 Hmax Hino Hbid Hn Hok Hs.
  destruct Hok as [G A B M W L S Hh Z1 D].
  unfold upd_bmap in Hs. rewrite Hm4, Hbid in Hs. cbn in Hs.
  unfold get_bmap in G. rewrite Hbid in G. cbn in G. rewrite G in Hs. cbn in Hs. simplify_eq.
  rewrite Hm4. split; [|cbn; lia]. split; [cbn; rewrite Hm4; unfold MAX_MINOR in *; destruct Hwf; lia|].
  split.
  { intros b bm'. cbn. rewrite lookup_insert. case_decide; [subst b; intros|]; eapply (frs_ids _ _ F4); try done; apply Hwf. }
  cbn. intros i Hi. rewrite Hm4 in Hi. destruct (decide (i = minor s)) as [->|Hne].
  - split; [unfold inode_ok in *; cbn; by rewrite aget_aset_eq|].
    eexists (bm <| kb_user := KERNEL |> <| kb_state := B_ALLOCATED |>), _, m'. split; try done.
    + unfold get_bmap. cbn. rewrite aget_aset_eq. cbn. rewrite Hbid. cbn. by rewrite lookup_insert_eq.
    + by left.
  - destruct Hwf as (_ & Hids & Hdev). destruct (Hdev i) as (Hni & bmi & pi & mi & Hoki); [lia|].
    pose proof (frs_inode _ _ F4 i ltac:(lia) Hni) as Hni4.
    pose proof (frs_dev _ _ F4 Hids i ltac:(lia)) as Fi.
    split; [unfold inode_ok in *; cbn; by rewrite aget_aset_ne by lia|].
    exists bmi, pi, mi. eapply bm_ok_frame; [|exact Hoki]. eapply frame_trans; [exact Fi|].
    split; cbn; rewrite ?aget_aset_ne by lia; try done.
    intros b bm'' Hb Hb''. rewrite lookup_insert_ne; [done|]. intros <-.
    pose proof (bo_get _ _ _ _ _ Hoki) as Gi. unfold get_bmap in Gi.
    rewrite <- (fr_bitmap _ _ _ Fi), Hb in Gi. cbn in Gi. specialize (Hids _ _ Gi). lia.
Qed.

(** The area a successful allocation gives to the device. *)
Lemma alloc_slot mn sz s1 s2 :
  size_ok sz -> aget (vmalloc_area_sz s1) mn = sz -> ebdr_alloc_memory_mmap env mn s1 = Some (0, s2) ->
  exists m, vmalloc_area s2 !! mn = Some m /\ wf_mem m /\ area_sz s2 mn = sz /\ Z.of_nat (length m) = 2 * sz.
Proof.
  intros Hsz Harea E. unfold ebdr_alloc_memory_mmap in E. destruct (inb _ _); [|done].
  rewrite Harea in E. unfold size_ok in Hsz. rewrite u64_id in E by lia.
  destruct (env_vmalloc_user env _) as [m|] eqn:Em; [|by simplify_eq].
  injection E as <-. apply (eo_vmalloc _ Henv) in Em. subst m. eexists.
  split; [cbn; by rewrite lookup_insert_eq|]. split; [apply wf_replicate|].
  split; [done|]. rewrite length_replicate. lia.
Qed.

(** EBDRCTL_DEV_CREATE with a sane bitmap size keeps the invariant, whatever
    the services answer; the minor advances exactly on success. *)
Lemma dev_create_kwf arg s r s' :
  kwf s -> size_ok (u_bitmap_size arg) -> ioctl_dev_create env arg s = Some (r, s') ->
  kwf s' /\ minor s' = (if r =? 0 then minor s + 1 else minor s).
Proof.
  intros Hwf Hsz Hs. unfold ioctl_dev_create in Hs.
  destruct (env_copy_from_user env); cbn in Hs; [|by simplify_eq].
  destruct (inb MAX_MINOR (minor s)) eqn:Hmax; cbn in Hs; [|done]. apply inb_spec in Hmax.
  set (s1 := set_field vmalloc_area_sz _ _) in Hs.
  assert (F1 : frames s s1).
  { split; cbn; auto; try lia. intros ? i Hi. split; try done. unfold area_sz. cbn.
    by rewrite aget_aset_ne by lia. }
  change (minor s) with (minor s1) in Hs at 1.
  destruct (ebdr_alloc_memory_mmap env (minor s1) s1) as [[e2 s2]|] eqn:E2; [|done]. cbn in Hs.
  assert (F2 : frames s s2) by (eapply frames_trans; [exact F1|by eapply alloc_frames]).
  destruct (Z.eqb_spec e2 0) as [->|]; cbn in Hs;
    [|simplify_eq; split; [by apply (frames_kwf s)|by rewrite (frs_minor _ _ F2)]].
  destruct (alloc_slot (minor s) (u_bitmap_size arg) s1 s2) as (m & Hm & Hmwf & Hasz & Hlen); [done| |exact E2|].
  { cbn. by rewrite aget_aset_eq. }
  destruct (ebdr_register_kernel_memctl_device env (minor s2) s2) as [[e3 s3]|] eqn:E3; [|done].
  cbn in Hs. pose proof (register_frames _ _ _ _ E3) as F23.
  assert (F3 : frames s s3) by by eapply frames_trans.
  destruct (Z.eqb_spec e3 0) as [->|]; cbn in Hs;
    [|simplify_eq; split; [by apply (frames_kwf s)|by rewrite (frs_minor _ _ F3)]].
  assert (Hm3 : minor s3 = minor s) by by rewrite (frs_minor _ _ F3).
  destruct (state_create env s3) as [[e4 s4]|] eqn:E4; [|done]. cbn in Hs.
  assert (Hcreate : frames s3 s4 /\ (e4 = 0 -> inode_ok s4 (minor s3) /\
    dev_bitmap (aget (device s4) (minor s3)) = Some (next_bitmap s3) /\
    exists bm m', bm_ok s4 (minor s3) bm (mk_kptr (minor s3) 0) m')).
  { apply (state_create_spec s3 m e4 s4); [rewrite Hm3; apply Hwf|apply F3, Hwf| |done].
    assert (vmalloc_area s3 = vmalloc_area s2 /\ vmalloc_area_sz s3 = vmalloc_area_sz s2) as [Hv3 Hz3].
    { unfold ebdr_register_kernel_memctl_device in E3. repeat case_match; by simplify_eq. }
    unfold area_sz in Hasz. split; unfold area_sz; rewrite ?Hm3, ?Hv3, ?Hz3, ?Hasz; done. }
  destruct Hcreate as [F34 Hnew].
  assert (F4 : frames s s4) by by eapply frames_trans.
  assert (Hm4 : minor s4 = minor s) by by rewrite (frs_minor _ _ F4).
  destruct (Z.ltb_spec e4 0).
  { simplify_eq. split; [|rewrite (frs_minor _ _ (minor_cleanup_frames s4)); exact Hm4].
    eapply frames_kwf; [|exact Hwf]. eapply frames_trans; [exact F4|apply minor_cleanup_frames]. }
  assert (e4 = 0) as -> by by eapply state_create_nonpos.
  rewrite Hm3 in Hnew. destruct (Hnew eq_refl) as (Hino & Hbid & bm & m' & Hok).
  assert (Hnext : next_bitmap s <= next_bitmap s3) by apply F3.
  clear - Hs Hwf F4 Hm4 Hino Hbid Hok Hnext Hmax. by eapply dev_create_commit.
Qed.

(** *** The other ioctls *)
Lemma ioctl_obj_frames s arg : frames s (s <| k_ioctl_obj := arg |>).
Proof. split; cbn; auto; try lia. intros. apply (Build_frame _ _ _); done. Qed.

(** Two devices of a well-formed state never share a bitmap object. *)
Lemma bitmap_ids_distinct s i j bi bj bmi bmj pi pj mi mj :
  bm_ok s i bmi pi mi -> bm_ok s j bmj pj mj ->
  dev_bitmap (aget (device s) i) = Some bi -> dev_bitmap (aget (device s) j) = Some bj ->
  i <> j -> bi <> bj.
Proof.
  intros [Gi _ _ _ _ _ _ _ _ Di] [Gj _ _ _ _ _ _ _ _ Dj] Ei Ej Hne ->.
  unfold get_bmap in *. rewrite Ei in Gi. rewrite Ej in Gj. cbn in *. congruence.
Qed.

Lemma flip_spec arg s i bm p m :
  kwf s -> io_index arg = i -> 1 <= i < minor s -> bm_ok s i bm p m ->
  env_copy_from_user env = true ->
  exists s' bm' p', ioctl_flip env arg s = Some (0, s') /\ kwf s' /\ bm_ok s' i bm' p' m /\
    kb_user bm' = 1 - kb_user bm /\ kp_off p' = area_sz s i - kp_off p /\
    vmalloc_area s' = vmalloc_area s /\ minor s' = minor s /\ area_sz s' i = area_sz s i /\
    kb_grain_size bm' = kb_grain_size bm.
Proof.
  intros Hwf <- Hi Hok Hcopy. pose proof Hok as [G A B M W L S Hh Z1 D].
  unfold ioctl_flip. rewrite Hcopy. cbn [negb].
  rewrite inb_true by (destruct Hwf as [? _]; unfold MAX_MINOR in *; lia). cbn [negb].
  set (i := io_index arg) in *.
  set (s0 := set_field k_ioctl_obj _ s). change (get_bmap i s0) with (get_bmap i s).
  rewrite G. cbn [mbind option_bind].
  unfold get_bmap in G. destruct (dev_bitmap (aget (device s) i)) as [b|] eqn:Eb; [|done]. cbn in G.
  unfold upd_bmap. change (dev_bitmap (aget (device s0) i)) with (dev_bitmap (aget (device s) i)).
  rewrite Eb. cbn [mbind option_bind]. change (bitmaps s0) with (bitmaps s). rewrite G.
  cbn [mbind option_bind].
  set (bm' := if kb_user bm =? USER then _ else _).
  set (s1 := set_field bitmaps _ s0).
  set (p' := mk_kptr i (area_sz s i - kp_off p)).
  assert (Hbm' : kb_area bm' = Some p' /\ kb_size bm' = kb_size bm /\ kb_device bm' = kb_device bm /\
    kb_user bm' = 1 - kb_user bm /\ kb_grain_size bm' = kb_grain_size bm).
  { unfold bm', p', USER, KERNEL in *. destruct Hh as [[Hu Ho]|[Hu Ho]]; rewrite Hu, Ho; cbn.
    - rewrite A. cbn. rewrite B, Ho. unfold area_sz. repeat split. do 2 f_equal. lia.
    - change (vmalloc_area s0) with (vmalloc_area s). rewrite M. cbn. repeat split. do 2 f_equal. lia. }
  destruct Hbm' as (HA & HS & HD & HU & HG).
  assert (Hok' : bm_ok s1 i bm' p' m).
  { split; cbn; try done.
    - unfold get_bmap. cbn. rewrite Eb. cbn. by rewrite lookup_insert_eq.
    - by rewrite HS.
    - rewrite HU. change (area_sz s1 i) with (area_sz s i). unfold USER, KERNEL in *. lia.
    - by rewrite HD. }
  exists s1, bm', p'. split; [done|]. split; [|by split_and!].
  destruct Hwf as (Hmin & Hids & Hdev). split; [done|]. split.
  { intros b2 bm2. cbn. rewrite lookup_insert. case_decide as Hb2; [intros _; rewrite <- Hb2; by apply (Hids b bm)|apply Hids]. }
  intros j Hj. destruct (Hdev j Hj) as (Hn & bmj & pj & mj & Hokj). split; [done|].
  destruct (decide (j = i)) as [->|Hne]; [by exists bm', p', m|]. exists bmj, pj, mj.
  eapply bm_ok_frame; [|exact Hokj]. split; try done. intros bj bm2 Hbj Hbm2. cbn.
  rewrite lookup_insert_ne; [done|]. by eapply (bitmap_ids_distinct s i j).
Qed.

Lemma search_frames arg s r arg' s' : ioctl_search env arg s = Some (r, arg', s') -> frames s s'.
Proof.
  unfold ioctl_search. destruct (env_copy_from_user env); cbn; intros; simplify_eq;
    [apply ioctl_obj_frames|apply frames_refl].
Qed.

Lemma get_user_frames arg s r s' : ioctl_get_user env arg s = Some (r, s') -> frames s s'.
Proof.
  unfold ioctl_get_user. destruct (env_copy_from_user env); cbn; intros Hs; [|simplify_eq; apply frames_refl].
  destruct (inb MAX_MINOR (io_index arg)); cbn in Hs; [|done].
  destruct (get_bmap _ _) as [bm|]; cbn in Hs; [|done].
  destruct (kb_area bm) as [p|]; cbn in Hs; [|done].
  destruct (vmalloc_area s !! kp_blk p) as [m|]; cbn in Hs; [|done].
  destruct (load 8 m (kp_off p)); cbn in Hs; [|done]. simplify_eq. apply ioctl_obj_frames.
Qed.

(** *** Block requests *)
Lemma find_pos_ok s d bm p m addr :
  bm_ok s d bm p m -> inode_ok s d ->
  512 <= kb_grain_size bm -> kb_size bm * (kb_grain_size bm / 512) < 2 ^ 64 -> 0 <= addr ->
  ebdr_find_pos d addr s =
    Some (Z.min (addr / (kb_grain_size bm / 512)) (kb_size bm - 1), s <| grain_size := kb_grain_size bm |>).
Proof.
  intros Hok [x Hx] Hg Hov Haddr. unfold ebdr_find_pos. rewrite (bo_get _ _ _ _ _ Hok). cbn.
  rewrite Hx. cbn. rewrite Z.shiftr_div_pow2 by lia. change (2 ^ 9) with 512.
  pose proof (bo_sz _ _ _ _ _ Hok) as [Hsz _]. pose proof (bo_size _ _ _ _ _ Hok) as Hkb.
  rewrite find_pos_loop_spec; try done; try lia.
Qed.

Definition touched (bm : ebdr_bitmap) (b : bio) (k : Z) : bool :=
  let g := kb_grain_size bm / 512 in
  in_range (Z.min (bi_sector b / g) (kb_size bm - 1))
           (Z.min ((bi_sector b + bi_size b / 512) / g) (kb_size bm - 1)) k.

(** What the block layer may hand down: a request inside the 64-bit sector
    space. *)
Definition bio_ok (b : bio) : Prop :=
  0 <= bi_sector b /\ 0 <= bi_size b < 2 ^ 32 /\ bi_sector b + bi_size b / 512 < 2 ^ 64.

Lemma set_bitmap_spec s d bm p m b :
  kwf s -> bm_ok s d bm p m -> inode_ok s d ->
  512 <= kb_grain_size bm -> kb_size bm * (kb_grain_size bm / 512) < 2 ^ 64 -> bio_ok b ->
  exists m', ebdr_set_bitmap d b s =
      Some (s <| grain_size := kb_grain_size bm |> <| vmalloc_area ::= fun a => <[d := m']> a |>) /\
    same_shape m m' /\
    forall k, mem_bit m' k = touched bm b (k - 8 * kp_off p) || mem_bit m k.
Proof.
  intros Hwf Hok Hino Hg Hov (Hb1 & Hb2 & Hb3). unfold ebdr_set_bitmap, bio_end_sector, bio_sectors.
  rewrite Z.shiftr_div_pow2 by lia. change (2 ^ 9) with 512. rewrite u64_id by lia.
  rewrite (find_pos_ok s d bm p m) by (try done; lia). cbn [mbind option_bind].
  set (s1 := set_field grain_size _ s).
  assert (Hok1 : bm_ok s1 d bm p m) by (eapply bm_ok_frame; [|exact Hok]; by split).
  rewrite (find_pos_ok s1 d bm p m) by (try done; lia). cbn [mbind option_bind].
  set (first := Z.min _ _). set (last := Z.min _ _).
  pose proof Hok as [G A B M W L S Hh [Z1 Z2] D].
  assert (Hg0 : 0 < kb_grain_size bm / 512) by lia.
  assert (Hfl : 0 <= first <= last /\ last <= kb_size bm - 1).
  { unfold first, last. split; [|lia].
    assert (0 <= bi_sector b / (kb_grain_size bm / 512)) by by apply Z.div_pos.
    assert (bi_sector b / (kb_grain_size bm / 512) <= (bi_sector b + bi_size b / 512) / (kb_grain_size bm / 512))
      by (apply Z.div_le_mono; lia). lia. }
  destruct (set_bits_mem_spec (kp_off p) first last m) as (m' & E & Hs & Hbits); [done|lia..|].
  exists m'. split.
  { unfold ebdr_set_bits. change (s1 <| grain_size := kb_grain_size bm |>) with s1.
    rewrite !i32_id by lia.
    by rewrite (on_area_ok (fun _ base => set_bits_mem base first last) s1 d bm p m m' Hok1 E). }
  split; [done|]. intros k. rewrite Hbits. unfold touched. fold first last. f_equal.
  unfold in_range. bool_solve.
Qed.
End steps.
