(* ===== verification/KernelProps.v ===== *)
(** * Properties of the kernel module

    The write path marks every grain it touches before the request reaches the
    disk; the bitmap accesses of every reachable state stay inside the area;
    the two halves of the area are switched by EBDR_FLIP_BITMAP_AREA; and the
    behaviours of the ioctls that break these guarantees. *)
From S2P Require Import Prelude Memory KernelState KBitmap KBitmapSpec KernelMain KernelInv KernelSteps.

(** ** Steps of the module *)
Lemma find_pos_loop_range fuel cur n addr g :
  0 <= cur -> cur + Z.of_nat fuel = n -> 0 < n < 2 ^ 64 ->
  0 <= find_pos_loop fuel cur n addr g <= n - 1.
Proof.
  revert cur. induction fuel as [|fuel IH]; intros cur Hc Hf Hn; cbn [find_pos_loop].
  - rewrite u64_id by lia. lia.
  - case_match; [lia|]. apply IH; lia.
Qed.

Lemma find_pos_loop_zero fuel cur n addr : 0 <= addr -> find_pos_loop fuel cur n addr 0 = u64 (n - 1).
Proof.
  intros Ha. revert cur. induction fuel as [|f IH]; intros cur; cbn [find_pos_loop]; [done|].
  rewrite Z.mul_0_r. change (u64 0) with 0. replace (addr <? 0) with false by bool_solve. apply IH.
Qed.

(** A command the administrator may issue in state [s]; EBDRCTL_SET_GRAIN_SIZE
    is left out (see [set_grain_breaks_bounds]). *)
Definition cmd_ok (cmd : ebdr_ioctl_cmds) (arg : IOCTL) (s : kstate) : Prop :=
  match cmd with
  | EBDRCTL_DEV_CREATE => size_ok (u_bitmap_size arg)
  | EBDRCTL_SET_GRAIN_SIZE => False
  | EBDR_FLIP_BITMAP_AREA => 1 <= io_index arg < minor s
  | _ => True
  end.

Inductive kstep `{KBitops} : kstate -> kstate -> Prop :=
  | ks_ioctl env cmd arg s r arg' s' :
      env_ok env -> cmd_ok cmd arg s -> ebdr_ctl_ioctl env cmd arg s = Some (r, arg', s') -> kstep s s'
  | ks_request d b s s' :
      1 <= d < minor s -> ebdr_make_request d b s = Some s' -> kstep s s'.

Section props.
Context `{KBitopsLaws}.

Lemma find_pos_range s d bm p m addr :
  bm_ok s d bm p m -> inode_ok s d ->
  exists r, ebdr_find_pos d addr s = Some (r, s <| grain_size := kb_grain_size bm |>) /\
    0 <= r <= kb_size bm - 1.
Proof.
  intros Hok [x Hx]. unfold ebdr_find_pos. rewrite (bo_get _ _ _ _ _ Hok). cbn. rewrite Hx. cbn.
  eexists. split; [done|]. pose proof (bo_sz _ _ _ _ _ Hok) as [Hsz _].
  pose proof (bo_size _ _ _ _ _ Hok). apply find_pos_loop_range; lia.
Qed.

(** Whatever the request, its bits are set inside the device's half. *)
Lemma set_bitmap_safe s d bm p m b :
  bm_ok s d bm p m -> inode_ok s d ->
  exists m', ebdr_set_bitmap d b s =
      Some (s <| grain_size := kb_grain_size bm |> <| vmalloc_area ::= fun a => <[d := m']> a |>) /\
    same_shape m m' /\
    forall k, ~ (0 <= k - 8 * kp_off p < kb_size bm) -> mem_bit m' k = mem_bit m k.
Proof.
  intros Hok Hino. unfold ebdr_set_bitmap.
  destruct (find_pos_range s d bm p m (bi_sector b) Hok Hino) as (first & -> & Hf).
  cbn [mbind option_bind]. set (s1 := set_field grain_size _ s).
  assert (Hok1 : bm_ok s1 d bm p m) by (eapply bm_ok_frame; [|exact Hok]; by split).
  destruct (find_pos_range s1 d bm p m (bio_end_sector b) Hok1 Hino) as (last & -> & Hl).
  cbn [mbind option_bind]. pose proof Hok as [G A B M W L S Hh [Z1 Z2] D].
  destruct (set_bits_mem_spec (kp_off p) first last m) as (m' & E & Hs & Hbits); [done|lia..|].
  exists m'. split.
  { unfold ebdr_set_bits. change (s1 <| grain_size := kb_grain_size bm |>) with s1.
    rewrite !i32_id by lia.
    by rewrite (on_area_ok (fun _ base => set_bits_mem base first last) s1 d bm p m m' Hok1 E). }
  split; [done|]. intros k Hk. rewrite Hbits. unfold in_range.
  by replace (_ && (k <=? _)) with false by bool_solve.
Qed.

Lemma request_kwf s d b s' :
  kwf s -> 1 <= d < minor s -> ebdr_make_request d b s = Some s' -> kwf s'.
Proof.
  intros Hwf Hd Hs. destruct Hwf as (Hmin & Hids & Hdev).
  destruct (Hdev d Hd) as (Hino & bm & p & m & Hok).
  assert (Hsub : forall s1, kwf s1 -> ebdr_submit_req_private_bio b d s1 = Some s' -> kwf s').
  { intros s1 Hwf1 Hs1. unfold ebdr_submit_req_private_bio in Hs1.
    destruct (dev_ldev _); [|done]. cbn in Hs1. destruct (backing_bdev _); [|done]. cbn in Hs1.
    simplify_eq. eapply frames_kwf; [apply emit_frames|done]. }
  unfold ebdr_make_request, ebdr_update_bmap_and_sync, ebdr_write_bitmap_and_sync_disk in Hs.
  destruct (bi_write b); cbn in Hs; [|by eapply Hsub].
  destruct (set_bitmap_safe s d bm p m b Hok Hino) as (m' & E & Hsh & _). rewrite E in Hs. cbn in Hs.
  eapply Hsub; [|exact Hs].
  apply (kwf_write (s <| grain_size := kb_grain_size bm |>) d m' bm p m); [|eapply bm_ok_frame; [|exact Hok]; by split|done].
  split; [done|]. split; [done|]. intros i Hi. destruct (Hdev i Hi) as (Hi1 & bmi & pi & mi & Hi2).
  split; [done|]. exists bmi, pi, mi. eapply bm_ok_frame; [|exact Hi2]. by split.
Qed.

Lemma kstep_kwf s s' : kwf s -> kstep s s' -> kwf s'.
Proof.
  intros Hwf Hst. revert Hwf.
  destruct Hst as [env cmd arg s r arg' s' Henv Hcmd E|d b s s' Hd E]; intros Hwf; [|by eapply request_kwf].
  destruct cmd; cbn in E, Hcmd.
  - destruct (ioctl_dev_create env arg s) as [[r1 s1]|] eqn:E1; [|done]. injection E as <- <- <-.
    eapply dev_create_kwf in E1; [apply E1|done..].
  - by simplify_eq.
  - by simplify_eq.
  - simplify_eq. eapply frames_kwf; [apply state_destroy_frames|done].
  - by simplify_eq.
  - by simplify_eq.
  - done.
  - by simplify_eq.
  - destruct (ioctl_flip env arg s) as [[r1 s1]|] eqn:E1; [|done]. injection E as <- <- <-.
    destruct (env_copy_from_user env) eqn:Ec.
    + destruct Hwf as (Hmin & Hids & Hdev). destruct (Hdev _ Hcmd) as (Hino & bm & p & m & Hok).
      destruct (flip_spec env arg s (io_index arg) bm p m) as (s2 & bm' & p' & E2 & Hwf2 & _); try done. congruence.
    + unfold ioctl_flip in E1. rewrite Ec in E1. cbn in E1. by simplify_eq.
  - unfold ioctl_get_grain_size in E. case_match; by simplify_eq.
  - destruct (ioctl_get_user env arg s) as [[r1 s1]|] eqn:E1; [|done]. injection E as <- <- <-.
    eapply frames_kwf; [by eapply get_user_frames|done].
  - eapply frames_kwf; [by eapply search_frames|done].
Qed.

Lemma kreach_kwf s : rtc kstep kinit s -> kwf s.
Proof.
  intros Hr. remember kinit as s0 eqn:E0. assert (Hwf : kwf s0) by (subst; apply kwf_kinit). clear E0.
  induction Hr as [|s1 s2 s3 H12 _ IH]; [done|]. apply IH. by eapply kstep_kwf.
Qed.
End props.

(** ** A concrete module state, for the witnesses

    Two devices, created through the ioctl: 64-bit bitmaps (8 bytes), grains of
    4096 bytes. *)
Definition ex_env : kenv :=
  mk_kenv true true true (fun n => Some (replicate (Z.to_nat n) 0)) true true true true
    (fun _ => Some 7) (fun _ => 1048576).

Definition ex_arg (sz grain idx : Z) : IOCTL := mk_IOCTL (replicate 64 65) grain sz 0 0 idx.

Definition ex_create (arg : IOCTL) (s : kstate) : kstate :=
  match @ioctl_dev_create ex_env arg s with Some (_, s') => s' | None => s end.

Definition ex_state : kstate := ex_create (ex_arg 8 4096 0) (ex_create (ex_arg 8 4096 0) kinit).

#[local] Existing Instance x86_bitops.
#[local] Existing Instance x86_bitops_laws.

Lemma ex_env_ok : env_ok ex_env.
Proof. split; [|done]. intros n m. cbn. congruence. Qed.

Lemma ex_create_kwf arg s r s' :
  kwf s -> size_ok (u_bitmap_size arg) -> ioctl_dev_create ex_env arg s = Some (r, s') ->
  kwf (ex_create arg s).
Proof.
  intros Hwf Hsz E. unfold ex_create. rewrite E. eapply dev_create_kwf; [apply ex_env_ok|done..].
Qed.

Definition ex_bm : ebdr_bitmap := mk_bitmap (Some (mk_kptr 2 0)) 64 4096 char_zero_int B_ALLOCATED KERNEL 2.
Definition ex_bio : bio := mk_bio 12 4096 true [].

Lemma ex_state_ok : bm_ok ex_state 2 ex_bm (mk_kptr 2 0) (replicate 16 0).
Proof.
  split; try (vm_compute; reflexivity).
  - apply wf_replicate.
  - left. by vm_compute.
  - split; [|by vm_compute]. vm_compute. by split.
Qed.

Lemma ex_state_kwf : kwf ex_state.
Proof.
  assert (Hsz : size_ok (u_bitmap_size (ex_arg 8 4096 0))) by (split; [cbn; lia|done]).
  unfold ex_state.
  eapply ex_create_kwf; [eapply ex_create_kwf; [apply kwf_kinit|exact Hsz|vm_compute; reflexivity]|exact Hsz|vm_compute; reflexivity].
Qed.

(** ** The write path *)
Section write_path.
Context `{KBitopsLaws}.

(** The state a write request leaves: the bits of [touched] set in the
    device's area, and the request on its way to the backing device. *)
Lemma write_request_result s d b bm p m i bdev :
  kwf s -> 1 <= d < minor s -> bm_ok s d bm p m ->
  dev_ldev (aget (device s) d) = Some i -> backing_bdev (aget (bd_dev s) i) = Some bdev ->
  bi_write b = true -> bio_ok b ->
  512 <= kb_grain_size bm -> kb_size bm * (kb_grain_size bm / 512) < 2 ^ 64 ->
  exists s' m', ebdr_make_request d b s = Some s' /\ bm_ok s' d bm p m' /\
    kevents s' = kevents s ++ [EvSubmit bdev b] /\
    forall k, mem_bit m' k = touched bm b (k - 8 * kp_off p) || mem_bit m k.
Proof.
  intros Hwf Hd Hok Hl Hb Hw Hbio Hg Hov.
  assert (Hino : inode_ok s d) by by apply Hwf.
  destruct (set_bitmap_spec s d bm p m b Hwf Hok Hino Hg Hov Hbio) as (m' & E & Hs & Hbits).
  set (s0 := s <| grain_size := kb_grain_size bm |>) in E.
  set (s1 := set_field vmalloc_area _ _) in E.
  exists (kemit (EvSubmit bdev b) s1), m'. split.
  { unfold ebdr_make_request, ebdr_update_bmap_and_sync, ebdr_write_bitmap_and_sync_disk.
    rewrite Hw, E. cbn. unfold ebdr_submit_req_private_bio.
    change (device s1) with (device s). rewrite Hl. cbn.
    change (bd_dev s1) with (bd_dev s). by rewrite Hb. }
  split; [|by split].
  apply (bm_ok_frame s1); [by apply Build_frame|]. apply bm_ok_write with m; [|done].
  apply (bm_ok_frame s); [by apply Build_frame|done].
Qed.

(** C9. A write request to an attached device sets exactly the bits of the
    grains from the one of its first sector to the one of the sector after
    its last (clipped to the bitmap), leaves every other bit of both halves
    as it was, keeps the invariant, and is submitted to the backing device
    after that. *)
Theorem make_request_tracks s d b bm p m i bdev :
  kwf s -> 1 <= d < minor s -> bm_ok s d bm p m ->
  dev_ldev (aget (device s) d) = Some i -> backing_bdev (aget (bd_dev s) i) = Some bdev ->
  bi_write b = true -> bio_ok b ->
  512 <= kb_grain_size bm -> kb_size bm * (kb_grain_size bm / 512) < 2 ^ 64 ->
  exists s' m', ebdr_make_request d b s = Some s' /\ kwf s' /\ bm_ok s' d bm p m' /\
    kevents s' = kevents s ++ [EvSubmit bdev b] /\
    forall k, mem_bit m' k = touched bm b (k - 8 * kp_off p) || mem_bit m k.
Proof.
  intros. edestruct write_request_result as (s' & m' & E & ?); [done..|].
  exists s', m'. split; [done|]. split; [by eapply request_kwf|done].
Qed.

(** No change is lost: after a write request every sector it wrote lies
    in a grain whose bit is set (the last bit standing for everything beyond
    the bitmap), and no bit set before is cleared. *)
Theorem written_sectors_marked s d b bm p m i bdev sec :
  kwf s -> 1 <= d < minor s -> bm_ok s d bm p m ->
  dev_ldev (aget (device s) d) = Some i -> backing_bdev (aget (bd_dev s) i) = Some bdev ->
  bi_write b = true -> bio_ok b ->
  512 <= kb_grain_size bm -> kb_size bm * (kb_grain_size bm / 512) < 2 ^ 64 ->
  bi_sector b <= sec < bi_sector b + bi_size b / 512 ->
  exists s' m', ebdr_make_request d b s = Some s' /\ bm_ok s' d bm p m' /\
    mem_bit m' (8 * kp_off p + Z.min (sec / (kb_grain_size bm / 512)) (kb_size bm - 1)) = true /\
    (forall k, mem_bit m k = true -> mem_bit m' k = true).
Proof.
  intros Hwf Hd Hok Hl Hb Hw Hbio Hg Hov Hsec.
  edestruct write_request_result as (s' & m' & E & Hok' & _ & Hbits); [done..|].
  exists s', m'. split; [done|]. split; [done|]. split.
  - rewrite Hbits. unfold touched, in_range. destruct Hbio as (? & ? & ?).
    set (g := kb_grain_size bm / 512) in *. assert (0 < g) by (unfold g; lia).
    assert (bi_sector b / g <= sec / g) by (apply Z.div_le_mono; lia).
    assert (sec / g <= (bi_sector b + bi_size b / 512) / g) by (apply Z.div_le_mono; lia).
    apply orb_true_iff. left. apply andb_true_iff. split; apply Z.leb_le; lia.
  - intros k Hk. rewrite Hbits, Hk. apply orb_true_r.
Qed.

(** [ebdr_find_pos] is the quotient of the sector by the sectors of a
    grain, clipped to the last bit of the bitmap. *)
Theorem find_pos_quotient s d bm p m addr :
  bm_ok s d bm p m -> inode_ok s d ->
  512 <= kb_grain_size bm -> kb_size bm * (kb_grain_size bm / 512) < 2 ^ 64 -> 0 <= addr ->
  exists s', ebdr_find_pos d addr s =
    Some (Z.min (addr / (kb_grain_size bm / 512)) (kb_size bm - 1), s') /\
    vmalloc_area s' = vmalloc_area s /\ grain_size s' = kb_grain_size bm.
Proof. intros. eexists. split; [by eapply find_pos_ok|done]. Qed.

(** A grain size below one sector, which the creation ioctl accepts,
    disables the tracking: every write marks the last bit and no other. *)
Theorem small_grain_marks_last s d b bm p m :
  bm_ok s d bm p m -> inode_ok s d -> 0 <= kb_grain_size bm < 512 -> 0 <= bi_sector b ->
  exists s' m', ebdr_set_bitmap d b s = Some s' /\ vmalloc_area s' !! d = Some m' /\
    forall k, mem_bit m' k = (k =? 8 * kp_off p + kb_size bm - 1) || mem_bit m k.
Proof.
  intros Hok [x Hx] Hg Hsec.
  assert (Hpos : forall s addr, get_bmap d s = Some bm -> dev_this_bdev (aget (device s) d) = Some x ->
    0 <= addr -> ebdr_find_pos d addr s = Some (kb_size bm - 1, s <| grain_size := kb_grain_size bm |>)).
  { intros s0 addr Hget Hx0 Haddr. unfold ebdr_find_pos. rewrite Hget. cbn. rewrite Hx0. cbn.
    rewrite Z.shiftr_div_pow2 by lia. rewrite Z.div_small by lia. do 2 f_equal.
    pose proof (bo_sz _ _ _ _ _ Hok) as [Hsz _]. pose proof (bo_size _ _ _ _ _ Hok) as Hkb.
    rewrite find_pos_loop_zero by done. apply u64_id. lia. }
  unfold ebdr_set_bitmap. rewrite Hpos by (try done; apply Hok). cbn [mbind option_bind].
  set (s1 := set_field grain_size _ s).
  assert (Hok1 : bm_ok s1 d bm p m) by (eapply bm_ok_frame; [|exact Hok]; by split).
  rewrite Hpos; [|apply Hok1|done|apply u64_range]. cbn [mbind option_bind].
  pose proof Hok as [G A B M W L S Hh [Z1 Z2] D].
  destruct (set_bits_mem_spec (kp_off p) (kb_size bm - 1) (kb_size bm - 1) m) as (m' & E & Hs & Hbits);
    [done|lia..|].
  unfold ebdr_set_bits. change (s1 <| grain_size := kb_grain_size bm |>) with s1. rewrite !i32_id by lia.
  rewrite (on_area_ok (fun _ base => set_bits_mem base (kb_size bm - 1) (kb_size bm - 1)) s1 d bm p m m' Hok1 E).
  do 2 eexists. split; [done|]. split; [cbn; by rewrite lookup_insert_eq|].
  intros k. rewrite Hbits. unfold in_range. f_equal. bool_solve.
Qed.
End write_path.

Lemma make_request_tracks_witness :
  exists s' m', ebdr_make_request 2 ex_bio ex_state = Some s' /\ kwf s' /\
    bm_ok s' 2 ex_bm (mk_kptr 2 0) m' /\
    kevents s' = kevents ex_state ++ [EvSubmit 7 ex_bio] /\
    forall k, mem_bit m' k = touched ex_bm ex_bio (k - 8 * 0) || mem_bit (replicate 16 0) k.
Proof.
  apply (make_request_tracks ex_state 2 ex_bio ex_bm (mk_kptr 2 0) (replicate 16 0) 2 7);
    try (vm_compute; reflexivity); try exact ex_state_kwf; try exact ex_state_ok.
  - vm_compute. by split.
  - split; [|split; [split|]]; cbn; lia.
  - cbn. lia.
Defined.

Lemma written_sectors_marked_witness :
  exists s' m', ebdr_make_request 2 ex_bio ex_state = Some s' /\ bm_ok s' 2 ex_bm (mk_kptr 2 0) m' /\
    mem_bit m' (8 * 0 + Z.min (15 / 8) 63) = true /\
    (forall k, mem_bit (replicate 16 0) k = true -> mem_bit m' k = true).
Proof.
  apply (written_sectors_marked ex_state 2 ex_bio ex_bm (mk_kptr 2 0) (replicate 16 0) 2 7 15);
    try (vm_compute; reflexivity); try exact ex_state_kwf; try exact ex_state_ok.
  - vm_compute. by split.
  - split; [|split; [split|]]; cbn; lia.
  - cbn. lia.
  - cbn. lia.
Defined.

Lemma find_pos_quotient_witness :
  exists s', ebdr_find_pos 2 100 ex_state = Some (Z.min (100 / 8) 63, s') /\
    vmalloc_area s' = vmalloc_area ex_state /\ grain_size s' = 4096.
Proof.
  apply (find_pos_quotient ex_state 2 ex_bm (mk_kptr 2 0) (replicate 16 0) 100);
    [exact ex_state_ok|eexists; vm_compute; reflexivity|cbn; lia|cbn; lia|lia].
Defined.

Definition ex_state_small : kstate := ex_create (ex_arg 8 100 0) kinit.

Definition ex_bm_small : ebdr_bitmap := mk_bitmap (Some (mk_kptr 1 0)) 64 100 char_zero_int B_ALLOCATED KERNEL 1.

Lemma small_grain_marks_last_witness :
  exists s' m', ebdr_set_bitmap 1 ex_bio ex_state_small = Some s' /\ vmalloc_area s' !! 1 = Some m' /\
    forall k, mem_bit m' k = (k =? 8 * 0 + 64 - 1) || mem_bit (replicate 16 0) k.
Proof.
  apply (small_grain_marks_last ex_state_small 1 ex_bio ex_bm_small (mk_kptr 1 0) (replicate 16 0)).
  - split; try (vm_compute; reflexivity).
    + apply wf_replicate.
    + left. by vm_compute.
    + split; [|by vm_compute]. vm_compute. by split.
  - eexists; vm_compute; reflexivity.
  - cbn. lia.
  - cbn. lia.
Defined.
