(* ===== verification/KernelIoctls.v ===== *)
(** * Properties of the ioctls and of the bitmap routines of the kernel module

    Safety of every reachable state, creation and its failure path, the flip of
    the two halves, the equivalence of the word-wise and the bit-wise setters,
    and the defects of EBDRCTL_SET_GRAIN_SIZE and of a failed creation. *)
From S2P Require Import Prelude Memory KernelState KBitmap KBitmapSpec KernelMain KernelInv KernelSteps KernelProps.

#[local] Existing Instance x86_bitops.
#[local] Existing Instance x86_bitops_laws.

Section reachable.
Context `{KBitopsLaws}.

(** C12. In every state the module can reach by its ioctls (the grain size set
    at creation) and requests, every request to an attached device is served
    without leaving the device's memory area, and is submitted to the backing
    device as its last effect. *)
Theorem reachable_requests_safe s d b i bdev :
  rtc kstep kinit s -> 1 <= d < minor s ->
  dev_ldev (aget (device s) d) = Some i -> backing_bdev (aget (bd_dev s) i) = Some bdev ->
  exists s', ebdr_make_request d b s = Some s' /\ kevents s' = kevents s ++ [EvSubmit bdev b] /\ kwf s'.
Proof.
  intros Hr Hd Hl Hb. pose proof (kreach_kwf s Hr) as Hwf.
  assert (Hreq : exists s', ebdr_make_request d b s = Some s' /\ kevents s' = kevents s ++ [EvSubmit bdev b]).
  { destruct Hwf as (_ & _ & Hdev). destruct (Hdev d Hd) as (Hino & bm & p & m & Hok).
    unfold ebdr_make_request, ebdr_update_bmap_and_sync, ebdr_write_bitmap_and_sync_disk, ebdr_submit_req_private_bio.
    destruct (bi_write b).
    - destruct (set_bitmap_safe s d bm p m b Hok Hino) as (m' & -> & _). cbn. rewrite Hl. cbn. rewrite Hb. by eexists.
    - cbn. rewrite Hl. cbn. rewrite Hb. by eexists. }
  destruct Hreq as (s' & E & Hev). exists s'. split; [done|]. split; [done|]. by eapply request_kwf.
Qed.

(** EBDR_FLIP_BITMAP_AREA on a created device redirects tracking to the
    other half of its area and keeps every bit of both halves; two flips in a
    row bring the first half back.  The invariant holds throughout. *)
Theorem flip_twice env arg s bm p m :
  kwf s -> 1 <= io_index arg < minor s -> bm_ok s (io_index arg) bm p m -> env_copy_from_user env = true ->
  exists s1 s2 bm1 p1 bm2,
    ioctl_flip env arg s = Some (0, s1) /\ bm_ok s1 (io_index arg) bm1 p1 m /\
    kb_user bm1 = 1 - kb_user bm /\ kp_off p1 = area_sz s (io_index arg) - kp_off p /\
    ioctl_flip env arg s1 = Some (0, s2) /\ bm_ok s2 (io_index arg) bm2 p m /\ kb_user bm2 = kb_user bm /\ kwf s2.
Proof.
  intros Hwf Hi Hok Hc.
  destruct (flip_spec env arg s _ bm p m Hwf eq_refl Hi Hok Hc)
    as (s1 & bm1 & p1 & E1 & Hwf1 & Hok1 & Hu1 & Hp1 & Hv1 & Hm1 & Ha1 & _).
  destruct (flip_spec env arg s1 _ bm1 p1 m Hwf1 eq_refl ltac:(lia) Hok1 Hc)
    as (s2 & bm2 & p2 & E2 & Hwf2 & Hok2 & Hu2 & Hp2 & _).
  exists s1, s2, bm1, p1, bm2. split_and!; try done.
  - replace p with p2; [done|]. pose proof (bo_blk _ _ _ _ _ Hok). pose proof (bo_blk _ _ _ _ _ Hok2).
    destruct p, p2; cbn in *. f_equal; [congruence|]. rewrite Ha1 in Hp2. lia.
  - lia.
Qed.

(** C23. [ebdr_bm_set_bits], which sets whole words and pages where it can,
    computes the same state as the bit-by-bit [ebdr_bm_change_bits]. *)
Theorem bm_set_bits_is_change_bits s d bm p m begin fin :
  bm_ok s d bm p m -> 0 <= begin <= fin -> fin < kb_size bm ->
  ebdr_bm_set_bits d begin fin s = ebdr_bm_change_bits d begin fin BM_SET_BITS s.
Proof.
  intros Hok Hb Hf. pose proof Hok as [G A B M W L S Hh [Z1 Z2] D].
  assert (Hoff : 0 <= kp_off p /\ kp_off p + area_sz s d <= Z.of_nat (length m)) by lia.
  destruct (bm_set_bits_sets (kb_size bm) (kp_off p) begin fin m) as (m1 & E1 & S1); try done; try lia.
  destruct (change_bits_sets (kb_size bm) (kp_off p) begin fin m) as (m2 & E2 & S2); try done; try lia.
  unfold ebdr_bm_set_bits, ebdr_bm_change_bits.
  rewrite (on_area_ok (fun bm base => bm_set_bits_mem (kb_size bm) base begin fin) s d bm p m m1) by done.
  rewrite (on_area_ok (fun bm base => change_bits_mem (kb_size bm) base begin fin BM_SET_BITS) s d bm p m m2) by done.
  by rewrite (sets_unique _ _ _ _ _ _ W S1 S2).
Qed.

(** Setting or clearing a range changes exactly the bits of the range that
    lie on the first five 4096-byte pages; the rest of the device's area, the
    other half included, keeps its bits. *)
Theorem change_bits_exact s d bm p m start fin arg :
  bm_ok s d bm p m -> 0 <= start -> fin < kb_size bm ->
  exists m', ebdr_bm_change_bits d start fin arg s = Some (s <| vmalloc_area ::= fun a => <[d := m']> a |>) /\
    same_shape m m' /\
    forall k, mem_bit m' (8 * kp_off p + k) =
      if in_range start fin k && (k <? page_limit) then arg =? BM_SET_BITS
      else mem_bit m (8 * kp_off p + k).
Proof.
  intros Hok Hs Hf. pose proof Hok as [G A B M W L S Hh [Z1 Z2] D].
  destruct (change_bits_mem_spec (kb_size bm) (kp_off p) start fin arg m) as (m' & E & Hsh & Hbits); try done; try lia.
  exists m'. split; [|split; [done|]].
  - by apply (on_area_ok (fun bm base => change_bits_mem (kb_size bm) base start fin arg) s d bm p m m').
  - intros k. rewrite Hbits. unfold changed, in_range.
    replace (8 * kp_off p + k <? 8 * kp_off p + page_limit) with (k <? page_limit) by bool_solve.
    by replace ((8 * kp_off p + start <=? 8 * kp_off p + k) && (8 * kp_off p + k <=? 8 * kp_off p + fin))
      with ((start <=? k) && (k <=? fin)) by bool_solve.
Qed.

(** [ebdr_clear_bmap] clears the half in use and only it. *)
Theorem clear_bmap_exact s d bm p m :
  bm_ok s d bm p m ->
  exists m', ebdr_clear_bmap d s = Some (s <| vmalloc_area ::= fun a => <[d := m']> a |>) /\
    same_shape m m' /\
    forall k, mem_bit m' (8 * kp_off p + k) = negb (in_range 0 (kb_size bm - 1) k) && mem_bit m (8 * kp_off p + k).
Proof.
  intros Hok. pose proof Hok as [G A B M W L S Hh Hz D].
  destruct (clear_bmap_mem_spec (area_sz s d) (kp_off p) m) as (m' & E & Hsh & Hbits); try done; try (destruct Hz; lia).
  exists m'. split; [|split; [done|]].
  - apply (on_area_ok (fun bm base => clear_bmap_mem (kb_size bm) base) s d bm p m m'); [done|]. by rewrite S.
  - intros k. rewrite Hbits. f_equal. f_equal. unfold in_range. rewrite S. bool_solve.
Qed.
End reachable.

(** ** Creation *)
Lemma blkdev_destroy_ldev d mn s j :
  dev_ldev (aget (device (ebdr_blkdev_destroy d mn s)) j) =
  if decide (d = j) then None else dev_ldev (aget (device s) j).
Proof.
  set (P s' := dev_ldev (aget (device s') j) = if decide (d = j) then None else dev_ldev (aget (device s) j)).
  change (P (ebdr_blkdev_destroy d mn s)).
  assert (Hemit : forall e s', P s' -> P (kemit e s')) by done.
  cbv beta delta [ebdr_blkdev_destroy].
  set (s1 := set_field device _ s).
  assert (H1 : P s1). { unfold P. cbn. rewrite aget_aset. by case_decide; subst. }
  clearbody s1. cbv zeta. apply Hemit.
  assert (Htail : forall s2, P s2 -> P (match dev_this_bdev (aget (device match aget (blkdev s2) mn with
      | Some bdev => kemit (EvBlkdevPut bdev) s2 | None => s2 end) d) with
    | Some _ => kemit (EvBdput d) match aget (blkdev s2) mn with
      | Some bdev => kemit (EvBlkdevPut bdev) s2 | None => s2 end
    | None => match aget (blkdev s2) mn with
      | Some bdev => kemit (EvBlkdevPut bdev) s2 | None => s2 end end)).
  { intros s2 H2. destruct (aget (blkdev s2) mn); case_match; by repeat apply Hemit. }
  destruct (dev_vdisk (aget (device s1) d)); apply Htail; [|exact H1].
  unfold P in H1 |- *. cbn. rewrite aget_aset. destruct (decide (d = j)) as [->|]; exact H1.
Qed.

Lemma state_destroy_ldev s j :
  1 <= j < minor s -> dev_ldev (aget (device (state_destroy s)) j) = None.
Proof.
  intros Hj. unfold state_destroy.
  assert (Hin : j ∈ zseq 1 (minor s - 1)) by (apply elem_of_zseq; lia).
  assert (Hkeep : forall l s, dev_ldev (aget (device s) j) = None ->
    dev_ldev (aget (device (foldl (fun s i => ebdr_blkdev_destroy i i s) s l)) j) = None).
  { intros l. induction l as [|i l IH]; intros s0 H0; cbn [foldl]; [done|].
    apply IH. rewrite blkdev_destroy_ldev. by case_decide. }
  clear Hj. revert Hin. generalize (zseq 1 (minor s - 1)) as l. intros l. revert s.
  induction l as [|i l IH]; intros s Hin; [by apply elem_of_nil in Hin|].
  cbn [foldl]. apply elem_of_cons in Hin as [<-|Hin].
  - apply Hkeep. rewrite blkdev_destroy_ldev. by rewrite decide_True.
  - by apply IH.
Qed.

Section creation.
Context `{KBitopsLaws}.
Variable env : kenv.
Hypothesis Henv : env_ok env.

(** Every service answers, but the path of the backing disk does not resolve. *)
Record bad_path_env (arg : IOCTL) : Prop := {
  bp_copy : env_copy_from_user env = true;
  bp_class : env_class_create env = true;
  bp_queue : env_blk_alloc_queue env = true;
  bp_disk : env_alloc_disk env = true;
  bp_bdget : env_bdget env = true;
  bp_vmalloc : is_Some (env_vmalloc_user env (2 * u_bitmap_size arg));
  bp_path : env_blkdev_get_by_path env (src_disk arg) = None;
}.

Lemma state_create_bad_path arg s m :
  bad_path_env arg -> k_ioctl_obj s = arg -> slot_ready s m -> ids_ok s -> inb MAX_MINOR (minor s) = true ->
  exists s', state_create env s = Some (-1, s').
Proof.
  intros [_ _ Hq Hd Hb _ Hp] Harg [Hm Hwf Hsz Hlen] Hids Hmax.
  unfold state_create, ebdr_device_create. rewrite Hmax. cbn beta zeta.
  set (s1 := set_field device _ s).
  assert (Hslot1 : slot_ready s1 m) by by split.
  destruct (init_bmap_new env s1 m (eo_kzalloc _ Henv) Hids Hslot1) as (s2 & bm & m2 & E2 & F2 & _).
  { cbn. by rewrite aget_aset_eq. }
  change (minor s) with (minor s1) at 1. rewrite E2. cbn.
  assert (Hobj : k_ioctl_obj s2 = arg).
  { unfold ebdr_init_bmap, ebdr_clear_bmap in E2. rewrite (eo_kzalloc _ Henv) in E2.
    destruct (on_area _ _ _) as [s3|] eqn:E3 in E2; [|done]. cbn in E2. injection E2 as <-.
    apply on_area_inv in E3 as (? & ? & ? & ? & _ & _ & _ & _ & ->). exact Harg. }
  assert (Hm2 : minor s2 = minor s) by by rewrite (frs_minor _ _ F2).
  unfold state_blkdev_create, ebdr_blkdev_create. rewrite Hq, Hd, Hb. cbn.
  unfold state_attach, ebdr_device_attach_blkdev. cbn. rewrite Hm2, Hmax, Hobj, Hp. cbn. by eexists.
Qed.

(** C33. A creation whose backing disk cannot be opened reports the positive
    code MEMCTL_DEV_REG_ERROR and detaches every device created before it: any
    later read request to one of them dereferences a null [ldev]. *)
Theorem failed_create_detaches_all arg s :
  kwf s -> size_ok (u_bitmap_size arg) -> minor s < MAX_MINOR -> bad_path_env arg ->
  exists s', ioctl_dev_create env arg s = Some (MEMCTL_DEV_REG_ERROR, s') /\ 0 < MEMCTL_DEV_REG_ERROR /\
    kwf s' /\ minor s' = minor s /\
    forall d b, 1 <= d < minor s -> bi_write b = false -> ebdr_make_request d b s' = None.
Proof.
  intros Hwf Hsz Hmin Hbad. pose proof Hbad as [Hc Hcl _ _ _ [m Hv] _].
  assert (Hmax : inb MAX_MINOR (minor s) = true) by (apply inb_true; destruct Hwf; lia).
  assert (Hrun : exists s4, ioctl_dev_create env arg s = Some (MEMCTL_DEV_REG_ERROR, ebdr_minor_cleanup (minor s4) s4) /\
    minor s4 = minor s).
  { unfold ioctl_dev_create. rewrite Hc. cbn [negb]. cbn beta zeta.
    set (s1 := set_field vmalloc_area_sz _ _).
    change (minor (set_field k_ioctl_obj _ s)) with (minor s). rewrite Hmax. cbn [negb].
    unfold ebdr_alloc_memory_mmap. change (minor s1) with (minor s). rewrite Hmax.
    assert (Hsz1 : aget (vmalloc_area_sz s1) (minor s) = u_bitmap_size arg) by (apply (aget_aset_eq (vmalloc_area_sz s))).
    rewrite Hsz1. unfold size_ok in Hsz. rewrite u64_id by lia. rewrite Hv. cbn [mbind option_bind].
    change (negb (0 =? 0)) with false. cbv iota.
    set (s2 := set_field vmalloc_area _ s1). change (minor s2) with (minor s).
    unfold ebdr_register_kernel_memctl_device. rewrite Hmax, Hcl. cbn [mbind option_bind].
    change (negb (0 =? 0)) with false. cbv iota.
    set (s3 := set_field memctl_dev _ s2).
    assert (Hslot : slot_ready s3 m).
    { pose proof (eo_vmalloc _ Henv _ _ Hv) as ->. split; unfold area_sz; change (minor s3) with (minor s);
        change (vmalloc_area_sz s3) with (vmalloc_area_sz s1); rewrite ?Hsz1.
      - cbn. by rewrite lookup_insert_eq.
      - apply wf_replicate.
      - done.
      - rewrite length_replicate. lia. }
    destruct (state_create_bad_path arg s3 m) as (s4 & E4); try done; [by apply Hwf|].
    rewrite E4. cbn [mbind option_bind]. change (-1 <? 0) with true. cbv iota. exists s4. split; [done|].
    destruct (state_create_spec env Henv s3 m (-1) s4) as [F _]; try done; [destruct Hwf; cbn; lia|by apply Hwf|].
    by rewrite (frs_minor _ _ F). }
  destruct Hrun as (s4 & E & Hm4). exists (ebdr_minor_cleanup (minor s4) s4). split; [done|].
  split; [by vm_compute|].
  destruct (dev_create_kwf env Henv arg s _ _ Hwf Hsz E) as [Hwf' Hm']. split; [done|]. split; [done|].
  intros d b Hd Hr. unfold ebdr_make_request, ebdr_update_bmap_and_sync, ebdr_write_bitmap_and_sync_disk.
  rewrite Hr. cbn. unfold ebdr_submit_req_private_bio.
  assert (Hld : dev_ldev (aget (device (ebdr_minor_cleanup (minor s4) s4)) d) = None).
  { unfold ebdr_minor_cleanup, ebdr_free_vmalloc_area. 
    cbn. destruct (vmalloc_area (state_destroy s4) !! minor s4); apply state_destroy_ldev; lia. }
  by rewrite Hld.
Qed.
End creation.

(** ** EBDRCTL_SET_GRAIN_SIZE *)

(** EBDRCTL_SET_GRAIN_SIZE addressed to device 1 of [ex_state] (two devices,
    [minor] = 3) leaves device 1 alone and changes the bitmap of device 2, the
    last one created; the size it stores is kept in the slot of the next minor,
    not in that of any device. *)
Theorem set_grain_hits_last_device :
  exists s1 bm1 bm2,
    ioctl_set_grain_size ex_env (ex_arg 4096 512 1) ex_state = Some (0, s1) /\
    get_bmap 1 s1 = get_bmap 1 ex_state /\ get_bmap 1 s1 = Some bm1 /\ kb_grain_size bm1 = 4096 /\
    get_bmap 2 s1 = Some bm2 /\ kb_grain_size bm2 = 512 /\ kb_size bm2 = 32768 /\
    area_sz s1 1 = 8 /\ area_sz s1 2 = 8 /\ area_sz s1 3 = 4096.
Proof. do 3 eexists. split; [vm_compute; reflexivity|]. split_and!; vm_compute; reflexivity. Qed.

Lemma x86_set_bit_fault nr off m :
  wf_mem m -> Z.of_nat (length m) < off + 8 * (nr / 64) + 8 -> kset_bit nr off m = None.
Proof.
  intros Hwf Hl. unfold kset_bit, x86_bitops, word_rmw, load.
  destruct (in_buffer 8 m _) eqn:E; [|done]. apply in_buffer_spec in E. lia.
Qed.

Lemma set_bits_mem_fault base first last m :
  wf_mem m -> 0 <= base -> 0 <= first <= last -> Z.of_nat (length m) < base + 8 * (last / 64) + 8 ->
  set_bits_mem base first last m = None.
Proof.
  intros Hwf Hb Hf Hl. unfold set_bits_mem.
  remember (Z.to_nat (last - first + 1)) as n eqn:En. revert first m Hwf Hf Hl En.
  induction n as [|n IH]; intros first m Hwf Hf Hl En; [lia|]. cbn [iter_up].
  destruct (Z.le_gt_cases (base + 8 * (first / 64) + 8) (Z.of_nat (length m))) as [Hin|Hout].
  - destruct (kset_bit_spec first base m) as (m1 & -> & Hs & _); [done|lia..|]. cbn [mbind option_bind].
    destruct (decide (first = last)) as [->|]; [lia|].
    apply IH; [by apply Hs|lia| |lia]. by rewrite (shape_len _ _ Hs).
  - by rewrite x86_set_bit_fault.
Qed.

Lemma find_pos_min d bm x addr n g s :
  get_bmap d s = Some bm -> dev_this_bdev (aget (device s) d) = Some x -> 0 <= addr ->
  kb_size bm = n -> kb_grain_size bm / 512 = g -> 0 < n -> 0 < g -> n * g < 2 ^ 64 ->
  ebdr_find_pos d addr s = Some (Z.min (addr / g) (n - 1), s <| grain_size := kb_grain_size bm |>).
Proof.
  intros Gt Ht Ha En Eg Hn Hg Hov. unfold ebdr_find_pos. rewrite Gt. cbn [mbind option_bind]. rewrite Ht. cbn [mbind option_bind].
  do 2 f_equal. rewrite Z.shiftr_div_pow2 by lia. change (2 ^ 9) with 512. rewrite En, Eg.
  apply find_pos_loop_spec; nia.
Qed.

Lemma bio_end_sector_ok b : bio_ok b -> bio_end_sector b = bi_sector b + bi_size b / 512.
Proof.
  intros (Hs & Hsz & Hov). unfold bio_end_sector, bio_sectors. rewrite Z.shiftr_div_pow2 by lia. change (2 ^ 9) with 512.
  apply u64_id. assert (0 <= bi_size b / 512) by (apply Z.div_pos; lia). lia.
Qed.

(** C34. Sent to any device that exists, EBDRCTL_SET_GRAIN_SIZE succeeds and gives
    the bitmap of the last device created the new number of grains without
    enlarging its memory area: from then on every write to that device whose
    end lies in a grain beyond the area sets bits outside it.  The guarantee of
    [reachable_requests_safe] needs the exclusion of this ioctl. *)
Theorem set_grain_breaks_bounds env arg s d bm p m :
  env_copy_from_user env = true -> kwf s -> minor s < MAX_MINOR -> 1 <= io_index arg < minor s ->
  1 <= d < minor s -> bm_ok s d bm p m -> bitmap s = dev_bitmap (aget (device s) d) ->
  let n := 8 * u_bitmap_size arg in let g := u_grain_size arg / 512 in
  0 < n <= 2 ^ 31 -> 0 < g -> n * g < 2 ^ 64 ->
  exists s1, ioctl_set_grain_size env arg s = Some (0, s1) /\
    forall w, bio_ok w -> bi_write w = true ->
      16 * area_sz s d <= 8 * kp_off p + Z.min ((bi_sector w + bi_size w / 512) / g) (n - 1) ->
      ebdr_make_request d w s1 = None.
Proof.
  intros Hc Hwf Hmx Hi Hd Hok Hlast n g Hn Hg Hov. destruct Hwf as (Hmin & _ & Hall).
  destruct (Hall (io_index arg) Hi) as (_ & bmi & pi & mi & Hbi). destruct (Hall d Hd) as ([x Hx] & _).
  pose proof Hok as [G A B M W L S Hh [Z1 Z2] D]. unfold MAX_MINOR in *.
  unfold get_bmap in G. destruct (dev_bitmap (aget (device s) d)) as [b|] eqn:Hb; [|done]. cbn [mbind option_bind] in G.
  unfold ioctl_set_grain_size. rewrite Hc. cbn [negb].
  rewrite (proj2 (inb_spec _ _)) by (unfold MAX_MINOR; lia). cbn [negb].
  change (get_bmap _ (set_field k_ioctl_obj _ s)) with (get_bmap (io_index arg) s). rewrite (bo_get _ _ _ _ _ Hbi). cbn [mbind option_bind].
  rewrite (proj2 (inb_spec _ _)) by (unfold MAX_MINOR; cbn; lia). cbn [negb].
  match goal with |- context [bitmap ?t] => change (bitmap t) with (bitmap s) end. rewrite Hlast. cbn [mbind option_bind].
  match goal with |- context [bitmaps ?t !! b] => change (bitmaps t) with (bitmaps s) end. rewrite G. cbn [mbind option_bind].
  eexists. split; [reflexivity|]. intros w Hbio Hw Hend. pose proof Hbio as (Hw1 & Hw2 & Hw3).
  match goal with |- ebdr_make_request d w ?s0 = _ => set (s1 := s0) end.
  set (bm1 := bm <| kb_grain_size := u_grain_size arg |> <| kb_size := n |>).
  assert (G1 : get_bmap d s1 = Some bm1).
  { unfold get_bmap, s1. cbn. rewrite Hb. cbn. rewrite lookup_insert_eq. unfold bm1. do 2 f_equal.
    unfold aget. rewrite lookup_insert_eq. unfold n in *. rewrite (Z.mul_comm _ 8). change (default zeroed (Some (u_bitmap_size arg))) with (u_bitmap_size arg). by rewrite u64_id by lia. }
  unfold ebdr_make_request, ebdr_update_bmap_and_sync. rewrite Hw. unfold ebdr_set_bitmap.
  rewrite bio_end_sector_ok by done. assert (0 <= bi_size w / 512) by (apply Z.div_pos; lia).
  rewrite (find_pos_min d bm1 x _ n g s1) by (done || lia). cbn [mbind option_bind].
  rewrite (find_pos_min d bm1 x _ n g) by (done || lia). cbn [mbind option_bind].
  assert (Hq : 0 <= bi_sector w / g <= (bi_sector w + bi_size w / 512) / g) by (split; [apply Z.div_pos|apply Z.div_le_mono]; lia).
  unfold ebdr_set_bits, on_area. change (get_bmap d _) with (get_bmap d s1). rewrite G1. cbn [mbind option_bind].
  change (kb_area bm1) with (kb_area bm). rewrite A. cbn [mbind option_bind]. rewrite B. unfold with_block.
  match goal with |- context [vmalloc_area ?t !! d] => change (vmalloc_area t) with (vmalloc_area s) end. rewrite M. cbn [mbind option_bind].
  rewrite !i32_id by lia. rewrite set_bits_mem_fault; [done|done|destruct Hh as [[_ ->]|[_ ->]]; lia|lia|].
  rewrite L. set (l := Z.min _ _) in *. pose proof (Z.div_mod l 64 ltac:(lia)). pose proof (Z.mod_pos_bound l 64 ltac:(lia)). lia.
Qed.

(** A request with [index] 0, the value the daemon sends, dereferences the
    bitmap of device 0, which is null: devices are created from 1 on. *)
Theorem set_grain_index0_null env arg s :
  dev_bitmap (aget (device s) 0) = None -> env_copy_from_user env = true -> io_index arg = 0 ->
  ioctl_set_grain_size env arg s = None.
Proof.
  intros Hd Hc Hi. unfold ioctl_set_grain_size. rewrite Hc, Hi. cbn [negb].
  change (inb MAX_MINOR 0) with true. cbn [negb]. unfold get_bmap. cbn. by rewrite Hd.
Qed.

(** ** Witnesses *)
Lemma ex_state_reach : rtc (@kstep x86_bitops) kinit ex_state.
Proof.
  eapply rtc_l; [|eapply rtc_l; [|apply rtc_refl]].
  - eapply (ks_ioctl ex_env EBDRCTL_DEV_CREATE (ex_arg 8 4096 0)); [apply ex_env_ok|by split|vm_compute; reflexivity].
  - eapply (ks_ioctl ex_env EBDRCTL_DEV_CREATE (ex_arg 8 4096 0)); [apply ex_env_ok|by split|].
    vm_compute; reflexivity.
Qed.

Lemma reachable_requests_safe_witness :
  exists s', ebdr_make_request 2 ex_bio ex_state = Some s' /\
    kevents s' = kevents ex_state ++ [EvSubmit 7 ex_bio] /\ kwf s'.
Proof.
  apply (reachable_requests_safe ex_state 2 ex_bio 2 7 ex_state_reach);
    [vm_compute; by split|vm_compute; reflexivity|vm_compute; reflexivity].
Defined.

Lemma set_grain_breaks_bounds_witness :
  ebdr_make_request 2 (mk_bio 200 4096 true []) ex_state <> None /\
  exists s1, ioctl_set_grain_size ex_env (ex_arg 4096 512 1) ex_state = Some (0, s1) /\
    ebdr_make_request 2 (mk_bio 200 4096 true []) s1 = None.
Proof.
  split; [vm_compute; congruence|].
  destruct (set_grain_breaks_bounds ex_env (ex_arg 4096 512 1) ex_state 2 ex_bm (mk_kptr 2 0) (replicate 16 0)) as (s1 & E & Hs);
    [done|exact ex_state_kwf|vm_compute; reflexivity|vm_compute; by split|vm_compute; by split|exact ex_state_ok|vm_compute; reflexivity
    |vm_compute; by split|vm_compute; reflexivity|vm_compute; reflexivity|].
  exists s1. split; [exact E|]. apply Hs; [split; [|split]; cbn; lia|done|vm_compute; congruence].
Defined.

Lemma flip_twice_witness :
  exists s1 s2 bm1 p1 bm2,
    ioctl_flip ex_env (ex_arg 8 4096 2) ex_state = Some (0, s1) /\ bm_ok s1 2 bm1 p1 (replicate 16 0) /\
    kb_user bm1 = 1 - 0 /\ kp_off p1 = area_sz ex_state 2 - 0 /\
    ioctl_flip ex_env (ex_arg 8 4096 2) s1 = Some (0, s2) /\
    bm_ok s2 2 bm2 (mk_kptr 2 0) (replicate 16 0) /\ kb_user bm2 = 0 /\ kwf s2.
Proof.
  apply (flip_twice ex_env (ex_arg 8 4096 2) ex_state ex_bm (mk_kptr 2 0) (replicate 16 0));
    [exact ex_state_kwf|vm_compute; split; congruence|exact ex_state_ok|reflexivity].
Defined.

Lemma bm_set_bits_is_change_bits_witness :
  ebdr_bm_set_bits 2 3 40 ex_state = ebdr_bm_change_bits 2 3 40 BM_SET_BITS ex_state.
Proof.
  apply (bm_set_bits_is_change_bits ex_state 2 ex_bm (mk_kptr 2 0) (replicate 16 0) 3 40);
    [exact ex_state_ok|lia|cbn; lia].
Defined.

Lemma change_bits_exact_witness :
  exists m', ebdr_bm_change_bits 2 3 40 BM_SET_BITS ex_state =
      Some (ex_state <| vmalloc_area ::= fun a => <[2 := m']> a |>) /\
    same_shape (replicate 16 0) m' /\
    forall k, mem_bit m' (8 * 0 + k) =
      if in_range 3 40 k && (k <? page_limit) then BM_SET_BITS =? BM_SET_BITS
      else mem_bit (replicate 16 0) (8 * 0 + k).
Proof.
  apply (change_bits_exact ex_state 2 ex_bm (mk_kptr 2 0) (replicate 16 0) 3 40 BM_SET_BITS);
    [exact ex_state_ok|lia|cbn; lia].
Defined.

Lemma clear_bmap_exact_witness :
  exists m', ebdr_clear_bmap 2 ex_state = Some (ex_state <| vmalloc_area ::= fun a => <[2 := m']> a |>) /\
    same_shape (replicate 16 0) m' /\
    forall k, mem_bit m' (8 * 0 + k) =
      negb (in_range 0 63 k) && mem_bit (replicate 16 0) (8 * 0 + k).
Proof. apply (clear_bmap_exact ex_state 2 ex_bm (mk_kptr 2 0) (replicate 16 0)). exact ex_state_ok. Defined.

(** The services of [ex_env], with a disk path that does not resolve. *)
Definition ex_bad_env : kenv :=
  mk_kenv true true true (fun n => Some (replicate (Z.to_nat n) 0)) true true true true
    (fun _ => None) (fun _ => 0).

Lemma failed_create_detaches_all_witness :
  exists s', ioctl_dev_create ex_bad_env (ex_arg 8 4096 0) ex_state = Some (MEMCTL_DEV_REG_ERROR, s') /\
    0 < MEMCTL_DEV_REG_ERROR /\ kwf s' /\ minor s' = minor ex_state /\
    forall d b, 1 <= d < minor ex_state -> bi_write b = false -> ebdr_make_request d b s' = None.
Proof.
  apply (failed_create_detaches_all ex_bad_env).
  - split; [|done]. intros n m. cbn. congruence.
  - exact ex_state_kwf.
  - split; [cbn; lia|done].
  - by vm_compute.
  - by split.
Defined.

Lemma set_grain_index0_null_witness : ioctl_set_grain_size ex_env (ex_arg 4096 512 0) ex_state = None.
Proof. by apply set_grain_index0_null. Defined.
