(* ===== verification/KernelTrace.v ===== *)
(** * Sequences of requests

    The tracking over a sequence of write requests: the bits set are those of
    the requests, the disk changes only where a request wrote, and therefore a
    clean grain still has the content it had. *)
From S2P Require Import Prelude Memory KernelState KBitmap KBitmapSpec KernelMain KernelInv KernelSteps KernelProps.

(** ** The requests of a device, one after the other *)
Fixpoint run_requests `{KBitops} (d : Z) (bs : list bio) (s : kstate) : option kstate :=
  match bs with
  | [] => Some s
  | b :: bs' => s1 ← ebdr_make_request d b s; run_requests d bs' s1
  end.

Definition touched_by (bm : ebdr_bitmap) (bs : list bio) (k : Z) : bool := existsb (fun b => touched bm b k) bs.

(** What a request leaves alone besides the bitmaps. *)
Lemma request_devices `{KBitops} d b s s' :
  ebdr_make_request d b s = Some s' -> device s' = device s /\ bd_dev s' = bd_dev s /\ minor s' = minor s.
Proof.
  unfold ebdr_make_request, ebdr_update_bmap_and_sync, ebdr_write_bitmap_and_sync_disk, ebdr_set_bitmap, ebdr_find_pos,
    ebdr_set_bits, on_area, with_block, ebdr_submit_req_private_bio.
  intros Hs. repeat (first [ progress simplify_option_eq | case_match ]; try done).
Qed.

Lemma flip_devices env arg s r s' :
  ioctl_flip env arg s = Some (r, s') -> device s' = device s /\ bd_dev s' = bd_dev s.
Proof.
  unfold ioctl_flip, upd_bmap. intros Hs. repeat (first [ progress simplify_option_eq | case_match ]; try done).
Qed.

Record attached (s : kstate) (d : Z) (bm : ebdr_bitmap) : Prop := {
  at_grain : 512 <= kb_grain_size bm;
  at_bits : kb_size bm * (kb_grain_size bm / 512) < 2 ^ 64;
  at_disk : exists i bdev, dev_ldev (aget (device s) d) = Some i /\ backing_bdev (aget (bd_dev s) i) = Some bdev;
}.

Definition writes (bs : list bio) : Prop := Forall (fun b => bi_write b = true /\ bio_ok b) bs.

Lemma run_requests_ok `{KBitopsLaws} d bs : forall s bm p m,
  kwf s -> 1 <= d < minor s -> bm_ok s d bm p m -> attached s d bm -> writes bs ->
  exists s' m', run_requests d bs s = Some s' /\ kwf s' /\ bm_ok s' d bm p m' /\ minor s' = minor s /\
    forall k, mem_bit m' k = touched_by bm bs (k - 8 * kp_off p) || mem_bit m k.
Proof.
  induction bs as [|b bs IH]; intros s bm p m Hwf Hd Hok Hat Hws; cbn [run_requests].
  - exists s, m. done.
  - apply Forall_cons in Hws as [[Hw Hb] Hws]. pose proof Hat as [Hg Hov (i & bdev & Hl & Hbd)].
    destruct (write_request_result s d b bm p m i bdev) as (s1 & m1 & E1 & Hok1 & _ & Hbits1); try done.
    rewrite E1. cbn. destruct (request_devices _ _ _ _ E1) as (Hdev & Hbdd & Hmin).
    destruct (IH s1 bm p m1) as (s2 & m2 & E2 & Hwf2 & Hok2 & Hmin2 & Hbits2); try done.
    + by eapply request_kwf.
    + by rewrite Hmin.
    + split; [done|done|]. exists i, bdev. by rewrite Hdev, Hbdd.
    + exists s2, m2. split; [done|]. split; [done|]. split; [done|]. split; [congruence|]. intros k.
      rewrite Hbits2, Hbits1. unfold touched_by. cbn [existsb].
      by destruct (touched bm b _), (existsb _ bs).
Qed.

(** ** The content of the disk *)

(** The bytes a write request puts on the disk. *)
Definition bio_image (b : bio) (t : Z -> Z) : Z -> Z := fun a =>
  if in_range (512 * bi_sector b) (512 * bi_sector b + bi_size b - 1) a
  then bi_data b !!! Z.to_nat (a - 512 * bi_sector b) else t a.

Definition bios_image (bs : list bio) (t : Z -> Z) : Z -> Z := foldl (fun t b => bio_image b t) t bs.

(** Whole sectors, within the bits of the bitmap. *)
Definition within (bm : ebdr_bitmap) (b : bio) : Prop :=
  bi_size b mod 512 = 0 /\ bi_sector b + bi_size b / 512 <= kb_size bm * (kb_grain_size bm / 512).

Lemma touched_written bm b a :
  512 <= kb_grain_size bm -> bio_ok b -> within bm b ->
  in_range (512 * bi_sector b) (512 * bi_sector b + bi_size b - 1) a = true ->
  touched bm b (a / (512 * (kb_grain_size bm / 512))) = true.
Proof.
  intros Hg (Hs & Hsz & _) [Hmod Hin] Ha. unfold in_range in Ha. bool_to_prop. unfold touched, in_range.
  set (g := kb_grain_size bm / 512) in *. assert (0 < g) by (unfold g; lia).
  rewrite <- Z.div_div by lia. set (sec := a / 512). assert (Hsec : bi_sector b <= sec < bi_sector b + bi_size b / 512) by (unfold sec; lia).
  assert (bi_sector b / g <= sec / g) by (apply Z.div_le_mono; lia).
  assert (sec / g <= (bi_sector b + bi_size b / 512) / g) by (apply Z.div_le_mono; lia).
  assert (sec / g < kb_size bm) by (apply Z.div_lt_upper_bound; [lia|]; rewrite Z.mul_comm; lia).
  bool_solve.
Qed.

Lemma clean_grain_unchanged bm bs t a :
  512 <= kb_grain_size bm -> Forall (fun b => bio_ok b /\ within bm b) bs ->
  touched_by bm bs (a / (512 * (kb_grain_size bm / 512))) = false -> bios_image bs t a = t a.
Proof.
  intros Hg Hbs. revert t. unfold bios_image. induction Hbs as [|b bs [Hb Hw] _ IH]; intros t Ht; [done|].
  cbn [foldl]. unfold touched_by in *. cbn [existsb] in Ht. apply orb_false_iff in Ht as [Ht1 Ht2].
  rewrite IH by done. unfold bio_image. destruct (in_range _ _ a) eqn:Ea; [|done].
  by rewrite (touched_written bm b a Hg Hb Hw Ea) in Ht1.
Qed.
