(* ===== verification/Tracker.v ===== *)
(** * What a change tracker promises

    The kernel module and the Windows filter driver do the same job: they keep
    two bitmaps of the grains of a disk, mark the grains a write touches in the
    one in use, and exchange the two on request.  [tracker] is that job without
    pointers, words or requests; [Tracker] and [TrackerLaws] are the interface
    an implementation discharges, and what is proved here against the interface
    holds of both. *)
From S2P Require Import Prelude KBitmapSpec.

(** ** The specification *)

(** The grains marked in the driver's half and in the reader's. *)
Record tracker := mk_tracker { tk_driver : Z -> bool; tk_reader : Z -> bool }.

#[export] Instance tracker_equiv : Equiv tracker := fun t1 t2 =>
  (forall k, tk_driver t1 k = tk_driver t2 k) /\ (forall k, tk_reader t1 k = tk_reader t2 k).

#[export] Instance tracker_equivalence : Equivalence (≡@{tracker}).
Proof.
  split.
  - by intros [].
  - intros t1 t2 [H1 H2]. by split; intros k; rewrite ?H1, ?H2.
  - intros t1 t2 t3 [H1 H2] [H3 H4]. by split; intros k; rewrite ?H1, ?H2, ?H3, ?H4.
Qed.

(** A write of [wq_count] sectors from [wq_sector] on. *)
Record write_req := mk_write_req { wq_sector : Z; wq_count : Z }.

Inductive tracker_op :=
  | TWrite (q : write_req)
  | TFlip.

(** The grains of [g] sectors from the one of the first sector to the one of
    the sector after the last. *)
Definition req_touches (g : Z) (q : write_req) (k : Z) : bool :=
  in_range (wq_sector q / g) ((wq_sector q + wq_count q) / g) k.

Definition tracker_step (g : Z) (o : tracker_op) (t : tracker) : tracker :=
  match o with
  | TWrite q => mk_tracker (fun k => req_touches g q k || tk_driver t k) (tk_reader t)
  | TFlip => mk_tracker (tk_reader t) (tk_driver t)
  end.

Definition tracker_run (g : Z) (os : list tracker_op) (t : tracker) : tracker :=
  foldl (fun t o => tracker_step g o t) t os.

#[export] Instance tracker_step_proper g o : Proper ((≡) ==> (≡)) (tracker_step g o).
Proof. intros t1 t2 [H1 H2]. destruct o; split; intros k; cbn; by rewrite ?H1, ?H2. Qed.

(** The request lies inside a disk of [n] grains of [g] sectors, and its end,
    the sector after its last, is still a sector of the disk.  A write of the
    very last sector is not of this kind: both ports look for the grain of the
    sector after the last one written, and there they differ.  The kernel
    module clips it to the last grain, the Windows driver takes the number of
    grains and leaves its half. *)
Definition op_fits (n g : Z) (o : tracker_op) : Prop :=
  match o with
  | TWrite q => 0 <= wq_sector q /\ 0 <= wq_count q < 2 ^ 23 /\ wq_sector q + wq_count q < n * g
  | TFlip => True
  end.

(** ** The interface *)
Class Tracker (S : Type) := {
  tr_write : write_req -> S -> option S;
  tr_flip : S -> option S;
}.

Class TrackerLaws (S : Type) `{Tracker S} (n g : Z) (inv : S -> tracker -> Prop) : Prop := {
  tr_respects : Proper ((=) ==> (≡) ==> iff) inv;
  tr_write_ok : forall q s t, inv s t -> op_fits n g (TWrite q) ->
    exists s', tr_write q s = Some s' /\ inv s' (tracker_step g (TWrite q) t);
  tr_flip_ok : forall s t, inv s t ->
    exists s', tr_flip s = Some s' /\ inv s' (tracker_step g TFlip t);
}.

Definition tr_step {S} `{Tracker S} (o : tracker_op) : S -> option S :=
  match o with
  | TWrite q => tr_write q
  | TFlip => tr_flip
  end.

Fixpoint tr_run {S} `{Tracker S} (os : list tracker_op) (s : S) : option S :=
  match os with
  | [] => Some s
  | o :: os' => s' ← tr_step o s; tr_run os' s'
  end.

(** ** What holds of every implementation *)
Section client.
Context {S : Type} `{TrackerLaws S n g inv}.

(** A forward simulation, operation by operation. *)
Lemma tr_run_refines os s t :
  inv s t -> Forall (op_fits n g) os ->
  exists s', tr_run os s = Some s' /\ inv s' (tracker_run g os t).
Proof.
  intros Hi Hos. revert s t Hi. induction Hos as [|o os Ho _ IH]; intros s t Hi; [by exists s|].
  cbn [tr_run tracker_run foldl].
  assert (exists s1, tr_step o s = Some s1 /\ inv s1 (tracker_step g o t)) as (s1 & -> & H1).
  { destruct o as [q|]; cbn [tr_step]; [by apply tr_write_ok|by apply tr_flip_ok]. }
  by apply IH.
Qed.
End client.

(** The writes since the last exchange. *)
Definition writes_touch (g : Z) (qs : list write_req) (k : Z) : bool := existsb (fun q => req_touches g q k) qs.

Lemma tracker_run_writes g qs t :
  tracker_run g (map TWrite qs) t ≡ mk_tracker (fun k => writes_touch g qs k || tk_driver t k) (tk_reader t).
Proof.
  revert t. induction qs as [|q qs IH]; intros t; [by split|].
  cbn [map tracker_run foldl]. etransitivity; [apply IH|]. split; intros k; unfold writes_touch; cbn -[req_touches]; [|done].
  by destruct (req_touches g q k), (existsb _ qs).
Qed.

Lemma tracker_run_app g os1 os2 t : tracker_run g (os1 ++ os2) t = tracker_run g os2 (tracker_run g os1 t).
Proof. unfold tracker_run. by rewrite foldl_app. Qed.
