(* ===== verification/WinState.v ===== *)
(** * State of the Windows volume filter driver

    The data of kernel/atdr_windows/atdrvolflt: device objects with their
    extensions, nonpaged pool, memory descriptor lists, the request in hand
    and a trace of the calls into the I/O manager.  [None] is undefined
    behaviour, a bug check of the system.  The kernel's services are a
    parameter: the answers to the calls of one dispatch are the record
    [wenv], and the fields of a fresh allocation are arbitrary. *)
From S2P Require Import Prelude Memory KernelState.

(** ** Status and function codes *)
Definition STATUS_SUCCESS : Z := 0.
Definition STATUS_PENDING : Z := 0x103.
Definition STATUS_INSUFFICIENT_RESOURCES : Z := i32 0xC000009A.
Definition NT_SUCCESS (s : Z) : bool := 0 <=? s.

Definition IRP_MJ_WRITE : Z := 0x04.
Definition IRP_MJ_FLUSH_BUFFERS : Z := 0x09.
Definition IRP_MJ_DEVICE_CONTROL : Z := 0x0e.
Definition IRP_MJ_SHUTDOWN : Z := 0x10.
Definition IRP_MJ_POWER : Z := 0x16.
Definition IRP_MJ_PNP : Z := 0x1b.
Definition IRP_MJ_MAXIMUM_FUNCTION : Z := 0x1b.
Definition IRP_MN_START_DEVICE : Z := 0x00.
Definition IRP_MN_REMOVE_DEVICE : Z := 0x02.

Definition FILE_DEVICE_DISK : Z := 0x07.
Definition DO_DIRECT_IO : Z := 0x10.
Definition DO_DEVICE_INITIALIZING : Z := 0x80.
Definition DO_POWER_PAGABLE : Z := 0x2000.
Definition FILTER_DEVICE_PROPOGATE_FLAGS : Z := 0.
Definition FILTER_DEVICE_PROPOGATE_CHARACTERISTICS : Z := Z.lor 0x1 (Z.lor 0x2 0x4).

Definition ATDRDEVICECONTROLTYPE : Z := 0x9000.
Definition CTL_CODE (type function method access : Z) : Z :=
  Z.lor (Z.lor (Z.lor (Z.shiftl type 16) (Z.shiftl access 14)) (Z.shiftl function 2)) method.
Definition METHOD_BUFFERED : Z := 0.
Definition FILE_ANY_ACCESS : Z := 0.

Definition ATDRCTL_DEV_CREATE : Z := CTL_CODE ATDRDEVICECONTROLTYPE 0x900 METHOD_BUFFERED FILE_ANY_ACCESS.
Definition ATDRCTL_DEV_DESTROY : Z := CTL_CODE ATDRDEVICECONTROLTYPE 0x904 METHOD_BUFFERED FILE_ANY_ACCESS.
Definition ATDRCTL_MEMCTL_CREATE : Z := CTL_CODE ATDRDEVICECONTROLTYPE 0x905 METHOD_BUFFERED FILE_ANY_ACCESS.
Definition ATDR_FLIP_BITMAP_AREA : Z := CTL_CODE ATDRDEVICECONTROLTYPE 0x908 METHOD_BUFFERED FILE_ANY_ACCESS.
Definition ATDRCTL_GET_USER : Z := CTL_CODE ATDRDEVICECONTROLTYPE 0x910 METHOD_BUFFERED FILE_ANY_ACCESS.
Definition ATDRCTL_BLKDEV_SEARCH : Z := CTL_CODE ATDRDEVICECONTROLTYPE 0x9011 METHOD_BUFFERED FILE_ANY_ACCESS.

(** [IOCTL_MOUNTDEV_LINK_CREATED] comes from <mountdev.h>. *)
Class MountDev := IOCTL_MOUNTDEV_LINK_CREATED : Z.

(** ** Data *)

(** A pointer into a block of nonpaged pool. *)
Record wptr := mk_wptr { wp_blk : Z; wp_off : Z }.

(** [BMAP_USER] is kept as the integer of the enumerator, [KERNEL] or [USER]:
    in a fresh [ATDR_BITMAP] it is whatever the pool held. *)
Record ATDR_BITMAP := mk_ATDR_BITMAP {
  ab_area : option wptr;
  ab_start : option wptr;
  ab_backup : option wptr;
  ab_size : Z;
  ab_grain_size : Z;
  ab_total_num_bits : Z;
  ab_user : Z;
  ab_mapped : Z;
  ab_mapped_backup : Z;
  ab_Mdl : option Z;
}.

#[export] Instance eta_ATDR_BITMAP : Settable ATDR_BITMAP := fun r =>
  mk_ATDR_BITMAP (ab_area r) (ab_start r) (ab_backup r) (ab_size r) (ab_grain_size r)
    (ab_total_num_bits r) (ab_user r) (ab_mapped r) (ab_mapped_backup r) (ab_Mdl r).

(** The [ATDR_BITMAP] of a volume has one owner, its [VOL_INFO], and that one
    the extension of the device: both are nested in what points to them. *)
Record VOL_INFO := mk_VOL_INFO {
  wDriveLetter : Z;
  wGUID : mem;
  vi_bitmap : option ATDR_BITMAP;
  atdr_tracking_enabled : bool;
}.

#[export] Instance eta_VOL_INFO : Settable VOL_INFO := fun r =>
  mk_VOL_INFO (wDriveLetter r) (wGUID r) (vi_bitmap r) (atdr_tracking_enabled r).

Record DEVICE_EXTENSION := mk_DEVICE_EXTENSION {
  de_pdo : option Z;
  de_fdo : option Z;
  LowerDeviceObject : option Z;
  VolInfo : option VOL_INFO;
}.

#[export] Instance eta_DEVICE_EXTENSION : Settable DEVICE_EXTENSION := fun r =>
  mk_DEVICE_EXTENSION (de_pdo r) (de_fdo r) (LowerDeviceObject r) (VolInfo r).

(** Device objects of this driver and of the drivers below: [do_ext] is [None]
    for a device without a [DEVICE_EXTENSION] of this driver. *)
Record DEVICE_OBJECT := mk_DEVICE_OBJECT {
  do_ext : option DEVICE_EXTENSION;
  do_Flags : Z;
  do_Characteristics : Z;
  do_AttachedDevice : option Z;
  do_NextDevice : option Z;
}.

#[export] Instance eta_DEVICE_OBJECT : Settable DEVICE_OBJECT := fun r =>
  mk_DEVICE_OBJECT (do_ext r) (do_Flags r) (do_Characteristics r) (do_AttachedDevice r) (do_NextDevice r).

(** The request and its current stack location; [SystemBuffer] is the raw
    buffer shared by input and output of a buffered control request. *)
Record IRP := mk_IRP {
  irp_id : Z;
  MajorFunction : Z;
  MinorFunction : Z;
  SystemBuffer : mem;
  InputBufferLength : Z;
  IoControlCode : Z;
  ByteOffset : Z;
  wr_Length : Z;
  io_Status : Z;
  io_Information : Z;
  own_thread : bool;
}.

#[export] Instance eta_IRP : Settable IRP := fun r =>
  mk_IRP (irp_id r) (MajorFunction r) (MinorFunction r) (SystemBuffer r) (InputBufferLength r)
    (IoControlCode r) (ByteOffset r) (wr_Length r) (io_Status r) (io_Information r) (own_thread r).

Inductive wevent :=
  | EvSkipStack (irp : Z)
  | EvCopyStack (irp : Z)
  | EvSetCompletion (irp : Z)
  | EvCallDriver (dev : Z) (irp : Z)
  | EvWait (irp : Z)
  | EvComplete (irp : Z) (status : Z) (info : Z)
  | EvRegisterShutdown (dev : option Z)
  | EvUnmap (base : Z)
  | EvDetach (dev : Z)
  | EvDeleteDevice (dev : Z).

Inductive dispatch_fn :=
  | FltSendToNextDriver
  | FltDeviceControl
  | FltWrite
  | FltDispatchPnp
  | FltDispatchPower
  | FltShutdownFlush.

(** A live memory descriptor list: the buffer it describes, and whether it is
    mapped into a process. *)
Record wmdl := mk_wmdl { mdl_start : option wptr; mdl_bytes : Z; mdl_mapped : bool }.

Record wstate := mk_wstate {
  ControlObj : option Z;
  devices : gmap Z DEVICE_OBJECT;
  next_device_id : Z;
  DeviceObject : option Z;
  dispatch_table : gmap Z dispatch_fn;
  pool : gmap Z mem;
  next_block : Z;
  mdls : gmap Z wmdl;
  next_mdl : Z;
  kevents_allocated : Z;
  wevents : list wevent;
}.

#[export] Instance eta_wstate : Settable wstate := fun r =>
  mk_wstate (ControlObj r) (devices r) (next_device_id r) (DeviceObject r) (dispatch_table r)
    (pool r) (next_block r) (mdls r) (next_mdl r) (kevents_allocated r) (wevents r).

(** The answers of the kernel services used by one dispatch: the status of
    IoCreateDevice and IoCreateSymbolicLink, the top of the stack
    IoAttachDeviceToDeviceStack attached to, the content of a pool block of a
    given size, whether the allocation of an event and IoAllocateMdl succeed, the address of the user mapping
    ([None]: an exception is raised), the result of IoCallDriver and the final
    status of a pending request. *)
Record wenv := mk_wenv {
  we_create_device : Z;
  we_symlink : Z;
  we_attach : option Z;
  we_vol : option VOL_INFO;
  we_bitmap : option ATDR_BITMAP;
  we_pool : Z -> option mem;
  we_event : bool;
  we_mdl : bool;
  we_map : option Z;
  we_call : Z;
  we_final : Z;
}.

Definition wemit (e : wevent) (s : wstate) : wstate := s <| wevents ::= fun l => l ++ [e] |>.

(** ** Access paths *)
Definition extension (d : Z) (s : wstate) : option DEVICE_EXTENSION :=
  o ← devices s !! d; do_ext o.

Definition vol_info (d : Z) (s : wstate) : option VOL_INFO := x ← extension d s; VolInfo x.

Definition vol_bitmap (d : Z) (s : wstate) : option ATDR_BITMAP := v ← vol_info d s; vi_bitmap v.

Definition upd_device (d : Z) (f : DEVICE_OBJECT -> DEVICE_OBJECT) (s : wstate) : wstate :=
  s <| devices ::= alter f d |>.

Definition upd_ext (d : Z) (f : DEVICE_EXTENSION -> DEVICE_EXTENSION) : wstate -> wstate :=
  upd_device d (fun o => o <| do_ext ::= fmap f |>).

Definition upd_vol (d : Z) (f : VOL_INFO -> VOL_INFO) : wstate -> wstate :=
  upd_ext d (fun x => x <| VolInfo ::= fmap f |>).

Definition upd_vbm (d : Z) (f : ATDR_BITMAP -> ATDR_BITMAP) : wstate -> wstate :=
  upd_vol d (fun v => v <| vi_bitmap ::= fmap f |>).

Definition is_control (d : Z) (s : wstate) : bool := bool_decide (ControlObj s = Some d).
