(* ===== verification/WinFilter.v ===== *)
(** * kernel/atdr_windows/atdrvolflt/atdrvolflt.c: the volume filter driver

    The driver attaches a filter device above every volume.  A write request
    marks the grains it touches in the bitmap of the volume and is passed
    down; control requests create the bitmap and map it into the daemon, tell
    which half is whose, and exchange the halves.  A dispatch routine is a
    function that yields the status, the request and the state; [None] is a
    bug check. *)
From S2P Require Import Prelude Memory KernelState WinState.

(** ** The bitmap *)

(** [*adr |= mask] on the 32-bit word [nr >> 5] of the array at [addr]; the
    result is the old value of the bit. *)
Definition test_and_set_bit (nr addr : Z) (m : mem) : option (bool * mem) :=
  let adr := addr + 4 * Z.shiftr nr 5 in
  let mask := u32 (Z.shiftl 1 (Z.land nr 0x1f)) in
  w ← load 4 m adr;
  m' ← store 4 m adr (Z.lor w mask);
  Some (negb (Z.land mask w =? 0), m').

(** The loop of [atdr_set_bits] on the array [bmap] points to. *)
Definition set_bits_loop (bmap first last : Z) (m : mem) : option mem :=
  iter_up (Z.to_nat (last - first + 1)) first
    (fun i m => '(_, m') ← test_and_set_bit i bmap m; Some m') m.

Definition set_bits_at (bmap : wptr) (first last : Z) (s : wstate) : option wstate :=
  m ← pool s !! wp_blk bmap;
  m' ← set_bits_loop (wp_off bmap) first last m;
  Some (s <| pool ::= <[wp_blk bmap := m']> |>).

(** [first] and [last] are [int]s.  The pointer [bitmap_area] is read once,
    before the loop. *)
Definition atdr_set_bits (d first last : Z) (s : wstate) : option wstate :=
  bm ← vol_bitmap d s;
  bmap ← ab_area bm;
  set_bits_at bmap (i32 first) (i32 last) s.

(** The loop of [atdr_find_pos]: [addr] is a 64-bit sector, the end of the
    grain a 32-bit product. *)
Fixpoint atdr_find_pos_loop (fuel : nat) (cur addr sectors : Z) : Z :=
  match fuel with
  | O => cur
  | S fuel' =>
      if addr <? u32 ((cur + 1) * sectors) then cur
      else atdr_find_pos_loop fuel' (cur + 1) addr sectors
  end.

Definition atdr_find_pos (bm : ATDR_BITMAP) (addr : Z) : Z :=
  atdr_find_pos_loop (Z.to_nat (ab_total_num_bits bm)) 0 addr (Z.shiftr (ab_grain_size bm) 9).

(** ** Requests *)
Section driver.
Context `{MountDev} (env : wenv).

Definition IoCompleteRequest (irp : IRP) : wstate -> wstate :=
  wemit (EvComplete (irp_id irp) (io_Status irp) (io_Information irp)).

(** IoSkipCurrentIrpStackLocation, then IoCallDriver on the lower device. *)
Definition skip_and_call (d : Z) (irp : IRP) (s : wstate) : option (Z * IRP * wstate) :=
  x ← extension d s;
  let s1 := wemit (EvSkipStack (irp_id irp)) s in
  lower ← LowerDeviceObject x;
  Some (we_call env, irp, wemit (EvCallDriver lower (irp_id irp)) s1).

(** The branch of the dispatch routines for the control device. *)
Definition complete_control (irp : IRP) (s : wstate) : Z * IRP * wstate :=
  let irp' := irp <| io_Status := STATUS_SUCCESS |> <| io_Information := 0 |> in
  (STATUS_SUCCESS, irp', IoCompleteRequest irp' s).

Definition atdrFltSendToNextDriver (d : Z) (irp : IRP) (s : wstate) : option (Z * IRP * wstate) :=
  if is_control d s then Some (complete_control irp s) else skip_and_call d irp s.

Definition atdrFltForwardIrpSynchronous (d : Z) (irp : IRP) (s : wstate) : option (Z * IRP * wstate) :=
  let s0 := if we_event env then s <| kevents_allocated ::= Z.succ |> else s in
  if is_control d s then Some (complete_control irp s0)
  else if negb (we_event env) then None
  else
    x ← extension d s0;
    let s1 := wemit (EvSetCompletion (irp_id irp)) (wemit (EvCopyStack (irp_id irp)) s0) in
    lower ← LowerDeviceObject x;
    let s2 := wemit (EvCallDriver lower (irp_id irp)) s1 in
    if we_call env =? STATUS_PENDING
    then Some (we_final env, irp <| io_Status := we_final env |>, wemit (EvWait (irp_id irp)) s2)
    else Some (we_call env, irp, s2).

Definition atdrFltSyncFilterWithTarget (filter target : Z) (s : wstate) : option wstate :=
  t ← devices s !! target;
  Some (upd_device filter (fun o =>
    o <| do_Flags ::= fun f => Z.lor f (Z.land (do_Flags t) FILTER_DEVICE_PROPOGATE_FLAGS) |>
      <| do_Characteristics ::= fun c =>
           Z.lor c (Z.land (do_Characteristics t) FILTER_DEVICE_PROPOGATE_CHARACTERISTICS) |>) s).

Definition atdrFltWrite (d : Z) (irp : IRP) (s : wstate) : option (Z * IRP * wstate) :=
  if is_control d s then Some (complete_control irp s) else
  v ← vol_info d s;
  s' ← (if atdr_tracking_enabled v then
          let start_addr := u64 (Z.shiftr (ByteOffset irp) 9) in
          let end_addr := u64 (Z.shiftr (i64 (ByteOffset irp + wr_Length irp)) 9) in
          bm ← vi_bitmap v;
          let first := atdr_find_pos bm start_addr in
          let last := atdr_find_pos bm end_addr in
          atdr_set_bits d first last s
        else Some s);
  skip_and_call d irp s'.

Definition atdrFltDispatchPower : Z -> IRP -> wstate -> option (Z * IRP * wstate) := skip_and_call.

Definition atdrFltShutdownFlush : Z -> IRP -> wstate -> option (Z * IRP * wstate) := skip_and_call.

(** [pdx->LowerDeviceObject] is read after the request came back. *)
Definition atdrFltStartDevice (d : Z) (irp : IRP) (s : wstate) : option (Z * IRP * wstate) :=
  '(status, irp1, s1) ← atdrFltForwardIrpSynchronous d irp s;
  x ← extension d s1;
  lower ← LowerDeviceObject x;
  s2 ← atdrFltSyncFilterWithTarget d lower s1;
  let irp2 := irp1 <| io_Status := status |> in
  Some (status, irp2, IoCompleteRequest irp2 s2).

Definition IoDeleteDevice (d : Z) (s : wstate) : wstate :=
  let next := o ← devices s !! d; do_NextDevice o in
  wemit (EvDeleteDevice d) s
    <| DeviceObject ::= fun h => if decide (h = Some d) then next else h |>
    <| devices ::= fun ds => fmap (fun o =>
         if decide (do_NextDevice o = Some d) then o <| do_NextDevice := next |> else o) (delete d ds) |>.

Definition atdrFltRemoveDevice (d : Z) (irp : IRP) (s : wstate) : option (Z * IRP * wstate) :=
  '(status, irp1, s1) ← atdrFltForwardIrpSynchronous d irp s;
  x ← extension d s1;
  target ← LowerDeviceObject x;
  let s2 := upd_ext d (fun x => x <| LowerDeviceObject := None |>) s1 in
  let s3 := wemit (EvDetach target) (upd_device target (fun o => o <| do_AttachedDevice := None |>) s2) in
  let s4 := IoDeleteDevice d s3 in
  let irp2 := irp1 <| io_Status := status |> in
  Some (status, irp2, IoCompleteRequest irp2 s4).

Definition atdrFltDispatchPnp (d : Z) (irp : IRP) (s : wstate) : option (Z * IRP * wstate) :=
  if MinorFunction irp =? IRP_MN_REMOVE_DEVICE then atdrFltRemoveDevice d irp s
  else atdrFltStartDevice d irp s.

(** ** Control requests *)

Definition ExAllocatePoolWithTag (bytes : Z) (s : wstate) : option wptr * wstate :=
  match we_pool env bytes with
  | Some m => (Some (mk_wptr (next_block s) 0),
               s <| pool ::= <[next_block s := m]> |> <| next_block ::= Z.succ |>)
  | None => (None, s)
  end.

(** Only the start of a live block can be freed. *)
Definition ExFreePoolWithTag (p : option wptr) (s : wstate) : option wstate :=
  q ← p;
  _ ← pool s !! wp_blk q;
  if wp_off q =? 0 then Some (s <| pool ::= delete (wp_blk q) |>) else None.

Definition IoAllocateMdl (va : option wptr) (bytes : Z) (s : wstate) : option Z * wstate :=
  if we_mdl env then (Some (next_mdl s),
    s <| mdls ::= <[next_mdl s := mk_wmdl va bytes false]> |> <| next_mdl ::= Z.succ |>)
  else (None, s).

Definition IoFreeMdl (mdl : option Z) (s : wstate) : option wstate :=
  i ← mdl;
  _ ← mdls s !! i;
  Some (s <| mdls ::= delete i |>).

(** MmProbeAndLockPages and MmMapLockedPagesSpecifyCache inside the __try
    block: [Some a] is the mapped address, [None] the exception. *)
Definition map_locked (mdl : option Z) (s : wstate) : option (option Z * wstate) :=
  i ← mdl;
  x ← mdls s !! i;
  Some (we_map env,
        match we_map env with
        | Some _ => s <| mdls ::= <[i := mk_wmdl (mdl_start x) (mdl_bytes x) true]> |>
        | None => s
        end).

Definition MmUnmapLockedPages (base : Z) (mdl : option Z) (s : wstate) : option wstate :=
  i ← mdl;
  x ← mdls s !! i;
  if mdl_mapped x
  then Some (wemit (EvUnmap base) s <| mdls ::= <[i := mk_wmdl (mdl_start x) (mdl_bytes x) false]> |>)
  else None.

Definition RtlZeroMemory (p : option wptr) (bytes : Z) (s : wstate) : option wstate :=
  q ← p;
  m ← pool s !! wp_blk q;
  if (0 <=? wp_off q) && (wp_off q + bytes <=? Z.of_nat (length m))
  then Some (s <| pool ::= <[wp_blk q :=
    take (Z.to_nat (wp_off q)) m ++ replicate (Z.to_nat bytes) 0 ++ drop (Z.to_nat (wp_off q + bytes)) m]> |>)
  else None.

(** The result is the status and [*MappedUserAddress], NULL before. *)
Definition MapBufferForUserModeUse (d : Z) (s : wstate) : option (Z * Z * wstate) :=
  bm ← vol_bitmap d s;
  let bytes := u32 (2 * ab_size bm) in
  let '(start, s1) := ExAllocatePoolWithTag bytes s in
  let s2 := upd_vbm d (fun b => b <| ab_start := start |>) s1 in
  s3 ← RtlZeroMemory start bytes s2;
  let '(mdl, s4) := IoAllocateMdl start bytes s3 in
  let s5 := upd_vbm d (fun b => b <| ab_Mdl := mdl |>) s4 in
  match mdl with
  | None =>
      s6 ← ExFreePoolWithTag start s5;
      Some (STATUS_INSUFFICIENT_RESOURCES, 0, s6)
  | Some _ =>
      let s6 := upd_vbm d (fun b => b <| ab_area := start |> <| ab_user := KERNEL |>
                  <| ab_backup := (fun p => mk_wptr (wp_blk p) (wp_off p + ab_size b)) <$> start |>) s5 in
      '(addr, s7) ← map_locked mdl s6;
      match addr with
      | Some a => Some (STATUS_SUCCESS, a, s7)
      | None =>
          s8 ← IoFreeMdl mdl s7;
          s9 ← ExFreePoolWithTag start s8;
          Some (STATUS_INSUFFICIENT_RESOURCES, 0, s9)
      end
  end.

(** The fields of [IOCTL] in the system buffer. *)
Definition ioctl_grain_size (buf : mem) : option Z := load 4 buf 64.
Definition ioctl_bitmap_size (buf : mem) : option Z := load 4 buf 68.
Definition sizeof_OUTPUT_CREATE : Z := 8.
Definition sizeof_OUTPUT_USER : Z := 1.

(** [Output->MappedUserAddress = a] and the [Information] of the reply. *)
Definition output_create (a : Z) (irp : IRP) : option IRP :=
  buf ← store 8 (SystemBuffer irp) 0 a;
  Some (irp <| SystemBuffer := buf |> <| io_Information := sizeof_OUTPUT_CREATE |>).

(** First ATDRCTL_DEV_CREATE of a volume: the bitmap is allocated. *)
Definition create_first (d : Z) (irp : IRP) (s : wstate) : option (Z * IRP * wstate) :=
  let s1 := upd_vol d (fun v => v <| atdr_tracking_enabled := true |>) s in
  '(status, a, s2) ← MapBufferForUserModeUse d s1;
  let s3 := upd_vbm d (fun b => b <| ab_mapped := a |> <| ab_mapped_backup := a + ab_size b |>) s2 in
  irp' ← output_create a irp;
  Some (status, irp', s3).

(** Later ones: the area that exists is mapped once more.  The status an
    exception leaves in the request is overwritten by the caller. *)
Definition create_again (d : Z) (irp : IRP) (s : wstate) : option (Z * IRP * wstate) :=
  bm ← vol_bitmap d s;
  let '(mdl, s1) := IoAllocateMdl (ab_start bm) (u32 (2 * ab_size bm)) s in
  let s2 := upd_vbm d (fun b => b <| ab_Mdl := mdl |>) s1 in
  '(addr, s3) ← map_locked mdl s2;
  match addr with
  | Some a =>
      irp' ← output_create a irp;
      Some (STATUS_SUCCESS, irp', upd_vbm d (fun b => b <| ab_mapped := a |>) s3)
  | None =>
      s4 ← IoFreeMdl mdl s3;
      irp' ← output_create 0 irp;
      Some (STATUS_SUCCESS, irp', s4)
  end.

Definition MAX_BITMAP_BYTES : Z := 4 * 4096.

(** The sizes of the request; only [bitmap_size] is bounded. *)
Definition set_sizes (bytes grain : Z) (b : ATDR_BITMAP) : ATDR_BITMAP :=
  b <| ab_size := if MAX_BITMAP_BYTES <? bytes then MAX_BITMAP_BYTES else bytes |>
    <| ab_grain_size := grain |>
    <| ab_total_num_bits := u32 (bytes * 8) |>.

Definition ioctl_create (d : Z) (irp : IRP) (s : wstate) : option (Z * IRP * wstate) :=
  v ← vol_info d s;
  _ ← vi_bitmap v;
  bytes ← ioctl_bitmap_size (SystemBuffer irp);
  grain ← ioctl_grain_size (SystemBuffer irp);
  let s1 := upd_vbm d (set_sizes bytes grain) s in
  '(status, irp1, s2) ← (if own_thread irp
    then (if atdr_tracking_enabled v then create_again d irp s1 else create_first d irp s1)
    else Some (STATUS_SUCCESS, irp, s1));
  let irp2 := irp1 <| io_Status := status |> in
  Some (status, irp2, IoCompleteRequest irp2 s2).

Definition ioctl_user (d : Z) (irp : IRP) (s : wstate) : option (Z * IRP * wstate) :=
  bm ← vol_bitmap d s;
  buf ← store 1 (SystemBuffer irp) 0 (if ab_user bm =? KERNEL then 0 else 1);
  let irp1 := irp <| SystemBuffer := buf |> <| io_Information := sizeof_OUTPUT_USER |>
                  <| io_Status := STATUS_SUCCESS |> in
  Some (STATUS_SUCCESS, irp1, IoCompleteRequest irp1 s).

(** The driver's writes move to the other half.  The pointer to the memory
    descriptor list is dropped. *)
Definition flip_halves (b : ATDR_BITMAP) : ATDR_BITMAP :=
  if ab_user b =? USER
  then b <| ab_Mdl := None |> <| ab_area := ab_start b |> <| ab_user := KERNEL |>
  else b <| ab_Mdl := None |> <| ab_area := ab_backup b |> <| ab_user := USER |>.

Definition ioctl_flip_area (d : Z) (irp : IRP) (s : wstate) : option (Z * IRP * wstate) :=
  _ ← vol_bitmap d s;
  let s1 := upd_vbm d flip_halves s in
  let irp1 := irp <| io_Status := STATUS_SUCCESS |> in
  Some (STATUS_SUCCESS, irp1, IoCompleteRequest irp1 s1).

(** The request is completed only when tracking is on, which it stays. *)
Definition ioctl_destroy (d : Z) (irp : IRP) (s : wstate) : option (Z * IRP * wstate) :=
  v ← vol_info d s;
  if atdr_tracking_enabled v then
    bm ← vi_bitmap v;
    s1 ← MmUnmapLockedPages (ab_mapped bm) (ab_Mdl bm) s;
    s2 ← ExFreePoolWithTag (ab_start bm) s1;
    let irp1 := irp <| io_Status := STATUS_SUCCESS |> in
    Some (STATUS_SUCCESS, irp1, IoCompleteRequest irp1 s2)
  else Some (STATUS_SUCCESS, irp, s).

(** [Name] is at byte 2 of MOUNTDEV_NAME, in 2-byte characters. *)
Definition ioctl_link_created (d : Z) (irp : IRP) (s : wstate) : option (Z * IRP * wstate) :=
  if is_control d s then
    let irp1 := irp <| io_Status := STATUS_SUCCESS |> in
    Some (STATUS_SUCCESS, irp1, IoCompleteRequest irp1 s)
  else
    s1 ← (if 0x62 <=? InputBufferLength irp then
            _ ← vol_info d s;
            if in_buffer 72 (SystemBuffer irp) (2 + 2 * 11)
            then Some (upd_vol d (fun v =>
                   v <| wGUID := take 72 (drop 24 (SystemBuffer irp)) ++ [0; 0] |>) s)
            else None
          else if 0x1e <=? InputBufferLength irp then
            _ ← vol_info d s;
            c ← load 2 (SystemBuffer irp) (2 + 2 * 12);
            Some (upd_vol d (fun v => v <| wDriveLetter := c |>) s)
          else Some s);
    skip_and_call d irp s1.

Definition ioctl_default (d : Z) (irp : IRP) (s : wstate) : option (Z * IRP * wstate) :=
  if is_control d s then
    let irp1 := irp <| io_Status := STATUS_SUCCESS |> in
    Some (STATUS_SUCCESS, irp1, IoCompleteRequest irp1 s)
  else skip_and_call d irp s.

(** [pdx->VolInfo] is read before the switch. *)
Definition atdrFltDeviceControl (d : Z) (irp : IRP) (s : wstate) : option (Z * IRP * wstate) :=
  _ ← extension d s;
  let ctrlCode := IoControlCode irp in
  if ctrlCode =? IOCTL_MOUNTDEV_LINK_CREATED then ioctl_link_created d irp s
  else if ctrlCode =? ATDRCTL_DEV_CREATE then ioctl_create d irp s
  else if ctrlCode =? ATDRCTL_GET_USER then ioctl_user d irp s
  else if ctrlCode =? ATDR_FLIP_BITMAP_AREA then ioctl_flip_area d irp s
  else if ctrlCode =? ATDRCTL_DEV_DESTROY then ioctl_destroy d irp s
  else ioctl_default d irp s.

(** ** Loading and unloading *)

(** IoCreateDevice: the new device is the head of the driver's list; its
    extension, if it has one, is zeroed. *)
Definition IoCreateDevice (has_ext : bool) (type : Z) (s : wstate) : Z * option Z * wstate :=
  if NT_SUCCESS (we_create_device env) then
    let d := next_device_id s in
    (we_create_device env, Some d,
     s <| devices ::= <[d := mk_DEVICE_OBJECT
            (if has_ext then Some (mk_DEVICE_EXTENSION None None None None) else None)
            DO_DEVICE_INITIALIZING 0 None (DeviceObject s)]> |>
       <| DeviceObject := Some d |> <| next_device_id ::= Z.succ |>)
  else (we_create_device env, None, s).

(** IoRegisterShutdownNotification comes before the test of the status: the
    pointer is not set when the creation failed. *)
Definition atdrFltAddDevice (pdo : Z) (garbage : option Z) (s : wstate) : option (Z * wstate) :=
  let '(status, fdo, s1) := IoCreateDevice true FILE_DEVICE_DISK s in
  match fdo with
  | None =>
      g ← garbage;
      _ ← devices s1 !! g;
      Some (status, wemit (EvRegisterShutdown (Some g)) s1)
  | Some f =>
      let s2 := wemit (EvRegisterShutdown (Some f)) s1 in
      v ← we_vol env;
      bm ← we_bitmap env;
      let s3 := upd_device f (fun o =>
        o <| do_Flags ::= fun x => Z.lor (Z.lor x DO_DIRECT_IO) DO_POWER_PAGABLE |>
          <| do_ext := Some (mk_DEVICE_EXTENSION (Some pdo) (Some f) None
               (Some (v <| atdr_tracking_enabled := false |> <| vi_bitmap := Some bm |>))) |>) s2 in
      match we_attach env with
      | None => Some (STATUS_INSUFFICIENT_RESOURCES, s3)
      | Some top =>
          let s4 := upd_device top (fun o => o <| do_AttachedDevice := Some f |>) s3 in
          let s5 := upd_ext f (fun x => x <| LowerDeviceObject := Some top |>) s4 in
          Some (STATUS_SUCCESS, upd_device f (fun o =>
            o <| do_Flags ::= fun x => Z.land x (Z.lnot DO_DEVICE_INITIALIZING) |>) s5)
      end
  end.

(** The loop fills the entries 0 .. IRP_MJ_MAXIMUM_FUNCTION. *)
Definition fill_table (t : gmap Z dispatch_fn) : gmap Z dispatch_fn :=
  foldl (fun t i => <[i := FltSendToNextDriver]> t) t (zseq 0 (IRP_MJ_MAXIMUM_FUNCTION + 1)).

Definition DriverEntry (s : wstate) : Z * wstate :=
  let '(status, ctl, s1) := IoCreateDevice false 0x22 s in
  match ctl with
  | None => (status, s1)
  | Some c =>
      let s2 := s1 <| ControlObj := Some c |> in
      if NT_SUCCESS (we_symlink env) then
        (STATUS_SUCCESS, s2 <| dispatch_table ::= fun t =>
          <[IRP_MJ_FLUSH_BUFFERS := FltShutdownFlush]> (<[IRP_MJ_SHUTDOWN := FltShutdownFlush]>
          (<[IRP_MJ_POWER := FltDispatchPower]> (<[IRP_MJ_PNP := FltDispatchPnp]>
          (<[IRP_MJ_WRITE := FltWrite]> (<[IRP_MJ_DEVICE_CONTROL := FltDeviceControl]> (fill_table t)))))) |>)
      else (we_symlink env, IoDeleteDevice c s2)
  end.

(** One round of the loop of [atdrFltUnload]: the next [fdo]. *)
Definition unload_round (fdo : Z) (s : wstate) : option (option Z * wstate) :=
  x ← extension fdo s;
  v ← VolInfo x;
  bm ← vi_bitmap v;
  s1 ← IoFreeMdl (ab_Mdl bm) s;
  s2 ← ExFreePoolWithTag (ab_start bm) s1;
  match DeviceObject s2 with
  | None => Some (Some fdo, s2)
  | Some h =>
      if is_control h s2 then Some (Some fdo, IoDeleteDevice h s2)
      else
        o ← devices s2 !! h;
        match do_NextDevice o with
        | Some n => on ← devices s2 !! n; Some (do_AttachedDevice on, s2)
        | None => Some (Some fdo, s2)
        end
  end.

Fixpoint unload_loop (fuel : nat) (fdo : option Z) (s : wstate) : option wstate :=
  match fdo with
  | None => Some s
  | Some f =>
      match fuel with
      | O => None
      | S fuel' => '(f', s') ← unload_round f s; unload_loop fuel' f' s'
      end
  end.

Definition atdrFltUnload (fuel : nat) (s : wstate) : option wstate :=
  h ← DeviceObject s;
  o ← devices s !! h;
  unload_loop fuel (do_AttachedDevice o) s.

(** The I/O manager calls the routine the driver registered. *)
Definition run_dispatch (f : dispatch_fn) : Z -> IRP -> wstate -> option (Z * IRP * wstate) :=
  match f with
  | FltSendToNextDriver => atdrFltSendToNextDriver
  | FltDeviceControl => atdrFltDeviceControl
  | FltWrite => atdrFltWrite
  | FltDispatchPnp => atdrFltDispatchPnp
  | FltDispatchPower => atdrFltDispatchPower
  | FltShutdownFlush => atdrFltShutdownFlush
  end.

Definition dispatch_irp (d : Z) (irp : IRP) (s : wstate) : option (Z * IRP * wstate) :=
  f ← dispatch_table s !! MajorFunction irp; run_dispatch f d irp s.
End driver.
