(* ===== verification/WinSpec.v ===== *)
(** * Correctness of the volume filter driver's operations

    Bit-level specifications of atdrvolflt.c and the invariant [vol_ok] of a
    volume whose bitmap has been created: the area holds two halves of
    [bitmap_size] bytes and [bitmap_area] points to the half [bmap_user]
    selects. *)
From S2P Require Import Prelude Memory KernelState KBitmapSpec WinState WinFilter.

(** ** Bits *)
Lemma land_pow2_zero w j : 0 <= j -> (Z.land (Z.shiftl 1 j) w =? 0) = negb (Z.testbit w j).
Proof.
  intros Hj. destruct (Z.testbit w j) eqn:E; cbn [negb].
  - apply Z.eqb_neq. intros H0. apply (f_equal (fun z => Z.testbit z j)) in H0.
    rewrite Z.land_spec, testbit_shiftl1, E, Z.eqb_refl, Z.testbit_0_l in H0 by lia. done.
  - apply Z.eqb_eq, Z.bits_inj'. intros i Hi. rewrite Z.land_spec, testbit_shiftl1, Z.testbit_0_l by lia.
    destruct (Z.eqb_spec i j) as [->|]; [by rewrite E|done].
Qed.

Lemma word32_mask nr : 0 <= nr -> u32 (Z.shiftl 1 (Z.land nr 0x1f)) = Z.shiftl 1 (nr mod 32).
Proof.
  intros. change 0x1f with (Z.ones 5). rewrite Z.land_ones by lia. change (2 ^ 5) with 32.
  apply u32_id. rewrite Z.shiftl_1_l. split; [by apply Z.pow_nonneg|]. apply Z.pow_lt_mono_r; lia.
Qed.

Lemma test_and_set_bit_spec nr addr m :
  wf_mem m -> 0 <= addr -> 0 <= nr -> addr + 4 * (nr / 32) + 4 <= Z.of_nat (length m) ->
  exists m', test_and_set_bit nr addr m = Some (mem_bit m (8 * addr + nr), m') /\ same_shape m m' /\
    forall k, mem_bit m' k = (k =? 8 * addr + nr) || mem_bit m k.
Proof.
  intros Hwf Ha Hn Hl. unfold test_and_set_bit. rewrite word32_mask by done.
  rewrite Z.shiftr_div_pow2 by lia. change (2 ^ 5) with 32.
  destruct (load_Some 4 m (addr + 4 * (nr / 32))) as [w Hw]; [lia..|].
  destruct (store_Some 4 m (addr + 4 * (nr / 32)) (Z.lor w (Z.shiftl 1 (nr mod 32)))) as [m' Hm']; [lia..|].
  rewrite Hw. cbn [mbind option_bind]. rewrite Hm'. cbn [mbind option_bind].
  assert (Hbit : forall j, 0 <= j < 32 -> Z.testbit w j = mem_bit m (8 * (addr + 4 * (nr / 32)) + j)).
  { intros j Hj. rewrite (load_bit _ _ _ _ _ Hwf Hw) by lia.
    by replace (j <? 8 * Z.of_nat 4) with true by bool_solve. }
  exists m'. split.
  { do 2 f_equal. rewrite land_pow2_zero, negb_involutive, Hbit by lia. f_equal. lia. }
  split; [split; [by eapply store_length|by intros; eapply store_wf]|]. intros k.
  rewrite (store_bit _ _ _ _ _ _ Hm').
  destruct (_ && _) eqn:E.
  - bool_to_prop. rewrite Z.lor_spec, testbit_shiftl1, Hbit by lia.
    replace (8 * (addr + 4 * (nr / 32)) + (k - 8 * (addr + 4 * (nr / 32)))) with k by lia.
    destruct (mem_bit m k); bool_solve.
  - replace (k =? 8 * addr + nr) with false; [done|]. symmetry. apply Z.eqb_neq. intros ->.
    apply andb_false_iff in E as [E|E]; [apply Z.leb_gt in E|apply Z.ltb_ge in E]; lia.
Qed.

Lemma set_bits_loop_spec base first last m :
  wf_mem m -> 0 <= base -> 0 <= first -> 0 <= last ->
  base + 4 * (last / 32) + 4 <= Z.of_nat (length m) ->
  exists m', set_bits_loop base first last m = Some m' /\ same_shape m m' /\
    forall k, mem_bit m' k = in_range (8 * base + first) (8 * base + last) k || mem_bit m k.
Proof.
  intros Hwf Hbase Hfirst Hlast Hlen. unfold set_bits_loop.
  destruct (Z.le_gt_cases first last) as [Hle|Hgt].
  2:{ exists m. replace (Z.to_nat _) with O by lia. split; [done|]. split; [apply same_shape_refl|].
      intros k. unfold in_range. by replace (_ && _) with false by bool_solve. }
  edestruct (iter_up_inv
    (fun i m' => same_shape m m' /\
       forall k, mem_bit m' k = in_range (8 * base + first) (8 * base + i - 1) k || mem_bit m k))
    as (m' & E & Hs & Hb); [| |exists m'; split; [exact E|]; split; [done|]].
  - split; [apply same_shape_refl|]. intros k. unfold in_range. by replace (_ && _) with false by bool_solve.
  - intros i m1 Hi [Hs1 Hb1].
    destruct (test_and_set_bit_spec i base m1) as (m2 & E2 & Hs2 & Hb2); [by apply Hs1|lia..| |].
    { rewrite (shape_len _ _ Hs1). lia. }
    exists m2. rewrite E2. split; [done|]. split; [by eapply same_shape_trans|].
    intros k. rewrite Hb2, Hb1. unfold in_range. destruct (mem_bit m k); bool_solve.
  - intros k. rewrite Hb. do 2 f_equal. lia.
Qed.

(** A bit beyond the block is not set: the store faults. *)
Lemma test_and_set_bit_fault nr addr m :
  0 <= nr -> Z.of_nat (length m) < addr + 4 * (nr / 32) + 4 -> test_and_set_bit nr addr m = None.
Proof.
  intros Hn Hl. unfold test_and_set_bit. rewrite Z.shiftr_div_pow2 by lia. change (2 ^ 5) with 32.
  unfold load. destruct (in_buffer 4 m _) eqn:E; [|done]. apply in_buffer_spec in E. lia.
Qed.

Lemma set_bits_loop_fault base first last m :
  wf_mem m -> 0 <= base -> 0 <= first <= last -> Z.of_nat (length m) < base + 4 * (last / 32) + 4 ->
  set_bits_loop base first last m = None.
Proof.
  intros Hwf Hb Hf Hl. unfold set_bits_loop.
  remember (Z.to_nat (last - first + 1)) as n eqn:En. revert first m Hwf Hf Hl En.
  induction n as [|n IH]; intros first m Hwf Hf Hl En; [lia|]. cbn [iter_up].
  destruct (Z.le_gt_cases (base + 4 * (first / 32) + 4) (Z.of_nat (length m))) as [Hin|Hout].
  - destruct (test_and_set_bit_spec first base m) as (m1 & -> & Hs & _); [done|lia..|]. cbn [mbind option_bind].
    destruct (decide (first = last)) as [->|]; [lia|].
    apply IH; [by apply Hs|lia| |lia]. by rewrite (shape_len _ _ Hs).
  - rewrite test_and_set_bit_fault by lia. done.
Qed.

(** ** Position of a sector *)
Lemma atdr_find_pos_loop_spec fuel cur addr g :
  0 < g -> 0 <= cur -> cur * g <= addr -> (cur + Z.of_nat fuel) * g < 2 ^ 32 ->
  atdr_find_pos_loop fuel cur addr g = Z.min (addr / g) (cur + Z.of_nat fuel).
Proof.
  intros Hg. revert cur. induction fuel as [|fuel IH]; intros cur Hcur Haddr Hov; cbn [atdr_find_pos_loop].
  - assert (cur <= addr / g) by (apply Z.div_le_lower_bound; lia). lia.
  - rewrite u32_id by nia. destruct (Z.ltb_spec addr ((cur + 1) * g)).
    + assert (addr / g = cur) as -> by (symmetry; apply (Z.div_unique_pos _ _ _ (addr - cur * g)); lia). lia.
    + rewrite IH by lia. lia.
Qed.

(** A sector the 32-bit products cannot reach. *)
Lemma atdr_find_pos_loop_beyond fuel cur addr g :
  2 ^ 32 <= addr -> atdr_find_pos_loop fuel cur addr g = cur + Z.of_nat fuel.
Proof.
  intros Ha. revert cur. induction fuel as [|fuel IH]; intros cur; cbn [atdr_find_pos_loop]; [lia|].
  pose proof (u32_range ((cur + 1) * g)). replace (addr <? _) with false by bool_solve. rewrite IH. lia.
Qed.

(** ** Access paths *)
Lemma extension_upd_ext d e f s :
  extension d (upd_ext e f s) = if decide (e = d) then f <$> extension d s else extension d s.
Proof.
  unfold extension, upd_ext, upd_device. cbn. case_decide as He.
  - subst. rewrite lookup_alter. case_decide; [|done]. by destruct (devices s !! d) as [[[]]|].
  - by rewrite lookup_alter_ne.
Qed.

Lemma vol_info_upd_vol d e f s :
  vol_info d (upd_vol e f s) = if decide (e = d) then f <$> vol_info d s else vol_info d s.
Proof.
  unfold vol_info, upd_vol. rewrite extension_upd_ext. case_decide; [|done].
  by destruct (extension d s) as [[? ? ? []]|].
Qed.

Lemma vol_bitmap_upd d e f s :
  vol_bitmap d (upd_vbm e f s) = if decide (e = d) then f <$> vol_bitmap d s else vol_bitmap d s.
Proof.
  unfold vol_bitmap, upd_vbm. rewrite vol_info_upd_vol. case_decide; [|done].
  by destruct (vol_info d s) as [[? ? [] ?]|].
Qed.

Definition lower_of (d : Z) (s : wstate) : option Z := x ← extension d s; LowerDeviceObject x.

Lemma lower_upd_vol d e f s : lower_of d (upd_vol e f s) = lower_of d s.
Proof.
  unfold lower_of, upd_vol. rewrite extension_upd_ext. case_decide; [|done]. by destruct (extension d s).
Qed.

(** ** The invariant of a volume *)
Record area_ok (bm : ATDR_BITMAP) (blk : Z) : Prop := {
  ao_start : ab_start bm = Some (mk_wptr blk 0);
  ao_backup : ab_backup bm = Some (mk_wptr blk (ab_size bm));
  ao_half : ab_user bm = KERNEL /\ ab_area bm = Some (mk_wptr blk 0) \/
            ab_user bm = USER /\ ab_area bm = Some (mk_wptr blk (ab_size bm));
  ao_size : 0 < ab_size bm <= MAX_BITMAP_BYTES /\ ab_size bm mod 4 = 0;
  ao_bits : ab_total_num_bits bm = 8 * ab_size bm;
}.

Record vol_ok (s : wstate) (d : Z) (bm : ATDR_BITMAP) (blk : Z) (m : mem) : Prop := {
  vo_bm : vol_bitmap d s = Some bm;
  vo_track : atdr_tracking_enabled <$> vol_info d s = Some true;
  vo_filter : ControlObj s <> Some d;
  vo_lower : is_Some (lower_of d s);
  vo_area : area_ok bm blk;
  vo_mem : pool s !! blk = Some m;
  vo_wf : wf_mem m;
  vo_len : Z.of_nat (length m) = 2 * ab_size bm;
}.

(** The offsets of the driver's half and of the reader's. *)
Definition driver_off (bm : ATDR_BITMAP) : Z := if ab_user bm =? USER then ab_size bm else 0.
Definition reader_off (bm : ATDR_BITMAP) : Z := ab_size bm - driver_off bm.

Lemma area_at bm blk : area_ok bm blk -> ab_area bm = Some (mk_wptr blk (driver_off bm)).
Proof. intros [_ _ [[Hu Ha]|[Hu Ha]] _ _]; unfold driver_off; by rewrite Hu, Ha. Qed.

Lemma driver_off_cases bm : driver_off bm = 0 \/ driver_off bm = ab_size bm.
Proof. unfold driver_off. destruct (_ =? _); auto. Qed.

Lemma flip_area bm blk :
  area_ok bm blk -> area_ok (flip_halves bm) blk /\ driver_off (flip_halves bm) = reader_off bm /\
    ab_size (flip_halves bm) = ab_size bm /\ ab_grain_size (flip_halves bm) = ab_grain_size bm /\
    ab_user (flip_halves bm) = 1 - ab_user bm.
Proof.
  intros [A B H S N]. unfold flip_halves, driver_off, reader_off, USER, KERNEL in *.
  destruct H as [[Hu Ha]|[Hu Ha]]; rewrite Hu; cbn; (split; [split; cbn; auto|]); rewrite ?Hu; cbn;
    unfold USER, driver_off; rewrite ?Hu; cbn; split_and!; try done; lia.
Qed.

(** ** Requests on a volume *)
Section requests.
Context `{MountDev} (env : wenv).

Lemma is_control_false d s : ControlObj s <> Some d -> is_control d s = false.
Proof. intros. unfold is_control. by case_bool_decide. Qed.

Lemma skip_and_call_ok d irp s l :
  lower_of d s = Some l ->
  skip_and_call env d irp s =
    Some (we_call env, irp, wemit (EvCallDriver l (irp_id irp)) (wemit (EvSkipStack (irp_id irp)) s)).
Proof.
  unfold skip_and_call, lower_of. destruct (extension d s); cbn [mbind option_bind]; [|done]. by intros ->.
Qed.

(** What a trace entry or a change of the pool leaves alone. *)
Lemma vol_ok_frame s s' d bm blk m :
  vol_ok s d bm blk m -> devices s' = devices s -> ControlObj s' = ControlObj s ->
  pool s' !! blk = pool s !! blk -> vol_ok s' d bm blk m.
Proof.
  intros [A B C D E F G I] Hd Hc Hp. unfold vol_bitmap, vol_info, lower_of, extension in *.
  split; unfold vol_bitmap, vol_info, lower_of, extension; rewrite ?Hd, ?Hc, ?Hp; done.
Qed.

(** A request as the file system sends it: whole sectors inside the bitmap. *)
Definition write_ok (bm : ATDR_BITMAP) (irp : IRP) : Prop :=
  let g := ab_grain_size bm / 512 in
  0 <= ByteOffset irp /\ 0 <= wr_Length irp < 2 ^ 32 /\
  512 <= ab_grain_size bm /\ ab_total_num_bits bm * g < 2 ^ 32 /\
  (ByteOffset irp + wr_Length irp) / 512 < ab_total_num_bits bm * g.

Definition write_touches (bm : ATDR_BITMAP) (irp : IRP) (k : Z) : bool :=
  let g := ab_grain_size bm / 512 in
  in_range (ByteOffset irp / 512 / g) ((ByteOffset irp + wr_Length irp) / 512 / g) k.

Lemma atdr_find_pos_ok bm blk addr :
  area_ok bm blk -> 512 <= ab_grain_size bm -> 0 <= addr ->
  ab_total_num_bits bm * (ab_grain_size bm / 512) < 2 ^ 32 ->
  atdr_find_pos bm addr = Z.min (addr / (ab_grain_size bm / 512)) (ab_total_num_bits bm).
Proof.
  intros Ha Hg Haddr Hov. destruct Ha as [_ _ _ [Hs _] Hb]. unfold atdr_find_pos.
  rewrite Z.shiftr_div_pow2 by lia. change (2 ^ 9) with 512.
  rewrite atdr_find_pos_loop_spec by lia. f_equal. lia.
Qed.

Lemma write_marks d irp s bm blk m :
  vol_ok s d bm blk m -> write_ok bm irp ->
  exists m', atdr_set_bits d (atdr_find_pos bm (u64 (Z.shiftr (ByteOffset irp) 9)))
      (atdr_find_pos bm (u64 (Z.shiftr (i64 (ByteOffset irp + wr_Length irp)) 9))) s
      = Some (s <| pool ::= <[blk := m']> |>) /\
    vol_ok (s <| pool ::= <[blk := m']> |>) d bm blk m' /\
    forall k, mem_bit m' k = write_touches bm irp (k - 8 * driver_off bm) || mem_bit m k.
Proof.
  intros Hok (Ho & Hl & Hg & Hov & Hin). pose proof Hok as [Hbm Ht Hc Hlo Ha Hm Hwf Hlen].
  pose proof Ha as [_ _ _ [Hs Hs4] Hb]. unfold MAX_BITMAP_BYTES in Hs.
  set (g := ab_grain_size bm / 512) in *.
  rewrite i64_id, !Z.shiftr_div_pow2 by lia. change (2 ^ 9) with 512. rewrite !u64_id by lia.
  rewrite !(atdr_find_pos_ok bm blk) by (done || lia). fold g.
  set (first := ByteOffset irp / 512 / g). set (last := (ByteOffset irp + wr_Length irp) / 512 / g).
  assert (Hlast : last < ab_total_num_bits bm) by (apply Z.div_lt_upper_bound; lia).
  assert (Hfirst : 0 <= first <= last) by (split; [apply Z.div_pos; lia|apply Z.div_le_mono; lia]).
  rewrite !Z.min_l by lia. pose proof (driver_off_cases bm) as Hoff.
  destruct (set_bits_loop_spec (driver_off bm) first last m) as (m' & E & Hsh & Hbits); [done|lia..|].
  exists m'. split.
  { unfold atdr_set_bits, set_bits_at. rewrite Hbm. cbn [mbind option_bind]. rewrite (area_at bm blk Ha).
    cbn [mbind option_bind wp_blk wp_off]. rewrite Hm. cbn [mbind option_bind]. by rewrite !i32_id, E by lia. }
  split; [|intros k; rewrite Hbits; unfold write_touches; fold g first last; f_equal; unfold in_range; bool_solve].
  split; try done; cbn; [by rewrite lookup_insert_eq|by apply Hsh|by rewrite (shape_len _ _ Hsh)].
Qed.
End requests.
