(* ===== verification/WinProps.v ===== *)
(** * The volume filter driver as a change tracker

    The dispatch routines keep the invariant of a volume; the driver satisfies
    the interface of [Tracker] and so does the Linux module, hence both mark
    the same grains for the same requests. *)
From S2P Require Import Prelude Memory KernelState KBitmap KBitmapSpec KernelMain KernelInv KernelSteps KernelProps KernelTrace.
From S2P Require Import Tracker WinState WinFilter WinSpec.

Section driver.
Context `{MountDev} (env : wenv).

Lemma write_passes d irp s bm blk m :
  vol_ok s d bm blk m -> write_ok bm irp ->
  exists s' m' l, atdrFltWrite env d irp s = Some (we_call env, irp, s') /\ vol_ok s' d bm blk m' /\
    lower_of d s = Some l /\
    wevents s' = wevents s ++ [EvSkipStack (irp_id irp); EvCallDriver l (irp_id irp)] /\
    pool s' = <[blk := m']> (pool s) /\ devices s' = devices s /\ dispatch_table s' = dispatch_table s /\
    forall k, mem_bit m' k = write_touches bm irp (k - 8 * driver_off bm) || mem_bit m k.
Proof.
  intros Hok Hw. pose proof Hok as [Hbm Ht Hc [l Hl] Ha Hm Hwf Hlen].
  destruct (write_marks d irp s bm blk m Hok Hw) as (m' & E & Hok' & Hbits).
  eexists _, m', l. split.
  { unfold atdrFltWrite. rewrite is_control_false by done.
    destruct (vol_info d s) as [v|] eqn:Ev; [|done]. injection Ht as Hv. cbn [mbind option_bind]. rewrite Hv.
    assert (vi_bitmap v = Some bm) as -> by (unfold vol_bitmap in Hbm; by rewrite Ev in Hbm).
    cbn [mbind option_bind]. rewrite E. cbn [mbind option_bind].
    apply skip_and_call_ok. exact Hl. }
  split; [by eapply vol_ok_frame|]. split; [done|]. split; [|done]. cbn. by rewrite <- app_assoc.
Qed.

Lemma upd_vbm_ok d f s bm blk m :
  vol_ok s d bm blk m -> area_ok (f bm) blk -> ab_size (f bm) = ab_size bm ->
  vol_ok (upd_vbm d f s) d (f bm) blk m.
Proof.
  intros [Hbm Ht Hc Hl Ha Hm Hwf Hlen] Hf Hs. split.
  - rewrite vol_bitmap_upd, decide_True by done. by rewrite Hbm.
  - unfold upd_vbm. rewrite vol_info_upd_vol, decide_True by done.
    destruct (vol_info d s) as [v|]; [|done]. done.
  - done.
  - unfold upd_vbm. by rewrite lower_upd_vol.
  - done.
  - done.
  - done.
  - by rewrite Hs.
Qed.

Lemma flip_exchanges d irp s bm blk m :
  vol_ok s d bm blk m -> IoControlCode irp = ATDR_FLIP_BITMAP_AREA -> IOCTL_MOUNTDEV_LINK_CREATED <> ATDR_FLIP_BITMAP_AREA ->
  exists irp' s', atdrFltDeviceControl env d irp s = Some (STATUS_SUCCESS, irp', s') /\
    vol_ok s' d (flip_halves bm) blk m /\ dispatch_table s' = dispatch_table s /\ pool s' = pool s /\
    wevents s' = wevents s ++ [EvComplete (irp_id irp) STATUS_SUCCESS (io_Information irp)].
Proof.
  intros Hok Hc Hne. pose proof Hok as [Hbm Ht Hcc [l Hl] Ha Hm Hwf Hlen].
  unfold atdrFltDeviceControl. unfold lower_of in Hl.
  destruct (extension d s) as [x|]; [|done]. cbn [mbind option_bind]. rewrite Hc.
  replace (ATDR_FLIP_BITMAP_AREA =? IOCTL_MOUNTDEV_LINK_CREATED) with false by (symmetry; apply Z.eqb_neq; congruence).
  cbn -[ioctl_flip_area]. unfold ioctl_flip_area. rewrite Hbm. cbn [mbind option_bind].
  do 2 eexists. split; [done|]. destruct (flip_area bm blk Ha) as (Ha' & _ & Hs & _).
  split; [|done]. eapply vol_ok_frame; [by apply (upd_vbm_ok d flip_halves)|done..].
Qed.
End driver.
