(* ===== verification/TrackerProps.v ===== *)
(** * Both drivers track the same changes

    The kernel module of kernel/atdr_linux and the filter driver of
    kernel/atdr_windows satisfy the interface of [Tracker].  For requests that
    end before the end of the disk they mark the same grains; where they differ
    is in [WinLimits]. *)
From S2P Require Import Prelude Memory KernelState KBitmap KBitmapSpec KernelMain KernelInv KernelSteps KernelProps KernelTrace.
From S2P Require Import Tracker WinState WinFilter WinSpec WinProps.

(** The two halves of [m] at the byte offsets [od] and [or]. *)
Definition halves (n od or : Z) (m : mem) (t : tracker) : Prop :=
  forall k, 0 <= k < n -> tk_driver t k = mem_bit m (8 * od + k) /\ tk_reader t k = mem_bit m (8 * or + k).

Lemma halves_respects n od or m t1 t2 : t1 ≡ t2 -> halves n od or m t1 <-> halves n od or m t2.
Proof. intros [H1 H2]. unfold halves. by setoid_rewrite H1; setoid_rewrite H2. Qed.

Lemma halves_flip g n od or m t : halves n od or m t -> halves n or od m (tracker_step g TFlip t).
Proof. intros Hh k Hk. destruct (Hh k Hk). done. Qed.

(** A mark in the half at [od] leaves the one at [or] alone: they are [n]
    bits each. *)
Lemma halves_mark g n od or m m' q t :
  (8 * od + n <= 8 * or \/ 8 * or + n <= 8 * od) -> 0 < g -> op_fits n g (TWrite q) -> halves n od or m t ->
  (forall k, mem_bit m' k = req_touches g q (k - 8 * od) || mem_bit m k) ->
  halves n od or m' (tracker_step g (TWrite q) t).
Proof.
  intros Hd Hg (Hs & Hc & Hend) Hh Hm k Hk. destruct (Hh k Hk) as [H1 H2]. cbn [tracker_step tk_driver tk_reader].
  rewrite !Hm, H1, H2. split; [by replace (8 * od + k - 8 * od) with k by lia|].
  replace (req_touches g q (8 * or + k - 8 * od)) with false; [done|].
  unfold req_touches, in_range.
  assert ((wq_sector q + wq_count q) / g < n) by (apply Z.div_lt_upper_bound; lia).
  assert (0 <= wq_sector q / g) by (apply Z.div_pos; lia). bool_solve.
Qed.

(** ** The Linux module *)
Section linux.
Context `{KBitopsLaws} (env : kenv) (Hcopy : env_copy_from_user env = true) (d : Z) (arg : IOCTL).
Context (Harg : io_index arg = d).

Definition linux_bio (q : write_req) : bio := mk_bio (wq_sector q) (512 * wq_count q) true [].

Definition linux_tracker : Tracker kstate := {|
  tr_write q s := ebdr_make_request d (linux_bio q) s;
  tr_flip s := '(_, s') ← ioctl_flip env arg s; Some s';
|}.

Record linux_inv (n g : Z) (s : kstate) (t : tracker) : Prop := {
  li_kwf : kwf s;
  li_minor : 1 <= d < minor s;
  li_bm : exists bm p m, bm_ok s d bm p m /\ attached s d bm /\ kb_size bm = n /\ kb_grain_size bm / 512 = g /\
    halves n (kp_off p) (area_sz s d - kp_off p) m t;
}.

#[local] Existing Instance linux_tracker.

Lemma linux_write n g q s t :
  linux_inv n g s t -> op_fits n g (TWrite q) ->
  exists s', tr_write q s = Some s' /\ linux_inv n g s' (tracker_step g (TWrite q) t).
Proof.
  intros [Hwf Hd (bm & p & m & Hok & Hat & <- & <- & Hh)] Hfit. pose proof Hfit as (Hs & Hc & Hend).
  pose proof Hat as [Hg Hov (i & bdev & Hl & Hb)].
  assert (Hbio : bio_ok (linux_bio q)).
  { unfold bio_ok, linux_bio. cbn. rewrite Z.mul_comm, Z.div_mul by lia. lia. }
  destruct (write_request_result s d (linux_bio q) bm p m i bdev) as (s1 & m1 & E & Hok1 & _ & Hbits); try done.
  exists s1. split; [exact E|]. destruct (request_devices _ _ _ _ E) as (Hdev & Hbdd & Hmin).
  assert (Harea : area_sz s1 d = area_sz s d).
  { pose proof (bo_size _ _ _ _ _ Hok). pose proof (bo_size _ _ _ _ _ Hok1). lia. }
  split; [by eapply request_kwf|by rewrite Hmin|]. exists bm, p, m1. split; [done|]. split.
  { split; [done|done|]. exists i, bdev. by rewrite Hdev, Hbdd. }
  split; [done|]. split; [done|]. rewrite Harea.
  pose proof (bo_half _ _ _ _ _ Hok). pose proof (bo_size _ _ _ _ _ Hok).
  apply halves_mark with m; [lia|lia|done|done|]. intros k. rewrite Hbits. unfold touched, req_touches, linux_bio.
  cbn [bi_sector bi_size]. rewrite (Z.mul_comm 512), Z.div_mul by lia.
  assert ((wq_sector q + wq_count q) / (kb_grain_size bm / 512) < kb_size bm) by (apply Z.div_lt_upper_bound; lia).
  assert (wq_sector q / (kb_grain_size bm / 512) <= (wq_sector q + wq_count q) / (kb_grain_size bm / 512))
    by (apply Z.div_le_mono; lia).
  by rewrite !Z.min_l by lia.
Qed.

Lemma linux_flip n g s t :
  linux_inv n g s t -> exists s', tr_flip s = Some s' /\ linux_inv n g s' (tracker_step g TFlip t).
Proof.
  intros [Hwf Hd (bm & p & m & Hok & Hat & <- & <- & Hh)].
  destruct (flip_spec env arg s d bm p m) as (s1 & bm1 & p1 & E & Hwf1 & Hok1 & _ & Hoff & _ & Hmin & Hsz & Hgr); try done.
  exists s1. unfold tr_flip, linux_tracker. rewrite E. split; [done|].
  destruct (flip_devices _ _ _ _ _ E) as [Hdev Hbdd].
  assert (Hsize : kb_size bm1 = kb_size bm).
  { rewrite (bo_size _ _ _ _ _ Hok), (bo_size _ _ _ _ _ Hok1). lia. }
  split; [done|by rewrite Hmin|]. exists bm1, p1, m. split; [done|]. destruct Hat as [Hg Hov (i & bdev & Hl & Hb)].
  split; [split; [by rewrite Hgr|by rewrite Hsize, Hgr|exists i, bdev; by rewrite Hdev, Hbdd]|].
  split; [done|]. split; [by rewrite Hgr|]. rewrite Hsz, Hoff.
  replace (area_sz s d - (area_sz s d - kp_off p)) with (kp_off p) by lia. by apply halves_flip.
Qed.

Lemma linux_laws n g : TrackerLaws kstate n g (linux_inv n g).
Proof.
  split.
  - intros s1 s2 <- t1 t2 Ht. split; intros [Hwf Hd (bm & p & m & ? & ? & ? & ? & Hh)]; (split; [done..|]);
      exists bm, p, m; split_and!; try done; by (rewrite <- (halves_respects _ _ _ _ _ _ Ht) || rewrite (halves_respects _ _ _ _ _ _ Ht)).
  - intros. by apply linux_write.
  - intros. by apply linux_flip.
Qed.
End linux.

(** ** The Windows filter driver *)
Section windows.
Context `{MountDev} (env : wenv) (d : Z) (Hlink : IOCTL_MOUNTDEV_LINK_CREATED <> ATDR_FLIP_BITMAP_AREA).

Definition write_irp (q : write_req) : IRP :=
  mk_IRP 0 IRP_MJ_WRITE 0 [] 0 0 (512 * wq_sector q) (512 * wq_count q) 0 0 true.

Definition flip_irp : IRP :=
  mk_IRP 0 IRP_MJ_DEVICE_CONTROL 0 (replicate 84 0) 84 ATDR_FLIP_BITMAP_AREA 0 0 0 0 true.

Definition windows_tracker : Tracker wstate := {|
  tr_write q s := '(_, _, s') ← dispatch_irp env d (write_irp q) s; Some s';
  tr_flip s := '(_, _, s') ← dispatch_irp env d flip_irp s; Some s';
|}.

(** DriverEntry has filled the dispatch table. *)
Definition registered (s : wstate) : Prop :=
  dispatch_table s !! IRP_MJ_WRITE = Some FltWrite /\
  dispatch_table s !! IRP_MJ_DEVICE_CONTROL = Some FltDeviceControl.

Record windows_inv (n g : Z) (s : wstate) (t : tracker) : Prop := {
  wi_table : registered s;
  wi_bm : exists bm blk m, vol_ok s d bm blk m /\ ab_total_num_bits bm = n /\
    512 <= ab_grain_size bm /\ ab_grain_size bm / 512 = g /\ n * g < 2 ^ 32 /\
    halves n (driver_off bm) (reader_off bm) m t;
}.

#[local] Existing Instance windows_tracker.

Lemma windows_write n g q s t :
  windows_inv n g s t -> op_fits n g (TWrite q) ->
  exists s', tr_write q s = Some s' /\ windows_inv n g s' (tracker_step g (TWrite q) t).
Proof.
  intros [[Ht Htc] (bm & blk & m & Hok & <- & Hg & <- & Hov & Hh)] Hfit. pose proof Hfit as (Hs & Hc & Hend).
  assert (Hdiv : (512 * wq_sector q + 512 * wq_count q) / 512 = wq_sector q + wq_count q) by lia.
  assert (Hw : write_ok bm (write_irp q)).
  { unfold write_ok. cbn [ByteOffset wr_Length write_irp]. rewrite Hdiv. split_and!; lia. }
  destruct (write_passes env d (write_irp q) s bm blk m Hok Hw)
    as (s1 & m1 & l & E & Hok1 & _ & _ & _ & _ & Htab & Hbits).
  exists s1. unfold tr_write, windows_tracker, dispatch_irp. cbn [MajorFunction write_irp].
  rewrite Ht. cbn [mbind option_bind run_dispatch]. rewrite E. split; [done|].
  split; [unfold registered; by rewrite Htab|]. exists bm, blk, m1. split; [done|]. do 4 (split; [done|]).
  pose proof (vo_area _ _ _ _ _ Hok) as [_ _ _ _ Hb]. pose proof (driver_off_cases bm).
  apply halves_mark with m; [unfold reader_off; lia|lia|done|done|]. intros k. rewrite Hbits.
  unfold write_touches, req_touches. cbn [ByteOffset wr_Length write_irp]. rewrite Hdiv.
  by rewrite (Z.mul_comm 512), Z.div_mul by lia.
Qed.

Lemma windows_flip n g s t :
  windows_inv n g s t -> exists s', tr_flip s = Some s' /\ windows_inv n g s' (tracker_step g TFlip t).
Proof.
  intros [[Ht Htc] (bm & blk & m & Hok & <- & Hg & <- & Hov & Hh)].
  destruct (flip_exchanges env d flip_irp s bm blk m Hok eq_refl Hlink) as (irp' & s1 & E & Hok1 & Htab & _).
  exists s1. unfold tr_flip, windows_tracker, dispatch_irp. cbn [MajorFunction flip_irp].
  rewrite Htc. cbn [mbind option_bind run_dispatch]. rewrite E. split; [done|].
  split; [unfold registered; by rewrite Htab|]. exists (flip_halves bm), blk, m. split; [done|].
  destruct (flip_area bm blk (vo_area _ _ _ _ _ Hok)) as (Ha & Hoff & Hsz & Hgr & _).
  pose proof (vo_area _ _ _ _ _ Hok) as [_ _ _ _ Hb]. pose proof Ha as [_ _ _ _ Hb'].
  assert (ab_total_num_bits (flip_halves bm) = ab_total_num_bits bm) as Hn by lia.
  rewrite Hgr. split; [done|]. do 3 (split; [done|]).
  unfold reader_off at 1. rewrite Hoff, Hsz. unfold reader_off at 2.
  replace (ab_size bm - (ab_size bm - driver_off bm)) with (driver_off bm) by lia. by apply halves_flip.
Qed.

Lemma windows_laws n g : TrackerLaws wstate n g (windows_inv n g).
Proof.
  split.
  - intros s1 s2 <- t1 t2 Ht. split; intros [Hr (bm & blk & m & ? & ? & ? & ? & ? & Hh)]; (split; [done|]);
      exists bm, blk, m; split_and!; try done; by (rewrite <- (halves_respects _ _ _ _ _ _ Ht) || rewrite (halves_respects _ _ _ _ _ _ Ht)).
  - intros. by apply windows_write.
  - intros. by apply windows_flip.
Qed.
End windows.

(** ** The two together *)

(** The bits of the halves an implementation state stands for. *)
Definition linux_bits (d : Z) (s : kstate) (k : Z) : option (bool * bool) :=
  bm ← get_bmap d s; p ← kb_area bm; m ← vmalloc_area s !! kp_blk p;
  Some (mem_bit m (8 * kp_off p + k), mem_bit m (8 * (area_sz s d - kp_off p) + k)).

Definition windows_bits (d : Z) (s : wstate) (k : Z) : option (bool * bool) :=
  bm ← vol_bitmap d s; p ← ab_area bm; m ← pool s !! wp_blk p;
  Some (mem_bit m (8 * wp_off p + k), mem_bit m (8 * (ab_size bm - wp_off p) + k)).

Lemma linux_bits_inv d n g s t k :
  linux_inv d n g s t -> 0 <= k < n -> linux_bits d s k = Some (tk_driver t k, tk_reader t k).
Proof.
  intros [_ _ (bm & p & m & Hok & _ & _ & _ & Hh)] Hk. destruct (Hh k Hk) as [-> ->].
  destruct Hok as [G A B M _ _ _ _ _ _]. unfold linux_bits. rewrite G. cbn. rewrite A. cbn. by rewrite B, M.
Qed.

Lemma windows_bits_inv d n g s t k :
  windows_inv d n g s t -> 0 <= k < n -> windows_bits d s k = Some (tk_driver t k, tk_reader t k).
Proof.
  intros [_ (bm & blk & m & Hok & _ & _ & _ & _ & Hh)] Hk. destruct (Hh k Hk) as [-> ->].
  destruct Hok as [G _ _ _ Ha M _ _]. unfold windows_bits. rewrite G. cbn. rewrite (area_at bm blk Ha). cbn.
  rewrite M. done.
Qed.

(** C10. The kernel module and the Windows filter driver are the same change
    tracker: started with the same marks on disks of the same geometry, and
    given the same writes and exchanges of the halves, both carry out every
    operation, and afterwards the same grains are marked in the driver's half
    and in the reader's, those of the specification [tracker_run].  Every write
    must end before the last tracked sector and have fewer than 2^23 sectors
    ([op_fits]): for a write that reaches the end of the tracked range the ports
    differ, the kernel module marks its last grain
    ([KernelProps.make_request_tracks]) and the filter driver a bit outside its
    half ([WinLimits.write_to_the_end_leaves_half]). *)
Theorem trackers_agree `{KBitopsLaws} `{MountDev} env arg wenv dl dw n g s w t os :
  env_copy_from_user env = true -> io_index arg = dl -> IOCTL_MOUNTDEV_LINK_CREATED <> ATDR_FLIP_BITMAP_AREA ->
  linux_inv dl n g s t -> windows_inv dw n g w t -> Forall (op_fits n g) os ->
  exists s' w', @tr_run kstate (linux_tracker env dl arg) os s = Some s' /\
    @tr_run wstate (windows_tracker wenv dw) os w = Some w' /\
    forall k, 0 <= k < n ->
      linux_bits dl s' k = windows_bits dw w' k /\
      windows_bits dw w' k = Some (tk_driver (tracker_run g os t) k, tk_reader (tracker_run g os t) k).
Proof.
  intros Hcopy Harg Hlink Hl Hw Hos.
  destruct (@tr_run_refines _ _ _ _ _ (linux_laws env Hcopy dl arg Harg n g) os s t Hl Hos) as (s' & Es & Hs').
  destruct (@tr_run_refines _ _ _ _ _ (windows_laws wenv dw Hlink n g) os w t Hw Hos) as (w' & Ew & Hw').
  exists s', w'. split; [done|]. split; [done|]. intros k Hk.
  by rewrite (linux_bits_inv _ _ _ _ _ _ Hs' Hk), (windows_bits_inv _ _ _ _ _ _ Hw' Hk).
Qed.
