(* ===== verification/WinInv.v ===== *)
(** * Safety of the volume filter driver

    [volume]: the state of a device whose bitmap has been created.  Every
    request the driver can serve safely keeps it, is carried out without
    undefined behaviour, and is given up exactly once: completed, or handed to
    the device below. *)
From S2P Require Import Prelude Memory KernelState KBitmapSpec WinState WinFilter WinSpec WinProps.

(** ** The dispatch table *)
Definition driver_routine (major : Z) : dispatch_fn :=
  if major =? IRP_MJ_DEVICE_CONTROL then FltDeviceControl
  else if major =? IRP_MJ_WRITE then FltWrite
  else if major =? IRP_MJ_PNP then FltDispatchPnp
  else if major =? IRP_MJ_POWER then FltDispatchPower
  else if (major =? IRP_MJ_SHUTDOWN) || (major =? IRP_MJ_FLUSH_BUFFERS) then FltShutdownFlush
  else FltSendToNextDriver.

Definition table_ok (t : gmap Z dispatch_fn) : Prop :=
  forall i, 0 <= i <= IRP_MJ_MAXIMUM_FUNCTION -> t !! i = Some (driver_routine i).

Lemma fill_table_lookup t i : 0 <= i <= IRP_MJ_MAXIMUM_FUNCTION -> fill_table t !! i = Some FltSendToNextDriver.
Proof.
  intros Hi. unfold fill_table.
  assert (Hgen : forall l (t : gmap Z dispatch_fn), i ∈ l \/ t !! i = Some FltSendToNextDriver ->
    foldl (fun (t : gmap Z dispatch_fn) i => <[i:=FltSendToNextDriver]> t) t l !! i = Some FltSendToNextDriver).
  { induction l as [|x l IH]; intros t0 [Hin|Ht]; cbn [foldl]; [by apply elem_of_nil in Hin|done| |].
    - apply elem_of_cons in Hin as [->|Hin]; apply IH; [right; apply lookup_insert_eq|by left].
    - apply IH. right. rewrite lookup_insert. by case_decide. }
  apply Hgen. left. apply elem_of_zseq. lia.
Qed.

Lemma driver_table_ok t :
  table_ok (<[IRP_MJ_FLUSH_BUFFERS := FltShutdownFlush]> (<[IRP_MJ_SHUTDOWN := FltShutdownFlush]>
    (<[IRP_MJ_POWER := FltDispatchPower]> (<[IRP_MJ_PNP := FltDispatchPnp]>
    (<[IRP_MJ_WRITE := FltWrite]> (<[IRP_MJ_DEVICE_CONTROL := FltDeviceControl]> (fill_table t))))))).
Proof.
  intros i Hi. rewrite !lookup_insert, fill_table_lookup by done. unfold driver_routine.
  repeat (case_decide; [subst; done|]).
  repeat match goal with |- context [i =? ?x] => replace (i =? x) with false by (symmetry; apply Z.eqb_neq; congruence) end.
  done.
Qed.

(** ** The invariant *)
Record volume (n g : Z) (d : Z) (s : wstate) : Prop := {
  v_table : table_ok (dispatch_table s);
  v_lower : exists l, lower_of d s = Some l /\ is_Some (devices s !! l);
  v_bitmap : exists bm blk m, vol_ok s d bm blk m /\ ab_total_num_bits bm = n /\ ab_grain_size bm = g;
}.

(** How often the driver lets go of the request. *)
Definition gives_up (id : Z) (e : wevent) : bool :=
  match e with
  | EvSkipStack i => i =? id
  | EvComplete i _ _ => i =? id
  | _ => false
  end.

Definition given_up (id : Z) (evs : list wevent) : nat := length (filter (fun e => gives_up id e = true) evs).

Lemma given_up_app id l1 l2 : given_up id (l1 ++ l2) = (given_up id l1 + given_up id l2)%nat.
Proof. unfold given_up. by rewrite filter_app, length_app. Qed.

(** What a request has to satisfy; the conditions on the buffer are those the
    I/O manager guarantees for the lengths the request names. *)
Definition ioctl_safe `{MountDev} (env : wenv) (n g : Z) (irp : IRP) : Prop :=
  let c := IoControlCode irp in
  (c = IOCTL_MOUNTDEV_LINK_CREATED -> InputBufferLength irp <= Z.of_nat (length (SystemBuffer irp))) /\
  (c = ATDRCTL_DEV_CREATE -> we_mdl env = true /\
     ioctl_bitmap_size (SystemBuffer irp) = Some (n / 8) /\ ioctl_grain_size (SystemBuffer irp) = Some g) /\
  (c = ATDRCTL_GET_USER -> SystemBuffer irp <> []) /\
  c <> ATDRCTL_DEV_DESTROY.

Definition irp_safe `{MountDev} (env : wenv) (n g : Z) (irp : IRP) : Prop :=
  0 <= MajorFunction irp <= IRP_MJ_MAXIMUM_FUNCTION /\
  (MajorFunction irp = IRP_MJ_WRITE ->
     0 <= ByteOffset irp /\ 0 <= wr_Length irp < 2 ^ 32 /\ 512 <= g /\ n * (g / 512) < 2 ^ 32 /\
     (ByteOffset irp + wr_Length irp) / 512 < n * (g / 512)) /\
  (MajorFunction irp = IRP_MJ_DEVICE_CONTROL -> ioctl_safe env n g irp) /\
  (MajorFunction irp = IRP_MJ_PNP -> we_event env = true /\ MinorFunction irp <> IRP_MN_REMOVE_DEVICE).

Section safety.
Context `{MountDev} (env : wenv) (n g d : Z).

Definition once (irp : IRP) (id : Z) : nat := if irp_id irp =? id then 1 else 0.

(** The request was handled: a result, the invariant, and one giving up, of
    this request and of no other. *)
Definition handled (irp : IRP) (s : wstate) (r : option (Z * IRP * wstate)) : Prop :=
  exists st irp' s' evs, r = Some (st, irp', s') /\ volume n g d s' /\
    wevents s' = wevents s ++ evs /\ forall id, given_up id evs = once irp id.

Lemma given_up_skip irp l id : given_up id [EvSkipStack (irp_id irp); EvCallDriver l (irp_id irp)] = once irp id.
Proof. unfold given_up, once. cbn. destruct (decide _) as [->|Hne]; [done|]. by destruct (irp_id irp =? id). Qed.

Lemma given_up_complete irp irp' st inf id : irp_id irp' = irp_id irp ->
  given_up id [EvComplete (irp_id irp') st inf] = once irp id.
Proof. intros ->. unfold given_up, once. cbn. destruct (decide _) as [->|Hne]; [done|]. by destruct (irp_id irp =? id). Qed.

(** A change of the volume's own fields that keeps its bitmap. *)
Lemma volume_frame s s' :
  volume n g d s -> dispatch_table s' = dispatch_table s ->
  (forall l, lower_of d s = Some l -> is_Some (devices s !! l) -> lower_of d s' = Some l /\ is_Some (devices s' !! l)) ->
  (forall bm blk m, vol_ok s d bm blk m -> vol_ok s' d bm blk m) -> volume n g d s'.
Proof.
  intros [Ht (l & Hl & Hd) (bm & blk & m & Hok & ?)] Htab Hlow Hbm. split; [by rewrite Htab| |].
  - exists l. by apply Hlow.
  - exists bm, blk, m. split; [by apply Hbm|done].
Qed.

Lemma volume_emit e s : volume n g d s -> volume n g d (wemit e s).
Proof. intros Hv. eapply volume_frame; [done..|]. intros. by eapply vol_ok_frame. Qed.

Lemma volume_passed irp s s1 :
  volume n g d s1 -> wevents s1 = wevents s -> handled irp s (skip_and_call env d irp s1).
Proof.
  intros Hv He. destruct (v_lower _ _ _ _ Hv) as (l & Hl & _). rewrite (skip_and_call_ok env d irp s1 l Hl).
  do 3 eexists. exists [EvSkipStack (irp_id irp); EvCallDriver l (irp_id irp)]. split; [done|].
  split; [by do 2 apply volume_emit|]. split; [cbn; by rewrite He, <- app_assoc|intros id; apply given_up_skip].
Qed.

Lemma volume_completed irp irp' s s1 st :
  volume n g d s1 -> wevents s1 = wevents s -> irp_id irp' = irp_id irp ->
  handled irp s (Some (st, irp', IoCompleteRequest irp' s1)).
Proof.
  intros Hv He Hid. do 3 eexists. exists [EvComplete (irp_id irp') (io_Status irp') (io_Information irp')]. split; [done|].
  split; [by apply volume_emit|]. split; [cbn; by rewrite He|]. intros id. by apply given_up_complete.
Qed.

Lemma volume_filter s : volume n g d s -> is_control d s = false.
Proof. intros [_ _ (bm & blk & m & Hok & _)]. apply is_control_false, Hok. Qed.

Lemma devices_upd_ext f s l : is_Some (devices s !! l) -> is_Some (devices (upd_ext d f s) !! l).
Proof. intros Hl. cbn. rewrite lookup_alter. case_decide; [|done]. subst. by apply fmap_is_Some. Qed.

Lemma volume_upd_vol f s :
  (forall v, vi_bitmap (f v) = vi_bitmap v /\ atdr_tracking_enabled (f v) = atdr_tracking_enabled v) ->
  volume n g d s -> volume n g d (upd_vol d f s).
Proof.
  intros Hf Hv. eapply volume_frame; [done|done| |].
  - intros l Hl Hd. rewrite lower_upd_vol. split; [done|]. by apply devices_upd_ext.
  - intros bm blk m [A B C D E F G I]. split; try done.
    + unfold vol_bitmap in *. rewrite vol_info_upd_vol, decide_True by done.
      destruct (vol_info d s) as [v|]; [|done]. cbn in *. by rewrite (proj1 (Hf v)).
    + rewrite vol_info_upd_vol, decide_True by done. destruct (vol_info d s) as [v|]; [|done].
      cbn in *. by rewrite (proj2 (Hf v)).
    + by rewrite lower_upd_vol.
Qed.

Lemma volume_upd_vbm f s :
  (forall bm blk, area_ok bm blk -> area_ok (f bm) blk /\ ab_size (f bm) = ab_size bm /\ ab_grain_size (f bm) = ab_grain_size bm) ->
  volume n g d s -> volume n g d (upd_vbm d f s).
Proof.
  intros Hf [Ht (l & Hl & Hd) (bm & blk & m & Hok & <- & <-)]. pose proof (vo_area _ _ _ _ _ Hok) as Ha.
  destruct (Hf bm blk Ha) as (Ha' & Hs & Hg). split; [done| |].
  - exists l. unfold upd_vbm. rewrite lower_upd_vol. split; [done|]. by apply devices_upd_ext.
  - exists (f bm), blk, m. split; [by apply upd_vbm_ok|]. split; [|done].
    destruct Ha as [_ _ _ _ Hb]. destruct Ha' as [_ _ _ _ Hb']. lia.
Qed.

(** ** The requests, one by one *)
Lemma write_handled irp s :
  volume n g d s -> 0 <= ByteOffset irp -> 0 <= wr_Length irp < 2 ^ 32 -> 512 <= g -> n * (g / 512) < 2 ^ 32 ->
  (ByteOffset irp + wr_Length irp) / 512 < n * (g / 512) ->
  handled irp s (atdrFltWrite env d irp s).
Proof.
  intros [Ht (l & Hl & Hd) (bm & blk & m & Hok & <- & <-)] Ho Hlen Hg Hov Hin.
  destruct (write_passes env d irp s bm blk m Hok) as (s1 & m1 & l1 & E & Hok1 & Hl1 & Hev & _ & Hdev & Htab & _); [done|].
  rewrite E. do 3 eexists. eexists. split; [done|]. split; [|split; [exact Hev|intros id; apply given_up_skip]].
  split; [by rewrite Htab| |].
  - exists l. unfold lower_of, extension in *. rewrite Hdev. done.
  - by exists bm, blk, m1.
Qed.

Lemma forward_returns irp s :
  volume n g d s -> we_event env = true ->
  exists st irp1 s1 evs, atdrFltForwardIrpSynchronous env d irp s = Some (st, irp1, s1) /\ irp_id irp1 = irp_id irp /\
    volume n g d s1 /\ wevents s1 = wevents s ++ evs /\ forall id, given_up id evs = 0%nat.
Proof.
  intros Hv Hev. unfold atdrFltForwardIrpSynchronous. rewrite Hev, (volume_filter s Hv). cbn [negb].
  set (s0 := set_field kevents_allocated Z.succ s).
  assert (Hv0 : volume n g d s0) by (eapply volume_frame; [done..|]; intros; by eapply vol_ok_frame).
  destruct (v_lower _ _ _ _ Hv) as (l & Hl & _). change (extension d s0) with (extension d s).
  unfold lower_of in Hl. destruct (extension d s) as [x|]; [|done]. cbn [mbind option_bind] in *. rewrite Hl.
  cbn [mbind option_bind]. set (s2 := wemit (EvCallDriver l (irp_id irp)) _).
  assert (Hv2 : volume n g d s2) by by do 3 apply volume_emit.
  destruct (we_call env =? STATUS_PENDING).
  - do 3 eexists. exists [EvCopyStack (irp_id irp); EvSetCompletion (irp_id irp); EvCallDriver l (irp_id irp); EvWait (irp_id irp)].
    split; [done|]. split; [done|]. split; [by apply volume_emit|]. split; [|done]. cbn. by rewrite <- !app_assoc.
  - do 3 eexists. exists [EvCopyStack (irp_id irp); EvSetCompletion (irp_id irp); EvCallDriver l (irp_id irp)].
    split; [done|]. split; [done|]. split; [done|]. split; [|done]. cbn. by rewrite <- !app_assoc.
Qed.

(** Changes of the flags of the filter device. *)
Lemma volume_upd_flags f s :
  (forall o, do_ext (f o) = do_ext o) -> volume n g d s -> volume n g d (upd_device d f s).
Proof.
  intros Hf Hv.
  assert (Hext : extension d (upd_device d f s) = extension d s).
  { unfold extension. cbn. rewrite lookup_alter, decide_True by done. destruct (devices s !! d); [|done]. apply Hf. }
  eapply volume_frame; [done|done| |].
  - intros l Hl Hd. unfold lower_of in *. rewrite Hext. split; [done|]. cbn. rewrite lookup_alter.
    case_decide; [|done]. subst. by apply fmap_is_Some.
  - intros bm blk m [A B C D E F G I]. unfold vol_bitmap, vol_info, lower_of in *.
    split; unfold vol_bitmap, vol_info, lower_of; rewrite ?Hext; done.
Qed.

Lemma pnp_handled irp s :
  volume n g d s -> we_event env = true -> handled irp s (atdrFltStartDevice env d irp s).
Proof.
  intros Hv Hev. unfold atdrFltStartDevice.
  destruct (forward_returns irp s Hv Hev) as (st & irp1 & s1 & evs & -> & Hid & Hv1 & Hev1 & Hg1). cbn [mbind option_bind].
  destruct (v_lower _ _ _ _ Hv1) as (l & Hl & [t Ht]).
  unfold lower_of in Hl. destruct (extension d s1) as [x|]; [|done]. cbn [mbind option_bind] in *. rewrite Hl.
  cbn [mbind option_bind]. unfold atdrFltSyncFilterWithTarget. rewrite Ht. cbn [mbind option_bind].
  do 3 eexists. exists (evs ++ [EvComplete (irp_id irp1) st (io_Information irp1)]). split; [done|]. split; [|split].
  - apply volume_emit. by apply volume_upd_flags.
  - cbn. by rewrite Hev1, app_assoc.
  - intros id. rewrite given_up_app, Hg1. by apply given_up_complete.
Qed.

Lemma user_handled irp s :
  volume n g d s -> SystemBuffer irp <> [] -> handled irp s (ioctl_user d irp s).
Proof.
  intros Hv Hb. unfold ioctl_user. destruct (v_bitmap _ _ _ _ Hv) as (bm & blk & m & Hok & _).
  rewrite (vo_bm _ _ _ _ _ Hok). cbn [mbind option_bind].
  destruct (store_Some 1 (SystemBuffer irp) 0 (if ab_user bm =? KERNEL then 0 else 1)) as [buf ->]; [lia|destruct (SystemBuffer irp); cbn; [done|lia]|].
  by apply volume_completed.
Qed.

Lemma flip_handled irp s : volume n g d s -> handled irp s (ioctl_flip_area d irp s).
Proof.
  intros Hv. unfold ioctl_flip_area. destruct (v_bitmap _ _ _ _ Hv) as (bm & blk & m & Hok & _).
  rewrite (vo_bm _ _ _ _ _ Hok). cbn [mbind option_bind].
  apply volume_completed; [|done|done]. apply volume_upd_vbm; [|done]. intros b k Hb.
  destruct (flip_area b k Hb) as (? & _ & ? & ? & _). done.
Qed.

Lemma default_handled irp s : volume n g d s -> handled irp s (ioctl_default env d irp s).
Proof. intros Hv. unfold ioctl_default. rewrite (volume_filter s Hv). by apply volume_passed. Qed.

Lemma link_handled irp s :
  volume n g d s -> InputBufferLength irp <= Z.of_nat (length (SystemBuffer irp)) ->
  handled irp s (ioctl_link_created env d irp s).
Proof.
  intros Hv Hlen. unfold ioctl_link_created. rewrite (volume_filter s Hv).
  destruct (v_bitmap _ _ _ _ Hv) as (bm & blk & m & Hok & _). pose proof (vo_bm _ _ _ _ _ Hok) as Hbm.
  unfold vol_bitmap in Hbm. destruct (vol_info d s) as [v|]; [|done]. cbn [mbind option_bind].
  destruct (Z.leb_spec 0x62 (InputBufferLength irp)).
  - replace (in_buffer 72 (SystemBuffer irp) (2 + 2 * 11)) with true by (symmetry; apply in_buffer_spec; lia).
    cbn [mbind option_bind]. apply volume_passed; [|done]. by apply volume_upd_vol.
  - destruct (Z.leb_spec 0x1e (InputBufferLength irp)); cbn [mbind option_bind].
    + destruct (load_Some 2 (SystemBuffer irp) (2 + 2 * 12)) as [c ->]; [lia..|]. cbn [mbind option_bind].
      apply volume_passed; [|done]. by apply volume_upd_vol.
    + by apply volume_passed.
Qed.

(** ** Creating the bitmap once more *)
Lemma set_sizes_same bm blk :
  area_ok bm blk -> set_sizes (ab_total_num_bits bm / 8) (ab_grain_size bm) bm = bm.
Proof.
  intros [_ _ _ [Hs Hm] Hb]. unfold set_sizes, MAX_BITMAP_BYTES in *. rewrite Hb.
  replace (8 * ab_size bm / 8) with (ab_size bm) by lia. replace (4 * 4096 <? ab_size bm) with false by bool_solve.
  rewrite u32_id by lia. replace (ab_size bm * 8) with (ab_total_num_bits bm) by lia. by destruct bm.
Qed.

Lemma volume_set_sizes s : volume n g d s -> volume n g d (upd_vbm d (set_sizes (n / 8) g) s).
Proof.
  intros [Ht (l & Hl & Hd) (bm & blk & m & Hok & <- & <-)]. pose proof (vo_area _ _ _ _ _ Hok) as Ha.
  pose proof (set_sizes_same bm blk Ha) as E. split; [done| |].
  - exists l. unfold upd_vbm. rewrite lower_upd_vol. split; [done|]. by apply devices_upd_ext.
  - exists (set_sizes (ab_total_num_bits bm / 8) (ab_grain_size bm) bm), blk, m.
    split; [apply upd_vbm_ok; by rewrite ?E|]. by rewrite E.
Qed.

(** Memory descriptor lists are no part of the invariant. *)
Lemma volume_mdls f s : volume n g d s -> volume n g d (s <| mdls ::= f |>).
Proof. intros Hv. eapply volume_frame; [done..|]. intros. by eapply vol_ok_frame. Qed.

Lemma volume_next_mdl f s : volume n g d s -> volume n g d (s <| next_mdl ::= f |>).
Proof. intros Hv. eapply volume_frame; [done..|]. intros. by eapply vol_ok_frame. Qed.

Lemma output_create_ok a irp b :
  ioctl_bitmap_size (SystemBuffer irp) = Some b -> exists irp', output_create a irp = Some irp' /\ irp_id irp' = irp_id irp.
Proof.
  unfold ioctl_bitmap_size, load, output_create. destruct (in_buffer _ _ _) eqn:E; [|done]. apply in_buffer_spec in E.
  intros _. destruct (store_Some 8 (SystemBuffer irp) 0 a) as [buf ->]; [lia..|]. eexists. by split.
Qed.

Lemma create_again_ok irp s b :
  volume n g d s -> we_mdl env = true -> ioctl_bitmap_size (SystemBuffer irp) = Some b ->
  exists st irp' s', create_again env d irp s = Some (st, irp', s') /\ volume n g d s' /\
    wevents s' = wevents s /\ irp_id irp' = irp_id irp.
Proof.
  intros Hv Hmdl Hb. unfold create_again, IoAllocateMdl. rewrite Hmdl.
  destruct (v_bitmap _ _ _ _ Hv) as (bm & blk & m & Hok & _). rewrite (vo_bm _ _ _ _ _ Hok). cbn [mbind option_bind].
  set (x := mk_wmdl _ _ _). set (s1 := set_field next_mdl Z.succ _).
  assert (Hv2 : volume n g d (upd_vbm d (fun b => b <| ab_Mdl := Some (next_mdl s) |>) s1)).
  { apply volume_upd_vbm; [|by apply volume_next_mdl, volume_mdls]. intros b0 k [A B C D E]. by split; [split|]. }
  set (s2 := upd_vbm _ _ s1) in *.
  assert (Hx : mdls s2 !! next_mdl s = Some x) by apply lookup_insert_eq.
  unfold map_locked. cbn [mbind option_bind]. rewrite Hx. cbn [mbind option_bind].
  destruct (we_map env) as [a|].
  - destruct (output_create_ok a irp b Hb) as (irp' & -> & Hid). cbn [mbind option_bind].
    do 3 eexists. split; [done|]. split; [|done]. apply volume_upd_vbm; [|by apply volume_mdls].
    intros b0 k [A B C D E]. by split; [split|].
  - unfold IoFreeMdl. cbn [mbind option_bind]. rewrite Hx. cbn [mbind option_bind].
    destruct (output_create_ok 0 irp b Hb) as (irp' & -> & Hid). cbn [mbind option_bind].
    do 3 eexists. split; [done|]. split; [by apply volume_mdls|done].
Qed.

Lemma create_handled irp s :
  volume n g d s -> we_mdl env = true -> ioctl_bitmap_size (SystemBuffer irp) = Some (n / 8) ->
  ioctl_grain_size (SystemBuffer irp) = Some g -> handled irp s (ioctl_create env d irp s).
Proof.
  intros Hv Hmdl Hb Hg. unfold ioctl_create. destruct (v_bitmap _ _ _ _ Hv) as (bm & blk & m & Hok & _).
  pose proof (vo_bm _ _ _ _ _ Hok) as Hbm. pose proof (vo_track _ _ _ _ _ Hok) as Ht. unfold vol_bitmap in Hbm.
  destruct (vol_info d s) as [v|]; [|done]. cbn in Ht. injection Ht as Ht. cbn [mbind option_bind] in *.
  rewrite Hbm. cbn [mbind option_bind]. rewrite Hb, Hg. cbn [mbind option_bind]. rewrite Ht.
  pose proof (volume_set_sizes s Hv) as Hv1. set (s1 := upd_vbm _ _ s) in *.
  destruct (own_thread irp).
  - destruct (create_again_ok irp s1 (n / 8) Hv1 Hmdl Hb) as (st & irp' & s' & -> & Hv' & Hev & Hid).
    cbn [mbind option_bind]. by apply volume_completed.
  - by apply volume_completed.
Qed.

Lemma device_control_handled irp s :
  volume n g d s -> ioctl_safe env n g irp -> handled irp s (atdrFltDeviceControl env d irp s).
Proof.
  intros Hv (H1 & H2 & H3 & H4). unfold atdrFltDeviceControl.
  destruct (v_lower _ _ _ _ Hv) as (l & Hl & _). unfold lower_of in Hl.
  destruct (extension d s); [|done]. cbn [mbind option_bind].
  repeat match goal with |- context [?a =? ?b] => destruct (Z.eqb_spec a b) end.
  - by apply link_handled, H1.
  - by destruct H2 as (? & ? & ?); [|apply create_handled].
  - by apply user_handled, H3.
  - by apply flip_handled.
  - done.
  - by apply default_handled.
Qed.

Lemma request_handled irp s : volume n g d s -> irp_safe env n g irp -> handled irp s (dispatch_irp env d irp s).
Proof.
  intros Hv (Hmaj & Hwr & Hctl & Hpnp).
  unfold dispatch_irp. rewrite (v_table _ _ _ _ Hv) by done. unfold driver_routine. cbn [mbind option_bind].
  repeat match goal with |- context [?a =? ?b] => destruct (Z.eqb_spec a b) end; cbn [orb run_dispatch].
  - by apply device_control_handled, Hctl.
  - destruct Hwr as (? & ? & ? & ? & ?); [done|]. by apply write_handled.
  - destruct Hpnp as [Hev Hrm]; [done|]. unfold atdrFltDispatchPnp.
    replace (_ =? _) with false by (symmetry; by apply Z.eqb_neq). by apply pnp_handled.
  - by apply volume_passed.
  - by apply volume_passed.
  - by apply volume_passed.
  - by apply volume_passed.
  - unfold atdrFltSendToNextDriver. rewrite (volume_filter s Hv). by apply volume_passed.
Qed.

(** One request after the other. *)
Fixpoint serve (irps : list IRP) (s : wstate) : option wstate :=
  match irps with
  | [] => Some s
  | irp :: irps' => '(_, _, s') ← dispatch_irp env d irp s; serve irps' s'
  end.

(** C11. Safety of the Windows filter driver.  On a volume whose bitmap has
    been created, any sequence of requests of any major function, except
    ATDRCTL_DEV_DESTROY and the removal of the device, with their buffers as
    long as announced, the sizes of a repeated ATDRCTL_DEV_CREATE unchanged,
    the descriptor list it allocates and the event of a plug-and-play request
    granted, and the writes ending before the last tracked sector, is carried out
    without undefined behaviour and keeps the invariant of the volume; each
    request is given up exactly once: either completed or handed to the device
    below. *)
Theorem requests_safe irps s :
  volume n g d s -> Forall (irp_safe env n g) irps ->
  exists s' evs, serve irps s = Some s' /\ volume n g d s' /\ wevents s' = wevents s ++ evs /\
    forall id, given_up id evs = length (filter (fun irp => irp_id irp = id) irps).
Proof.
  intros Hv Hsafe. revert s Hv. induction Hsafe as [|irp irps Hirp _ IH]; intros s Hv.
  - exists s, []. split; [done|]. split; [done|]. by rewrite app_nil_r.
  - destruct (request_handled irp s Hv Hirp) as (st & irp' & s1 & evs1 & E1 & Hv1 & Hev1 & Hg1).
    destruct (IH s1 Hv1) as (s2 & evs2 & E2 & Hv2 & Hev2 & Hg2). exists s2, (evs1 ++ evs2).
    split; [cbn [serve]; by rewrite E1|]. split; [done|]. split; [by rewrite Hev2, Hev1, app_assoc|].
    intros id. rewrite given_up_app, Hg1, Hg2, filter_cons. unfold once.
    case_decide as Hid; [by rewrite (proj2 (Z.eqb_eq _ _) Hid)|by rewrite (proj2 (Z.eqb_neq _ _) Hid)].
Qed.
End safety.
