(* ===== verification/WinLoad.v ===== *)
(** * From loading the filter driver to a tracked volume

    DriverEntry, AddDevice and the first ATDRCTL_DEV_CREATE lead to a volume
    that satisfies [volume], with no grain marked. *)
From S2P Require Import Prelude Memory KernelState KBitmapSpec WinState WinFilter WinSpec WinProps WinInv.

(** A filter device in its stack, its bitmap not created: the fields of the
    [ATDR_BITMAP] are whatever the pool held. *)
Record stacked (d : Z) (s : wstate) : Prop := {
  st_table : table_ok (dispatch_table s);
  st_lower : exists l, lower_of d s = Some l /\ is_Some (devices s !! l);
  st_filter : ControlObj s <> Some d;
  st_vol : exists v bm, vol_info d s = Some v /\ vi_bitmap v = Some bm /\ atdr_tracking_enabled v = false;
}.

(** ** Loading *)
Section load.
Context (env : wenv).

Lemma driver_entry_ok s :
  NT_SUCCESS (we_create_device env) = true -> NT_SUCCESS (we_symlink env) = true ->
  exists s', DriverEntry env s = (STATUS_SUCCESS, s') /\ table_ok (dispatch_table s') /\
    ControlObj s' = Some (next_device_id s) /\ next_device_id s' = Z.succ (next_device_id s) /\
    extension (next_device_id s) s' = None /\
    forall l, l <> next_device_id s -> devices s' !! l = devices s !! l.
Proof.
  intros Hc Hl. unfold DriverEntry, IoCreateDevice. rewrite Hc, Hl. eexists. split; [done|].
  split; [apply driver_table_ok|]. split; [done|]. split; [done|]. split.
  - unfold extension. cbn. by rewrite lookup_insert_eq.
  - intros l Hne. cbn. by rewrite lookup_insert_ne.
Qed.

Lemma add_device_ok pdo garbage s top c v bm :
  table_ok (dispatch_table s) -> ControlObj s = Some c -> c <> next_device_id s ->
  NT_SUCCESS (we_create_device env) = true -> we_vol env = Some v -> we_bitmap env = Some bm ->
  we_attach env = Some top -> top <> next_device_id s -> is_Some (devices s !! top) ->
  exists s', atdrFltAddDevice env pdo garbage s = Some (STATUS_SUCCESS, s') /\ stacked (next_device_id s) s'.
Proof.
  intros Ht Hc Hne Hcr Hv Hbm Hat Htop Hdev. unfold atdrFltAddDevice, IoCreateDevice.
  rewrite Hcr, Hv, Hbm, Hat. cbn [mbind option_bind]. eexists. split; [done|].
  set (d := next_device_id s) in *.
  assert (Hlook : forall t : wstate, devices t !! top = devices s !! top -> is_Some (devices t !! top)) by by intros ? ->.
  split.
  - done.
  - exists top. unfold lower_of, extension, upd_ext, upd_device. cbn. rewrite !lookup_alter, !lookup_insert.
    repeat (case_decide; [done || subst; cbn|try done]). split; [done|]. by apply fmap_is_Some.
  - cbn. congruence.
  - unfold vol_info, extension, upd_ext, upd_device. cbn. rewrite !lookup_alter, !lookup_insert.
    repeat (case_decide; [done || subst; cbn|try done]). do 2 eexists. split; [done|]. done.
Qed.
End load.

(** ** The first ATDRCTL_DEV_CREATE *)
Section create.
Context `{MountDev} (env : wenv) (d : Z).

(** The bitmap just created, in the block [blk], for a request of [b] bytes. *)
Definition created (bm : ATDR_BITMAP) (blk b g mdl a : Z) : ATDR_BITMAP :=
  let size := Z.min b MAX_BITMAP_BYTES in
  set_sizes b g bm
    <| ab_start := Some (mk_wptr blk 0) |> <| ab_Mdl := Some mdl |>
    <| ab_area := Some (mk_wptr blk 0) |> <| ab_user := KERNEL |> <| ab_backup := Some (mk_wptr blk size) |>
    <| ab_mapped := a |> <| ab_mapped_backup := a + size |>.

Lemma set_sizes_size b g bm : ab_size (set_sizes b g bm) = Z.min b MAX_BITMAP_BYTES.
Proof. unfold set_sizes. cbn. destruct (Z.ltb_spec MAX_BITMAP_BYTES b); lia. Qed.

Lemma zero_memory_all p m s :
  pool s !! p = Some m ->
  RtlZeroMemory (Some (mk_wptr p 0)) (Z.of_nat (length m)) s =
    Some (s <| pool ::= <[p := replicate (length m) 0]> |>).
Proof.
  intros Hm. unfold RtlZeroMemory. cbn. rewrite Hm. cbn.
  rewrite Z.leb_refl, drop_ge by lia. by rewrite Nat2Z.id, app_nil_r.
Qed.

(** The buffer of a volume whose sizes are already set: mapped, or freed again
    with the pointers of the bitmap still on it. *)
Lemma map_buffer_run s bm m :
  vol_bitmap d s = Some bm -> 0 < ab_size bm <= MAX_BITMAP_BYTES ->
  we_pool env (2 * ab_size bm) = Some m -> Z.of_nat (length m) = 2 * ab_size bm -> we_mdl env = true ->
  exists s', MapBufferForUserModeUse env d s =
      Some (match we_map env with Some a => (STATUS_SUCCESS, a) | None => (STATUS_INSUFFICIENT_RESOURCES, 0) end, s') /\
    pool s' !! next_block s = (match we_map env with Some _ => Some (replicate (length m) 0) | None => None end) /\
    lower_of d s' = lower_of d s /\
    (forall l, is_Some (devices s !! l) -> is_Some (devices s' !! l)) /\
    dispatch_table s' = dispatch_table s /\ ControlObj s' = ControlObj s /\ wevents s' = wevents s /\
    atdr_tracking_enabled <$> vol_info d s' = atdr_tracking_enabled <$> vol_info d s /\
    vol_bitmap d s' = Some (bm <| ab_start := Some (mk_wptr (next_block s) 0) |> <| ab_Mdl := Some (next_mdl s) |>
      <| ab_area := Some (mk_wptr (next_block s) 0) |> <| ab_user := KERNEL |>
      <| ab_backup := Some (mk_wptr (next_block s) (ab_size bm)) |>).
Proof.
  intros Hbm Hs Hp Hlen Hmdl. unfold MAX_BITMAP_BYTES in Hs.
  unfold MapBufferForUserModeUse, ExAllocatePoolWithTag, IoAllocateMdl. rewrite Hbm. cbn [mbind option_bind].
  rewrite u32_id, Hp, Hmdl by lia. cbv beta iota zeta.
  set (s1 := set_field next_block Z.succ _). set (s2 := upd_vbm d _ s1).
  rewrite <- Hlen, (zero_memory_all (next_block s) m s2) by (cbn; apply lookup_insert_eq). cbn [mbind option_bind].
  set (s3 := set_field pool _ s2). change (next_mdl s3) with (next_mdl s).
  set (s4 := set_field next_mdl Z.succ _). set (s5 := upd_vbm d _ s4). set (s6 := upd_vbm d _ s5).
  unfold map_locked. cbn [mbind option_bind]. change (mdls s6) with (mdls s4).
  assert (Hx : exists x, mdls s4 !! next_mdl s = Some x) by (eexists; apply lookup_insert_eq).
  destruct Hx as [x Hx]. rewrite Hx. cbn [mbind option_bind].
  assert (Hl6 : lower_of d s6 = lower_of d s).
  { unfold s6, s5, upd_vbm. rewrite !lower_upd_vol. change (lower_of d s4) with (lower_of d s2). unfold s2, upd_vbm. by rewrite lower_upd_vol. }
  assert (Ht6 : atdr_tracking_enabled <$> vol_info d s6 = atdr_tracking_enabled <$> vol_info d s).
  { unfold s6, s5, upd_vbm. rewrite !vol_info_upd_vol, !decide_True by done.
    change (vol_info d s4) with (vol_info d s2). unfold s2, upd_vbm. rewrite vol_info_upd_vol, decide_True by done.
    change (vol_info d s1) with (vol_info d s). by destruct (vol_info d s). }
  assert (Hb6 : vol_bitmap d s6 = Some (bm <| ab_start := Some (mk_wptr (next_block s) 0) |> <| ab_Mdl := Some (next_mdl s) |>
      <| ab_area := Some (mk_wptr (next_block s) 0) |> <| ab_user := KERNEL |>
      <| ab_backup := Some (mk_wptr (next_block s) (ab_size bm)) |>)).
  { unfold s6, s5. rewrite !vol_bitmap_upd, !decide_True by done.
    change (vol_bitmap d s4) with (vol_bitmap d s2). unfold s2. rewrite vol_bitmap_upd, decide_True by done.
    change (vol_bitmap d s1) with (vol_bitmap d s). rewrite Hbm. cbn. f_equal. }
  assert (Hp6 : pool s6 !! next_block s = Some (replicate (length m) 0)) by (cbn; apply lookup_insert_eq).
  destruct (we_map env) as [a|].
  - eexists. split; [done|]. split; [exact Hp6|]. split; [exact Hl6|].
    split; [intros l Hl; by do 3 apply devices_upd_ext|]. by do 3 (split; [done|]).
  - unfold IoFreeMdl. cbn [mbind option_bind]. change (mdls s6) with (mdls s4). rewrite Hx. cbn [mbind option_bind].
    unfold ExFreePoolWithTag. cbn [mbind option_bind wp_blk wp_off]. set (s7 := set_field mdls _ s6).
    change (pool s7) with (pool s6). rewrite Hp6. cbn [mbind option_bind]. eexists. split; [done|].
    split; [cbn; apply lookup_delete_eq|]. split; [exact Hl6|].
    split; [intros l Hl; by do 3 apply devices_upd_ext|]. by do 3 (split; [done|]).
Qed.

Lemma create_ok irp s b g m a :
  stacked d s -> own_thread irp = true ->
  ioctl_bitmap_size (SystemBuffer irp) = Some b -> ioctl_grain_size (SystemBuffer irp) = Some g ->
  let size := Z.min b MAX_BITMAP_BYTES in
  0 < b < 2 ^ 29 -> we_pool env (2 * size) = Some m -> Z.of_nat (length m) = 2 * size -> we_mdl env = true ->
  we_map env = Some a ->
  exists irp' s' bm, ioctl_create env d irp s = Some (STATUS_SUCCESS, irp', s') /\
    store 8 (SystemBuffer irp) 0 a = Some (SystemBuffer irp') /\ io_Information irp' = sizeof_OUTPUT_CREATE /\
    vol_bitmap d s' = Some (created bm (next_block s) b g (next_mdl s) a) /\
    atdr_tracking_enabled <$> vol_info d s' = Some true /\ ControlObj s' = ControlObj s /\
    dispatch_table s' = dispatch_table s /\ lower_of d s' = lower_of d s /\
    (forall l, is_Some (devices s !! l) -> is_Some (devices s' !! l)) /\
    pool s' !! next_block s = Some (replicate (length m) 0) /\
    wevents s' = wevents s ++ [EvComplete (irp_id irp) STATUS_SUCCESS sizeof_OUTPUT_CREATE].
Proof.
  intros [Htab Hlow Hfil (v & bm & Hv & Hvb & Htr)] Hown Hb Hg size Hsz Hp Hlen Hmdl Hmap.
  unfold ioctl_create. rewrite Hv. cbn [mbind option_bind]. rewrite Hvb. cbn [mbind option_bind]. rewrite Hb, Hg.
  cbn [mbind option_bind]. rewrite Hown, Htr. unfold create_first.
  set (s1 := upd_vbm d (set_sizes b g) s). set (s2 := upd_vol d _ s1).
  assert (Hbm2 : vol_bitmap d s2 = Some (set_sizes b g bm)).
  { unfold s2, vol_bitmap. rewrite vol_info_upd_vol, decide_True by done. unfold s1, upd_vbm.
    rewrite vol_info_upd_vol, decide_True by done. rewrite Hv. cbn. by rewrite Hvb. }
  assert (Htr2 : atdr_tracking_enabled <$> vol_info d s2 = Some true).
  { unfold s2, s1, upd_vbm. rewrite !vol_info_upd_vol, !decide_True by done. by rewrite Hv. }
  pose proof (set_sizes_size b g bm) as Hss. fold size in Hss.
  destruct (map_buffer_run s2 (set_sizes b g bm) m) as (s3 & -> & Hm3 & Hl3 & Hd3 & Ht3 & Hc3 & He3 & Htr3 & Hbm3);
    [done|unfold MAX_BITMAP_BYTES in *; lia|by rewrite Hss|by rewrite Hss|done|].
  rewrite Hmap in *. cbn [mbind option_bind]. unfold output_create.
  assert (Hbuf : exists buf, store 8 (SystemBuffer irp) 0 a = Some buf).
  { unfold ioctl_bitmap_size, load in Hb. destruct (in_buffer _ _ _) eqn:E; [|done]. apply in_buffer_spec in E.
    destruct (store_Some 8 (SystemBuffer irp) 0 a) as [buf ?]; [lia..|]. by exists buf. }
  destruct Hbuf as [buf Hbuf]. rewrite Hbuf. cbn [mbind option_bind]. do 2 eexists. exists bm. split; [done|]. split; [done|]. split; [done|].
  set (s4 := upd_vbm d _ s3). change (next_block s2) with (next_block s) in *. change (next_mdl s2) with (next_mdl s) in *.
  split; [|split; [|split; [|split; [|split; [|split; [|split; [exact Hm3|]]]]]]].
  - change (vol_bitmap d s4 = Some (created bm (next_block s) b g (next_mdl s) a)).
    unfold s4. rewrite vol_bitmap_upd, decide_True, Hbm3 by done. unfold created. fold size. rewrite Hss. cbn. f_equal. by rewrite <- Hss.
  - change (atdr_tracking_enabled <$> vol_info d s4 = Some true). unfold s4, upd_vbm.
    rewrite vol_info_upd_vol, decide_True, <- Htr2, <- Htr3 by done. by destruct (vol_info d s3).
  - exact Hc3.
  - exact Ht3.
  - change (lower_of d s4 = lower_of d s). unfold s4, upd_vbm. rewrite lower_upd_vol, Hl3.
    unfold s2, s1, upd_vbm. by rewrite !lower_upd_vol.
  - intros l Hl. apply devices_upd_ext, Hd3. by do 2 apply devices_upd_ext.
  - cbn. by rewrite He3.
Qed.

(** For whole words of at most 16 KB: the invariant of the volume, in the new
    block, with nothing marked. *)
Lemma create_volume irp s b g m a :
  stacked d s -> own_thread irp = true ->
  ioctl_bitmap_size (SystemBuffer irp) = Some b -> ioctl_grain_size (SystemBuffer irp) = Some g ->
  0 < b <= MAX_BITMAP_BYTES -> b mod 4 = 0 -> we_pool env (2 * b) = Some m -> Z.of_nat (length m) = 2 * b ->
  we_mdl env = true -> we_map env = Some a ->
  exists irp' s' bm, ioctl_create env d irp s = Some (STATUS_SUCCESS, irp', s') /\
    store 8 (SystemBuffer irp) 0 a = Some (SystemBuffer irp') /\ io_Information irp' = sizeof_OUTPUT_CREATE /\
    vol_ok s' d bm (next_block s) (replicate (length m) 0) /\
    ab_size bm = b /\ ab_user bm = KERNEL /\ ab_mapped bm = a /\ ab_grain_size bm = g /\ ab_total_num_bits bm = 8 * b /\
    dispatch_table s' = dispatch_table s /\ lower_of d s' = lower_of d s /\
    (forall l, is_Some (devices s !! l) -> is_Some (devices s' !! l)) /\
    wevents s' = wevents s ++ [EvComplete (irp_id irp) STATUS_SUCCESS sizeof_OUTPUT_CREATE].
Proof.
  intros Hst Hown Hb Hg Hsz Hmod Hp Hlen Hmdl Hmap. pose proof Hst as [_ (l & Hl & Hd) Hfil _].
  assert (Hmin : Z.min b MAX_BITMAP_BYTES = b) by lia. unfold MAX_BITMAP_BYTES in Hsz.
  destruct (create_ok irp s b g m a) as (irp' & s' & bm & E & Hbuf & Hinf & Hbm & Htr & Hctl & Ht' & Hl' & Hd' & Hm' & Hev);
    try done; [lia|by rewrite Hmin|by rewrite Hmin|].
  exists irp', s'. set (bm' := created bm _ _ _ _ _) in *. exists bm'. do 3 (split; [done|]).
  assert (Hss : ab_size bm' = b) by (transitivity (Z.min b MAX_BITMAP_BYTES); [apply set_sizes_size|lia]).
  assert (Htot : ab_total_num_bits bm' = 8 * b) by (change (u32 (b * 8) = 8 * b); rewrite u32_id; lia).
  split; [|done]. split; try done; [by rewrite Hctl|rewrite Hl'; by exists l| |apply wf_replicate|rewrite length_replicate, Hss; lia].
  split; rewrite ?Hss; [done|cbn; by rewrite Hmin|by left|unfold MAX_BITMAP_BYTES; lia|done].
Qed.
End create.
