(* ===== verification/WinLimits.v ===== *)
(** * Where the filter driver goes wrong

    The first ATDRCTL_DEV_CREATE as it should be, and the requests that lead
    out of the bitmap or to freed memory: writes up to the end of the tracked
    range, bitmaps above 16 KB, volumes above 2 TB, a failed mapping,
    ATDRCTL_DEV_DESTROY, the control device. *)
From S2P Require Import Prelude Memory KernelState KBitmap KBitmapSpec KernelMain KernelInv KernelSteps KernelProps KernelTrace.
From S2P Require Import Tracker WinState WinFilter WinSpec WinProps TrackerProps WinInv WinLoad.

Section limits.
Context `{MountDev} (env : wenv) (d : Z).

(** A DeviceIoControl of the daemon. *)
Definition control_irp (code : Z) (irp : IRP) : Prop :=
  MajorFunction irp = IRP_MJ_DEVICE_CONTROL /\ IoControlCode irp = code /\ code <> IOCTL_MOUNTDEV_LINK_CREATED.

Lemma dispatch_control code irp s :
  table_ok (dispatch_table s) -> control_irp code irp -> is_Some (extension d s) ->
  dispatch_irp env d irp s =
    (if code =? ATDRCTL_DEV_CREATE then ioctl_create env d irp s
     else if code =? ATDRCTL_GET_USER then ioctl_user d irp s
     else if code =? ATDR_FLIP_BITMAP_AREA then ioctl_flip_area d irp s
     else if code =? ATDRCTL_DEV_DESTROY then ioctl_destroy d irp s
     else ioctl_default env d irp s).
Proof.
  intros Ht (Hm & <- & Hl) [x Hx]. unfold dispatch_irp. rewrite Ht by (rewrite Hm; done). rewrite Hm. cbn [mbind option_bind].
  change (driver_routine IRP_MJ_DEVICE_CONTROL) with FltDeviceControl. cbn [run_dispatch]. unfold atdrFltDeviceControl.
  rewrite Hx. cbn [mbind option_bind]. by replace (_ =? IOCTL_MOUNTDEV_LINK_CREATED) with false by (symmetry; by apply Z.eqb_neq).
Qed.

Lemma lower_extension s l : lower_of d s = Some l -> is_Some (extension d s).
Proof. unfold lower_of. by destruct (extension d s). Qed.

Lemma stacked_extension s : stacked d s -> is_Some (extension d s).
Proof. intros [_ (l & Hl & _) _ _]. by eapply lower_extension. Qed.

Lemma vol_extension s bm blk m : vol_ok s d bm blk m -> is_Some (extension d s).
Proof. intros Hok. destruct (vo_lower _ _ _ _ _ Hok) as [l Hl]. by eapply lower_extension. Qed.

Lemma windows_bits_ok s bm blk m k :
  vol_ok s d bm blk m -> windows_bits d s k = Some (mem_bit m (8 * driver_off bm + k), mem_bit m (8 * reader_off bm + k)).
Proof.
  intros [Hbm _ _ _ Ha Hm _ _]. unfold windows_bits. rewrite Hbm. cbn [mbind option_bind].
  rewrite (area_at bm blk Ha). cbn [mbind option_bind wp_blk wp_off]. by rewrite Hm.
Qed.

(** The answers of the kernel to a creation that succeeds: a pool block of
    twice the bounded size, a descriptor list and a mapping. *)
Definition create_env_ok (b a : Z) : Prop :=
  (exists m, we_pool env (2 * Z.min b MAX_BITMAP_BYTES) = Some m /\ Z.of_nat (length m) = 2 * Z.min b MAX_BITMAP_BYTES) /\
  we_mdl env = true /\ we_map env = Some a.

Definition create_irp (b g : Z) (irp : IRP) : Prop :=
  control_irp ATDRCTL_DEV_CREATE irp /\ own_thread irp = true /\
  ioctl_bitmap_size (SystemBuffer irp) = Some b /\ ioctl_grain_size (SystemBuffer irp) = Some g.

(** C22. The first ATDRCTL_DEV_CREATE on a filter device, for a bitmap of
    whole words of at most 16 KB, turns tracking on with no grain marked: the
    volume satisfies the invariant with 8 grains per byte of the requested
    size, both halves are clear, and the daemon receives the address of the
    mapping with a successful completion. *)
Theorem first_create_tracks irp s b g a :
  stacked d s -> create_irp b g irp -> create_env_ok b a -> 0 < b <= MAX_BITMAP_BYTES -> b mod 4 = 0 ->
  exists irp' s', dispatch_irp env d irp s = Some (STATUS_SUCCESS, irp', s') /\ volume (8 * b) g d s' /\
    (forall k, windows_bits d s' k = Some (false, false)) /\
    store 8 (SystemBuffer irp) 0 a = Some (SystemBuffer irp') /\
    wevents s' = wevents s ++ [EvComplete (irp_id irp) STATUS_SUCCESS sizeof_OUTPUT_CREATE].
Proof.
  intros Hst (Hc & Hown & Hb & Hg) ((m & Hp & Hlen) & Hmdl & Hmap) Hsz Hmod. rewrite Z.min_l in Hp, Hlen by lia.
  pose proof Hst as [Htab (l & Hl & Hd) Hfil _].
  rewrite (dispatch_control _ irp s Htab Hc (stacked_extension s Hst)). cbn -[ioctl_create].
  destruct (create_volume env d irp s b g m a) as (irp' & s' & bm & E & Hbuf & _ & Hok & _ & _ & _ & Hgr & Htot & Ht' & Hl' & Hd' & Hev);
    try done.
  exists irp', s'. split; [done|]. split; [|split; [|done]].
  - split; [by rewrite Ht'|exists l; split; [by rewrite Hl'|by apply Hd']|]. by exists bm, (next_block s), (replicate (length m) 0).
  - intros k. rewrite (windows_bits_ok _ _ _ _ _ Hok). by rewrite !mem_bit_replicate.
Qed.

(** ** Leaving the bitmap *)
Lemma tracked_write_pos irp s bm blk m :
  vol_ok s d bm blk m -> 0 <= ByteOffset irp < 2 ^ 62 -> 0 <= wr_Length irp < 2 ^ 32 ->
  atdrFltWrite env d irp s =
    (s' ← set_bits_at (mk_wptr blk (driver_off bm)) (i32 (atdr_find_pos bm (ByteOffset irp / 512)))
       (i32 (atdr_find_pos bm ((ByteOffset irp + wr_Length irp) / 512))) s; skip_and_call env d irp s').
Proof.
  intros Hok Ho Hl. pose proof Hok as [Hbm Ht Hc _ Ha _ _ _]. unfold atdrFltWrite. rewrite is_control_false by done.
  unfold atdr_set_bits. rewrite Hbm. unfold vol_bitmap in Hbm.
  destruct (vol_info d s) as [v|]; [|done]. injection Ht as Hv. cbn [mbind option_bind] in *. rewrite Hv, Hbm.
  cbn [mbind option_bind]. rewrite (area_at bm blk Ha). cbn [mbind option_bind].
  rewrite i64_id, !Z.shiftr_div_pow2 by lia. change (2 ^ 9) with 512. by rewrite !u64_id by lia.
Qed.

Lemma mark_runs s bm blk m first last :
  vol_ok s d bm blk m -> 0 <= first <= last -> last < 2 ^ 31 ->
  driver_off bm + 4 * (last / 32) + 4 <= Z.of_nat (length m) ->
  exists m', set_bits_at (mk_wptr blk (driver_off bm)) (i32 first) (i32 last) s = Some (s <| pool ::= <[blk := m']> |>) /\
    vol_ok (s <| pool ::= <[blk := m']> |>) d bm blk m' /\
    forall k, mem_bit m' k = in_range (8 * driver_off bm + first) (8 * driver_off bm + last) k || mem_bit m k.
Proof.
  intros Hok Hf Hl Hin. pose proof Hok as [Hbm Ht Hc Hlo Ha Hm Hwf Hlen]. pose proof (driver_off_cases bm).
  pose proof Ha as [_ _ _ [Hs _] _].
  destruct (set_bits_loop_spec (driver_off bm) first last m) as (m' & E & Hsh & Hbits); [done|lia..|].
  exists m'. unfold set_bits_at. cbn [wp_blk wp_off]. rewrite Hm. cbn [mbind option_bind]. rewrite !i32_id, E by lia.
  split; [done|]. split; [|done].
  split; try done; cbn; [by rewrite lookup_insert_eq|by apply Hsh|by rewrite (shape_len _ _ Hsh)].
Qed.

(** C35. The search for a grain returns the number of grains when the sector
    lies beyond the last one, and the end of a request is the sector after its
    last.  So a write up to the end of the tracked range leaves the driver's
    half by one bit: while the driver uses the first half, the write marks
    grain 0 of the reader's half; while it uses the second, the write is
    outside the pool block. *)
Theorem write_to_the_end_leaves_half irp s bm blk m :
  vol_ok s d bm blk m -> 512 <= ab_grain_size bm -> ab_total_num_bits bm * (ab_grain_size bm / 512) < 2 ^ 32 ->
  0 <= ByteOffset irp < 2 ^ 62 -> 0 <= wr_Length irp < 2 ^ 32 ->
  ab_total_num_bits bm * (ab_grain_size bm / 512) <= (ByteOffset irp + wr_Length irp) / 512 ->
  (ab_user bm = KERNEL -> exists st irp' s' b, atdrFltWrite env d irp s = Some (st, irp', s') /\
     windows_bits d s' 0 = Some (b, true)) /\
  (ab_user bm = USER -> atdrFltWrite env d irp s = None).
Proof.
  intros Hok Hg Hov Ho Hl Hend. pose proof Hok as [_ _ _ [l Hlo] Ha Hm Hwf Hlen].
  pose proof Ha as [_ _ _ [Hs Hs4] Hb]. unfold MAX_BITMAP_BYTES in Hs.
  rewrite (tracked_write_pos irp s bm blk m) by done. rewrite !(atdr_find_pos_ok bm blk) by (done || lia).
  set (g := ab_grain_size bm / 512) in *. set (first := Z.min _ _).
  assert (Hlast : ab_total_num_bits bm <= (ByteOffset irp + wr_Length irp) / 512 / g)
    by (apply Z.div_le_lower_bound; lia).
  rewrite (Z.min_r ((ByteOffset irp + wr_Length irp) / 512 / g)) by done.
  assert (Hfirst : 0 <= first <= ab_total_num_bits bm).
  { assert (0 <= ByteOffset irp / 512 / g) by (apply Z.div_pos; lia). lia. }
  split; intros Hu.
  - assert (Hoff : driver_off bm = 0) by (unfold driver_off; by rewrite Hu).
    destruct (mark_runs s bm blk m first (ab_total_num_bits bm)) as (m' & E & Hok' & Hbits); [done|lia..|].
    rewrite E. cbn [mbind option_bind]. rewrite (skip_and_call_ok _ _ _ _ l) by done. do 4 eexists. split; [done|].
    erewrite windows_bits_ok by (by eapply vol_ok_frame). do 2 f_equal. rewrite Hbits. unfold reader_off, in_range. bool_solve.
  - assert (Hoff : driver_off bm = ab_size bm) by (unfold driver_off; by rewrite Hu).
    unfold set_bits_at. cbn [wp_blk wp_off]. rewrite Hm. cbn [mbind option_bind].
    rewrite !i32_id, set_bits_loop_fault by (done || lia). done.
Qed.

(** Sectors from 2^32 on, above 2 TB, are beyond every grain whatever the
    size of the bitmap, because the end of a grain is a 32-bit product: a
    write there marks no grain of the driver's half, so the change is never
    replicated (and is an access outside the pool block while the driver uses
    the second half). *)
Theorem writes_above_2TB_lost irp s bm blk m :
  vol_ok s d bm blk m -> 2 ^ 41 <= ByteOffset irp < 2 ^ 62 -> 0 <= wr_Length irp < 2 ^ 32 ->
  (ab_user bm = KERNEL -> exists st irp' s', atdrFltWrite env d irp s = Some (st, irp', s') /\
     forall k, 0 <= k < ab_total_num_bits bm -> fst <$> windows_bits d s' k = fst <$> windows_bits d s k) /\
  (ab_user bm = USER -> atdrFltWrite env d irp s = None).
Proof.
  intros Hok Ho Hl. pose proof Hok as [_ _ _ [l Hlo] Ha Hm Hwf Hlen].
  pose proof Ha as [_ _ _ [Hs Hs4] Hb]. unfold MAX_BITMAP_BYTES in Hs.
  rewrite (tracked_write_pos irp s bm blk m) by (done || lia). unfold atdr_find_pos.
  rewrite !atdr_find_pos_loop_beyond by lia. replace (0 + _) with (ab_total_num_bits bm) by lia.
  split; intros Hu.
  - assert (Hoff : driver_off bm = 0) by (unfold driver_off; by rewrite Hu).
    destruct (mark_runs s bm blk m (ab_total_num_bits bm) (ab_total_num_bits bm)) as (m' & E & Hok' & Hbits); [done|lia..|].
    rewrite E. cbn [mbind option_bind]. rewrite (skip_and_call_ok _ _ _ _ l) by done. do 3 eexists. split; [done|].
    intros k Hk. erewrite (windows_bits_ok _ bm) by (by eapply vol_ok_frame). rewrite (windows_bits_ok s bm blk m) by done.
    cbn. f_equal. rewrite Hbits. unfold in_range. bool_solve.
  - assert (Hoff : driver_off bm = ab_size bm) by (unfold driver_off; by rewrite Hu).
    unfold set_bits_at. cbn [wp_blk wp_off]. rewrite Hm. cbn [mbind option_bind].
    rewrite !i32_id, set_bits_loop_fault by (done || lia). done.
Qed.

(** ATDRCTL_DEV_CREATE bounds the size of the bitmap but not the
    number of grains: for a request of 32 KB or more it succeeds, and from then on
    every write that ends in a grain outside the two halves of 16 KB that were
    allocated is an access outside the pool block. *)
Theorem large_create_overruns_pool irp s b g a :
  stacked d s -> create_irp b g irp -> create_env_ok b a -> 2 * MAX_BITMAP_BYTES <= b < 2 ^ 28 ->
  512 <= g -> 8 * b * (g / 512) < 2 ^ 32 ->
  exists irp' s', dispatch_irp env d irp s = Some (STATUS_SUCCESS, irp', s') /\
    forall w, 0 <= ByteOffset w < 2 ^ 62 -> 0 <= wr_Length w < 2 ^ 32 ->
      16 * MAX_BITMAP_BYTES <= (ByteOffset w + wr_Length w) / 512 / (g / 512) -> atdrFltWrite env d w s' = None.
Proof.
  intros Hst (Hc & Hown & Hb & Hg) ((m & Hp & Hlen) & Hmdl & Hmap) Hsz Hgs Hov. unfold MAX_BITMAP_BYTES in *.
  pose proof Hst as [Htab _ Hfil _].
  rewrite (dispatch_control _ irp s Htab Hc (stacked_extension s Hst)). cbn -[ioctl_create].
  destruct (create_ok env d irp s b g m a) as (irp' & s' & bm & E & _ & _ & Hbm & Htr & Hctl & _ & _ & _ & Hm' & _);
    try done; [lia|].
  exists irp', s'. split; [done|]. intros w Ho Hl Hend. set (bm' := created bm _ _ _ _ _) in *.
  assert (Hbits : ab_total_num_bits bm' = 8 * b) by (change (u32 (b * 8) = 8 * b); rewrite u32_id; lia).
  unfold atdrFltWrite. rewrite is_control_false by by rewrite Hctl. unfold atdr_set_bits. rewrite Hbm. unfold vol_bitmap in Hbm.
  destruct (vol_info d s') as [v|]; [|done]. injection Htr as Hv. cbn [mbind option_bind] in *. rewrite Hv, Hbm.
  cbn [mbind option_bind]. rewrite i64_id, !Z.shiftr_div_pow2 by lia. change (2 ^ 9) with 512. rewrite !u64_id by lia.
  unfold atdr_find_pos. rewrite Hbits. change (ab_grain_size bm') with g. rewrite Z.shiftr_div_pow2 by lia.
  change (2 ^ 9) with 512. rewrite !atdr_find_pos_loop_spec by lia.
  assert (0 <= ByteOffset w / 512 / (g / 512) <= (ByteOffset w + wr_Length w) / 512 / (g / 512)).
  { split; [apply Z.div_pos; lia|apply Z.div_le_mono; lia]. }
  change (ab_area bm') with (Some (mk_wptr (next_block s) 0)). cbn [mbind option_bind]. unfold set_bits_at. cbn [wp_blk wp_off].
  rewrite Hm'. cbn [mbind option_bind]. rewrite !i32_id, set_bits_loop_fault; try done; try lia; [apply wf_replicate|].
  rewrite length_replicate. lia.
Qed.

(** ** Freed memory *)
Lemma unmap_inv base mdl s s1 :
  MmUnmapLockedPages base mdl s = Some s1 ->
  is_Some mdl /\ devices s1 = devices s /\ ControlObj s1 = ControlObj s /\ pool s1 = pool s.
Proof.
  unfold MmUnmapLockedPages. destruct mdl as [i|]; [|done]. cbn [mbind option_bind].
  destruct (mdls s !! i) as [x|]; [|done]. cbn [mbind option_bind]. destruct (mdl_mapped x); [|done].
  by intros [= <-].
Qed.

Lemma free_block_inv blk s s1 :
  ExFreePoolWithTag (Some (mk_wptr blk 0)) s = Some s1 ->
  is_Some (pool s !! blk) /\ devices s1 = devices s /\ ControlObj s1 = ControlObj s /\ pool s1 = delete blk (pool s).
Proof.
  unfold ExFreePoolWithTag. cbn [mbind option_bind wp_blk wp_off]. destruct (pool s !! blk); [|done].
  by intros [= <-].
Qed.

(** A tracking volume: the bitmap and the block its pointers are in. *)
Record tracking (s : wstate) (bm : ATDR_BITMAP) (blk : Z) : Prop := {
  tk_vol : exists v, vol_info d s = Some v /\ vi_bitmap v = Some bm /\ atdr_tracking_enabled v = true;
  tk_filter : ControlObj s <> Some d;
  tk_area : area_ok bm blk;
}.

Lemma vol_tracking s bm blk m : vol_ok s d bm blk m -> tracking s bm blk.
Proof.
  intros [Hbm Ht Hc _ Ha _ _ _]. split; [|done|done]. unfold vol_bitmap in Hbm.
  destruct (vol_info d s) as [v|]; [|done]. injection Ht as Ht. by exists v.
Qed.

Lemma destroy_inv irp s bm blk st irp' s' :
  tracking s bm blk -> ioctl_destroy d irp s = Some (st, irp', s') ->
  is_Some (ab_Mdl bm) /\ is_Some (pool s !! blk) /\ pool s' !! blk = None /\ tracking s' bm blk.
Proof.
  intros [(v & Hv & Hvb & Htr) Hc Ha]. unfold ioctl_destroy. rewrite Hv. cbn [mbind option_bind]. rewrite Htr, Hvb.
  cbn [mbind option_bind]. rewrite (ao_start _ _ Ha).
  destruct (MmUnmapLockedPages _ _ s) as [s1|] eqn:E1; [|done]. cbn [mbind option_bind].
  destruct (ExFreePoolWithTag _ s1) as [s2|] eqn:E2; [|done]. cbn [mbind option_bind]. intros [= <- <- <-].
  apply unmap_inv in E1 as (Hm & D1 & C1 & P1). apply free_block_inv in E2 as (Hb & D2 & C2 & P2).
  split; [done|]. split; [by rewrite <- P1|]. split; [cbn; rewrite P2; apply lookup_delete_eq|].
  split; [|cbn; by rewrite C2, C1|done]. exists v. split; [|done]. unfold vol_info, extension in *. cbn. by rewrite D2, D1.
Qed.

Lemma freed_write irp s bm blk : tracking s bm blk -> pool s !! blk = None -> atdrFltWrite env d irp s = None.
Proof.
  intros [(v & Hv & Hvb & Htr) Hc Ha] Hp. unfold atdrFltWrite. rewrite is_control_false by done.
  unfold atdr_set_bits, vol_bitmap. rewrite Hv. cbn [mbind option_bind]. rewrite Htr, Hvb. cbn [mbind option_bind].
  rewrite (area_at bm blk Ha). cbn [mbind option_bind]. unfold set_bits_at. cbn [wp_blk]. by rewrite Hp.
Qed.

(** A volume that tracks writes in a block it has freed. *)
Record dangling (b : Z) (s : wstate) : Prop := {
  dg_table : table_ok (dispatch_table s);
  dg_lower : is_Some (lower_of d s);
  dg_area : exists bm blk, tracking s bm blk /\ pool s !! blk = None /\ ab_size bm = b;
}.

Lemma dangling_write b irp s : dangling b s -> atdrFltWrite env d irp s = None.
Proof. intros [_ _ (bm & blk & Ht & Hp & _)]. by eapply freed_write. Qed.

Lemma dangling_same b s s' :
  devices s' = devices s -> ControlObj s' = ControlObj s -> pool s' = pool s -> dispatch_table s' = dispatch_table s ->
  dangling b s -> dangling b s'.
Proof.
  intros Hd Hc Hp Ht [A B (bm & blk & [(v & V) C D] & F)]. unfold lower_of, vol_info, extension in *.
  split; unfold lower_of, extension; rewrite ?Hd, ?Ht; [done|done|]. exists bm, blk. rewrite Hp. split; [|done].
  split; unfold vol_info, extension; rewrite ?Hd, ?Hc; [by exists v|done|done].
Qed.

Lemma tracking_frame s s' bm blk :
  devices s' = devices s -> ControlObj s' = ControlObj s -> tracking s bm blk -> tracking s' bm blk.
Proof.
  intros Hd Hc [(v & V) C D]. split; [exists v|by rewrite Hc|done]. unfold vol_info, extension in *. by rewrite Hd.
Qed.

Lemma tracking_upd f s bm blk :
  (area_ok bm blk -> area_ok (f bm) blk) -> tracking s bm blk -> tracking (upd_vbm d f s) (f bm) blk.
Proof.
  intros Hf [(v & Hv & Hb & Ht) Hc Ha]. split; [|done|by apply Hf].
  unfold upd_vbm. rewrite vol_info_upd_vol, decide_True, Hv by done. eexists. split; [done|]. cbn. by rewrite Hb.
Qed.

(** The first creation, when the mapping fails. *)
Lemma create_fails irp s b g m :
  stacked d s -> own_thread irp = true ->
  ioctl_bitmap_size (SystemBuffer irp) = Some b -> ioctl_grain_size (SystemBuffer irp) = Some g ->
  0 < b <= MAX_BITMAP_BYTES -> b mod 4 = 0 -> we_pool env (2 * b) = Some m -> Z.of_nat (length m) = 2 * b ->
  we_mdl env = true -> we_map env = None ->
  exists irp' s', ioctl_create env d irp s = Some (STATUS_INSUFFICIENT_RESOURCES, irp', s') /\ dangling b s'.
Proof.
  intros [Htab (l & Hlow & _) Hfil (v & bm & Hv & Hvb & Htr)] Hown Hb Hg Hsz Hmod Hp Hlen Hmdl Hmap.
  unfold ioctl_create. rewrite Hv. cbn [mbind option_bind]. rewrite Hvb. cbn [mbind option_bind]. rewrite Hb, Hg.
  cbn [mbind option_bind]. rewrite Hown, Htr. unfold create_first.
  set (s1 := upd_vbm d (set_sizes b g) s). set (s2 := upd_vol d _ s1).
  assert (Hv2 : exists v2, vol_info d s2 = Some v2 /\ vi_bitmap v2 = Some (set_sizes b g bm) /\ atdr_tracking_enabled v2 = true).
  { unfold s2, s1, upd_vbm. rewrite !vol_info_upd_vol, !decide_True, Hv by done. eexists. split; [done|]. cbn. by rewrite Hvb. }
  destruct Hv2 as (v2 & Hv2 & Hvb2 & Htr2).
  assert (Hbm2 : vol_bitmap d s2 = Some (set_sizes b g bm)) by (unfold vol_bitmap; by rewrite Hv2).
  pose proof (set_sizes_size b g bm) as Hss. rewrite Z.min_l in Hss by lia.
  destruct (map_buffer_run env d s2 (set_sizes b g bm) m) as (s3 & -> & Hm3 & Hl3 & Hd3 & Ht3 & Hc3 & He3 & Htr3 & Hbm3);
    [done|lia|by rewrite Hss|by rewrite Hss|done|].
  rewrite Hmap in *. cbn [mbind option_bind].
  destruct (output_create_ok 0 irp b Hb) as (irp' & -> & _). cbn [mbind option_bind]. do 2 eexists. split; [done|].
  set (bm3 := set_field _ _ _) in Hbm3. set (f := fun b : ATDR_BITMAP => b <| ab_mapped := 0 |> <| ab_mapped_backup := 0 + ab_size b |>).
  assert (Htk : tracking s3 bm3 (next_block s)).
  { split; [|by rewrite Hc3|].
    - unfold vol_bitmap in Hbm3. destruct (vol_info d s3) as [v3|]; [|done]. exists v3. rewrite Hv2 in Htr3. cbn in Htr3.
      injection Htr3 as Htr3. split; [done|]. split; [done|]. by rewrite Htr3.
    - split; [done|done|by left| |]; [split; [change (0 < ab_size (set_sizes b g bm) <= MAX_BITMAP_BYTES); lia|change (ab_size (set_sizes b g bm) mod 4 = 0); by rewrite Hss]|].
      change (u32 (b * 8) = 8 * ab_size (set_sizes b g bm)). unfold MAX_BITMAP_BYTES in Hsz. rewrite Hss, u32_id; lia. }
  split; [change (table_ok (dispatch_table s3)); by rewrite Ht3| |].
  - exists l. change (lower_of d (upd_vbm d f s3) = Some l). unfold upd_vbm. rewrite lower_upd_vol, Hl3.
    unfold s2, s1, upd_vbm. by rewrite !lower_upd_vol.
  - exists (f bm3), (next_block s). split; [|split; [exact Hm3|exact Hss]].
    apply (tracking_frame (upd_vbm d f s3)); [done|done|]. apply tracking_upd; [|done]. by intros [A B C D F].
Qed.

Lemma set_sizes_area b g bm blk : ab_size bm = b -> area_ok bm blk -> area_ok (set_sizes b g bm) blk.
Proof.
  intros <- [A B C [Hs Hm] F]. unfold MAX_BITMAP_BYTES in *.
  assert (Hss : ab_size (set_sizes (ab_size bm) g bm) = ab_size bm) by (rewrite set_sizes_size; unfold MAX_BITMAP_BYTES; lia).
  split; rewrite ?Hss; [done|done|done|done|]. change (u32 (ab_size bm * 8) = 8 * ab_size bm). rewrite u32_id; lia.
Qed.

(** Every later one succeeds, with a null address. *)
Lemma create_dangling irp s b g :
  dangling b s -> own_thread irp = true -> ioctl_bitmap_size (SystemBuffer irp) = Some b ->
  ioctl_grain_size (SystemBuffer irp) = Some g -> we_mdl env = true -> we_map env = None ->
  exists irp' s', ioctl_create env d irp s = Some (STATUS_SUCCESS, irp', s') /\ dangling b s' /\
    store 8 (SystemBuffer irp) 0 0 = Some (SystemBuffer irp') /\ io_Information irp' = sizeof_OUTPUT_CREATE.
Proof.
  intros [Htab Hlow (bm & blk & Htk & Hp & Hsb)] Hown Hb Hg Hmdl Hmap. pose proof Htk as [(v & Hv & Hvb & Htr) _ _].
  unfold ioctl_create. rewrite Hv. cbn [mbind option_bind]. rewrite Hvb. cbn [mbind option_bind]. rewrite Hb, Hg.
  cbn [mbind option_bind]. rewrite Hown, Htr. unfold create_again, IoAllocateMdl. rewrite Hmdl.
  set (s1 := upd_vbm d (set_sizes b g) s).
  assert (Htk1 : tracking s1 (set_sizes b g bm) blk) by (apply tracking_upd; [by apply set_sizes_area|done]).
  assert (Hbm : vol_bitmap d s1 = Some (set_sizes b g bm)).
  { destruct (tk_vol _ _ _ Htk1) as (v1 & Hv1 & Hb1 & _). unfold vol_bitmap. by rewrite Hv1. }
  rewrite Hbm. cbn [mbind option_bind]. set (s2 := set_field next_mdl _ _).
  set (f := fun b : ATDR_BITMAP => b <| ab_Mdl := Some (next_mdl s1) |>). set (s3 := upd_vbm d f s2).
  assert (Htk3 : tracking s3 (f (set_sizes b g bm)) blk).
  { apply tracking_upd; [by intros [A B C D F]|]. by apply (tracking_frame s1). }
  unfold map_locked. cbn [mbind option_bind].
  assert (Hx : exists x, mdls s3 !! next_mdl s1 = Some x) by (eexists; apply lookup_insert_eq).
  destruct Hx as [x Hx]. rewrite Hx. cbn [mbind option_bind]. rewrite Hmap. unfold IoFreeMdl. cbn [mbind option_bind].
  rewrite Hx. cbn [mbind option_bind]. unfold output_create.
  assert (Hbuf : exists buf, store 8 (SystemBuffer irp) 0 0 = Some buf).
  { unfold ioctl_bitmap_size, load in Hb. destruct (in_buffer _ _ _) eqn:E; [|done]. apply in_buffer_spec in E.
    destruct (store_Some 8 (SystemBuffer irp) 0 0) as [buf ?]; [lia..|]. by exists buf. }
  destruct Hbuf as [buf Hbuf]. rewrite Hbuf. cbn [mbind option_bind]. do 2 eexists. split; [done|]. split; [|done].
  split; [exact Htab| |].
  - change (is_Some (lower_of d s3)). unfold s3, upd_vbm. rewrite lower_upd_vol. change (lower_of d s2) with (lower_of d s1).
    unfold s1, upd_vbm. by rewrite lower_upd_vol.
  - exists (f (set_sizes b g bm)), blk. split; [by apply (tracking_frame s3)|]. split; [exact Hp|].
    change (ab_size (set_sizes b g bm) = b). rewrite set_sizes_size. destruct (tk_area _ _ _ Htk) as [_ _ _ [Hs _] _]. lia.
Qed.

(** C36. ATDRCTL_DEV_DESTROY frees the bitmap and leaves tracking on: after
    it, every write to the volume and every further ATDRCTL_DEV_DESTROY uses
    the freed block; and once the halves have been exchanged, even the first
    ATDRCTL_DEV_DESTROY unmaps through a null descriptor list. *)
Theorem destroy_leaves_freed_bitmap s bm blk m :
  vol_ok s d bm blk m ->
  (forall irp st irp' s', ioctl_destroy d irp s = Some (st, irp', s') ->
     (forall w, atdrFltWrite env d w s' = None) /\ (forall i, ioctl_destroy d i s' = None)) /\
  (forall irp irp', exists s1, ioctl_flip_area d irp s = Some (STATUS_SUCCESS, irp <| io_Status := STATUS_SUCCESS |>, s1) /\
     ioctl_destroy d irp' s1 = None).
Proof.
  intros Hok. split.
  - intros irp st irp' s' E. destruct (destroy_inv _ _ _ _ _ _ _ (vol_tracking _ _ _ _ Hok) E) as (_ & _ & Hp & Ht).
    split; [intros w; by eapply freed_write|]. intros i. destruct (ioctl_destroy d i s') as [[[st2 i2] s2]|] eqn:E2; [|done].
    destruct (destroy_inv _ _ _ _ _ _ _ Ht E2) as (_ & [y Hy] & _). congruence.
  - intros irp irp'. unfold ioctl_flip_area. rewrite (vo_bm _ _ _ _ _ Hok). cbn [mbind option_bind]. eexists. split; [done|].
    set (s1 := IoCompleteRequest _ _).
    assert (Hok1 : vol_ok s1 d (flip_halves bm) blk m).
    { destruct (flip_area bm blk (vo_area _ _ _ _ _ Hok)) as (Ha & _ & Hs & _).
      eapply vol_ok_frame; [by apply (upd_vbm_ok d flip_halves)|done..]. }
    destruct (ioctl_destroy d irp' s1) as [[[st2 i2] s2]|] eqn:E2; [|done].
    destruct (destroy_inv _ _ _ _ _ _ _ (vol_tracking _ _ _ _ Hok1) E2) as ([x Hx] & _).
    unfold flip_halves in Hx. by destruct (ab_user bm =? USER).
Qed.

(** The routines for control requests, PnP, power, shutdown and flush
    read the extension of the device before they ask whether it is the control
    device, which has none: after a successful DriverEntry each such request
    to \\.\atdrvolflt is undefined behaviour, while the others are completed
    with success. *)
Theorem control_device_unserved irp s :
  NT_SUCCESS (we_create_device env) = true -> NT_SUCCESS (we_symlink env) = true ->
  0 <= MajorFunction irp <= IRP_MJ_MAXIMUM_FUNCTION ->
  exists s' c, DriverEntry env s = (STATUS_SUCCESS, s') /\ ControlObj s' = Some c /\
    (if bool_decide (MajorFunction irp ∈ [IRP_MJ_DEVICE_CONTROL; IRP_MJ_PNP; IRP_MJ_POWER; IRP_MJ_SHUTDOWN; IRP_MJ_FLUSH_BUFFERS])
     then dispatch_irp env c irp s' = None
     else exists irp' s'', dispatch_irp env c irp s' = Some (STATUS_SUCCESS, irp', s'') /\
            wevents s'' = wevents s' ++ [EvComplete (irp_id irp) STATUS_SUCCESS 0]).
Proof.
  intros Hcr Hsl Hmaj. destruct (driver_entry_ok env s Hcr Hsl) as (s' & E & Htab & Hc & _ & Hext & _).
  set (c := next_device_id s) in *. exists s', c. split; [done|]. split; [done|].
  assert (Hctl : is_control c s' = true) by (unfold is_control; by apply bool_decide_eq_true).
  assert (Hskip : skip_and_call env c irp s' = None) by (unfold skip_and_call; by rewrite Hext).
  unfold dispatch_irp. rewrite Htab by done. cbn [mbind option_bind]. unfold driver_routine.
  assert (Hnone : run_dispatch env FltDeviceControl c irp s' = None) by (cbn; unfold atdrFltDeviceControl; by rewrite Hext).
  assert (Hpnp : run_dispatch env FltDispatchPnp c irp s' = None).
  { assert (Hno : forall t, devices t = devices s' -> extension c t = None) by (intros t Ht; unfold extension in *; by rewrite Ht).
    cbn [run_dispatch]. unfold atdrFltDispatchPnp, atdrFltRemoveDevice, atdrFltStartDevice, atdrFltForwardIrpSynchronous.
    rewrite Hctl. destruct (MinorFunction irp =? IRP_MN_REMOVE_DEVICE); cbn [mbind option_bind complete_control];
      rewrite Hno; by destruct (we_event env). }
  repeat match goal with |- context [?a =? ?b] => destruct (Z.eqb_spec a b) as [->|] end; cbn [orb run_dispatch]; try done.
  - unfold atdrFltWrite. rewrite Hctl. by do 2 eexists.
  - rewrite bool_decide_eq_false_2.
    2:{ intros Hin. repeat (apply elem_of_cons in Hin as [Hin|Hin]; [congruence|]). by apply elem_of_nil in Hin. }
    unfold atdrFltSendToNextDriver. rewrite Hctl. by do 2 eexists.
Qed.

(** C38. The exchange of the halves and the marking of a write are guarded by
    two different spin locks.  A write that has read [bitmap_area] when the
    halves are exchanged puts its marks into the half the daemon then copies
    and clears, and none into the driver's. *)
Theorem flip_during_write_misplaces_marks irp s bm blk m first last :
  vol_ok s d bm blk m -> 0 <= first <= last -> last < ab_total_num_bits bm ->
  exists bmap s1 s2, ab_area bm = Some bmap /\
    ioctl_flip_area d irp s = Some (STATUS_SUCCESS, irp <| io_Status := STATUS_SUCCESS |>, s1) /\
    set_bits_at bmap (i32 first) (i32 last) s1 = Some s2 /\
    forall k, 0 <= k < ab_total_num_bits bm ->
      windows_bits d s2 k = (fun '(drv, rd) => (drv, in_range first last k || rd)) <$> windows_bits d s1 k.
Proof.
  intros Hok Hf Hl. pose proof Hok as [Hbm _ _ _ Ha Hm _ _]. pose proof Ha as [_ _ _ [Hs Hs4] Hb]. unfold MAX_BITMAP_BYTES in Hs.
  exists (mk_wptr blk (driver_off bm)). destruct (flip_area bm blk Ha) as (Ha' & Hoff & Hsz & _ & _).
  unfold ioctl_flip_area. rewrite Hbm. cbn [mbind option_bind]. set (s1 := IoCompleteRequest _ _).
  assert (Hok1 : vol_ok s1 d (flip_halves bm) blk m) by (eapply vol_ok_frame; [by apply (upd_vbm_ok d flip_halves)|done..]).
  pose proof (driver_off_cases bm). pose proof (vo_len _ _ _ _ _ Hok) as Hlen. pose proof (vo_wf _ _ _ _ _ Hok) as Hwf.
  destruct (set_bits_loop_spec (driver_off bm) first last m) as (m' & E & Hsh & Hbits); [done|lia..|].
  assert (Hok2 : vol_ok (s1 <| pool ::= <[blk := m']> |>) d (flip_halves bm) blk m').
  { destruct Hok1 as [A B C D F G I J]. split; try done; cbn; [by rewrite lookup_insert_eq|by apply Hsh|].
    by rewrite (shape_len _ _ Hsh). }
  exists s1. eexists. split; [by apply area_at|]. split; [done|]. split.
  { unfold set_bits_at. cbn [wp_blk wp_off]. rewrite (vo_mem _ _ _ _ _ Hok1). cbn [mbind option_bind]. by rewrite !i32_id, E by lia. }
  intros k Hk. rewrite (windows_bits_ok _ _ _ _ _ Hok2), (windows_bits_ok _ _ _ _ _ Hok1). cbn. do 2 f_equal; rewrite Hbits.
  - rewrite Hoff. unfold reader_off, in_range. bool_solve.
  - unfold reader_off. rewrite Hoff, Hsz. unfold reader_off, in_range. destruct (mem_bit m _); bool_solve.
Qed.
End limits.
