(* ===== verification/WinExample.v ===== *)
(** * A filter driver at work

    A driver loaded above one volume, its bitmap of 64 grains of 4 KB created:
    the concrete states at which the theorems on the driver apply. *)
From S2P Require Import Prelude Memory KernelState KBitmap KBitmapSpec KernelMain KernelInv KernelSteps KernelProps KernelIoctls KernelTrace.
From S2P Require Import Tracker WinState WinFilter WinSpec WinProps TrackerProps WinInv WinLoad WinLimits.

#[export] Instance ex_mountdev : MountDev := 0x4dc010.

Lemma ex_link_code : IOCTL_MOUNTDEV_LINK_CREATED <> ATDR_FLIP_BITMAP_AREA.
Proof. by vm_compute. Qed.

(** A pool block that was in use before: nothing in it is zero. *)
Definition ex_garbage_bitmap : ATDR_BITMAP :=
  mk_ATDR_BITMAP (Some (mk_wptr 77 5)) None (Some (mk_wptr 3 0)) 165 165 165 165 165 165 (Some 9).

Definition ex_wenv : wenv :=
  mk_wenv 0 0 (Some 100) (Some (mk_VOL_INFO 0 (replicate 74 0) None true)) (Some ex_garbage_bitmap)
    (fun n => Some (replicate (Z.to_nat n) 165)) true true (Some 0x7f0000) 0 0.

(** The device of the volume, of the driver below. *)
Definition ex_before : wstate :=
  mk_wstate None {[100 := mk_DEVICE_OBJECT None 0x10 1 None None]} 0 None ∅ ∅ 0 ∅ 0 0 [].

Definition ex_loaded : wstate := snd (DriverEntry ex_wenv ex_before).
Definition ex_added : wstate := default ex_loaded (snd <$> atdrFltAddDevice ex_wenv 100 None ex_loaded).

Definition ex_create_buffer (b g : Z) : mem := replicate 64 0 ++ le_bytes 4 g ++ le_bytes 4 b ++ replicate 12 0.
Definition ex_create_irp (b g : Z) : IRP :=
  mk_IRP 7 IRP_MJ_DEVICE_CONTROL 0 (ex_create_buffer b g) 84 ATDRCTL_DEV_CREATE 0 0 0 0 true.
Definition ex_write_irp (off len : Z) : IRP := mk_IRP 8 IRP_MJ_WRITE 0 [] 0 0 off len 0 0 true.

Definition ex_tracked : wstate :=
  default ex_added (snd <$> dispatch_irp ex_wenv 1 (ex_create_irp 8 4096) ex_added).
Definition ex_win_bm : ATDR_BITMAP :=
  mk_ATDR_BITMAP (Some (mk_wptr 0 0)) (Some (mk_wptr 0 0)) (Some (mk_wptr 0 8)) 8 4096 64 KERNEL 0x7f0000 0x7f0008 (Some 0).
Definition ex_flipped : wstate := default ex_tracked (snd <$> ioctl_flip_area 1 flip_irp ex_tracked).

Lemma ex_table s : dispatch_table s = dispatch_table ex_loaded -> table_ok (dispatch_table s).
Proof. intros ->. apply driver_table_ok. Qed.

Lemma ex_stacked : stacked 1 ex_added.
Proof.
  split; [by apply ex_table|exists 100; split; [done|by vm_compute; eexists]|done|].
  by do 2 eexists.
Qed.

Lemma ex_area : area_ok ex_win_bm 0.
Proof. split; try done. by left. Qed.

Lemma ex_vol_ok : vol_ok ex_tracked 1 ex_win_bm 0 (replicate 16 0).
Proof.
  split; [by vm_compute|by vm_compute|by vm_compute|by vm_compute; eexists|apply ex_area|by vm_compute|apply wf_replicate|by vm_compute].
Qed.

Lemma ex_flipped_ok : vol_ok ex_flipped 1 (flip_halves ex_win_bm) 0 (replicate 16 0).
Proof.
  destruct (flip_area _ _ ex_area) as (Ha & _ & Hs & _).
  eapply vol_ok_frame; [by apply (upd_vbm_ok 1 flip_halves); [apply ex_vol_ok|..]|by vm_compute..].
Qed.

Lemma ex_volume : volume 64 4096 1 ex_tracked.
Proof.
  split; [by apply ex_table|exists 100; split; [done|by vm_compute; eexists]|].
  exists ex_win_bm, 0, (replicate 16 0). split; [apply ex_vol_ok|done].
Qed.

Lemma ex_windows_inv : windows_inv 1 64 8 ex_tracked (mk_tracker (fun _ => false) (fun _ => false)).
Proof.
  split; [by split; apply (ex_table ex_tracked)|]. exists ex_win_bm, 0, (replicate 16 0). split; [apply ex_vol_ok|].
  split_and!; try done. intros k _. by rewrite !mem_bit_replicate.
Qed.

(** The module of [KernelProps] with its second device attached to a disk. *)
Lemma ex_linux_inv : linux_inv 2 64 8 ex_state (mk_tracker (fun _ => false) (fun _ => false)).
Proof.
  split; [apply ex_state_kwf|done|]. exists ex_bm, (mk_kptr 2 0), (replicate 16 0). split; [apply ex_state_ok|]. split.
  { split; [done|done|]. do 2 eexists. by vm_compute. }
  split_and!; try done. intros k _. by rewrite !mem_bit_replicate.
Qed.

(** ** Witnesses *)
Definition ex_ops : list tracker_op := [TWrite (mk_write_req 12 8); TFlip; TWrite (mk_write_req 100 1)].

Lemma ex_ops_fit : Forall (op_fits 64 8) ex_ops.
Proof. repeat apply Forall_cons_2; try apply Forall_nil_2; cbn; lia. Qed.

#[local] Existing Instance x86_bitops.
#[local] Existing Instance x86_bitops_laws.

Definition ex_clean : tracker := mk_tracker (fun _ => false) (fun _ => false).

Lemma trackers_agree_witness :
  exists s' w', @tr_run kstate (linux_tracker ex_env 2 (ex_arg 8 4096 2)) ex_ops ex_state = Some s' /\
    @tr_run wstate (windows_tracker ex_wenv 1) ex_ops ex_tracked = Some w' /\
    forall k, 0 <= k < 64 ->
      linux_bits 2 s' k = windows_bits 1 w' k /\
      windows_bits 1 w' k = Some (tk_driver (tracker_run 8 ex_ops ex_clean) k, tk_reader (tracker_run 8 ex_ops ex_clean) k).
Proof.
  exact (trackers_agree ex_env (ex_arg 8 4096 2) ex_wenv 2 1 64 8 ex_state ex_tracked ex_clean ex_ops
    eq_refl eq_refl ex_link_code ex_linux_inv ex_windows_inv ex_ops_fit).
Defined.

(** What the specification says of it: grains 1 and 2 were marked before the
    exchange, grain 12 after it. *)
Example ex_ops_marks k :
  tk_driver (tracker_run 8 ex_ops ex_clean) k = in_range 12 12 k || false /\
  tk_reader (tracker_run 8 ex_ops ex_clean) k = in_range 1 2 k || false.
Proof. done. Qed.

(** Two writes and an exchange of the halves between them. *)
Definition ex_requests : list IRP := [ex_write_irp 6144 4096; flip_irp; ex_write_irp 51200 512].

Lemma requests_safe_witness :
  exists s' evs, serve ex_wenv 1 ex_requests ex_tracked = Some s' /\ volume 64 4096 1 s' /\
    wevents s' = wevents ex_tracked ++ evs /\
    forall id, given_up id evs = length (filter (fun irp => irp_id irp = id) ex_requests).
Proof.
  apply (requests_safe ex_wenv 64 4096 1 ex_requests ex_tracked).
  - apply ex_volume.
  - repeat apply Forall_cons_2; try apply Forall_nil_2;
      (split; [by vm_compute|]; split; [intros ?; first [done|cbn; lia]|]; split; [intros ?; first [done|by vm_compute]|done]).
Defined.

Lemma first_create_tracks_witness :
  exists irp' s', dispatch_irp ex_wenv 1 (ex_create_irp 8 4096) ex_added = Some (STATUS_SUCCESS, irp', s') /\
    volume 64 4096 1 s' /\ (forall k, windows_bits 1 s' k = Some (false, false)) /\
    store 8 (ex_create_buffer 8 4096) 0 0x7f0000 = Some (SystemBuffer irp') /\
    wevents s' = wevents ex_added ++ [EvComplete 7 STATUS_SUCCESS sizeof_OUTPUT_CREATE].
Proof.
  apply (first_create_tracks ex_wenv 1 (ex_create_irp 8 4096) ex_added 8 4096 0x7f0000).
  - apply ex_stacked.
  - split; [by split|]. split; [done|]. split; by vm_compute.
  - split; [|by split]. by eexists.
  - by vm_compute.
  - done.
Defined.

Lemma write_to_the_end_leaves_half_witness :
  (KERNEL = KERNEL -> exists st irp' s' b, atdrFltWrite ex_wenv 1 (ex_write_irp 258048 4096) ex_tracked = Some (st, irp', s') /\
     windows_bits 1 s' 0 = Some (b, true)) /\
  (KERNEL = USER -> atdrFltWrite ex_wenv 1 (ex_write_irp 258048 4096) ex_tracked = None).
Proof.
  apply (write_to_the_end_leaves_half ex_wenv 1 (ex_write_irp 258048 4096) ex_tracked ex_win_bm 0 (replicate 16 0));
    [apply ex_vol_ok|by vm_compute..].
Defined.

Lemma writes_above_2TB_lost_witness :
  (KERNEL = KERNEL -> exists st irp' s', atdrFltWrite ex_wenv 1 (ex_write_irp (2 ^ 41) 4096) ex_tracked = Some (st, irp', s') /\
     forall k, 0 <= k < 64 -> fst <$> windows_bits 1 s' k = fst <$> windows_bits 1 ex_tracked k) /\
  (KERNEL = USER -> atdrFltWrite ex_wenv 1 (ex_write_irp (2 ^ 41) 4096) ex_tracked = None).
Proof.
  apply (writes_above_2TB_lost ex_wenv 1 (ex_write_irp (2 ^ 41) 4096) ex_tracked ex_win_bm 0 (replicate 16 0));
    [apply ex_vol_ok|by vm_compute..].
Defined.

Lemma destroy_leaves_freed_bitmap_witness :
  (forall irp st irp' s', ioctl_destroy 1 irp ex_tracked = Some (st, irp', s') ->
     (forall w, atdrFltWrite ex_wenv 1 w s' = None) /\ (forall i, ioctl_destroy 1 i s' = None)) /\
  (forall irp irp', exists s1, ioctl_flip_area 1 irp ex_tracked = Some (STATUS_SUCCESS, irp <| io_Status := STATUS_SUCCESS |>, s1) /\
     ioctl_destroy 1 irp' s1 = None).
Proof. apply (destroy_leaves_freed_bitmap ex_wenv 1 ex_tracked ex_win_bm 0 (replicate 16 0)). apply ex_vol_ok. Defined.

(** The first ATDRCTL_DEV_DESTROY of [ex_tracked] does return. *)
Example ex_destroy_returns : is_Some (ioctl_destroy 1 (ex_create_irp 8 4096) ex_tracked).
Proof. vm_compute. by eexists. Qed.

Lemma control_device_unserved_witness :
  exists s' c, DriverEntry ex_wenv ex_before = (STATUS_SUCCESS, s') /\ ControlObj s' = Some c /\
    dispatch_irp ex_wenv c (ex_create_irp 8 4096) s' = None.
Proof. apply (control_device_unserved ex_wenv (ex_create_irp 8 4096) ex_before); by vm_compute. Defined.

Lemma flip_during_write_misplaces_marks_witness :
  exists bmap s1 s2, ab_area ex_win_bm = Some bmap /\
    ioctl_flip_area 1 flip_irp ex_tracked = Some (STATUS_SUCCESS, flip_irp <| io_Status := STATUS_SUCCESS |>, s1) /\
    set_bits_at bmap (i32 1) (i32 2) s1 = Some s2 /\
    forall k, 0 <= k < 64 ->
      windows_bits 1 s2 k = (fun '(drv, rd) => (drv, in_range 1 2 k || rd)) <$> windows_bits 1 s1 k.
Proof.
  apply (flip_during_write_misplaces_marks 1 flip_irp ex_tracked ex_win_bm 0 (replicate 16 0) 1 2);
    [apply ex_vol_ok|by vm_compute..].
Defined.
