(* ===== verification/CMonad.v ===== *)
(** * A monad for the daemon's C code

    A C function is a state transformer over the global variables (and the
    environment: sockets, disks, database, kernel).  Besides returning, a
    thread can end the process ([stop_work], [exit]), end itself (deferred
    cancellation), block for ever on a mutex, or do something undefined. *)
From S2P Require Import Prelude.

Inductive outcome := Exited | Cancelled | Blocked | Undefined.

Inductive res (W A : Type) :=
  | Ret (a : A) (w : W)
  | Stop (o : outcome) (w : W).
Arguments Ret {W A} a w.
Arguments Stop {W A} o w.

Definition M (W A : Type) : Type := W -> res W A.

Definition ret {W A} (a : A) : M W A := fun w => Ret a w.

Definition bind {W A B} (m : M W A) (f : A -> M W B) : M W B := fun w =>
  match m w with
  | Ret a w' => f a w'
  | Stop o w' => Stop o w'
  end.

Definition get {W A} (f : W -> A) : M W A := fun w => Ret (f w) w.
Definition modify {W} (f : W -> W) : M W unit := fun w => Ret tt (f w).
Definition stop {W A} (o : outcome) : M W A := fun w => Stop o w.
Definition undefined {W A} : M W A := stop Undefined.
Definition when {W} (b : bool) (m : M W unit) : M W unit := if b then m else ret tt.
Definition assert_def {W} (b : bool) : M W unit := if b then ret tt else undefined.
Definition of_option {W A} (o : option A) : M W A :=
  match o with Some a => ret a | None => undefined end.
Definition ignore {W A} (m : M W A) : M W unit := bind m (fun _ => ret tt).

Declare Scope cmonad_scope.
Delimit Scope cmonad_scope with cm.
Notation "x <- m ;; k" := (bind m (fun x => k))
  (at level 20, m at level 99, k at level 200, only parsing) : cmonad_scope.
Notation "' p <- m ;; k" := (bind m (fun x => let 'p := x in k))
  (at level 20, p pattern, m at level 99, k at level 200, only parsing) : cmonad_scope.
Notation "m ;;; k" := (bind m (fun _ => k))
  (at level 100, right associativity) : cmonad_scope.

(** ** Laws *)
Lemma bind_ret {W A B} (a : A) (f : A -> M W B) w : bind (ret a) f w = f a w.
Proof. done. Qed.

Lemma bind_ret_r {W A} (m : M W A) w : bind m ret w = m w.
Proof. unfold bind. by destruct (m w). Qed.

Lemma bind_get {W A B} (g : W -> A) (f : A -> M W B) w : bind (get g) f w = f (g w) w.
Proof. done. Qed.

Lemma bind_modify {W B} g (f : unit -> M W B) w : bind (modify g) f w = f tt (g w).
Proof. done. Qed.

Lemma bind_assoc {W A B C} (m : M W A) (f : A -> M W B) (g : B -> M W C) w :
  bind (bind m f) g w = bind m (fun a => bind (f a) g) w.
Proof. unfold bind. by destruct (m w). Qed.

Lemma bind_Ret {W A B} (m : M W A) (f : A -> M W B) w a w' :
  m w = Ret a w' -> bind m f w = f a w'.
Proof. unfold bind. by intros ->. Qed.

Lemma bind_Ret_inv {W A B} (m : M W A) (f : A -> M W B) w b w2 :
  bind m f w = Ret b w2 -> exists a w1, m w = Ret a w1 /\ f a w1 = Ret b w2.
Proof. unfold bind. destruct (m w); [eauto|done]. Qed.

Lemma bind_ext {W A B} (m : M W A) (f g : A -> M W B) w :
  (forall a w', f a w' = g a w') -> bind m f w = bind m g w.
Proof. intros Hfg. unfold bind. by destruct (m w). Qed.

(** ** What a function leaves alone

    [preserves R m]: whatever way the call ends, the states before and after
    are related by the preorder [R]. *)
Definition end_state {W A} (r : res W A) : W := match r with Ret _ w => w | Stop _ w => w end.

Definition preserves {W A} (R : W -> W -> Prop) (m : M W A) : Prop :=
  forall w, R w (end_state (m w)).

Section preserves_lemmas.
Context {W : Type} (R : W -> W -> Prop) `{!PreOrder R}.

Lemma preserves_ret {A} (a : A) : preserves R (ret a).
Proof. intros w. cbn. reflexivity. Qed.

Lemma preserves_get {A} (f : W -> A) : preserves R (get f).
Proof. intros w. cbn. reflexivity. Qed.

Lemma preserves_stop {A} o : preserves R (@stop W A o).
Proof. intros w. cbn. reflexivity. Qed.

Lemma preserves_modify f : (forall w, R w (f w)) -> preserves R (modify f).
Proof. intros Hf w. apply Hf. Qed.

Lemma preserves_bind {A B} (m : M W A) (f : A -> M W B) :
  preserves R m -> (forall a, preserves R (f a)) -> preserves R (bind m f).
Proof.
  intros Hm Hf w. specialize (Hm w). unfold bind. destruct (m w) as [a w1|o w1]; cbn in *; [|done].
  etransitivity; [exact Hm|]. apply Hf.
Qed.

Lemma preserves_if {A} (b : bool) (m1 m2 : M W A) :
  preserves R m1 -> preserves R m2 -> preserves R (if b then m1 else m2).
Proof. by destruct b. Qed.

Lemma preserves_when (b : bool) (m : M W unit) : preserves R m -> preserves R (when b m).
Proof. destruct b; [done|]. intros _. apply preserves_ret. Qed.

Lemma preserves_ignore {A} (m : M W A) : preserves R m -> preserves R (ignore m).
Proof. intros. apply preserves_bind; [done|]. intros. apply preserves_ret. Qed.

Lemma preserves_assert b : preserves R (@assert_def W b).
Proof. destruct b; [apply preserves_ret|apply preserves_stop]. Qed.

Lemma preserves_of_option {A} (o : option A) : preserves R (of_option o).
Proof. destruct o; [apply preserves_ret|apply preserves_stop]. Qed.
End preserves_lemmas.

Create HintDb preserves.
#[export] Hint Resolve preserves_ret preserves_get preserves_stop preserves_modify preserves_bind
  preserves_if preserves_when preserves_ignore preserves_assert preserves_of_option : preserves.

(** ** What a function returns, if it returns *)
Definition returns {W A} (Q : A -> Prop) (m : M W A) : Prop := forall w a w', m w = Ret a w' -> Q a.

Section returns_lemmas.
Context {W : Type}.

Lemma returns_ret {A} (Q : A -> Prop) (a : A) : Q a -> returns Q (@ret W A a).
Proof. intros HQ w b w' E. unfold ret in E. by simplify_eq. Qed.

Lemma returns_bind {A B} (Q : B -> Prop) (m : M W A) (f : A -> M W B) :
  (forall a, returns Q (f a)) -> returns Q (bind m f).
Proof. intros Hf w b w' (a & w1 & _ & E)%bind_Ret_inv. by eapply Hf. Qed.

Lemma returns_stop {A} (Q : A -> Prop) o : returns Q (@stop W A o).
Proof. by intros w a w' E. Qed.

Lemma returns_if {A} (Q : A -> Prop) (b : bool) (m1 m2 : M W A) :
  returns Q m1 -> returns Q m2 -> returns Q (if b then m1 else m2).
Proof. by destruct b. Qed.
End returns_lemmas.

(** Goes to the last statement of every branch. *)
Ltac returns_end :=
  repeat first
    [ apply returns_if | apply returns_stop
    | apply returns_bind; let a := fresh "a" in intros a; try destruct a ].
