(* ===== verification/CString.v ===== *)
(** * C strings: buffers, printf conversions, sscanf

    A [char] array that holds a C string is modelled by its contents up to the
    terminator; copying into an array that is too small is undefined.  [scan]
    is sscanf for the conversions the program uses (%s, %d, %u, %lu) with white
    space between them, [dec] is %d / %lu. *)
From S2P Require Import Prelude.
From Stdlib Require Import Ascii.

Definition slen (s : string) : Z := Z.of_nat (String.length s).

(** [strcpy] / [sprintf] into [char buf[n]]. *)
Definition cstr_fits (n : Z) (s : string) : bool := slen s <? n.

Definition dec (z : Z) : string := pretty z.

Definition sconcat (l : list string) : string := foldr String.append EmptyString l.

(** ** sscanf *)
Definition is_cspace (c : ascii) : bool :=
  let n := Z.of_nat (nat_of_ascii c) in (n =? 32) || inb 14 n && negb (inb 9 n).

Definition is_digit (c : ascii) : bool :=
  let n := Z.of_nat (nat_of_ascii c) in (48 <=? n) && (n <=? 57).

Definition digit_val (c : ascii) : Z := Z.of_nat (nat_of_ascii c) - 48.

Fixpoint skip_ws (s : string) : string :=
  match s with
  | String c s' => if is_cspace c then skip_ws s' else s
  | EmptyString => EmptyString
  end.

(** The longest prefix of characters that satisfy [p], and the rest. *)
Fixpoint span (p : ascii -> bool) (s : string) : string * string :=
  match s with
  | String c s' => if p c then let '(a, b) := span p s' in (String c a, b) else (EmptyString, s)
  | EmptyString => (EmptyString, EmptyString)
  end.

Definition digits_value (acc : Z) (s : string) : Z :=
  let fix go acc s := match s with
    | String c s' => go (10 * acc + digit_val c) s'
    | EmptyString => acc
    end in go acc s.

(** An optionally signed decimal number: its value and the rest. *)
Definition scan_num (s : string) : option (Z * string) :=
  let s := skip_ws s in
  let '(neg, s) := match s with
    | String "-" s' => (true, s')
    | String "+" s' => (false, s')
    | _ => (false, s)
    end in
  let '(ds, rest) := span is_digit s in
  match ds with
  | EmptyString => None
  | _ => Some ((if neg : bool then - digits_value 0 ds else digits_value 0 ds), rest)
  end.

Definition scan_word (s : string) : option (string * string) :=
  let '(w, rest) := span (fun c => negb (is_cspace c)) (skip_ws s) in
  match w with
  | EmptyString => None
  | _ => Some (w, rest)
  end.

(** [strtol] and [strtoul] saturate; %d and %u keep the
    low 32 bits, %lu all 64. *)
Definition long_sat (z : Z) : Z := Z.max (- 2 ^ 63) (Z.min z (2 ^ 63 - 1)).
Definition ulong_sat (z : Z) : Z := if Z.abs z <? 2 ^ 64 then u64 z else 2 ^ 64 - 1.

Inductive conv := Cs | Cd | Cu | Clu.
Inductive scanned := AStr (s : string) | AInt (z : Z).

(** The values assigned, in order: the scan stops at the first conversion that
    does not match, the remaining arguments keep their old values. *)
Fixpoint scan (f : list conv) (s : string) : list scanned :=
  match f with
  | [] => []
  | Cs :: f' => match scan_word s with
                | Some (w, r) => AStr w :: scan f' r
                | None => []
                end
  | Cd :: f' => match scan_num s with
                | Some (z, r) => AInt (i32 (long_sat z)) :: scan f' r
                | None => []
                end
  | Cu :: f' => match scan_num s with
                | Some (z, r) => AInt (u32 (ulong_sat z)) :: scan f' r
                | None => []
                end
  | Clu :: f' => match scan_num s with
                 | Some (z, r) => AInt (ulong_sat z) :: scan f' r
                 | None => []
                 end
  end.

Definition arg_str (l : list scanned) (i : nat) (old : string) : string :=
  match l !! i with Some (AStr s) => s | _ => old end.
Definition arg_int (l : list scanned) (i : nat) (old : Z) : Z :=
  match l !! i with Some (AInt z) => z | _ => old end.

(** ** Words *)
Lemma str_app_nil r : EmptyString +:+ r = r.
Proof. done. Qed.

Lemma str_app_cons c s r : String c s +:+ r = String c (s +:+ r).
Proof. done. Qed.

Lemma str_app_assoc s t u : (s +:+ t) +:+ u = s +:+ (t +:+ u).
Proof. induction s as [|c s IH]; rewrite ?str_app_nil, ?str_app_cons; [done|by rewrite IH]. Qed.

Lemma str_app_nil_r s : s +:+ EmptyString = s.
Proof. induction s as [|c s IH]; rewrite ?str_app_nil, ?str_app_cons; [done|by rewrite IH]. Qed.

Lemma str_length_app s t : String.length (s +:+ t) = (String.length s + String.length t)%nat.
Proof. induction s as [|c s IH]; rewrite ?str_app_nil, ?str_app_cons; [done|]. cbn. by rewrite IH. Qed.

Lemma slen_app s t : slen (s +:+ t) = slen s + slen t.
Proof. unfold slen. rewrite str_length_app. lia. Qed.

Definition all_chars (p : ascii -> bool) (s : string) : Prop := fst (span p s) = s.

(** A word a %s conversion reads back: not empty, no white space. *)
Definition is_word (s : string) : Prop :=
  s <> EmptyString /\ all_chars (fun c => negb (is_cspace c)) s.

(** What follows a conversion: nothing, or white space. *)
Definition starts_space (s : string) : Prop :=
  match s with EmptyString => True | String c _ => is_cspace c = true end.

Lemma span_all p s r :
  all_chars p s -> (match r with EmptyString => True | String c _ => p c = false end) ->
  span p (s +:+ r) = (s, r).
Proof.
  unfold all_chars. induction s as [|c s IH]; rewrite ?str_app_nil, ?str_app_cons; cbn; intros Hs Hr.
  - destruct r as [|c r]; cbn; [done|]. by rewrite Hr.
  - destruct (p c) eqn:E; [|done]. destruct (span p s) as [a b] eqn:Es; cbn in *.
    injection Hs as Hs. rewrite IH; [done|exact Hs|done].
Qed.

Lemma all_chars_impl p q s : (forall c, p c = true -> q c = true) -> all_chars p s -> all_chars q s.
Proof.
  unfold all_chars. intros Hpq. induction s as [|c s IH]; cbn; [done|].
  destruct (p c) eqn:E; [|done]. rewrite (Hpq c E).
  destruct (span p s) as [a b], (span q s) as [a' b']; cbn in *. intros [= ->]. f_equal. by apply IH.
Qed.

Lemma all_chars_app p s t : all_chars p s -> all_chars p t -> all_chars p (s +:+ t).
Proof.
  unfold all_chars. induction s as [|c s IH]; rewrite ?str_app_nil, ?str_app_cons; cbn; [done|].
  destruct (p c); [|done]. destruct (span p s) as [a b], (span p (s +:+ t)) as [a' b']; cbn in *.
  intros [= ->] Ht. by rewrite IH.
Qed.

Lemma skip_ws_word s r : is_word s -> skip_ws (s +:+ r) = s +:+ r.
Proof.
  intros [Hne Hs]. destruct s as [|c s]; [done|]. rewrite str_app_cons. unfold all_chars in Hs. cbn in *.
  destruct (is_cspace c); cbn in Hs; [done|done].
Qed.

Lemma scan_word_spec s r : is_word s -> starts_space r -> scan_word (s +:+ r) = Some (s, r).
Proof.
  intros Hw Hr. unfold scan_word. rewrite skip_ws_word by done. destruct Hw as [Hne Hs].
  rewrite span_all; [by destruct s|done|].
  destruct r as [|c r]; [done|]. cbn in *. by rewrite Hr.
Qed.

Lemma scan_word_space s r : is_word s -> starts_space r -> scan_word (String " " (s +:+ r)) = Some (s, r).
Proof. intros. change (scan_word (String " " (s +:+ r))) with (scan_word (s +:+ r)). by apply scan_word_spec. Qed.

Lemma digit_not_space c : is_digit c = true -> negb (is_cspace c) = true.
Proof. unfold is_digit, is_cspace, inb. bool_solve. Qed.

(** ** Printing and reading back a number *)
Lemma digits_value_app a s t : digits_value a (s +:+ t) = digits_value (digits_value a s) t.
Proof. revert a. induction s as [|c s IH]; intros a; rewrite ?str_app_nil, ?str_app_cons; cbn; [done|]. apply IH. Qed.

Lemma pretty_N_char_val (n : N) : (n < 10)%N -> digit_val (pretty_N_char n) = Z.of_N n /\ is_digit (pretty_N_char n) = true.
Proof.
  intros Hn.
  assert (Htab : forallb (fun d => (digit_val (pretty_N_char d) =? Z.of_N d) && is_digit (pretty_N_char d))
                   (N.of_nat <$> seq 0 10) = true) by by vm_compute.
  rewrite forallb_forall in Htab. specialize (Htab n). destruct (andb_prop _ _ (Htab ltac:(
    apply list_elem_of_In, list_elem_of_fmap; exists (N.to_nat n); rewrite elem_of_seq; lia))) as [? ?].
  split; [by apply Z.eqb_eq|done].
Qed.

Lemma pretty_N_go_value n s :
  exists d, pretty_N_go n s = d +:+ s /\ all_chars is_digit d /\ digits_value 0 d = Z.of_N n /\
    (n <> 0%N -> d <> EmptyString).
Proof.
  revert s. induction (N.lt_wf_0 n) as [n _ IH]; intros s.
  destruct (decide (n = 0)%N) as [->|Hn].
  - exists EmptyString. rewrite pretty_N_go_0. by split_and!.
  - rewrite pretty_N_go_step by lia.
    destruct (IH (n `div` 10)%N ltac:(apply N.div_lt; lia) (String (pretty_N_char (n `mod` 10)) s))
      as (d & E & Hd & Hv & _).
    destruct (pretty_N_char_val (n `mod` 10)%N) as [Hc1 Hc2]; [apply N.mod_lt; lia|].
    exists (d +:+ String (pretty_N_char (n `mod` 10)) EmptyString). split.
    { by rewrite E, str_app_assoc, str_app_cons, str_app_nil. }
    split; [|split].
    + apply all_chars_app; [done|]. unfold all_chars. cbn. by rewrite Hc2.
    + rewrite digits_value_app, Hv. cbn. rewrite Hc1.
      rewrite N2Z.inj_mod, N2Z.inj_div. change (Z.of_N 10) with 10. lia.
    + intros _. destruct d; by rewrite ?str_app_nil, ?str_app_cons.
Qed.

Lemma pretty_N_digits (n : N) :
  all_chars is_digit (pretty n) /\ digits_value 0 (pretty n) = Z.of_N n /\ pretty n <> EmptyString.
Proof.
  unfold pretty, pretty_N. case_decide as Hn; [subst; by vm_compute|].
  destruct (pretty_N_go_value n EmptyString) as (d & E & Hd & Hv & Hne).
  rewrite E, str_app_nil_r. auto.
Qed.

(** The text of a non-negative number consists of digits. *)
Lemma dec_nonneg z : 0 <= z -> all_chars is_digit (dec z) /\ digits_value 0 (dec z) = z /\ dec z <> EmptyString.
Proof.
  intros Hz. destruct z as [|p|p]; [by vm_compute| |lia].
  exact (pretty_N_digits (N.pos p)).
Qed.

Definition ends_number (r : string) : Prop :=
  match r with EmptyString => True | String c _ => is_digit c = false end.

Lemma scan_num_dec z r : 0 <= z -> ends_number r -> scan_num (dec z +:+ r) = Some (z, r).
Proof.
  intros Hz Hr. destruct (dec_nonneg z Hz) as (Hd & Hv & Hne). unfold scan_num.
  rewrite skip_ws_word by (split; [done|]; eapply all_chars_impl; [|exact Hd]; apply digit_not_space).
  pose proof (span_all is_digit (dec z) r Hd Hr) as Hspan.
  destruct (dec z) as [|c d] eqn:E; [done|]. rewrite str_app_cons in *.
  assert (Hc : is_digit c = true).
  { unfold all_chars in Hd. cbn in Hd. destruct (is_digit c); [done|by inversion Hd]. }
  assert (Hsign : (match String c (d +:+ r) with
                   | String "-" s' => (true, s')
                   | String "+" s' => (false, s')
                   | _ => (false, String c (d +:+ r))
                   end) = (false, String c (d +:+ r))).
  { destruct c as [[] [] [] [] [] [] [] []]; vm_compute in Hc; try discriminate Hc; reflexivity. }
  rewrite Hsign, Hspan. by rewrite Hv.
Qed.

Lemma scan_num_space z r : 0 <= z -> ends_number r -> scan_num (String " " (dec z +:+ r)) = Some (z, r).
Proof. intros. change (scan_num (String " " (dec z +:+ r))) with (scan_num (dec z +:+ r)). by apply scan_num_dec. Qed.

Lemma dec_is_word z : 0 <= z -> is_word (dec z).
Proof.
  intros Hz. destruct (dec_nonneg z Hz) as (Hd & _ & Hne). split; [done|].
  eapply all_chars_impl; [|exact Hd]. apply digit_not_space.
Qed.

Lemma long_sat_id z : - 2 ^ 63 <= z < 2 ^ 63 -> long_sat z = z.
Proof. unfold long_sat. lia. Qed.

Lemma ulong_sat_id z : 0 <= z < 2 ^ 64 -> ulong_sat z = z.
Proof. intros. unfold ulong_sat. rewrite Z.abs_eq by lia. replace (z <? 2 ^ 64) with true by bool_solve. by apply u64_id. Qed.

(** ** Reading back a line of words and numbers

    [printed fmt args]: every argument in the range of its conversion. *)
Inductive parg := PStr (s : string) | PInt (z : Z).

Definition parg_text (a : parg) : string := match a with PStr s => s | PInt z => dec z end.

Definition parg_ok (c : conv) (a : parg) : Prop :=
  match c, a with
  | Cs, PStr s => is_word s
  | Cd, PInt z => 0 <= z < 2 ^ 31
  | Cu, PInt z => 0 <= z < 2 ^ 32
  | Clu, PInt z => 0 <= z < 2 ^ 64
  | _, _ => False
  end.

Definition parg_scanned (a : parg) : scanned := match a with PStr s => AStr s | PInt z => AInt z end.

(** Each argument preceded by one space; [tail] follows the last one. *)
Definition line (args : list parg) (tail : string) : string :=
  foldr (fun a t => String " " (parg_text a +:+ t)) tail args.

Lemma slen_line_cons a args tail : slen (line (a :: args) tail) = 1 + slen (parg_text a) + slen (line args tail).
Proof. unfold line, slen. cbn [foldr String.length]. rewrite str_length_app. lia. Qed.

Lemma line_starts_space args tail : starts_space tail -> starts_space (line args tail).
Proof. destruct args; done. Qed.

Lemma space_ends_number r : starts_space r -> ends_number r.
Proof.
  destruct r as [|c r]; cbn; [done|]. unfold is_cspace, is_digit, inb. intros Hs.
  revert Hs. destruct_bool_tests; cbn; lia || done.
Qed.

Lemma scan_line fmt args tail :
  starts_space tail -> Forall2 parg_ok fmt args -> scan fmt (line args tail) = map parg_scanned args.
Proof.
  intros Ht. induction 1 as [|c a fmt args Ha _ IH]; [done|].
  assert (Hs : starts_space (line args tail)) by by apply line_starts_space.
  pose proof (space_ends_number _ Hs) as Hn.
  cbn [line foldr map parg_scanned]. fold (line args tail).
  destruct c, a; cbn [parg_ok] in Ha; try done; cbn [scan parg_text].
  - rewrite scan_word_space by done. by rewrite IH.
  - rewrite scan_num_space by (done || lia). rewrite long_sat_id, i32_id by lia. by rewrite IH.
  - rewrite scan_num_space by (done || lia). rewrite ulong_sat_id by lia.
    unfold u32. rewrite Z.mod_small by lia. by rewrite IH.
  - rewrite scan_num_space by (done || lia). rewrite ulong_sat_id by lia. by rewrite IH.
Qed.

(** The command word in front of the line. *)
Lemma scan_command w fmt args tail :
  is_word w -> starts_space tail -> Forall2 parg_ok fmt args ->
  scan (Cs :: fmt) (w +:+ line args tail) = AStr w :: map parg_scanned args.
Proof.
  intros Hw Ht Hargs. cbn [scan]. rewrite scan_word_spec by (done || by apply line_starts_space).
  by rewrite scan_line.
Qed.

(** ** Strings in raw buffers *)
Definition byte_of_ascii (c : ascii) : Z := Z.of_nat (nat_of_ascii c).
Definition ascii_of_byte (b : Z) : ascii := ascii_of_nat (Z.to_nat b).

(** The bytes of a C string, without its terminator. *)
Fixpoint string_bytes (s : string) : list Z :=
  match s with
  | EmptyString => []
  | String c s' => byte_of_ascii c :: string_bytes s'
  end.

(** The C string at the start of a buffer: up to the first NUL. *)
Fixpoint bytes_string (m : list Z) : string :=
  match m with
  | [] => EmptyString
  | b :: m' => if b =? 0 then EmptyString else String (ascii_of_byte b) (bytes_string m')
  end.

(** Writing a C string at the start of a buffer leaves what is behind its
    terminator. *)
Definition put_string (s : string) (buf : list Z) : list Z :=
  string_bytes s ++ 0 :: drop (S (String.length s)) buf.

Definition no_nul (s : string) : Prop := Forall (fun b => b <> 0) (string_bytes s).

Lemma length_string_bytes s : length (string_bytes s) = String.length s.
Proof. induction s as [|c s IH]; cbn; [done|by rewrite IH]. Qed.

Lemma bytes_put_string s buf : no_nul s -> bytes_string (put_string s buf) = s.
Proof.
  unfold no_nul, put_string. intros Hs.
  cut (forall t, bytes_string (string_bytes s ++ 0 :: t) = s); [auto|]. intros t.
  induction s as [|c s IH]; cbn in *; [done|]. apply Forall_cons in Hs as [Hc Hs].
  apply Z.eqb_neq in Hc. rewrite Hc. rewrite IH by done. unfold ascii_of_byte, byte_of_ascii.
  by rewrite Nat2Z.id, ascii_nat_embedding.
Qed.

Lemma length_put_string s buf : slen s < Z.of_nat (length buf) -> length (put_string s buf) = length buf.
Proof.
  unfold put_string, slen. intros. rewrite length_app. cbn [length]. rewrite length_string_bytes, length_drop. lia.
Qed.

Lemma bytes_of_string s : no_nul s -> bytes_string (string_bytes s) = s.
Proof.
  unfold no_nul. intros Hs. induction s as [|c s IH]; cbn in *; [done|]. apply Forall_cons in Hs as [Hc Hs].
  apply Z.eqb_neq in Hc. rewrite Hc, IH by done. unfold ascii_of_byte, byte_of_ascii. by rewrite Nat2Z.id, ascii_nat_embedding.
Qed.

(** ** Lines of arguments hold no NUL *)
Lemma string_bytes_app s t : string_bytes (s +:+ t) = string_bytes s ++ string_bytes t.
Proof. induction s as [|c s IH]; [done|]. rewrite str_app_cons. cbn. by rewrite IH. Qed.

Lemma no_nul_app s t : no_nul s -> no_nul t -> no_nul (s +:+ t).
Proof. unfold no_nul. rewrite string_bytes_app. intros. by apply Forall_app. Qed.

Lemma digits_no_nul s : all_chars is_digit s -> no_nul s.
Proof.
  unfold all_chars, no_nul. induction s as [|c s IH]; [constructor|]. cbn.
  destruct (is_digit c) eqn:Hc; [|done]. destruct (span is_digit s) eqn:Hs. cbn. intros [= ->].
  constructor; [|by apply IH]. apply andb_prop in Hc as [Hc%Z.leb_le _]. intros He.
  change (Z.of_nat (nat_of_ascii c) = 0) in He. rewrite He in Hc. done.
Qed.

Definition parg_no_nul (a : parg) : Prop := match a with PStr s => no_nul s | PInt z => 0 <= z end.

Lemma line_no_nul args tail : Forall parg_no_nul args -> no_nul tail -> no_nul (line args tail).
Proof.
  intros Hargs Ht. induction Hargs as [|a args Ha _ IH]; [done|]. cbn [line foldr].
  apply (no_nul_app (String " " EmptyString)); [by repeat constructor|]. apply no_nul_app; [|exact IH].
  destruct a; [exact Ha|]. by apply digits_no_nul, dec_nonneg.
Qed.

(** An argument of the commands, short enough for the daemon's arrays. *)
Definition name64 (s : string) : Prop := is_word s /\ no_nul s /\ slen s < 64.
