(* ===== verification/World.v ===== *)
(** * The state of the daemon

    The global variables of user/atdr_linux (the arrays of objects of the
    headers, the counters, the heap of malloc'ed buffers, the threads started)
    and the interface [OS] to everything outside the source: sockets, files,
    the ioctl of the kernel module, the shared bitmap mapping, the database.
    The same source is built as the server daemon and as the client daemon;
    a [world] is one process, whichever it is. *)
From S2P Require Import Prelude Memory KernelState CMonad CString.

#[global] Open Scope cmonad_scope.

(** ** Constants of the headers *)
Definition MAX_PID : Z := 2048.
Definition MAX_PARTNERS : Z := 2048.
Definition MAX_RELATIONS : Z := 2048.
Definition MAX_DISKS : Z := 2048.
Definition MAX_CONN : Z := 2048.
Definition MAX_REPLICATIONS : Z := 2048.
Definition MAX_HDR : Z := 2048.
Definition MAX_IO : Z := 2048.
Definition MAX_BITMAP : Z := 2048.
Definition CNTRL_THREADS : Z := 4.
Definition SRV_TCP_PORT : Z := 6660.
Definition BUF_SIZE_IN_BYTES : Z := 4096.
Definition CHUNK_SIZE : Z := 512.
Definition BITMAP_SIZE : Z := 4 * 4096.
Definition MAX_BITS_LEN : Z := 4 * 4096 * 8.
Definition CMD_LEN : Z := 200.

(** enum partner_obj_state_t *)
Definition PARTNER_OBJ_FREE : Z := 0.
Definition PARTNER_OBJ_IN_USE : Z := 1.
Definition PARTNER_OBJ_RELEASED : Z := 2.
Definition PARTNER_OBJ_PAUSE : Z := 3.
Definition PARTNER_OBJ_RECOVERY : Z := 4.
Definition PARTNER_OBJ_RESUME : Z := 5.
(** enum partnership_status *)
Definition ACTIVE : Z := 1.
(** enum rel_obj_state_t, enum relation_role_t *)
Definition RELATION_OBJ_FREE : Z := 0.
Definition RELATION_OBJ_IN_USE : Z := 1.
Definition RELATION_OBJ_RELEASED : Z := 2.
Definition RELATION_PRIMARY : Z := 0.
Definition RELATION_SECONDARY : Z := 1.
(** enum disk_obj_state_t *)
Definition DISK_OBJ_FREE : Z := 0.
Definition DISK_OBJ_IN_USE : Z := 1.
Definition DISK_OBJ_PAUSE : Z := 2.
Definition DISK_OBJ_RESUME : Z := 3.
Definition DISK_OBJ_RELEASED : Z := 4.
(** enum ebdr_conn_obj_state_t *)
Definition CONN_OBJ_IN_USE : Z := 0.
Definition CONN_OBJ_PAUSE : Z := 1.
Definition CONN_OBJ_RESUME : Z := 2.
Definition CONN_OBJ_RELEASED : Z := 3.
(** enum ebdr_conn_state_t, enum ebdr_conn_mode_t *)
Definition EBDR_CONN_SETUP : Z := 1.
Definition EBDR_CONN_WAIT_FOR_CLIENT : Z := 2.
Definition EBDR_CONN_CONNECTED : Z := 4.
Definition EBDR_CONN_RELEASED : Z := 5.
Definition EBDR_CONN_SERVER : Z := 0.
Definition EBDR_CONN_CLIENT : Z := 1.
(** enum rep_state_t *)
Definition RESYNC_IN_PROGRESS : Z := 0.
Definition RESYNC_PAUSE : Z := 1.
Definition RESYNC_RESUME : Z := 2.
Definition RESYNC_COMPLETED : Z := 3.
(** enum rep_hdr_role_t, enum rep_hdr_state_t *)
Definition REP_HDR_SERVER : Z := 0.
Definition REP_HDR_CLIENT : Z := 1.
Definition REP_HDR_OBJ_IN_USE : Z := 1.
Definition REP_HDR_OBJ_RELEASED : Z := 2.
(** enum io_state_t *)
Definition IO_OBJ_FREE : Z := 0.
Definition IO_OBJ_IN_USE : Z := 1.
Definition IO_OBJ_RELEASED : Z := 2.
(** enum ebdr_bitmap_obj_state_t, enum ebdr_bitmap_state, enum mmap_t *)
Definition BITMAP_OBJ_IN_USE : Z := 0.
Definition BITMAP_OBJ_PAUSE : Z := 1.
Definition EBDR_UBITMAP_INIT : Z := 0.
Definition EBDR_UBITMAP_READY : Z := 2.
Definition MMAP_UNUSED : Z := 0.
(** enum send_rcv_type_t: the tables of the connection code mix it with the
    opcodes, hence plain integers. *)
Definition PROTO_TYPE : Z := 0.
Definition DATA_TYPE : Z := 1.

(** enum rep_mode_t *)
Inductive rep_mode_t := NO_RESYNC | FULL_RESYNC.

Inductive proto_opcode_t :=
  | SYN | SYN_ACK | ACK | BITMAP_METADATA | DATA | RPLC_TERMINATION
  | MAKE_PARTNER | REMOVE_PARTNER | RM_RELATION | RM_RELATION_PEER
  | DATA_REQ | DATA_PREP | DATA_START | DATA_DONE
  | VERIFY_DATA | VERIFY_DATA_RSP | VERIFY_DATA_IGN.

#[export] Instance proto_opcode_eq_dec : EqDecision proto_opcode_t.
Proof. solve_decision. Defined.

(** The enumerator's value. *)
Definition opcode_code (o : proto_opcode_t) : Z :=
  match o with
  | SYN => 0 | SYN_ACK => 1 | ACK => 2 | BITMAP_METADATA => 3 | DATA => 4 | RPLC_TERMINATION => 5
  | MAKE_PARTNER => 6 | REMOVE_PARTNER => 7 | RM_RELATION => 8 | RM_RELATION_PEER => 9
  | DATA_REQ => 10 | DATA_PREP => 11 | DATA_START => 12 | DATA_DONE => 13
  | VERIFY_DATA => 14 | VERIFY_DATA_RSP => 15 | VERIFY_DATA_IGN => 16
  end.

(** ** Pointers

    An [ops] pointer is null or one of the two tables of its component. *)
Inductive ops := server_ops | client_ops.

(** Pointer to an element of the server's or the client's array of objects. *)
Inductive obj_ptr := PServer (i : Z) | PClient (i : Z).

(** Pointer into the mapping of a memctl device. *)
Record mptr := mk_mptr { mp_area : Z; mp_off : Z }.

(** The threads a process starts, with the argument of their start routine. *)
Inductive thread_start := TReplic | TSendRecv (pid : Z) | TResync (pid : Z).

#[export] Instance zeroed_pair {A B} `{Zeroed A, Zeroed B} : Zeroed (A * B) := (zeroed, zeroed).

(** ** The objects (the fields the program reads or writes) *)
(** atdr_partner.h: one end of a partnership. *)
Record partner_t := mk_partner {
  ptn_id : Z;
  ptn_ip : string;
  ptn_bandwidth : Z;
  ptn_status : Z;
  ptn_state : Z;
  ptn_fd : Z;
  ptn_ops : option ops;
}.
#[export] Instance eta_partner_t : Settable partner_t := fun r =>
  mk_partner (ptn_id r) (ptn_ip r) (ptn_bandwidth r) (ptn_status r) (ptn_state r) (ptn_fd r) (ptn_ops r).
#[export] Instance zeroed_partner_t : Zeroed partner_t :=
  mk_partner 0 EmptyString 0 0 0 0 None.

(** atdr_relation.h: the pairing of a source and a target disk. *)
Record relation_t := mk_relation {
  rel_role : Z;
  rel_id : Z;
  rel_partner : Z;
  rel_state : Z;
  rel_device : string;
  rel_grain : Z;
  rel_bitmap : Z;
  rel_chunk : Z;
  rel_ops : option ops;
}.
#[export] Instance eta_relation_t : Settable relation_t := fun r =>
  mk_relation (rel_role r) (rel_id r) (rel_partner r) (rel_state r) (rel_device r) (rel_grain r) (rel_bitmap r) (rel_chunk r) (rel_ops r).
#[export] Instance zeroed_relation_t : Zeroed relation_t :=
  mk_relation 0 0 0 0 EmptyString 0 0 0 None.

(** atdr_disk.h: a source or target disk. *)
Record ebdr_disk := mk_disk {
  dsk_name : string;
  dsk_snap : string;
  dsk_fd : Z;
  dsk_bitmap_size : Z;
  dsk_active : option mptr;
  dsk_backup : option mptr;
  dsk_state : Z;
  dsk_ops : option ops;
  dsk_bitmap : option obj_ptr;
}.
#[export] Instance eta_ebdr_disk : Settable ebdr_disk := fun r =>
  mk_disk (dsk_name r) (dsk_snap r) (dsk_fd r) (dsk_bitmap_size r) (dsk_active r) (dsk_backup r) (dsk_state r) (dsk_ops r) (dsk_bitmap r).
#[export] Instance zeroed_ebdr_disk : Zeroed ebdr_disk :=
  mk_disk EmptyString EmptyString 0 0 None None 0 None None.

(** atdr_conn.h: a connection. *)
Record ebdr_connection := mk_conn {
  cn_fd : Z;
  cn_sockFd : Z;
  cn_ops : option ops;
  cn_conn_state : Z;
  cn_state : Z;
  cn_mode : Z;
}.
#[export] Instance eta_ebdr_connection : Settable ebdr_connection := fun r =>
  mk_conn (cn_fd r) (cn_sockFd r) (cn_ops r) (cn_conn_state r) (cn_state r) (cn_mode r).
#[export] Instance zeroed_ebdr_connection : Zeroed ebdr_connection :=
  mk_conn 0 0 None 0 0 0.

(** atdr_replication.h: a replication object. *)
Record ebdr_replication := mk_replication {
  rp_state : Z;
  rp_last_bit : Z;
  rp_conn : option obj_ptr;
  rp_hdr : option obj_ptr;
  rp_disk : option obj_ptr;
  rp_ops : option ops;
}.
#[export] Instance eta_ebdr_replication : Settable ebdr_replication := fun r =>
  mk_replication (rp_state r) (rp_last_bit r) (rp_conn r) (rp_hdr r) (rp_disk r) (rp_ops r).
#[export] Instance zeroed_ebdr_replication : Zeroed ebdr_replication :=
  mk_replication 0 0 None None None None.

(** atdr_replication_header.h: the protocol header sent on the wire. *)
Record replic_header := mk_header {
  hd_opcode : proto_opcode_t;
  hd_available : Z;
  hd_bitmap : Z;
  hd_grain : Z;
  hd_chunk : Z;
  hd_bandwidth : Z;
  hd_curr : Z;
  hd_chunk_pos : Z;
  hd_md5 : string;
  hd_dest_ip : string;
  hd_partner : Z;
  hd_relation : Z;
  hd_role : Z;
  hd_state : Z;
  hd_disk : string;
  hd_ops : option ops;
}.
#[export] Instance eta_replic_header : Settable replic_header := fun r =>
  mk_header (hd_opcode r) (hd_available r) (hd_bitmap r) (hd_grain r) (hd_chunk r) (hd_bandwidth r) (hd_curr r) (hd_chunk_pos r) (hd_md5 r) (hd_dest_ip r) (hd_partner r) (hd_relation r) (hd_role r) (hd_state r) (hd_disk r) (hd_ops r).
#[export] Instance zeroed_replic_header : Zeroed replic_header :=
  mk_header SYN 0 0 0 0 0 0 0 EmptyString EmptyString 0 0 0 0 EmptyString None.

(** atdr_io_engine.h: an I/O engine. *)
Record ebdr_io_engine := mk_io {
  io_state : Z;
  io_ops : option ops;
}.
#[export] Instance eta_ebdr_io_engine : Settable ebdr_io_engine := fun r =>
  mk_io (io_state r) (io_ops r).
#[export] Instance zeroed_ebdr_io_engine : Zeroed ebdr_io_engine :=
  mk_io 0 None.

(** atdr_bitmap_user.h: the daemon's copy of a bitmap; [ub_area] is a malloc'ed block. *)
Record ebdr_user_bitmap := mk_ubitmap {
  ub_area : option Z;
  ub_size : Z;
  ub_mmap : Z;
  ub_state : Z;
  ub_user : Z;
  ub_obj_state : Z;
  ub_ops : option ops;
  ub_total : Z;
}.
#[export] Instance eta_ebdr_user_bitmap : Settable ebdr_user_bitmap := fun r =>
  mk_ubitmap (ub_area r) (ub_size r) (ub_mmap r) (ub_state r) (ub_user r) (ub_obj_state r) (ub_ops r) (ub_total r).
#[export] Instance zeroed_ebdr_user_bitmap : Zeroed ebdr_user_bitmap :=
  mk_ubitmap None 0 0 0 0 0 None 0.

(** atdr_daemon.h: parameters of a thread. *)
Record ebdr_thread_t := mk_thread {
  th_pid : Z;
  th_bit_pos : Z;
  th_level : Z;
  th_str : string;
}.
#[export] Instance eta_ebdr_thread_t : Settable ebdr_thread_t := fun r =>
  mk_thread (th_pid r) (th_bit_pos r) (th_level r) (th_str r).
#[export] Instance zeroed_ebdr_thread_t : Zeroed ebdr_thread_t :=
  mk_thread 0 0 0 EmptyString.

(** ** The process *)
Record world {E : Type} := mk_world {
  all_partner_servers : gmap Z partner_t;
  all_partner_clients : gmap Z partner_t;
  all_relation_servers : gmap Z relation_t;
  all_relation_clients : gmap Z relation_t;
  ebdr_disk_src_obj : gmap Z ebdr_disk;
  ebdr_disk_target_obj : gmap Z ebdr_disk;
  ebdr_conn_server : gmap Z ebdr_connection;
  ebdr_conn_client : gmap Z ebdr_connection;
  replic_server_obj : gmap Z ebdr_replication;
  replic_client_obj : gmap Z ebdr_replication;
  replic_hdr_server_obj : gmap Z replic_header;
  replic_hdr_client_obj : gmap Z replic_header;
  io_server_obj : gmap Z ebdr_io_engine;
  io_client_obj : gmap Z ebdr_io_engine;
  bitmap_server_obj : gmap Z ebdr_user_bitmap;
  bitmap_client_obj : gmap Z ebdr_user_bitmap;
  thread_params : gmap Z ebdr_thread_t;
  recovery_mode : gmap Z Z;
  sock_recovery : gmap Z Z;
  partner_created : gmap Z Z;
  sockfd_pid_var : gmap Z (Z * Z);
  ps_count : Z;
  pc_count : Z;
  ds_count : Z;
  dt_count : Z;
  total_conn : Z;
  client_connected : Z;
  ioctl_obj : IOCTL;
  ioctl_fd : Z;
  once : Z;
  db_user : string;
  db_pswrd : string;
  db_host : string;
  db_lock : bool;
  cancel_pending : bool;
  heap : gmap Z mem;
  next_block : Z;
  threads : list thread_start;
  ext : E;
}.
Arguments world E : clear implicits.
Arguments mk_world {E}.

#[export] Instance eta_world {E} : Settable (world E) := fun r =>
  mk_world (all_partner_servers r) (all_partner_clients r) (all_relation_servers r) (all_relation_clients r) (ebdr_disk_src_obj r) (ebdr_disk_target_obj r) (ebdr_conn_server r) (ebdr_conn_client r) (replic_server_obj r) (replic_client_obj r) (replic_hdr_server_obj r) (replic_hdr_client_obj r) (io_server_obj r) (io_client_obj r) (bitmap_server_obj r) (bitmap_client_obj r) (thread_params r) (recovery_mode r) (sock_recovery r) (partner_created r) (sockfd_pid_var r) (ps_count r) (pc_count r) (ds_count r) (dt_count r) (total_conn r) (client_connected r) (ioctl_obj r) (ioctl_fd r) (once r) (db_user r) (db_pswrd r) (db_host r) (db_lock r) (cancel_pending r) (heap r) (next_block r) (threads r) (ext r).

(** The process just started, with environment [e]. *)
Definition world0 {E} (e : E) : world E :=
  mk_world ∅ ∅ ∅ ∅ ∅ ∅ ∅ ∅ ∅ ∅ ∅ ∅ ∅ ∅ ∅ ∅ ∅ ∅ ∅ ∅ ∅ 0 0 0 0 0 (-1) zeroed 0 0 EmptyString EmptyString EmptyString false false ∅ 0 [] e.

(** ** Everything outside the source

    Results follow the system calls: negative on error.  [os_recv_hdr] gives
    the header received if it arrived complete; [os_recv] the bytes that
    arrived. *)
Inductive open_flag := O_RDONLY | O_RDWR | O_CREAT | O_TRUNC.

Class OS (E : Type) := {
  os_errno : E -> Z;
  os_malloc : Z -> E -> bool;
  os_socket : E -> Z * E;
  os_connect : Z -> string -> Z -> E -> Z * E;
  os_bind : Z -> Z -> E -> Z * E;
  os_listen : Z -> Z -> E -> Z * E;
  os_accept : Z -> E -> Z * E;
  os_shutdown : Z -> E -> E;
  os_send_hdr : Z -> replic_header -> E -> Z * E;
  os_send : Z -> mem -> E -> Z * E;
  os_recv_hdr : Z -> E -> Z * option replic_header * E;
  os_recv : Z -> Z -> E -> Z * mem * E;
  os_open : string -> list open_flag -> E -> Z * E;
  os_close : Z -> E -> Z * E;
  os_lseek : Z -> Z -> E -> Z * E;
  os_read : Z -> Z -> E -> Z * mem * E;
  os_write : Z -> mem -> E -> Z * E;
  os_blkflsbuf : Z -> E -> E;
  os_load_file : string -> E -> option mem;
  os_store_file : string -> mem -> E -> option E;
  os_ioctl : Z -> ebdr_ioctl_cmds -> IOCTL -> E -> Z * IOCTL * E;
  os_mmap : Z -> Z -> E -> option Z * E;
  os_map_read : Z -> E -> mem;
  os_map_write : Z -> mem -> E -> E;
  os_mysql_connect : string -> string -> string -> E -> Z * E;
  os_query : string -> E -> Z * E;
  os_rows : E -> list (list string);
  os_inet_pton : string -> bool;
  os_pthread_create : E -> Z * E;
  os_md5sum : string -> Z -> E -> Z * E;
  os_md5_text : Z -> E -> string;
}.

(** ** Primitive steps *)
Section primitives.
Context {E : Type} `{OS E}.

Definition MW (A : Type) : Type := M (world E) A.

(** Element [i] of an array of [n] objects; outside it, undefined. *)
Definition rd {A} `{Zeroed A} (n : Z) (f : world E -> gmap Z A) (i : Z) : MW A := fun w =>
  if inb n i then Ret (aget (f w) i) w else Stop Undefined w.

Definition wr {A} `{Zeroed A} (n : Z) (f : world E -> gmap Z A) `{!Setter f} (i : Z) (g : A -> A) : MW unit :=
  fun w => if inb n i then Ret tt (set_field f (aset i g) w) else Stop Undefined w.

Definition put {A} (f : world E -> A) `{!Setter f} (a : A) : MW unit := modify (fun w => w <| f := a |>).

(** A system call. *)
Definition sys {A} (call : E -> A * E) : MW A := fun w =>
  let '(a, e) := call (ext w) in Ret a (w <| ext := e |>).
Definition sys_ (call : E -> E) : MW unit := modify (fun w => w <| ext ::= call |>).

(** A pending cancellation takes effect at the next cancellation point; the
    flush of the log file in [ebdr_log] and the network traffic of
    [mysql_query] are such points. *)
Definition cancellation_point : MW unit := fun w =>
  if cancel_pending w then Stop Cancelled w else Ret tt w.
Definition ebdr_log : MW unit := cancellation_point.

(** [stop_work] logs and ends the process with exit(0). *)
Definition stop_work {A} : MW A := bind ebdr_log (fun _ => stop Exited).

(** [pthread_cancel] on the calling thread: deferred. *)
Definition pthread_cancel_self : MW unit := put cancel_pending true.

(** A default mutex: locking it again from the thread that holds it never
    returns. *)
Definition mutex_lock : MW unit := fun w =>
  if db_lock w then Stop Blocked w else Ret tt (w <| db_lock := true |>).
Definition mutex_unlock : MW unit := put db_lock false.

(** The heap. *)
Definition malloc (n : Z) (fill : mem) : MW (option Z) := fun w =>
  if os_malloc n (ext w) then
    Ret (Some (next_block w)) (w <| heap ::= fun h => <[next_block w := fill]> h |> <| next_block ::= Z.succ |>)
  else Ret None w.

Definition free (p : option Z) : MW unit :=
  match p with
  | None => ret tt
  | Some b => fun w => match heap w !! b with
                       | Some _ => Ret tt (w <| heap ::= delete b |>)
                       | None => Stop Undefined w
                       end
  end.

(** The bytes a pointer to a malloc'ed block points to. *)
Definition block (p : option Z) : MW mem := fun w =>
  match b ← p; heap w !! b with
  | Some m => Ret m w
  | None => Stop Undefined w
  end.

Definition set_block (p : option Z) (m : mem) : MW unit := fun w =>
  match b ← p; m0 ← heap w !! b; Some b with
  | Some b => Ret tt (w <| heap ::= fun h => <[b := m]> h |>)
  | None => Stop Undefined w
  end.

(** [strcpy] and [sprintf] into a [char] array of [n] bytes. *)
Definition cstring (n : Z) (s : string) : MW string :=
  if cstr_fits n s then ret s else undefined.

Definition printf : MW unit := ret tt.

(** ** Symbolic execution *)
Lemma rd_ok {A} `{Zeroed A} n (f : world E -> gmap Z A) i w :
  0 <= i < n -> rd n f i w = Ret (aget (f w) i) w.
Proof. intros. unfold rd. by rewrite inb_true. Qed.

Lemma wr_ok {A} `{Zeroed A} n (f : world E -> gmap Z A) `{!Setter f} i g w :
  0 <= i < n -> wr n f i g w = Ret tt (set_field f (aset i g) w).
Proof. intros. unfold wr. by rewrite inb_true. Qed.

Lemma bind_rd {A B} `{Zeroed A} n (f : world E -> gmap Z A) i (k : A -> MW B) w :
  0 <= i < n -> bind (rd n f i) k w = k (aget (f w) i) w.
Proof. intros. unfold bind. by rewrite rd_ok. Qed.

Lemma bind_wr {A B} `{Zeroed A} n (f : world E -> gmap Z A) `{!Setter f} i g (k : unit -> MW B) w :
  0 <= i < n -> bind (wr n f i g) k w = k tt (set_field f (aset i g) w).
Proof. intros. unfold bind. by rewrite wr_ok. Qed.
End primitives.

Arguments MW E A : clear implicits.
