(* ===== verification/UBitmap.v ===== *)
(** * atdr_bitmap_server.c, atdr_bitmap_client.c, atdr_bitmap_user.c

    The daemon's view of the bitmap.  The memory layer works on the bytes of a
    buffer: the server counts bits most significant first, the resync loop of
    the client tests them least significant first in 32-bit words.  The second
    part are the functions on the daemon's state: taking a snapshot of the half
    in use and flipping the kernel to the other one, releasing it, and the
    client's copy on disk. *)
From S2P Require Import Prelude Memory KernelState KBitmap CMonad CString World.

(** ** Memory layer *)

(** A [char] is signed. *)
Definition s8 (z : Z) : Z := (z + 128) mod 256 - 128.

Definition ebdr_test_bit2 (num base : Z) (m : mem) : option Z :=
  let temp := num mod 8 in
  let mask := s8 (Z.shiftl 1 (8 - 1 - temp)) in
  let off := num / 8 in
  var ← load 1 m (base + off);
  Some (Z.land (s8 var) mask).

Definition ebdr_check_bit_set (m : mem) (pos : Z) : option Z :=
  let pnum := Z.shiftr pos (PAGE_SHIFT + 3) in
  if MAX_BITS_LEN <? u64 (pnum * NUM_BITS_PER_PAGE) then Some 0
  else ebdr_test_bit2 (Z.land pos NUM_BITS_PER_PAGE_MASK) (pnum * NUM_BITS_PER_PAGE / 8) m.

Definition get_total_bits_set (m : mem) : option Z :=
  iter_up (Z.to_nat MAX_BITS_LEN) 0
    (fun bit_pos bits_set => r ← ebdr_check_bit_set m bit_pos;
                             Some (if r =? 0 then bits_set else bits_set + 1)) 0.

Definition test_bit (nr : Z) (m : mem) : option Z :=
  w ← load 4 m (4 * Z.shiftr nr 5);
  Some (Z.land 1 (Z.shiftr w (Z.land nr 31))).

(** A failed assertion aborts the process: no result. *)
Definition is_bit_set (m : mem) (pos : Z) : option Z :=
  if pos <? MAX_BITS_LEN then test_bit pos m else None.

Definition ebdr_copy_mmaped_bitmap (nbytes soff : Z) (src dest : mem) : option mem :=
  iter_up (Z.to_nat (nbytes / 8)) 0 (fun i d => v ← load 8 src (soff + 8 * i); store 8 d (8 * i) v) dest.

Definition ebdr_clear_active_bitmap (nbytes off : Z) (m : mem) : option mem :=
  iter_up (Z.to_nat (nbytes / 8)) 0 (fun i m => store 8 m (off + 8 * i) 0) m.

(** ** Functions on the daemon's state *)
Section ubitmap.
Context {E : Type} `{OS E}.

(** atdr_daemon.c: the ioctl on the global request block. *)
Definition prepare_and_send_ioctl_cmd (cmd : ebdr_ioctl_cmds) : MW E Z :=
  fd <- get ioctl_fd;;
  obj <- get ioctl_obj;;
  '(ret_, obj') <- sys (fun e => let '(r, o, e') := os_ioctl fd cmd obj e in ((r, o), e'));;
  put ioctl_obj obj';;;
  when (ret_ <? 0) (ebdr_log;;; stop_work);;;
  ret ret_.

(** The word a pointer into the mapping points to. *)
Definition deref_map (p : option mptr) : MW E Z :=
  p <- of_option p;;
  e <- get ext;;
  of_option (load 8 (os_map_read (mp_area p) e) (mp_off p)).

Definition map_bytes (p : option mptr) : MW E (Z * mem) :=
  p <- of_option p;;
  e <- get ext;;
  ret (mp_off p, os_map_read (mp_area p) e).

(** *** The server *)
Definition bitmap_server_create (pid : Z) : MW E unit :=
  p <- malloc BITMAP_SIZE (replicate (Z.to_nat BITMAP_SIZE) 0);;
  wr MAX_BITMAP bitmap_server_obj pid (fun b => b <| ub_area := p |>);;;
  match p with None => ebdr_log;;; stop_work | Some _ => ret tt end;;;
  wr MAX_BITMAP bitmap_server_obj pid (fun b => b <| ub_size := BITMAP_SIZE |>
    <| ub_state := EBDR_UBITMAP_INIT |> <| ub_mmap := MMAP_UNUSED |> <| ub_user := KERNEL |>);;;
  ebdr_log;;;
  wr MAX_BITMAP bitmap_server_obj pid (fun b => b <| ub_ops := Some server_ops |>).

(** Copies one half of the mapping to the daemon's buffer and remembers whose
    half it was. *)
Definition take_half (ub pid user : Z) (half : ebdr_disk -> option mptr) : MW E unit :=
  modify (fun w => w <| ioctl_obj ::= fun o => o <| io_bmap_user := user |> |>);;;
  wr MAX_BITMAP bitmap_server_obj ub (fun b => b <| ub_user := user |>);;;
  b <- rd MAX_BITMAP bitmap_server_obj ub;;
  d <- rd MAX_DISKS ebdr_disk_src_obj pid;;
  '(soff, src) <- map_bytes (half d);;
  dest <- block (ub_area b);;
  dest' <- of_option (ebdr_copy_mmaped_bitmap (ub_size b) soff src dest);;
  set_block (ub_area b) dest';;;
  ebdr_log.

Definition server_bitmap_load_from_memory (ub pid : Z) : MW E Z :=
  modify (fun w => w <| ioctl_obj ::= fun o => o <| io_index := pid + 1 |> |>);;;
  user <- prepare_and_send_ioctl_cmd EBDRCTL_GET_USER;;
  when (user <? 0) stop_work;;;
  d <- rd MAX_DISKS ebdr_disk_src_obj pid;;
  wr MAX_BITMAP bitmap_server_obj ub (fun b => b <| ub_size := dsk_bitmap_size d |>);;;
  _ <- deref_map (dsk_active d);;
  _ <- deref_map (dsk_backup d);;
  ebdr_log;;;
  rec <- rd MAX_PID recovery_mode pid;;
  c <- rd (MAX_CONN + 2) ebdr_conn_server pid;;
  (if (rec =? 0) && negb (cn_state c =? CONN_OBJ_RESUME) then
     (if user =? KERNEL then take_half ub pid USER dsk_active else take_half ub pid KERNEL dsk_backup);;;
     ebdr_log;;;
     ret_ <- prepare_and_send_ioctl_cmd EBDR_FLIP_BITMAP_AREA;;
     when (ret_ <? 0) stop_work;;;
     ebdr_log
   else
     wr (MAX_CONN + 2) ebdr_conn_server pid (fun c => c <| cn_state := CONN_OBJ_IN_USE |>);;;
     v <- deref_map (dsk_active d);;
     (if negb (v =? 0) then take_half ub pid USER dsk_active else take_half ub pid KERNEL dsk_backup));;;
  b <- rd MAX_BITMAP bitmap_server_obj ub;;
  m <- block (ub_area b);;
  _ <- of_option (load 8 m 0);;
  ebdr_log;;;
  ret 0.

(** The call goes through [ubitmap_obj->ops], whose [load_bitmap_from_memory]
    and [get_total_bits_set] only the server's table has. *)
Definition bitmap_server_setup (ub pid : Z) : MW E Z :=
  ebdr_log;;;
  b <- rd MAX_BITMAP bitmap_server_obj ub;;
  ret_ <- (match ub_ops b with
           | Some server_ops => server_bitmap_load_from_memory ub pid
           | _ => undefined
           end);;
  when (ret_ <? 0) (ebdr_log;;; stop_work);;;
  b <- rd MAX_BITMAP bitmap_server_obj ub;;
  m <- block (ub_area b);;
  n <- of_option (get_total_bits_set m);;
  wr MAX_BITMAP bitmap_server_obj ub (fun b => b <| ub_total := n |>);;;
  ebdr_log;;;
  wr MAX_BITMAP bitmap_server_obj ub (fun b => b <| ub_state := EBDR_UBITMAP_READY |>);;;
  ret 0.

Definition clear_half (p : option mptr) (nbytes : Z) : MW E unit :=
  p <- of_option p;;
  e <- get ext;;
  m' <- of_option (ebdr_clear_active_bitmap nbytes (mp_off p) (os_map_read (mp_area p) e));;
  sys_ (os_map_write (mp_area p) m').

Definition bitmap_server_destroy (ub pid : Z) : MW E unit :=
  ebdr_log;;;
  b <- rd MAX_BITMAP bitmap_server_obj ub;;
  free (ub_area b);;;
  d <- rd MAX_DISKS ebdr_disk_src_obj pid;;
  clear_half (if ub_user b =? USER then dsk_active d else dsk_backup d) (dsk_bitmap_size d);;;
  ebdr_log.

(** *** The client *)
Definition bitmap_client_create (pid : Z) : MW E unit :=
  p <- malloc BITMAP_SIZE (replicate (Z.to_nat BITMAP_SIZE) 0);;
  wr MAX_BITMAP bitmap_client_obj pid (fun b => b <| ub_area := p |>);;;
  match p with None => ebdr_log;;; stop_work | Some _ => ret tt end;;;
  wr MAX_BITMAP bitmap_client_obj pid (fun b => b <| ub_size := BITMAP_SIZE |>
    <| ub_state := EBDR_UBITMAP_INIT |> <| ub_ops := Some client_ops |>).

Definition bitmap_client_setup (pid : Z) : MW E Z :=
  wr MAX_BITMAP bitmap_client_obj pid (fun b => b <| ub_obj_state := BITMAP_OBJ_IN_USE |>);;;
  ebdr_log;;;
  ret 0.

Definition bitmap_file (pid : Z) : string := "/tmp/bitmap" +:+ dec pid.

(** [fread] of one item of [bitmap_size] bytes fills the buffer with what the
    file has. *)
Definition load_bitmap_from_disk (ub pid : Z) : MW E Z :=
  file_name <- cstring 128 (bitmap_file pid);;
  e <- get ext;;
  match os_load_file file_name e with
  | None => ebdr_log;;; stop_work
  | Some bytes =>
      b <- rd MAX_BITMAP bitmap_client_obj ub;;
      m <- block (ub_area b);;
      let got := take (Z.to_nat (ub_size b)) bytes in
      assert_def (Z.of_nat (length got) <=? Z.of_nat (length m));;;
      set_block (ub_area b) (got ++ drop (length got) m);;;
      m' <- block (ub_area b);;
      _ <- of_option (load 8 m' 0);;
      ret 1
  end.

Definition store_bitmap_to_disk (ub pid : Z) : MW E Z :=
  file_name <- cstring 128 (bitmap_file pid);;
  b <- rd MAX_BITMAP bitmap_client_obj ub;;
  m <- block (ub_area b);;
  assert_def (ub_size b <=? Z.of_nat (length m));;;
  e <- get ext;;
  match os_store_file file_name (take (Z.to_nat (ub_size b)) m) e with
  | None => ebdr_log;;; stop_work
  | Some e' => put ext e';;; ret 0
  end.

Definition bitmap_client_destroy (ub : Z) : MW E unit :=
  ebdr_log;;;
  b <- rd MAX_BITMAP bitmap_client_obj ub;;
  free (ub_area b).

(** *** atdr_bitmap_user.c *)
Inductive role_t := LOCAL | REMOTE.

Definition ebdr_user_bitmap_init (role : role_t) (pid : Z) : MW E unit :=
  match role with
  | LOCAL => bitmap_server_create pid
  | REMOTE => bitmap_client_create pid
  end.
End ubitmap.
