(* ===== verification/Db.v ===== *)
(** * atdr_db.c: the database

    The SQL text of every statement, built in a fixed [char] buffer, sent under
    [db_lock]; and the loops that read objects back, row [i] of the result into
    element [i] of the array. *)
From S2P Require Import Prelude Memory KernelState CMonad CString World.

Section db.
Context {E : Type} `{OS E}.

(** Releases the lock, then [stop_work]. *)
Definition finish_with_error {A} : MW E A := mutex_unlock;;; stop_work.

Definition mysql_query (sql : string) : MW E unit :=
  cancellation_point;;;
  r <- sys (os_query sql);;
  when (negb (r =? 0)) finish_with_error.

Definition use_db (db_name : string) : string := "use " +:+ " " +:+ db_name.

(** The shape the statements share: [char str[n]], "use <db>" and the
    statement itself, between lock and unlock. *)
Definition locked_query (n : Z) (db_name sql : string) : MW E unit :=
  str <- cstring n (use_db db_name);;
  mutex_lock;;;
  mysql_query str;;;
  str <- cstring n sql;;
  mysql_query str;;;
  mutex_unlock.

Definition sql_delete_resync (pid : Z) : string := "DELETE from resync WHERE pid = " +:+ dec pid.

Definition delete_from_resync (pid : Z) (db_name : string) : MW E unit :=
  locked_query 100 db_name (sql_delete_resync pid).

Definition sql_update_resync_state (pid state : Z) (status : string) : string :=
  sconcat ["UPDATE resync SET state = "; dec state; " , status = '"; status; "' WHERE pid = "; dec pid]%string.

Definition update_resync_state (pid state : Z) (status db_name : string) : MW E unit :=
  locked_query 100 db_name (sql_update_resync_state pid state status).

Definition sql_update_resync (pid last state : Z) : string :=
  sconcat ["UPDATE resync SET last_resynced_bit = "; dec last; " "; "WHERE pid = "; dec pid;
           " AND state = "; dec state]%string.

Definition update_into_resync (pid : Z) (target_disk : string) (last state : Z) (db_name : string) : MW E unit :=
  locked_query 100 db_name (sql_update_resync pid last state).

Definition sql_insert_resync (pid : Z) (target_disk : string) (last state : Z) (status : string) : string :=
  sconcat ["INSERT INTO resync VALUES("; dec pid; ",'"; target_disk; "',"; dec last; ","; dec state; ",' ";
           status; "')"]%string.

Definition insert_into_resync (pid : Z) (target_disk : string) (last state : Z) (status db_name : string)
    : MW E unit :=
  locked_query 100 db_name (sql_insert_resync pid target_disk last state status).

Definition sql_update_disk_state (pid state : Z) : string :=
  sconcat ["UPDATE disk SET state = "; dec state; " "; "WHERE pid = "; dec pid]%string.

Definition update_disk_state (pid state : Z) (db_name : string) : MW E unit :=
  locked_query 100 db_name (sql_update_disk_state pid state).

Definition sql_update_disk (pid : Z) (name snap_name : string) : string :=
  sconcat ["UPDATE disk SET pid = "; dec pid; ",snap_name = "; "'"; snap_name; "'"; " WHERE name = "; "'";
           name; "'"]%string.

Definition update_into_disk (pid : Z) (name snap_name db_name : string) : MW E unit :=
  locked_query 100 db_name (sql_update_disk pid name snap_name).

Definition sql_insert_disk (pid : Z) (name snap_name : string) (bitmap_size state : Z) : string :=
  sconcat ["INSERT INTO disk VALUES("; dec pid; ",'"; name; "'"; ","; "'"; snap_name; "',"; dec bitmap_size;
           ","; dec state; ")"]%string.

Definition insert_into_disk (pid : Z) (name snap_name : string) (bitmap_size state : Z) (db_name : string)
    : MW E unit :=
  locked_query 100 db_name (sql_insert_disk pid name snap_name bitmap_size state).

Definition sql_update_partner (pid obj_state : Z) : string :=
  sconcat ["UPDATE partner SET state = "; dec obj_state; " WHERE pid = "; dec pid]%string.

Definition update_into_partner (pid obj_state : Z) (db_name : string) : MW E unit :=
  locked_query 100 db_name (sql_update_partner pid obj_state).

Definition sql_insert_partner (pid state : Z) (ip : string) (bandwidth : Z) : string :=
  sconcat ["INSERT INTO partner VALUES("; dec pid; ","; dec state; ",'"; ip; "',"; dec bandwidth; ")"]%string.

Definition insert_into_partner (pid state : Z) (ip : string) (bandwidth : Z) (db_name : string) : MW E unit :=
  locked_query 200 db_name (sql_insert_partner pid state ip bandwidth).

Definition sql_update_relation_state (pid state : Z) : string :=
  sconcat ["UPDATE relation SET state = "; dec state; " "; "WHERE pid = "; dec pid]%string.

Definition update_relation_state (pid state : Z) (db_name : string) : MW E unit :=
  locked_query 100 db_name (sql_update_relation_state pid state).

Definition sql_insert_relation (role pid rid state : Z) (disk : string) (bitmap_size grain_size chunk_size : Z)
    : string :=
  sconcat ["INSERT INTO relation VALUES("; dec role; ","; dec pid; ","; dec rid; ","; dec state; ",'"; disk;
           "',"; dec bitmap_size; ","; dec grain_size; ","; dec chunk_size; ")"]%string.

Definition insert_into_relation (role pid rid state : Z) (disk : string)
    (bitmap_size grain_size chunk_size : Z) (db_name : string) : MW E unit :=
  locked_query 200 db_name (sql_insert_relation role pid rid state disk bitmap_size grain_size chunk_size).

(** ** Reading back *)

(** Column [k] of a row, read with one conversion. *)
Definition column (row : list string) (k : nat) (c : conv) : MW E (list scanned) :=
  s <- of_option (row !! k);; ret (scan [c] s).

Fixpoint fetch_rows (body : Z -> list string -> MW E unit) (i : Z) (rows : list (list string)) : MW E Z :=
  match rows with
  | [] => ret i
  | row :: rows' => body i row;;; fetch_rows body (i + 1) rows'
  end.

(** The select, without [db_lock], and its rows. *)
Definition select_rows (sql : string) : MW E (list (list string)) :=
  mysql_query sql;;; get (fun w => os_rows (ext w)).

Definition retrieve_from_resync : MW E Z :=
  rows <- select_rows "select * from resync where state != 3";;
  fetch_rows (fun i row =>
    a <- column row 1 Cs;; d <- rd MAX_DISKS ebdr_disk_target_obj i;;
    name <- cstring 64 (arg_str a 0 (dsk_name d));;
    wr MAX_DISKS ebdr_disk_target_obj i (fun d => d <| dsk_name := name |>);;;
    a <- column row 2 Clu;;
    wr MAX_REPLICATIONS replic_client_obj i (fun r => r <| rp_last_bit ::= arg_int a 0 |>);;;
    a <- column row 3 Cu;;
    wr MAX_REPLICATIONS replic_client_obj i (fun r => r <| rp_state ::= arg_int a 0 |>)) 0 rows.

Definition retrieve_from_disk (disks : world E -> gmap Z ebdr_disk) `{!Setter disks} : MW E Z :=
  rows <- select_rows "select * from disk where state != 4";;
  fetch_rows (fun i row =>
    d <- rd MAX_DISKS disks i;;
    a <- column row 1 Cs;; name <- cstring 64 (arg_str a 0 (dsk_name d));;
    wr MAX_DISKS disks i (fun d => d <| dsk_name := name |>);;;
    a <- column row 2 Cs;; snap <- cstring 64 (arg_str a 0 (dsk_snap d));;
    wr MAX_DISKS disks i (fun d => d <| dsk_snap := snap |>);;;
    a <- column row 3 Clu;;
    wr MAX_DISKS disks i (fun d => d <| dsk_bitmap_size ::= arg_int a 0 |>);;;
    a <- column row 4 Cu;;
    wr MAX_DISKS disks i (fun d => d <| dsk_state ::= arg_int a 0 |>)) 0 rows.

Definition retrieve_from_partner (partners : world E -> gmap Z partner_t) `{!Setter partners} : MW E Z :=
  rows <- select_rows "select * from partner where state != 2";;
  fetch_rows (fun i row =>
    a <- column row 0 Cd;;
    wr MAX_PARTNERS partners i (fun p => p <| ptn_id ::= arg_int a 0 |>);;;
    a <- column row 1 Cu;;
    wr MAX_PARTNERS partners i (fun p => p <| ptn_state ::= arg_int a 0 |>);;;
    a <- column row 2 Cs;; p <- rd MAX_PARTNERS partners i;; ip <- cstring 64 (arg_str a 0 (ptn_ip p));;
    wr MAX_PARTNERS partners i (fun p => p <| ptn_ip := ip |>);;;
    a <- column row 3 Clu;;
    wr MAX_PARTNERS partners i (fun p => p <| ptn_bandwidth ::= arg_int a 0 |>)) 0 rows.

Definition retrieve_from_relation (relations : world E -> gmap Z relation_t) `{!Setter relations} : MW E Z :=
  rows <- select_rows "select * from relation where state != 2";;
  fetch_rows (fun i row =>
    a <- column row 0 Cu;; wr MAX_RELATIONS relations i (fun r => r <| rel_role ::= arg_int a 0 |>);;;
    a <- column row 1 Cd;; wr MAX_RELATIONS relations i (fun r => r <| rel_partner ::= arg_int a 0 |>);;;
    a <- column row 2 Cd;; wr MAX_RELATIONS relations i (fun r => r <| rel_id ::= arg_int a 0 |>);;;
    a <- column row 3 Cu;; wr MAX_RELATIONS relations i (fun r => r <| rel_state ::= arg_int a 0 |>);;;
    a <- column row 4 Cs;; r <- rd MAX_RELATIONS relations i;;
    device <- cstring 64 (arg_str a 0 (rel_device r));;
    wr MAX_RELATIONS relations i (fun r => r <| rel_device := device |>);;;
    a <- column row 5 Clu;; wr MAX_RELATIONS relations i (fun r => r <| rel_bitmap ::= arg_int a 0 |>);;;
    a <- column row 6 Clu;; wr MAX_RELATIONS relations i (fun r => r <| rel_grain ::= arg_int a 0 |>);;;
    a <- column row 7 Clu;; wr MAX_RELATIONS relations i (fun r => r <| rel_chunk ::= arg_int a 0 |>)) 0 rows.
End db.
