(* ===== verification/Config.v ===== *)
(** * atdr_db.c: the configuration file of the database

    Lines of [key : value] read with [fgets] into 80 bytes and split by
    [strtok]; the three known keys fill buffers of 10 bytes. *)
From S2P Require Import Prelude Memory KernelState CMonad CString World Db.
From Stdlib Require Import Ascii.

(** [fgets(line, 80, fp)]: up to 79 characters, a newline included. *)
Fixpoint fgets (n : nat) (s : string) : string * string :=
  match n, s with
  | S n', String c s' =>
      if Ascii.eqb c "010" then (String c EmptyString, s')
      else let '(a, b) := fgets n' s' in (String c a, b)
  | _, _ => (EmptyString, s)
  end.

Fixpoint fgets_lines (fuel : nat) (s : string) : list string :=
  match fuel, s with
  | S fuel', String _ _ => let '(line, rest) := fgets 79 s in line :: fgets_lines fuel' rest
  | _, _ => []
  end.

(** [strtok(.., " :\n")] *)
Definition is_delim (c : ascii) : bool := Ascii.eqb c " " || Ascii.eqb c ":" || Ascii.eqb c "010".

Fixpoint skip_delims (s : string) : string :=
  match s with
  | String c s' => if is_delim c then skip_delims s' else s
  | EmptyString => EmptyString
  end.

Fixpoint strtok_all (fuel : nat) (s : string) : list string :=
  match fuel with
  | O => []
  | S fuel' =>
      let '(tok, rest) := span (fun c => negb (is_delim c)) (skip_delims s) in
      match tok with
      | EmptyString => []
      | _ => tok :: strtok_all fuel' rest
      end
  end.

Definition tokens_of (line : string) : list string := strtok_all (S (String.length line)) line.

Section config.
Context {E : Type} `{OS E}.

(** [strcpy] of a null [var] is undefined, if the key is one of the three. *)
Definition keyVar (key : string) (var : option string) : MW E unit :=
  let set_ (f : string -> world E -> world E) : MW E unit :=
    v <- of_option var;; v <- cstring 10 v;; modify (f v) in
  when (String.eqb "username" key) (set_ (fun v w => w <| db_user := v |>));;;
  when (String.eqb "password" key) (set_ (fun v w => w <| db_pswrd := v |>));;;
  when (String.eqb "host" key) (set_ (fun v w => w <| db_host := v |>)).

(** [tokens] has 20 elements, the last one for the null that ends the line. *)
Definition config_line (line : string) : MW E unit :=
  when (1 <? slen line)
    (let tokens := tokens_of line in
     assert_def (Z.of_nat (length tokens) <? 20);;;
     match tokens with
     | [] => undefined
     | key :: rest => keyVar key (rest !! 0%nat)
     end).

Fixpoint config_lines (lines : list string) : MW E unit :=
  match lines with
  | [] => ret tt
  | l :: ls => config_line l;;; config_lines ls
  end.

(** Opening the file fails: exit(0). *)
Definition readConfig : MW E Z :=
  e <- get ext;;
  match os_load_file "/root/ebdr_db.conf" e with
  | None => ebdr_log;;; stop Exited
  | Some bytes =>
      let text := bytes_string bytes in
      config_lines (fgets_lines (S (String.length text)) text);;;
      ebdr_log;;;
      ret 0
  end.
End config.
