(* ===== verification/Partner.v ===== *)
(** * atdr_partner.c, atdr_partner_server.c, atdr_partner_client.c

    Partnerships: allocation of ids, creation, validation, removal. *)
From S2P Require Import Prelude Memory KernelState CMonad CString World Db.

(** The first index below [n] that satisfies a test, or -1. *)
Definition first_index (n : Z) (test : Z -> bool) : Z := default (-1) (List.find test (zseq 0 n)).

Inductive partner_mode_t := PARTNER_SERVER | PARTNER_CLIENT.

Section partner.
Context {E : Type} `{OS E}.

(** ** Server *)
Definition partner_server_obj_create (i : Z) : MW E unit :=
  n <- get ps_count;;
  if n <? MAX_PARTNERS then
    wr MAX_PARTNERS all_partner_servers i (fun p => p <| ptn_status := ACTIVE |> <| ptn_bandwidth := 100 |>)
  else ebdr_log;;; stop_work.

Definition get_new_partner_server_id (w : world E) : Z :=
  first_index MAX_PARTNERS (fun i => negb (ptn_state (aget (all_partner_servers w) i) =? PARTNER_OBJ_IN_USE)).

Definition get_partner_server_by_id (id : Z) (w : world E) : Z :=
  first_index MAX_PARTNERS (fun i => ptn_id (aget (all_partner_servers w) i) =? id).

Definition is_server_partner_id_valid (pid : Z) (w : world E) : bool :=
  existsb (fun i => ptn_id (aget (all_partner_servers w) i) =? pid) (zseq 0 MAX_PARTNERS).

(** The rows printed: id, ip, bandwidth, socket. *)
Definition partner_row (p : partner_t) : Z * string * Z * Z := (ptn_id p, ptn_ip p, ptn_bandwidth p, ptn_fd p).

Definition server_list_partners (w : world E) : list (Z * string * Z * Z) :=
  map partner_row (filter (fun p => ptn_state p = PARTNER_OBJ_IN_USE \/ ptn_state p = PARTNER_OBJ_RELEASED)
    (map (aget (all_partner_servers w)) (zseq 0 (ps_count w)))).

Definition make_partner_server (ip : string) (bandwidth sfd pid : Z) : MW E Z :=
  wr MAX_PARTNERS all_partner_servers pid (fun p => p <| ptn_id := pid |> <| ptn_state := PARTNER_OBJ_IN_USE |>);;;
  ip <- cstring 64 ip;;
  wr MAX_PARTNERS all_partner_servers pid
    (fun p => p <| ptn_ip := ip |> <| ptn_bandwidth := bandwidth |> <| ptn_fd := sfd |>);;;
  insert_into_partner pid PARTNER_OBJ_IN_USE ip bandwidth "ebdrdbs";;;
  modify (fun w => w <| ps_count ::= Z.succ |>);;;
  ebdr_log;;;
  ret pid.

Definition mkpartner_from_db_on_server : MW E Z := retrieve_from_partner all_partner_servers.

Definition partner_server_obj_destroy (pid : Z) : MW E unit :=
  ebdr_log;;;
  p <- rd MAX_PARTNERS all_partner_servers pid;;
  _ <- sys (os_close (ptn_fd p));;
  wr MAX_PARTNERS all_partner_servers pid (fun _ => zeroed);;;
  wr MAX_PARTNERS all_partner_servers pid (fun p => p <| ptn_state := PARTNER_OBJ_RELEASED |>).

(** ** Client *)
Definition partner_client_obj_create (i : Z) : MW E unit :=
  n <- get pc_count;;
  if n <? MAX_PARTNERS then wr MAX_PARTNERS all_partner_clients i (fun p => p <| ptn_status := ACTIVE |>)
  else ebdr_log;;; stop_work.

Definition get_new_partner_client_id (w : world E) : Z :=
  first_index MAX_PARTNERS (fun i =>
    let st := ptn_state (aget (all_partner_clients w) i) in
    negb (st =? PARTNER_OBJ_IN_USE) && negb (st =? PARTNER_OBJ_IN_USE) && negb (st =? PARTNER_OBJ_RELEASED)).

Definition get_partner_client_by_id (id : Z) (w : world E) : Z :=
  first_index MAX_PARTNERS (fun i => ptn_id (aget (all_partner_clients w) i) =? id).

Definition client_list_partners (w : world E) : list (Z * string * Z * Z) :=
  map partner_row (filter (fun p => ptn_state p = PARTNER_OBJ_IN_USE)
    (map (aget (all_partner_clients w)) (zseq 0 (pc_count w)))).

Definition is_client_partner_id_valid (pid : Z) (w : world E) : bool :=
  existsb (fun i => ptn_id (aget (all_partner_clients w) i) =? pid) (zseq 0 MAX_PARTNERS).

Definition make_partner_client (ip : string) (bandwidth sfd pid : Z) : MW E Z :=
  wr MAX_PARTNERS all_partner_clients pid (fun p => p <| ptn_id := pid |> <| ptn_state := PARTNER_OBJ_IN_USE |>);;;
  ip <- cstring 64 ip;;
  wr MAX_PARTNERS all_partner_clients pid
    (fun p => p <| ptn_ip := ip |> <| ptn_bandwidth := bandwidth |> <| ptn_fd := sfd |>);;;
  modify (fun w => w <| pc_count ::= Z.succ |>);;;
  insert_into_partner pid PARTNER_OBJ_IN_USE ip bandwidth "ebdrdbc";;;
  ebdr_log;;;
  ret pid.

Definition mkpartner_from_db_on_client : MW E Z := retrieve_from_partner all_partner_clients.

Definition partner_client_obj_destroy (pid : Z) : MW E unit :=
  modify (fun w => w <| pc_count ::= Z.pred |>);;;
  ebdr_log;;;
  p <- rd MAX_PARTNERS all_partner_clients pid;;
  _ <- sys (os_close (ptn_fd p));;
  wr MAX_PARTNERS all_partner_clients pid (fun _ => zeroed);;;
  wr MAX_PARTNERS all_partner_clients pid (fun p => p <| ptn_state := PARTNER_OBJ_RELEASED |>).

(** ** atdr_partner.c and the calls through [ops] *)
Definition ebdr_partner_init (mode : partner_mode_t) (i : Z) : MW E unit :=
  match mode with
  | PARTNER_SERVER =>
      wr MAX_PARTNERS all_partner_servers i (fun p => p <| ptn_ops := Some server_ops |>);;;
      partner_server_obj_create i
  | PARTNER_CLIENT =>
      wr MAX_PARTNERS all_partner_clients i (fun p => p <| ptn_ops := Some client_ops |>);;;
      partner_client_obj_create i
  end.

Definition op_make_partner (o : option ops) (ip : string) (bandwidth sfd pid : Z) : MW E Z :=
  match o with
  | Some server_ops => make_partner_server ip bandwidth sfd pid
  | Some client_ops => make_partner_client ip bandwidth sfd pid
  | None => undefined
  end.

Definition op_partner_destroy (o : option ops) (pid : Z) : MW E unit :=
  match o with
  | Some server_ops => partner_server_obj_destroy pid
  | Some client_ops => partner_client_obj_destroy pid
  | None => undefined
  end.
End partner.
