(* ===== verification/Relation.v ===== *)
(** * atdr_relation.c, atdr_relation_server.c, atdr_relation_client.c

    Relations between a source and a target disk; the relation of a partner has
    the partner's id. *)
From S2P Require Import Prelude Memory KernelState CMonad CString World Db Partner.

Inductive relation_mode_t := EBDR_RELATION_SERVER | EBDR_RELATION_CLIENT.

Section relation.
Context {E : Type} `{OS E}.

(** ** Server *)
Definition relation_server_obj_create (rid : Z) : MW E unit :=
  if rid <? MAX_RELATIONS then ebdr_log else ebdr_log;;; stop_work.

Definition get_new_relation_server_id (w : world E) : Z :=
  first_index MAX_RELATIONS (fun i => negb (rel_state (aget (all_relation_servers w) i) =? RELATION_OBJ_IN_USE)).

Definition make_relation_server (role pid : Z) (disk : string) : MW E Z :=
  wr MAX_RELATIONS all_relation_servers pid (fun r => r <| rel_role := role |> <| rel_partner := pid |>
    <| rel_id := pid |> <| rel_state := RELATION_OBJ_IN_USE |>);;;
  device <- cstring 64 disk;;
  h <- rd MAX_HDR replic_hdr_server_obj pid;;
  wr MAX_RELATIONS all_relation_servers pid (fun r => r <| rel_device := device |>
    <| rel_bitmap := hd_bitmap h |> <| rel_grain := hd_grain h |>);;;
  ret pid.

(** The rows printed: role, relation id, partner id, device. *)
Definition relation_row (r : relation_t) : string * Z * Z * string :=
  (if rel_role r =? 0 then "PRIMARY"%string else "SECONDARY"%string, rel_id r, rel_partner r, rel_device r).

Definition server_list_relations (w : world E) : list (string * Z * Z * string) :=
  map relation_row (filter (fun r => rel_state r = RELATION_OBJ_IN_USE)
    (map (aget (all_relation_servers w)) (zseq 0 (ps_count w)))).

Definition mkrelation_from_db_on_server : MW E Z := retrieve_from_relation all_relation_servers.

Definition relation_server_obj_destroy (rid : Z) : MW E unit :=
  ebdr_log;;;
  wr MAX_RELATIONS all_relation_servers rid (fun r => r <| rel_state := RELATION_OBJ_RELEASED |>).

(** ** Client *)
Definition relation_client_obj_create (rid : Z) : MW E unit :=
  when (MAX_RELATIONS <? rid) (ebdr_log;;; stop_work).

Definition get_new_relation_client_id (w : world E) : Z :=
  first_index MAX_RELATIONS (fun i => negb (rel_state (aget (all_relation_clients w) i) =? RELATION_OBJ_IN_USE)).

Definition make_relation_client (role pid : Z) (target_disk : string) : MW E Z :=
  wr MAX_RELATIONS all_relation_clients pid (fun r => r <| rel_role := role |> <| rel_partner := pid |>
    <| rel_id := pid |> <| rel_state := RELATION_OBJ_IN_USE |>);;;
  device <- cstring 64 target_disk;;
  h <- rd MAX_HDR replic_hdr_client_obj pid;;
  wr MAX_RELATIONS all_relation_clients pid (fun r => r <| rel_device := device |>
    <| rel_bitmap := hd_bitmap h |> <| rel_grain := hd_grain h |>);;;
  ret pid.

Definition client_list_relations (w : world E) : list (string * Z * Z * string) :=
  map relation_row (filter (fun r => rel_state r = RELATION_OBJ_IN_USE)
    (map (aget (all_relation_clients w)) (zseq 0 (pc_count w)))).

Definition mkrelation_from_db_on_client : MW E Z := retrieve_from_relation all_relation_clients.

Definition relation_client_obj_destroy (rid : Z) : MW E unit :=
  ebdr_log;;;
  wr MAX_RELATIONS all_relation_clients rid (fun r => r <| rel_state := RELATION_OBJ_RELEASED |>).

(** ** atdr_relation.c and the calls through [ops] *)
Definition ebdr_relation_init (mode : relation_mode_t) (i pid : Z) : MW E unit :=
  match mode with
  | EBDR_RELATION_SERVER =>
      wr MAX_RELATIONS all_relation_servers i (fun r => r <| rel_ops := Some server_ops |>);;;
      relation_server_obj_create pid
  | EBDR_RELATION_CLIENT =>
      wr MAX_RELATIONS all_relation_clients i (fun r => r <| rel_ops := Some client_ops |>);;;
      relation_client_obj_create pid
  end.

Definition op_make_relation (o : option ops) (role id : Z) (disk : string) : MW E Z :=
  match o with
  | Some server_ops => make_relation_server role id disk
  | Some client_ops => make_relation_client role id disk
  | None => undefined
  end.

Definition op_relation_destroy (o : option ops) (rid : Z) : MW E unit :=
  match o with
  | Some server_ops => relation_server_obj_destroy rid
  | Some client_ops => relation_client_obj_destroy rid
  | None => undefined
  end.
End relation.
