(* ===== verification/Disk.v ===== *)
(** * atdr_disk.c, atdr_disk_source.c, atdr_disk_target.c

    Source and target disks of the daemon: creation (with the mapping of the
    kernel's bitmap area for a source), opening, closing. *)
From S2P Require Import Prelude Memory KernelState CMonad CString World Db.

Inductive disk_role_t := PRIMARY | SECONDARY.

Definition memctl_name (n : Z) : string := "/dev/ebdr_memctrl" +:+ dec n.

Section disk.
Context {E : Type} `{OS E}.

(** ** Source *)

(** The two local arrays have five elements. *)
Definition disk_source_mmap (server_pid : Z) : MW E Z :=
  assert_def (inb 5 server_pid);;;
  name <- cstring 64 (memctl_name (server_pid + 1));;
  fd <- sys (os_open name [O_RDWR]);;
  when (fd <? 0) (ebdr_log;;; stop_work);;;
  ebdr_log;;;
  d <- rd MAX_DISKS ebdr_disk_src_obj server_pid;;
  area <- sys (os_mmap fd (u64 (2 * dsk_bitmap_size d)));;
  match area with
  | None => ebdr_log;;; stop_work
  | Some a =>
      wr MAX_DISKS ebdr_disk_src_obj server_pid (fun d => d <| dsk_active := Some (mk_mptr a 0) |>
        <| dsk_backup := Some (mk_mptr a (dsk_bitmap_size d)) |>);;;
      ebdr_log;;;
      ret 0
  end.

Definition disk_source_create (name : string) (i : Z) : MW E unit :=
  server_pid <- get ds_count;;
  if server_pid <? MAX_DISKS then
    wr MAX_DISKS ebdr_disk_src_obj i (fun d => d <| dsk_state := DISK_OBJ_IN_USE |> <| dsk_name := name |>);;;
    ebdr_log;;;
    rec <- rd MAX_PID recovery_mode server_pid;;
    when (negb (rec =? 1))
      (obj <- get ioctl_obj;;
       wr MAX_DISKS ebdr_disk_src_obj i (fun d => d <| dsk_bitmap_size := u_bitmap_size obj |>);;;
       d <- rd MAX_DISKS ebdr_disk_src_obj i;;
       insert_into_disk server_pid (dsk_name d) "-" (dsk_bitmap_size d) (dsk_state d) "ebdrdbs");;;
    wr MAX_DISKS ebdr_disk_src_obj i (fun d => d <| dsk_ops := Some server_ops |>);;;
    _ <- disk_source_mmap server_pid;;
    modify (fun w => w <| ds_count ::= Z.succ |>);;;
    ebdr_log
  else ebdr_log.

Definition disk_source_setup (i : Z) : MW E Z :=
  ebdr_log;;;
  d <- rd MAX_DISKS ebdr_disk_src_obj i;;
  fd <- sys (os_open (dsk_snap d) [O_RDWR]);;
  if fd <? 0 then ret (-1)
  else wr MAX_DISKS ebdr_disk_src_obj i (fun d => d <| dsk_fd := fd |>);;; ebdr_log;;; ret fd.

Definition mkdisk_from_db_on_server : MW E Z := retrieve_from_disk ebdr_disk_src_obj.

Definition disk_source_destroy (i : Z) : MW E unit :=
  wr MAX_DISKS ebdr_disk_src_obj i (fun d => d <| dsk_state := DISK_OBJ_RELEASED |>).

Definition disk_source_unsetup (i : Z) : MW E unit :=
  ebdr_log;;;
  d <- rd MAX_DISKS ebdr_disk_src_obj i;;
  _ <- sys (os_close (dsk_fd d));;
  ret tt.

(** ** Target *)
Definition disk_target_create (name : string) (i : Z) : MW E unit :=
  client_pid <- get dt_count;;
  if client_pid <? MAX_DISKS then
    wr MAX_DISKS ebdr_disk_target_obj i (fun d => d <| dsk_state := DISK_OBJ_IN_USE |> <| dsk_name := name |>);;;
    ebdr_log;;;
    rec <- rd MAX_PID recovery_mode client_pid;;
    when (negb (rec =? 1))
      (r <- rd MAX_RELATIONS all_relation_clients client_pid;;
       wr MAX_DISKS ebdr_disk_target_obj i (fun d => d <| dsk_bitmap_size := rel_bitmap r |>);;;
       d <- rd MAX_DISKS ebdr_disk_target_obj i;;
       insert_into_disk client_pid (dsk_name d) "-" (dsk_bitmap_size d) (dsk_state d) "ebdrdbc");;;
    wr MAX_DISKS ebdr_disk_target_obj i (fun d => d <| dsk_ops := Some client_ops |>)
  else ebdr_log.

Definition disk_target_setup (i : Z) : MW E Z :=
  d <- rd MAX_DISKS ebdr_disk_target_obj i;;
  fd <- sys (os_open (dsk_name d) [O_RDWR; O_CREAT; O_TRUNC]);;
  if fd <? 0 then ebdr_log;;; ret (-1)
  else wr MAX_DISKS ebdr_disk_target_obj i (fun d => d <| dsk_fd := fd |>);;; ebdr_log;;;
       modify (fun w => w <| dt_count ::= Z.succ |>);;; ebdr_log;;; ret fd.

Definition disk_target_destroy (i : Z) : MW E unit :=
  ebdr_log;;; wr MAX_DISKS ebdr_disk_target_obj i (fun d => d <| dsk_state := DISK_OBJ_RELEASED |>).

Definition mkdisk_from_db_on_client : MW E Z := retrieve_from_disk ebdr_disk_target_obj.

Definition disk_target_unsetup (i : Z) : MW E unit :=
  ebdr_log;;;
  d <- rd MAX_DISKS ebdr_disk_target_obj i;;
  _ <- sys (os_close (dsk_fd d));;
  ret tt.

(** ** atdr_disk.c: element [i] of the array of the role's side *)
Definition ebdr_disk_init (role : disk_role_t) (name : string) (i : Z) : MW E Z :=
  match role with
  | PRIMARY =>
      wr MAX_DISKS ebdr_disk_src_obj i (fun d => d <| dsk_ops := Some server_ops |>);;;
      disk_source_create name i
  | SECONDARY =>
      wr MAX_DISKS ebdr_disk_target_obj i (fun d => d <| dsk_ops := Some client_ops |>);;;
      disk_target_create name i
  end;;;
  ret 0.

(** Calls through the [ops] of a source object and of a target object. *)
Definition op_src_setup (o : option ops) (i : Z) : MW E Z :=
  match o with Some server_ops => disk_source_setup i | _ => undefined end.
Definition op_src_unsetup (o : option ops) (i : Z) : MW E unit :=
  match o with Some server_ops => disk_source_unsetup i | _ => undefined end.
Definition op_target_setup (o : option ops) (i : Z) : MW E Z :=
  match o with Some client_ops => disk_target_setup i | _ => undefined end.
End disk.
