(* ===== verification/Header.v ===== *)
(** * Protocol headers, replication objects, connection objects, I/O engines

    atdr_replication_header.c, atdr_replic_header_{server,client}.c,
    atdr_replication.c, atdr_replication_{server,client}.c, atdr_conn.c,
    atdr_io_engine.c, atdr_io_engine_{server,client}.c. *)
From S2P Require Import Prelude Memory KernelState CMonad CString World Db.

Definition ETIMEDOUT : Z := 110.

Inductive rep_role_t := REP_LOCAL | REP_REMOTE.
Inductive owner_t := IO_SERVER | IO_CLIENT.
Inductive conn_mode_t := CONN_SERVER | CONN_CLIENT.

Definition get_minimum (server_var client_var : Z) : Z :=
  if server_var <? client_var then server_var else client_var.

Section header.
Context {E : Type} `{OS E}.

(** ** Protocol headers *)
Definition replic_hdr_server_create (role pid : Z) : MW E unit :=
  if pid <? MAX_HDR then
    wr MAX_HDR replic_hdr_server_obj pid (fun h => h <| hd_state := REP_HDR_OBJ_IN_USE |> <| hd_role := role |>
      <| hd_ops := Some server_ops |>)
  else ebdr_log;;; stop_work.

Definition replic_hdr_server_setup (bitmap_size grain_size chunk_size pid : Z) : MW E unit :=
  ebdr_log;;;
  wr MAX_HDR replic_hdr_server_obj pid (fun h => h <| hd_bitmap := bitmap_size |> <| hd_grain := grain_size |>
    <| hd_chunk := chunk_size |> <| hd_partner := pid |>);;;
  ebdr_log.

(** The negotiated header: the server's sizes, whatever the client asked. *)
Definition replic_hdr_server_nego (hdr : replic_header) (server_pid : Z) : MW E replic_header :=
  s <- rd MAX_HDR replic_hdr_server_obj server_pid;;
  ret (hdr <| hd_bitmap := hd_bitmap s |> <| hd_grain := hd_grain s |> <| hd_chunk := hd_chunk s |>).

Definition replic_hdr_server_destroy (i : Z) : MW E unit :=
  wr MAX_HDR replic_hdr_server_obj i (fun h => h <| hd_state := REP_HDR_OBJ_RELEASED |>).

Definition replic_hdr_client_create (role pid : Z) : MW E unit :=
  if pid <? MAX_HDR then
    wr MAX_HDR replic_hdr_client_obj pid (fun h => h <| hd_state := REP_HDR_OBJ_IN_USE |> <| hd_role := role |>
      <| hd_ops := Some client_ops |>)
  else ebdr_log;;; stop_work.

Definition replic_hdr_client_nego (hdr : replic_header) (client_pid : Z) : MW E unit :=
  wr MAX_HDR replic_hdr_client_obj client_pid (fun h => h <| hd_bitmap := hd_bitmap hdr |>
    <| hd_grain := hd_grain hdr |> <| hd_chunk := hd_chunk hdr |>);;;
  ebdr_log.

Definition replic_hdr_client_destroy (i : Z) : MW E unit :=
  ebdr_log;;; wr MAX_HDR replic_hdr_client_obj i (fun h => h <| hd_state := REP_HDR_OBJ_RELEASED |>).

Definition replication_header_init (role pid : Z) : MW E unit :=
  if role =? REP_HDR_SERVER then replic_hdr_server_create role pid else replic_hdr_client_create role pid.

(** ** Replication objects *)
Definition replic_server_obj_create (pid : Z) : MW E unit :=
  wr MAX_REPLICATIONS replic_server_obj pid (fun r => r <| rp_ops := Some server_ops |>).

Definition replic_server_obj_setup (pid : Z) : MW E unit :=
  replication_header_init REP_HDR_SERVER pid;;;
  n <- get ds_count;;
  wr MAX_REPLICATIONS replic_server_obj pid (fun r => r <| rp_conn := Some (PServer pid) |>
    <| rp_hdr := Some (PServer pid) |> <| rp_disk := Some (PServer n) |>).

Definition replic_client_obj_create (pid : Z) : MW E unit :=
  ebdr_log;;; wr MAX_REPLICATIONS replic_client_obj pid (fun r => r <| rp_ops := Some client_ops |>).

Definition replic_client_obj_setup (pid : Z) : MW E unit :=
  replication_header_init REP_HDR_CLIENT pid;;;
  wr MAX_REPLICATIONS replic_client_obj pid (fun r => r <| rp_conn := Some (PClient pid) |>
    <| rp_hdr := Some (PClient pid) |>).

Definition mkresync_from_db_on_client : MW E Z := retrieve_from_resync.

Definition replication_init (role : rep_role_t) (pid : Z) : MW E Z :=
  match role with
  | REP_LOCAL => replic_server_obj_create pid
  | REP_REMOTE => replic_client_obj_create pid
  end;;;
  ret 0.

(** ** atdr_conn.c

    [ebdr_conn_server] is declared with MAX_CONN+1 elements; the code keeps the
    listening connection in element MAX_CONN+1, one past its end.  The model
    gives that element a place of its own. *)
Definition ebdr_conn_server_init (pid : Z) : MW E unit :=
  wr (MAX_CONN + 2) ebdr_conn_server pid (fun c => c <| cn_ops := Some server_ops |>).

Definition ebdr_conn_client_init (pid : Z) : MW E unit :=
  wr MAX_CONN ebdr_conn_client pid (fun c => c <| cn_ops := Some client_ops |>).

Definition ebdr_connection_init (mode : conn_mode_t) (pid : Z) : MW E unit :=
  match mode with
  | CONN_SERVER => ebdr_conn_server_init pid
  | CONN_CLIENT => ebdr_conn_client_init pid
  end.

(** ** I/O engines *)
Definition io_server_obj_create (pid : Z) : MW E unit :=
  if pid <? MAX_IO then
    wr MAX_IO io_server_obj pid (fun o => o <| io_state := IO_OBJ_IN_USE |> <| io_ops := Some server_ops |>);;;
    ebdr_log
  else ebdr_log;;; stop_work.

Definition io_client_obj_create (pid : Z) : MW E unit :=
  if pid <? MAX_IO then
    wr MAX_IO io_client_obj pid (fun o => o <| io_state := IO_OBJ_IN_USE |> <| io_ops := Some client_ops |>);;;
    ebdr_log
  else ebdr_log;;; stop_work.

Definition io_engine_init (owner : owner_t) (pid : Z) : MW E unit :=
  match owner with
  | IO_SERVER => io_server_obj_create pid
  | IO_CLIENT => io_client_obj_create pid
  end.

Definition io_server_obj_destroy (i : Z) : MW E unit :=
  wr MAX_IO io_server_obj i (fun o => o <| io_state := IO_OBJ_RELEASED |>).
Definition io_client_obj_destroy (i : Z) : MW E unit :=
  ebdr_log;;; wr MAX_IO io_client_obj i (fun o => o <| io_state := IO_OBJ_RELEASED |>).

(** What a read leaves in a buffer. *)
Definition fill (bytes buff : mem) : mem := bytes ++ drop (length bytes) buff.

(** Result and new contents of [buff]. *)
Definition chunk_read_server (fd : Z) (buff : mem) (size start_lba : Z) : MW E (Z * mem) :=
  x <- sys (os_lseek fd (i64 (u64 (start_lba * CHUNK_SIZE))));;
  if x <? 0 then ebdr_log;;; ret (x, buff) else
  '(n, bytes) <- sys (fun e => let '(n, b, e') := os_read fd size e in ((n, b), e'));;
  if n <? 0 then ebdr_log;;; ret (n, buff) else
  ebdr_log;;;
  ret (0, fill bytes buff).

Definition chunk_write_server (fd : Z) (buff : mem) (size start_lba : Z) : MW E Z :=
  ebdr_log;;;
  n <- sys (os_send fd (take (Z.to_nat size) buff));;
  if n <? 0 then ebdr_log;;; ret (-1) else ret 0.

(** [errno] is looked at even when [recv] succeeded. *)
Definition chunk_read_client (fd : Z) (buff : mem) (size start_lba : Z) : MW E (Z * mem) :=
  ebdr_log;;;
  '(n, bytes) <- sys (fun e => let '(n, b, e') := os_recv fd size e in ((n, b), e'));;
  e <- get ext;;
  if (n <? 0) || (os_errno e =? ETIMEDOUT) then ebdr_log;;; ret (-1, if n <? 0 then buff else fill bytes buff)
  else ret (0, fill bytes buff).

Definition chunk_write_client (fd : Z) (buff : mem) (size start_lba : Z) : MW E Z :=
  x <- sys (os_lseek fd (i64 (u64 (start_lba * CHUNK_SIZE))));;
  if x <? 0 then ebdr_log;;; ret x else
  n <- sys (os_write fd (take (Z.to_nat size) buff));;
  if n <? 0 then ebdr_log;;; ret n else
  ebdr_log;;;
  ret 0.
End header.
