(* ===== verification/ReplicServer.v ===== *)
(** * replic_server.c and the send side of atdr_conn_server.c

    The handlers of the requests of a client.  A handler works on the header
    received, which it may modify before it sends it back, and on the server's
    objects. *)
From S2P Require Import Prelude Memory KernelState CMonad CString World UBitmap Db Partner Relation Disk Header.

(** What a send call is given: a header or raw bytes. *)
Inductive payload := PHdr (h : replic_header) | PData (m : mem).

(** The first entry of a table with the given opcode. *)
Definition table_find {A} (code : Z) (table : list (Z * A)) : option A :=
  snd <$> List.find (fun e => code =? fst e) table.

Definition CMD_TO_VERIFY : string := "/usr/bin/md5sum".

(** The words of a text, and the first word of its last pair. *)
Fixpoint words_fuel (n : nat) (s : string) : list string :=
  match n with
  | O => []
  | S n' => match scan_word s with Some (w, r) => w :: words_fuel n' r | None => [] end
  end.
Definition words_of (s : string) : list string := words_fuel (S (String.length s)) s.

Fixpoint last_first (ws : list string) (cur : string) : string :=
  match ws with
  | [] => cur
  | [a] => a
  | a :: _ :: ws' => last_first ws' a
  end.

Section replic_server.
Context {E : Type} `{OS E}.

(** ** Sending *)
Definition server_send_hdr (buf : payload) (fd : Z) : MW E Z :=
  match buf with
  | PHdr h => r <- sys (os_send_hdr fd h);; if r <? 0 then ebdr_log;;; ret (-1) else ret 0
  | PData _ => undefined
  end.

Definition server_send_data (buf : payload) (fd : Z) : MW E Z :=
  match buf with
  | PData m => r <- sys (os_send fd m);; if r <? 0 then ebdr_log;;; ret (-1) else printf;;; ret 0
  | PHdr _ => undefined
  end.

Definition server_send_cmdMap : list (Z * (payload -> Z -> MW E Z)) :=
  [(PROTO_TYPE, server_send_hdr); (DATA_TYPE, server_send_data)].

Definition ebdr_conn_server_send (buf : payload) (fd send_type : Z) : MW E Z :=
  match table_find send_type server_send_cmdMap with
  | Some f => f buf fd
  | None => ret 0
  end.

(** [replic_server_obj[pid].rep_conn->conn_ops->do_ebdr_conn_send]; the server
    daemon has no client connections. *)
Definition server_rep_send (pid : Z) (buf : payload) (fd send_type : Z) : MW E Z :=
  r <- rd MAX_REPLICATIONS replic_server_obj pid;;
  match rp_conn r with
  | Some (PServer i) =>
      c <- rd (MAX_CONN + 2) ebdr_conn_server i;;
      match cn_ops c with
      | Some server_ops => ebdr_conn_server_send buf fd send_type
      | _ => undefined
      end
  | _ => undefined
  end.

(** ** atdr_daemon.c: the relation of a partner, on the server *)
Definition make_relation_with_client (partnerid role : Z) (src_disk : string)
    (bitmap_size grain_size chunk_size : Z) : MW E Z :=
  ebdr_relation_init EBDR_RELATION_SERVER partnerid partnerid;;;
  let relation_role := if role =? 0 then RELATION_PRIMARY else RELATION_SECONDARY in
  w <- get (fun w => w);;
  if is_server_partner_id_valid partnerid w then
    r <- rd MAX_RELATIONS all_relation_servers partnerid;;
    _ <- op_make_relation (rel_ops r) relation_role partnerid src_disk;;
    ebdr_log;;;
    wr MAX_HDR replic_hdr_server_obj partnerid (fun h => h <| hd_ops := Some server_ops |>);;;
    replic_hdr_server_setup bitmap_size grain_size chunk_size partnerid;;;
    ret 0
  else ebdr_log;;; ret (-1).

(** ** Handlers *)
Definition get_bitmap (h : replic_header) : MW E replic_header :=
  let pid := hd_partner h in
  p <- rd MAX_PARTNERS all_partner_servers pid;;
  when (ptn_state p =? PARTNER_OBJ_RELEASED)
    (wr MAX_PARTNERS all_partner_servers pid (fun p => p <| ptn_state := PARTNER_OBJ_IN_USE |>);;;
     wr MAX_RELATIONS all_relation_servers pid (fun r => r <| rel_state := RELATION_OBJ_IN_USE |>);;;
     wr MAX_DISKS ebdr_disk_src_obj pid (fun d => d <| dsk_state := DISK_OBJ_IN_USE |>);;;
     update_into_partner pid PARTNER_OBJ_IN_USE "ebdrdbs";;;
     update_relation_state pid RELATION_OBJ_IN_USE "ebdrdbs";;;
     update_disk_state pid DISK_OBJ_IN_USE "ebdrdbs");;;
  ebdr_user_bitmap_init LOCAL pid;;;
  ebdr_log;;;
  wr MAX_DISKS ebdr_disk_src_obj pid (fun d => d <| dsk_bitmap := Some (PServer pid) |>);;;
  b <- rd MAX_BITMAP bitmap_server_obj pid;;
  _ <- (match ub_ops b with Some server_ops => bitmap_server_setup pid pid | _ => undefined end);;
  ebdr_log;;;
  b <- rd MAX_BITMAP bitmap_server_obj pid;;
  m <- block (ub_area b);;
  assert_def (ub_size b <=? Z.of_nat (length m));;;
  p <- rd MAX_PARTNERS all_partner_servers pid;;
  r <- server_rep_send pid (PData (take (Z.to_nat (ub_size b)) m)) (ptn_fd p) DATA_TYPE;;
  if r <? 0 then ebdr_log;;; ret h
  else _ <- of_option (load 8 m 0);; ebdr_log;;; io_engine_init IO_SERVER pid;;; ret h.

(** The connection of [pid] is given up, to be resumed by a new one. *)
Definition pause_conn (pid : Z) : MW E unit :=
  wr (MAX_CONN + 2) ebdr_conn_server pid (fun c => c <| cn_state := CONN_OBJ_PAUSE |>);;;
  ebdr_log;;;
  wr MAX_CONN sock_recovery pid (fun _ => 1);;;
  c <- rd (MAX_CONN + 2) ebdr_conn_server pid;;
  sys_ (os_shutdown (cn_fd c));;;
  _ <- sys (os_close (cn_fd c));;
  wr (MAX_CONN + 2) ebdr_conn_server pid (fun c => c <| cn_fd := -1 |>).

Definition get_data (h : replic_header) : MW E replic_header :=
  let rbuff := replicate (Z.to_nat BUF_SIZE_IN_BYTES) 0 in
  let pid := hd_partner h in
  wr MAX_IO io_server_obj pid (fun o => o <| io_ops := Some server_ops |>);;;
  s <- rd MAX_HDR replic_hdr_server_obj pid;;
  let start_lba := u64 (hd_curr h * hd_grain s + hd_chunk_pos h * hd_chunk s) in
  let size := BUF_SIZE_IN_BYTES in
  o <- rd MAX_IO io_server_obj pid;;
  if io_state o =? IO_OBJ_RELEASED then ret h else
  d <- rd MAX_DISKS ebdr_disk_src_obj pid;;
  '(r, rbuff) <- chunk_read_server (dsk_fd d) rbuff size start_lba;;
  when (r <? 0)
    (wr MAX_DISKS ebdr_disk_src_obj pid (fun d => d <| dsk_state := DISK_OBJ_PAUSE |>);;;
     pause_conn pid;;;
     wr MAX_PID partner_created pid (fun _ => 0));;;
  p <- rd MAX_PARTNERS all_partner_servers pid;;
  r <- chunk_write_server (ptn_fd p) rbuff size start_lba;;
  when (r <? 0)
    (wr MAX_PID partner_created pid (fun _ => 0);;;
     put total_conn 0;;;
     pause_conn pid);;;
  ret h.

Definition make_partner (h : replic_header) : MW E replic_header :=
  let pid := hd_partner h in
  _ <- replication_init REP_LOCAL pid;;
  r <- rd MAX_REPLICATIONS replic_server_obj pid;;
  (match rp_ops r with Some server_ops => replic_server_obj_setup pid | _ => undefined end);;;
  slot <- rd (MAX_CONN + 2) ebdr_conn_server (MAX_CONN + 1);;
  wr (MAX_CONN + 2) ebdr_conn_server pid (fun _ => slot);;;
  ebdr_log;;;
  (if pid <? MAX_PARTNERS then
     ebdr_partner_init PARTNER_SERVER pid;;;
     p <- rd MAX_PARTNERS all_partner_servers pid;;
     c <- rd (MAX_CONN + 2) ebdr_conn_server pid;;
     ignore (op_make_partner (ptn_ops p) (hd_dest_ip h) (hd_bandwidth h) (cn_fd c) pid)
   else ebdr_log);;;
  w <- get (fun w => w);;
  (if is_server_partner_id_valid pid w then
     ignore (make_relation_with_client pid 0 (hd_disk h) (hd_bitmap h) (hd_grain h) (hd_chunk h))
   else ebdr_log);;;
  ret h.

Definition remove_partner (h : replic_header) : MW E replic_header :=
  let pid := hd_partner h in
  r <- rd MAX_RELATIONS all_relation_servers pid;;
  when ((rel_partner r =? pid) && (rel_state r =? RELATION_OBJ_IN_USE))
    (ebdr_log;;; op_relation_destroy (rel_ops r) pid);;;
  ebdr_log;;;
  p <- rd MAX_PARTNERS all_partner_servers pid;;
  op_partner_destroy (ptn_ops p) pid;;;
  ret h.

Definition remove_relation (h : replic_header) : MW E replic_header :=
  let rid := hd_relation h in
  ebdr_log;;;
  r <- rd MAX_RELATIONS all_relation_servers rid;;
  op_relation_destroy (rel_ops r) rid;;;
  ret h.

Definition syn_received (h : replic_header) : MW E replic_header :=
  let pid := hd_partner h in
  wr MAX_HDR replic_hdr_server_obj pid (fun s => s <| hd_ops := Some server_ops |>);;;
  h1 <- replic_hdr_server_nego h pid;;
  ebdr_log;;;
  let h2 := h1 <| hd_opcode := SYN_ACK |> in
  ebdr_log;;;
  p <- rd MAX_PARTNERS all_partner_servers pid;;
  _ <- server_rep_send pid (PHdr h2) (ptn_fd p) PROTO_TYPE;;
  s <- rd MAX_HDR replic_hdr_server_obj pid;;
  wr MAX_RELATIONS all_relation_servers pid (fun r => r <| rel_bitmap := hd_bitmap s |>
    <| rel_grain := hd_grain s |> <| rel_chunk := hd_chunk s |>);;;
  r <- rd MAX_RELATIONS all_relation_servers pid;;
  insert_into_relation (rel_role r) (rel_partner r) (rel_id r) RELATION_OBJ_IN_USE (rel_device r)
    (rel_bitmap r) (rel_grain r) (rel_chunk r) "ebdrdbs";;;
  ret h2.

Definition ack (h : replic_header) : MW E replic_header := ebdr_log;;; ret h.

Definition data_req (h : replic_header) : MW E replic_header :=
  let h' := h <| hd_opcode := DATA_PREP |> <| hd_available := 4096 |> in
  let pid := hd_partner h' in
  ebdr_log;;;
  p <- rd MAX_PARTNERS all_partner_servers pid;;
  _ <- server_rep_send pid (PHdr h') (ptn_fd p) PROTO_TYPE;;
  ret h'.

Definition data_start_recieved (h : replic_header) : MW E replic_header := ebdr_log;;; stop_work.

Definition terminate (h : replic_header) : MW E replic_header :=
  let pid := hd_partner h in
  p <- rd MAX_PARTNERS all_partner_servers pid;;
  when (negb (ptn_state p =? PARTNER_OBJ_RELEASED))
    (d <- rd MAX_DISKS ebdr_disk_src_obj pid;;
     sys_ (os_blkflsbuf (dsk_fd d));;;
     ebdr_log;;;
     op_src_unsetup (dsk_ops d) pid;;;
     b <- rd MAX_BITMAP bitmap_server_obj pid;;
     (match ub_ops b with Some server_ops => bitmap_server_destroy pid pid | _ => undefined end);;;
     wr MAX_PID recovery_mode pid (fun _ => 0);;;
     wr MAX_PARTNERS all_partner_servers pid (fun p => p <| ptn_state := PARTNER_OBJ_RELEASED |>);;;
     wr MAX_RELATIONS all_relation_servers pid (fun r => r <| rel_state := RELATION_OBJ_RELEASED |>);;;
     wr MAX_DISKS ebdr_disk_src_obj pid (fun d => d <| dsk_state := DISK_OBJ_RELEASED |>);;;
     wr MAX_IO io_server_obj pid (fun o => o <| io_state := IO_OBJ_RELEASED |>);;;
     update_into_partner pid PARTNER_OBJ_RELEASED "ebdrdbs");;;
  ret h.

(** ** Verification by md5sum

    [srv]: which of the two daemons this is.  The result is the new md5 (the
    header's on the server, the caller's buffer on the client) and the return
    value. *)
Definition get_last_md5_values (fd : Z) (old : string) : MW E (Z * string) :=
  x <- sys (os_lseek fd 0);;
  if x <? 0 then ebdr_log;;; ret (0, old) else
  e <- get ext;;
  if negb (os_errno e =? 0) then ret (-1, old) else
  md5 <- cstring 64 (last_first (words_of (os_md5_text fd e)) EmptyString);;
  ebdr_log;;;
  _ <- sys (os_close fd);;
  ret (0, md5).

Definition calculate_md5 (srv : bool) (disk_name : string) (h : replic_header) (old : string) : MW E (Z * string) :=
  let pid := hd_partner h in
  filename <- cstring 64 ((if srv then "/tmp/resync_srv_" else "/tmp/resync_clt_") +:+ dec pid);;
  fd <- sys (os_open filename [O_RDWR; O_CREAT]);;
  filename <- cstring 64 ((if srv then "/tmp/resync_error_srv" else "/tmp/resync_error_clt") +:+ dec pid);;
  fd_error <- sys (os_open filename [O_RDWR; O_CREAT]);;
  if (fd <? 0) || (fd_error <? 0) then ebdr_log;;; ret (-1, old) else
  _ <- cstring 100 CMD_TO_VERIFY;;
  r <- sys (os_md5sum disk_name fd);;
  if r <? 0 then ebdr_log;;; ret (r, old) else
  '(g, md5) <- get_last_md5_values fd old;;
  if g <? 0 then ebdr_log;;; ret (-1, md5) else ret (r, md5).

Definition verify_data (h : replic_header) : MW E replic_header :=
  let pid := hd_partner h in
  d <- rd MAX_DISKS ebdr_disk_src_obj pid;;
  '(r, md5) <- calculate_md5 true (dsk_snap d) h (hd_md5 h);;
  let h1 := h <| hd_md5 := md5 |> in
  let h2 := if (r <? 0) || (slen md5 =? 0) then h1 <| hd_opcode := VERIFY_DATA_IGN |>
            else h1 <| hd_opcode := VERIFY_DATA_RSP |> in
  p <- rd MAX_PARTNERS all_partner_servers pid;;
  _ <- server_rep_send pid (PHdr h2) (ptn_fd p) PROTO_TYPE;;
  ret h2.
End replic_server.
