(* ===== verification/ConnServer.v ===== *)
(** * atdr_conn_server.c: the server's connections

    The receive loop of a connection with its dispatch table, the accept loop
    that assigns an incoming connection to a partner, and the set-up of the
    listening socket.  The two endless loops are given as the body of one
    iteration; [send_recv_loop] runs a bounded number of them. *)
From S2P Require Import Prelude Memory KernelState CMonad CString World UBitmap Db Partner Relation Disk Header.
From S2P Require Import ReplicServer.

Section conn_server.
Context {E : Type} `{OS E}.

Definition handler : Type := replic_header -> MW E replic_header.

Definition cmdMap : list (Z * handler) :=
  [(opcode_code BITMAP_METADATA, get_bitmap);
   (opcode_code DATA, get_data);
   (opcode_code MAKE_PARTNER, make_partner);
   (opcode_code REMOVE_PARTNER, remove_partner);
   (opcode_code RM_RELATION, remove_relation);
   (opcode_code SYN, syn_received);
   (opcode_code ACK, ack);
   (opcode_code RPLC_TERMINATION, terminate);
   (opcode_code DATA_REQ, data_req);
   (opcode_code VERIFY_DATA, verify_data)].

(** The loop over [cmdMap]: every entry is compared with the opcode the header
    has by then, handlers included. *)
Fixpoint dispatch (table : list (Z * handler)) (h : replic_header) : MW E replic_header :=
  match table with
  | [] => ret h
  | (code, fun_) :: table' =>
      h' <- (if opcode_code (hd_opcode h) =? code then fun_ h else ret h);;
      dispatch table' h'
  end.

Definition ebdr_conn_server_stop (pid : Z) : MW E unit :=
  ebdr_log;;; wr (MAX_CONN + 2) ebdr_conn_server pid (fun c => c <| cn_conn_state := EBDR_CONN_RELEASED |>).

(** The receive error of a connection whose last request was DATA. *)
Definition recv_error_pause (pid : Z) : MW E unit :=
  ebdr_log;;;
  wr MAX_PID partner_created pid (fun _ => 0);;;
  c <- rd (MAX_CONN + 2) ebdr_conn_server pid;;
  sys_ (os_shutdown (cn_fd c));;;
  _ <- sys (os_close (cn_fd c));;
  wr (MAX_CONN + 2) ebdr_conn_server pid (fun c => c <| cn_fd := -1 |>);;;
  ebdr_log;;;
  wr (MAX_CONN + 2) ebdr_conn_server pid (fun c => c <| cn_state := CONN_OBJ_PAUSE |>);;;
  wr MAX_CONN sock_recovery pid (fun _ => 1);;;
  ebdr_log;;;
  pthread_cancel_self;;;
  wr MAX_PID partner_created pid (fun _ => 0).

(** One iteration of [ebdr_conn_server_recv] in PROTO_TYPE mode: [None] when
    the function returns.  A receive of 0 bytes (the peer has closed) leaves
    the header as it was and is dispatched again. *)
Definition server_recv_step (fd : Z) (h : replic_header) : MW E (option replic_header) :=
  '(n, got) <- sys (fun e => let '(n, g, e') := os_recv_hdr fd e in ((n, g), e'));;
  let h := default h got in
  if n <? 0 then
    ebdr_log;;;
    if bool_decide (hd_opcode h = REMOVE_PARTNER) then ebdr_log;;; ret None
    else if bool_decide (hd_opcode h = DATA) then recv_error_pause (hd_partner h);;; ret None
    else ret None
  else h' <- dispatch cmdMap h;; ret (Some h').

Fixpoint send_recv_loop (fuel : nat) (fd : Z) (h : replic_header) : MW E (option replic_header) :=
  match fuel with
  | O => ret (Some h)
  | S fuel' =>
      r <- server_recv_step fd h;;
      match r with
      | None => ret None
      | Some h' => send_recv_loop fuel' fd h'
      end
  end.

(** The thread of a connection: [slot] is the index of the [sockfd_pid_var]
    element its argument points to. *)
Definition send_recv_handler (fuel : nat) (slot : Z) : MW E (option replic_header) :=
  '(fd, server_pid) <- rd MAX_CONN sockfd_pid_var slot;;
  ebdr_log;;;
  ebdr_connection_init CONN_SERVER server_pid;;;
  wr (MAX_CONN + 2) ebdr_conn_server server_pid (fun c => c <| cn_fd := fd |> <| cn_conn_state := EBDR_CONN_CONNECTED |>);;;
  c <- rd (MAX_CONN + 2) ebdr_conn_server server_pid;;
  match cn_ops c with
  | Some server_ops => send_recv_loop fuel (cn_fd c) zeroed
  | _ => undefined
  end.

(** ** Accepting a connection *)

(** The [for] loop over the partners known to the database: the [pid] it ends
    with. *)
Fixpoint assign_loop (fuel : nat) (pid num_rows newSockFd : Z) : MW E Z :=
  match fuel with
  | O => ret pid
  | S fuel' =>
      if num_rows <? pid then ret pid else
      c <- rd (MAX_CONN + 2) ebdr_conn_server pid;;
      sr <- rd MAX_CONN sock_recovery pid;;
      if (cn_state c =? CONN_OBJ_PAUSE) && (sr =? 1) then
        slot <- rd (MAX_CONN + 2) ebdr_conn_server (MAX_CONN + 1);;
        wr (MAX_CONN + 2) ebdr_conn_server pid (fun _ => slot);;;
        wr MAX_PARTNERS all_partner_servers pid (fun p => p <| ptn_fd := newSockFd |>);;;
        wr (MAX_CONN + 2) ebdr_conn_server pid (fun c => c <| cn_state := CONN_OBJ_RESUME |>);;;
        wr MAX_CONN sockfd_pid_var pid (fun v => (fst v, pid));;;
        wr MAX_CONN sock_recovery pid (fun _ => 0);;;
        modify (fun w => w <| total_conn ::= Z.succ |>);;;
        ret pid
      else
      cc <- get client_connected;;
      rm <- rd MAX_PID recovery_mode pid;;
      p <- rd MAX_PARTNERS all_partner_servers pid;;
      if (cc =? 1) && (rm =? 1) && (ptn_state p =? PARTNER_OBJ_IN_USE) then
        slot <- rd (MAX_CONN + 2) ebdr_conn_server (MAX_CONN + 1);;
        wr (MAX_CONN + 2) ebdr_conn_server pid (fun _ => slot);;;
        wr MAX_PARTNERS all_partner_servers pid (fun p => p <| ptn_fd := newSockFd |>);;;
        wr MAX_CONN sockfd_pid_var pid (fun v => (fst v, pid));;;
        wr MAX_PARTNERS all_partner_servers pid (fun p => p <| ptn_state := PARTNER_OBJ_RECOVERY |>);;;
        put client_connected (-1);;;
        modify (fun w => w <| total_conn ::= Z.succ |>);;;
        ret pid
      else
      tc <- get total_conn;;
      if num_rows <=? tc then ret pid else
      pc <- rd MAX_PID partner_created pid;;
      if pc =? 0 then
        wr MAX_PID partner_created pid (fun _ => 1);;;
        modify (fun w => w <| total_conn ::= Z.succ |>);;;
        ret pid
      else assign_loop fuel' (pid + 1) num_rows newSockFd
  end.

(** One iteration of [replic_thread_init]. *)
Definition accept_step : MW E unit :=
  let server_pid := MAX_CONN + 1 in
  wr (MAX_CONN + 2) ebdr_conn_server server_pid (fun c => c <| cn_conn_state := EBDR_CONN_WAIT_FOR_CLIENT |>);;;
  ebdr_log;;;
  c <- rd (MAX_CONN + 2) ebdr_conn_server server_pid;;
  newSockFd <- sys (os_accept (cn_sockFd c));;
  if newSockFd <? 0 then ebdr_log;;; stop_work else
  ebdr_log;;;
  put client_connected 1;;;
  wr (MAX_CONN + 2) ebdr_conn_server (MAX_CONN + 1) (fun c => c <| cn_fd := newSockFd |>);;;
  num_rows <- mkpartner_from_db_on_server;;
  pid <- (if num_rows <=? 0 then
            wr MAX_PID partner_created 0 (fun _ => 1);;;
            wr MAX_CONN sockfd_pid_var 0 (fun v => (fst v, 0));;;
            ret 0
          else assign_loop (Z.to_nat (num_rows + 1)) 0 num_rows newSockFd);;
  wr MAX_CONN sockfd_pid_var pid (fun v => (newSockFd, snd v));;;
  r <- sys os_pthread_create;;
  if r <? 0 then stop_work else modify (fun w => w <| threads ::= fun l => l ++ [TSendRecv pid] |>).

(** ** The listening socket *)
Definition create_replication_thread : MW E unit :=
  r <- sys os_pthread_create;;
  if negb (r =? 0) then ebdr_log;;; stop_work
  else modify (fun w => w <| threads ::= fun l => l ++ [TReplic] |>);;; ebdr_log.

Definition ebdr_conn_server_setup (pid : Z) : MW E Z :=
  wr (MAX_CONN + 2) ebdr_conn_server pid (fun c => c <| cn_mode := EBDR_CONN_SERVER |>
    <| cn_conn_state := EBDR_CONN_SETUP |> <| cn_state := CONN_OBJ_IN_USE |>);;;
  sockFd <- sys os_socket;;
  when (sockFd <? 0) stop_work;;;
  ebdr_log;;;
  wr (MAX_CONN + 2) ebdr_conn_server pid (fun c => c <| cn_sockFd := sockFd |>);;;
  r <- sys (os_bind sockFd SRV_TCP_PORT);;
  if r <? 0 then stop_work else
  r <- sys (os_listen sockFd MAX_CONN);;
  if r <? 0 then stop_work else
  ebdr_log;;;
  create_replication_thread;;;
  ret sockFd.

(** [ebdr_conn_server[pid].conn_ops->do_ebdr_conn_setup] *)
Definition op_server_setup (pid : Z) : MW E Z :=
  c <- rd (MAX_CONN + 2) ebdr_conn_server pid;;
  match cn_ops c with Some server_ops => ebdr_conn_server_setup pid | _ => undefined end.
End conn_server.
