(* ===== verification/Resync.v ===== *)
(** * atdr_resync.c and the send side of the client's connection

    The resync loop of the client: for every grain whose bit is set, the chunks
    of the grain are requested from the server and written to the target disk,
    and the position is recorded in the database.  [replic_verify_start] is
    under [if (0)] in the source. *)
From S2P Require Import Prelude Memory KernelState CMonad CString World UBitmap Db Partner Relation Disk Header.
From S2P Require Import ReplicServer.

Section resync.
Context {E : Type} `{OS E}.

(** ** replic_client.c, atdr_conn_client.c: sending *)
Definition send_hdr (buf : payload) (fd : Z) : MW E Z :=
  match buf with
  | PHdr h => r <- sys (os_send_hdr fd h);; if r <? 0 then ebdr_log;;; ret (-1) else ret 0
  | PData _ => undefined
  end.

Definition send_data_start (buf : payload) (fd : Z) : MW E Z :=
  match buf with
  | PHdr h => r <- sys (os_send_hdr fd h);; if r <? 0 then ebdr_log;;; ret (-1) else ret 0
  | PData _ => undefined
  end.

Definition send_data (buf : payload) (fd : Z) : MW E Z := ret 0.

Definition ccmdMap : list (Z * (payload -> Z -> MW E Z)) :=
  [(PROTO_TYPE, send_hdr); (DATA_TYPE, send_data); (opcode_code DATA, send_data_start);
   (opcode_code DATA_REQ, send_hdr)].

Definition ebdr_conn_client_send (buf : payload) (fd send_type : Z) : MW E Z :=
  match table_find send_type ccmdMap with
  | Some f => f buf fd
  | None => ret 0
  end.

(** [replic_client_obj[pid].rep_conn->conn_ops->do_ebdr_conn_send] *)
Definition client_rep_send (pid : Z) (buf : payload) (fd send_type : Z) : MW E Z :=
  r <- rd MAX_REPLICATIONS replic_client_obj pid;;
  match rp_conn r with
  | Some (PClient i) =>
      c <- rd MAX_CONN ebdr_conn_client i;;
      match cn_ops c with
      | Some client_ops => ebdr_conn_client_send buf fd send_type
      | _ => undefined
      end
  | _ => undefined
  end.

(** ** The end of a resync *)
Definition replication_terminate (pid : Z) : MW E unit :=
  r <- rd MAX_REPLICATIONS replic_client_obj pid;;
  when (negb (rp_state r =? RESYNC_COMPLETED))
    (printf;;;
     wr MAX_HDR replic_hdr_client_obj pid (fun h => h <| hd_opcode := RPLC_TERMINATION |>);;;
     p <- rd MAX_PARTNERS all_partner_clients pid;;
     when (negb (ptn_state p =? PARTNER_OBJ_PAUSE))
       (wr MAX_REPLICATIONS replic_client_obj pid (fun r => r <| rp_last_bit := 0 |>));;;
     d <- rd MAX_DISKS ebdr_disk_target_obj pid;;
     sys_ (os_blkflsbuf (dsk_fd d));;;
     ebdr_log;;;
     h <- rd MAX_HDR replic_hdr_client_obj pid;;
     _ <- client_rep_send pid (PHdr h) (ptn_fd p) PROTO_TYPE;;
     ebdr_log;;;
     wr MAX_PARTNERS all_partner_clients pid (fun p => p <| ptn_state := PARTNER_OBJ_RELEASED |>);;;
     wr MAX_RELATIONS all_relation_clients pid (fun r => r <| rel_state := RELATION_OBJ_RELEASED |>);;;
     wr MAX_DISKS ebdr_disk_target_obj pid (fun d => d <| dsk_state := DISK_OBJ_RELEASED |>);;;
     wr MAX_IO io_client_obj pid (fun o => o <| io_state := IO_OBJ_RELEASED |>);;;
     wr MAX_REPLICATIONS replic_client_obj pid (fun r => r <| rp_state := RESYNC_COMPLETED |>);;;
     b <- rd MAX_BITMAP bitmap_client_obj pid;;
     (match ub_ops b with Some client_ops => bitmap_client_destroy pid | _ => undefined end);;;
     update_into_partner pid PARTNER_OBJ_RELEASED "ebdrdbc";;;
     update_resync_state pid RESYNC_COMPLETED "RESYNC_COMPLETED" "ebdrdbc").

(** ** The loop

    How the loop over the chunks of a grain ends: all rounds done, [break] on a
    pause, or [return]. *)
Inductive chunk_result := chunks_done | chunks_paused | resync_returned.

(** The connection failed: drop the socket and let the recovery thread
    reconnect. *)
Definition abandon_conn (pid : Z) : MW E unit :=
  ebdr_log;;;
  p <- rd MAX_PARTNERS all_partner_clients pid;;
  sys_ (os_shutdown (ptn_fd p));;;
  _ <- sys (os_close (ptn_fd p));;
  wr MAX_PARTNERS all_partner_clients pid (fun p => p <| ptn_fd := -1 |>);;;
  wr MAX_CONN ebdr_conn_client pid (fun c => c <| cn_state := CONN_OBJ_PAUSE |>).

(** One round; [None] when the loop goes on. *)
Definition chunk_round (pid bit_pos chunk_id : Z) (buff : mem) : MW E (option chunk_result * mem) :=
  wr MAX_HDR replic_hdr_client_obj pid (fun h => h <| hd_curr := bit_pos |> <| hd_chunk_pos := chunk_id |>
    <| hd_partner := pid |> <| hd_opcode := DATA |>);;;
  ebdr_log;;;
  wr MAX_IO io_client_obj pid (fun o => o <| io_ops := Some client_ops |>);;;
  p <- rd MAX_PARTNERS all_partner_clients pid;;
  if ptn_state p =? PARTNER_OBJ_PAUSE then ret (Some chunks_paused, buff) else
  o <- rd MAX_IO io_client_obj pid;;
  if io_state o =? IO_OBJ_RELEASED then ebdr_log;;; ret (Some resync_returned, buff) else
  h <- rd MAX_HDR replic_hdr_client_obj pid;;
  r <- client_rep_send pid (PHdr h) (ptn_fd p) PROTO_TYPE;;
  if r <? 0 then abandon_conn pid;;; ret (Some resync_returned, buff) else
  let start_lba := u64 (bit_pos * hd_grain h + chunk_id * hd_chunk h) in
  ebdr_log;;;
  '(r, buff) <- chunk_read_client (ptn_fd p) buff BUF_SIZE_IN_BYTES start_lba;;
  if r <? 0 then abandon_conn pid;;; ret (Some resync_returned, buff) else
  d <- rd MAX_DISKS ebdr_disk_target_obj pid;;
  r <- chunk_write_client (dsk_fd d) buff BUF_SIZE_IN_BYTES start_lba;;
  when (r <? 0)
    (wr MAX_DISKS ebdr_disk_target_obj pid (fun d => d <| dsk_state := DISK_OBJ_PAUSE |>);;;
     ebdr_log;;;
     pthread_cancel_self);;;
  ret (None, buff).

Fixpoint chunk_loop (n : nat) (pid bit_pos chunk_id : Z) (buff : mem) : MW E (chunk_result * mem) :=
  match n with
  | O => ret (chunks_done, buff)
  | S n' =>
      '(stop_, buff) <- chunk_round pid bit_pos chunk_id buff;;
      match stop_ with
      | Some c => ret (c, buff)
      | None => chunk_loop n' pid bit_pos (chunk_id + 1) buff
      end
  end.

(** The bitmap of the target object: [is_bit_set] aborts beyond MAX_BITS_LEN. *)
Definition target_bit (pid bit_pos : Z) : MW E bool :=
  d <- rd MAX_DISKS ebdr_disk_target_obj pid;;
  match dsk_bitmap d with
  | Some (PClient i) =>
      b <- rd MAX_BITMAP bitmap_client_obj i;;
      m <- block (ub_area b);;
      if bit_pos <? MAX_BITS_LEN then v <- of_option (is_bit_set m bit_pos);; ret (negb (v =? 0))
      else stop_work
  | _ => undefined
  end.

Definition target_bits (pid : Z) : MW E Z :=
  d <- rd MAX_DISKS ebdr_disk_target_obj pid;;
  match dsk_bitmap d with
  | Some (PClient i) => b <- rd MAX_BITMAP bitmap_client_obj i;; ret (u64 (ub_size b * 8))
  | _ => undefined
  end.

(** The [while] loop; the result is [false] when it returned from the
    function.  [fuel] bounds the grains. *)
Fixpoint grain_loop (fuel : nat) (pid bit_pos total_iterations : Z) (mode : rep_mode_t) (buff : mem) : MW E bool :=
  match fuel with
  | O => ret true
  | S fuel' =>
      bits <- target_bits pid;;
      p <- rd MAX_PARTNERS all_partner_clients pid;;
      if negb ((bit_pos <? bits) && negb (ptn_state p =? PARTNER_OBJ_PAUSE)) then ret true else
      set_ <- target_bit pid bit_pos;;
      '(c, buff) <-
        (if set_ || (match mode with FULL_RESYNC => true | NO_RESYNC => false end) then
           '(c, buff) <- chunk_loop (Z.to_nat (u64 total_iterations)) pid bit_pos 0 buff;;
           match c with
           | resync_returned => ret (c, buff)
           | _ =>
               r <- rd MAX_REPLICATIONS replic_client_obj pid;;
               d <- rd MAX_DISKS ebdr_disk_target_obj pid;;
               update_into_resync pid (dsk_name d) bit_pos (rp_state r) "ebdrdbc";;;
               ret (c, buff)
           end
         else ret (chunks_done, buff));;
      match c with
      | resync_returned => ret false
      | _ =>
          wr MAX_REPLICATIONS replic_client_obj pid (fun r => r <| rp_last_bit := bit_pos |>);;;
          grain_loop fuel' pid (bit_pos + 1) total_iterations mode buff
      end
  end.

(** The start of the function: the number of chunks of a grain, and the entry
    in the resync table unless the process is recovering. *)
Definition resync_prologue (pid bit_pos : Z) : MW E Z :=
  h <- rd MAX_HDR replic_hdr_client_obj pid;;
  assert_def (negb (hd_chunk h =? 0));;;
  let total_iterations := i32 (hd_grain h / hd_chunk h) in
  wr MAX_HDR replic_hdr_client_obj pid (fun h => h <| hd_opcode := DATA |>);;;
  ebdr_log;;;
  rm <- rd MAX_PID recovery_mode pid;;
  (if rm =? 1 then wr MAX_PID recovery_mode pid (fun _ => 0)
   else when (bit_pos =? 0)
     (d <- rd MAX_DISKS ebdr_disk_target_obj pid;;
      insert_into_resync pid (dsk_name d) bit_pos RESYNC_IN_PROGRESS "RESYNC_IN_PROGRESS" "ebdrdbc";;;
      wr MAX_REPLICATIONS replic_client_obj pid (fun r => r <| rp_state := RESYNC_IN_PROGRESS |>)));;;
  ret total_iterations.

(** After the loop. *)
Definition resync_epilogue (pid : Z) : MW E unit :=
  p <- rd MAX_PARTNERS all_partner_clients pid;;
  when (ptn_state p =? PARTNER_OBJ_PAUSE) (ebdr_log;;; pthread_cancel_self);;;
  replication_terminate pid.

Definition restart_resync (pid bit_pos : Z) (mode : rep_mode_t) : MW E unit :=
  total_iterations <- resync_prologue pid bit_pos;;
  finished <- grain_loop (Z.to_nat (MAX_BITS_LEN + 1)) pid bit_pos total_iterations mode
    (replicate (Z.to_nat BUF_SIZE_IN_BYTES) 0);;
  when finished (resync_epilogue pid).

(** atdr_daemon.c: the resync thread, and its start. *)
Definition resync_handler (slot : Z) : MW E unit :=
  t <- rd (MAX_DISKS + CNTRL_THREADS) thread_params slot;;
  _ <- cstring 10 ("./log" +:+ dec (th_pid t) +:+ ".txt");;
  restart_resync (th_pid t) (th_bit_pos t) NO_RESYNC.

Definition resync_init (pid bit_pos : Z) : MW E Z :=
  io_engine_init IO_CLIENT pid;;;
  (if pid <? MAX_DISKS then
     wr (MAX_DISKS + CNTRL_THREADS) thread_params pid (fun t => t <| th_pid := pid |> <| th_bit_pos := bit_pos |>);;;
     ebdr_log;;;
     r <- sys os_pthread_create;;
     if r <? 0 then stop_work else modify (fun w => w <| threads ::= fun l => l ++ [TResync pid] |>)
   else ebdr_log);;;
  ret 0.
End resync.
