(* ===== verification/ReplicClient.v ===== *)
(** * The client's protocol: replic_client.c, atdr_conn_client.c and the client
    half of atdr_daemon.c *)
From S2P Require Import Prelude Memory KernelState CMonad CString World UBitmap Db Partner Relation Disk Header.
From S2P Require Import ReplicServer Resync.

Section replic_client.
Context {E : Type} `{OS E}.

(** ** Receiving *)
Definition remove_relationpeer (rid : Z) : MW E unit :=
  ebdr_log;;;
  when (0 <? rid)
    (ebdr_log;;; r <- rd MAX_RELATIONS all_relation_clients rid;; op_relation_destroy (rel_ops r) rid).

Definition verify_data_resp (pid : Z) (h : replic_header) : MW E Z :=
  d <- rd MAX_DISKS ebdr_disk_target_obj pid;;
  '(r, md5) <- calculate_md5 false (dsk_name d) h EmptyString;;
  (if r <? 0 then ebdr_log
   else when (negb (bool_decide (hd_md5 h = md5))) (restart_resync pid 0 FULL_RESYNC));;;
  replication_terminate pid;;;
  ret 0.

(** [buf] points to [replic_hdr_client_obj[i]].  VERIFY_DATA_RSP falls through
    into VERIFY_DATA_IGN. *)
Definition recv_hdr (i fd : Z) : MW E Z :=
  ebdr_log;;;
  '(n, got) <- sys (fun e => let '(n, g, e') := os_recv_hdr fd e in ((n, g), e'));;
  wr MAX_HDR replic_hdr_client_obj i (fun h => default h got);;;
  when (n <? 0) (ebdr_log;;; stop_work);;;
  h <- rd MAX_HDR replic_hdr_client_obj i;;
  (match hd_opcode h with
   | SYN_ACK =>
       ebdr_log;;;
       let pid := hd_partner h in
       wr MAX_HDR replic_hdr_client_obj pid (fun h => h <| hd_ops := Some client_ops |>);;;
       _ <- rd MAX_PARTNERS all_partner_clients pid;;
       h <- rd MAX_HDR replic_hdr_client_obj i;;
       replic_hdr_client_nego h pid
   | RM_RELATION_PEER => ebdr_log;;; remove_relationpeer (hd_relation h)
   | VERIFY_DATA_RSP =>
       _ <- verify_data_resp (hd_partner h) h;;
       h <- rd MAX_HDR replic_hdr_client_obj i;;
       replication_terminate (hd_partner h)
   | VERIFY_DATA_IGN => replication_terminate (hd_partner h)
   | _ => ebdr_log
   end);;;
  ret 0.

(** [buf] is the bitmap area of [bitmap_client_obj[i]]. *)
Definition recv_data (i size fd : Z) : MW E Z :=
  b <- rd MAX_BITMAP bitmap_client_obj i;;
  m <- block (ub_area b);;
  assert_def (size <=? Z.of_nat (length m));;;
  '(n, bytes) <- sys (fun e => let '(n, b, e') := os_recv fd size e in ((n, b), e'));;
  when (n <? 0) (ebdr_log;;; stop_work);;;
  set_block (ub_area b) (fill bytes m);;;
  m' <- block (ub_area b);;
  _ <- of_option (load 8 m' 0);;
  ebdr_log;;;
  ret 0.

Definition recv_data_resp (i fd : Z) : MW E Z :=
  '(n, got) <- sys (fun e => let '(n, g, e') := os_recv_hdr fd e in ((n, g), e'));;
  wr MAX_HDR replic_hdr_client_obj i (fun h => default h got);;;
  when (n <? 0) (ebdr_log;;; stop_work);;;
  ret 0.

(** Receiving into the header of [i]; the table also has DATA_TYPE, whose
    buffer is not a header. *)
Definition rcmdMap (i fd : Z) : list (Z * MW E Z) :=
  [(PROTO_TYPE, recv_hdr i fd); (opcode_code DATA_PREP, recv_data_resp i fd)].

Definition client_rep_recv (pid i fd recv_type : Z) : MW E Z :=
  r <- rd MAX_REPLICATIONS replic_client_obj pid;;
  match rp_conn r with
  | Some (PClient c) =>
      c <- rd MAX_CONN ebdr_conn_client c;;
      match cn_ops c with
      | Some client_ops =>
          match table_find recv_type (rcmdMap i fd) with
          | Some f => f;;; ret 0
          | None => ret 0
          end
      | _ => undefined
      end
  | _ => undefined
  end.

(** [do_ebdr_conn_recv] with DATA_TYPE. *)
Definition client_rep_recv_data (pid i size fd : Z) : MW E Z :=
  r <- rd MAX_REPLICATIONS replic_client_obj pid;;
  match rp_conn r with
  | Some (PClient c) =>
      c <- rd MAX_CONN ebdr_conn_client c;;
      match cn_ops c with
      | Some client_ops => recv_data i size fd;;; ret 0
      | _ => undefined
      end
  | _ => undefined
  end.

Definition find_size (pid : Z) : MW E Z :=
  wr MAX_HDR replic_hdr_client_obj pid (fun h => h <| hd_opcode := DATA_REQ |>);;;
  h <- rd MAX_HDR replic_hdr_client_obj pid;;
  p <- rd MAX_PARTNERS all_partner_clients pid;;
  _ <- client_rep_send pid (PHdr h) (ptn_fd p) PROTO_TYPE;;
  _ <- client_rep_recv pid pid (ptn_fd p) (opcode_code DATA_PREP);;
  h <- rd MAX_HDR replic_hdr_client_obj pid;;
  ret (hd_available h).

(** ** Connecting *)
Definition ebdr_conn_client_stop (pid : Z) : MW E unit :=
  ebdr_log;;; wr MAX_CONN ebdr_conn_client pid (fun c => c <| cn_conn_state := EBDR_CONN_RELEASED |>).

Definition ebdr_conn_client_start (pid : Z) (ip : string) : MW E Z :=
  c <- rd MAX_CONN ebdr_conn_client pid;;
  r <- sys (os_connect (cn_sockFd c) ip SRV_TCP_PORT);;
  (if r <? 0 then stop_work else ebdr_log);;;
  wr MAX_CONN ebdr_conn_client pid (fun c => c <| cn_conn_state := EBDR_CONN_CONNECTED |>);;;
  ret 0.

Definition ebdr_conn_client_setup (ip_addr : string) (pid : Z) : MW E Z :=
  ebdr_log;;;
  wr MAX_CONN ebdr_conn_client pid (fun c => c <| cn_mode := EBDR_CONN_CLIENT |>
    <| cn_conn_state := EBDR_CONN_SETUP |> <| cn_state := CONN_OBJ_IN_USE |>);;;
  sockFd <- sys os_socket;;
  when (sockFd <? 0) stop_work;;;
  ebdr_log;;;
  wr MAX_CONN ebdr_conn_client pid (fun c => c <| cn_sockFd := sockFd |>);;;
  ebdr_log;;;
  c <- rd MAX_CONN ebdr_conn_client pid;;
  (match cn_ops c with Some client_ops => ignore (ebdr_conn_client_start pid ip_addr) | _ => undefined end);;;
  ret sockFd.

(** [ebdr_conn_client[pid].conn_ops->do_ebdr_conn_setup] *)
Definition op_client_setup (pid : Z) (ip : string) : MW E Z :=
  c <- rd MAX_CONN ebdr_conn_client pid;;
  match cn_ops c with Some client_ops => ebdr_conn_client_setup ip pid | _ => undefined end.

(** ** atdr_daemon.c: the client's requests *)
Definition prepare_for_replication (target_disk : string) (pid : Z) : MW E unit :=
  ebdr_log;;;
  _ <- ebdr_disk_init SECONDARY target_disk pid;;
  d <- rd MAX_DISKS ebdr_disk_target_obj pid;;
  _ <- op_target_setup (dsk_ops d) pid;;
  wr MAX_REPLICATIONS replic_client_obj pid (fun r => r <| rp_disk := Some (PClient pid) |>);;;
  ebdr_log.

(** The sizes are [unsigned int] parameters. *)
Definition start_protocol_negotiation (bitmap_size grain_size chunk_size pid : Z) : MW E unit :=
  wr MAX_HDR replic_hdr_client_obj pid (fun h => h <| hd_opcode := SYN |> <| hd_bitmap := u32 bitmap_size |>
    <| hd_grain := u32 grain_size |> <| hd_chunk := u32 chunk_size |> <| hd_partner := pid |>);;;
  ebdr_log;;;
  h <- rd MAX_HDR replic_hdr_client_obj pid;;
  p <- rd MAX_PARTNERS all_partner_clients pid;;
  _ <- client_rep_send pid (PHdr h) (ptn_fd p) PROTO_TYPE;;
  ebdr_log;;;
  _ <- client_rep_recv pid pid (ptn_fd p) PROTO_TYPE;;
  wr MAX_HDR replic_hdr_client_obj pid (fun h => h <| hd_opcode := ACK |>);;;
  ebdr_log;;;
  h <- rd MAX_HDR replic_hdr_client_obj pid;;
  p <- rd MAX_PARTNERS all_partner_clients pid;;
  _ <- client_rep_send pid (PHdr h) (ptn_fd p) PROTO_TYPE;;
  ret tt.

(** Without a result when the bitmap object is paused. *)
Definition request_server_for_metadata (pid : Z) : MW E (option Z) :=
  ebdr_user_bitmap_init REMOTE pid;;;
  wr MAX_HDR replic_hdr_client_obj pid (fun h => h <| hd_opcode := BITMAP_METADATA |> <| hd_partner := pid |>);;;
  p <- rd MAX_PARTNERS all_partner_clients pid;;
  when (ptn_state p =? PARTNER_OBJ_RELEASED)
    (wr MAX_PARTNERS all_partner_clients pid (fun p => p <| ptn_state := PARTNER_OBJ_IN_USE |>);;;
     wr MAX_RELATIONS all_relation_clients pid (fun r => r <| rel_state := RELATION_OBJ_IN_USE |>);;;
     wr MAX_DISKS ebdr_disk_target_obj pid (fun d => d <| dsk_state := DISK_OBJ_IN_USE |>);;;
     update_into_partner pid PARTNER_OBJ_IN_USE "ebdrdbc";;;
     update_relation_state pid RELATION_OBJ_IN_USE "ebdrdbc";;;
     update_disk_state pid DISK_OBJ_IN_USE "ebdrdbc");;;
  b <- rd MAX_BITMAP bitmap_client_obj pid;;
  if ub_obj_state b =? BITMAP_OBJ_PAUSE then ret None else
  (match ub_ops b with Some client_ops => ignore (bitmap_client_setup pid) | _ => undefined end);;;
  ebdr_log;;;
  h <- rd MAX_HDR replic_hdr_client_obj pid;;
  p <- rd MAX_PARTNERS all_partner_clients pid;;
  _ <- client_rep_send pid (PHdr h) (ptn_fd p) PROTO_TYPE;;
  b <- rd MAX_BITMAP bitmap_client_obj pid;;
  _ <- client_rep_recv_data pid pid (ub_size b) (ptn_fd p);;
  wr MAX_DISKS ebdr_disk_target_obj pid (fun d => d <| dsk_bitmap := Some (PClient pid) |>);;;
  m <- block (ub_area b);;
  v <- of_option (load 8 m 0);;
  ebdr_log;;;
  if v =? 0 then ret (Some 0)
  else _ <- store_bitmap_to_disk pid pid;; ret (Some 1).

(** [bandwidth] is an [int] parameter. *)
Definition make_partner_with_server (partner_ip : string) (bandwidth : Z) (disk : string)
    (bitmap_size grain_size chunk_size : Z) : MW E unit :=
  w <- get (fun w => w);;
  let bandwidth := u64 (i32 bandwidth) in
  let pid := get_new_partner_client_id w in
  ebdr_connection_init CONN_CLIENT pid;;;
  _ <- op_client_setup pid partner_ip;;
  _ <- replication_init REP_REMOTE pid;;
  r <- rd MAX_REPLICATIONS replic_client_obj pid;;
  (match rp_ops r with Some client_ops => replic_client_obj_setup pid | _ => undefined end);;;
  c <- rd MAX_CONN ebdr_conn_client pid;;
  when (pid <? MAX_PARTNERS)
    (ebdr_partner_init PARTNER_CLIENT pid;;;
     p <- rd MAX_PARTNERS all_partner_clients pid;;
     ignore (op_make_partner (ptn_ops p) partner_ip bandwidth (cn_sockFd c) pid));;;
  ebdr_log;;;
  ip <- cstring 64 partner_ip;;
  dsk <- cstring 64 disk;;
  wr MAX_HDR replic_hdr_client_obj pid (fun h => h <| hd_opcode := MAKE_PARTNER |> <| hd_bandwidth := bandwidth |>
    <| hd_partner := pid |> <| hd_dest_ip := ip |> <| hd_disk := dsk |> <| hd_bitmap := bitmap_size |>
    <| hd_grain := grain_size |> <| hd_chunk := chunk_size |>);;;
  ebdr_log;;;
  h <- rd MAX_HDR replic_hdr_client_obj pid;;
  _ <- client_rep_send pid (PHdr h) (cn_sockFd c) PROTO_TYPE;;
  ret tt.

Definition make_relation_with_server (partnerid role : Z) (target_disk : string)
    (bitmap_size grain_size chunk_size : Z) : MW E Z :=
  ebdr_relation_init EBDR_RELATION_CLIENT partnerid partnerid;;;
  let relation_role := if role =? 0 then RELATION_PRIMARY else RELATION_SECONDARY in
  w <- get (fun w => w);;
  if is_client_partner_id_valid partnerid w then
    r <- rd MAX_RELATIONS all_relation_clients partnerid;;
    rid <- op_make_relation (rel_ops r) relation_role partnerid target_disk;;
    ebdr_log;;;
    start_protocol_negotiation bitmap_size grain_size chunk_size partnerid;;;
    h <- rd MAX_HDR replic_hdr_client_obj rid;;
    wr MAX_RELATIONS all_relation_clients rid (fun r => r <| rel_bitmap := hd_bitmap h |>
      <| rel_grain := hd_grain h |> <| rel_chunk := hd_chunk h |>);;;
    r <- rd MAX_RELATIONS all_relation_clients rid;;
    insert_into_relation (rel_role r) (rel_partner r) (rel_id r) RELATION_OBJ_IN_USE (rel_device r)
      (rel_bitmap r) (rel_grain r) (rel_chunk r) "ebdrdbc";;;
    ebdr_log;;;
    prepare_for_replication target_disk partnerid;;;
    ret 0
  else ebdr_log;;; ret (-1).

Definition remove_relation_in_client (rid : Z) : MW E unit :=
  ebdr_log;;;
  r <- rd MAX_RELATIONS all_relation_clients rid;;
  op_relation_destroy (rel_ops r) rid;;;
  ebdr_log;;;
  wr MAX_HDR replic_hdr_client_obj rid (fun h => h <| hd_opcode := RM_RELATION |> <| hd_relation := rid |>);;;
  h <- rd MAX_HDR replic_hdr_client_obj rid;;
  c <- rd MAX_CONN ebdr_conn_client rid;;
  _ <- client_rep_send rid (PHdr h) (cn_sockFd c) PROTO_TYPE;;
  ret tt.

Definition remove_partner_with_server (pid : Z) : MW E unit :=
  ebdr_log;;;
  wr MAX_HDR replic_hdr_client_obj pid (fun h => h <| hd_opcode := REMOVE_PARTNER |> <| hd_partner := pid |>);;;
  h <- rd MAX_HDR replic_hdr_client_obj pid;;
  c <- rd MAX_CONN ebdr_conn_client pid;;
  _ <- client_rep_send pid (PHdr h) (cn_sockFd c) PROTO_TYPE;;
  r <- rd MAX_RELATIONS all_relation_clients pid;;
  when ((rel_partner r =? pid) && (rel_state r =? RELATION_OBJ_IN_USE))
    (ebdr_log;;; op_relation_destroy (rel_ops r) pid);;;
  ebdr_log;;;
  p <- rd MAX_PARTNERS all_partner_clients pid;;
  op_partner_destroy (ptn_ops p) pid.
End replic_client.
