(* ===== verification/Recovery.v ===== *)
(** * atdr_recovery.c: the recovery thread

    Every ten seconds it looks for disks and connections in the PAUSE state and
    restarts them.  [recovery_disk_client] and [recovery_disk_server] read a
    local [i] that is never set: [garbage] is its value. *)
From S2P Require Import Prelude Memory KernelState CMonad CString World UBitmap Db Partner Relation Disk Header.
From S2P Require Import ReplicServer Resync.

Section recovery.
Context {E : Type} `{OS E}.

Definition restart_disk (pid : Z) : MW E unit :=
  wr MAX_DISKS ebdr_disk_target_obj pid (fun d => d <| dsk_state := DISK_OBJ_RESUME |>);;;
  ebdr_log;;;
  r <- rd MAX_REPLICATIONS replic_client_obj pid;;
  ignore (resync_init pid (rp_last_bit r)).

Definition restart_conn_server (pid : Z) : MW E unit :=
  c <- rd (MAX_CONN + 2) ebdr_conn_server pid;;
  wr MAX_PARTNERS all_partner_servers pid (fun p => p <| ptn_fd := cn_sockFd c |>);;;
  cc <- rd MAX_CONN ebdr_conn_client pid;;
  when (0 <? cn_sockFd cc)
    (wr (MAX_CONN + 2) ebdr_conn_server pid (fun c => c <| cn_state := CONN_OBJ_RESUME |>)).

Definition create_new_conn_client (pid : Z) (ip_addr : string) : MW E Z :=
  wr MAX_CONN ebdr_conn_client pid (fun c => c <| cn_mode := EBDR_CONN_CLIENT |>
    <| cn_conn_state := EBDR_CONN_SETUP |> <| cn_state := CONN_OBJ_IN_USE |>);;;
  sockFd <- sys os_socket;;
  when (sockFd <? 0) stop_work;;;
  ebdr_log;;;
  wr MAX_CONN ebdr_conn_client pid (fun c => c <| cn_sockFd := sockFd |>);;;
  r <- sys (os_connect sockFd ip_addr SRV_TCP_PORT);;
  (if r <? 0 then stop_work else ebdr_log);;;
  ret 0.

Definition restart_conn_client (pid : Z) : MW E unit :=
  p <- rd MAX_PARTNERS all_partner_clients pid;;
  _ <- create_new_conn_client pid (ptn_ip p);;
  wr MAX_CONN ebdr_conn_client pid (fun c => c <| cn_state := CONN_OBJ_RESUME |>);;;
  c <- rd MAX_CONN ebdr_conn_client pid;;
  wr MAX_PARTNERS all_partner_clients pid (fun p => p <| ptn_fd := cn_sockFd c |>);;;
  r <- rd MAX_REPLICATIONS replic_client_obj pid;;
  ignore (resync_init pid (rp_last_bit r)).

Definition recovery_disk_client (garbage pid : Z) : MW E unit :=
  d <- rd MAX_DISKS ebdr_disk_target_obj pid;;
  when (dsk_state d =? DISK_OBJ_PAUSE)
    (r <- sys (os_close (dsk_fd d));;
     when (r <? 0) (ebdr_log;;; stop_work);;;
     other <- rd MAX_DISKS ebdr_disk_target_obj garbage;;
     fd <- sys (os_open (dsk_name other) [O_RDWR; O_TRUNC]);;
     wr MAX_DISKS ebdr_disk_target_obj pid (fun d => d <| dsk_fd := fd |>);;;
     when (fd <? 0) (ebdr_log;;; stop_work);;;
     restart_disk pid).

Definition recovery_disk_server (garbage pid : Z) : MW E unit :=
  d <- rd MAX_DISKS ebdr_disk_src_obj pid;;
  when (dsk_state d =? DISK_OBJ_PAUSE)
    (r <- sys (os_close (dsk_fd d));;
     ebdr_log;;;
     when (r <? 0) (ebdr_log;;; stop_work);;;
     ebdr_log;;;
     other <- rd MAX_DISKS ebdr_disk_src_obj garbage;;
     fd <- sys (os_open (dsk_name other) [O_RDWR; O_TRUNC]);;
     wr MAX_DISKS ebdr_disk_src_obj pid (fun d => d <| dsk_fd := fd |>);;;
     when (fd <? 0) (ebdr_log;;; stop_work);;;
     wr MAX_DISKS ebdr_disk_src_obj pid (fun d => d <| dsk_state := DISK_OBJ_RESUME |>)).

Definition recovery_conn_client (pid : Z) : MW E unit :=
  c <- rd MAX_CONN ebdr_conn_client pid;;
  when (cn_state c =? CONN_OBJ_PAUSE) (restart_conn_client pid).

Definition recovery_conn_server (pid : Z) : MW E unit :=
  c <- rd (MAX_CONN + 2) ebdr_conn_server pid;;
  when (cn_state c =? CONN_OBJ_PAUSE) (restart_conn_server pid).

(** One iteration of [recovery_thread_init], on the client and on the server. *)
Fixpoint recovery_round (srv : bool) (garbage : Z) (pids : list Z) : MW E unit :=
  match pids with
  | [] => ret tt
  | pid :: pids' =>
      (if srv then recovery_disk_server garbage pid;;; recovery_conn_server pid
       else recovery_disk_client garbage pid;;; recovery_conn_client pid);;;
      recovery_round srv garbage pids'
  end.

Definition recovery_thread_body (srv : bool) (garbage : Z) : MW E unit :=
  recovery_round srv garbage (zseq 0 MAX_PARTNERS).
End recovery.
