(* ===== verification/Daemon.v ===== *)
(** * atdr_daemon.c: the commands of the administrator, and the start of the
    daemon from the database (atdr_db.c, [db_init])

    [parse_daemon_request] has one definition per case of its switch.  A local
    that sscanf leaves unset has the value [garbage] (or [garbage_str]). *)
From S2P Require Import Prelude Memory KernelState CMonad CString World UBitmap Db Config Partner Relation Disk.
From S2P Require Import Header ReplicServer ConnServer Resync ReplicClient Recovery.
From Stdlib Require Import Ascii.

Section daemon.
Context {E : Type} `{OS E}.
Variable garbage : Z.
Variable garbage_str : string.

Definition snapshot_disk_init (snap_disk : string) (pid : Z) : MW E unit :=
  ebdr_log;;;
  wr MAX_DISKS ebdr_disk_src_obj pid (fun d => d <| dsk_snap := snap_disk |>);;;
  ebdr_log;;;
  d <- rd MAX_DISKS ebdr_disk_src_obj pid;;
  _ <- op_src_setup (dsk_ops d) pid;;
  rm <- rd MAX_PID recovery_mode pid;;
  when (negb (rm =? 1))
    (d <- rd MAX_DISKS ebdr_disk_src_obj pid;;
     update_into_disk pid (dsk_name d) (dsk_snap d) "ebdrdbs");;;
  wr MAX_RELATIONS all_relation_servers pid (fun r => r <| rel_device := snap_disk |>).

Definition validate_ipaddr (ip : string) : bool := os_inet_pton ip.

(** The answer of the search is the first [int] of the request block, which is
    restored afterwards. *)
Definition is_disk_created : MW E bool :=
  tmp <- get ioctl_obj;;
  _ <- prepare_and_send_ioctl_cmd EBDRCTL_BLKDEV_SEARCH;;
  obj <- get ioctl_obj;;
  v <- of_option (load 4 (src_disk obj) 0);;
  put ioctl_obj tmp;;;
  ret (negb (v =? 0)).

(** ** The cases *)
Definition log_name (level : Z) (old : string) : string :=
  (if level =? 1 then "FATAL" else if level =? 2 then "ERROR" else if level =? 3 then "WARN"
   else if level =? 4 then "INFO" else if level =? 5 then "DEBUG" else old)%Z%string.

(** 'a' and 'b' *)
Definition cmd_log_level (cmd : string) : MW E unit :=
  let a := scan [Cs; Cd; Cd] cmd in
  let thrdId := arg_int a 1 garbage in
  let log_level := arg_int a 2 garbage in
  wr (MAX_DISKS + CNTRL_THREADS) thread_params thrdId
    (fun t => t <| th_level := log_level |> <| th_str ::= log_name log_level |>).

(** The rest of case 'c', for the disk named in the request block. *)
Definition create_source : MW E unit :=
  ebdr_log;;;
  created <- is_disk_created;;
  if created then ebdr_log else
  _ <- prepare_and_send_ioctl_cmd EBDRCTL_DEV_CREATE;;
  server_pid <- get ds_count;;
  obj <- get ioctl_obj;;
  _ <- ebdr_disk_init PRIMARY (bytes_string (src_disk obj)) server_pid;;
  o <- get once;;
  when (o =? 0)
    (ebdr_connection_init CONN_SERVER (MAX_CONN + 1);;;
     _ <- op_server_setup (MAX_CONN + 1);;
     put once 1).

(** 'c' *)
Definition cmd_create (cmd : string) : MW E unit :=
  ebdr_log;;;
  let a := scan [Cs; Cs; Clu; Clu] cmd in
  (match a !! 1%nat with
   | Some (AStr s) =>
       s <- cstring 64 s;; modify (fun w => w <| ioctl_obj ::= fun o => o <| src_disk ::= put_string s |> |>)
   | _ => ret tt
   end);;;
  modify (fun w => w <| ioctl_obj ::= fun o => o <| u_grain_size ::= arg_int a 2 |>
    <| u_bitmap_size ::= arg_int a 3 |> |>);;;
  create_source.

(** 'g': the [index] of the request block is whatever it was. *)
Definition cmd_grain (cmd : string) : MW E unit :=
  ebdr_log;;;
  let a := scan [Cs; Clu; Clu] cmd in
  modify (fun w => w <| ioctl_obj ::= fun o => o <| u_grain_size ::= arg_int a 1 |>
    <| u_bitmap_size ::= arg_int a 2 |> |>);;;
  ignore (prepare_and_send_ioctl_cmd EBDRCTL_SET_GRAIN_SIZE).

(** 'm' *)
Definition cmd_metadata (cmd : string) : MW E unit :=
  ebdr_log;;;
  let pid := arg_int (scan [Cs; Cd] cmd) 1 garbage in
  w <- get (fun w => w);;
  if is_client_partner_id_valid pid w then ignore (request_server_for_metadata pid) else ebdr_log.

(** 's' *)
Definition cmd_snap (cmd : string) : MW E unit :=
  ebdr_log;;;
  let a := scan [Cs; Cs; Cd] cmd in
  snap_disk <- cstring 64 (arg_str a 1 EmptyString);;
  let pid := arg_int a 2 garbage in
  w <- get (fun w => w);;
  if is_server_partner_id_valid pid w then snapshot_disk_init snap_disk pid else ebdr_log.

(** 'p' *)
Definition cmd_mkpartner (cmd : string) : MW E unit :=
  ebdr_log;;;
  let a := scan [Cs; Cs; Clu; Cs; Clu; Clu; Clu] cmd in
  partner_ip <- cstring 64 (arg_str a 1 garbage_str);;
  target_disk <- cstring 64 (arg_str a 3 garbage_str);;
  if validate_ipaddr partner_ip then
    make_partner_with_server partner_ip (arg_int a 2 garbage) target_disk
      (arg_int a 4 garbage) (arg_int a 5 garbage) (arg_int a 6 garbage)
  else ebdr_log.

(** 'k': a client command that asks whether the id is a server partner's. *)
Definition cmd_rmpartner (cmd : string) : MW E unit :=
  ebdr_log;;;
  let pid := arg_int (scan [Cs; Cd] cmd) 1 garbage in
  w <- get (fun w => w);;
  if is_server_partner_id_valid pid w then remove_partner_with_server pid else ebdr_log.

(** 'x' *)
Definition cmd_mkrelation (cmd : string) : MW E unit :=
  ebdr_log;;;
  let a := scan [Cs; Cd; Cd; Cs; Clu; Clu; Clu] cmd in
  let partnerid := arg_int a 1 garbage in
  disk <- cstring 64 (arg_str a 3 garbage_str);;
  w <- get (fun w => w);;
  if is_server_partner_id_valid partnerid w then
    ignore (make_relation_with_client partnerid (arg_int a 2 garbage) disk
      (arg_int a 4 garbage) (arg_int a 5 garbage) (arg_int a 6 garbage))
  else ebdr_log.

(** 'y' *)
Definition cmd_mkrelationpeer (cmd : string) : MW E unit :=
  ebdr_log;;;
  let a := scan [Cs; Cd; Cd; Cs; Clu; Clu; Clu] cmd in
  let partnerid := arg_int a 1 garbage in
  target_disk <- cstring 64 (arg_str a 3 garbage_str);;
  w <- get (fun w => w);;
  if is_client_partner_id_valid partnerid w then
    ignore (make_relation_with_server partnerid (arg_int a 2 garbage) target_disk
      (arg_int a 4 garbage) (arg_int a 5 garbage) (arg_int a 6 garbage))
  else ebdr_log.

(** 'o': the id is not validated. *)
Definition cmd_rmrelationpeer (cmd : string) : MW E unit :=
  ebdr_log;;; remove_relation_in_client (arg_int (scan [Cs; Cd] cmd) 1 garbage).

(** 'r' *)
Definition cmd_resync (cmd : string) : MW E unit :=
  ebdr_log;;;
  let pid := arg_int (scan [Cs; Cd] cmd) 1 garbage in
  w <- get (fun w => w);;
  if is_client_partner_id_valid pid w then ignore (resync_init pid 0) else ebdr_log.

(** 'n' *)
Definition pause_resync (pid : Z) : MW E unit :=
  r <- rd MAX_REPLICATIONS replic_client_obj pid;;
  if rp_last_bit r =? 0 then ebdr_log else
  wr MAX_PARTNERS all_partner_clients pid (fun p => p <| ptn_state := PARTNER_OBJ_PAUSE |>);;;
  wr MAX_REPLICATIONS replic_client_obj pid (fun r => r <| rp_state := RESYNC_PAUSE |>);;;
  update_into_partner pid PARTNER_OBJ_PAUSE "ebdrdbc";;;
  update_resync_state pid RESYNC_PAUSE "RESYNC_PAUSE" "ebdrdbc".

Definition cmd_pause (cmd : string) : MW E unit :=
  ebdr_log;;;
  let pid := arg_int (scan [Cs; Cd] cmd) 1 garbage in
  w <- get (fun w => w);;
  if is_client_partner_id_valid pid w then pause_resync pid else ebdr_log.

(** 'l' *)
Definition resume_resync (pid : Z) : MW E unit :=
  r <- rd MAX_REPLICATIONS replic_client_obj pid;;
  if rp_state r =? RESYNC_COMPLETED then ebdr_log else
  wr MAX_PARTNERS all_partner_clients pid (fun p => p <| ptn_state := PARTNER_OBJ_RESUME |>);;;
  wr MAX_REPLICATIONS replic_client_obj pid (fun r => r <| rp_state := RESYNC_RESUME |>);;;
  update_into_partner pid PARTNER_OBJ_RESUME "ebdrdbc";;;
  update_resync_state pid RESYNC_RESUME "RESYNC_RESUME " "ebdrdbc";;;
  r <- rd MAX_REPLICATIONS replic_client_obj pid;;
  ignore (resync_init pid (rp_last_bit r)).

Definition cmd_resume (cmd : string) : MW E unit :=
  ebdr_log;;;
  let pid := arg_int (scan [Cs; Cd] cmd) 1 garbage in
  w <- get (fun w => w);;
  if is_client_partner_id_valid pid w then resume_resync pid else ebdr_log.

(** 'z', in the server daemon ([srv]) and in the client daemon. *)
Definition cmd_dbinfo (srv : bool) : MW E unit :=
  if srv then ignore mkrelation_from_db_on_server
  else ignore mkpartner_from_db_on_client;;; ignore mkrelation_from_db_on_client.

Definition parse_daemon_request (srv : bool) (cmd : string) : MW E Z :=
  (match cmd with
   | String "a" _ | String "b" _ => cmd_log_level cmd
   | String "c" _ => cmd_create cmd
   | String "e" _ => _ <- get server_list_partners;; ebdr_log
   | String "f" _ => _ <- get client_list_partners;; ebdr_log
   | String "g" _ => cmd_grain cmd
   | String "i" _ => _ <- get server_list_relations;; ebdr_log
   | String "j" _ => _ <- get client_list_relations;; ebdr_log
   | String "m" _ => cmd_metadata cmd
   | String "s" _ => cmd_snap cmd
   | String "p" _ => cmd_mkpartner cmd
   | String "k" _ => cmd_rmpartner cmd
   | String "x" _ => cmd_mkrelation cmd
   | String "y" _ => cmd_mkrelationpeer cmd
   | String "o" _ => cmd_rmrelationpeer cmd
   | String "r" _ => cmd_resync cmd
   | String "n" _ => cmd_pause cmd
   | String "l" _ => cmd_resume cmd
   | String "z" _ => cmd_dbinfo srv
   | _ => ret tt
   end);;;
  ret 0.

(** What is read replaces the start of the zeroed buffer [str]; on an error it
    stays empty. *)
Definition read_from_fifo (fifo_fd : Z) : MW E (Z * mem) :=
  '(n, bytes) <- sys (fun e => let '(n, b, e') := os_read fifo_fd CMD_LEN e in ((n, b), e'));;
  if n <? 0 then _ <- sys (os_close fifo_fd);; ret (-1, []) else ret (n, bytes).

(** One iteration of [cntrl_thread_init] when the fifo is readable: a read
    error also parses, the empty buffer.  A read that fills the buffer leaves
    no terminator. *)
Definition cntrl_step (srv : bool) (fifo_fd : Z) : MW E unit :=
  '(retval, str) <- read_from_fifo fifo_fd;;
  assert_def (retval <? CMD_LEN);;;
  when (negb (retval =? 0)) (ignore (parse_daemon_request srv (bytes_string str))).

Definition open_fd_for_ioctl : MW E Z :=
  fd <- sys (os_open "/dev/ebdr_base" [O_RDWR]);;
  put ioctl_fd fd;;;
  when (fd <? 0) (ebdr_log;;; stop_work);;;
  ret 0.

(** [atexit_func]: the test of [obj_state] is an assignment. *)
Fixpoint atexit_loop (ids : list Z) : MW E unit :=
  match ids with
  | [] => ret tt
  | i :: ids' =>
      wr MAX_DISKS ebdr_disk_src_obj i (fun d => d <| dsk_state := DISK_OBJ_IN_USE |>);;;
      d <- rd MAX_DISKS ebdr_disk_src_obj i;;
      r <- sys (os_close (dsk_fd d));;
      when (r <? 0) (ebdr_log;;; stop_work);;;
      atexit_loop ids'
  end.

Definition atexit_func : MW E unit := ebdr_log;;; atexit_loop (zseq 0 MAX_DISKS).

(** ** [db_init] *)
Fixpoint for_ids (f : Z -> MW E unit) (ids : list Z) : MW E unit :=
  match ids with
  | [] => ret tt
  | i :: ids' => f i;;; for_ids f ids'
  end.

(** Lines 465-517: configuration, lock, connection, database, first tables. *)
Definition db_connect (db_name : string) : MW E unit :=
  ebdr_log;;;
  _ <- readConfig;;
  mutex_unlock;;;
  mutex_lock;;;
  ebdr_log;;;
  u <- get db_user;; p <- get db_pswrd;; h <- get db_host;;
  r <- sys (os_mysql_connect h u p);;
  when (r <? 0) (ebdr_log;;; finish_with_error);;;
  ebdr_log;;;
  str <- cstring 100 ("CREATE DATABASE IF NOT EXISTS" +:+ " " +:+ db_name);;
  mysql_query str;;;
  str <- cstring 100 (use_db db_name);;
  mysql_query str;;;
  mysql_query "CREATE TABLE IF NOT EXISTS Status(Id INT, PARTNERID INT, RELATIONID INT, Src TEXT, Date TEXT,	time TEXT, Percent INT)";;;
  mysql_query "CREATE TABLE IF NOT EXISTS partner(pid INT, state INT, ip CHAR(128), bandwidth INT)".

Definition sql_create_relation : string :=
  "CREATE TABLE IF NOT EXISTS relation(role  INT, pid INT, rid INT, state INT, disk CHAR(128), bitmap_size INT, grain_size INT, chunk_size INT)".
Definition sql_create_disk : string :=
  "CREATE TABLE IF NOT EXISTS disk(pid INT, name CHAR(128), snap_name CHAR(128), bitmap_size INT, state INT)".
Definition sql_create_resync : string :=
  "CREATE TABLE IF NOT EXISTS resync(pid INT, target_disk CHAR(128), last_resynced_bit INT, state INT, status CHAR(128))".

(** The body of the loop over the disks of the server. *)
Definition recover_source (i : Z) : MW E unit :=
  p <- rd MAX_PARTNERS all_partner_servers i;;
  let pid := ptn_id p in
  d <- rd MAX_DISKS ebdr_disk_src_obj pid;;
  _ <- ebdr_disk_init PRIMARY (dsk_name d) pid;;
  d <- rd MAX_DISKS ebdr_disk_src_obj pid;;
  snapshot_disk_init (dsk_snap d) pid;;;
  ebdr_user_bitmap_init LOCAL pid;;;
  _ <- replication_init REP_LOCAL pid;;
  r <- rd MAX_REPLICATIONS replic_server_obj pid;;
  (match rp_ops r with Some server_ops => replic_server_obj_setup pid | _ => undefined end);;;
  r <- rd MAX_RELATIONS all_relation_servers pid;;
  wr MAX_HDR replic_hdr_server_obj pid (fun h => h <| hd_grain := rel_grain r |> <| hd_chunk := rel_chunk r |>).

(** The daemon built with SERVER: the lines up to the number of its disks... *)
Definition db_read_server (db_name : string) : MW E Z :=
  db_connect db_name;;;
  n <- mkpartner_from_db_on_server;;
  for_ids (fun i => p <- rd MAX_PARTNERS all_partner_servers i;; wr MAX_PID recovery_mode (ptn_id p) (fun _ => 1))
    (zseq 0 n);;;
  mysql_query sql_create_relation;;;
  _ <- mkrelation_from_db_on_server;;
  mysql_query sql_create_disk;;;
  mkdisk_from_db_on_server.

(** ... and the recovery of the disks. *)
Definition db_init_server (db_name : string) : MW E unit :=
  n <- db_read_server db_name;;
  when (0 <? n)
    (for_ids recover_source (zseq 0 n);;;
     ebdr_connection_init CONN_SERVER (MAX_CONN + 1);;;
     ignore (op_server_setup (MAX_CONN + 1)));;;
  mysql_query sql_create_resync;;;
  ebdr_log;;;
  mutex_unlock.

(** The body of the loop over the unfinished resyncs of the client. *)
Definition recover_resync (i : Z) : MW E unit :=
  p <- rd MAX_PARTNERS all_partner_clients i;;
  let pid := ptn_id p in
  ebdr_connection_init CONN_CLIENT pid;;;
  p <- rd MAX_PARTNERS all_partner_clients pid;;
  fd <- op_client_setup pid (ptn_ip p);;
  wr MAX_PARTNERS all_partner_clients pid (fun p => p <| ptn_fd := fd |>);;;
  _ <- replication_init REP_REMOTE pid;;
  r <- rd MAX_REPLICATIONS replic_client_obj pid;;
  (match rp_ops r with Some client_ops => replic_client_obj_setup pid | _ => undefined end);;;
  d <- rd MAX_DISKS ebdr_disk_target_obj pid;;
  prepare_for_replication (dsk_name d) pid;;;
  d <- rd MAX_DISKS ebdr_disk_target_obj pid;;
  sys_ (os_blkflsbuf (dsk_fd d));;;
  r <- rd MAX_RELATIONS all_relation_clients pid;;
  wr MAX_HDR replic_hdr_client_obj pid (fun h => h <| hd_grain := rel_grain r |> <| hd_chunk := rel_chunk r |>);;;
  r <- rd MAX_REPLICATIONS replic_client_obj pid;;
  if negb (rp_state r =? RESYNC_COMPLETED) then
    ebdr_user_bitmap_init REMOTE pid;;;
    b <- rd MAX_BITMAP bitmap_client_obj pid;;
    (match ub_ops b with Some client_ops => ignore (load_bitmap_from_disk pid pid) | _ => undefined end);;;
    wr MAX_DISKS ebdr_disk_target_obj pid (fun d => d <| dsk_bitmap := Some (PClient pid) |>);;;
    b <- rd MAX_BITMAP bitmap_client_obj pid;;
    m <- block (ub_area b);;
    _ <- of_option (load 8 m 0);;
    ignore (resync_init pid (rp_last_bit r))
  else ebdr_log.

(** The daemon built with CLIENT. *)
Definition db_init_client (db_name : string) : MW E unit :=
  db_connect db_name;;;
  n <- mkpartner_from_db_on_client;;
  for_ids (fun i => p <- rd MAX_PARTNERS all_partner_clients i;; wr MAX_PID recovery_mode (ptn_id p) (fun _ => 1))
    (zseq 0 n);;;
  mysql_query sql_create_relation;;;
  _ <- mkrelation_from_db_on_client;;
  mysql_query sql_create_disk;;;
  _ <- mkdisk_from_db_on_client;;
  mysql_query sql_create_resync;;;
  n <- mkresync_from_db_on_client;;
  for_ids recover_resync (zseq 0 n);;;
  ebdr_log;;;
  mutex_unlock.
End daemon.
