(* ===== verification/Adm.v ===== *)
(** * utils/atdr_linux/atdr_adm.c: the administration command

    [adm_main ch argv]: what the switch does for the option [ch] that
    getopt_long reports, [argv] being the whole argument vector: write a line to
    the fifo of one of the daemons, or print something.  [None]: the line does
    not fit the buffer of 200 bytes. *)
From S2P Require Import Prelude Memory KernelState CMonad CString World.
From Stdlib Require Import Ascii.

Inductive fifo := serverfifo | clientfifo.
Inductive adm_out := AWrite (f : fifo) (buf : string) | AUsage | AInfo | AUnknown.

(** [sprintf(buf, ...)] and write. *)
Definition put_cmd (f : fifo) (buf : string) : option adm_out :=
  if cstr_fits 200 buf then Some (AWrite f buf) else None.

(** The arguments from [argv[2]] on, printed with %s. *)
Definition adm_args (argv : list string) (tail : string) : string :=
  line (map PStr (drop 2 argv)) tail.

Definition with_args (n : nat) (argv : list string) (f : fifo) (word tail : string) : option adm_out :=
  if decide (length argv = n) then put_cmd f (word +:+ adm_args argv tail) else Some AUsage.

(** 'z': [argv[2]] names a daemon. *)
Definition adm_dbinfo (argv : list string) : option adm_out :=
  if decide (length argv = 3%nat) then
    match argv !! 2%nat with
    | Some (String "c" _) | Some (String "C" _) => Some (AWrite serverfifo "z")
    | _ => Some (AWrite clientfifo "z")
    end
  else Some AUsage.

(** Lines 148-223 *)
Definition adm_a_to_j (ch : ascii) (argv : list string) : option (option adm_out) :=
  match ch with
  | "a" => Some (with_args 4 argv serverfifo "aserverlog" "")
  | "b" => Some (with_args 4 argv clientfifo "bclientlog" "")
  | "c" => Some (with_args 5 argv serverfifo "create" "")
  | "d" => Some (with_args 3 argv clientfifo "disk" "")
  | "e" => Some (Some (AWrite serverfifo "e"))
  | "f" => Some (Some (AWrite clientfifo "f"))
  | "g" => Some (with_args 4 argv serverfifo "grainset" "")
  | "i" => Some (Some (AWrite serverfifo "i"))
  | "j" => Some (Some (AWrite clientfifo "j"))
  | _ => None
  end%char%string.

(** Lines 225-284 *)
Definition adm_p_to_r (ch : ascii) (argv : list string) : option (option adm_out) :=
  match ch with
  | "p" => Some (with_args 8 argv clientfifo "partner" "")
  | "k" => Some (with_args 3 argv clientfifo "killpartner" "")
  | "o" => Some (with_args 3 argv clientfifo "ormrelation" "")
  | "h" => Some (Some (AWrite serverfifo "h"))
  | "m" => Some (with_args 3 argv clientfifo "metadata" "")
  | "r" => Some (with_args 3 argv clientfifo "resync" "")
  | _ => None
  end%char%string.

(** Lines 285-390 *)
Definition adm_n_to_z (ch : ascii) (argv : list string) : option adm_out :=
  match ch with
  | "n" => with_args 3 argv clientfifo "npause" ""
  | "l" => with_args 3 argv clientfifo "lresume" ""
  | "s" => with_args 4 argv serverfifo "snap" ""
  | "x" => with_args 8 argv serverfifo "x" " "
  | "y" => with_args 8 argv clientfifo "y" " "
  | "u" | "v" => Some AInfo
  | "w" => Some (AWrite serverfifo "w")
  | "z" => adm_dbinfo argv
  | "?" => Some AUsage
  | _ => Some AUnknown
  end%char%string.

Definition adm_main (ch : ascii) (argv : list string) : option adm_out :=
  match adm_a_to_j ch argv with
  | Some r => r
  | None => match adm_p_to_r ch argv with
            | Some r => r
            | None => adm_n_to_z ch argv
            end
  end.
