(* ===== verification/WinAdm.v ===== *)
(** * utils/atdr_windows/atdr_adm.c: the administration command on Windows

    The option table, the two functions that write to the pipes of the daemons,
    [main].  WriteFile is always given CMD_BUFFER_LEN bytes from the start of
    its argument: all of [main]'s [buf] where the line was printed to it, a
    one-letter literal and what the image holds [behind] it for the commands
    without arguments. *)
From S2P Require Import Prelude Memory KernelState CMonad CString World Adm.
From Stdlib Require Import Ascii.

(** The calls of the command; a failure is only printed.  [ap_CreateFile]
    opens the pipe of a daemon. *)
Class AdmPipe (E : Type) := {
  ap_fopen : E -> bool * E;
  ap_CreateFile : fifo -> E -> option Z * E;
  ap_WriteFile : Z -> mem -> E -> bool * E;
  ap_DisconnectNamedPipe : Z -> E -> E;
  ap_CloseHandle : Z -> E -> E;
}.

Definition CMD_BUFFER_LEN : nat := 200.

(** [cmdMap] *)
Definition adm_cmdMap : list (string * ascii) :=
  [("--serverlog"%string, "a"%char); ("--clientlog"%string, "b"%char); ("--create"%string, "c"%char); ("--disk"%string, "d"%char);
   ("--grain"%string, "g"%char); ("--halt"%string, "h"%char); ("--metadata"%string, "m"%char); ("--mkpartner"%string, "p"%char);
   ("--fullresync"%string, "q"%char); ("--rmpartner"%string, "k"%char); ("--listps"%string, "e"%char); ("--listpc"%string, "f"%char);
   ("--listrs"%string, "i"%char); ("--listrc"%string, "j"%char); ("--mkrelation"%string, "x"%char); ("--mkrelationpeer"%string, "y"%char);
   ("--rmrelationpeer"%string, "o"%char); ("--resync"%string, "r"%char); ("--pause"%string, "n"%char); ("--resume"%string, "l"%char);
   ("--snap"%string, "s"%char); ("--help"%string, "u"%char); ("--version"%string, "v"%char); ("--wait"%string, "w"%char); ("--dbinfo"%string, "z"%char)].

(** The loop on the table; without a match [ch] keeps what it holds. *)
Fixpoint find_option (table : list (string * ascii)) (arg : string) (ch : ascii) : ascii :=
  match table with
  | [] => ch
  | (cmd, c) :: table' => if decide (arg = cmd) then c else find_option table' arg ch
  end.

(** ** What the switch asks for *)
Inductive win_adm_out :=
  | WBuf (f : fifo) (line : string)  (* sprintf(buf, ...) and write buf *)
  | WLit (f : fifo) (s : string)     (* write a string literal *)
  | WPrint
  | WUnknown.

(** A case with [n] arguments: [None] is a line that overflows [buf]. *)
Definition win_with_args (n : nat) (argv : list string) (f : fifo) (word tail : string) : option win_adm_out :=
  if decide (length argv = n) then
    let buf := word +:+ adm_args argv tail in
    if cstr_fits 200 buf then Some (WBuf f buf) else None
  else Some WPrint.

Definition win_adm_a_to_q (ch : ascii) (argv : list string) : option (option win_adm_out) :=
  match ch with
  | "a" => Some (win_with_args 4 argv serverfifo "aserverlog" "")
  | "b" => Some (win_with_args 4 argv clientfifo "bclientlog" "")
  | "c" => Some (win_with_args 5 argv serverfifo "create" "")
  | "d" => Some (win_with_args 3 argv clientfifo "disk" "")
  | "e" => Some (Some (WLit serverfifo "e"))
  | "f" => Some (Some (WLit clientfifo "f"))
  | "g" => Some (win_with_args 4 argv serverfifo "grainset" "")
  | "i" => Some (Some (WLit serverfifo "i"))
  | "j" => Some (Some (WLit clientfifo "j"))
  | "p" => Some (win_with_args 8 argv clientfifo "partner" "")
  | "q" => Some (win_with_args 3 argv clientfifo "qfullresync" "")
  | _ => None
  end%char%string.

Definition win_adm_k_to_s (ch : ascii) (argv : list string) : option (option win_adm_out) :=
  match ch with
  | "k" => Some (win_with_args 3 argv clientfifo "killpartner" "")
  | "o" => Some (win_with_args 3 argv clientfifo "ormrelation" "")
  | "h" => Some (Some (WLit serverfifo "h"))
  | "m" => Some (win_with_args 3 argv clientfifo "metadata" "")
  | "r" => Some (win_with_args 3 argv clientfifo "resync" "")
  | "n" => Some (win_with_args 3 argv clientfifo "npause" "")
  | "l" => Some (win_with_args 3 argv clientfifo "lresume" "")
  | "s" => Some (win_with_args 4 argv serverfifo "snap" "")
  | _ => None
  end%char%string.

(** 'z': an argument that begins with c asks the server. *)
Definition win_adm_dbinfo (argv : list string) : win_adm_out :=
  if decide (length argv = 3%nat) then
    match argv !! 2%nat with
    | Some (String "c" _) | Some (String "C" _) => WLit serverfifo "z"
    | _ => WLit clientfifo "z"
    end
  else WPrint.

Definition win_adm_x_to_z (ch : ascii) (argv : list string) : option win_adm_out :=
  match ch with
  | "x" => win_with_args 8 argv serverfifo "x" " "
  | "y" => win_with_args 8 argv clientfifo "y" " "
  | "u" | "v" | "?" => Some WPrint
  | "w" => Some (WLit serverfifo "w")
  | "z" => Some (win_adm_dbinfo argv)
  | _ => Some WUnknown
  end%char%string.

Definition win_adm_switch (ch : ascii) (argv : list string) : option win_adm_out :=
  match win_adm_a_to_q ch argv with
  | Some r => r
  | None => match win_adm_k_to_s ch argv with
            | Some r => r
            | None => win_adm_x_to_z ch argv
            end
  end.

Section winadm.
Context {E : Type} `{AdmPipe E}.

(** ** The pipes *)

(** 1 is an error; the caller ignores it. *)
Definition write_on_server_fifo (cmd : mem) (e : E) : Z * E :=
  let '(hPipe, e) := ap_CreateFile serverfifo e in
  match hPipe with
  | None => (1, e)
  | Some hPipe =>
      let '(bResult, e) := ap_WriteFile hPipe (take CMD_BUFFER_LEN cmd) e in
      if negb bResult then (1, ap_CloseHandle hPipe e)
      else (0, ap_CloseHandle hPipe (ap_DisconnectNamedPipe hPipe e))
  end.

Definition write_on_client_fifo (cmd : mem) (e : E) : Z * E :=
  let '(hPipe, e) := ap_CreateFile clientfifo e in
  match hPipe with
  | None => (1, e)
  | Some hPipe =>
      let '(bResult, e) := ap_WriteFile hPipe (take CMD_BUFFER_LEN cmd) e in
      if negb bResult then (1, ap_CloseHandle hPipe e) else (0, ap_CloseHandle hPipe e)
  end.

Definition write_on_fifo (f : fifo) : mem -> E -> Z * E :=
  match f with serverfifo => write_on_server_fifo | clientfifo => write_on_client_fifo end.

(** ** main

    [garbage], [buf]: the locals [ch] and [buf] as the function finds them.
    The result is the exit status; [None]: [buf] overflows. *)
Context (garbage : ascii) (buf : mem) (behind : string -> mem).

Definition win_adm_main (argv : list string) (e : E) : option (Z * E) :=
  let '(ebdrlog_fp, e) := ap_fopen e in
  if negb ebdrlog_fp then Some (-1, e) else
  match argv !! 1%nat with
  | None => Some (-2, e)
  | Some opt =>
      match win_adm_switch (find_option adm_cmdMap opt garbage) argv with
      | None => None
      | Some (WBuf f line) => Some (0, snd (write_on_fifo f (put_string line buf) e))
      | Some (WLit f s) => Some (0, snd (write_on_fifo f (string_bytes s ++ 0 :: behind s) e))
      | Some WPrint => Some (0, e)
      | Some WUnknown => Some (-2, e)
      end
  end.
End winadm.
