(* ===== verification/CommonLink.v ===== *)
(** * user/common/atdr_daemon.c: watching the network link

    The daemon of user/common listens on a netlink socket and pauses or
    reconnects a client when a network interface goes down or comes up.  The
    structures and macros of <linux/netlink.h> and <linux/rtnetlink.h> are
    written out: a header of 16 bytes, its lengths rounded up to 4. *)
From S2P Require Import Prelude Memory KernelState CMonad CString World.

Definition NLMSG_DONE : Z := 3.
Definition NLMSG_ERROR : Z := 2.
Definition RTM_NEWLINK : Z := 16.
Definition IFF_RUNNING : Z := 0x40.
Definition NLMSG_HDRLEN : Z := 16.
Definition NLMSG_ALIGN (len : Z) : Z := Z.land (u32 (len + 3)) (Z.lnot 3).
Definition EAGAIN : Z := 11.
Definition BITMAP_OBJ_RESUME : Z := 2.

(** Without the RECOVERY state of user/atdr_linux. *)
Definition CM_PARTNER_OBJ_RESUME : Z := 4.

(** The netlink socket, and the global [link_down], which only this daemon has. *)
Class LinkOS (E : Type) := {
  lo_socket : E -> Z * E;
  lo_bind : Z -> E -> Z * E;
  lo_recvmsg : Z -> E -> Z * mem * E;  (* the result and [buf] after the call *)
  lo_select : E -> (bool * bool) * E;  (* are the fifo, the socket set after [select]? *)
  lo_link_down : E -> Z;
  lo_set_link_down : Z -> E -> E;
}.

Section common_link.
Context {E : Type} `{OS E} `{LinkOS E}.

(** The partner the link belongs to: no statement assigns it. *)
Definition g_pid : Z := -1.

Definition set_link_down (v : Z) : MW E unit := sys_ (lo_set_link_down v).

Definition create_new_connection (pid : Z) (ip_addr : string) : MW E Z :=
  sockFd <- sys os_socket;;
  when (sockFd <? 0) stop_work;;;
  ebdr_log;;;
  wr MAX_CONN ebdr_conn_client pid (fun c => c <| cn_sockFd := sockFd |>);;;
  r <- sys (os_connect sockFd ip_addr SRV_TCP_PORT);;
  (if r <? 0 then stop_work else ebdr_log);;;
  ret 0.

Definition restart_connection (pid : Z) : MW E unit :=
  p <- rd MAX_PARTNERS all_partner_clients pid;;
  _ <- create_new_connection pid (ptn_ip p);;
  c <- rd MAX_CONN ebdr_conn_client pid;;
  wr MAX_PARTNERS all_partner_clients pid (fun p => p <| ptn_fd := cn_sockFd c |>);;;
  wr MAX_BITMAP bitmap_client_obj pid (fun b => b <| ub_obj_state := BITMAP_OBJ_RESUME |>);;;
  p <- rd MAX_PARTNERS all_partner_clients pid;;
  when (ptn_state p =? PARTNER_OBJ_PAUSE)
    (wr MAX_PARTNERS all_partner_clients pid (fun p => p <| ptn_state := CM_PARTNER_OBJ_RESUME |>)).

Definition link_status_check_init : MW E Z :=
  nl_socket <- sys lo_socket;;
  if nl_socket <? 0 then stop Exited else
  r <- sys (lo_bind nl_socket);;
  if r <? 0 then stop Exited else ret nl_socket.

(** The message says the interface is up. *)
Definition link_up (srv : bool) : MW E unit :=
  set_link_down 0;;;
  when (negb srv) (restart_connection g_pid).

Definition link_lost (srv : bool) : MW E unit :=
  set_link_down 1;;;
  (if srv then
     c <- rd (MAX_CONN + 2) ebdr_conn_server g_pid;;
     sys_ (os_shutdown (cn_fd c));;;
     ignore (sys (os_close (cn_fd c)))
   else
     wr MAX_BITMAP bitmap_client_obj g_pid (fun b => b <| ub_obj_state := BITMAP_OBJ_PAUSE |>);;;
     wr MAX_PARTNERS all_partner_clients g_pid (fun p => p <| ptn_state := PARTNER_OBJ_PAUSE |>)).

(** NLMSG_OK with the length cast to unsigned int. *)
Definition NLMSG_OK (nlmsg_len status : Z) : bool :=
  (NLMSG_HDRLEN <=? u32 status) && (NLMSG_HDRLEN <=? nlmsg_len) && (nlmsg_len <=? u32 status).

(** The loop over the messages of [buf], at offset [h]; [None]: it ends without
    a return, [Blocked]: it does not end.  The first conjunct of NLMSG_OK guards the reading of the header.
    A read outside [buf] is undefined. *)
Fixpoint link_messages (fuel : nat) (srv : bool) (buf : mem) (h status : Z) : MW E (option Z) :=
  match fuel with
  | O => stop Blocked
  | S fuel' =>
      if negb (NLMSG_HDRLEN <=? u32 status) then ret None else
      nlmsg_len <- of_option (load 4 buf h);;
      if negb (NLMSG_OK nlmsg_len status) then ret None else
      nlmsg_type <- of_option (load 2 buf (h + 4));;
      if nlmsg_type =? NLMSG_DONE then ret (Some 0) else
      if nlmsg_type =? NLMSG_ERROR then ret (Some (-1)) else
      (if nlmsg_type =? RTM_NEWLINK then
         ifi_flags <- of_option (load 4 buf (h + NLMSG_HDRLEN + 8));;
         if negb (Z.land ifi_flags IFF_RUNNING =? 0) then link_up srv else link_lost srv
       else ret tt);;;
      link_messages fuel' srv buf (h + NLMSG_ALIGN nlmsg_len) (i32 (status - NLMSG_ALIGN nlmsg_len))
  end.

(** A round that advances takes at least 16 bytes of the 4096 of [buf]; one that
    does not (NLMSG_ALIGN of a length above 2^32 - 4 is 0) is repeated for ever. *)
Definition link_fuel : nat := 257.

Definition link_status_check (srv : bool) (nl_socket : Z) : MW E (option Z) :=
  '(status, buf) <- sys (fun e => let '(n, b, e') := lo_recvmsg nl_socket e in ((n, b), e'));;
  if status <? 0 then
    e <- get ext;;
    if os_errno e =? EAGAIN then ret (Some 0) else ret (Some status)
  else link_messages link_fuel srv buf 0 status.
End common_link.
