(* ===== verification/CommonDb.v ===== *)
(** * user/common/atdr_db.c: the statements

    The daemon of user/common shares its data and most of its functions, word
    for word, with user/atdr_linux; the models of those are used from the files
    of that daemon.  Here and in CommonResync and CommonServer are the functions
    it has different.  Its tables have no state columns.  [recovery_mode] is one
    [int] here; it is kept in element 0. *)
From S2P Require Import Prelude Memory KernelState CMonad CString World Db.

Section common_db.
Context {E : Type} `{OS E}.

Definition cm_sql_update_resync (pid last : Z) : string :=
  sconcat ["UPDATE resync SET last_resynced_bit = "; dec last; " "; "WHERE pid = "; dec pid]%string.

Definition cm_update_into_resync (pid : Z) (target_disk : string) (last : Z) (db_name : string) : MW E unit :=
  locked_query 100 db_name (cm_sql_update_resync pid last).

Definition cm_sql_insert_resync (pid : Z) (target_disk : string) (last : Z) : string :=
  sconcat ["INSERT INTO resync VALUES("; dec pid; ",'"; target_disk; "',"; dec last; ")"]%string.

Definition cm_insert_into_resync (pid : Z) (target_disk : string) (last : Z) (db_name : string) : MW E unit :=
  locked_query 100 db_name (cm_sql_insert_resync pid target_disk last).

(** The lock is commented out. *)
Definition cm_update_into_disk (pid : Z) (name snap_name db_name : string) : MW E unit :=
  str <- cstring 100 (use_db db_name);;
  mysql_query str;;;
  str <- cstring 100 (sql_update_disk pid name snap_name);;
  mysql_query str.

Definition cm_sql_insert_disk (pid : Z) (name snap_name : string) (bitmap_size : Z) : string :=
  sconcat ["INSERT INTO disk VALUES("; dec pid; ",'"; name; "'"; ","; "'"; snap_name; "',"; dec bitmap_size; ")"]%string.

Definition cm_insert_into_disk (pid : Z) (name snap_name : string) (bitmap_size : Z) (db_name : string) : MW E unit :=
  locked_query 100 db_name (cm_sql_insert_disk pid name snap_name bitmap_size).

(** [__DATE__] and [__TIME__] are 11 and 8 characters. *)
Definition sql_insert_status (date time : string) (percent partner_id relation_id : Z) (disk_name : string) : string :=
  sconcat ["INSERT INTO Status VALUES(1, "; dec partner_id; ","; dec relation_id; ", '"; disk_name; "','"; date;
           "','"; time; "',"; " "; dec percent; " "; ")"]%string.

Definition insert_into_db (date time : string) (percent partner_id relation_id : Z) (disk_name db_name : string) : MW E Z :=
  locked_query 200 db_name (sql_insert_status date time percent partner_id relation_id disk_name);;;
  ret 0.

(** ** Reading back *)
Definition cm_retrieve_from_resync : MW E Z :=
  rows <- select_rows "select * from resync";;
  fetch_rows (fun i row =>
    a <- column row 1 Cs;; d <- rd MAX_DISKS ebdr_disk_target_obj i;;
    name <- cstring 64 (arg_str a 0 (dsk_name d));;
    wr MAX_DISKS ebdr_disk_target_obj i (fun d => d <| dsk_name := name |>);;;
    a <- column row 2 Clu;;
    wr MAX_REPLICATIONS replic_client_obj i (fun r => r <| rp_last_bit ::= arg_int a 0 |>)) 0 rows.

Definition cm_retrieve_from_disk (disks : world E -> gmap Z ebdr_disk) `{!Setter disks} : MW E Z :=
  rows <- select_rows "select * from disk";;
  fetch_rows (fun i row =>
    d <- rd MAX_DISKS disks i;;
    a <- column row 1 Cs;; name <- cstring 64 (arg_str a 0 (dsk_name d));;
    wr MAX_DISKS disks i (fun d => d <| dsk_name := name |>);;;
    a <- column row 2 Cs;; snap <- cstring 64 (arg_str a 0 (dsk_snap d));;
    wr MAX_DISKS disks i (fun d => d <| dsk_snap := snap |>);;;
    a <- column row 3 Clu;;
    wr MAX_DISKS disks i (fun d => d <| dsk_bitmap_size ::= arg_int a 0 |>)) 0 rows.

Definition cm_retrieve_from_partner (partners : world E -> gmap Z partner_t) `{!Setter partners} : MW E Z :=
  rows <- select_rows "select * from partner";;
  fetch_rows (fun i row =>
    a <- column row 0 Cd;;
    wr MAX_PARTNERS partners i (fun p => p <| ptn_id ::= arg_int a 0 |>);;;
    a <- column row 1 Cu;;
    wr MAX_PARTNERS partners i (fun p => p <| ptn_state ::= arg_int a 0 |>);;;
    a <- column row 2 Cs;; p <- rd MAX_PARTNERS partners i;; ip <- cstring 64 (arg_str a 0 (ptn_ip p));;
    wr MAX_PARTNERS partners i (fun p => p <| ptn_ip := ip |>);;;
    a <- column row 3 Clu;;
    wr MAX_PARTNERS partners i (fun p => p <| ptn_bandwidth ::= arg_int a 0 |>)) 0 rows.

Definition cm_retrieve_from_relation (relations : world E -> gmap Z relation_t) `{!Setter relations} : MW E Z :=
  rows <- select_rows "select * from relation";;
  fetch_rows (fun i row =>
    a <- column row 0 Cu;; wr MAX_RELATIONS relations i (fun r => r <| rel_role ::= arg_int a 0 |>);;;
    a <- column row 1 Cd;; wr MAX_RELATIONS relations i (fun r => r <| rel_partner ::= arg_int a 0 |>);;;
    a <- column row 2 Cd;; wr MAX_RELATIONS relations i (fun r => r <| rel_id ::= arg_int a 0 |>);;;
    a <- column row 3 Cu;; wr MAX_RELATIONS relations i (fun r => r <| rel_state ::= arg_int a 0 |>);;;
    a <- column row 4 Cs;; r <- rd MAX_RELATIONS relations i;;
    device <- cstring 64 (arg_str a 0 (rel_device r));;
    wr MAX_RELATIONS relations i (fun r => r <| rel_device := device |>);;;
    a <- column row 5 Clu;; wr MAX_RELATIONS relations i (fun r => r <| rel_bitmap ::= arg_int a 0 |>);;;
    a <- column row 6 Clu;; wr MAX_RELATIONS relations i (fun r => r <| rel_grain ::= arg_int a 0 |>);;;
    a <- column row 7 Clu;; wr MAX_RELATIONS relations i (fun r => r <| rel_chunk ::= arg_int a 0 |>)) 0 rows.
End common_db.
