(* ===== verification/CommonResync.v ===== *)
(** * user/common: the client's resync and its recovery

    atdr_resync.c, atdr_recovery.c and the parts of atdr_daemon.c that start a
    resync.  Nothing here resumes from a recorded state: there is no
    RESYNC_COMPLETED, and a restarted connection stays in the PAUSE state. *)
From S2P Require Import Prelude Memory KernelState CMonad CString World UBitmap Db Partner Relation Disk Header.
From S2P Require Import ReplicServer Resync ReplicClient CommonLink CommonDb.

Section common_resync.
Context {E : Type} `{OS E}.

(** atdr_io_engine_client.c: without the test for ETIMEDOUT. *)
Definition cm_chunk_read_client (fd : Z) (buff : mem) (size start_lba : Z) : MW E (Z * mem) :=
  ebdr_log;;;
  '(n, bytes) <- sys (fun e => let '(n, b, e') := os_recv fd size e in ((n, b), e'));;
  if n <? 0 then ebdr_log;;; ret (-1, buff)
  else ret (0, fill bytes buff).

Definition cm_replication_terminate (pid : Z) : MW E unit :=
  wr MAX_HDR replic_hdr_client_obj pid (fun h => h <| hd_opcode := RPLC_TERMINATION |>);;;
  p <- rd MAX_PARTNERS all_partner_clients pid;;
  when (negb (ptn_state p =? PARTNER_OBJ_PAUSE))
    (printf;;; wr MAX_REPLICATIONS replic_client_obj pid (fun r => r <| rp_last_bit := 0 |>));;;
  d <- rd MAX_DISKS ebdr_disk_target_obj pid;;
  sys_ (os_blkflsbuf (dsk_fd d));;;
  ebdr_log;;;
  h <- rd MAX_HDR replic_hdr_client_obj pid;;
  _ <- client_rep_send pid (PHdr h) (ptn_fd p) PROTO_TYPE;;
  ebdr_log;;;
  p <- rd MAX_PARTNERS all_partner_clients pid;;
  when (ptn_state p =? CM_PARTNER_OBJ_RESUME)
    (wr MAX_PARTNERS all_partner_clients pid (fun p => p <| ptn_state := PARTNER_OBJ_RELEASED |>));;;
  b <- rd MAX_BITMAP bitmap_client_obj pid;;
  match ub_ops b with Some client_ops => bitmap_client_destroy pid | _ => undefined end.

(** ** The loop *)
Definition cm_chunk_round (pid bit_pos chunk_id : Z) (buff : mem) : MW E (option chunk_result * mem) :=
  wr MAX_HDR replic_hdr_client_obj pid (fun h => h <| hd_curr := bit_pos |> <| hd_chunk_pos := chunk_id |>
    <| hd_partner := pid |> <| hd_opcode := DATA |>);;;
  ebdr_log;;;
  wr MAX_IO io_client_obj pid (fun o => o <| io_ops := Some client_ops |>);;;
  p <- rd MAX_PARTNERS all_partner_clients pid;;
  if ptn_state p =? PARTNER_OBJ_PAUSE then printf;;; ret (Some chunks_paused, buff) else
  h <- rd MAX_HDR replic_hdr_client_obj pid;;
  r <- client_rep_send pid (PHdr h) (ptn_fd p) PROTO_TYPE;;
  if r <? 0 then abandon_conn pid;;; ret (Some resync_returned, buff) else
  let start_lba := u64 (bit_pos * hd_grain h + chunk_id * hd_chunk h) in
  ebdr_log;;;
  '(r, buff) <- cm_chunk_read_client (ptn_fd p) buff BUF_SIZE_IN_BYTES start_lba;;
  if r <? 0 then abandon_conn pid;;; ret (Some resync_returned, buff) else
  d <- rd MAX_DISKS ebdr_disk_target_obj pid;;
  r <- chunk_write_client (dsk_fd d) buff BUF_SIZE_IN_BYTES start_lba;;
  when (r <? 0)
    (wr MAX_DISKS ebdr_disk_target_obj pid (fun d => d <| dsk_state := DISK_OBJ_PAUSE |>);;;
     ebdr_log;;;
     pthread_cancel_self);;;
  ret (None, buff).

Fixpoint cm_chunk_loop (n : nat) (pid bit_pos chunk_id : Z) (buff : mem) : MW E (chunk_result * mem) :=
  match n with
  | O => ret (chunks_done, buff)
  | S n' =>
      '(stop_, buff) <- cm_chunk_round pid bit_pos chunk_id buff;;
      match stop_ with
      | Some c => ret (c, buff)
      | None => cm_chunk_loop n' pid bit_pos (chunk_id + 1) buff
      end
  end.

Fixpoint cm_grain_loop (fuel : nat) (pid bit_pos total_iterations : Z) (mode : rep_mode_t) (buff : mem) : MW E bool :=
  match fuel with
  | O => ret true
  | S fuel' =>
      bits <- target_bits pid;;
      p <- rd MAX_PARTNERS all_partner_clients pid;;
      if negb ((bit_pos <? bits) && negb (ptn_state p =? PARTNER_OBJ_PAUSE)) then ret true else
      set_ <- target_bit pid bit_pos;;
      '(c, buff) <-
        (if set_ || (match mode with FULL_RESYNC => true | NO_RESYNC => false end) then
           '(c, buff) <- cm_chunk_loop (Z.to_nat (u64 total_iterations)) pid bit_pos 0 buff;;
           match c with
           | resync_returned => ret (c, buff)
           | _ =>
               d <- rd MAX_DISKS ebdr_disk_target_obj pid;;
               cm_update_into_resync pid (dsk_name d) bit_pos "ebdrdbc";;;
               ret (c, buff)
           end
         else ret (chunks_done, buff));;
      match c with
      | resync_returned => ret false
      | _ =>
          wr MAX_REPLICATIONS replic_client_obj pid (fun r => r <| rp_last_bit := bit_pos |>);;;
          cm_grain_loop fuel' pid (bit_pos + 1) total_iterations mode buff
      end
  end.

Definition cm_resync_prologue (pid bit_pos : Z) : MW E Z :=
  h <- rd MAX_HDR replic_hdr_client_obj pid;;
  assert_def (negb (hd_chunk h =? 0));;;
  let total_iterations := i32 (hd_grain h / hd_chunk h) in
  wr MAX_HDR replic_hdr_client_obj pid (fun h => h <| hd_opcode := DATA |>);;;
  ebdr_log;;;
  rm <- rd MAX_PID recovery_mode 0;;
  (if rm =? 1 then wr MAX_PID recovery_mode 0 (fun _ => 0)
   else when (bit_pos =? 0)
     (d <- rd MAX_DISKS ebdr_disk_target_obj pid;;
      cm_insert_into_resync pid (dsk_name d) bit_pos "ebdrdbc"));;;
  ret total_iterations.

Definition cm_resync_epilogue (pid : Z) : MW E unit :=
  p <- rd MAX_PARTNERS all_partner_clients pid;;
  when (ptn_state p =? PARTNER_OBJ_PAUSE) (ebdr_log;;; pthread_cancel_self);;;
  cm_replication_terminate pid.

Definition cm_restart_resync (pid bit_pos : Z) (mode : rep_mode_t) : MW E unit :=
  total_iterations <- cm_resync_prologue pid bit_pos;;
  finished <- cm_grain_loop (Z.to_nat (MAX_BITS_LEN + 1)) pid bit_pos total_iterations mode
    (replicate (Z.to_nat BUF_SIZE_IN_BYTES) 0);;
  when finished (cm_resync_epilogue pid).

(** ** atdr_daemon.c *)
Definition cm_resync_handler (slot : Z) : MW E unit :=
  t <- rd (MAX_DISKS + CNTRL_THREADS) thread_params slot;;
  let pid := th_pid t in
  _ <- cstring 10 ("./log" +:+ dec pid +:+ ".txt");;
  ebdr_log;;;
  p <- rd MAX_PARTNERS all_partner_clients pid;;
  d <- rd MAX_DISKS ebdr_disk_target_obj pid;;
  bit_pos <- (if (ptn_state p =? CM_PARTNER_OBJ_RESUME) || (dsk_state d =? DISK_OBJ_PAUSE) then
                r <- rd MAX_REPLICATIONS replic_client_obj pid;; ebdr_log;;; ret (rp_last_bit r)
              else ret (th_bit_pos t));;
  cm_restart_resync pid bit_pos NO_RESYNC.

(** The target object's bitmap pointer is set again between the two set-ups. *)
Definition cm_request_server_for_metadata (pid : Z) : MW E unit :=
  ebdr_user_bitmap_init REMOTE pid;;;
  wr MAX_HDR replic_hdr_client_obj pid (fun h => h <| hd_opcode := BITMAP_METADATA |> <| hd_partner := pid |>);;;
  let setup := b <- rd MAX_BITMAP bitmap_client_obj pid;;
               match ub_ops b with Some client_ops => ignore (bitmap_client_setup pid) | _ => undefined end in
  b <- rd MAX_BITMAP bitmap_client_obj pid;;
  when (negb (ub_obj_state b =? BITMAP_OBJ_PAUSE))
    (setup;;;
     ebdr_log;;;
     h <- rd MAX_HDR replic_hdr_client_obj pid;;
     p <- rd MAX_PARTNERS all_partner_clients pid;;
     _ <- client_rep_send pid (PHdr h) (ptn_fd p) PROTO_TYPE;;
     b <- rd MAX_BITMAP bitmap_client_obj pid;;
     _ <- client_rep_recv_data pid pid (ub_size b) (ptn_fd p);;
     wr MAX_DISKS ebdr_disk_target_obj pid (fun d => d <| dsk_bitmap := Some (PClient pid) |>);;;
     setup;;;
     b <- rd MAX_BITMAP bitmap_client_obj pid;;
     m <- block (ub_area b);;
     _ <- of_option (load 8 m 0);;
     ebdr_log).

(** The commands 'n' and 'l' of parse_daemon_request. *)
Definition cm_cmd_pause (garbage : Z) (cmd : string) : MW E unit :=
  ebdr_log;;;
  let pid := arg_int (scan [Cs; Cd] cmd) 1 garbage in
  w <- get (fun w => w);;
  if is_client_partner_id_valid pid w then
    r <- rd MAX_REPLICATIONS replic_client_obj pid;;
    if rp_last_bit r =? 0 then ebdr_log
    else wr MAX_PARTNERS all_partner_clients pid (fun p => p <| ptn_state := PARTNER_OBJ_PAUSE |>)
  else ebdr_log.

Definition cm_cmd_resume (garbage : Z) (cmd : string) : MW E unit :=
  ebdr_log;;;
  let pid := arg_int (scan [Cs; Cd] cmd) 1 garbage in
  w <- get (fun w => w);;
  if is_client_partner_id_valid pid w then
    p <- rd MAX_PARTNERS all_partner_clients pid;;
    if ptn_state p =? PARTNER_OBJ_RELEASED then ebdr_log
    else wr MAX_PARTNERS all_partner_clients pid (fun p => p <| ptn_state := CM_PARTNER_OBJ_RESUME |>);;;
         ignore (resync_init pid 0)
  else ebdr_log.

(** ** atdr_recovery.c *)
Definition cm_restart_disk (pid : Z) : MW E unit :=
  wr MAX_DISKS ebdr_disk_target_obj pid (fun d => d <| dsk_state := DISK_OBJ_RESUME |>);;;
  ebdr_log;;;
  ignore (resync_init pid 0).

Definition cm_restart_conn_server (pid : Z) : MW E unit :=
  c <- rd (MAX_CONN + 2) ebdr_conn_server pid;;
  wr MAX_PARTNERS all_partner_servers pid (fun p => p <| ptn_fd := cn_sockFd c |>);;;
  printf.

Definition cm_create_new_conn_client (pid : Z) (ip_addr : string) : MW E Z :=
  sockFd <- sys os_socket;;
  when (sockFd <? 0) stop_work;;;
  ebdr_log;;;
  wr MAX_CONN ebdr_conn_client pid (fun c => c <| cn_sockFd := sockFd |>);;;
  r <- sys (os_connect sockFd ip_addr SRV_TCP_PORT);;
  (if r <? 0 then stop_work else ebdr_log);;;
  ret 0.

Definition cm_restart_conn_client (pid : Z) : MW E unit :=
  p <- rd MAX_PARTNERS all_partner_clients pid;;
  _ <- cm_create_new_conn_client pid (ptn_ip p);;
  c <- rd MAX_CONN ebdr_conn_client pid;;
  wr MAX_PARTNERS all_partner_clients pid (fun p => p <| ptn_fd := cn_sockFd c |>);;;
  printf;;;
  r <- rd MAX_REPLICATIONS replic_client_obj pid;;
  ignore (resync_init pid (rp_last_bit r)).

Definition cm_recovery_disk_client (garbage pid : Z) : MW E unit :=
  d <- rd MAX_DISKS ebdr_disk_target_obj pid;;
  when (dsk_state d =? DISK_OBJ_PAUSE)
    (r <- sys (os_close (dsk_fd d));;
     when (r <? 0) (ebdr_log;;; stop_work);;;
     other <- rd MAX_DISKS ebdr_disk_target_obj garbage;;
     fd <- sys (os_open (dsk_name other) [O_RDWR; O_TRUNC]);;
     wr MAX_DISKS ebdr_disk_target_obj pid (fun d => d <| dsk_fd := fd |>);;;
     when (fd <? 0) (ebdr_log;;; stop_work);;;
     cm_restart_disk pid).

Definition cm_recovery_disk_server (garbage pid : Z) : MW E unit :=
  d <- rd MAX_DISKS ebdr_disk_src_obj pid;;
  when (dsk_state d =? DISK_OBJ_PAUSE)
    (r <- sys (os_close (dsk_fd d));;
     when (r <? 0) (ebdr_log;;; stop_work);;;
     other <- rd MAX_DISKS ebdr_disk_src_obj garbage;;
     fd <- sys (os_open (dsk_name other) [O_RDWR; O_TRUNC]);;
     wr MAX_DISKS ebdr_disk_src_obj pid (fun d => d <| dsk_fd := fd |>);;;
     when (fd <? 0) (ebdr_log;;; stop_work);;;
     cm_restart_disk pid).

Definition cm_recovery_conn_client (pid : Z) : MW E unit :=
  c <- rd MAX_CONN ebdr_conn_client pid;;
  when (cn_state c =? CONN_OBJ_PAUSE) (cm_restart_conn_client pid).

Definition cm_recovery_conn_server (pid : Z) : MW E unit :=
  c <- rd (MAX_CONN + 2) ebdr_conn_server pid;;
  when (cn_state c =? CONN_OBJ_PAUSE) (cm_restart_conn_server pid).

Fixpoint cm_recovery_round (srv : bool) (garbage : Z) (pids : list Z) : MW E unit :=
  match pids with
  | [] => ret tt
  | pid :: pids' =>
      (if srv then cm_recovery_disk_server garbage pid;;; cm_recovery_conn_server pid
       else cm_recovery_disk_client garbage pid;;; cm_recovery_conn_client pid);;;
      cm_recovery_round srv garbage pids'
  end.
End common_resync.
