(* ===== verification/CommonServer.v ===== *)
(** * user/common: the server's requests and connections

    atdr_bitmap_server.c, replic_server.c and atdr_conn_server.c where they
    differ from user/atdr_linux.  The accepting thread has one static
    [sockfd_pid_var], which every receiving thread is given a pointer to; it is
    element 0 here.  [link_down] is a global of this daemon ([LinkOS]). *)
From S2P Require Import Prelude Memory KernelState CMonad CString World UBitmap Db Partner Relation Disk Header.
From S2P Require Import ReplicServer ConnServer CommonLink CommonDb.

Section common_server.
Context {E : Type} `{OS E} `{LinkOS E}.

(** ** The bitmap *)

(** The copy of the half to the buffer, without the statements on [bmap_user]. *)
Definition copy_half (ub pid : Z) (half : ebdr_disk -> option mptr) : MW E unit :=
  b <- rd MAX_BITMAP bitmap_server_obj ub;;
  d <- rd MAX_DISKS ebdr_disk_src_obj pid;;
  '(soff, src) <- map_bytes (half d);;
  dest <- block (ub_area b);;
  dest' <- of_option (ebdr_copy_mmaped_bitmap (ub_size b) soff src dest);;
  set_block (ub_area b) dest'.

(** The half is copied before the mode is looked at: a recovering or resumed
    connection copies a second time, without noting which half it took. *)
Definition cm_load_from_memory (ub pid : Z) : MW E Z :=
  modify (fun w => w <| ioctl_obj ::= fun o => o <| io_index := pid + 1 |> |>);;;
  user <- prepare_and_send_ioctl_cmd EBDRCTL_GET_USER;;
  when (user <? 0) stop_work;;;
  d <- rd MAX_DISKS ebdr_disk_src_obj pid;;
  wr MAX_BITMAP bitmap_server_obj ub (fun b => b <| ub_size := dsk_bitmap_size d |>);;;
  (if user =? KERNEL then take_half ub pid USER dsk_active else take_half ub pid KERNEL dsk_backup);;;
  b <- rd MAX_BITMAP bitmap_server_obj ub;;
  m <- block (ub_area b);;
  _ <- of_option (load 8 m 0);;
  _ <- deref_map (dsk_active d);;
  ebdr_log;;;
  rec <- rd MAX_PID recovery_mode 0;;
  c <- rd (MAX_CONN + 2) ebdr_conn_server pid;;
  (if (rec =? 0) && negb (cn_state c =? CONN_OBJ_RESUME) then
     ebdr_log;;;
     ret_ <- prepare_and_send_ioctl_cmd EBDR_FLIP_BITMAP_AREA;;
     when (ret_ <? 0) stop_work;;;
     ebdr_log
   else
     wr (MAX_CONN + 2) ebdr_conn_server pid (fun c => c <| cn_state := CONN_OBJ_IN_USE |>);;;
     v <- deref_map (dsk_active d);;
     (if negb (v =? 0) then copy_half ub pid dsk_active else copy_half ub pid dsk_backup));;;
  b <- rd MAX_BITMAP bitmap_server_obj ub;;
  m <- block (ub_area b);;
  _ <- of_option (load 8 m 0);;
  ebdr_log;;;
  ret 0.

Definition cm_bitmap_server_setup (ub pid : Z) : MW E Z :=
  ebdr_log;;;
  b <- rd MAX_BITMAP bitmap_server_obj ub;;
  ret_ <- (match ub_ops b with Some server_ops => cm_load_from_memory ub pid | _ => undefined end);;
  when (ret_ <? 0) (ebdr_log;;; stop_work);;;
  b <- rd MAX_BITMAP bitmap_server_obj ub;;
  m <- block (ub_area b);;
  n <- of_option (get_total_bits_set m);;
  wr MAX_BITMAP bitmap_server_obj ub (fun b => b <| ub_total := n |>);;;
  ebdr_log;;;
  wr MAX_BITMAP bitmap_server_obj ub (fun b => b <| ub_state := EBDR_UBITMAP_READY |>);;;
  ret 0.

(** ** replic_server.c *)

(** The result of the send is not looked at. *)
Definition cm_get_bitmap (h : replic_header) : MW E replic_header :=
  let pid := hd_partner h in
  ebdr_user_bitmap_init LOCAL pid;;;
  ebdr_log;;;
  wr MAX_DISKS ebdr_disk_src_obj pid (fun d => d <| dsk_bitmap := Some (PServer pid) |>);;;
  b <- rd MAX_BITMAP bitmap_server_obj pid;;
  _ <- (match ub_ops b with Some server_ops => cm_bitmap_server_setup pid pid | _ => undefined end);;
  ebdr_log;;;
  b <- rd MAX_BITMAP bitmap_server_obj pid;;
  m <- block (ub_area b);;
  assert_def (ub_size b <=? Z.of_nat (length m));;;
  p <- rd MAX_PARTNERS all_partner_servers pid;;
  _ <- server_rep_send pid (PData (take (Z.to_nat (ub_size b)) m)) (ptn_fd p) DATA_TYPE;;
  _ <- of_option (load 8 m 0);;
  ebdr_log;;;
  io_engine_init IO_SERVER pid;;;
  ret h.

(** [pthread_cancel (resync_tid[pid])]: on a server no thread has that id. *)
Definition cm_get_data (h : replic_header) : MW E replic_header :=
  let rbuff := replicate (Z.to_nat BUF_SIZE_IN_BYTES) 0 in
  let pid := hd_partner h in
  wr MAX_IO io_server_obj pid (fun o => o <| io_ops := Some server_ops |>);;;
  s <- rd MAX_HDR replic_hdr_server_obj pid;;
  let start_lba := u64 (hd_curr h * hd_grain s + hd_chunk_pos h * hd_chunk s) in
  let size := BUF_SIZE_IN_BYTES in
  printf;;;
  d <- rd MAX_DISKS ebdr_disk_src_obj pid;;
  '(r, rbuff) <- chunk_read_server (dsk_fd d) rbuff size start_lba;;
  if r <? 0 then
    wr MAX_DISKS ebdr_disk_src_obj pid (fun d => d <| dsk_state := DISK_OBJ_PAUSE |>);;;
    ebdr_log;;;
    undefined
  else
  p <- rd MAX_PARTNERS all_partner_servers pid;;
  r <- chunk_write_server (ptn_fd p) rbuff size start_lba;;
  when (r <? 0)
    (ebdr_log;;;
     wr (MAX_CONN + 2) ebdr_conn_server pid (fun c => c <| cn_state := CONN_OBJ_PAUSE |>);;;
     wr MAX_CONN sock_recovery pid (fun _ => 1);;;
     c <- rd (MAX_CONN + 2) ebdr_conn_server pid;;
     sys_ (os_shutdown (cn_fd c));;;
     _ <- sys (os_close (cn_fd c));;
     wr (MAX_CONN + 2) ebdr_conn_server pid (fun c => c <| cn_fd := -1 |>));;;
  ret h.

Definition cm_terminate (h : replic_header) : MW E replic_header :=
  let pid := hd_partner h in
  d <- rd MAX_DISKS ebdr_disk_src_obj pid;;
  sys_ (os_blkflsbuf (dsk_fd d));;;
  ebdr_log;;;
  op_src_unsetup (dsk_ops d) pid;;;
  b <- rd MAX_BITMAP bitmap_server_obj pid;;
  (match ub_ops b with Some server_ops => bitmap_server_destroy pid pid | _ => undefined end);;;
  ret h.

(** ** atdr_conn_server.c *)
Definition cm_cmdMap : list (Z * handler) :=
  [(opcode_code BITMAP_METADATA, cm_get_bitmap);
   (opcode_code DATA, cm_get_data);
   (opcode_code MAKE_PARTNER, make_partner);
   (opcode_code REMOVE_PARTNER, remove_partner);
   (opcode_code RM_RELATION, remove_relation);
   (opcode_code SYN, syn_received);
   (opcode_code ACK, ack);
   (opcode_code RPLC_TERMINATION, cm_terminate);
   (opcode_code DATA_REQ, data_req);
   (opcode_code VERIFY_DATA, verify_data)].

(** One iteration of [ebdr_conn_server_recv]. *)
Definition cm_server_recv_step (fd : Z) (h : replic_header) : MW E (option replic_header) :=
  '(n, got) <- sys (fun e => let '(n, g, e') := os_recv_hdr fd e in ((n, g), e'));;
  let h := default h got in
  if n <? 0 then
    ebdr_log;;;
    if bool_decide (hd_opcode h = REMOVE_PARTNER) then ebdr_log;;; ret None
    else if bool_decide (hd_opcode h = DATA) then
      let pid := hd_partner h in
      ebdr_log;;;
      c <- rd (MAX_CONN + 2) ebdr_conn_server pid;;
      sys_ (os_shutdown (cn_fd c));;;
      _ <- sys (os_close (cn_fd c));;
      wr (MAX_CONN + 2) ebdr_conn_server pid (fun c => c <| cn_fd := -1 |> <| cn_state := CONN_OBJ_PAUSE |>);;;
      wr MAX_CONN sock_recovery pid (fun _ => 1);;;
      ebdr_log;;;
      ret None
    else ret None
  else h' <- dispatch cm_cmdMap h;; ret (Some h').

Fixpoint cm_send_recv_loop (fuel : nat) (fd : Z) (h : replic_header) : MW E (option replic_header) :=
  match fuel with
  | O => ret (Some h)
  | S fuel' =>
      r <- cm_server_recv_step fd h;;
      match r with
      | None => ret None
      | Some h' => cm_send_recv_loop fuel' fd h'
      end
  end.

Definition cm_send_recv_handler (fuel : nat) : MW E (option replic_header) :=
  '(fd, server_pid) <- rd MAX_CONN sockfd_pid_var 0;;
  ebdr_log;;;
  ebdr_connection_init CONN_SERVER server_pid;;;
  wr (MAX_CONN + 2) ebdr_conn_server server_pid (fun c => c <| cn_fd := fd |> <| cn_conn_state := EBDR_CONN_CONNECTED |>);;;
  ld <- get (fun w => lo_link_down (ext w));;
  when (ld =? 0)
    (printf;;;
     c <- rd (MAX_CONN + 2) ebdr_conn_server server_pid;;
     wr MAX_PARTNERS all_partner_servers server_pid (fun p => p <| ptn_fd := cn_fd c |>);;;
     printf);;;
  c <- rd (MAX_CONN + 2) ebdr_conn_server server_pid;;
  match cn_ops c with
  | Some server_ops => cm_send_recv_loop fuel (cn_fd c) zeroed
  | _ => undefined
  end.

(** The [for] loop of the accepting thread. *)
Fixpoint cm_assign_loop (pids : list Z) (newSockFd : Z) : MW E unit :=
  match pids with
  | [] => ret tt
  | pid :: pids' =>
      c <- rd (MAX_CONN + 2) ebdr_conn_server pid;;
      sr <- rd MAX_CONN sock_recovery pid;;
      if (cn_state c =? CONN_OBJ_PAUSE) && (sr =? 1) then
        ebdr_log;;;
        slot <- rd (MAX_CONN + 2) ebdr_conn_server (MAX_CONN + 1);;
        wr (MAX_CONN + 2) ebdr_conn_server pid (fun _ => slot);;;
        wr MAX_PARTNERS all_partner_servers pid (fun p => p <| ptn_fd := newSockFd |>);;;
        wr (MAX_CONN + 2) ebdr_conn_server pid (fun c => c <| cn_state := CONN_OBJ_RESUME |>);;;
        wr MAX_CONN sockfd_pid_var 0 (fun v => (fst v, pid));;;
        wr MAX_CONN sock_recovery pid (fun _ => 0)
      else
      cc <- get client_connected;;
      rm <- rd MAX_PID recovery_mode 0;;
      if (cc =? 1) && (rm =? 1) then
        slot <- rd (MAX_CONN + 2) ebdr_conn_server (MAX_CONN + 1);;
        wr (MAX_CONN + 2) ebdr_conn_server pid (fun _ => slot);;;
        wr MAX_PARTNERS all_partner_servers pid (fun p => p <| ptn_fd := newSockFd |>);;;
        wr MAX_CONN sockfd_pid_var 0 (fun v => (fst v, pid));;;
        put client_connected (-1)
      else cm_assign_loop pids' newSockFd
  end.

(** One iteration of [replic_thread_init]. *)
Definition cm_accept_step : MW E unit :=
  let server_pid := MAX_CONN + 1 in
  wr (MAX_CONN + 2) ebdr_conn_server server_pid (fun c => c <| cn_conn_state := EBDR_CONN_WAIT_FOR_CLIENT |>);;;
  ebdr_log;;;
  c <- rd (MAX_CONN + 2) ebdr_conn_server server_pid;;
  newSockFd <- sys (os_accept (cn_sockFd c));;
  if newSockFd <? 0 then ebdr_log;;; stop_work else
  ebdr_log;;;
  put client_connected 1;;;
  wr MAX_CONN sockfd_pid_var 0 (fun _ => (newSockFd, MAX_CONN + 1));;;
  wr (MAX_CONN + 2) ebdr_conn_server (MAX_CONN + 1) (fun c => c <| cn_fd := newSockFd |>);;;
  cm_assign_loop (zseq 0 MAX_CONN) newSockFd;;;
  r <- sys os_pthread_create;;
  if r <? 0 then stop_work else modify (fun w => w <| threads ::= fun l => l ++ [TSendRecv 0] |>).
End common_server.
