(* ===== verification/CommonDaemon.v ===== *)
(** * user/common: commands, headers received, the control thread, db_init

    The cases of the switch of atdr_daemon.c that user/atdr_linux has word for
    word are those of [Daemon]; here are the others, what they call in
    atdr_disk_source.c, atdr_disk_target.c and replic_client.c, the thread that
    waits for the fifo and the netlink socket together, and db_init of
    atdr_db.c. *)
From S2P Require Import Prelude Memory KernelState CMonad CString World UBitmap Db Config Partner Relation Disk Header.
From S2P Require Import ReplicServer ConnServer Resync ReplicClient Daemon CommonLink CommonDb CommonResync.
From Stdlib Require Import Ascii.

Section common_daemon.
Context {E : Type} `{OS E} `{LinkOS E}.
Variable garbage : Z.
Variable garbage_str : string.

(** ** Disks *)
Definition cm_disk_source_create (name : string) (i : Z) : MW E unit :=
  server_pid <- get ds_count;;
  if server_pid <? MAX_DISKS then
    wr MAX_DISKS ebdr_disk_src_obj i (fun d => d <| dsk_state := DISK_OBJ_IN_USE |> <| dsk_name := name |>);;;
    ebdr_log;;;
    rec <- rd MAX_PID recovery_mode 0;;
    when (negb (rec =? 1))
      (obj <- get ioctl_obj;;
       wr MAX_DISKS ebdr_disk_src_obj i (fun d => d <| dsk_bitmap_size := u_bitmap_size obj |>);;;
       d <- rd MAX_DISKS ebdr_disk_src_obj i;;
       cm_insert_into_disk server_pid (dsk_name d) "-" (dsk_bitmap_size d) "ebdrdbs");;;
    wr MAX_DISKS ebdr_disk_src_obj i (fun d => d <| dsk_ops := Some server_ops |>);;;
    _ <- disk_source_mmap server_pid;;
    modify (fun w => w <| ds_count ::= Z.succ |>);;;
    ebdr_log
  else ebdr_log.

Definition cm_disk_target_create (name : string) (i : Z) : MW E unit :=
  client_pid <- get dt_count;;
  if client_pid <? MAX_DISKS then
    wr MAX_DISKS ebdr_disk_target_obj i (fun d => d <| dsk_state := DISK_OBJ_IN_USE |> <| dsk_name := name |>);;;
    ebdr_log;;;
    wr MAX_DISKS ebdr_disk_target_obj i (fun d => d <| dsk_ops := Some client_ops |>)
  else ebdr_log.

Definition cm_disk_init (role : disk_role_t) (name : string) (i : Z) : MW E Z :=
  match role with
  | PRIMARY =>
      wr MAX_DISKS ebdr_disk_src_obj i (fun d => d <| dsk_ops := Some server_ops |>);;;
      cm_disk_source_create name i
  | SECONDARY =>
      wr MAX_DISKS ebdr_disk_target_obj i (fun d => d <| dsk_ops := Some client_ops |>);;;
      cm_disk_target_create name i
  end;;;
  ret 0.

Definition cm_snapshot_disk_init (snap_disk : string) (pid : Z) : MW E unit :=
  ebdr_log;;;
  wr MAX_DISKS ebdr_disk_src_obj pid (fun d => d <| dsk_snap := snap_disk |>);;;
  ebdr_log;;;
  d <- rd MAX_DISKS ebdr_disk_src_obj pid;;
  _ <- op_src_setup (dsk_ops d) pid;;
  rm <- rd MAX_PID recovery_mode 0;;
  when (negb (rm =? 1))
    (d <- rd MAX_DISKS ebdr_disk_src_obj pid;;
     cm_update_into_disk pid (dsk_name d) (dsk_snap d) "ebdrdbs");;;
  wr MAX_RELATIONS all_relation_servers pid (fun r => r <| rel_device := snap_disk |>).

Definition cm_prepare_for_replication (target_disk : string) (pid : Z) : MW E unit :=
  ebdr_log;;;
  _ <- cm_disk_init SECONDARY target_disk pid;;
  d <- rd MAX_DISKS ebdr_disk_target_obj pid;;
  _ <- op_target_setup (dsk_ops d) pid;;
  wr MAX_REPLICATIONS replic_client_obj pid (fun r => r <| rp_disk := Some (PClient pid) |>);;;
  ebdr_log.

(** ** replic_client.c: the headers received *)
Definition cm_verify_data_resp (pid : Z) (h : replic_header) : MW E Z :=
  d <- rd MAX_DISKS ebdr_disk_target_obj pid;;
  '(r, md5) <- calculate_md5 false (dsk_name d) h EmptyString;;
  (if r <? 0 then ebdr_log
   else when (negb (bool_decide (hd_md5 h = md5))) (cm_restart_resync pid 0 FULL_RESYNC));;;
  cm_replication_terminate pid;;;
  ret 0.

Definition cm_recv_hdr (i fd : Z) : MW E Z :=
  ebdr_log;;;
  '(n, got) <- sys (fun e => let '(n, g, e') := os_recv_hdr fd e in ((n, g), e'));;
  wr MAX_HDR replic_hdr_client_obj i (fun h => default h got);;;
  when (n <? 0) (ebdr_log;;; stop_work);;;
  h <- rd MAX_HDR replic_hdr_client_obj i;;
  (match hd_opcode h with
   | SYN_ACK =>
       ebdr_log;;;
       let pid := hd_partner h in
       wr MAX_HDR replic_hdr_client_obj pid (fun h => h <| hd_ops := Some client_ops |>);;;
       _ <- rd MAX_PARTNERS all_partner_clients pid;;
       h <- rd MAX_HDR replic_hdr_client_obj i;;
       replic_hdr_client_nego h pid
   | RM_RELATION_PEER => ebdr_log;;; remove_relationpeer (hd_relation h)
   | VERIFY_DATA_RSP =>
       _ <- cm_verify_data_resp (hd_partner h) h;;
       h <- rd MAX_HDR replic_hdr_client_obj i;;
       cm_replication_terminate (hd_partner h)
   | VERIFY_DATA_IGN => cm_replication_terminate (hd_partner h)
   | _ => ebdr_log
   end);;;
  ret 0.

(** [do_ebdr_conn_recv] with PROTO_TYPE. *)
Definition cm_client_rep_recv (pid i fd : Z) : MW E Z :=
  r <- rd MAX_REPLICATIONS replic_client_obj pid;;
  match rp_conn r with
  | Some (PClient c) =>
      c <- rd MAX_CONN ebdr_conn_client c;;
      match cn_ops c with
      | Some client_ops => cm_recv_hdr i fd;;; ret 0
      | _ => undefined
      end
  | _ => undefined
  end.

Definition cm_start_protocol_negotiation (bitmap_size grain_size chunk_size pid : Z) : MW E unit :=
  wr MAX_HDR replic_hdr_client_obj pid (fun h => h <| hd_opcode := SYN |> <| hd_bitmap := u32 bitmap_size |>
    <| hd_grain := u32 grain_size |> <| hd_chunk := u32 chunk_size |> <| hd_partner := pid |>);;;
  ebdr_log;;;
  h <- rd MAX_HDR replic_hdr_client_obj pid;;
  p <- rd MAX_PARTNERS all_partner_clients pid;;
  _ <- client_rep_send pid (PHdr h) (ptn_fd p) PROTO_TYPE;;
  ebdr_log;;;
  _ <- cm_client_rep_recv pid pid (ptn_fd p);;
  wr MAX_HDR replic_hdr_client_obj pid (fun h => h <| hd_opcode := ACK |>);;;
  ebdr_log;;;
  h <- rd MAX_HDR replic_hdr_client_obj pid;;
  p <- rd MAX_PARTNERS all_partner_clients pid;;
  _ <- client_rep_send pid (PHdr h) (ptn_fd p) PROTO_TYPE;;
  ret tt.

Definition cm_make_relation_with_server (partnerid role : Z) (target_disk : string)
    (bitmap_size grain_size chunk_size : Z) : MW E Z :=
  ebdr_relation_init EBDR_RELATION_CLIENT partnerid partnerid;;;
  let relation_role := if role =? 0 then RELATION_PRIMARY else RELATION_SECONDARY in
  w <- get (fun w => w);;
  if is_client_partner_id_valid partnerid w then
    r <- rd MAX_RELATIONS all_relation_clients partnerid;;
    rid <- op_make_relation (rel_ops r) relation_role partnerid target_disk;;
    ebdr_log;;;
    cm_start_protocol_negotiation bitmap_size grain_size chunk_size partnerid;;;
    h <- rd MAX_HDR replic_hdr_client_obj rid;;
    wr MAX_RELATIONS all_relation_clients rid (fun r => r <| rel_bitmap := hd_bitmap h |>
      <| rel_grain := hd_grain h |> <| rel_chunk := hd_chunk h |>);;;
    r <- rd MAX_RELATIONS all_relation_clients rid;;
    insert_into_relation (rel_role r) (rel_partner r) (rel_id r) RELATION_OBJ_IN_USE (rel_device r)
      (rel_bitmap r) (rel_grain r) (rel_chunk r) "ebdrdbc";;;
    ebdr_log;;;
    cm_prepare_for_replication target_disk partnerid;;;
    ret 0
  else ebdr_log;;; ret (-1).

(** ** The cases *)
Definition cm_cmd_create (cmd : string) : MW E unit :=
  ebdr_log;;;
  let a := scan [Cs; Cs; Clu; Clu] cmd in
  (match a !! 1%nat with
   | Some (AStr s) =>
       s <- cstring 64 s;; modify (fun w => w <| ioctl_obj ::= fun o => o <| src_disk ::= put_string s |> |>)
   | _ => ret tt
   end);;;
  modify (fun w => w <| ioctl_obj ::= fun o => o <| u_grain_size ::= arg_int a 2 |>
    <| u_bitmap_size ::= arg_int a 3 |> |>);;;
  ebdr_log;;;
  created <- is_disk_created;;
  if created then ebdr_log else
  _ <- prepare_and_send_ioctl_cmd EBDRCTL_DEV_CREATE;;
  server_pid <- get ds_count;;
  obj <- get ioctl_obj;;
  _ <- cm_disk_init PRIMARY (bytes_string (src_disk obj)) server_pid;;
  o <- get once;;
  when (o =? 0)
    (ebdr_connection_init CONN_SERVER (MAX_CONN + 1);;;
     _ <- op_server_setup (MAX_CONN + 1);;
     put once 1).

Definition cm_cmd_metadata (cmd : string) : MW E unit :=
  ebdr_log;;;
  let pid := arg_int (scan [Cs; Cd] cmd) 1 garbage in
  w <- get (fun w => w);;
  if is_client_partner_id_valid pid w then cm_request_server_for_metadata pid else ebdr_log.

Definition cm_cmd_snap (cmd : string) : MW E unit :=
  ebdr_log;;;
  let a := scan [Cs; Cs; Cd] cmd in
  snap_disk <- cstring 64 (arg_str a 1 EmptyString);;
  let pid := arg_int a 2 garbage in
  w <- get (fun w => w);;
  if is_server_partner_id_valid pid w then cm_snapshot_disk_init snap_disk pid else ebdr_log.

Definition cm_cmd_mkrelationpeer (cmd : string) : MW E unit :=
  ebdr_log;;;
  let a := scan [Cs; Cd; Cd; Cs; Clu; Clu; Clu] cmd in
  let partnerid := arg_int a 1 garbage in
  target_disk <- cstring 64 (arg_str a 3 garbage_str);;
  w <- get (fun w => w);;
  if is_client_partner_id_valid partnerid w then
    ignore (cm_make_relation_with_server partnerid (arg_int a 2 garbage) target_disk
      (arg_int a 4 garbage) (arg_int a 5 garbage) (arg_int a 6 garbage))
  else ebdr_log.

(** Through mkpartner_from_db_on_client, mkrelation_from_db_on_client and
    mkrelation_from_db_on_server. *)
Definition cm_cmd_dbinfo (srv : bool) : MW E unit :=
  if srv then ignore (cm_retrieve_from_relation all_relation_servers)
  else ignore (cm_retrieve_from_partner all_partner_clients);;; ignore (cm_retrieve_from_relation all_relation_clients).

Definition cm_parse_daemon_request (srv : bool) (cmd : string) : MW E Z :=
  (match cmd with
   | String "a" _ | String "b" _ => cmd_log_level garbage cmd
   | String "c" _ => cm_cmd_create cmd
   | String "e" _ => _ <- get server_list_partners;; ebdr_log
   | String "f" _ => _ <- get client_list_partners;; ebdr_log
   | String "g" _ => cmd_grain cmd
   | String "i" _ => _ <- get server_list_relations;; ebdr_log
   | String "j" _ => _ <- get client_list_relations;; ebdr_log
   | String "m" _ => cm_cmd_metadata cmd
   | String "s" _ => cm_cmd_snap cmd
   | String "p" _ => cmd_mkpartner garbage garbage_str cmd
   | String "k" _ => cmd_rmpartner garbage cmd
   | String "x" _ => cmd_mkrelation garbage garbage_str cmd
   | String "y" _ => cm_cmd_mkrelationpeer cmd
   | String "o" _ => cmd_rmrelationpeer garbage cmd
   | String "r" _ => cmd_resync garbage cmd
   | String "n" _ => cm_cmd_pause garbage cmd
   | String "l" _ => cm_cmd_resume garbage cmd
   | String "z" _ => cm_cmd_dbinfo srv
   | _ => ret tt
   end);;;
  ret 0.

(** ** The control thread

    One iteration of [cntrl_thread_init]; the result of [select] is not looked
    at, only the two sets it leaves. *)
Definition cm_cntrl_step (srv : bool) (fifo_fd nl_socket : Z) : MW E unit :=
  '(fifo_set, link_set) <- sys lo_select;;
  when fifo_set
    ('(retval, str) <- read_from_fifo fifo_fd;;
     assert_def (retval <? CMD_LEN);;;
     when (negb (retval =? 0)) (ignore (cm_parse_daemon_request srv (bytes_string str))));;;
  when link_set (ignore (link_status_check srv nl_socket)).

(** ** atdr_db.c: the start from the database *)

(** [resync_init] is called without its second argument: [garbage]. *)
Definition cm_recover_resync (i : Z) : MW E unit :=
  printf;;;
  ebdr_connection_init CONN_CLIENT i;;;
  p <- rd MAX_PARTNERS all_partner_clients i;;
  fd <- op_client_setup i (ptn_ip p);;
  printf;;;
  wr MAX_PARTNERS all_partner_clients i (fun p => p <| ptn_fd := fd |>);;;
  _ <- replication_init REP_REMOTE i;;
  r <- rd MAX_REPLICATIONS replic_client_obj i;;
  (match rp_ops r with Some client_ops => replic_client_obj_setup i | _ => undefined end);;;
  d <- rd MAX_DISKS ebdr_disk_target_obj i;;
  cm_prepare_for_replication (dsk_name d) i;;;
  d <- rd MAX_DISKS ebdr_disk_target_obj i;;
  sys_ (os_blkflsbuf (dsk_fd d));;;
  r <- rd MAX_RELATIONS all_relation_clients i;;
  wr MAX_HDR replic_hdr_client_obj i (fun h => h <| hd_grain := rel_grain r |> <| hd_chunk := rel_chunk r |>);;;
  cm_request_server_for_metadata i;;;
  ignore (resync_init i (u64 garbage)).

Definition cm_recover_source (i : Z) : MW E unit :=
  printf;;;
  d <- rd MAX_DISKS ebdr_disk_src_obj i;;
  _ <- cm_disk_init PRIMARY (dsk_name d) i;;
  d <- rd MAX_DISKS ebdr_disk_src_obj i;;
  cm_snapshot_disk_init (dsk_snap d) i;;;
  _ <- replication_init REP_LOCAL i;;
  r <- rd MAX_REPLICATIONS replic_server_obj i;;
  (match rp_ops r with Some server_ops => replic_server_obj_setup i | _ => undefined end);;;
  r <- rd MAX_RELATIONS all_relation_servers i;;
  wr MAX_HDR replic_hdr_server_obj i (fun h => h <| hd_grain := rel_grain r |> <| hd_chunk := rel_chunk r |>).

Definition cm_db_connect (db_name : string) : MW E unit :=
  ebdr_log;;;
  _ <- readConfig;;
  mutex_unlock;;;
  mutex_lock;;;
  ebdr_log;;;
  u <- get db_user;; p <- get db_pswrd;; h <- get db_host;;
  r <- sys (os_mysql_connect h u p);;
  when (r <? 0) (ebdr_log;;; finish_with_error);;;
  ebdr_log;;;
  str <- cstring 100 ("CREATE DATABASE IF NOT EXISTS" +:+ " " +:+ db_name);;
  mysql_query str;;;
  str <- cstring 100 (use_db db_name);;
  mysql_query str;;;
  mysql_query "CREATE TABLE IF NOT EXISTS Status(Id INT, PARTNERID INT, RELATIONID INT, Src TEXT, Date TEXT,	time TEXT, Percent INT)";;;
  mysql_query "CREATE TABLE IF NOT EXISTS partner(pid INT, state INT, ip CHAR(15), bandwidth INT)".

Definition cm_db_init (srv : bool) (db_name : string) : MW E unit :=
  cm_db_connect db_name;;;
  num_rows <- (if srv then cm_retrieve_from_partner all_partner_servers else cm_retrieve_from_partner all_partner_clients);;
  when (0 <? num_rows) (wr MAX_PID recovery_mode 0 (fun _ => 1));;;
  mysql_query "CREATE TABLE IF NOT EXISTS relation(role  INT, pid INT, rid INT, state INT, disk CHAR(15), bitmap_size INT, grain_size INT, chunk_size INT)";;;
  _ <- (if srv then cm_retrieve_from_relation all_relation_servers else cm_retrieve_from_relation all_relation_clients);;
  mysql_query "CREATE TABLE IF NOT EXISTS disk(pid INT, name CHAR(15), snap_name CHAR(15), bitmap_size INT)";;;
  when srv
    (num_rows <- cm_retrieve_from_disk ebdr_disk_src_obj;;
     when (0 <? num_rows)
       (for_ids cm_recover_source (zseq 0 num_rows);;;
        ebdr_connection_init CONN_SERVER (MAX_CONN + 1);;;
        ignore (op_server_setup (MAX_CONN + 1))));;;
  mysql_query "CREATE TABLE IF NOT EXISTS resync(pid INT, target_disk CHAR(15), last_resynced_bit INT)";;;
  when (negb srv)
    (num_rows <- cm_retrieve_from_resync;;
     for_ids cm_recover_resync (zseq 0 num_rows));;;
  ebdr_log;;;
  mutex_unlock.
End common_daemon.
