(* ===== verification/WinDb.v ===== *)
(** * user/atdr_windows/windows_client: the platform and the database

    [WinOS] is what the Windows daemon calls: Win32, Winsock, the MySQL client
    library.  The objects of the daemon are those of [World].  [atdr_db.c]
    sends its statements under a Win32 mutex, which its owner may take again,
    and on an error closes the connection and goes on. *)
From S2P Require Import Prelude Memory KernelState CMonad CString World Db.

(** ** The platform

    [wos_MultiByteToWideChar] is the length of the converted name, 0 when it
    does not fit the number of characters or is not valid;
    [wos_DeviceIoControl] yields its success and the bytes written to the
    output buffer; [wos_mysql_query] is [None] when the connection object is
    no longer valid.  [wos_CreateFile] gets the name, the sharing mode and the
    flags. *)
Class WinOS (E : Type) := {
  wos_malloc : Z -> E -> bool;
  wos_MultiByteToWideChar : Z -> string -> Z;
  wos_CreateFile : string -> Z -> Z -> E -> option Z * E;
  wos_CloseHandle : Z -> E -> E;
  wos_DeviceIoControl : Z -> Z -> mem -> Z -> E -> bool * mem * E;
  wos_SetFilePointer : Z -> Z -> E -> bool * E;
  wos_ReadFile : Z -> Z -> E -> bool * mem * E;
  wos_WriteFile : Z -> mem -> E -> bool * E;
  wos_send : Z -> mem -> E -> Z * E;
  wos_recv : Z -> Z -> E -> Z * mem * E;
  wos_errno : E -> Z;
  wos_user_read : Z -> E -> mem;
  wos_user_write : Z -> mem -> E -> E;
  wos_WaitForSingleObject : E -> Z * E;
  wos_ReleaseMutex : E -> bool * E;
  wos_mysql_query : string -> E -> option (Z * E);
  wos_mysql_close : E -> option E;
}.

Definition WAIT_OBJECT_0 : Z := 0.
Definition WAIT_ABANDONED : Z := 0x80.

Section windb.
Context {E : Type} `{WinOS E}.

(** Threads of this daemon are not cancelled: logging has no effect on it. *)
Definition atdr_log : MW E unit := ret tt.

(** A call that can fault. *)
Definition wsys {A} (call : E -> option (A * E)) : MW E A := fun w =>
  match call (ext w) with
  | Some (a, e) => Ret a (w <| ext := e |>)
  | None => Stop Undefined w
  end.

(** ** The lock

    [ret] is 1 when the object was signalled, 0 when it was abandoned; the
    callers ignore it. *)
Definition win_mutex_lock : MW E Z :=
  r <- sys wos_WaitForSingleObject;;
  if r =? WAIT_OBJECT_0 then atdr_log;;; ret 1
  else if r =? WAIT_ABANDONED then atdr_log;;; ret 0
  else ret 0.

Definition win_mutex_unlock : MW E Z :=
  ok <- sys wos_ReleaseMutex;;
  if negb ok then atdr_log;;; ret (-1) else ret 0.

(** Closes the connection and releases the mutex; the process goes on. *)
Definition win_finish_with_error : MW E unit :=
  wsys (fun e => e' ← wos_mysql_close e; Some (tt, e'));;;
  ok <- sys wos_ReleaseMutex;;
  when (negb ok) atdr_log.

Definition win_mysql_query (sql : string) : MW E unit :=
  r <- wsys (wos_mysql_query sql);;
  when (negb (r =? 0)) win_finish_with_error.

(** ** Statements *)

(** The shape the statements share, with [char str[n]]. *)
Definition win_locked_query (n : Z) (db_name sql : string) : MW E Z :=
  str <- cstring n (use_db db_name);;
  ignore win_mutex_lock;;;
  win_mysql_query str;;;
  str <- cstring n sql;;
  win_mysql_query str;;;
  ignore win_mutex_unlock;;;
  ret 0.

Definition win_update_resync_state (pid state : Z) (status db_name : string) : MW E Z :=
  win_locked_query 100 db_name (sql_update_resync_state pid state status).

Definition win_update_into_resync (pid : Z) (target_disk : string) (last state : Z) (db_name : string) : MW E Z :=
  win_locked_query 100 db_name (sql_update_resync pid last state).

Definition win_insert_into_resync (pid : Z) (target_disk : string) (last state : Z) (status db_name : string) : MW E Z :=
  win_locked_query 100 db_name (sql_insert_resync pid target_disk last state status).

Definition win_update_disk_state (pid state : Z) (db_name : string) : MW E Z :=
  win_locked_query 100 db_name (sql_update_disk_state pid state).

Definition win_update_into_disk (pid : Z) (name snap_name db_name : string) : MW E Z :=
  win_locked_query 250 db_name (sql_update_disk pid name snap_name).

Definition win_insert_into_disk (pid : Z) (name snap_name : string) (bitmap_size state : Z) (db_name : string) : MW E Z :=
  win_locked_query 100 db_name (sql_insert_disk pid name snap_name bitmap_size state).

Definition win_update_into_partner (pid obj_state : Z) (db_name : string) : MW E Z :=
  win_locked_query 100 db_name (sql_update_partner pid obj_state).

Definition win_insert_into_partner (pid state : Z) (ip : string) (bandwidth : Z) (db_name : string) : MW E Z :=
  win_locked_query 200 db_name (sql_insert_partner pid state ip bandwidth).

Definition win_update_relation_state (pid state : Z) (db_name : string) : MW E Z :=
  win_locked_query 100 db_name (sql_update_relation_state pid state).

Definition win_insert_into_relation (role pid rid state : Z) (disk : string)
    (bitmap_size grain_size chunk_size : Z) (db_name : string) : MW E Z :=
  win_locked_query 200 db_name (sql_insert_relation role pid rid state disk bitmap_size grain_size chunk_size).
End windb.
