(* ===== verification/WinClient.v ===== *)
(** * user/atdr_windows/windows_client: bitmap, disks and I/O of the daemon

    The components of the port that are not those of the Linux daemon: control
    requests go to the volume through DeviceIoControl and are retried, the
    bitmap is mapped by the request that creates it, disks are read and written
    at offsets computed in 32 bits.  [unsigned long] has 32 bits.  The names
    carry the prefix [win_] where the Linux daemon has a function of the same
    name. *)
From S2P Require Import Prelude Memory KernelState KBitmap WinState CMonad CString World UBitmap Disk WinDb.

(** ** Memory layer: words of four bytes *)
Definition atdr_copy_mmaped_bitmap (nbytes soff : Z) (src dest : mem) : option mem :=
  iter_up (Z.to_nat (nbytes / 4)) 0 (fun i d => v ← load 4 src (soff + 4 * i); store 4 d (4 * i) v) dest.

Definition atdr_clear_active_bitmap (nbytes off : Z) (m : mem) : option mem :=
  iter_up (Z.to_nat (nbytes / 4)) 0 (fun i m => store 4 m (off + 4 * i) 0) m.

Definition atdr_test_bit2 (num base : Z) (m : mem) : option Z :=
  let temp := u32 (num mod 8) in
  let mask := s8 (Z.shiftl 1 (u32 (8 - 1 - temp))) in
  let off := u32 (num / 8) in
  var ← load 1 m (base + off);
  Some (Z.land (s8 var) mask).

Definition atdr_check_bit_set (m : mem) (pos : Z) : option Z :=
  let pnum := Z.shiftr pos (PAGE_SHIFT + 3) in
  if MAX_BITS_LEN <? u32 (pnum * NUM_BITS_PER_PAGE) then Some 0
  else atdr_test_bit2 (Z.land pos NUM_BITS_PER_PAGE_MASK) (u32 (pnum * NUM_BITS_PER_PAGE) / 8) m.

Definition win_get_total_bits_set (m : mem) : option Z :=
  iter_up (Z.to_nat MAX_BITS_LEN) 0
    (fun bit_pos bits_set => r ← atdr_check_bit_set m bit_pos;
                             Some (if r =? 0 then bits_set else bits_set + 1)) 0.

(** ** Control requests *)
Definition MAX_RETRIES : nat := 5.
Definition sizeof_user_OUTPUT_CREATE : Z := 16.
Definition sizeof_user_OUTPUT_USER : Z := 1.
Definition sizeof_ulong_t : Z := 4.
Definition FILE_SHARE_READ : Z := 1.
Definition FILE_SHARE_WRITE : Z := 2.
Definition FILE_ATTRIBUTE_NORMAL : Z := 0x80.
Definition FILE_FLAG_RANDOM_ACCESS : Z := 0x10000000.
Definition FILE_FLAG_NO_BUFFERING : Z := 0x20000000.
Definition FILE_FLAG_WRITE_THROUGH : Z := 0x80000000.

(** [IOCTL] as the bytes of the input buffer. *)
Definition ioctl_bytes (o : IOCTL) : mem :=
  src_disk o ++ le_bytes 4 (u_grain_size o) ++ le_bytes 4 (u_bitmap_size o) ++ le_bytes 4 (io_bmap_user o) ++
  le_bytes 4 (io_bmap_ver o) ++ le_bytes 4 (io_index o).

Section client.
Context {E : Type} `{WinOS E}.

(** What the locals hold before they are written: at least the 16 bytes of the
    output buffer. *)
Context (garbage : mem).

(** [stop_work] logs and ends the process. *)
Definition win_stop_work {A} : MW E A := stop Exited.

Definition win_malloc (n : Z) (fill : mem) : MW E (option Z) := fun w =>
  if wos_malloc n (ext w) then
    Ret (Some (next_block w)) (w <| heap ::= fun h => <[next_block w := fill]> h |> <| next_block ::= Z.succ |>)
  else Ret None w.

(** The output buffer after DeviceIoControl: what was written, then what it
    held. *)
Definition output_buffer (n : Z) (out : mem) : mem := take (Z.to_nat n) (out ++ drop (length out) garbage).

(** One DeviceIoControl; [out] is read whether it succeeded or not. *)
Definition ioctl_try (h cmd : Z) : MW E bool :=
  obj <- get ioctl_obj;;
  if cmd =? ATDRCTL_DEV_CREATE then
    '(bResult, out) <- sys (fun e => let '(b, o, e') := wos_DeviceIoControl h cmd (ioctl_bytes obj) sizeof_user_OUTPUT_CREATE e in ((b, o), e'));;
    atdr_log;;;
    a <- of_option (load 8 (output_buffer sizeof_user_OUTPUT_CREATE out) 0);;
    n <- get ds_count;;
    wr MAX_DISKS ebdr_disk_src_obj n (fun d => d <| dsk_active := Some (mk_mptr a 0) |>
      <| dsk_backup := Some (mk_mptr a (sizeof_ulong_t * (u_bitmap_size obj / sizeof_ulong_t))) |>);;;
    ret bResult
  else
    '(bResult, out) <- sys (fun e => let '(b, o, e') := wos_DeviceIoControl h cmd (ioctl_bytes obj) sizeof_user_OUTPUT_USER e in ((b, o), e'));;
    atdr_log;;;
    u <- of_option (load 1 (output_buffer sizeof_user_OUTPUT_USER out) 0);;
    modify (fun w => w <| ioctl_obj ::= fun o => o <| io_bmap_user := u |> |>);;;
    ret bResult.

Fixpoint ioctl_tries (retries : nat) (h cmd : Z) : MW E bool :=
  bResult <- ioctl_try h cmd;;
  if bResult then ret true else
  match retries with
  | S r => atdr_log;;; ioctl_tries r h cmd
  | O => win_stop_work
  end.

(** The converted name is appended to the prefix before the test of the
    conversion, which on failure has not written it. *)
Definition win_prepare_and_send_ioctl_cmd (cmd : Z) : MW E Z :=
  obj <- get ioctl_obj;;
  let name := bytes_string (src_disk obj) in
  if wos_MultiByteToWideChar 32 name <=? 0 then undefined else
  hDevice <- sys (wos_CreateFile ("\\.\" +:+ name) (Z.lor FILE_SHARE_READ FILE_SHARE_WRITE) FILE_FLAG_NO_BUFFERING);;
  atdr_log;;;
  match hDevice with
  | None => atdr_log;;; stop Exited
  | Some h =>
      bResult <- ioctl_tries MAX_RETRIES h cmd;;
      sys_ (wos_CloseHandle h);;;
      ret (if bResult : bool then 1 else 0)
  end.

(** ** atdr_bitmap_server.c *)
Definition win_bitmap_server_create (pid : Z) : MW E unit :=
  p <- win_malloc BITMAP_SIZE (replicate (Z.to_nat BITMAP_SIZE) 0);;
  wr MAX_BITMAP bitmap_server_obj pid (fun b => b <| ub_area := p |>);;;
  match p with None => atdr_log;;; win_stop_work | Some _ => ret tt end;;;
  wr MAX_BITMAP bitmap_server_obj pid (fun b => b <| ub_size := BITMAP_SIZE |>
    <| ub_state := EBDR_UBITMAP_INIT |> <| ub_mmap := MMAP_UNUSED |> <| ub_user := KERNEL |>);;;
  atdr_log;;;
  wr MAX_BITMAP bitmap_server_obj pid (fun b => b <| ub_ops := Some server_ops |>).

(** The bytes of the mapping a pointer points into, and its offset. *)
Definition win_map_bytes (p : option mptr) : MW E (Z * mem) :=
  p <- of_option p;;
  e <- get ext;;
  ret (mp_off p, wos_user_read (mp_area p) e).

(** [ubitmap_obj->bitmap_area] receives one half of the mapping. *)
Definition win_copy_half (ub pid : Z) (half : ebdr_disk -> option mptr) : MW E unit :=
  b <- rd MAX_BITMAP bitmap_server_obj ub;;
  d <- rd MAX_DISKS ebdr_disk_src_obj pid;;
  '(soff, src) <- win_map_bytes (half d);;
  dest <- block (ub_area b);;
  dest' <- of_option (atdr_copy_mmaped_bitmap (ub_size b) soff src dest);;
  set_block (ub_area b) dest'.

(** The copy of one half; its first word is logged. *)
Definition win_take_half (ub pid user : Z) (half : ebdr_disk -> option mptr) : MW E unit :=
  modify (fun w => w <| ioctl_obj ::= fun o => o <| io_bmap_user := user |> |>);;;
  wr MAX_BITMAP bitmap_server_obj ub (fun b => b <| ub_user := user |>);;;
  win_copy_half ub pid half;;;
  b <- rd MAX_BITMAP bitmap_server_obj ub;;
  m <- block (ub_area b);;
  ignore (of_option (load 4 m 0));;;
  atdr_log.

Definition win_deref_map (p : option mptr) : MW E Z :=
  '(off, m) <- win_map_bytes p;;
  of_option (load 4 m off).

(** [recovery_mode] is declared [extern int] in this file: element 0 of the
    array is read for every partner. *)
Definition win_server_bitmap_load_from_memory (ub pid : Z) : MW E Z :=
  modify (fun w => w <| ioctl_obj ::= fun o => o <| io_index := pid + 1 |> |>);;;
  d <- rd MAX_DISKS ebdr_disk_src_obj pid;;
  name <- cstring 64 (dsk_name d);;
  modify (fun w => w <| ioctl_obj ::= fun o => o <| src_disk ::= put_string name |> |>);;;
  r <- win_prepare_and_send_ioctl_cmd ATDRCTL_GET_USER;;
  when (r <? 0) win_stop_work;;;
  d <- rd MAX_DISKS ebdr_disk_src_obj pid;;
  wr MAX_BITMAP bitmap_server_obj ub (fun b => b <| ub_size := dsk_bitmap_size d |>);;;
  obj <- get ioctl_obj;;
  (if io_bmap_user obj =? KERNEL then win_take_half ub pid USER dsk_active
   else win_take_half ub pid KERNEL dsk_backup);;;
  atdr_log;;;
  b <- rd MAX_BITMAP bitmap_server_obj ub;;
  m <- block (ub_area b);;
  ignore (of_option (load 4 m 0));;;
  ignore (win_deref_map (dsk_active d));;;
  rec <- rd MAX_PID recovery_mode 0;;
  c <- rd (MAX_CONN + 2) ebdr_conn_server pid;;
  (if (rec =? 0) && negb (cn_state c =? CONN_OBJ_RESUME) then
     atdr_log;;;
     r <- win_prepare_and_send_ioctl_cmd ATDR_FLIP_BITMAP_AREA;;
     when (r <? 0) win_stop_work;;;
     atdr_log
   else
     wr (MAX_CONN + 2) ebdr_conn_server pid (fun c => c <| cn_state := CONN_OBJ_IN_USE |>);;;
     v <- win_deref_map (dsk_active d);;
     (if negb (v =? 0) then win_copy_half ub pid dsk_active else win_copy_half ub pid dsk_backup));;;
  b <- rd MAX_BITMAP bitmap_server_obj ub;;
  m <- block (ub_area b);;
  ignore (of_option (load 4 m 0));;;
  atdr_log;;;
  ret 0.

(** The call goes through [ubitmap_obj->ops]; only the server's table has the
    two functions. *)
Definition win_bitmap_server_setup (ub pid : Z) : MW E Z :=
  atdr_log;;;
  b <- rd MAX_BITMAP bitmap_server_obj ub;;
  r <- (match ub_ops b with
        | Some server_ops => win_server_bitmap_load_from_memory ub pid
        | _ => undefined
        end);;
  when (r <? 0) (atdr_log;;; win_stop_work);;;
  b <- rd MAX_BITMAP bitmap_server_obj ub;;
  m <- block (ub_area b);;
  n <- of_option (win_get_total_bits_set m);;
  wr MAX_BITMAP bitmap_server_obj ub (fun b => b <| ub_total := n |>);;;
  atdr_log;;;
  wr MAX_BITMAP bitmap_server_obj ub (fun b => b <| ub_state := EBDR_UBITMAP_READY |>);;;
  ret 0.

Definition win_bitmap_server_destroy (ub pid : Z) : MW E unit :=
  atdr_log;;;
  b <- rd MAX_BITMAP bitmap_server_obj ub;;
  free (ub_area b);;;
  d <- rd MAX_DISKS ebdr_disk_src_obj pid;;
  p <- of_option (if ub_user b =? USER then dsk_active d else dsk_backup d);;
  e <- get ext;;
  m' <- of_option (atdr_clear_active_bitmap (dsk_bitmap_size d) (mp_off p) (wos_user_read (mp_area p) e));;
  sys_ (wos_user_write (mp_area p) m').

(** ** atdr_disk_source.c, atdr_disk_target.c, atdr_disk.c *)
Definition win_disk_source_create (name : string) (i : Z) : MW E unit :=
  server_pid <- get ds_count;;
  in_use <- (if server_pid <? MAX_DISKS then
               d <- rd MAX_DISKS ebdr_disk_src_obj server_pid;; ret (dsk_state d =? DISK_OBJ_IN_USE)
             else ret true);;
  if (server_pid <? MAX_DISKS) && negb in_use then
    wr MAX_DISKS ebdr_disk_src_obj i (fun d => d <| dsk_state := DISK_OBJ_IN_USE |> <| dsk_name := name |>);;;
    atdr_log;;;
    rec <- rd MAX_PID recovery_mode server_pid;;
    when (negb (rec =? 1))
      (obj <- get ioctl_obj;;
       wr MAX_DISKS ebdr_disk_src_obj i (fun d => d <| dsk_bitmap_size := u_bitmap_size obj |>);;;
       d <- rd MAX_DISKS ebdr_disk_src_obj i;;
       ignore (win_insert_into_disk server_pid (dsk_name d) "-" (dsk_bitmap_size d) (dsk_state d) "atdrdbs"));;;
    wr MAX_DISKS ebdr_disk_src_obj i (fun d => d <| dsk_ops := Some server_ops |>);;;
    modify (fun w => w <| ds_count ::= Z.succ |>);;;
    atdr_log
  else atdr_log.

(** [FILE_ATTRIBUTE_NORMAL || FILE_FLAG_NO_BUFFERING | FILE_FLAG_WRITE_THROUGH]:
    the logical or of the first and the rest. *)
Definition source_flags : Z :=
  if (FILE_ATTRIBUTE_NORMAL =? 0) && (Z.lor FILE_FLAG_NO_BUFFERING FILE_FLAG_WRITE_THROUGH =? 0) then 0 else 1.

Definition win_disk_source_setup (i : Z) : MW E Z :=
  d <- rd MAX_DISKS ebdr_disk_src_obj i;;
  if wos_MultiByteToWideChar 64 (dsk_snap d) <=? 0 then atdr_log;;; ret (-1) else
  atdr_log;;;
  h <- sys (wos_CreateFile (dsk_snap d) FILE_SHARE_READ source_flags);;
  match h with
  | None => atdr_log;;; ret (-1)
  | Some fd => wr MAX_DISKS ebdr_disk_src_obj i (fun d => d <| dsk_fd := fd |>);;; atdr_log;;; ret 0
  end.

(** The call that reads the table is commented out. *)
Definition win_mkdisk_from_db_on_server : MW E Z := ret 0.

Definition win_disk_source_destroy (i : Z) : MW E unit :=
  wr MAX_DISKS ebdr_disk_src_obj i (fun d => d <| dsk_state := DISK_OBJ_RELEASED |>).

Definition win_disk_source_unsetup (i : Z) : MW E unit :=
  atdr_log;;;
  d <- rd MAX_DISKS ebdr_disk_src_obj i;;
  sys_ (wos_CloseHandle (dsk_fd d)).

Definition win_disk_target_create (name : string) (i : Z) : MW E unit :=
  client_pid <- get dt_count;;
  if client_pid <? MAX_DISKS then
    wr MAX_DISKS ebdr_disk_target_obj i (fun d => d <| dsk_state := DISK_OBJ_IN_USE |> <| dsk_name := name |>);;;
    atdr_log;;;
    rec <- rd MAX_PID recovery_mode client_pid;;
    when (negb (rec =? 1))
      (r <- rd MAX_RELATIONS all_relation_clients client_pid;;
       wr MAX_DISKS ebdr_disk_target_obj i (fun d => d <| dsk_bitmap_size := rel_bitmap r |>);;;
       d <- rd MAX_DISKS ebdr_disk_target_obj i;;
       ignore (win_insert_into_disk client_pid (dsk_name d) "-" (dsk_bitmap_size d) (dsk_state d) "atdrdbc"));;;
    wr MAX_DISKS ebdr_disk_target_obj i (fun d => d <| dsk_ops := Some client_ops |>)
  else atdr_log.

Definition FSCTL_LOCK_VOLUME : Z := 0x90018.
Definition FSCTL_DISMOUNT_VOLUME : Z := 0x90020.

(** Neither result is looked at. *)
Definition prepare_to_write (disk_fd : Z) : MW E Z :=
  sys_ (fun e => snd (wos_DeviceIoControl disk_fd FSCTL_DISMOUNT_VOLUME [] 0 e));;;
  sys_ (fun e => snd (wos_DeviceIoControl disk_fd FSCTL_LOCK_VOLUME [] 0 e));;;
  ret 0.

(** The name is converted into a buffer of 14 of its 28 characters, and
    appended before the test. *)
Definition win_disk_target_setup (i : Z) : MW E Z :=
  d <- rd MAX_DISKS ebdr_disk_target_obj i;;
  if wos_MultiByteToWideChar 14 (dsk_name d) <=? 0 then undefined else
  h <- sys (wos_CreateFile ("\\.\" +:+ dsk_name d) FILE_SHARE_WRITE
              (Z.lor (Z.lor FILE_FLAG_NO_BUFFERING FILE_FLAG_WRITE_THROUGH) FILE_FLAG_RANDOM_ACCESS));;
  match h with
  | None => atdr_log;;; ret (-1)
  | Some fd =>
      wr MAX_DISKS ebdr_disk_target_obj i (fun d => d <| dsk_fd := fd |>);;;
      ignore (prepare_to_write fd);;;
      atdr_log;;;
      modify (fun w => w <| dt_count ::= Z.succ |>);;;
      atdr_log;;;
      ret 0
  end.

Definition win_disk_target_destroy (i : Z) : MW E unit :=
  atdr_log;;; wr MAX_DISKS ebdr_disk_target_obj i (fun d => d <| dsk_state := DISK_OBJ_RELEASED |>).

Definition win_disk_target_unsetup (i : Z) : MW E unit :=
  atdr_log;;;
  d <- rd MAX_DISKS ebdr_disk_target_obj i;;
  sys_ (wos_CloseHandle (dsk_fd d)).

Definition atdr_disk_init (role : disk_role_t) (name : string) (i : Z) : MW E Z :=
  match role with
  | PRIMARY =>
      wr MAX_DISKS ebdr_disk_src_obj i (fun d => d <| dsk_ops := Some server_ops |>);;;
      win_disk_source_create name i
  | SECONDARY =>
      wr MAX_DISKS ebdr_disk_target_obj i (fun d => d <| dsk_ops := Some client_ops |>);;;
      win_disk_target_create name i
  end;;;
  ret 0.

(** ** atdr_io_engine_client.c, atdr_io_engine_server.c *)
Definition MSVC_ETIMEDOUT : Z := 138.

(** [(__int64)(start_lba * CHUNK_SIZE)]: the product has 32 bits. *)
Definition win_offset (start_lba : Z) : Z := u32 (start_lba * CHUNK_SIZE).

Definition win_io_client_obj_create (client_pid : Z) : MW E unit :=
  if client_pid <? MAX_IO
  then wr MAX_IO io_client_obj client_pid (fun o => o <| io_state := IO_OBJ_IN_USE |> <| io_ops := Some client_ops |>);;; atdr_log
  else atdr_log;;; win_stop_work.

Definition win_chunk_read_client (fd : Z) (buff : mem) (size start_lba : Z) : MW E (Z * mem) :=
  atdr_log;;;
  '(n, bytes) <- sys (fun e => let '(n, b, e') := wos_recv fd size e in ((n, b), e'));;
  e <- get ext;;
  let buff' := if n <? 0 then buff else bytes ++ drop (length bytes) buff in
  if (n <? 0) || (wos_errno e =? MSVC_ETIMEDOUT) then atdr_log;;; ret (-1, buff')
  else atdr_log;;; ret (0, buff').

(** A failed WriteFile ends the process. *)
Definition win_chunk_write_client (h : Z) (buff : mem) (size start_lba : Z) : MW E Z :=
  ok <- sys (wos_SetFilePointer h (win_offset start_lba));;
  if negb ok then atdr_log;;; atdr_log;;; ret (-1) else
  b <- sys (wos_WriteFile h (take (Z.to_nat size) buff));;
  if negb b then atdr_log;;; stop Exited else ret 0.

Definition win_io_client_obj_destroy (i : Z) : MW E unit :=
  atdr_log;;; wr MAX_IO io_client_obj i (fun o => o <| io_state := IO_OBJ_RELEASED |>).

Definition win_io_server_obj_create (server_pid : Z) : MW E unit :=
  if server_pid <? MAX_IO
  then wr MAX_IO io_server_obj server_pid (fun o => o <| io_state := IO_OBJ_IN_USE |> <| io_ops := Some server_ops |>);;; atdr_log
  else atdr_log;;; win_stop_work.

(** [ret] is the BOOL of ReadFile, 0 when it failed. *)
Definition win_chunk_read_server (h : Z) (buff : mem) (size start_lba : Z) : MW E (Z * mem) :=
  ok <- sys (wos_SetFilePointer h (win_offset start_lba));;
  if negb ok then atdr_log;;; atdr_log;;; ret (-1, buff) else
  '(b, bytes) <- sys (fun e => let '(b, m, e') := wos_ReadFile h size e in ((b, m), e'));;
  let ret_ := if b : bool then 1 else 0 in
  let buff' := bytes ++ drop (length bytes) buff in
  if (ret_ <=? 0) || (Z.of_nat (length bytes) =? 0) then atdr_log;;; ret (ret_, buff')
  else atdr_log;;; ret (0, buff').

Definition win_chunk_write_server (fd : Z) (buff : mem) (size start_lba : Z) : MW E Z :=
  atdr_log;;;
  n <- sys (wos_send fd (take (Z.to_nat size) buff));;
  if n <=? 0 then atdr_log;;; ret (-1) else ret 0.

Definition win_io_server_obj_destroy (i : Z) : MW E unit :=
  wr MAX_IO io_server_obj i (fun o => o <| io_state := IO_OBJ_RELEASED |>).
End client.
