(* ===== verification/WinObjects.v ===== *)
(** * user/atdr_windows/windows_client: the objects of the daemon

    Partners, relations, protocol headers, replication and connection objects,
    the client's bitmap and the readers of the database.  [WinSock] is what
    they and the protocol use of Winsock, of the C library's files and of the
    MySQL client beyond [WinOS].  Selection functions that only look at the
    arrays ([is_client_partner_id_valid], [get_new_partner_client_id], ...) are
    the same text as in user/atdr_linux and are used from [Partner]. *)
From S2P Require Import Prelude Memory KernelState CMonad CString World Db UBitmap Partner Relation Header WinDb WinClient.

(** A SOCKET is unsigned; [INVALID_SOCKET] is its largest value, given here as
    -1.  [wos_recv_hdr] gives the header received if it arrived complete;
    [wos_fread], [wos_fwrite] are the bytes of a file; [wos_rows] is [None] when
    there is no result set. *)
Class WinSock (E : Type) := {
  wos_WSAStartup : E -> Z * E;
  wos_socket : E -> Z * E;
  wos_connect : Z -> string -> Z -> E -> Z * E;
  wos_bind : Z -> Z -> E -> Z * E;
  wos_listen : Z -> Z -> E -> Z * E;
  wos_accept : Z -> E -> Z * E;
  wos_shutdown : Z -> E -> E;
  wos_closesocket : Z -> E -> E;
  wos_send_hdr : Z -> replic_header -> E -> Z * E;
  wos_recv_hdr : Z -> E -> Z * option replic_header * E;
  wos_CreateThread : E -> bool * E;
  wos_fread : string -> E -> option mem;
  wos_fwrite : string -> mem -> E -> option E;
  wos_rows : E -> option (list (list string));
  wos_CreateMutex : E -> bool * E;
  wos_mysql_init : E -> bool * E;
  wos_mysql_real_connect : string -> string -> string -> E -> bool * E;
}.

(** ** Text files of the C library

    A file opened without "b" is in text mode: a line feed is written as
    carriage return and line feed and read back as one; Ctrl-Z (26) ends the
    file on input. *)
Fixpoint text_write (m : mem) : mem :=
  match m with
  | [] => []
  | b :: m' => if b =? 10 then 13 :: 10 :: text_write m' else b :: text_write m'
  end.

Fixpoint text_read (m : mem) : mem :=
  match m with
  | [] => []
  | b :: m' =>
      if b =? 26 then [] else
      match m' with
      | c :: m'' => if (b =? 13) && (c =? 10) then 10 :: text_read m'' else b :: text_read m'
      | [] => [b]
      end
  end.

Section winobjects.
Context {E : Type} `{WinOS E} `{WinSock E}.

(** ** atdr_db.c: reading back

    [mysql_store_result] on a connection that [finish_with_error] has closed,
    or without a result set, leads to a null or dangling pointer. *)
Definition win_select_rows (sql : string) : MW E (list (list string)) :=
  r <- wsys (wos_mysql_query sql);;
  when (negb (r =? 0)) (win_finish_with_error;;; undefined);;;
  e <- get ext;;
  of_option (wos_rows e).

Definition win_retrieve_from_resync : MW E Z :=
  rows <- win_select_rows "select * from resync where state != 3";;
  fetch_rows (fun i row =>
    a <- column row 1 Cs;; d <- rd MAX_DISKS ebdr_disk_target_obj i;;
    name <- cstring 64 (arg_str a 0 (dsk_name d));;
    wr MAX_DISKS ebdr_disk_target_obj i (fun d => d <| dsk_name := name |>);;;
    a <- column row 2 Cu;;
    wr MAX_REPLICATIONS replic_client_obj i (fun r => r <| rp_last_bit ::= arg_int a 0 |>);;;
    a <- column row 3 Cu;;
    wr MAX_REPLICATIONS replic_client_obj i (fun r => r <| rp_state ::= arg_int a 0 |>)) 0 rows.

Definition win_retrieve_from_disk (disks : world E -> gmap Z ebdr_disk) `{!Setter disks} : MW E Z :=
  rows <- win_select_rows "select * from disk where state != 4";;
  fetch_rows (fun i row =>
    d <- rd MAX_DISKS disks i;;
    a <- column row 1 Cs;; name <- cstring 64 (arg_str a 0 (dsk_name d));;
    wr MAX_DISKS disks i (fun d => d <| dsk_name := name |>);;;
    a <- column row 2 Cs;; snap <- cstring 64 (arg_str a 0 (dsk_snap d));;
    wr MAX_DISKS disks i (fun d => d <| dsk_snap := snap |>);;;
    a <- column row 3 Cu;;
    wr MAX_DISKS disks i (fun d => d <| dsk_bitmap_size ::= arg_int a 0 |>);;;
    a <- column row 4 Cu;;
    wr MAX_DISKS disks i (fun d => d <| dsk_state ::= arg_int a 0 |>)) 0 rows.

Definition win_retrieve_from_partner (partners : world E -> gmap Z partner_t) `{!Setter partners} : MW E Z :=
  rows <- win_select_rows "select * from partner where state != 2";;
  fetch_rows (fun i row =>
    a <- column row 0 Cd;;
    wr MAX_PARTNERS partners i (fun p => p <| ptn_id ::= arg_int a 0 |>);;;
    a <- column row 1 Cu;;
    wr MAX_PARTNERS partners i (fun p => p <| ptn_state ::= arg_int a 0 |>);;;
    a <- column row 2 Cs;; p <- rd MAX_PARTNERS partners i;; ip <- cstring 64 (arg_str a 0 (ptn_ip p));;
    wr MAX_PARTNERS partners i (fun p => p <| ptn_ip := ip |>);;;
    a <- column row 3 Cu;;
    wr MAX_PARTNERS partners i (fun p => p <| ptn_bandwidth ::= arg_int a 0 |>)) 0 rows.

Definition win_retrieve_from_relation (relations : world E -> gmap Z relation_t) `{!Setter relations} : MW E Z :=
  rows <- win_select_rows "select * from relation where state != 2";;
  fetch_rows (fun i row =>
    a <- column row 0 Cu;; wr MAX_RELATIONS relations i (fun r => r <| rel_role ::= arg_int a 0 |>);;;
    a <- column row 1 Cd;; wr MAX_RELATIONS relations i (fun r => r <| rel_partner ::= arg_int a 0 |>);;;
    a <- column row 2 Cd;; wr MAX_RELATIONS relations i (fun r => r <| rel_id ::= arg_int a 0 |>);;;
    a <- column row 3 Cu;; wr MAX_RELATIONS relations i (fun r => r <| rel_state ::= arg_int a 0 |>);;;
    a <- column row 4 Cs;; r <- rd MAX_RELATIONS relations i;;
    device <- cstring 64 (arg_str a 0 (rel_device r));;
    wr MAX_RELATIONS relations i (fun r => r <| rel_device := device |>);;;
    a <- column row 5 Cu;; wr MAX_RELATIONS relations i (fun r => r <| rel_bitmap ::= arg_int a 0 |>);;;
    a <- column row 6 Cu;; wr MAX_RELATIONS relations i (fun r => r <| rel_grain ::= arg_int a 0 |>);;;
    a <- column row 7 Cu;; wr MAX_RELATIONS relations i (fun r => r <| rel_chunk ::= arg_int a 0 |>)) 0 rows.

(** ** atdr_partner.c, atdr_partner_server.c, atdr_partner_client.c *)
Definition win_partner_server_obj_create (i : Z) : MW E unit :=
  n <- get ps_count;;
  if n <? MAX_PARTNERS then
    wr MAX_PARTNERS all_partner_servers i (fun p => p <| ptn_status := ACTIVE |> <| ptn_bandwidth := 100 |>)
  else atdr_log;;; win_stop_work.

Definition win_make_partner_server (ip : string) (bandwidth sfd pid : Z) : MW E Z :=
  wr MAX_PARTNERS all_partner_servers pid (fun p => p <| ptn_id := pid |> <| ptn_state := PARTNER_OBJ_IN_USE |>);;;
  ip <- cstring 64 ip;;
  wr MAX_PARTNERS all_partner_servers pid
    (fun p => p <| ptn_ip := ip |> <| ptn_bandwidth := bandwidth |> <| ptn_fd := sfd |>);;;
  ignore (win_insert_into_partner pid PARTNER_OBJ_IN_USE ip bandwidth "atdrdbs");;;
  modify (fun w => w <| ps_count ::= Z.succ |>);;;
  atdr_log;;;
  ret pid.

Definition win_mkpartner_from_db_on_server : MW E Z := win_retrieve_from_partner all_partner_servers.

Definition win_partner_server_obj_destroy (pid : Z) : MW E unit :=
  atdr_log;;;
  p <- rd MAX_PARTNERS all_partner_servers pid;;
  sys_ (wos_closesocket (ptn_fd p));;;
  wr MAX_PARTNERS all_partner_servers pid (fun _ => zeroed);;;
  wr MAX_PARTNERS all_partner_servers pid (fun p => p <| ptn_state := PARTNER_OBJ_RELEASED |>).

Definition win_partner_client_obj_create (i : Z) : MW E unit :=
  n <- get pc_count;;
  if n <? MAX_PARTNERS then wr MAX_PARTNERS all_partner_clients i (fun p => p <| ptn_status := ACTIVE |>)
  else atdr_log;;; win_stop_work.

(** The test the Linux file writes with one of its conditions doubled. *)
Definition win_get_new_partner_client_id (w : world E) : Z :=
  first_index MAX_PARTNERS (fun i =>
    let st := ptn_state (aget (all_partner_clients w) i) in
    negb (st =? PARTNER_OBJ_IN_USE) && negb (st =? PARTNER_OBJ_RELEASED)).

Definition win_make_partner_client (ip : string) (bandwidth sfd pid : Z) : MW E Z :=
  wr MAX_PARTNERS all_partner_clients pid (fun p => p <| ptn_id := pid |> <| ptn_state := PARTNER_OBJ_IN_USE |>);;;
  ip <- cstring 64 ip;;
  wr MAX_PARTNERS all_partner_clients pid
    (fun p => p <| ptn_ip := ip |> <| ptn_bandwidth := bandwidth |> <| ptn_fd := sfd |>);;;
  modify (fun w => w <| pc_count ::= Z.succ |>);;;
  ignore (win_insert_into_partner pid PARTNER_OBJ_IN_USE ip bandwidth "atdrdbc");;;
  atdr_log;;;
  ret pid.

Definition win_mkpartner_from_db_on_client : MW E Z := win_retrieve_from_partner all_partner_clients.

Definition win_partner_client_obj_destroy (pid : Z) : MW E unit :=
  modify (fun w => w <| pc_count ::= Z.pred |>);;;
  atdr_log;;;
  p <- rd MAX_PARTNERS all_partner_clients pid;;
  sys_ (wos_closesocket (ptn_fd p));;;
  wr MAX_PARTNERS all_partner_clients pid (fun _ => zeroed);;;
  wr MAX_PARTNERS all_partner_clients pid (fun p => p <| ptn_state := PARTNER_OBJ_RELEASED |>).

Definition atdr_partner_init (mode : partner_mode_t) (i : Z) : MW E unit :=
  match mode with
  | PARTNER_SERVER =>
      wr MAX_PARTNERS all_partner_servers i (fun p => p <| ptn_ops := Some server_ops |>);;;
      win_partner_server_obj_create i
  | PARTNER_CLIENT =>
      wr MAX_PARTNERS all_partner_clients i (fun p => p <| ptn_ops := Some client_ops |>);;;
      win_partner_client_obj_create i
  end.

Definition win_op_make_partner (o : option ops) (ip : string) (bandwidth sfd pid : Z) : MW E Z :=
  match o with
  | Some server_ops => win_make_partner_server ip bandwidth sfd pid
  | Some client_ops => win_make_partner_client ip bandwidth sfd pid
  | None => undefined
  end.

Definition win_op_partner_destroy (o : option ops) (pid : Z) : MW E unit :=
  match o with
  | Some server_ops => win_partner_server_obj_destroy pid
  | Some client_ops => win_partner_client_obj_destroy pid
  | None => undefined
  end.

(** ** atdr_relation.c, atdr_relation_server.c, atdr_relation_client.c *)
Definition win_relation_server_obj_create (rid : Z) : MW E unit :=
  if rid <? MAX_RELATIONS then atdr_log else atdr_log;;; win_stop_work.

Definition win_make_relation_server (role pid : Z) (disk : string) : MW E Z :=
  wr MAX_RELATIONS all_relation_servers pid (fun r => r <| rel_role := role |> <| rel_partner := pid |>
    <| rel_id := pid |> <| rel_state := RELATION_OBJ_IN_USE |>);;;
  device <- cstring 64 disk;;
  h <- rd MAX_HDR replic_hdr_server_obj pid;;
  wr MAX_RELATIONS all_relation_servers pid (fun r => r <| rel_device := device |>
    <| rel_bitmap := hd_bitmap h |> <| rel_grain := hd_grain h |>);;;
  ret pid.

Definition win_relation_server_obj_destroy (rid : Z) : MW E unit :=
  atdr_log;;; wr MAX_RELATIONS all_relation_servers rid (fun r => r <| rel_state := RELATION_OBJ_RELEASED |>).

Definition win_relation_client_obj_create (rid : Z) : MW E unit :=
  when (MAX_RELATIONS <? rid) (atdr_log;;; win_stop_work).

Definition win_make_relation_client (role pid : Z) (target_disk : string) : MW E Z :=
  wr MAX_RELATIONS all_relation_clients pid (fun r => r <| rel_role := role |> <| rel_partner := pid |>
    <| rel_id := pid |> <| rel_state := RELATION_OBJ_IN_USE |>);;;
  device <- cstring 64 target_disk;;
  h <- rd MAX_HDR replic_hdr_client_obj pid;;
  wr MAX_RELATIONS all_relation_clients pid (fun r => r <| rel_device := device |>
    <| rel_bitmap := hd_bitmap h |> <| rel_grain := hd_grain h |>);;;
  ret pid.

Definition win_relation_client_obj_destroy (rid : Z) : MW E unit :=
  atdr_log;;; wr MAX_RELATIONS all_relation_clients rid (fun r => r <| rel_state := RELATION_OBJ_RELEASED |>).

Definition atdr_relation_init (mode : relation_mode_t) (i pid : Z) : MW E unit :=
  match mode with
  | EBDR_RELATION_SERVER =>
      wr MAX_RELATIONS all_relation_servers i (fun r => r <| rel_ops := Some server_ops |>);;;
      win_relation_server_obj_create pid
  | EBDR_RELATION_CLIENT =>
      wr MAX_RELATIONS all_relation_clients i (fun r => r <| rel_ops := Some client_ops |>);;;
      win_relation_client_obj_create pid
  end.

Definition win_op_make_relation (o : option ops) (role id : Z) (disk : string) : MW E Z :=
  match o with
  | Some server_ops => win_make_relation_server role id disk
  | Some client_ops => win_make_relation_client role id disk
  | None => undefined
  end.

Definition win_op_relation_destroy (o : option ops) (rid : Z) : MW E unit :=
  match o with
  | Some server_ops => win_relation_server_obj_destroy rid
  | Some client_ops => win_relation_client_obj_destroy rid
  | None => undefined
  end.

(** ** atdr_replication_header.c, atdr_replic_header_server.c, atdr_replic_header_client.c *)
Definition win_replic_hdr_server_create (role pid : Z) : MW E unit :=
  if pid <? MAX_HDR then
    wr MAX_HDR replic_hdr_server_obj pid (fun h => h <| hd_state := REP_HDR_OBJ_IN_USE |> <| hd_role := role |>
      <| hd_ops := Some server_ops |>)
  else atdr_log;;; win_stop_work.

Definition win_replic_hdr_server_setup (bitmap_size grain_size chunk_size pid : Z) : MW E unit :=
  atdr_log;;;
  wr MAX_HDR replic_hdr_server_obj pid (fun h => h <| hd_bitmap := bitmap_size |> <| hd_grain := grain_size |>
    <| hd_chunk := chunk_size |> <| hd_partner := pid |>);;;
  atdr_log.

Definition win_replic_hdr_server_nego (hdr : replic_header) (server_pid : Z) : MW E replic_header :=
  s <- rd MAX_HDR replic_hdr_server_obj server_pid;;
  ret (hdr <| hd_bitmap := hd_bitmap s |> <| hd_grain := hd_grain s |> <| hd_chunk := hd_chunk s |>).

Definition win_replic_hdr_client_create (role pid : Z) : MW E unit :=
  if pid <? MAX_HDR then
    wr MAX_HDR replic_hdr_client_obj pid (fun h => h <| hd_state := REP_HDR_OBJ_IN_USE |> <| hd_role := role |>
      <| hd_ops := Some client_ops |>)
  else atdr_log;;; win_stop_work.

Definition win_replic_hdr_client_nego (hdr : replic_header) (client_pid : Z) : MW E unit :=
  wr MAX_HDR replic_hdr_client_obj client_pid (fun h => h <| hd_bitmap := hd_bitmap hdr |>
    <| hd_grain := hd_grain hdr |> <| hd_chunk := hd_chunk hdr |>);;;
  atdr_log.

Definition win_replication_header_init (role pid : Z) : MW E unit :=
  if role =? REP_HDR_SERVER then win_replic_hdr_server_create role pid else win_replic_hdr_client_create role pid.

(** ** atdr_replication.c, atdr_replication_server.c, atdr_replication_client.c *)
Definition win_replic_server_obj_create (pid : Z) : MW E unit :=
  wr MAX_REPLICATIONS replic_server_obj pid (fun r => r <| rp_ops := Some server_ops |>).

Definition win_replic_server_obj_setup (pid : Z) : MW E unit :=
  win_replication_header_init REP_HDR_SERVER pid;;;
  n <- get ds_count;;
  wr MAX_REPLICATIONS replic_server_obj pid (fun r => r <| rp_conn := Some (PServer pid) |>
    <| rp_hdr := Some (PServer pid) |> <| rp_disk := Some (PServer n) |>).

Definition win_replic_client_obj_create (pid : Z) : MW E unit :=
  atdr_log;;; wr MAX_REPLICATIONS replic_client_obj pid (fun r => r <| rp_ops := Some client_ops |>).

Definition win_replic_client_obj_setup (pid : Z) : MW E unit :=
  win_replication_header_init REP_HDR_CLIENT pid;;;
  wr MAX_REPLICATIONS replic_client_obj pid (fun r => r <| rp_conn := Some (PClient pid) |>
    <| rp_hdr := Some (PClient pid) |>).

Definition win_replication_init (role : rep_role_t) (pid : Z) : MW E Z :=
  match role with
  | REP_LOCAL => win_replic_server_obj_create pid
  | REP_REMOTE => win_replic_client_obj_create pid
  end;;;
  ret 0.

(** ** atdr_conn.c, atdr_io_engine.c *)
Definition win_conn_server_init (pid : Z) : MW E unit :=
  wr (MAX_CONN + 2) ebdr_conn_server pid (fun c => c <| cn_ops := Some server_ops |>).

Definition win_conn_client_init (pid : Z) : MW E unit :=
  wr MAX_CONN ebdr_conn_client pid (fun c => c <| cn_ops := Some client_ops |>).

Definition atdr_connection_init (mode : conn_mode_t) (pid : Z) : MW E unit :=
  match mode with
  | CONN_SERVER => win_conn_server_init pid
  | CONN_CLIENT => win_conn_client_init pid
  end.

Definition win_io_engine_init (owner : owner_t) (pid : Z) : MW E unit :=
  match owner with
  | IO_SERVER => win_io_server_obj_create pid
  | IO_CLIENT => win_io_client_obj_create pid
  end.

(** ** atdr_bitmap_client.c, atdr_bitmap_user.c *)
Definition win_bitmap_client_create (pid : Z) : MW E unit :=
  p <- win_malloc BITMAP_SIZE (replicate (Z.to_nat BITMAP_SIZE) 0);;
  wr MAX_BITMAP bitmap_client_obj pid (fun b => b <| ub_area := p |>);;;
  match p with None => atdr_log;;; win_stop_work | Some _ => ret tt end;;;
  wr MAX_BITMAP bitmap_client_obj pid (fun b => b <| ub_size := BITMAP_SIZE |>
    <| ub_state := EBDR_UBITMAP_INIT |> <| ub_ops := Some client_ops |>).

Definition win_bitmap_client_setup (pid : Z) : MW E Z :=
  wr MAX_BITMAP bitmap_client_obj pid (fun b => b <| ub_obj_state := BITMAP_OBJ_IN_USE |>);;; atdr_log;;; ret 0.

Definition win_bitmap_file (pid : Z) : string := "c:\bitmlap" +:+ dec pid.

(** [fread] of one item of [bitmap_size] bytes fills the buffer with what the
    file has. *)
Definition win_load_bitmap_from_disk (ub pid : Z) : MW E Z :=
  file_name <- cstring 128 (win_bitmap_file pid);;
  e <- get ext;;
  match wos_fread file_name e with
  | None => atdr_log;;; win_stop_work
  | Some bytes =>
      b <- rd MAX_BITMAP bitmap_client_obj ub;;
      m <- block (ub_area b);;
      let got := take (Z.to_nat (ub_size b)) (text_read bytes) in
      assert_def (Z.of_nat (length got) <=? Z.of_nat (length m));;;
      set_block (ub_area b) (got ++ drop (length got) m);;;
      m' <- block (ub_area b);;
      ignore (of_option (load 4 m' 0));;;
      ret 1
  end.

Definition win_store_bitmap_to_disk (ub pid : Z) : MW E Z :=
  file_name <- cstring 128 (win_bitmap_file pid);;
  b <- rd MAX_BITMAP bitmap_client_obj ub;;
  m <- block (ub_area b);;
  assert_def (ub_size b <=? Z.of_nat (length m));;;
  e <- get ext;;
  match wos_fwrite file_name (text_write (take (Z.to_nat (ub_size b)) m)) e with
  | None => atdr_log;;; win_stop_work
  | Some e' => put ext e';;; ret 0
  end.

Definition win_bitmap_client_destroy (ub : Z) : MW E unit :=
  atdr_log;;;
  b <- rd MAX_BITMAP bitmap_client_obj ub;;
  free (ub_area b).

Definition atdr_user_bitmap_init (role : role_t) (pid : Z) : MW E unit :=
  match role with
  | LOCAL => win_bitmap_server_create pid
  | REMOTE => win_bitmap_client_create pid
  end.

(** ** Calls through the disks' [ops] *)
Definition win_op_src_setup (o : option ops) (i : Z) : MW E Z :=
  match o with Some server_ops => win_disk_source_setup i | _ => undefined end.

Definition win_op_src_unsetup (o : option ops) (i : Z) : MW E unit :=
  match o with Some server_ops => win_disk_source_unsetup i | _ => undefined end.

Definition win_op_target_setup (o : option ops) (i : Z) : MW E Z :=
  match o with Some client_ops => win_disk_target_setup i | _ => undefined end.

Definition win_op_target_unsetup (o : option ops) (i : Z) : MW E unit :=
  match o with Some client_ops => win_disk_target_unsetup i | _ => undefined end.
End winobjects.
