(* ===== verification/WinServer.v ===== *)
(** * user/atdr_windows/windows_client: the server's requests and connections

    replic_server.c, the server half of atdr_conn_server.c and
    [make_relation_with_client] of atdr_daemon.c.  The dispatch over [cmdMap]
    ([dispatch]) and the search for the partner of a connection
    ([assign_loop]) are the same text as in user/atdr_linux and are used from
    [ConnServer].  The two endless loops are given as the body of one
    iteration, as there. *)
From S2P Require Import Prelude Memory KernelState CMonad CString World UBitmap Db Partner Relation Header.
From S2P Require Import ReplicServer ConnServer WinDb WinClient WinObjects.

Section winserver.
Context {E : Type} `{WinOS E} `{WinSock E}.

(** What the locals of DeviceIoControl hold, see [WinClient]. *)
Context (garbage : mem).

(** ** atdr_utils.c: the thread's entry of [thread_params] *)
Definition win_log_setup (log_pid : Z) : MW E unit :=
  wr (MAX_DISKS + CNTRL_THREADS) thread_params log_pid
    (fun t => t <| th_pid := log_pid |> <| th_level := 4 |> <| th_str := "DATUG" |>).

(** ** Sending *)
Definition win_server_send_hdr (buf : payload) (fd : Z) : MW E Z :=
  match buf with
  | PHdr h => r <- sys (wos_send_hdr fd h);; if r <? 0 then atdr_log;;; ret (-1) else ret 0
  | PData _ => undefined
  end.

Definition win_server_send_data (buf : payload) (fd : Z) : MW E Z :=
  match buf with
  | PData m => r <- sys (wos_send fd m);; if r <? 0 then atdr_log;;; ret (-1) else ret 0
  | PHdr _ => undefined
  end.

Definition win_server_send_cmdMap : list (Z * (payload -> Z -> MW E Z)) :=
  [(PROTO_TYPE, win_server_send_hdr); (DATA_TYPE, win_server_send_data)].

Definition atdr_conn_server_send (buf : payload) (fd send_type : Z) : MW E Z :=
  match table_find send_type win_server_send_cmdMap with
  | Some f => f buf fd
  | None => ret 0
  end.

(** The server's connection a replication object points to. *)
Definition win_rep_conn (pid : Z) : MW E ebdr_connection :=
  r <- rd MAX_REPLICATIONS replic_server_obj pid;;
  match rp_conn r with
  | Some (PServer i) => rd (MAX_CONN + 2) ebdr_conn_server i
  | _ => undefined
  end.

(** [replic_server_obj[pid].rep_conn->conn_ops->do_atdr_conn_send] *)
Definition win_server_rep_send (pid : Z) (buf : payload) (fd send_type : Z) : MW E Z :=
  c <- win_rep_conn pid;;
  match cn_ops c with Some server_ops => atdr_conn_server_send buf fd send_type | _ => undefined end.

(** ** atdr_daemon.c: the relation of a partner, on the server *)
Definition win_make_relation_with_client (partnerid role : Z) (src_disk : string)
    (bitmap_size grain_size chunk_size : Z) : MW E Z :=
  atdr_relation_init EBDR_RELATION_SERVER partnerid partnerid;;;
  let relation_role := if role =? 0 then RELATION_PRIMARY else RELATION_SECONDARY in
  w <- get (fun w => w);;
  if is_server_partner_id_valid partnerid w then
    r <- rd MAX_RELATIONS all_relation_servers partnerid;;
    ignore (win_op_make_relation (rel_ops r) relation_role partnerid src_disk);;;
    wr MAX_HDR replic_hdr_server_obj partnerid (fun h => h <| hd_ops := Some server_ops |>);;;
    win_replic_hdr_server_setup bitmap_size grain_size chunk_size partnerid;;;
    ret 0
  else ret (-1).

(** ** Handlers *)
Definition win_get_bitmap (h : replic_header) : MW E replic_header :=
  let pid := hd_partner h in
  p <- rd MAX_PARTNERS all_partner_servers pid;;
  when (ptn_state p =? PARTNER_OBJ_RELEASED)
    (wr MAX_PARTNERS all_partner_servers pid (fun p => p <| ptn_state := PARTNER_OBJ_IN_USE |>);;;
     wr MAX_RELATIONS all_relation_servers pid (fun r => r <| rel_state := RELATION_OBJ_IN_USE |>);;;
     wr MAX_DISKS ebdr_disk_src_obj pid (fun d => d <| dsk_state := DISK_OBJ_IN_USE |>);;;
     ignore (win_update_into_partner pid PARTNER_OBJ_IN_USE "atdrdbs");;;
     ignore (win_update_relation_state pid RELATION_OBJ_IN_USE "atdrdbs");;;
     ignore (win_update_disk_state pid DISK_OBJ_IN_USE "atdrdbs"));;;
  atdr_user_bitmap_init LOCAL pid;;;
  wr MAX_DISKS ebdr_disk_src_obj pid (fun d => d <| dsk_bitmap := Some (PServer pid) |>);;;
  b <- rd MAX_BITMAP bitmap_server_obj pid;;
  (match ub_ops b with Some server_ops => ignore (win_bitmap_server_setup garbage pid pid) | _ => undefined end);;;
  b <- rd MAX_BITMAP bitmap_server_obj pid;;
  m <- block (ub_area b);;
  assert_def (ub_size b <=? Z.of_nat (length m));;;
  p <- rd MAX_PARTNERS all_partner_servers pid;;
  r <- win_server_rep_send pid (PData (take (Z.to_nat (ub_size b)) m)) (ptn_fd p) DATA_TYPE;;
  if r <? 0 then ret h
  else ignore (of_option (load 4 m 0));;; win_io_engine_init IO_SERVER pid;;; ret h.

(** Neither failure ends the handler. *)
Definition win_get_data (h : replic_header) : MW E replic_header :=
  let rbuff := replicate (Z.to_nat BUF_SIZE_IN_BYTES) 0 in
  let pid := hd_partner h in
  wr MAX_IO io_server_obj pid (fun o => o <| io_ops := Some server_ops |>);;;
  s <- rd MAX_HDR replic_hdr_server_obj pid;;
  let start_lba := u32 (hd_curr h * hd_grain s + hd_chunk_pos h * hd_chunk s) in
  let size := BUF_SIZE_IN_BYTES in
  o <- rd MAX_IO io_server_obj pid;;
  if io_state o =? IO_OBJ_RELEASED then ret h else
  d <- rd MAX_DISKS ebdr_disk_src_obj pid;;
  '(r, rbuff) <- win_chunk_read_server (dsk_fd d) rbuff size start_lba;;
  when (r <? 0)
    (wr (MAX_CONN + 2) ebdr_conn_server pid (fun c => c <| cn_state := CONN_OBJ_PAUSE |>);;;
     wr MAX_CONN sock_recovery pid (fun _ => 1);;;
     c <- rd (MAX_CONN + 2) ebdr_conn_server pid;;
     sys_ (wos_closesocket (cn_fd c));;;
     wr (MAX_CONN + 2) ebdr_conn_server pid (fun c => c <| cn_fd := -1 |>);;;
     wr MAX_PID partner_created pid (fun _ => 0));;;
  p <- rd MAX_PARTNERS all_partner_servers pid;;
  r <- win_chunk_write_server (ptn_fd p) rbuff size start_lba;;
  when (r <? 0)
    (wr MAX_PID partner_created pid (fun _ => 0);;;
     put total_conn 0;;;
     wr (MAX_CONN + 2) ebdr_conn_server pid (fun c => c <| cn_state := CONN_OBJ_PAUSE |>);;;
     wr MAX_CONN sock_recovery pid (fun _ => 1);;;
     c <- rd (MAX_CONN + 2) ebdr_conn_server pid;;
     sys_ (wos_shutdown (cn_fd c));;;
     sys_ (wos_closesocket (cn_fd c));;;
     wr (MAX_CONN + 2) ebdr_conn_server pid (fun c => c <| cn_fd := -1 |>);;;
     wr MAX_PID partner_created pid (fun _ => 0));;;
  ret h.

Definition win_make_partner (h : replic_header) : MW E replic_header :=
  let pid := hd_partner h in
  ignore (win_replication_init REP_LOCAL pid);;;
  r <- rd MAX_REPLICATIONS replic_server_obj pid;;
  (match rp_ops r with Some server_ops => win_replic_server_obj_setup pid | _ => undefined end);;;
  slot <- rd (MAX_CONN + 2) ebdr_conn_server (MAX_CONN + 1);;
  wr (MAX_CONN + 2) ebdr_conn_server pid (fun _ => slot);;;
  when (pid <? MAX_PARTNERS)
    (atdr_partner_init PARTNER_SERVER pid;;;
     p <- rd MAX_PARTNERS all_partner_servers pid;;
     c <- win_rep_conn pid;;
     ignore (win_op_make_partner (ptn_ops p) (hd_dest_ip h) (hd_bandwidth h) (cn_fd c) pid));;;
  w <- get (fun w => w);;
  when (is_server_partner_id_valid pid w)
    (ignore (win_make_relation_with_client pid 0 (hd_disk h) (hd_bitmap h) (hd_grain h) (hd_chunk h)));;;
  ret h.

Definition win_remove_partner (h : replic_header) : MW E replic_header :=
  let pid := hd_partner h in
  r <- rd MAX_RELATIONS all_relation_servers pid;;
  when ((rel_partner r =? pid) && (rel_state r =? RELATION_OBJ_IN_USE))
    (win_op_relation_destroy (rel_ops r) pid);;;
  p <- rd MAX_PARTNERS all_partner_servers pid;;
  win_op_partner_destroy (ptn_ops p) pid;;;
  ret h.

Definition win_remove_relation (h : replic_header) : MW E replic_header :=
  let rid := hd_relation h in
  r <- rd MAX_RELATIONS all_relation_servers rid;;
  win_op_relation_destroy (rel_ops r) rid;;;
  ret h.

Definition win_syn_received (h : replic_header) : MW E replic_header :=
  let pid := hd_partner h in
  wr MAX_HDR replic_hdr_server_obj pid (fun s => s <| hd_ops := Some server_ops |>);;;
  h1 <- win_replic_hdr_server_nego h pid;;
  let h2 := h1 <| hd_opcode := SYN_ACK |> in
  p <- rd MAX_PARTNERS all_partner_servers pid;;
  ignore (win_server_rep_send pid (PHdr h2) (ptn_fd p) PROTO_TYPE);;;
  s <- rd MAX_HDR replic_hdr_server_obj pid;;
  wr MAX_RELATIONS all_relation_servers pid (fun r => r <| rel_bitmap := hd_bitmap s |>
    <| rel_grain := hd_grain s |> <| rel_chunk := hd_chunk s |>);;;
  r <- rd MAX_RELATIONS all_relation_servers pid;;
  ignore (win_insert_into_relation (rel_role r) (rel_partner r) (rel_id r) RELATION_OBJ_IN_USE (rel_device r)
    (rel_bitmap r) (rel_grain r) (rel_chunk r) "atdrdbs");;;
  ret h2.

Definition win_ack (h : replic_header) : MW E replic_header := atdr_log;;; ret h.

Definition win_data_req (h : replic_header) : MW E replic_header :=
  let h' := h <| hd_opcode := DATA_PREP |> <| hd_available := 4096 |> in
  let pid := hd_partner h' in
  p <- rd MAX_PARTNERS all_partner_servers pid;;
  ignore (win_server_rep_send pid (PHdr h') (ptn_fd p) PROTO_TYPE);;;
  ret h'.

Definition win_data_start_recieved (h : replic_header) : MW E replic_header := atdr_log;;; win_stop_work.

Definition win_terminate (h : replic_header) : MW E replic_header :=
  let pid := hd_partner h in
  p <- rd MAX_PARTNERS all_partner_servers pid;;
  when (negb (ptn_state p =? PARTNER_OBJ_RELEASED))
    (d <- rd MAX_DISKS ebdr_disk_src_obj pid;;
     win_op_src_unsetup (dsk_ops d) pid;;;
     b <- rd MAX_BITMAP bitmap_server_obj pid;;
     (match ub_ops b with Some server_ops => win_bitmap_server_destroy pid pid | _ => undefined end);;;
     wr MAX_PID recovery_mode pid (fun _ => 0);;;
     wr MAX_PARTNERS all_partner_servers pid (fun p => p <| ptn_state := PARTNER_OBJ_RELEASED |>);;;
     wr MAX_RELATIONS all_relation_servers pid (fun r => r <| rel_state := RELATION_OBJ_RELEASED |>);;;
     wr MAX_DISKS ebdr_disk_src_obj pid (fun d => d <| dsk_state := DISK_OBJ_RELEASED |>);;;
     wr MAX_IO io_server_obj pid (fun o => o <| io_state := IO_OBJ_RELEASED |>);;;
     ignore (win_update_into_partner pid PARTNER_OBJ_RELEASED "atdrdbs"));;;
  ret h.

(** The body of the function is under [#if 0]. *)
Definition win_calculate_md5 (disk_name : string) (h : replic_header) : MW E Z := ret 0.

Definition win_verify_data (h : replic_header) : MW E replic_header :=
  let pid := hd_partner h in
  d <- rd MAX_DISKS ebdr_disk_src_obj pid;;
  r <- win_calculate_md5 (dsk_snap d) h;;
  let h' := h <| hd_opcode := if (r <? 0) || (slen (hd_md5 h) =? 0) then VERIFY_DATA_IGN else VERIFY_DATA_RSP |> in
  p <- rd MAX_PARTNERS all_partner_servers pid;;
  ignore (win_server_rep_send pid (PHdr h') (ptn_fd p) PROTO_TYPE);;;
  ret h'.

(** ** atdr_conn_server.c: receiving *)
Definition win_cmdMap : list (Z * handler) :=
  [(opcode_code BITMAP_METADATA, win_get_bitmap);
   (opcode_code DATA, win_get_data);
   (opcode_code MAKE_PARTNER, win_make_partner);
   (opcode_code REMOVE_PARTNER, win_remove_partner);
   (opcode_code RM_RELATION, win_remove_relation);
   (opcode_code SYN, win_syn_received);
   (opcode_code ACK, win_ack);
   (opcode_code RPLC_TERMINATION, win_terminate);
   (opcode_code DATA_REQ, win_data_req);
   (opcode_code VERIFY_DATA, win_verify_data)].

(** The receive error of a connection whose last request was DATA. *)
Definition win_recv_error_pause (pid : Z) : MW E unit :=
  wr MAX_PID partner_created pid (fun _ => 0);;;
  c <- rd (MAX_CONN + 2) ebdr_conn_server pid;;
  sys_ (wos_shutdown (cn_fd c));;;
  sys_ (wos_closesocket (cn_fd c));;;
  wr (MAX_CONN + 2) ebdr_conn_server pid (fun c => c <| cn_fd := -1 |> <| cn_state := CONN_OBJ_PAUSE |>);;;
  wr MAX_CONN sock_recovery pid (fun _ => 1);;;
  wr MAX_PID partner_created pid (fun _ => 0).

(** [None] when the function returns; a receive of 0 bytes is no error. *)
Definition win_server_recv_step (fd : Z) (h : replic_header) : MW E (option replic_header) :=
  '(n, got) <- sys (fun e => let '(n, g, e') := wos_recv_hdr fd e in ((n, g), e'));;
  let h := default h got in
  if n <? 0 then
    if bool_decide (hd_opcode h = REMOVE_PARTNER) then ret None
    else if bool_decide (hd_opcode h = DATA) then win_recv_error_pause (hd_partner h);;; ret None
    else ret None
  else h' <- dispatch win_cmdMap h;; ret (Some h').

Fixpoint win_send_recv_loop (fuel : nat) (fd : Z) (h : replic_header) : MW E (option replic_header) :=
  match fuel with
  | O => ret (Some h)
  | S fuel' =>
      r <- win_server_recv_step fd h;;
      match r with
      | None => ret None
      | Some h' => win_send_recv_loop fuel' fd h'
      end
  end.

Definition win_send_recv_handler (fuel : nat) (slot : Z) : MW E (option replic_header) :=
  '(fd, server_pid) <- rd MAX_CONN sockfd_pid_var slot;;
  win_log_setup (MAX_DISKS + CNTRL_THREADS - 2);;;
  atdr_connection_init CONN_SERVER server_pid;;;
  wr (MAX_CONN + 2) ebdr_conn_server server_pid (fun c => c <| cn_fd := fd |> <| cn_conn_state := EBDR_CONN_CONNECTED |>);;;
  c <- rd (MAX_CONN + 2) ebdr_conn_server server_pid;;
  match cn_ops c with
  | Some server_ops => win_send_recv_loop fuel (cn_fd c) zeroed
  | _ => undefined
  end.

(** ** Accepting a connection

    The SOCKET that [accept] returns is unsigned: the test for an error is
    never true.  The thread gets the address of the array [sockfd_pid_var],
    that is of its element 0. *)
Definition win_accept_step : MW E unit :=
  let server_pid := MAX_CONN + 1 in
  wr (MAX_CONN + 2) ebdr_conn_server server_pid (fun c => c <| cn_conn_state := EBDR_CONN_WAIT_FOR_CLIENT |>);;;
  c <- rd (MAX_CONN + 2) ebdr_conn_server server_pid;;
  newSockFd <- sys (wos_accept (cn_sockFd c));;
  if u64 newSockFd <? 0 then win_stop_work else
  put client_connected 1;;;
  wr (MAX_CONN + 2) ebdr_conn_server (MAX_CONN + 1) (fun c => c <| cn_fd := newSockFd |>);;;
  num_rows <- win_mkpartner_from_db_on_server;;
  pid <- (if num_rows <=? 0 then
            wr MAX_PID partner_created 0 (fun _ => 1);;;
            wr MAX_CONN sockfd_pid_var 0 (fun v => (fst v, 0));;;
            ret 0
          else assign_loop (Z.to_nat (num_rows + 1)) 0 num_rows newSockFd);;
  wr MAX_CONN sockfd_pid_var pid (fun v => (newSockFd, snd v));;;
  created <- sys wos_CreateThread;;
  when created (modify (fun w => w <| threads ::= fun l => l ++ [TSendRecv 0] |>)).

(** ** The listening socket

    Only WSAStartup, [bind] and [listen] are fatal. *)
Definition win_create_replication_thread : MW E unit :=
  created <- sys wos_CreateThread;;
  when created (modify (fun w => w <| threads ::= fun l => l ++ [TReplic] |>)).

Definition SOCKET_ERROR : Z := -1.

Definition atdr_conn_server_setup (pid : Z) : MW E unit :=
  wr (MAX_CONN + 2) ebdr_conn_server pid (fun c => c <| cn_mode := EBDR_CONN_SERVER |>
    <| cn_conn_state := EBDR_CONN_SETUP |> <| cn_state := CONN_OBJ_IN_USE |>);;;
  r <- sys wos_WSAStartup;;
  if negb (r =? 0) then win_stop_work else
  sockFd <- sys wos_socket;;
  wr (MAX_CONN + 2) ebdr_conn_server pid (fun c => c <| cn_sockFd := sockFd |>);;;
  c <- rd (MAX_CONN + 2) ebdr_conn_server pid;;
  r <- sys (wos_bind (cn_sockFd c) SRV_TCP_PORT);;
  if r =? SOCKET_ERROR then win_stop_work else
  r <- sys (wos_listen (cn_sockFd c) MAX_CONN);;
  if r <? 0 then win_stop_work else
  win_create_replication_thread.

Definition atdr_conn_server_stop (pid : Z) : MW E unit :=
  atdr_log;;; wr (MAX_CONN + 2) ebdr_conn_server pid (fun c => c <| cn_conn_state := EBDR_CONN_RELEASED |>).
End winserver.
