(* ===== verification/WinResync.v ===== *)
(** * user/atdr_windows/windows_client: the resync of the client

    atdr_resync.c, the sending half of replic_client.c and atdr_conn_client.c,
    and the resync thread of atdr_daemon.c.  [unsigned long] has 32 bits: so
    have the grain, the chunk and the address of a transfer.  A failed write
    and a pause end the thread ([ExitThread]).  [replic_verify_start] is under
    [if (0)] in the source. *)
From S2P Require Import Prelude Memory KernelState CMonad CString World UBitmap Db Partner Relation Header.
From S2P Require Import ReplicServer Resync WinDb WinClient WinObjects WinServer.

Section winresync.
Context {E : Type} `{WinOS E} `{WinSock E}.

(** [ExitThread]: the thread is gone, the process goes on. *)
Definition exit_thread {A} : MW E A := stop Cancelled.

(** ** Sending: an answer of 0 is an error here *)
Definition win_send_hdr (buf : payload) (fd : Z) : MW E Z :=
  match buf with
  | PHdr h => r <- sys (wos_send_hdr fd h);; if r <=? 0 then atdr_log;;; ret (-1) else ret 0
  | PData _ => undefined
  end.

Definition win_send_data_start (buf : payload) (fd : Z) : MW E Z :=
  match buf with
  | PHdr h => r <- sys (wos_send_hdr fd h);; if r <=? 0 then atdr_log;;; ret (-1) else ret 0
  | PData _ => undefined
  end.

(** The body is under [#if 0]. *)
Definition win_send_data (buf : payload) (fd : Z) : MW E Z := ret 0.

Definition win_ccmdMap : list (Z * (payload -> Z -> MW E Z)) :=
  [(PROTO_TYPE, win_send_hdr); (DATA_TYPE, win_send_data); (opcode_code DATA, win_send_data_start);
   (opcode_code DATA_REQ, win_send_hdr)].

Definition atdr_conn_client_send (buf : payload) (fd send_type : Z) : MW E Z :=
  match table_find send_type win_ccmdMap with
  | Some f => f buf fd
  | None => ret 0
  end.

(** [replic_client_obj[pid].rep_conn->conn_ops] is the client's table. *)
Definition win_client_conn (pid : Z) : MW E unit :=
  r <- rd MAX_REPLICATIONS replic_client_obj pid;;
  match rp_conn r with
  | Some (PClient i) =>
      c <- rd MAX_CONN ebdr_conn_client i;;
      match cn_ops c with Some client_ops => ret tt | _ => undefined end
  | _ => undefined
  end.

Definition win_client_rep_send (pid : Z) (buf : payload) (fd send_type : Z) : MW E Z :=
  win_client_conn pid;;; atdr_conn_client_send buf fd send_type.

(** ** The end of a resync

    The disk is closed first, whether or not the resync has already ended. *)
Definition win_replication_terminate (pid : Z) : MW E unit :=
  d <- rd MAX_DISKS ebdr_disk_target_obj pid;;
  win_op_target_unsetup (dsk_ops d) pid;;;
  r <- rd MAX_REPLICATIONS replic_client_obj pid;;
  when (negb (rp_state r =? RESYNC_COMPLETED))
    (wr MAX_HDR replic_hdr_client_obj pid (fun h => h <| hd_opcode := RPLC_TERMINATION |>);;;
     p <- rd MAX_PARTNERS all_partner_clients pid;;
     when (negb (ptn_state p =? PARTNER_OBJ_PAUSE))
       (wr MAX_REPLICATIONS replic_client_obj pid (fun r => r <| rp_last_bit := 0 |>));;;
     h <- rd MAX_HDR replic_hdr_client_obj pid;;
     ignore (win_client_rep_send pid (PHdr h) (ptn_fd p) PROTO_TYPE);;;
     wr MAX_PARTNERS all_partner_clients pid (fun p => p <| ptn_state := PARTNER_OBJ_RELEASED |>);;;
     wr MAX_RELATIONS all_relation_clients pid (fun r => r <| rel_state := RELATION_OBJ_RELEASED |>);;;
     wr MAX_DISKS ebdr_disk_target_obj pid (fun d => d <| dsk_state := DISK_OBJ_RELEASED |>);;;
     wr MAX_IO io_client_obj pid (fun o => o <| io_state := IO_OBJ_RELEASED |>);;;
     wr MAX_REPLICATIONS replic_client_obj pid (fun r => r <| rp_state := RESYNC_COMPLETED |>);;;
     b <- rd MAX_BITMAP bitmap_client_obj pid;;
     (match ub_ops b with Some client_ops => win_bitmap_client_destroy pid | _ => undefined end);;;
     ignore (win_update_into_partner pid PARTNER_OBJ_RELEASED "atdrdbc");;;
     ignore (win_update_resync_state pid RESYNC_COMPLETED "RESYNC_COMPLETED" "atdrdbc")).

(** ** The loop *)
Definition win_abandon_conn (pid : Z) : MW E unit :=
  p <- rd MAX_PARTNERS all_partner_clients pid;;
  sys_ (wos_shutdown (ptn_fd p));;;
  sys_ (wos_closesocket (ptn_fd p));;;
  wr MAX_PARTNERS all_partner_clients pid (fun p => p <| ptn_fd := -1 |>);;;
  wr MAX_CONN ebdr_conn_client pid (fun c => c <| cn_state := CONN_OBJ_PAUSE |>).

(** One round; [None] when the loop goes on. *)
Definition win_chunk_round (pid bit_pos chunk_id : Z) (buff : mem) : MW E (option chunk_result * mem) :=
  wr MAX_HDR replic_hdr_client_obj pid (fun h => h <| hd_curr := bit_pos |> <| hd_chunk_pos := chunk_id |>
    <| hd_partner := pid |> <| hd_opcode := DATA |>);;;
  wr MAX_IO io_client_obj pid (fun o => o <| io_ops := Some client_ops |>);;;
  p <- rd MAX_PARTNERS all_partner_clients pid;;
  if ptn_state p =? PARTNER_OBJ_PAUSE then ret (Some chunks_paused, buff) else
  o <- rd MAX_IO io_client_obj pid;;
  if io_state o =? IO_OBJ_RELEASED then ret (Some resync_returned, buff) else
  h <- rd MAX_HDR replic_hdr_client_obj pid;;
  r <- win_client_rep_send pid (PHdr h) (ptn_fd p) PROTO_TYPE;;
  if r <? 0 then win_abandon_conn pid;;; ret (Some resync_returned, buff) else
  let start_lba := u32 (bit_pos * hd_grain h + chunk_id * hd_chunk h) in
  '(r, buff) <- win_chunk_read_client (ptn_fd p) buff BUF_SIZE_IN_BYTES start_lba;;
  if r <? 0 then win_abandon_conn pid;;; ret (Some resync_returned, buff) else
  d <- rd MAX_DISKS ebdr_disk_target_obj pid;;
  r <- win_chunk_write_client (dsk_fd d) buff BUF_SIZE_IN_BYTES start_lba;;
  when (r <? 0)
    (wr MAX_DISKS ebdr_disk_target_obj pid (fun d => d <| dsk_state := DISK_OBJ_PAUSE |>);;; exit_thread);;;
  ret (None, buff).

Fixpoint win_chunk_loop (n : nat) (pid bit_pos chunk_id : Z) (buff : mem) : MW E (chunk_result * mem) :=
  match n with
  | O => ret (chunks_done, buff)
  | S n' =>
      '(stop_, buff) <- win_chunk_round pid bit_pos chunk_id buff;;
      match stop_ with
      | Some c => ret (c, buff)
      | None => win_chunk_loop n' pid bit_pos (chunk_id + 1) buff
      end
  end.

Definition win_target_bit (pid bit_pos : Z) : MW E bool :=
  d <- rd MAX_DISKS ebdr_disk_target_obj pid;;
  match dsk_bitmap d with
  | Some (PClient i) =>
      b <- rd MAX_BITMAP bitmap_client_obj i;;
      m <- block (ub_area b);;
      if bit_pos <? MAX_BITS_LEN then v <- of_option (is_bit_set m bit_pos);; ret (negb (v =? 0))
      else win_stop_work
  | _ => undefined
  end.

Definition win_target_bits (pid : Z) : MW E Z :=
  d <- rd MAX_DISKS ebdr_disk_target_obj pid;;
  match dsk_bitmap d with
  | Some (PClient i) => b <- rd MAX_BITMAP bitmap_client_obj i;; ret (u32 (ub_size b * 8))
  | _ => undefined
  end.

(** The [while] loop; [false] when the function returned from within it. *)
Fixpoint win_grain_loop (fuel : nat) (pid bit_pos total_iterations : Z) (mode : rep_mode_t) (buff : mem) : MW E bool :=
  match fuel with
  | O => ret true
  | S fuel' =>
      bits <- win_target_bits pid;;
      p <- rd MAX_PARTNERS all_partner_clients pid;;
      if negb ((bit_pos <? bits) && negb (ptn_state p =? PARTNER_OBJ_PAUSE)) then ret true else
      set_ <- win_target_bit pid bit_pos;;
      '(c, buff) <-
        (if set_ || (match mode with FULL_RESYNC => true | NO_RESYNC => false end) then
           '(c, buff) <- win_chunk_loop (Z.to_nat total_iterations) pid bit_pos 0 buff;;
           match c with
           | resync_returned => ret (c, buff)
           | _ =>
               r <- rd MAX_REPLICATIONS replic_client_obj pid;;
               d <- rd MAX_DISKS ebdr_disk_target_obj pid;;
               ignore (win_update_into_resync pid (dsk_name d) bit_pos (rp_state r) "atdrdbc");;;
               ret (c, buff)
           end
         else ret (chunks_done, buff));;
      match c with
      | resync_returned => ret false
      | _ =>
          wr MAX_REPLICATIONS replic_client_obj pid (fun r => r <| rp_last_bit := bit_pos |>);;;
          win_grain_loop fuel' pid (bit_pos + 1) total_iterations mode buff
      end
  end.

(** The start of the function; the disk is opened here, whatever the call
    answers. *)
Definition win_resync_prologue (pid bit_pos : Z) : MW E Z :=
  h <- rd MAX_HDR replic_hdr_client_obj pid;;
  assert_def (negb (hd_chunk h =? 0));;;
  let total_iterations := hd_grain h / hd_chunk h in
  wr MAX_HDR replic_hdr_client_obj pid (fun h => h <| hd_opcode := DATA |>);;;
  rm <- rd MAX_PID recovery_mode pid;;
  (if rm =? 1 then wr MAX_PID recovery_mode pid (fun _ => 0)
   else when (bit_pos =? 0)
     (d <- rd MAX_DISKS ebdr_disk_target_obj pid;;
      ignore (win_insert_into_resync pid (dsk_name d) bit_pos RESYNC_IN_PROGRESS "RESYNC_IN_PROGRESS" "atdrdbc");;;
      wr MAX_REPLICATIONS replic_client_obj pid (fun r => r <| rp_state := RESYNC_IN_PROGRESS |>)));;;
  d <- rd MAX_DISKS ebdr_disk_target_obj pid;;
  ignore (win_op_target_setup (dsk_ops d) pid);;;
  ret total_iterations.

Definition win_resync_epilogue (pid : Z) : MW E unit :=
  p <- rd MAX_PARTNERS all_partner_clients pid;;
  when (ptn_state p =? PARTNER_OBJ_PAUSE) exit_thread;;;
  win_replication_terminate pid.

Definition win_restart_resync (pid bit_pos : Z) (mode : rep_mode_t) : MW E unit :=
  total_iterations <- win_resync_prologue pid bit_pos;;
  finished <- win_grain_loop (Z.to_nat (MAX_BITS_LEN + 1)) pid bit_pos total_iterations mode
    (replicate (Z.to_nat BUF_SIZE_IN_BYTES) 0);;
  when finished (win_resync_epilogue pid).

(** ** atdr_daemon.c: the resync thread, and its start *)
Definition win_resync_handler (pid : Z) : MW E unit :=
  t <- rd (MAX_DISKS + CNTRL_THREADS) thread_params pid;;
  ignore (cstring 20 ("./log" +:+ dec pid +:+ ".txt"));;;
  win_log_setup pid;;;
  win_restart_resync pid (th_bit_pos t) NO_RESYNC.

Definition win_resync_init (pid bit_pos : Z) : MW E Z :=
  win_io_engine_init IO_CLIENT pid;;;
  w <- get (fun w => w);;
  if negb (is_client_partner_id_valid pid w) then ret (-1) else
  when (pid <? MAX_DISKS)
    (wr (MAX_DISKS + CNTRL_THREADS) thread_params pid (fun t => t <| th_pid := pid |> <| th_bit_pos := bit_pos |>);;;
     created <- sys wos_CreateThread;;
     if negb created then win_stop_work else modify (fun w => w <| threads ::= fun l => l ++ [TResync pid] |>));;;
  ret 0.
End winresync.
