(* ===== verification/WinProtocol.v ===== *)
(** * user/atdr_windows/windows_client: the client's protocol

    The receiving half of replic_client.c and atdr_conn_client.c, and the
    client half of atdr_daemon.c: connecting, making a partner and a relation,
    negotiating, fetching the bitmap. *)
From S2P Require Import Prelude Memory KernelState CMonad CString World UBitmap Db Partner Relation Disk Header.
From S2P Require Import ReplicServer WinDb WinClient WinObjects WinServer WinResync.

Section winprotocol.
Context {E : Type} `{WinOS E} `{WinSock E}.

(** ** Receiving *)
Definition win_remove_relationpeer (rid : Z) : MW E unit :=
  when (0 <? rid)
    (r <- rd MAX_RELATIONS all_relation_clients rid;; win_op_relation_destroy (rel_ops r) rid).

(** The comparison of the checksums is under [#if 0]. *)
Definition win_verify_data_resp (pid : Z) : MW E Z := win_replication_terminate pid;;; ret 0.

(** [buf] points to [replic_hdr_client_obj[i]].  VERIFY_DATA_RSP falls through
    into VERIFY_DATA_IGN, where the call is commented out. *)
Definition win_recv_hdr (i fd : Z) : MW E Z :=
  '(n, got) <- sys (fun e => let '(n, g, e') := wos_recv_hdr fd e in ((n, g), e'));;
  wr MAX_HDR replic_hdr_client_obj i (fun h => default h got);;;
  when (n <=? 0) win_stop_work;;;
  h <- rd MAX_HDR replic_hdr_client_obj i;;
  (match hd_opcode h with
   | SYN_ACK =>
       let pid := hd_partner h in
       wr MAX_HDR replic_hdr_client_obj pid (fun h => h <| hd_ops := Some client_ops |>);;;
       ignore (rd MAX_PARTNERS all_partner_clients pid);;;
       h <- rd MAX_HDR replic_hdr_client_obj i;;
       win_replic_hdr_client_nego h pid
   | RM_RELATION_PEER => win_remove_relationpeer (hd_relation h)
   | VERIFY_DATA_RSP => ignore (win_verify_data_resp (hd_partner h))
   | VERIFY_DATA_IGN => ret tt
   | _ => atdr_log
   end);;;
  ret 0.

(** [buf] is the bitmap area of [bitmap_client_obj[i]]. *)
Definition win_recv_data (i size fd : Z) : MW E Z :=
  b <- rd MAX_BITMAP bitmap_client_obj i;;
  m <- block (ub_area b);;
  assert_def (size <=? Z.of_nat (length m));;;
  '(n, bytes) <- sys (fun e => let '(n, b, e') := wos_recv fd size e in ((n, b), e'));;
  when (n <=? 0) win_stop_work;;;
  set_block (ub_area b) (bytes ++ drop (length bytes) m);;;
  m' <- block (ub_area b);;
  ignore (of_option (load 4 m' 0));;;
  ret 0.

Definition win_recv_data_resp (i fd : Z) : MW E Z :=
  '(n, got) <- sys (fun e => let '(n, g, e') := wos_recv_hdr fd e in ((n, g), e'));;
  wr MAX_HDR replic_hdr_client_obj i (fun h => default h got);;;
  when (n <? 0) win_stop_work;;;
  h <- rd MAX_HDR replic_hdr_client_obj i;;
  if bool_decide (hd_opcode h = DATA_PREP) then ret (i32 (hd_available h)) else ret 0.

(** The entries whose buffer is a header; the other one is [win_recv_data]. *)
Definition win_rcmdMap (i fd : Z) : list (Z * MW E Z) :=
  [(PROTO_TYPE, win_recv_hdr i fd); (opcode_code DATA_PREP, win_recv_data_resp i fd)].

(** The loop over the table drops the answer of the routine. *)
Definition win_client_rep_recv (pid i fd recv_type : Z) : MW E Z :=
  win_client_conn pid;;;
  match table_find recv_type (win_rcmdMap i fd) with
  | Some f => ignore f;;; ret 0
  | None => ret 0
  end.

Definition win_client_rep_recv_data (pid i size fd : Z) : MW E Z :=
  win_client_conn pid;;; ignore (win_recv_data i size fd);;; ret 0.

Definition win_find_size (pid : Z) : MW E Z :=
  wr MAX_HDR replic_hdr_client_obj pid (fun h => h <| hd_opcode := DATA_REQ |>);;;
  h <- rd MAX_HDR replic_hdr_client_obj pid;;
  p <- rd MAX_PARTNERS all_partner_clients pid;;
  ignore (win_client_rep_send pid (PHdr h) (ptn_fd p) PROTO_TYPE);;;
  ignore (win_client_rep_recv pid pid (ptn_fd p) (opcode_code DATA_PREP));;;
  h <- rd MAX_HDR replic_hdr_client_obj pid;;
  ret (i32 (hd_available h)).

(** ** Connecting: the socket is kept in an [int] *)
Definition atdr_conn_client_start (pid : Z) (ip : string) : MW E Z :=
  c <- rd MAX_CONN ebdr_conn_client pid;;
  r <- sys (wos_connect (cn_sockFd c) ip SRV_TCP_PORT);;
  if r <? 0 then win_stop_work else
  wr MAX_CONN ebdr_conn_client pid (fun c => c <| cn_conn_state := EBDR_CONN_CONNECTED |>);;;
  ret 0.

Definition atdr_conn_client_setup (ip_addr : string) (pid : Z) : MW E Z :=
  wr MAX_CONN ebdr_conn_client pid (fun c => c <| cn_mode := EBDR_CONN_CLIENT |>
    <| cn_conn_state := EBDR_CONN_SETUP |> <| cn_state := CONN_OBJ_IN_USE |>);;;
  sockFd <- sys wos_socket;;
  if sockFd <? 0 then win_stop_work else
  wr MAX_CONN ebdr_conn_client pid (fun c => c <| cn_sockFd := sockFd |>);;;
  c <- rd MAX_CONN ebdr_conn_client pid;;
  (match cn_ops c with Some client_ops => ignore (atdr_conn_client_start pid ip_addr) | _ => undefined end);;;
  ret sockFd.

(** [atdr_conn_client[pid].conn_ops->do_atdr_conn_setup] *)
Definition win_op_client_setup (pid : Z) (ip : string) : MW E Z :=
  c <- rd MAX_CONN ebdr_conn_client pid;;
  match cn_ops c with Some client_ops => atdr_conn_client_setup ip pid | _ => undefined end.

(** ** atdr_daemon.c: the client's requests

    The target disk is not opened here but when the resync starts. *)
Definition win_prepare_for_replication (target_disk : string) (pid : Z) : MW E unit :=
  ignore (atdr_disk_init SECONDARY target_disk pid);;;
  wr MAX_REPLICATIONS replic_client_obj pid (fun r => r <| rp_disk := Some (PClient pid) |>).

Definition win_start_protocol_negotiation (bitmap_size grain_size chunk_size pid : Z) : MW E unit :=
  wr MAX_HDR replic_hdr_client_obj pid (fun h => h <| hd_opcode := SYN |> <| hd_bitmap := bitmap_size |>
    <| hd_grain := grain_size |> <| hd_chunk := chunk_size |> <| hd_partner := pid |>);;;
  h <- rd MAX_HDR replic_hdr_client_obj pid;;
  p <- rd MAX_PARTNERS all_partner_clients pid;;
  ignore (win_client_rep_send pid (PHdr h) (ptn_fd p) PROTO_TYPE);;;
  ignore (win_client_rep_recv pid pid (ptn_fd p) PROTO_TYPE);;;
  wr MAX_HDR replic_hdr_client_obj pid (fun h => h <| hd_opcode := ACK |>);;;
  h <- rd MAX_HDR replic_hdr_client_obj pid;;
  p <- rd MAX_PARTNERS all_partner_clients pid;;
  ignore (win_client_rep_send pid (PHdr h) (ptn_fd p) PROTO_TYPE).

(** The bitmap is looked at through its first word of 32 bits. *)
Definition win_request_server_for_metadata (pid : Z) : MW E Z :=
  atdr_user_bitmap_init REMOTE pid;;;
  wr MAX_HDR replic_hdr_client_obj pid (fun h => h <| hd_opcode := BITMAP_METADATA |> <| hd_partner := pid |>);;;
  p <- rd MAX_PARTNERS all_partner_clients pid;;
  when (ptn_state p =? PARTNER_OBJ_RELEASED)
    (wr MAX_PARTNERS all_partner_clients pid (fun p => p <| ptn_state := PARTNER_OBJ_IN_USE |>);;;
     wr MAX_RELATIONS all_relation_clients pid (fun r => r <| rel_state := RELATION_OBJ_IN_USE |>);;;
     wr MAX_DISKS ebdr_disk_target_obj pid (fun d => d <| dsk_state := DISK_OBJ_IN_USE |>);;;
     ignore (win_update_into_partner pid PARTNER_OBJ_IN_USE "atdrdbc");;;
     ignore (win_update_relation_state pid RELATION_OBJ_IN_USE "atdrdbc");;;
     ignore (win_update_disk_state pid DISK_OBJ_IN_USE "atdrdbc"));;;
  b <- rd MAX_BITMAP bitmap_client_obj pid;;
  if ub_obj_state b =? BITMAP_OBJ_PAUSE then ret 0 else
  (match ub_ops b with Some client_ops => ignore (win_bitmap_client_setup pid) | _ => undefined end);;;
  h <- rd MAX_HDR replic_hdr_client_obj pid;;
  p <- rd MAX_PARTNERS all_partner_clients pid;;
  ignore (win_client_rep_send pid (PHdr h) (ptn_fd p) PROTO_TYPE);;;
  b <- rd MAX_BITMAP bitmap_client_obj pid;;
  ignore (win_client_rep_recv_data pid pid (ub_size b) (ptn_fd p));;;
  wr MAX_DISKS ebdr_disk_target_obj pid (fun d => d <| dsk_bitmap := Some (PClient pid) |>);;;
  m <- block (ub_area b);;
  v <- of_option (load 4 m 0);;
  if v =? 0 then ret 0 else
  b <- rd MAX_BITMAP bitmap_client_obj pid;;
  (match ub_ops b with Some client_ops => ignore (win_store_bitmap_to_disk pid pid) | _ => undefined end);;;
  ret 1.

(** [bandwidth] is an [int] parameter, stored in an [unsigned long]. *)
Definition win_make_partner_with_server (partner_ip : string) (bandwidth : Z) (disk : string)
    (bitmap_size grain_size chunk_size : Z) : MW E unit :=
  w <- get (fun w => w);;
  let pid := win_get_new_partner_client_id w in
  atdr_connection_init CONN_CLIENT pid;;;
  ignore (win_op_client_setup pid partner_ip);;;
  ignore (win_replication_init REP_REMOTE pid);;;
  r <- rd MAX_REPLICATIONS replic_client_obj pid;;
  (match rp_ops r with Some client_ops => win_replic_client_obj_setup pid | _ => undefined end);;;
  when (pid <? MAX_PARTNERS)
    (atdr_partner_init PARTNER_CLIENT pid;;;
     p <- rd MAX_PARTNERS all_partner_clients pid;;
     c <- rd MAX_CONN ebdr_conn_client pid;;
     ignore (win_op_make_partner (ptn_ops p) partner_ip (u32 bandwidth) (cn_sockFd c) pid));;;
  ip <- cstring 64 partner_ip;;
  dsk <- cstring 64 disk;;
  wr MAX_HDR replic_hdr_client_obj pid (fun h => h <| hd_opcode := MAKE_PARTNER |> <| hd_bandwidth := u32 bandwidth |>
    <| hd_partner := pid |> <| hd_dest_ip := ip |> <| hd_disk := dsk |> <| hd_bitmap := bitmap_size |>
    <| hd_grain := grain_size |> <| hd_chunk := chunk_size |>);;;
  h <- rd MAX_HDR replic_hdr_client_obj pid;;
  c <- rd MAX_CONN ebdr_conn_client pid;;
  ignore (win_client_rep_send pid (PHdr h) (cn_sockFd c) PROTO_TYPE).

Definition win_make_relation_with_server (partnerid role : Z) (target_disk : string)
    (bitmap_size grain_size chunk_size : Z) : MW E Z :=
  atdr_relation_init EBDR_RELATION_CLIENT partnerid partnerid;;;
  let relation_role := if role =? 0 then RELATION_PRIMARY else RELATION_SECONDARY in
  w <- get (fun w => w);;
  if is_client_partner_id_valid partnerid w then
    r <- rd MAX_RELATIONS all_relation_clients partnerid;;
    rid <- win_op_make_relation (rel_ops r) relation_role partnerid target_disk;;
    win_start_protocol_negotiation bitmap_size grain_size chunk_size partnerid;;;
    h <- rd MAX_HDR replic_hdr_client_obj rid;;
    wr MAX_RELATIONS all_relation_clients rid (fun r => r <| rel_bitmap := hd_bitmap h |>
      <| rel_grain := hd_grain h |> <| rel_chunk := hd_chunk h |>);;;
    r <- rd MAX_RELATIONS all_relation_clients rid;;
    ignore (win_insert_into_relation (rel_role r) (rel_partner r) (rel_id r) RELATION_OBJ_IN_USE (rel_device r)
      (rel_bitmap r) (rel_grain r) (rel_chunk r) "atdrdbc");;;
    win_prepare_for_replication target_disk partnerid;;;
    ret 0
  else ret (-1).
End winprotocol.
