(* ===== verification/WinDaemon.v ===== *)
(** * user/atdr_windows/windows_client: commands, start and recovery

    atdr_daemon.c ([parse_daemon_request] by cases, the pipe), atdr_db.c
    (configuration file, [db_init]) and atdr_recovery.c.  A local that sscanf
    leaves unset has the value [garbage] (or [garbage_str]); %lu yields 32
    bits.  The recovery thread returns at once: its loop is under [#if 0], and
    nothing else calls the functions of atdr_recovery.c. *)
From S2P Require Import Prelude Memory KernelState WinState CMonad CString World UBitmap Db Config Partner Relation Disk Header.
From S2P Require Import ReplicServer WinDb WinClient WinObjects WinServer WinResync WinProtocol.
From Stdlib Require Import Ascii.

Section windaemon.
Context {E : Type} `{WinOS E} `{WinSock E}.
Context (buffer : mem) (garbage : Z) (garbage_str : string).

(** [recovery_mode != 1] compares the address of the array: always true. *)
Definition win_snapshot_disk_init (snap_disk : string) (pid : Z) : MW E unit :=
  wr MAX_DISKS ebdr_disk_src_obj pid (fun d => d <| dsk_snap := snap_disk |>);;;
  d <- rd MAX_DISKS ebdr_disk_src_obj pid;;
  ignore (win_op_src_setup (dsk_ops d) pid);;;
  d <- rd MAX_DISKS ebdr_disk_src_obj pid;;
  ignore (win_update_into_disk pid (dsk_name d) (dsk_snap d) "atdrdbs");;;
  wr MAX_RELATIONS all_relation_servers pid (fun r => r <| rel_device := snap_disk |>).

Definition win_validate_ipaddr (ip : string) : bool := true.

(** The request to the driver is under [#if 0]. *)
Definition win_is_disk_created (disk : mem) : bool := false.

(** ** The cases *)

(** 'c' *)
Definition win_cmd_create (cmd : string) : MW E unit :=
  let a := scan [Cs; Cs; Cu; Cu] cmd in
  (match a !! 1%nat with
   | Some (AStr s) =>
       s <- cstring 64 s;; modify (fun w => w <| ioctl_obj ::= fun o => o <| src_disk ::= put_string s |> |>)
   | _ => ret tt
   end);;;
  modify (fun w => w <| ioctl_obj ::= fun o => o <| u_grain_size ::= arg_int a 2 |>
    <| u_bitmap_size ::= arg_int a 3 |> |>);;;
  obj <- get ioctl_obj;;
  when (negb (win_is_disk_created (src_disk obj)))
    (ignore (win_prepare_and_send_ioctl_cmd buffer ATDRCTL_DEV_CREATE);;;
     server_pid <- get ds_count;;
     obj <- get ioctl_obj;;
     ignore (atdr_disk_init PRIMARY (bytes_string (src_disk obj)) server_pid);;;
     o <- get once;;
     when (o =? 0)
       (atdr_connection_init CONN_SERVER (MAX_CONN + 1);;;
        c <- rd (MAX_CONN + 2) ebdr_conn_server (MAX_CONN + 1);;
        (match cn_ops c with Some server_ops => atdr_conn_server_setup (MAX_CONN + 1) | _ => undefined end);;;
        put once 1)).

(** 'l' *)
Definition win_cmd_resume (cmd : string) : MW E unit :=
  let pid := arg_int (scan [Cs; Cd] cmd) 1 garbage in
  w <- get (fun w => w);;
  when (is_client_partner_id_valid pid w)
    (r <- rd MAX_REPLICATIONS replic_client_obj pid;;
     when (negb (rp_state r =? RESYNC_COMPLETED))
       (wr MAX_PARTNERS all_partner_clients pid (fun p => p <| ptn_state := PARTNER_OBJ_RESUME |>);;;
        wr MAX_REPLICATIONS replic_client_obj pid (fun r => r <| rp_state := RESYNC_RESUME |>);;;
        ignore (win_update_into_partner pid PARTNER_OBJ_RESUME "atdrdbc");;;
        ignore (win_update_resync_state pid RESYNC_RESUME "RESYNC_RESUME " "atdrdbc");;;
        r <- rd MAX_REPLICATIONS replic_client_obj pid;;
        ignore (win_resync_init pid (rp_last_bit r)))).

(** 'm' *)
Definition win_cmd_metadata (cmd : string) : MW E unit :=
  let pid := arg_int (scan [Cs; Cd] cmd) 1 garbage in
  w <- get (fun w => w);;
  when (is_client_partner_id_valid pid w) (ignore (win_request_server_for_metadata pid)).

(** 'n' *)
Definition win_cmd_pause (cmd : string) : MW E unit :=
  let pid := arg_int (scan [Cs; Cd] cmd) 1 garbage in
  w <- get (fun w => w);;
  when (is_client_partner_id_valid pid w)
    (r <- rd MAX_REPLICATIONS replic_client_obj pid;;
     when (negb (rp_last_bit r =? 0))
       (wr MAX_PARTNERS all_partner_clients pid (fun p => p <| ptn_state := PARTNER_OBJ_PAUSE |>);;;
        wr MAX_REPLICATIONS replic_client_obj pid (fun r => r <| rp_state := RESYNC_PAUSE |>);;;
        ignore (win_update_into_partner pid PARTNER_OBJ_PAUSE "atdrdbc");;;
        ignore (win_update_resync_state pid RESYNC_PAUSE "RESYNC_PAUSE" "atdrdbc"))).

(** 'p' *)
Definition win_cmd_mkpartner (cmd : string) : MW E unit :=
  let a := scan [Cs; Cs; Cu; Cs; Cu; Cu; Cu] cmd in
  partner_ip <- cstring 64 (arg_str a 1 garbage_str);;
  target_disk <- cstring 64 (arg_str a 3 garbage_str);;
  when (win_validate_ipaddr partner_ip)
    (win_make_partner_with_server partner_ip (arg_int a 2 garbage) target_disk
       (arg_int a 4 garbage) (arg_int a 5 garbage) (arg_int a 6 garbage)).

(** 'q': in the control thread, and without validation of the id. *)
Definition win_cmd_fullresync (cmd : string) : MW E unit :=
  win_restart_resync (arg_int (scan [Cs; Cd] cmd) 1 garbage) 0 FULL_RESYNC.

(** 'r' *)
Definition win_cmd_resync (cmd : string) : MW E unit :=
  let pid := arg_int (scan [Cs; Cd] cmd) 1 garbage in
  w <- get (fun w => w);;
  when (is_client_partner_id_valid pid w) (ignore (win_resync_init pid 0)).

(** 's' *)
Definition win_cmd_snap (cmd : string) : MW E unit :=
  let a := scan [Cs; Cs; Cd] cmd in
  snap_disk <- cstring 64 (arg_str a 1 EmptyString);;
  let pid := arg_int a 2 garbage in
  w <- get (fun w => w);;
  when (is_server_partner_id_valid pid w) (win_snapshot_disk_init snap_disk pid).

(** 'y' *)
Definition win_cmd_mkrelationpeer (cmd : string) : MW E unit :=
  let a := scan [Cs; Cd; Cd; Cs; Cu; Cu; Cu] cmd in
  let partnerid := arg_int a 1 garbage in
  target_disk <- cstring 64 (arg_str a 3 garbage_str);;
  w <- get (fun w => w);;
  when (is_client_partner_id_valid partnerid w)
    (ignore (win_make_relation_with_server partnerid (arg_int a 2 garbage) target_disk
       (arg_int a 4 garbage) (arg_int a 5 garbage) (arg_int a 6 garbage))).

(** The commands of the administration program that are not here (the partner
    and relation lists, the log levels, "rmpartner", "mkrelation", ...) do
    nothing. *)
Definition win_parse_daemon_request (cmd : string) : MW E Z :=
  (match cmd with
   | String "c" _ => win_cmd_create cmd
   | String "l" _ => win_cmd_resume cmd
   | String "m" _ => win_cmd_metadata cmd
   | String "n" _ => win_cmd_pause cmd
   | String "p" _ => win_cmd_mkpartner cmd
   | String "q" _ => win_cmd_fullresync cmd
   | String "r" _ => win_cmd_resync cmd
   | String "s" _ => win_cmd_snap cmd
   | String "y" _ => win_cmd_mkrelationpeer cmd
   | _ => ret tt
   end);;;
  ret 0.

(** The message is copied as a string: without a terminator in it the copy
    runs on into the rest of the buffer.  An error ends the process. *)
Definition win_read_from_fifo (fifo_fd : Z) : MW E mem :=
  '(bResult, bytes) <- sys (fun e => let '(b, m, e') := wos_ReadFile fifo_fd CMD_LEN e in ((b, m), e'));;
  if negb bResult || (Z.of_nat (length bytes) =? 0) then stop Exited else
  assert_def (existsb (Z.eqb 0) bytes);;;
  ret bytes.

(** One iteration of [cntrl_thread_init], the pipe being open. *)
Definition win_cntrl_step (fifo_fd : Z) : MW E unit :=
  str <- win_read_from_fifo fifo_fd;;
  ignore (win_parse_daemon_request (bytes_string str));;;
  sys_ (wos_CloseHandle fifo_fd).

(** ** atdr_db.c: the configuration file and [db_init] *)
Definition win_readConfig : MW E Z :=
  e <- get ext;;
  match wos_fread "c:\atdr\atdr_db.conf" e with
  | None => stop Exited
  | Some bytes =>
      let text := bytes_string (text_read bytes) in
      config_lines (fgets_lines (S (String.length text)) text);;;
      ret 0
  end.

Definition win_sql_create_partner : string :=
  "CREATE TABLE IF NOT EXISTS partner(pid INT, state INT, ip CHAR(15), bandwidth INT)".
Definition win_sql_create_relation : string :=
  "CREATE TABLE IF NOT EXISTS relation(role  INT, pid INT, rid INT, state INT, disk CHAR(15), bitmap_size INT, grain_size INT, chunk_size INT)".
Definition win_sql_create_disk : string :=
  "CREATE TABLE IF NOT EXISTS disk(pid INT, name CHAR(15), snap_name CHAR(100), bitmap_size INT, state INT)".
Definition win_sql_create_resync : string :=
  "CREATE TABLE IF NOT EXISTS resync(pid INT, target_disk CHAR(15), last_resynced_bit INT, state INT, status CHAR(128))".

(** Up to the first tables; [false]: no mutex.  A connection that fails is
    closed and then used. *)
Definition win_db_connect (db_name : string) : MW E bool :=
  ignore win_readConfig;;;
  created <- sys wos_CreateMutex;;
  if negb created then ret false else
  ignore win_mutex_lock;;;
  ok <- sys wos_mysql_init;;
  assert_def ok;;;
  h <- get db_host;; u <- get db_user;; p <- get db_pswrd;;
  ok <- sys (wos_mysql_real_connect h u p);;
  when (negb ok) win_finish_with_error;;;
  str <- cstring 100 ("CREATE DATABASE IF NOT EXISTS" +:+ " " +:+ db_name);;
  win_mysql_query str;;;
  str <- cstring 100 (use_db db_name);;
  win_mysql_query str;;;
  win_mysql_query "CREATE TABLE IF NOT EXISTS Status(Id INT, PARTNERID INT, RELATIONID INT, Src TEXT, Date TEXT,	time TEXT, Percent INT)";;;
  win_mysql_query win_sql_create_partner;;;
  ret true.

Fixpoint win_for_ids (f : Z -> MW E unit) (ids : list Z) : MW E unit :=
  match ids with
  | [] => ret tt
  | i :: ids' => f i;;; win_for_ids f ids'
  end.

Definition win_recover_source (i : Z) : MW E unit :=
  p <- rd MAX_PARTNERS all_partner_servers i;;
  let pid := ptn_id p in
  d <- rd MAX_DISKS ebdr_disk_src_obj pid;;
  ignore (atdr_disk_init PRIMARY (dsk_name d) pid);;;
  d <- rd MAX_DISKS ebdr_disk_src_obj pid;;
  win_snapshot_disk_init (dsk_snap d) pid;;;
  atdr_user_bitmap_init LOCAL pid;;;
  ignore (win_replication_init REP_LOCAL pid);;;
  r <- rd MAX_REPLICATIONS replic_server_obj pid;;
  (match rp_ops r with Some server_ops => win_replic_server_obj_setup pid | _ => undefined end);;;
  r <- rd MAX_RELATIONS all_relation_servers pid;;
  wr MAX_HDR replic_hdr_server_obj pid (fun h => h <| hd_grain := rel_grain r |> <| hd_chunk := rel_chunk r |>).

(** The daemon built with SERVER. *)
Definition win_db_init_server (db_name : string) : MW E Z :=
  ok <- win_db_connect db_name;;
  if negb ok then ret (-1) else
  n <- win_mkpartner_from_db_on_server;;
  win_for_ids (fun i => p <- rd MAX_PARTNERS all_partner_servers i;; wr MAX_PID recovery_mode (ptn_id p) (fun _ => 1)) (zseq 0 n);;;
  win_mysql_query win_sql_create_relation;;;
  ignore (win_retrieve_from_relation all_relation_servers);;;
  win_mysql_query win_sql_create_disk;;;
  n <- win_mkdisk_from_db_on_server;;
  when (0 <? n)
    (win_for_ids win_recover_source (zseq 0 n);;;
     atdr_connection_init CONN_SERVER (MAX_CONN + 1);;;
     c <- rd (MAX_CONN + 2) ebdr_conn_server (MAX_CONN + 1);;
     match cn_ops c with Some server_ops => atdr_conn_server_setup (MAX_CONN + 1) | _ => undefined end);;;
  win_mysql_query win_sql_create_resync;;;
  ignore win_mutex_unlock;;;
  ret 0.

Definition win_recover_resync (i : Z) : MW E unit :=
  p <- rd MAX_PARTNERS all_partner_clients i;;
  let pid := ptn_id p in
  atdr_connection_init CONN_CLIENT pid;;;
  p <- rd MAX_PARTNERS all_partner_clients pid;;
  fd <- win_op_client_setup pid (ptn_ip p);;
  wr MAX_PARTNERS all_partner_clients pid (fun p => p <| ptn_fd := fd |>);;;
  ignore (win_replication_init REP_REMOTE pid);;;
  r <- rd MAX_REPLICATIONS replic_client_obj pid;;
  (match rp_ops r with Some client_ops => win_replic_client_obj_setup pid | _ => undefined end);;;
  d <- rd MAX_DISKS ebdr_disk_target_obj pid;;
  win_prepare_for_replication (dsk_name d) pid;;;
  r <- rd MAX_RELATIONS all_relation_clients pid;;
  wr MAX_HDR replic_hdr_client_obj pid (fun h => h <| hd_grain := rel_grain r |> <| hd_chunk := rel_chunk r |>);;;
  r <- rd MAX_REPLICATIONS replic_client_obj pid;;
  when (negb (rp_state r =? RESYNC_COMPLETED))
    (atdr_user_bitmap_init REMOTE pid;;;
     b <- rd MAX_BITMAP bitmap_client_obj pid;;
     (match ub_ops b with Some client_ops => ignore (win_load_bitmap_from_disk pid pid) | _ => undefined end);;;
     wr MAX_DISKS ebdr_disk_target_obj pid (fun d => d <| dsk_bitmap := Some (PClient pid) |>);;;
     b <- rd MAX_BITMAP bitmap_client_obj pid;;
     m <- block (ub_area b);;
     ignore (of_option (load 4 m 0));;;
     ignore (win_resync_init pid (rp_last_bit r))).

(** The daemon built with CLIENT. *)
Definition win_db_init_client (db_name : string) : MW E Z :=
  ok <- win_db_connect db_name;;
  if negb ok then ret (-1) else
  n <- win_retrieve_from_partner all_partner_clients;;
  win_for_ids (fun i => p <- rd MAX_PARTNERS all_partner_clients i;; wr MAX_PID recovery_mode (ptn_id p) (fun _ => 1)) (zseq 0 n);;;
  win_mysql_query win_sql_create_relation;;;
  ignore (win_retrieve_from_relation all_relation_clients);;;
  win_mysql_query win_sql_create_disk;;;
  ignore (win_retrieve_from_disk ebdr_disk_target_obj);;;
  win_mysql_query win_sql_create_resync;;;
  n <- win_retrieve_from_resync;;
  win_for_ids win_recover_resync (zseq 0 n);;;
  ignore win_mutex_unlock;;;
  ret 0.

(** ** atdr_recovery.c *)
Definition win_restart_disk (pid : Z) : MW E unit :=
  wr MAX_DISKS ebdr_disk_target_obj pid (fun d => d <| dsk_state := DISK_OBJ_RESUME |>);;;
  r <- rd MAX_REPLICATIONS replic_client_obj pid;;
  ignore (win_resync_init pid (rp_last_bit r)).

Definition win_restart_conn_server (pid : Z) : MW E unit :=
  c <- rd (MAX_CONN + 2) ebdr_conn_server pid;;
  wr MAX_PARTNERS all_partner_servers pid (fun p => p <| ptn_fd := cn_sockFd c |>);;;
  cc <- rd MAX_CONN ebdr_conn_client pid;;
  when (0 <? cn_sockFd cc)
    (wr (MAX_CONN + 2) ebdr_conn_server pid (fun c => c <| cn_state := CONN_OBJ_RESUME |>)).

Definition win_create_new_conn_client (pid : Z) (ip_addr : string) : MW E Z :=
  wr MAX_CONN ebdr_conn_client pid (fun c => c <| cn_mode := EBDR_CONN_CLIENT |>
    <| cn_conn_state := EBDR_CONN_SETUP |> <| cn_state := CONN_OBJ_IN_USE |>);;;
  sockFd <- sys wos_socket;;
  if sockFd <? 0 then win_stop_work else
  wr MAX_CONN ebdr_conn_client pid (fun c => c <| cn_sockFd := sockFd |>);;;
  r <- sys (wos_connect sockFd ip_addr SRV_TCP_PORT);;
  if r <? 0 then win_stop_work else ret 0.

Definition win_restart_conn_client (pid : Z) : MW E unit :=
  p <- rd MAX_PARTNERS all_partner_clients pid;;
  ignore (win_create_new_conn_client pid (ptn_ip p));;;
  wr MAX_CONN ebdr_conn_client pid (fun c => c <| cn_state := CONN_OBJ_RESUME |>);;;
  c <- rd MAX_CONN ebdr_conn_client pid;;
  wr MAX_PARTNERS all_partner_clients pid (fun p => p <| ptn_fd := cn_sockFd c |>);;;
  r <- rd MAX_REPLICATIONS replic_client_obj pid;;
  ignore (win_resync_init pid (rp_last_bit r)).

(** The name is converted as by [disk_target_setup], appended before the test.
    A handle that cannot be opened is stored as INVALID_HANDLE_VALUE. *)
Definition win_recovery_disk_client (pid : Z) : MW E Z :=
  d <- rd MAX_DISKS ebdr_disk_target_obj pid;;
  if negb (dsk_state d =? DISK_OBJ_PAUSE) then ret 0 else
  sys_ (wos_CloseHandle (dsk_fd d));;;
  if wos_MultiByteToWideChar 14 (dsk_name d) <=? 0 then undefined else
  h <- sys (wos_CreateFile ("\\.\" +:+ dsk_name d) FILE_SHARE_WRITE
              (Z.lor (Z.lor FILE_FLAG_NO_BUFFERING FILE_FLAG_WRITE_THROUGH) FILE_FLAG_RANDOM_ACCESS));;
  wr MAX_DISKS ebdr_disk_target_obj pid (fun d => d <| dsk_fd := default (-1) h |>);;;
  match h with
  | None => ret (-1)
  | Some _ => win_restart_disk pid;;; ret 0
  end.

Definition win_recovery_disk_server (pid : Z) : MW E Z :=
  d <- rd MAX_DISKS ebdr_disk_src_obj pid;;
  if negb (dsk_state d =? DISK_OBJ_PAUSE) then ret 0 else
  sys_ (wos_CloseHandle (dsk_fd d));;;
  if wos_MultiByteToWideChar 14 (dsk_name d) <=? 0 then undefined else
  h <- sys (wos_CreateFile ("\\.\" +:+ dsk_name d) FILE_SHARE_WRITE source_flags);;
  wr MAX_DISKS ebdr_disk_src_obj pid (fun d => d <| dsk_fd := default (-1) h |>);;;
  match h with
  | None => ret (-1)
  | Some _ => wr MAX_DISKS ebdr_disk_src_obj pid (fun d => d <| dsk_state := DISK_OBJ_RESUME |>);;; ret 0
  end.

Definition win_recovery_conn_client (pid : Z) : MW E unit :=
  c <- rd MAX_CONN ebdr_conn_client pid;;
  when (cn_state c =? CONN_OBJ_PAUSE) (win_restart_conn_client pid).

Definition win_recovery_conn_server (pid : Z) : MW E unit :=
  c <- rd (MAX_CONN + 2) ebdr_conn_server pid;;
  when (cn_state c =? CONN_OBJ_PAUSE) (win_restart_conn_server pid).
End windaemon.
