(* ===== verification/WorldTac.v ===== *)
(** * Symbolic execution of the daemon's functions

    Tactics that run a function on a state step by step, and the specification
    of the database statements every component shares. *)
From S2P Require Import Prelude Memory KernelState CMonad CString World Db Header.

(** Projection of an updated state or object: of the updated field, or of
    another one.  The equation is checked on a variable, whatever the state. *)
Ltac proj_step :=
  match goal with
  | |- context [?f (@set_field ?R ?T ?g ?i ?h ?w)] =>
      first [ unify f g;
              let H := constr:((fun w0 : R => eq_refl) : forall w0 : R, f (@set_field R T g i h w0) = h (f w0)) in
              rewrite (H w); cbv beta
            | let H := constr:((fun w0 : R => eq_refl) : forall w0 : R, f (@set_field R T g i h w0) = f w0) in
              rewrite (H w) ]
  end.

Ltac wsimpl := repeat first [ proj_step | rewrite aget_aset_eq | rewrite aget_aset_ne by (done || lia) ].

Section steps.
Context {E : Type} `{OS E}.

Lemma log_ok (w : world E) : cancel_pending w = false -> ebdr_log w = Ret tt w.
Proof. unfold ebdr_log, cancellation_point. by intros ->. Qed.

Lemma bind_log {B} (k : unit -> MW E B) (w : world E) :
  cancel_pending w = false -> bind ebdr_log k w = k tt w.
Proof. intros. unfold bind. by rewrite log_ok. Qed.

Lemma bind_sys {A B} (call : E -> A * E) (k : A -> MW E B) (w : world E) a e :
  call (ext w) = (a, e) -> bind (sys call) k w = k a (w <| ext := e |>).
Proof. intros Hc. unfold bind, sys. by rewrite Hc. Qed.

Lemma bind_when {B} b (m : MW E unit) (k : unit -> MW E B) (w : world E) :
  bind (when b m) k w = if b then bind m k w else k tt w.
Proof. by destruct b. Qed.

Lemma bind_block {B} p blk m (k : mem -> MW E B) (w : world E) :
  p = Some blk -> heap w !! blk = Some m -> bind (block p) k w = k m w.
Proof. intros -> Hm. unfold bind, block. cbn. by rewrite Hm. Qed.

Lemma bind_of_option {A B} (a : A) (k : A -> MW E B) (w : world E) : bind (of_option (Some a)) k w = k a w.
Proof. done. Qed.

Lemma bind_assert {B} (k : unit -> MW E B) (w : world E) b : b = true -> bind (assert_def b) k w = k tt w.
Proof. by intros ->. Qed.

Lemma bind_cstring {B} n s (k : string -> MW E B) (w : world E) :
  slen s < n -> bind (cstring n s) k w = k s w.
Proof. intros Hs. unfold cstring, cstr_fits. by rewrite (proj2 (Z.ltb_lt _ _) Hs). Qed.

Lemma bind_name64 {B} s (k : string -> MW E B) (w : world E) : name64 s -> bind (cstring 64 s) k w = k s w.
Proof. intros (_ & _ & Hl). by apply bind_cstring. Qed.

Lemma bind_put {A B} (f : world E -> A) `{!Setter f} a (k : unit -> MW E B) w :
  bind (put f a) k w = k tt (w <| f := a |>).
Proof. done. Qed.

Lemma cstring_overflow n s (w : world E) : n <= slen s -> cstring n s w = Stop Undefined w.
Proof. intros Hs. unfold cstring, cstr_fits. by rewrite (proj2 (Z.ltb_ge _ _) Hs). Qed.
End steps.

(** One step of the execution; side conditions on indices by [lia]. *)
Ltac mstep :=
  first
    [ rewrite bind_ret | rewrite bind_get | rewrite bind_modify | rewrite bind_put
    | rewrite bind_of_option
    | rewrite bind_assoc
    | rewrite bind_log by (wsimpl; assumption)
    | rewrite bind_rd by (unfold MAX_PID, MAX_PARTNERS, MAX_RELATIONS, MAX_DISKS, MAX_CONN, MAX_REPLICATIONS, MAX_HDR, MAX_IO,
        MAX_BITMAP, CNTRL_THREADS in *; lia)
    | rewrite bind_wr by (unfold MAX_PID, MAX_PARTNERS, MAX_RELATIONS, MAX_DISKS, MAX_CONN, MAX_REPLICATIONS, MAX_HDR, MAX_IO,
        MAX_BITMAP, CNTRL_THREADS in *; lia) ];
  cbv beta.

(** ** A buffer filled by a read *)
Lemma fill_full bytes buff : length bytes = 4096%nat -> length buff = 4096%nat -> fill bytes buff = bytes.
Proof. intros Hb Hf. unfold fill. rewrite drop_ge by lia. apply app_nil_r. Qed.

Lemma length_fill bytes buff :
  (length bytes <= 4096)%nat -> length buff = 4096%nat -> length (fill bytes buff) = 4096%nat.
Proof. intros Hb Hf. unfold fill. rewrite length_app, length_drop. lia. Qed.

(** ** The length of a printed number *)
Lemma pretty_N_go_length k n s :
  (n < 10 ^ N.of_nat k)%N -> slen (pretty_N_go n s) <= Z.of_nat k + slen s.
Proof.
  revert n s. induction k as [|k IH]; intros n s Hn.
  - assert (n = 0%N) as -> by (cbn in Hn; lia). rewrite pretty_N_go_0. lia.
  - destruct (decide (n = 0)%N) as [->|Hne]; [rewrite pretty_N_go_0; lia|].
    rewrite pretty_N_go_step by lia. etransitivity; [apply IH|].
    + apply N.Div0.div_lt_upper_bound. rewrite Nat2N.inj_succ, N.pow_succ_r' in Hn. lia.
    + unfold slen. cbn [String.length]. lia.
Qed.

Lemma slen_dec z k : (0 < k)%nat -> 0 <= z < 10 ^ Z.of_nat k -> slen (dec z) <= Z.of_nat k.
Proof.
  intros Hk Hz. destruct z as [|p|p]; [change (slen (dec 0)) with 1; lia| |lia].
  unfold dec. change (pretty (Z.pos p)) with (pretty (N.pos p)). unfold pretty, pretty_N.
  case_decide; [done|].
  assert (Hp : (N.pos p < 10 ^ N.of_nat k)%N).
  { apply N2Z.inj_lt. rewrite N2Z.inj_pow. rewrite nat_N_Z. exact (proj2 Hz). }
  pose proof (pretty_N_go_length k _ EmptyString Hp) as Hl. change (slen EmptyString) with 0 in Hl. lia.
Qed.

Lemma pretty_N_go_pos n s : 1 <= slen s -> 1 <= slen (pretty_N_go n s).
Proof.
  revert s. induction (N.lt_wf_0 n) as [n _ IH]. intros s Hs.
  destruct (decide (n = 0)%N) as [->|Hne]; [by rewrite pretty_N_go_0|].
  rewrite pretty_N_go_step by lia. apply IH; [apply N.div_lt; lia|]. unfold slen in *. cbn [String.length]. lia.
Qed.

Lemma slen_dec_pos z : 1 <= slen (dec z).
Proof.
  assert (HN : forall p, 1 <= slen (pretty (N.pos p))).
  { intros p. unfold pretty, pretty_N. case_decide; [done|]. rewrite pretty_N_go_step by lia.
    apply pretty_N_go_pos. unfold slen. cbn [String.length]. lia. }
  destruct z as [|p|p]; [done|apply HN|]. unfold dec. change (pretty (Z.neg p)) with ("-" +:+ pretty (N.pos p)).
  rewrite slen_app. specialize (HN p). change (slen "-") with 1. lia.
Qed.

(** ** The length of a statement *)
Lemma slen_sconcat l : slen (sconcat l) = foldr (fun s n => slen s + n) 0 l.
Proof. induction l as [|s l IH]; [done|]. cbn [sconcat foldr]. rewrite slen_app. unfold sconcat in IH. by rewrite IH. Qed.

(** The lengths of the literals of a statement, computed. *)
Ltac slen_literals :=
  rewrite slen_sconcat; cbn [foldr];
  repeat match goal with
    | |- context [slen (String ?a ?b)] =>
        let n := eval vm_compute in (slen (String a b)) in change (slen (String a b)) with n
    end;
  change (slen EmptyString) with 0.

(** ** The database statements *)
Section queries.
Context {E : Type} `{OS E}.

Lemma bind_query {B} sql (k : unit -> MW E B) (w : world E) e :
  cancel_pending w = false -> os_query sql (ext w) = (0, e) ->
  bind (mysql_query sql) k w = k tt (w <| ext := e |>).
Proof.
  intros Hc Hq. unfold mysql_query. rewrite bind_assoc.
  unfold bind at 1. unfold cancellation_point. rewrite Hc. cbn iota.
  rewrite bind_assoc. rewrite (bind_sys _ _ _ _ _ Hq). done.
Qed.

(** Both statements succeed: only the environment changes, and the lock is
    free again. *)
Lemma locked_query_ok n db_name sql (w : world E) e1 e2 :
  cancel_pending w = false -> db_lock w = false ->
  slen (use_db db_name) < n -> slen sql < n ->
  os_query (use_db db_name) (ext w) = (0, e1) -> os_query sql e1 = (0, e2) ->
  locked_query n db_name sql w = Ret tt (w <| ext := e2 |>).
Proof.
  intros Hc Hl Hu Hs Hq1 Hq2. unfold locked_query.
  rewrite bind_cstring by done. unfold bind at 1. unfold mutex_lock. rewrite Hl. cbn iota.
  rewrite (bind_query _ _ _ e1) by done. rewrite bind_cstring by done.
  rewrite (bind_query _ _ _ e2) by done.
  unfold mutex_unlock, put, modify. f_equal. destruct w. cbn in *. by rewrite Hl.
Qed.

Lemma bind_locked_query {B} n db_name sql (k : unit -> MW E B) (w : world E) e1 e2 :
  cancel_pending w = false -> db_lock w = false ->
  slen (use_db db_name) < n -> slen sql < n ->
  os_query (use_db db_name) (ext w) = (0, e1) -> os_query sql e1 = (0, e2) ->
  bind (locked_query n db_name sql) k w = k tt (w <| ext := e2 |>).
Proof. intros. apply bind_Ret. by eapply locked_query_ok. Qed.

(** A statement that does not fit its buffer. *)
Lemma locked_query_overflow n db_name sql (w : world E) e1 :
  cancel_pending w = false -> db_lock w = false ->
  slen (use_db db_name) < n -> n <= slen sql -> os_query (use_db db_name) (ext w) = (0, e1) ->
  exists w', locked_query n db_name sql w = Stop Undefined w'.
Proof.
  intros Hc Hl Hu Hs Hq1. unfold locked_query.
  rewrite bind_cstring by done. unfold bind at 1. unfold mutex_lock. rewrite Hl. cbn iota.
  rewrite (bind_query _ _ _ e1) by done. unfold bind. rewrite cstring_overflow by done. by eexists.
Qed.

(** The lock is held by another call on this thread (a call inside [db_init]). *)
Lemma locked_query_blocked n db_name sql (w : world E) :
  db_lock w = true -> slen (use_db db_name) < n -> locked_query n db_name sql w = Stop Blocked w.
Proof.
  intros Hl Hu. unfold locked_query. rewrite bind_cstring by done. unfold bind, mutex_lock. by rewrite Hl.
Qed.

(** A cancellation pending on entry takes effect inside, with the lock held. *)
Lemma locked_query_cancelled n db_name sql (w : world E) :
  cancel_pending w = true -> db_lock w = false -> slen (use_db db_name) < n ->
  locked_query n db_name sql w = Stop Cancelled (w <| db_lock := true |>).
Proof.
  intros Hc Hl Hu. unfold locked_query. rewrite bind_cstring by done. unfold bind at 1, mutex_lock.
  rewrite Hl. cbn iota. unfold mysql_query, bind, cancellation_point, set_field. cbn. by rewrite Hc.
Qed.
End queries.

(** ** Views: what a function leaves alone *)
Definition same {W T : Type} (view : W -> T) (w w' : W) : Prop := view w' = view w.

#[export] Instance same_preorder {W T} (view : W -> T) : PreOrder (same view).
Proof. split; [done|]. unfold same. intros w1 w2 w3 H1 H2. congruence. Qed.

Section views.
Context {E T : Type} (view : world E -> T).

Lemma preserves_rd {A} `{Zeroed A} n (f : world E -> gmap Z A) i : preserves (same view) (rd n f i).
Proof. intros w. unfold rd. by destruct (inb n i). Qed.

Lemma preserves_wr {A} `{Zeroed A} n (f : world E -> gmap Z A) `{!Setter f} i g :
  (forall w, view (set_field f (aset i g) w) = view w) -> preserves (same view) (wr n f i g).
Proof. intros Hv w. unfold wr. destruct (inb n i); [apply Hv|done]. Qed.

Lemma preserves_sys {A} (call : E -> A * E) :
  (forall w, view (w <| ext := snd (call (ext w)) |>) = view w) -> preserves (same view) (sys call).
Proof. intros Hv w. unfold sys. specialize (Hv w). by destruct (call (ext w)). Qed.

Lemma preserves_block p : preserves (same view) (block (E := E) p).
Proof. intros w. unfold block. by destruct (p ≫= _). Qed.

Lemma preserves_set_block p m :
  (forall w h, view (w <| heap ::= h |>) = view w) -> preserves (same view) (set_block (E := E) p m).
Proof. intros Hv w. unfold set_block. destruct (p ≫= _); [apply Hv|done]. Qed.

Lemma preserves_cstring n s : preserves (same view) (cstring (E := E) n s).
Proof. intros w. unfold cstring. by destruct (cstr_fits n s). Qed.
End views.

(** One step of a proof that a function leaves the view [V] alone; [upd] shows
    it for an update. *)
Ltac preserve_step V upd :=
  first
    [ apply (preserves_bind (same V)); [|intros]
    | apply (preserves_ret (same V)) | apply (preserves_get (same V)) | apply (preserves_stop (same V))
    | apply (preserves_assert (same V)) | apply (preserves_of_option (same V))
    | apply (preserves_ignore (same V)) | apply (preserves_when (same V))
    | apply (preserves_if (same V)) | apply preserves_rd | apply preserves_block | apply preserves_cstring
    | apply preserves_set_block; done
    | apply (preserves_modify (same V)); done
    | apply preserves_wr; upd
    | match goal with |- preserves _ (let '_ := ?x in _) => destruct x end
    | match goal with |- preserves _ (match ?x with _ => _ end) => destruct x end ].
