(* ===== verification/UBitmapSpec.v ===== *)
(** * Properties of the daemon's bitmap routines

    The bit the resync loop tests is the bit the kernel module sets; the count
    of the server is the number of set bits although it numbers them the other
    way round in each byte; the copy and the clearing of a half are exact. *)
From S2P Require Import Prelude Memory KernelState KBitmap KBitmapSpec KernelInv CMonad CString World UBitmap.

(** ** Testing a bit *)
Lemma land_1 w : Z.land 1 w = Z.b2z (Z.testbit w 0).
Proof.
  rewrite Z.land_comm. change 1 with (Z.ones 1) at 1. rewrite Z.land_ones by lia.
  rewrite Z.bit0_mod. done.
Qed.

Lemma test_bit_ok pos m :
  wf_mem m -> 0 <= pos -> 4 * (pos / 32) + 4 <= Z.of_nat (length m) ->
  test_bit pos m = Some (Z.b2z (mem_bit m pos)).
Proof.
  intros Hwf Hp Hlen. unfold test_bit. rewrite Z.shiftr_div_pow2 by lia. change (2 ^ 5) with 32.
  destruct (load_Some 4 m (4 * (pos / 32))) as [w Hw]; [lia..|]. rewrite Hw. cbn.
  change 31 with (Z.ones 5). rewrite Z.land_ones by lia. change (2 ^ 5) with 32.
  rewrite land_1, Z.shiftr_spec by lia. rewrite (load_bit _ _ _ _ _ Hwf Hw) by lia.
  replace (0 + pos mod 32 <? 8 * Z.of_nat 4) with true by bool_solve. cbn [andb]. do 3 f_equal. lia.
Qed.

Lemma is_bit_set_ok m pos :
  wf_mem m -> Z.of_nat (length m) = BITMAP_SIZE -> 0 <= pos < MAX_BITS_LEN ->
  is_bit_set m pos = Some (Z.b2z (mem_bit m pos)).
Proof.
  unfold BITMAP_SIZE, MAX_BITS_LEN. intros Hwf Hlen Hp. unfold is_bit_set, MAX_BITS_LEN.
  replace (pos <? _) with true by bool_solve. apply test_bit_ok; [done|lia|lia].
Qed.

(** ** Counting *)

(** The byte and bit the count looks at for position [pos]. *)
Definition msb_pos (pos : Z) : Z := 8 * (pos / 8) + (7 - pos mod 8).

Lemma s8_mask_table :
  forallb (fun b => forallb (fun t =>
    Bool.eqb (Z.land (s8 b) (s8 (Z.shiftl 1 (8 - 1 - t))) =? 0) (negb (Z.testbit b (7 - t)))) (zseq 0 8)) (zseq 0 256) = true.
Proof. vm_compute. reflexivity. Qed.

Lemma s8_mask b t : is_byte b -> 0 <= t < 8 ->
  (Z.land (s8 b) (s8 (Z.shiftl 1 (8 - 1 - t))) =? 0) = negb (Z.testbit b (7 - t)).
Proof.
  intros Hb Ht. pose proof s8_mask_table as Htab. rewrite forallb_forall in Htab.
  specialize (Htab b). rewrite forallb_forall in Htab.
  apply Bool.eqb_prop, Htab; apply list_elem_of_In, elem_of_zseq; unfold is_byte in *; lia.
Qed.

Lemma load1 m off : wf_mem m -> 0 <= off < Z.of_nat (length m) ->
  exists b, load 1 m off = Some b /\ is_byte b /\
    forall j, 0 <= j < 8 -> Z.testbit b j = mem_bit m (8 * off + j).
Proof.
  intros Hwf Ho. destruct (load_Some 1 m off) as [b Hb]; [lia..|]. exists b. split; [done|].
  split.
  - unfold load in Hb. destruct (in_buffer 1 m off); [|done]. injection Hb as <-.
    assert (Hwf' : wf_mem (take 1 (drop (Z.to_nat off) m))) by by apply Forall_take, Forall_drop.
    destruct (drop (Z.to_nat off) m) as [|x l]; [cbn; unfold is_byte; lia|].
    cbn [take] in *. apply Forall_cons in Hwf' as [Hx _].
    destruct (take 0 l) eqn:E; [cbn [le_value]; unfold is_byte in *; lia|]. by rewrite take_0 in E.
  - intros j Hj. rewrite (load_bit _ _ _ _ _ Hwf Hb) by lia. by replace (j <? 8 * Z.of_nat 1) with true by bool_solve.
Qed.

Lemma check_bit_ok m pos :
  wf_mem m -> Z.of_nat (length m) = BITMAP_SIZE -> 0 <= pos < MAX_BITS_LEN ->
  exists r, ebdr_check_bit_set m pos = Some r /\ (r =? 0) = negb (mem_bit m (msb_pos pos)).
Proof.
  unfold BITMAP_SIZE, MAX_BITS_LEN. intros Hwf Hlen Hp. unfold ebdr_check_bit_set, MAX_BITS_LEN.
  change (Z.shiftr pos (PAGE_SHIFT + 3)) with (Z.shiftr pos 15). change NUM_BITS_PER_PAGE with 32768.
  rewrite land_page_mask. rewrite Z.shiftr_div_pow2 by lia. change (2 ^ 15) with 32768.
  rewrite u64_id by lia. replace (_ <? pos / 32768 * 32768) with false by bool_solve.
  unfold ebdr_test_bit2.
  destruct (load1 m (pos / 32768 * 32768 / 8 + pos mod 32768 / 8)) as (b & -> & Hb & Hbits); [done|lia|].
  cbn. eexists. split; [done|]. rewrite s8_mask by (done || lia). rewrite Hbits by lia. do 2 f_equal.
  unfold msb_pos. lia.
Qed.

Fixpoint count (f : Z -> bool) (n : nat) : Z :=
  match n with
  | O => 0
  | S n' => count f n' + Z.b2z (f (Z.of_nat n'))
  end.

Lemma count_msb f q : count (fun k => f (msb_pos k)) (8 * q) = count f (8 * q).
Proof.
  induction q as [|q IH]; [done|].
  replace (8 * S q)%nat with (S (S (S (S (S (S (S (S (8 * q)))))))))%nat by lia.
  cbn [count]. rewrite IH.
  assert (Hk : forall i, (i < 8)%nat -> msb_pos (Z.of_nat (8 * q + i)) = Z.of_nat (8 * q + (7 - i))).
  { intros i Hi. unfold msb_pos. lia. }
  pose proof (Hk 0%nat) as H0. pose proof (Hk 1%nat) as H1. pose proof (Hk 2%nat) as H2.
  pose proof (Hk 3%nat) as H3. pose proof (Hk 4%nat) as H4. pose proof (Hk 5%nat) as H5.
  pose proof (Hk 6%nat) as H6. pose proof (Hk 7%nat) as H7.
  rewrite !Nat.add_succ_r, !Nat.add_0_r in *. cbn [Nat.sub] in *.
  rewrite !Nat.add_succ_r, !Nat.add_0_r in *.
  rewrite H0, H1, H2, H3, H4, H5, H6, H7 by lia. lia.
Qed.

(** ** Copying and clearing a half *)
(** The copy of words of [wn] bytes. *)
Lemma copy_words_ok (wn : nat) nbytes soff src dest :
  wn = 4%nat \/ wn = 8%nat ->
  wf_mem src -> 0 <= soff -> 0 <= nbytes -> nbytes mod Z.of_nat wn = 0 ->
  soff + nbytes <= Z.of_nat (length src) -> nbytes <= Z.of_nat (length dest) ->
  exists d', iter_up (Z.to_nat (nbytes / Z.of_nat wn)) 0
      (fun i d => v ← load wn src (soff + Z.of_nat wn * i); store wn d (Z.of_nat wn * i) v) dest = Some d' /\
    same_shape dest d' /\
    forall k, mem_bit d' k = if in_range 0 (8 * nbytes - 1) k then mem_bit src (8 * soff + k) else mem_bit dest k.
Proof.
  intros Hwn Hwf Hs Hn Hmod Hls Hld.
  destruct (iter_up_inv (fun i d => same_shape dest d /\
      forall k, mem_bit d k = if in_range 0 (8 * Z.of_nat wn * i - 1) k then mem_bit src (8 * soff + k) else mem_bit dest k)
    (fun i d => v ← load wn src (soff + Z.of_nat wn * i); store wn d (Z.of_nat wn * i) v)
    (Z.to_nat (nbytes / Z.of_nat wn)) 0 dest) as (d' & E & Hsh & Hb).
  - split; [apply same_shape_refl|]. intros k. unfold in_range. by replace (_ && (k <=? _)) with false by bool_solve.
  - intros i d Hi [Hsh1 Hb1].
    assert (Hi8 : 0 <= i /\ Z.of_nat wn * i + Z.of_nat wn <= nbytes) by (destruct Hwn as [-> | ->]; lia).
    assert (Hw : 0 < Z.of_nat wn) by (destruct Hwn as [-> | ->]; lia).
    assert (Hwi : 0 <= Z.of_nat wn * i) by (destruct Hwn as [-> | ->]; lia).
    destruct (load_Some wn src (soff + Z.of_nat wn * i)) as [v Hv]; [lia..|].
    rewrite Hv. cbn. destruct (store_Some wn d (Z.of_nat wn * i) v) as [d2 E2]; [lia|rewrite (shape_len _ _ Hsh1); lia|].
    exists d2. split; [done|]. split.
    { eapply same_shape_trans; [done|]. split; [by eapply store_length|by intros; eapply store_wf]. }
    intros k. rewrite (store_bit _ _ _ _ _ _ E2).
    destruct ((8 * (Z.of_nat wn * i) <=? k) && (k <? 8 * (Z.of_nat wn * i + Z.of_nat wn))) eqn:Er.
    + bool_to_prop. rewrite (load_bit _ _ _ _ _ Hwf Hv) by lia.
      replace (k - _ <? 8 * Z.of_nat wn) with true by bool_solve. cbn [andb].
      replace (in_range 0 (8 * Z.of_nat wn * (i + 1) - 1) k) with true by (unfold in_range; bool_solve).
      f_equal. lia.
    + rewrite Hb1. apply andb_false_iff in Er. unfold in_range.
      replace ((0 <=? k) && (k <=? 8 * Z.of_nat wn * (i + 1) - 1)) with ((0 <=? k) && (k <=? 8 * Z.of_nat wn * i - 1)); [done|].
      destruct Er as [Er|Er]; [apply Z.leb_gt in Er|apply Z.ltb_ge in Er]; bool_solve.
  - exists d'. split; [done|]. split; [done|]. intros k. rewrite Hb.
    by replace (8 * Z.of_nat wn * (0 + Z.of_nat (Z.to_nat (nbytes / Z.of_nat wn))) - 1) with (8 * nbytes - 1)
      by (destruct Hwn as [-> | ->]; lia).
Qed.

Lemma copy_ok nbytes soff src dest :
  wf_mem src -> 0 <= soff -> 0 <= nbytes -> nbytes mod 8 = 0 ->
  soff + nbytes <= Z.of_nat (length src) -> nbytes <= Z.of_nat (length dest) ->
  exists d', ebdr_copy_mmaped_bitmap nbytes soff src dest = Some d' /\ same_shape dest d' /\
    forall k, mem_bit d' k = if in_range 0 (8 * nbytes - 1) k then mem_bit src (8 * soff + k) else mem_bit dest k.
Proof. intros. apply (copy_words_ok 8); auto. Qed.

Lemma clear_active_ok sz base m :
  size_ok sz -> wf_mem m -> 0 <= base -> base + sz <= Z.of_nat (length m) ->
  exists m', ebdr_clear_active_bitmap sz base m = Some m' /\ same_shape m m' /\
    forall k, mem_bit m' k = negb (in_range (8 * base) (8 * base + 8 * sz - 1) k) && mem_bit m k.
Proof.
  intros Hsz Hwf Hb Hl. destruct (clear_bmap_mem_spec sz base m) as (m' & E & Hm); try done.
  exists m'. split; [|done]. rewrite <- E. unfold clear_bmap_mem, ebdr_clear_active_bitmap.
  destruct Hsz. replace (8 * sz / 8) with sz by lia. by rewrite i32_id, u64_id by lia.
Qed.

(** A buffer filled with one byte. *)
Definition blank (b : Z) : mem := replicate (Z.to_nat BITMAP_SIZE) b.

Lemma length_blank b : Z.of_nat (length (blank b)) = BITMAP_SIZE.
Proof. unfold blank. rewrite length_replicate. apply Z2Nat.id. unfold BITMAP_SIZE. lia. Qed.

Lemma wf_blank b : is_byte b -> wf_mem (blank b).
Proof. intros. by apply Forall_replicate. Qed.

#[global] Opaque blank.

(** The bit [pos] the client's resync loop tests in a 32-bit word, least
    significant first, is the bit [pos] of the kernel's numbering: for every
    bitmap of BITMAP_SIZE bytes the answer is 1 exactly for the set bits. *)
Theorem is_bit_set_kernel_bit m pos :
  wf_mem m -> Z.of_nat (length m) = BITMAP_SIZE -> 0 <= pos < MAX_BITS_LEN ->
  is_bit_set m pos = Some (Z.b2z (mem_bit m pos)).
Proof. apply is_bit_set_ok. Qed.

Lemma is_bit_set_kernel_bit_witness :
  is_bit_set (blank 170) 77 = Some (Z.b2z (mem_bit (blank 170) 77)).
Proof.
  apply is_bit_set_kernel_bit; [apply wf_blank; unfold is_byte; lia|apply length_blank|unfold MAX_BITS_LEN; lia].
Defined.

Lemma count_loop m n :
  wf_mem m -> Z.of_nat (length m) = BITMAP_SIZE -> Z.of_nat n <= MAX_BITS_LEN ->
  iter_up n 0 (fun bit_pos bits_set => r ← ebdr_check_bit_set m bit_pos;
                 Some (if r =? 0 then bits_set else bits_set + 1)) 0
  = Some (count (fun k => mem_bit m (msb_pos k)) n).
Proof.
  intros Hwf Hlen Hn.
  edestruct (iter_up_inv (fun i b => b = count (fun k => mem_bit m (msb_pos k)) (Z.to_nat i))
    (fun bit_pos bits_set => r ← ebdr_check_bit_set m bit_pos; Some (if r =? 0 then bits_set else bits_set + 1))
    n 0 0) as (b & E & Hb); [done| |].
  - intros i b Hi ->. destruct (check_bit_ok m i) as (r & -> & Hr); [done|done|lia|].
    cbn. eexists. split; [done|]. rewrite Hr. replace (Z.to_nat (i + 1)) with (S (Z.to_nat i)) by lia.
    cbn [count]. rewrite Z2Nat.id by lia. destruct (mem_bit m (msb_pos i)); cbn; lia.
  - rewrite E, Hb. by rewrite Z.add_0_l, Nat2Z.id.
Qed.

(** [get_total_bits_set] returns the number of set bits of the bitmap,
    although it numbers the bits of each byte the other way round. *)
Theorem get_total_bits_set_counts m :
  wf_mem m -> Z.of_nat (length m) = BITMAP_SIZE ->
  get_total_bits_set m = Some (count (mem_bit m) (Z.to_nat MAX_BITS_LEN)).
Proof.
  intros Hwf Hlen. unfold get_total_bits_set.
  rewrite count_loop; [|done|done|rewrite Z2Nat.id; unfold MAX_BITS_LEN; lia].
  assert (Hq : exists q, Z.to_nat MAX_BITS_LEN = (8 * q)%nat).
  { exists (Z.to_nat (4 * 4096)). unfold MAX_BITS_LEN. rewrite Z.mul_comm. by rewrite Z2Nat.inj_mul by lia. }
  destruct Hq as [q ->]. by rewrite count_msb.
Qed.

Lemma get_total_bits_set_counts_witness :
  get_total_bits_set (blank 255) = Some (count (mem_bit (blank 255)) (Z.to_nat MAX_BITS_LEN)).
Proof.
  apply get_total_bits_set_counts; [apply wf_blank; unfold is_byte; lia|apply length_blank].
Defined.
