(* ===== verification/TransferLoop.v ===== *)
(** * Copying a disk grain by grain

    What the two resync loops (atdr_resync.c of user/atdr_linux and of
    user/atdr_windows) have in common: images of a disk, the regions of a chunk
    and of a grain, the peer that answers requests, and the loop over the
    chunks of a grain and over the grains, for any round that copies one chunk
    or gives up. *)
From S2P Require Import Prelude Memory KernelState KBitmap KBitmapSpec CMonad CString World Resync.

(** ** Images of a disk *)
Definition image : Type := Z -> Z.

(** The bytes of [P] satisfy [ok], the others are as they were. *)
Definition filled (ok : Z -> Z -> Prop) (P : Z -> bool) (t t' : image) : Prop :=
  forall a, if P a then ok a (t' a) else t' a = t a.

(** Some of the bytes of [P] satisfy [ok], the others are as they were. *)
Definition partly (ok : Z -> Z -> Prop) (P : Z -> bool) (t t' : image) : Prop :=
  forall a, t' a = t a \/ (P a = true /\ ok a (t' a)).

(** What a transfer may write: the bytes of the source, or whatever was in the
    buffer. *)
Definition the_bytes (src : image) (a v : Z) : Prop := v = src a.
Definition any_byte (a v : Z) : Prop := True.

Definition none : Z -> bool := fun _ => false.
Definition union (P Q : Z -> bool) : Z -> bool := fun a => P a || Q a.

Section images.
Context (ok : Z -> Z -> Prop).

Lemma filled_none t : filled ok none t t.
Proof. by intros a. Qed.

Lemma filled_trans P Q t t1 t2 : filled ok P t t1 -> filled ok Q t1 t2 -> filled ok (union P Q) t t2.
Proof.
  intros H1 H2 a. specialize (H1 a). specialize (H2 a). unfold union.
  destruct (P a), (Q a); cbn [orb]; by rewrite ?H2.
Qed.

Lemma filled_ext P Q t t' : (forall a, P a = Q a) -> filled ok P t t' -> filled ok Q t t'.
Proof. intros HPQ Hc a. rewrite <- HPQ. apply Hc. Qed.

(** Equal images in place of the ends. *)
Lemma filled_between P t0 t t' t1 :
  (forall a, t a = t0 a) -> (forall a, t1 a = t' a) -> filled ok P t t' -> filled ok P t0 t1.
Proof. intros H0 H1 Hc a. specialize (Hc a). by rewrite H1, <- H0. Qed.

Lemma partly_refl P t t' : (forall a, t' a = t a) -> partly ok P t t'.
Proof. intros He a. left. apply He. Qed.

Lemma filled_partly P t t' : filled ok P t t' -> partly ok P t t'.
Proof. intros Hc a. specialize (Hc a). destruct (P a); [by right|by left]. Qed.

Lemma partly_filled P Q t t1 t2 : filled ok P t t1 -> partly ok Q t1 t2 -> partly ok (union P Q) t t2.
Proof.
  intros H1 H2 a. specialize (H1 a). unfold union. destruct (H2 a) as [->|[-> Hok]]; [|right; by rewrite orb_true_r].
  destruct (P a); [by right|by left].
Qed.

Lemma partly_weaken P Q t t' : (forall a, P a = true -> Q a = true) -> partly ok P t t' -> partly ok Q t t'.
Proof. intros HPQ Hp a. destruct (Hp a) as [|[]]; [by left|right; auto]. Qed.
End images.

Lemma filled_source src P t t' : filled (the_bytes src) P t t' -> forall a, t' a = if P a then src a else t a.
Proof. intros Hc a. specialize (Hc a). by destruct (P a). Qed.

Lemma partly_outside ok P t t' : partly ok P t t' -> forall a, P a = false -> t' a = t a.
Proof. intros Hp a Ha. destruct (Hp a) as [|[]]; congruence. Qed.

(** ** The regions the loop copies *)
Section regions.
Context (G C : Z).

(** First byte of chunk [c] of grain [bit]. *)
Definition chunk_addr (bit c : Z) : Z := 512 * (bit * G + c * C).

Definition chunk_region (bit c : Z) : Z -> bool := in_range (chunk_addr bit c) (chunk_addr bit c + 4095).

Definition chunks_region (bit c n : Z) : Z -> bool := fun a =>
  existsb (fun c => chunk_region bit c a) (zseq c n).

Definition grains_region (sel : Z -> bool) (bit n : Z) : Z -> bool := fun a =>
  existsb (fun b => sel b && chunks_region b 0 (G / C) a) (zseq bit n).

Lemma chunks_region_cons bit c n a : 0 < n ->
  chunks_region bit c n a = union (chunk_region bit c) (chunks_region bit (c + 1) (n - 1)) a.
Proof. intros. unfold chunks_region, union. by rewrite zseq_cons. Qed.

Lemma grains_region_cons sel bit n a : 0 < n ->
  grains_region sel bit n a =
  union (fun a => sel bit && chunks_region bit 0 (G / C) a) (grains_region sel (bit + 1) (n - 1)) a.
Proof. intros. unfold grains_region, union. by rewrite zseq_cons. Qed.

Lemma grains_region_nil sel bit n a : n <= 0 -> grains_region sel bit n a = false.
Proof. intros. unfold grains_region. by rewrite zseq_nil. Qed.

(** With the chunk of 4096 bytes the protocol transfers and grains made of
    whole chunks, the loop copies exactly the selected grains. *)
Lemma grains_region_exact sel bit n a :
  C = 8 -> 0 < G -> G mod 8 = 0 -> 0 <= bit ->
  grains_region sel bit n a = in_range bit (bit + n - 1) (a / (512 * G)) && sel (a / (512 * G)).
Proof.
  intros -> HG Hmod Hbit. assert (Hg : exists k, G = 8 * k /\ 0 < k) by (exists (G / 8); lia).
  destruct Hg as (k & -> & Hk). replace (8 * k / 8) with k by (rewrite Z.mul_comm, Z.div_mul; lia).
  pose proof (Z.div_mod a (512 * (8 * k))) as Hdm. pose proof (Z.mod_pos_bound a (512 * (8 * k))) as Hmb.
  apply Bool.eq_iff_eq_true. unfold grains_region, chunks_region, chunk_region, chunk_addr, in_range.
  rewrite existsb_exists. setoid_rewrite andb_true_iff. setoid_rewrite existsb_exists.
  split.
  - intros (b & Hb%list_elem_of_In%elem_of_zseq & Hsel & c & Hc%list_elem_of_In%elem_of_zseq & Ha).
    bool_to_prop. assert (a / (512 * (8 * k)) = b) as ->.
    { symmetry. apply (Z.div_unique a _ _ (a - 512 * (8 * k) * b)); [left; nia|lia]. }
    split; [bool_solve|done].
  - intros [Hr Hsel]. bool_to_prop. set (b := a / (512 * (8 * k))) in *. exists b.
    split; [apply list_elem_of_In, elem_of_zseq; lia|]. split; [done|].
    exists (a mod (512 * (8 * k)) / 4096). split.
    + apply list_elem_of_In, elem_of_zseq. split; [apply Z.div_pos; lia|]. apply Z.div_lt_upper_bound; lia.
    + pose proof (Z.div_mod (a mod (512 * (8 * k))) 4096). pose proof (Z.mod_pos_bound (a mod (512 * (8 * k))) 4096).
      rewrite andb_true_iff, !Z.leb_le. lia.
Qed.
End regions.

(** ** The peer and the target disk *)
Record peer {E : Type} := mk_peer {
  pr_src : image;           (** the source disk (its snapshot) *)
  pr_size : Z;              (** its bytes, and those of the target *)
  pr_tgt : E -> image;      (** the target disk *)
  pr_works : E -> Prop;     (** the client's own machine works: its database, its disk *)
  pr_good : E -> Prop;      (** ... and the peer is serving, nothing it sent before is unread *)
}.
Arguments peer E : clear implicits.

(** The same peer, of which only the client's machine counts. *)
Definition weak {E} (P : peer E) : peer E :=
  {| pr_src := pr_src P; pr_size := pr_size P; pr_tgt := pr_tgt P; pr_works := pr_works P; pr_good := pr_works P |}.

(** The request for chunk [c] of grain [bit]. *)
Definition is_request (pid bit c : Z) (h : replic_header) : Prop :=
  hd_opcode h = DATA /\ hd_partner h = pid /\ hd_curr h = bit /\ hd_chunk_pos h = c.

Definition same_image (t t' : image) : Prop := forall a, t' a = t a.

Lemma same_image_trans t1 t2 t3 : same_image t1 t2 -> same_image t2 t3 -> same_image t1 t3.
Proof. intros H1 H2 a. by rewrite H2, H1. Qed.

(** ** The loops *)
Section loops.
Context {W : Type} (R : W -> Prop) (tgt : W -> image) (last : W -> Z) (up : Prop).
Context (ok : Z -> Z -> Prop) (size G C : Z).

Definition round_outcome (bit c : Z) (w : W) (o : option chunk_result) (w' : W) : Prop :=
  match o with
  | None => R w' /\ filled ok (chunk_region G C bit c) (tgt w) (tgt w')
  | Some o => o = resync_returned /\ same_image (tgt w) (tgt w') /\ ~ up
  end.

(** How the loop over [n] chunks from [c] ends. *)
Definition chunks_outcome (bit c n : Z) (w : W) (o : chunk_result) (buff : mem) (w' : W) : Prop :=
  (o = chunks_done /\ length buff = 4096%nat /\ R w' /\
   filled ok (chunks_region G C bit c n) (tgt w) (tgt w')) \/
  (o = resync_returned /\ ~ up /\ partly ok (chunks_region G C bit c n) (tgt w) (tgt w')).

Definition chunk_fits (bit c : Z) : Prop := 0 <= chunk_addr G C bit c /\ chunk_addr G C bit c + 4096 <= size.

Context (round : Z -> Z -> mem -> M W (option chunk_result * mem)).
Context (loop : nat -> Z -> Z -> mem -> M W (chunk_result * mem)).
Context (loop_O : forall bit c buff w, loop 0 bit c buff w = Ret (chunks_done, buff) w).
Context (loop_S : forall n bit c buff w, loop (S n) bit c buff w =
  bind (round bit c buff) (fun '(stop_, buff) =>
    match stop_ with Some o => ret (o, buff) | None => loop n bit (c + 1) buff end) w).
Context (round_ok : forall w bit c buff, R w -> chunk_fits bit c -> length buff = 4096%nat ->
  exists o buff' w', round bit c buff w = Ret (o, buff') w' /\
    (o = None -> length buff' = 4096%nat) /\ last w' = last w /\ round_outcome bit c w o w').

Lemma chunks_ok n : forall w bit c buff,
  R w -> length buff = 4096%nat -> (forall c', c <= c' < c + Z.of_nat n -> chunk_fits bit c') ->
  exists o buff' w', loop n bit c buff w = Ret (o, buff') w' /\ last w' = last w /\
    chunks_outcome bit c (Z.of_nat n) w o buff' w'.
Proof.
  induction n as [|n IH]; intros w bit c buff Hr Hb Hfit.
  - exists chunks_done, buff, w. split; [apply loop_O|]. split; [done|]. left. split; [done|]. split; [done|].
    split; [done|]. by apply (filled_ext _ none), filled_none.
  - destruct (round_ok w bit c buff Hr) as (o & buff1 & w1 & E1 & Hb1 & Hl1 & Ho); [apply Hfit; lia|done|].
    rewrite loop_S, (bind_Ret _ _ _ _ _ E1). cbv beta iota. destruct o as [o|].
    + destruct Ho as (-> & Ht & Hup). exists resync_returned, buff1, w1. split; [done|]. split; [done|].
      right. split; [done|]. split; [done|]. by apply partly_refl.
    + destruct Ho as [Hr1 Hc1].
      destruct (IH w1 bit (c + 1) buff1 Hr1 (Hb1 eq_refl)) as (o & buff2 & w2 & E2 & Hl2 & Ho).
      { intros c' Hc'. apply Hfit. lia. }
      exists o, buff2, w2. split; [exact E2|]. split; [congruence|].
      assert (HQ : forall a, union (chunk_region G C bit c) (chunks_region G C bit (c + 1) (Z.of_nat n)) a =
                             chunks_region G C bit c (Z.of_nat (S n)) a).
      { intros a. rewrite chunks_region_cons by lia. do 3 f_equal. lia. }
      destruct Ho as [(-> & Hb2 & Hr2 & Hc2)|(-> & Hup & Hp)]; [left|right].
      * split; [done|]. split; [done|]. split; [done|].
        eapply filled_ext; [exact HQ|]. by eapply filled_trans.
      * split; [done|]. split; [done|]. eapply partly_weaken; [|by eapply partly_filled].
        intros a. by rewrite HQ.
Qed.

(** The loop over the grains [sel] chooses; [pass] records the position. *)
Context (sel : Z -> bool) (step : Z -> mem -> M W (chunk_result * mem)) (pass : Z -> W -> W).
Context (gloop : nat -> Z -> mem -> M W bool).
Context (gloop_S : forall fuel bit buff w, R w -> 0 <= bit <= MAX_BITS_LEN -> gloop (S fuel) bit buff w =
  if bit <? MAX_BITS_LEN then
    bind (if sel bit then step bit buff else ret (chunks_done, buff)) (fun '(c, buff) =>
      match c with resync_returned => ret false | _ => fun w => gloop fuel (bit + 1) buff (pass bit w) end) w
  else Ret true w).
Context (pass_ready : forall bit w, R w -> R (pass bit w)) (pass_tgt : forall bit w, tgt (pass bit w) = tgt w)
  (pass_last : forall bit w, last (pass bit w) = bit).
Context (step_ok : forall w bit buff, R w -> length buff = 4096%nat -> 0 <= bit < MAX_BITS_LEN -> sel bit = true ->
  exists o buff' w', step bit buff w = Ret (o, buff') w' /\ last w' = last w /\
    chunks_outcome bit 0 (G / C) w o buff' w').

(** Where the loop stopped: in grain [b], everything before it copied. *)
Definition interrupted (bit : Z) (w w' : W) (b : Z) : Prop :=
  bit <= b < MAX_BITS_LEN /\ sel b = true /\
  last w' = (if b =? bit then last w else b - 1) /\
  exists t1, filled ok (grains_region G C sel bit (b - bit)) (tgt w) t1 /\
             partly ok (chunks_region G C b 0 (G / C)) t1 (tgt w').

Definition loop_outcome (bit : Z) (w w' : W) (finished : bool) : Prop :=
  if finished then R w' /\ filled ok (grains_region G C sel bit (MAX_BITS_LEN - bit)) (tgt w) (tgt w')
  else ~ up /\ exists b, interrupted bit w w' b.

(** From the outcome of the rest of the loop to that of the loop. *)
Lemma loop_outcome_cons bit w w1 w' finished :
  0 <= bit < MAX_BITS_LEN ->
  filled ok (fun a => sel bit && chunks_region G C bit 0 (G / C) a) (tgt w) (tgt w1) ->
  loop_outcome (bit + 1) (pass bit w1) w' finished -> loop_outcome bit w w' finished.
Proof using pass_tgt pass_last.
  intros Hbit Hc1. unfold loop_outcome, interrupted. rewrite pass_tgt, pass_last.
  assert (Hreg : forall n a, 0 < n -> union (fun a => sel bit && chunks_region G C bit 0 (G / C) a)
    (grains_region G C sel (bit + 1) (n - 1)) a = grains_region G C sel bit n a).
  { intros. symmetry. by apply grains_region_cons. }
  destruct finished.
  - intros [Hr Hc]. split; [done|]. eapply filled_ext; [intros a; apply (Hreg (MAX_BITS_LEN - bit)); lia|].
    eapply filled_trans; [exact Hc1|]. by replace (MAX_BITS_LEN - bit - 1) with (MAX_BITS_LEN - (bit + 1)) by lia.
  - intros (Hup & b & Hb & Hsel & Hl & t1 & Ht1 & Hp). split; [done|]. exists b. split; [lia|].
    split; [done|]. split.
    + rewrite Hl. destruct (Z.eqb_spec b (bit + 1)), (Z.eqb_spec b bit); lia.
    + exists t1. split; [|done]. eapply filled_ext; [intros a; apply (Hreg (b - bit)); lia|].
      eapply filled_trans; [exact Hc1|]. by replace (b - bit - 1) with (b - (bit + 1)) by lia.
Qed.

Lemma grains_ok fuel : forall w bit buff,
  R w -> length buff = 4096%nat -> 0 <= bit <= MAX_BITS_LEN -> MAX_BITS_LEN - bit < Z.of_nat fuel ->
  exists finished w', gloop fuel bit buff w = Ret finished w' /\ loop_outcome bit w w' finished.
Proof using gloop_S pass_ready pass_tgt pass_last step_ok.
  induction fuel as [|fuel IH]; intros w bit buff Hr Hb Hbit Hfuel; [lia|]. rewrite gloop_S by done.
  destruct (Z.ltb_spec bit MAX_BITS_LEN).
  2:{ exists true, w. split; [done|]. split; [done|].
      eapply filled_ext; [|apply filled_none]. intros a. rewrite grains_region_nil by lia. done. }
  assert (Hgo : forall w1 buff1, R w1 -> length buff1 = 4096%nat ->
    filled ok (fun a => sel bit && chunks_region G C bit 0 (G / C) a) (tgt w) (tgt w1) ->
    exists finished w', gloop fuel (bit + 1) buff1 (pass bit w1) = Ret finished w' /\ loop_outcome bit w w' finished).
  { intros w1 buff1 Hr1 Hb1 Hc1.
    destruct (IH (pass bit w1) (bit + 1) buff1) as (fin & w' & Eg & Ho); [by apply pass_ready|done|lia|lia|].
    exists fin, w'. split; [exact Eg|]. eapply loop_outcome_cons; [lia|exact Hc1|exact Ho]. }
  destruct (sel bit) eqn:Hsel.
  - destruct (step_ok w bit buff) as (o & buff1 & w1 & E1 & Hl1 & Ho); [done|done|lia|done|].
    rewrite (bind_Ret _ _ _ _ _ E1). cbv beta iota.
    destruct Ho as [(-> & Hb1 & Hr1 & Hc1)|(-> & Hup & Hp)]; [by apply Hgo|].
    exists false, w1. split; [done|]. split; [done|]. exists bit. split; [lia|]. split; [done|]. split.
    + by rewrite Z.eqb_refl.
    + exists (tgt w). split; [|done]. eapply filled_ext; [|apply filled_none].
      intros a. by rewrite grains_region_nil by lia.
  - rewrite bind_ret. cbv beta iota. apply Hgo; [done|done|].
    apply (filled_ext _ none); [done|apply filled_none].
Qed.
End loops.

(** What every run leaves, finished or not. *)
Lemma interrupted_partly {W} (tgt : W -> image) last ok G C sel bit w w' b :
  interrupted tgt last ok G C sel bit w w' b ->
  partly ok (grains_region G C sel bit (MAX_BITS_LEN - bit)) (tgt w) (tgt w').
Proof.
  intros (Hb & Hsel & _ & t1 & Hc1 & Hp). eapply partly_weaken; [|by eapply partly_filled].
  intros a. unfold union. rewrite orb_true_iff. unfold grains_region. rewrite !existsb_exists.
  intros [(x & Hx%list_elem_of_In%elem_of_zseq & Ha)|Ha].
  - exists x. split; [apply list_elem_of_In, elem_of_zseq; lia|done].
  - exists b. split; [apply list_elem_of_In, elem_of_zseq; lia|]. by rewrite Hsel, Ha.
Qed.
