(* ===== verification/ResyncSpec.v ===== *)
(** * The resync loop against an abstract peer

    [PeerLaws] says what the loop relies on: the answer to a DATA request is
    the beginning of the 4096 bytes the source disk has at the requested
    position, as much of it as [recv] delivers; a write of the target disk
    changes those bytes, the database answers.  A request or its answer may fail
    at any time, and a receive that does not fail may deliver fewer bytes than
    asked for, or none (the peer closed the connection, a signal came), after
    which what arrives belongs to no request in particular.

    The lemmas of this file follow one round, one grain and the whole loop of
    atdr_resync.c against [RoundLaws], what one round needs, for any predicate
    [ok] on the bytes written.  [round_any] and [round_whole] derive it from
    [PeerLaws] twice: for any bytes, whatever is received, and for the bytes of
    the source, as long as every receive is whole. *)
From S2P Require Import Prelude Memory KernelState KBitmap KBitmapSpec CMonad CString World UBitmap Db Header ReplicServer.
From S2P Require Import Resync WorldTac UBitmapSpec TransferLoop.

(** ** The peer *)
Class PeerLaws {E : Type} `{OS E} (P : peer E) (pid fd fdt G C : Z) := {
  pl_works : forall e, pr_good P e -> pr_works P e;
  (** A request and its answer leave the target disk alone.  [recv] delivers at
      most what was asked for; when nothing sent before is unread, that is the
      beginning of the source's bytes, and all of it when it is whole. *)
  pl_request : forall e h bit c r e1 n bytes e2,
    pr_works P e -> is_request pid bit c h -> 0 <= chunk_addr G C bit c -> chunk_addr G C bit c + 4096 <= pr_size P ->
    os_send_hdr fd h e = (r, e1) -> os_recv fd BUF_SIZE_IN_BYTES e1 = (n, bytes, e2) ->
    same_image (pr_tgt P e) (pr_tgt P e1) /\ same_image (pr_tgt P e) (pr_tgt P e2) /\
    (0 <= r -> 0 <= n -> os_errno e2 <> ETIMEDOUT ->
     pr_works P e2 /\ Z.of_nat (length bytes) = n /\ n <= BUF_SIZE_IN_BYTES /\
     (pr_good P e -> (forall i, 0 <= i < n -> bytes !!! Z.to_nat i = pr_src P (chunk_addr G C bit c + i)) /\
        (n = BUF_SIZE_IN_BYTES -> pr_good P e2)));
  pl_write : forall e off bytes,
    pr_works P e -> 0 <= off -> off + 4096 <= pr_size P -> length bytes = 4096%nat ->
    exists x e1 n e2, os_lseek fdt off e = (x, e1) /\ 0 <= x /\ os_write fdt bytes e1 = (n, e2) /\ 0 <= n /\
      pr_works P e2 /\ (pr_good P e -> pr_good P e2) /\
      forall a, pr_tgt P e2 a = if in_range off (off + 4095) a then bytes !!! Z.to_nat (a - off) else pr_tgt P e a;
  pl_query : forall e sql, pr_works P e ->
    exists e1, os_query sql e = (0, e1) /\ pr_works P e1 /\ (pr_good P e -> pr_good P e1) /\
      same_image (pr_tgt P e) (pr_tgt P e1);
  pl_drop : forall e r e1, os_close fd (os_shutdown fd e) = (r, e1) -> same_image (pr_tgt P e) (pr_tgt P e1);
  pl_end : forall e h r e1, pr_works P e -> hd_opcode h = RPLC_TERMINATION ->
    os_send_hdr fd h (os_blkflsbuf fdt e) = (r, e1) ->
    pr_works P e1 /\ same_image (pr_tgt P e) (pr_tgt P e1);
}.

(** No receive that succeeds is short: MSG_WAITALL promises as much unless the
    peer closes the connection or a signal interrupts the call. *)
Definition answers_whole {E} `{OS E} (P : peer E) (pid fd G C : Z) : Prop :=
  forall e h bit c r e1 n bytes e2, pr_good P e -> is_request pid bit c h ->
    0 <= chunk_addr G C bit c -> chunk_addr G C bit c + 4096 <= pr_size P ->
    os_send_hdr fd h e = (r, e1) -> os_recv fd BUF_SIZE_IN_BYTES e1 = (n, bytes, e2) ->
    0 <= r -> 0 <= n -> os_errno e2 <> ETIMEDOUT -> n = BUF_SIZE_IN_BYTES.

(** The connection holds: no call fails, no receive is short. *)
Definition peer_up {E} `{OS E} (P : peer E) (pid fd G C : Z) : Prop :=
  forall e h bit c r e1 n bytes e2, pr_good P e -> is_request pid bit c h ->
    0 <= chunk_addr G C bit c -> chunk_addr G C bit c + 4096 <= pr_size P ->
    os_send_hdr fd h e = (r, e1) -> os_recv fd BUF_SIZE_IN_BYTES e1 = (n, bytes, e2) ->
    0 <= r /\ n = BUF_SIZE_IN_BYTES /\ os_errno e2 <> ETIMEDOUT.

Lemma peer_up_whole {E} `{OS E} (P : peer E) pid fd G C : peer_up P pid fd G C -> answers_whole P pid fd G C.
Proof. intros Hup e h bit c r e1 n bytes e2 Hg Hr Hlo Hhi Es Er _ _ _. by destruct (Hup e h bit c r e1 n bytes e2) as (_ & ? & _). Qed.

(** ** What one round needs *)
Class RoundLaws {E : Type} `{OS E} (ok : Z -> Z -> Prop) (P : peer E) (pid fd fdt G C : Z) := {
  rl_works : forall e, pr_good P e -> pr_works P e;
  rl_request : forall e h bit c r e1 n bytes e2,
    pr_good P e -> is_request pid bit c h -> 0 <= chunk_addr G C bit c -> chunk_addr G C bit c + 4096 <= pr_size P ->
    os_send_hdr fd h e = (r, e1) -> os_recv fd BUF_SIZE_IN_BYTES e1 = (n, bytes, e2) ->
    same_image (pr_tgt P e) (pr_tgt P e1) /\ same_image (pr_tgt P e) (pr_tgt P e2) /\
    (0 <= r -> 0 <= n -> os_errno e2 <> ETIMEDOUT ->
     pr_good P e2 /\ (length bytes <= 4096)%nat /\
     forall buff i, length buff = 4096%nat -> 0 <= i < 4096 ->
       ok (chunk_addr G C bit c + i) (fill bytes buff !!! Z.to_nat i));
  rl_write : forall e off bytes,
    pr_good P e -> 0 <= off -> off + 4096 <= pr_size P -> length bytes = 4096%nat ->
    exists x e1 n e2, os_lseek fdt off e = (x, e1) /\ 0 <= x /\ os_write fdt bytes e1 = (n, e2) /\ 0 <= n /\
      pr_good P e2 /\
      forall a, pr_tgt P e2 a = if in_range off (off + 4095) a then bytes !!! Z.to_nat (a - off) else pr_tgt P e a;
  rl_query : forall e sql, pr_works P e ->
    exists e1, os_query sql e = (0, e1) /\ pr_works P e1 /\ (pr_good P e -> pr_good P e1) /\
      same_image (pr_tgt P e) (pr_tgt P e1);
  rl_drop : forall e r e1, os_close fd (os_shutdown fd e) = (r, e1) -> same_image (pr_tgt P e) (pr_tgt P e1);
  rl_end : forall e h r e1, pr_good P e -> hd_opcode h = RPLC_TERMINATION ->
    os_send_hdr fd h (os_blkflsbuf fdt e) = (r, e1) ->
    pr_works P e1 /\ same_image (pr_tgt P e) (pr_tgt P e1);
}.

Section derived.
Context {E : Type} `{OS E} (P : peer E) (pid fd fdt G C : Z).
Context `{!PeerLaws P pid fd fdt G C}.

(** Whatever is received, short or not. *)
Lemma round_any : RoundLaws any_byte (weak P) pid fd fdt G C.
Proof.
  constructor; cbn [weak pr_good pr_works pr_tgt pr_size].
  - done.
  - intros e h bit c r e1 n bytes e2 Hg Hr Hlo Hhi Es Er.
    destruct (pl_request e h bit c r e1 n bytes e2 Hg Hr Hlo Hhi Es Er) as (Hs1 & Hs2 & Ha).
    split; [done|]. split; [done|]. intros H1 H2 H3. destruct (Ha H1 H2 H3) as (Hw & Hl & Hn & _).
    split; [done|]. split; [|done]. unfold BUF_SIZE_IN_BYTES in Hn. lia.
  - intros e off bytes Hg Ho Hs Hl. destruct (pl_write e off bytes Hg Ho Hs Hl) as (x & e1 & n & e2 & ? & ? & ? & ? & ? & _ & ?).
    by exists x, e1, n, e2.
  - intros e sql Hw. destruct (pl_query e sql Hw) as (e1 & ? & ? & _ & ?). by exists e1.
  - apply pl_drop.
  - apply pl_end.
Qed.

(** As long as every receive is whole: the source's bytes. *)
Lemma round_whole : answers_whole P pid fd G C -> RoundLaws (the_bytes (pr_src P)) P pid fd fdt G C.
Proof.
  intros Hall. constructor.
  - apply pl_works.
  - intros e h bit c r e1 n bytes e2 Hg Hr Hlo Hhi Es Er.
    destruct (pl_request e h bit c r e1 n bytes e2 (pl_works e Hg) Hr Hlo Hhi Es Er) as (Hs1 & Hs2 & Ha).
    split; [done|]. split; [done|]. intros H1 H2 H3. destruct (Ha H1 H2 H3) as (Hw & Hl & Hn & Hb).
    pose proof (Hall e h bit c r e1 n bytes e2 Hg Hr Hlo Hhi Es Er H1 H2 H3) as ->. destruct (Hb Hg) as [Hbytes Hg2].
    unfold BUF_SIZE_IN_BYTES in *. split; [by apply Hg2|]. split; [lia|]. intros buff i Hbl Hi.
    rewrite fill_full by lia. by apply Hbytes.
  - intros e off bytes Hg Ho Hs Hl.
    destruct (pl_write e off bytes (pl_works e Hg) Ho Hs Hl) as (x & e1 & n & e2 & ? & ? & ? & ? & ? & Hg2 & ?).
    exists x, e1, n, e2. split_and!; auto.
  - intros e sql Hw. apply (pl_query e sql Hw).
  - apply pl_drop.
  - intros e h r e1 Hg. by apply pl_end, pl_works.
Qed.
End derived.

(** The client is set up for the partner: connection, engine, disk, bitmap [m]
    in heap block [blk]; nobody has paused or cancelled the resync. *)
Record ready {E} `{OS E} (P : peer E) (pid fd fdt G C blk : Z) (m : mem) (w : world E) : Prop := {
  rd_cancel : cancel_pending w = false;
  rd_lock : db_lock w = false;
  rd_state : ptn_state (aget (all_partner_clients w) pid) <> PARTNER_OBJ_PAUSE;
  rd_sock : ptn_fd (aget (all_partner_clients w) pid) = fd;
  rd_io : io_state (aget (io_client_obj w) pid) <> IO_OBJ_RELEASED;
  rd_conn : rp_conn (aget (replic_client_obj w) pid) = Some (PClient pid);
  rd_ops : cn_ops (aget (ebdr_conn_client w) pid) = Some client_ops;
  rd_rep : 0 <= rp_state (aget (replic_client_obj w) pid) < RESYNC_COMPLETED;
  rd_grain : hd_grain (aget (replic_hdr_client_obj w) pid) = G;
  rd_chunk : hd_chunk (aget (replic_hdr_client_obj w) pid) = C;
  rd_disk : dsk_fd (aget (ebdr_disk_target_obj w) pid) = fdt;
  rd_bitmap : dsk_bitmap (aget (ebdr_disk_target_obj w) pid) = Some (PClient pid);
  rd_area : ub_area (aget (bitmap_client_obj w) pid) = Some blk;
  rd_size : ub_size (aget (bitmap_client_obj w) pid) = BITMAP_SIZE;
  rd_heap : heap w !! blk = Some m;
  rd_good : pr_good P (ext w);
  rd_bmops : ub_ops (aget (bitmap_client_obj w) pid) = Some client_ops;
}.

Lemma ready_weak {E} `{OS E} (P : peer E) pid fd fdt G C blk m w :
  PeerLaws P pid fd fdt G C -> ready P pid fd fdt G C blk m w -> ready (weak P) pid fd fdt G C blk m w.
Proof. intros L []. constructor; try done. by apply (pl_works (PeerLaws := L)). Qed.

Ltac solve_ready := constructor; wsimpl; first [assumption | done | lia | idtac].

Definition tgt_of {E} (P : peer E) (w : world E) : image := pr_tgt P (ext w).

Definition last_bit {E} (pid : Z) (w : world E) : Z := rp_last_bit (aget (replic_client_obj w) pid).

Section rounds.
Context {E : Type} `{OS E} (ok : Z -> Z -> Prop) (P : peer E) (pid fd fdt G C blk : Z) (m : mem).
Context `{!RoundLaws ok P pid fd fdt G C}.
Context (Hpid : 0 <= pid < 2048) (Hsize : pr_size P < 2 ^ 62).

Lemma abandon_ok w :
  cancel_pending w = false -> ptn_fd (aget (all_partner_clients w) pid) = fd ->
  exists w', abandon_conn pid w = Ret tt w' /\ same_image (tgt_of P w) (tgt_of P w') /\
    last_bit pid w' = last_bit pid w.
Proof.
  intros Hc Hfd. unfold abandon_conn. do 2 mstep. rewrite Hfd. unfold sys_. mstep.
  destruct (os_close fd (os_shutdown fd (ext w))) as [r e1] eqn:Ecl.
  erewrite bind_sys by (wsimpl; exact Ecl). do 1 mstep. rewrite wr_ok by (unfold MAX_CONN; lia).
  eexists. split; [reflexivity|]. unfold tgt_of, last_bit. wsimpl. split; [by eapply rl_drop|done].
Qed.

(** The state after the header of a request has been prepared. *)
Definition asked (bit c : Z) (w : world E) : world E :=
  w <| replic_hdr_client_obj ::= aset pid (fun h => h <| hd_curr := bit |> <| hd_chunk_pos := c |>
       <| hd_partner := pid |> <| hd_opcode := DATA |>) |>
    <| io_client_obj ::= aset pid (fun o => o <| io_ops := Some client_ops |>) |>.

Lemma asked_ready bit c w : ready P pid fd fdt G C blk m w -> ready P pid fd fdt G C blk m (asked bit c w).
Proof. intros []. unfold asked. solve_ready. Qed.

Lemma asked_request bit c w : is_request pid bit c (aget (replic_hdr_client_obj (asked bit c w)) pid).
Proof. unfold asked. wsimpl. done. Qed.

Lemma ready_ext w e :
  ready P pid fd fdt G C blk m w -> pr_good P e -> ready P pid fd fdt G C blk m (w <| ext := e |>).
Proof. intros [] He. solve_ready. Qed.

Lemma client_send_ok h w :
  ready P pid fd fdt G C blk m w ->
  exists r, client_rep_send pid (PHdr h) fd PROTO_TYPE w =
    Ret r (w <| ext := snd (os_send_hdr fd h (ext w)) |>) /\
    (r <? 0) = (fst (os_send_hdr fd h (ext w)) <? 0).
Proof.
  intros Hr. destruct Hr. unfold client_rep_send. rewrite bind_rd by (unfold MAX_REPLICATIONS; lia).
  rewrite rd_conn0. rewrite bind_rd by (unfold MAX_CONN; lia). rewrite rd_ops0.
  unfold ebdr_conn_client_send. cbn [table_find]. change (table_find PROTO_TYPE ccmdMap) with (Some (@send_hdr E _)).
  unfold send_hdr. destruct (os_send_hdr fd h (ext w)) as [r e1] eqn:Es.
  rewrite (bind_sys _ _ _ _ _ Es). cbn [fst snd]. destruct (r <? 0) eqn:Er.
  - rewrite bind_log by (wsimpl; done). exists (-1). done.
  - exists 0. done.
Qed.

(** The part of a round after its request has been prepared. *)
Lemma chunk_round_asked w bit c buff :
  ready P pid fd fdt G C blk m w -> 0 <= bit * G + c * C < 2 ^ 64 ->
  let w1 := asked bit c w in
  chunk_round pid bit c buff w =
    bind (client_rep_send pid (PHdr (aget (replic_hdr_client_obj w1) pid)) fd PROTO_TYPE)
      (fun r => if r <? 0 then abandon_conn pid;;; ret (Some resync_returned, buff) else
        ebdr_log;;;
        '(r, buff) <- chunk_read_client fd buff BUF_SIZE_IN_BYTES (bit * G + c * C);;
        if r <? 0 then abandon_conn pid;;; ret (Some resync_returned, buff) else
        d <- rd MAX_DISKS ebdr_disk_target_obj pid;;
        r <- chunk_write_client (dsk_fd d) buff BUF_SIZE_IN_BYTES (bit * G + c * C);;
        when (r <? 0)
          (wr MAX_DISKS ebdr_disk_target_obj pid (fun d => d <| dsk_state := DISK_OBJ_PAUSE |>);;;
           ebdr_log;;; pthread_cancel_self);;;
        ret (None, buff)) w1.
Proof.
  intros Hr Hlt w1. destruct (asked_ready bit c w Hr). destruct Hr. unfold chunk_round. do 3 mstep.
  lazymatch goal with |- bind _ _ ?s = _ => change s with w1 end.
  rewrite bind_rd by (unfold MAX_PARTNERS; lia). cbv zeta. fold w1 in rd_state0, rd_io0.
  rewrite (proj2 (Z.eqb_neq _ _) rd_state0). rewrite bind_rd by (unfold MAX_IO; lia).
  rewrite (proj2 (Z.eqb_neq _ _) rd_io0). rewrite bind_rd by (unfold MAX_HDR; lia).
  fold w1 in rd_sock0, rd_grain0, rd_chunk0. rewrite rd_sock0, rd_grain0, rd_chunk0, u64_id by lia. done.
Qed.

Lemma chunk_write_ok off bytes w :
  ready P pid fd fdt G C blk m w -> 0 <= 512 * off -> 512 * off + 4096 <= pr_size P -> length bytes = 4096%nat ->
  exists w', chunk_write_client fdt bytes BUF_SIZE_IN_BYTES off w = Ret 0 w' /\
    ready P pid fd fdt G C blk m w' /\ last_bit pid w' = last_bit pid w /\
    forall a, tgt_of P w' a =
      if in_range (512 * off) (512 * off + 4095) a then bytes !!! Z.to_nat (a - 512 * off) else tgt_of P w a.
Proof.
  intros Hr Ho Hs Hl.
  destruct (rl_write (ext w) (512 * off) bytes (rd_good _ _ _ _ _ _ _ _ _ Hr) Ho Hs Hl)
    as (x & e1 & n & e2 & Ex & Hx & En & Hn & Hg & Ht).
  unfold chunk_write_client. replace (i64 (u64 (off * CHUNK_SIZE))) with (512 * off).
  2:{ unfold CHUNK_SIZE, u64, i64. rewrite (Z.mod_small (off * 512)) by lia. rewrite Z.mod_small; lia. }
  rewrite (bind_sys _ _ _ _ _ Ex). replace (x <? 0) with false by bool_solve.
  replace (take (Z.to_nat BUF_SIZE_IN_BYTES) bytes) with bytes.
  2:{ symmetry. apply take_ge. rewrite Hl. unfold BUF_SIZE_IN_BYTES. lia. }
  rewrite (bind_sys _ _ _ n e2) by exact En. replace (n <? 0) with false by bool_solve.
  pose proof (rd_cancel _ _ _ _ _ _ _ _ _ Hr). rewrite bind_log by (wsimpl; done).
  eexists. split; [reflexivity|]. split; [by apply (ready_ext w)|]. split; [done|]. exact Ht.
Qed.

(** What a round does when a request or its answer fails. *)
Lemma round_abandoned w e buff :
  cancel_pending w = false -> ptn_fd (aget (all_partner_clients w) pid) = fd ->
  exists w', bind (abandon_conn pid) (fun _ => ret (Some resync_returned, buff) : MW E (option chunk_result * mem))
      (w <| ext := e |>) = Ret (Some resync_returned, buff) w' /\ same_image (pr_tgt P e) (tgt_of P w') /\ last_bit pid w' = last_bit pid w.
Proof.
  intros Hc Hfd. destruct (abandon_ok (w <| ext := e |>)) as (w' & E1 & Ht & Hl); [done|done|].
  rewrite (bind_Ret _ _ _ _ _ E1). eexists. split; [reflexivity|]. split; [exact Ht|done].
Qed.

Lemma chunk_round_ok w bit c buff :
  ready P pid fd fdt G C blk m w -> chunk_fits (pr_size P) G C bit c -> length buff = 4096%nat ->
  exists o buff' w', chunk_round pid bit c buff w = Ret (o, buff') w' /\
    (o = None -> length buff' = 4096%nat) /\ last_bit pid w' = last_bit pid w /\
    round_outcome (ready P pid fd fdt G C blk m) (tgt_of P) (peer_up P pid fd G C) ok G C bit c w o w'.
Proof.
  intros Hr [Hlo Hhi] Hbuf. unfold chunk_addr in Hlo, Hhi.
  rewrite (chunk_round_asked w bit c buff Hr) by lia. cbv zeta.
  pose proof (asked_ready bit c w Hr) as Hr1. pose proof (asked_request bit c w) as Hreq.
  set (w1 := asked bit c w) in *. set (h := aget (replic_hdr_client_obj w1) pid) in *.
  assert (Hl1 : last_bit pid w1 = last_bit pid w) by done. assert (Ht1 : tgt_of P w1 = tgt_of P w) by done.
  clearbody w1. destruct (client_send_ok h w1 Hr1) as (r & Es & Ersign). rewrite (bind_Ret _ _ _ _ _ Es).
  destruct (os_send_hdr fd h (ext w1)) as [r0 e1] eqn:Esend. cbn [fst snd] in *. rewrite Ersign.
  destruct (os_recv fd BUF_SIZE_IN_BYTES e1) as [[n bytes] e2] eqn:Erecv.
  destruct (rl_request (ext w1) h bit c r0 e1 n bytes e2) as (Hs1 & Hs2 & Hans);
    [apply Hr1|done|unfold chunk_addr; lia|unfold chunk_addr; lia|done|done|].
  pose proof (fun Hup : peer_up P pid fd G C => Hup (ext w1) h bit c r0 e1 n bytes e2 (rd_good _ _ _ _ _ _ _ _ _ Hr1) Hreq
    ltac:(unfold chunk_addr; lia) ltac:(unfold chunk_addr; lia) Esend Erecv)
    as Hup.
  pose proof Hr1 as [Hcan _ _ Hsock _ _ _ _ _ _ Hdisk _ _ _ _ _ _].
  destruct (r0 <? 0) eqn:Er.
  { destruct (round_abandoned w1 e1 buff) as (w' & Ew & Ht & Hl); [done|done|].
    exists (Some resync_returned), buff, w'. split; [exact Ew|]. split; [done|]. split; [congruence|].
    split; [done|]. rewrite <- Ht1. split; [exact (same_image_trans _ _ _ Hs1 Ht)|].
    intros HU. apply Hup in HU. bool_to_prop. lia. }
  rewrite bind_log by (wsimpl; done). unfold chunk_read_client. rewrite bind_assoc, bind_log by (wsimpl; done).
  rewrite bind_assoc. erewrite bind_sys by (wsimpl; rewrite Erecv; reflexivity).
  cbv beta iota. rewrite bind_assoc, bind_get. wsimpl.
  destruct ((n <? 0) || (os_errno e2 =? ETIMEDOUT)) eqn:En.
  { rewrite bind_assoc, bind_log by (wsimpl; done). rewrite bind_ret. cbv beta iota. change (-1 <? 0) with true. cbv iota.
    destruct (round_abandoned w1 e2 (if n <? 0 then buff else fill bytes buff)) as (w' & Ew & Ht & Hl); [done|done|].
    exists (Some resync_returned), (if n <? 0 then buff else fill bytes buff), w'.
    split; [exact Ew|]. split; [done|]. split; [congruence|]. split; [done|].
    rewrite <- Ht1. split; [exact (same_image_trans _ _ _ Hs2 Ht)|].
    intros HU. apply Hup in HU. unfold BUF_SIZE_IN_BYTES in HU. apply orb_true_iff in En as [En|En]; bool_to_prop; lia. }
  bool_to_prop. destruct Hans as (Hg2 & Hlb & Hbytes); [lia|lia|done|].
  rewrite bind_ret. cbv beta iota. change (0 <? 0) with false. cbv iota.
  rewrite bind_rd by (unfold MAX_DISKS; lia). wsimpl. rewrite Hdisk.
  destruct (chunk_write_ok (bit * G + c * C) (fill bytes buff) (w1 <| ext := e2 |>)) as (w' & Ew & Hr' & Hl' & Ht');
    [by apply ready_ext|lia|lia|by apply length_fill|].
  rewrite (bind_Ret _ _ _ _ _ Ew). cbn [when]. change (0 <? 0) with false.
  exists None, (fill bytes buff), w'. split; [done|]. split; [intros _; by apply length_fill|].
  split; [rewrite Hl'; done|]. split; [done|].
  intros a. rewrite Ht'. unfold chunk_region. change (512 * (bit * G + c * C)) with (chunk_addr G C bit c).
  destruct (in_range _ _ a) eqn:Ea.
  - unfold in_range in Ea. bool_to_prop. replace a with (chunk_addr G C bit c + (a - chunk_addr G C bit c)) at 1 by lia.
    apply Hbytes; [done|lia].
  - unfold tgt_of at 1. wsimpl. by rewrite Hs2, <- Ht1.
Qed.

(** ** One grain *)
#[local] Abbreviation chunks_end := (chunks_outcome (ready P pid fd fdt G C blk m) (tgt_of P) (peer_up P pid fd G C) ok G C).

Lemma chunk_loop_ok n w bit c buff :
  ready P pid fd fdt G C blk m w -> length buff = 4096%nat ->
  (forall c', c <= c' < c + Z.of_nat n -> chunk_fits (pr_size P) G C bit c') ->
  exists o buff' w', chunk_loop n pid bit c buff w = Ret (o, buff') w' /\ last_bit pid w' = last_bit pid w /\
    chunks_end bit c (Z.of_nat n) w o buff' w'.
Proof.
  apply (chunks_ok _ (tgt_of P) (last_bit pid) (peer_up P pid fd G C) ok (pr_size P) G C (chunk_round pid)
    (fun n => chunk_loop n pid)); [done|done|exact chunk_round_ok].
Qed.

(** ** The record in the database *)
Lemma resync_statement_fits last state :
  0 <= last < 10 ^ 6 -> 0 <= state < 10 -> slen (sql_update_resync pid last state) < 100.
Proof.
  intros Hl Hs. unfold sql_update_resync. slen_literals.
  pose proof (slen_dec last 6). pose proof (slen_dec pid 4). pose proof (slen_dec state 1). lia.
Qed.

Lemma query_ok n db sql w :
  ready P pid fd fdt G C blk m w -> slen (use_db db) < n -> slen sql < n ->
  exists e, locked_query n db sql w = Ret tt (w <| ext := e |>) /\ pr_good P e /\ same_image (tgt_of P w) (pr_tgt P e).
Proof.
  intros Hr Hu Hs. pose proof Hr as [Hcan Hlock _ _ _ _ _ Hrep _ _ _ _ _ _ _ Hg _].
  destruct (rl_query (ext w) (use_db db) (rl_works _ Hg)) as (e1 & E1 & Hd1 & Hg1 & Ht1).
  destruct (rl_query e1 sql Hd1) as (e2 & E2 & _ & Hg2 & Ht2).
  exists e2. split; [by eapply locked_query_ok|]. split; [auto|]. exact (same_image_trans _ _ _ Ht1 Ht2).
Qed.

Lemma recorded_ok w name bit :
  ready P pid fd fdt G C blk m w -> 0 <= bit < 10 ^ 6 ->
  exists w', update_into_resync pid name bit (rp_state (aget (replic_client_obj w) pid)) "ebdrdbc" w = Ret tt w' /\
    ready P pid fd fdt G C blk m w' /\ same_image (tgt_of P w) (tgt_of P w') /\ last_bit pid w' = last_bit pid w.
Proof.
  intros Hr Hbit. pose proof (rd_rep _ _ _ _ _ _ _ _ _ Hr) as Hrep.
  destruct (query_ok 100 "ebdrdbc" (sql_update_resync pid bit (rp_state (aget (replic_client_obj w) pid))) w Hr)
    as (e & Ee & Hg & Ht); [done|apply resync_statement_fits; unfold RESYNC_COMPLETED in *; lia|].
  eexists. split; [exact Ee|]. split; [by apply ready_ext|]. by split.
Qed.

(** ** The whole loop *)
Context (Hwf : wf_mem m) (Hlen : Z.of_nat (length m) = BITMAP_SIZE) (mode : rep_mode_t).

(** The grains the loop transfers. *)
Definition selected (b : Z) : bool :=
  mem_bit m b || match mode with FULL_RESYNC => true | NO_RESYNC => false end.

Context (HGC : 0 <= G / C < 2 ^ 31).
Context (Hfit : forall b c, 0 <= b < MAX_BITS_LEN -> selected b = true -> 0 <= c < G / C ->
  0 <= chunk_addr G C b c /\ chunk_addr G C b c + 4096 <= pr_size P).

Lemma target_bits_ok w : ready P pid fd fdt G C blk m w -> target_bits pid w = Ret MAX_BITS_LEN w.
Proof using Hpid.
  clear - Hpid. intros []. unfold target_bits. rewrite bind_rd by (unfold MAX_DISKS; lia). rewrite rd_bitmap0.
  rewrite bind_rd by (unfold MAX_BITMAP; lia). by rewrite rd_size0.
Qed.

Lemma target_bit_ok w b : ready P pid fd fdt G C blk m w -> 0 <= b < MAX_BITS_LEN ->
  target_bit pid b w = Ret (mem_bit m b) w.
Proof using Hpid Hwf Hlen.
  clear - Hpid Hwf Hlen. intros [] Hb. unfold target_bit. rewrite bind_rd by (unfold MAX_DISKS; lia). rewrite rd_bitmap0.
  rewrite bind_rd by (unfold MAX_BITMAP; lia). rewrite (bind_block _ blk m) by done.
  rewrite (proj2 (Z.ltb_lt _ _)) by lia. rewrite is_bit_set_ok by done. rewrite bind_of_option.
  by destruct (mem_bit m b).
Qed.

(** The transfer of one grain, bit and record included. *)
Definition grain_step (bit : Z) (buff : mem) : MW E (chunk_result * mem) :=
  '(c, buff) <- chunk_loop (Z.to_nat (u64 (G / C))) pid bit 0 buff;;
  match c with
  | resync_returned => ret (c, buff)
  | _ =>
      r <- rd MAX_REPLICATIONS replic_client_obj pid;;
      d <- rd MAX_DISKS ebdr_disk_target_obj pid;;
      update_into_resync pid (dsk_name d) bit (rp_state r) "ebdrdbc";;;
      ret (c, buff)
  end.

Lemma grain_step_ok w bit buff :
  ready P pid fd fdt G C blk m w -> length buff = 4096%nat -> 0 <= bit < MAX_BITS_LEN -> selected bit = true ->
  exists o buff' w', grain_step bit buff w = Ret (o, buff') w' /\ last_bit pid w' = last_bit pid w /\
    chunks_end bit 0 (G / C) w o buff' w'.
Proof.
  intros Hr Hb Hbit Hsel. unfold grain_step.
  destruct (chunk_loop_ok (Z.to_nat (u64 (G / C))) w bit 0 buff Hr Hb) as (o & buff1 & w1 & E1 & Hl1 & Ho).
  { rewrite u64_id by lia. intros c' Hc'. apply Hfit; [done|done|lia]. }
  rewrite u64_id in * by lia. rewrite Z2Nat.id in Ho by lia. rewrite (bind_Ret _ _ _ _ _ E1). cbv beta iota.
  destruct Ho as [(-> & Hb1 & Hr1 & Hc1)|(-> & Hup & Hp)]; [|exists resync_returned, buff1, w1; split; [done|split; [done|by right]]].
  rewrite bind_rd by (unfold MAX_REPLICATIONS; lia). rewrite bind_rd by (unfold MAX_DISKS; lia).
  destruct (recorded_ok w1 (dsk_name (aget (ebdr_disk_target_obj w1) pid)) bit Hr1) as (w2 & E2 & Hr2 & Ht2 & Hl2);
    [unfold MAX_BITS_LEN in *; lia|].
  rewrite (bind_Ret _ _ _ _ _ E2). exists chunks_done, buff1, w2. split; [done|]. split; [congruence|].
  left. split; [done|]. split; [done|]. split; [done|]. by eapply filled_between; [| |exact Hc1].
Qed.

Definition passed (bit : Z) (w : world E) : world E :=
  w <| replic_client_obj ::= aset pid (fun r => r <| rp_last_bit := bit |>) |>.

Lemma passed_ready bit w : ready P pid fd fdt G C blk m w -> ready P pid fd fdt G C blk m (passed bit w).
Proof. intros []. unfold passed. solve_ready. Qed.

Lemma last_bit_passed bit w : last_bit pid (passed bit w) = bit.
Proof. unfold last_bit, passed. by wsimpl. Qed.

Lemma grain_loop_step fuel bit buff w :
  ready P pid fd fdt G C blk m w -> 0 <= bit <= MAX_BITS_LEN -> grain_loop (S fuel) pid bit (G / C) mode buff w =
  if bit <? MAX_BITS_LEN then
    bind (if selected bit then grain_step bit buff else ret (chunks_done, buff)) (fun '(c, buff) =>
      match c with resync_returned => ret false | _ => fun w => grain_loop fuel pid (bit + 1) (G / C) mode buff (passed bit w) end) w
  else Ret true w.
Proof using Hpid Hwf Hlen.
  clear -Hpid Hwf Hlen. intros Hr Hbit. cbn [grain_loop].
  rewrite (bind_Ret _ _ _ _ _ (target_bits_ok w Hr)). rewrite bind_rd by (unfold MAX_PARTNERS; lia).
  rewrite (proj2 (Z.eqb_neq _ _) (rd_state _ _ _ _ _ _ _ _ _ Hr)).
  destruct (Z.ltb_spec bit MAX_BITS_LEN); cbn [andb negb]; [|done].
  rewrite (bind_Ret _ _ _ _ _ (target_bit_ok w bit Hr ltac:(lia))). fold (selected bit).
  apply bind_ext. intros [[] buff1] w1; [| |done]; by rewrite bind_wr by (unfold MAX_REPLICATIONS; lia).
Qed.

#[local] Abbreviation loop_end :=
  (loop_outcome (ready P pid fd fdt G C blk m) (tgt_of P) (last_bit pid) (peer_up P pid fd G C) ok G C selected).

Lemma grain_loop_ok fuel w bit buff :
  ready P pid fd fdt G C blk m w -> length buff = 4096%nat -> 0 <= bit <= MAX_BITS_LEN ->
  MAX_BITS_LEN - bit < Z.of_nat fuel ->
  exists finished w', grain_loop fuel pid bit (G / C) mode buff w = Ret finished w' /\ loop_end bit w w' finished.
Proof.
  apply (grains_ok _ (tgt_of P) (last_bit pid) (peer_up P pid fd G C) ok G C selected grain_step passed
    (fun fuel bit buff => grain_loop fuel pid bit (G / C) mode buff));
    [exact grain_loop_step|exact passed_ready|done|exact last_bit_passed|exact grain_step_ok].
Qed.

(** ** Before and after the loop *)
Lemma length_buffer : length (replicate (Z.to_nat BUF_SIZE_IN_BYTES) 0) = 4096%nat.
Proof. by rewrite length_replicate. Qed.

Lemma insert_resync_fits name :
  slen name <= 38 ->
  slen (sql_insert_resync pid name 0 RESYNC_IN_PROGRESS "RESYNC_IN_PROGRESS") < 100.
Proof.
  intros Hn. unfold sql_insert_resync. slen_literals. change (slen (dec 0)) with 1.
  change (slen (dec RESYNC_IN_PROGRESS)) with 1. pose proof (slen_dec pid 4). lia.
Qed.

Lemma prologue_ok w bit :
  ready P pid fd fdt G C blk m w -> C <> 0 -> slen (dsk_name (aget (ebdr_disk_target_obj w) pid)) <= 38 ->
  exists w', resync_prologue pid bit w = Ret (G / C) w' /\ ready P pid fd fdt G C blk m w' /\
    same_image (tgt_of P w) (tgt_of P w') /\ last_bit pid w' = last_bit pid w.
Proof.
  intros Hr HC Hname. pose proof Hr as [Hcan _ _ _ _ _ _ _ Hgr Hch _ _ _ _ _ _ _].
  unfold resync_prologue. rewrite bind_rd by (unfold MAX_HDR; lia). rewrite Hgr, Hch.
  rewrite bind_assert by bool_solve. rewrite i32_id by lia.
  rewrite bind_wr by (unfold MAX_HDR; lia). rewrite bind_log by (wsimpl; done).
  set (w1 := w <| replic_hdr_client_obj ::= _ |>).
  assert (Hr1 : ready P pid fd fdt G C blk m w1) by (destruct Hr; unfold w1; solve_ready).
  rewrite bind_rd by (unfold MAX_PID; lia).
  destruct (_ =? 1); [|destruct (bit =? 0) eqn:Eb; cbn [when]].
  - rewrite bind_wr by (unfold MAX_PID; lia). eexists. split; [reflexivity|].
    split; [destruct Hr1; solve_ready|]. by split.
  - bool_to_prop. subst bit. rewrite bind_assoc, bind_rd by (unfold MAX_DISKS; lia).
    destruct (query_ok 100 "ebdrdbc" (sql_insert_resync pid (dsk_name (aget (ebdr_disk_target_obj w1) pid)) 0
      RESYNC_IN_PROGRESS "RESYNC_IN_PROGRESS") w1) as (e & E1 & Hg & Ht); [done|done|by apply insert_resync_fits|].
    unfold insert_into_resync. rewrite bind_assoc, (bind_Ret _ _ _ _ _ E1).
    rewrite bind_wr by (unfold MAX_REPLICATIONS; lia). eexists. split; [reflexivity|].
    destruct Hr1. split; [solve_ready; unfold RESYNC_COMPLETED, RESYNC_IN_PROGRESS; lia|]. split; [exact Ht|].
    unfold last_bit. by wsimpl.
  - exists w1. by split.
Qed.

(** Everything of the partner released, the bitmap freed, the lock free. *)
Record terminated (w : world E) : Prop := {
  tm_partner : ptn_state (aget (all_partner_clients w) pid) = PARTNER_OBJ_RELEASED;
  tm_relation : rel_state (aget (all_relation_clients w) pid) = RELATION_OBJ_RELEASED;
  tm_disk : dsk_state (aget (ebdr_disk_target_obj w) pid) = DISK_OBJ_RELEASED;
  tm_io : io_state (aget (io_client_obj w) pid) = IO_OBJ_RELEASED;
  tm_rep : rp_state (aget (replic_client_obj w) pid) = RESYNC_COMPLETED;
  tm_last : last_bit pid w = 0;
  tm_heap : heap w !! blk = None;
  tm_lock : db_lock w = false;
}.

Lemma send_end_ok h w :
  ready P pid fd fdt G C blk m w -> hd_opcode h = RPLC_TERMINATION ->
  exists r e, client_rep_send pid (PHdr h) fd PROTO_TYPE (w <| ext ::= os_blkflsbuf fdt |>) = Ret r (w <| ext := e |>) /\
    pr_works P e /\ same_image (tgt_of P w) (pr_tgt P e).
Proof.
  intros Hr Hh. pose proof Hr as [Hcan _ _ _ _ Hcn Hop _ _ _ _ _ _ _ _ Hg _]. unfold client_rep_send.
  rewrite bind_rd by (unfold MAX_REPLICATIONS; lia). wsimpl. rewrite Hcn.
  rewrite bind_rd by (unfold MAX_CONN; lia). wsimpl. rewrite Hop.
  unfold ebdr_conn_client_send. change (table_find PROTO_TYPE ccmdMap) with (Some (@send_hdr E _)).
  unfold send_hdr. destruct (os_send_hdr fd h (os_blkflsbuf fdt (ext w))) as [r e1] eqn:Es.
  destruct (rl_end (ext w) h r e1 Hg Hh Es) as [Hg1 Ht1].
  erewrite bind_sys by (wsimpl; exact Es). destruct (r <? 0).
  - rewrite bind_log by (wsimpl; done). by exists (-1), e1.
  - by exists 0, e1.
Qed.

Lemma final_statements_fit :
  slen (sql_update_partner pid PARTNER_OBJ_RELEASED) < 100 /\
  slen (sql_update_resync_state pid RESYNC_COMPLETED "RESYNC_COMPLETED") < 100.
Proof.
  pose proof (slen_dec pid 4).
  unfold sql_update_partner, sql_update_resync_state. split; slen_literals;
    [change (slen (dec PARTNER_OBJ_RELEASED)) with 1|change (slen (dec RESYNC_COMPLETED)) with 1]; lia.
Qed.

(** The two statements at the end, on a state where everything else is done. *)
Lemma final_records w e :
  cancel_pending w = false -> db_lock w = false -> pr_works P e -> ext w = e ->
  exists e', bind (update_into_partner pid PARTNER_OBJ_RELEASED "ebdrdbc")
    (fun _ => update_resync_state pid RESYNC_COMPLETED "RESYNC_COMPLETED" "ebdrdbc") w = Ret tt (w <| ext := e' |>) /\
    same_image (pr_tgt P e) (pr_tgt P e').
Proof.
  intros Hcan Hlock Hg <-. destruct final_statements_fit as [Hf1 Hf2].
  destruct (rl_query (ext w) (use_db "ebdrdbc") Hg) as (e1 & E1 & Hg1 & _ & Ht1).
  destruct (rl_query e1 (sql_update_partner pid PARTNER_OBJ_RELEASED) Hg1) as (e2 & E2 & Hg2 & _ & Ht2).
  destruct (rl_query e2 (use_db "ebdrdbc") Hg2) as (e3 & E3 & Hg3 & _ & Ht3).
  destruct (rl_query e3 (sql_update_resync_state pid RESYNC_COMPLETED "RESYNC_COMPLETED") Hg3) as (e4 & E4 & Hg4 & _ & Ht4).
  exists e4. unfold update_into_partner. erewrite bind_locked_query; [|done|done|done|done|exact E1|exact E2].
  unfold update_resync_state. erewrite locked_query_ok; [|done|done|done|done|exact E3|exact E4].
  split; [done|]. intros a. by rewrite Ht4, Ht3, Ht2, Ht1.
Qed.

(** The part of [replication_terminate] after the last message. *)
Definition release_tail : MW E unit :=
  wr MAX_PARTNERS all_partner_clients pid (fun p => p <| ptn_state := PARTNER_OBJ_RELEASED |>);;;
  wr MAX_RELATIONS all_relation_clients pid (fun r => r <| rel_state := RELATION_OBJ_RELEASED |>);;;
  wr MAX_DISKS ebdr_disk_target_obj pid (fun d => d <| dsk_state := DISK_OBJ_RELEASED |>);;;
  wr MAX_IO io_client_obj pid (fun o => o <| io_state := IO_OBJ_RELEASED |>);;;
  wr MAX_REPLICATIONS replic_client_obj pid (fun r => r <| rp_state := RESYNC_COMPLETED |>);;;
  b <- rd MAX_BITMAP bitmap_client_obj pid;;
  (match ub_ops b with Some client_ops => bitmap_client_destroy pid | _ => undefined end);;;
  update_into_partner pid PARTNER_OBJ_RELEASED "ebdrdbc";;;
  update_resync_state pid RESYNC_COMPLETED "RESYNC_COMPLETED" "ebdrdbc".

Lemma free_ok b blk0 w : heap w !! blk0 = Some b -> @free E (Some blk0) w = Ret tt (w <| heap ::= delete blk0 |>).
Proof. intros Hb. unfold free. by rewrite Hb. Qed.

Lemma release_ok w e :
  ready P pid fd fdt G C blk m w -> last_bit pid w = 0 -> pr_works P e ->
  exists w', release_tail (w <| ext := e |>) = Ret tt w' /\ terminated w' /\ same_image (pr_tgt P e) (tgt_of P w').
Proof.
  intros Hr Hl Hg. pose proof Hr as [Hcan Hlock _ _ _ _ _ _ _ _ _ _ Har _ Hhp _ Hbo]. unfold release_tail.
  do 5 rewrite bind_wr by (unfold MAX_PARTNERS, MAX_RELATIONS, MAX_DISKS, MAX_IO, MAX_REPLICATIONS; lia).
  rewrite bind_rd by (unfold MAX_BITMAP; lia). wsimpl. rewrite Hbo.
  unfold bitmap_client_destroy. rewrite bind_assoc, bind_log by (wsimpl; done).
  rewrite bind_assoc, bind_rd by (unfold MAX_BITMAP; lia). wsimpl. rewrite Har.
  erewrite bind_Ret; [|eapply (free_ok m); by wsimpl].
  lazymatch goal with |- exists w', bind _ _ ?s = _ /\ _ => set (w2 := s) end.
  destruct (final_records w2 e) as (e1 & Ee & Ht); [done|done|done|done|]. rewrite Ee.
  eexists. split; [reflexivity|]. split; [|exact Ht].
  unfold w2. unfold last_bit in Hl. constructor; unfold last_bit; wsimpl;
    [done|done|done|done|done|exact Hl|apply lookup_delete_eq|exact Hlock].
Qed.

Lemma epilogue_ok w :
  ready P pid fd fdt G C blk m w ->
  exists w', resync_epilogue pid w = Ret tt w' /\ terminated w' /\ same_image (tgt_of P w) (tgt_of P w').
Proof.
  intros Hr. pose proof Hr as [Hcan _ Hst Hsock _ _ _ Hrep _ _ _ _ _ _ _ _ _].
  unfold resync_epilogue. rewrite bind_rd by (unfold MAX_PARTNERS; lia).
  rewrite (proj2 (Z.eqb_neq _ _) Hst). cbn [when]. rewrite bind_ret. unfold replication_terminate.
  rewrite bind_rd by (unfold MAX_REPLICATIONS; lia).
  replace (_ =? RESYNC_COMPLETED) with false by bool_solve. cbn [negb when].
  unfold printf at 1. rewrite bind_ret. rewrite bind_wr by (unfold MAX_HDR; lia).
  rewrite bind_rd by (unfold MAX_PARTNERS; lia). wsimpl.
  rewrite (proj2 (Z.eqb_neq _ _) Hst). cbn [negb when]. rewrite bind_wr by (unfold MAX_REPLICATIONS; lia).
  set (w1 := _ <| replic_client_obj ::= _ |>).
  assert (Hr1 : ready P pid fd fdt G C blk m w1) by (destruct Hr; unfold w1; solve_ready).
  assert (Hh1 : hd_opcode (aget (replic_hdr_client_obj w1) pid) = RPLC_TERMINATION) by (unfold w1; by wsimpl).
  assert (Ht1 : tgt_of P w1 = tgt_of P w) by done. assert (Hl1 : last_bit pid w1 = 0) by (unfold last_bit, w1; by wsimpl).
  assert (Hw1 : cancel_pending w1 = false) by done. rewrite Hsock.
  clearbody w1. rewrite bind_rd by (unfold MAX_DISKS; lia).
  rewrite (rd_disk _ _ _ _ _ _ _ _ _ Hr1). unfold sys_. rewrite bind_modify.
  rewrite bind_log by (wsimpl; apply Hw1). rewrite bind_rd by (unfold MAX_HDR; lia). wsimpl.
  destruct (send_end_ok _ w1 Hr1 Hh1) as (r & e & Es & Hg & Ht). rewrite (bind_Ret _ _ _ _ _ Es).
  rewrite bind_log by (wsimpl; apply Hw1).
  destruct (release_ok w1 e) as (w' & E' & Htm & Hs); [done|done|done|].
  exists w'. split; [exact E'|]. split; [done|]. rewrite <- Ht1. exact (same_image_trans _ _ _ Ht Hs).
Qed.

(** ** A run of the resync thread *)
Definition run_outcome (bit : Z) (w w' : world E) : Prop :=
  (terminated w' /\
   filled ok (grains_region G C selected bit (MAX_BITS_LEN - bit)) (tgt_of P w) (tgt_of P w')) \/
  (~ peer_up P pid fd G C /\
   exists b, interrupted (tgt_of P) (last_bit pid) ok G C selected bit w w' b).

Lemma restart_resync_ok w bit :
  ready P pid fd fdt G C blk m w -> C <> 0 -> slen (dsk_name (aget (ebdr_disk_target_obj w) pid)) <= 38 ->
  0 <= bit <= MAX_BITS_LEN ->
  exists w', restart_resync pid bit mode w = Ret tt w' /\ run_outcome bit w w'.
Proof.
  intros Hr HC Hname Hbit. destruct (prologue_ok w bit Hr HC Hname) as (w1 & E1 & Hr1 & Ht1 & Hl1).
  unfold restart_resync. rewrite (bind_Ret _ _ _ _ _ E1).
  destruct (grain_loop_ok (Z.to_nat (MAX_BITS_LEN + 1)) w1 bit (replicate (Z.to_nat BUF_SIZE_IN_BYTES) 0))
    as (fin & w2 & E2 & Ho); [done|apply length_buffer|done|rewrite Z2Nat.id; unfold MAX_BITS_LEN in *; lia|].
  rewrite (bind_Ret _ _ _ _ _ E2). destruct fin; cbn [when].
  - destruct Ho as [Hr2 Hc]. destruct (epilogue_ok w2 Hr2) as (w3 & E3 & Htm & Ht3).
    exists w3. split; [exact E3|]. left. split; [done|]. by eapply filled_between; [| |exact Hc].
  - destruct Ho as (Hup & b & Hb & Hsel & Hl & t1 & Hc1 & Hp). exists w2. split; [done|]. right.
    split; [done|]. exists b. split; [done|]. split; [done|]. split; [by rewrite Hl, Hl1|].
    exists t1. split; [|done]. by eapply filled_between; [| |exact Hc1].
Qed.

End rounds.
