(* ===== verification/Sim.v ===== *)
(** * Concrete environments

    Two executable instances of [OS].  A [host] is one machine: the kernel
    module's state, one disk image with a file position, the headers and bytes
    waiting on its sockets, the statements the database was given.  A [link]
    is the client's machine connected to a server process: sending a header
    runs one round of the server's receive loop, receiving takes the bytes the
    server sent. *)
From S2P Require Import Prelude Memory KernelState KBitmap KernelMain CMonad CString World ReplicServer ConnServer.

(** ** One machine *)
Record host := mk_host {
  ho_errno : Z;
  ho_kernel : kstate;
  ho_disk : mem;
  ho_pos : Z;
  ho_in : list replic_header;
  ho_out : list replic_header;
  ho_data : list mem;
  ho_sql : list string;
  ho_rows : list (list string);
  ho_files : gmap string mem;
  ho_send : Z;
  ho_full : bool;
}.
#[export] Instance eta_host : Settable host := fun r =>
  mk_host (ho_errno r) (ho_kernel r) (ho_disk r) (ho_pos r) (ho_in r) (ho_out r) (ho_data r) (ho_sql r)
    (ho_rows r) (ho_files r) (ho_send r) (ho_full r).

Definition host0 : host := mk_host 0 kinit [] 0 [] [] [] [] [] ∅ 0 false.

Definition write_at (off : Z) (bytes m : mem) : mem :=
  take (Z.to_nat off) m ++ bytes ++ drop (Z.to_nat off + length bytes) m.

Section host_instance.
Context `{KBitops} (env : kenv).

Definition host_ioctl (fd : Z) (cmd : ebdr_ioctl_cmds) (obj : IOCTL) (e : host) : Z * IOCTL * host :=
  match ebdr_ctl_ioctl env cmd obj (ho_kernel e) with
  | Some (r, obj', k') => (r, obj', e <| ho_kernel := k' |>)
  | None => (-1, obj, e)
  end.

Definition host_os : OS host := {|
  os_errno := ho_errno;
  os_malloc := fun _ _ => true;
  os_socket := fun e => (3, e);
  os_connect := fun _ _ _ e => (0, e);
  os_bind := fun _ _ e => (0, e);
  os_listen := fun _ _ e => (0, e);
  os_accept := fun _ e => (4, e);
  os_shutdown := fun _ e => e;
  os_send_hdr := fun _ h e => (ho_send e, e <| ho_out ::= fun l => l ++ [h] |>);
  os_send := fun _ m e => (if ho_send e <? 0 then -1 else Z.of_nat (length m), e <| ho_data ::= fun l => l ++ [m] |>);
  os_recv_hdr := fun _ e => match ho_in e with
                            | h :: l => (1, Some h, e <| ho_in := l |>)
                            | [] => (0, None, e)
                            end;
  os_recv := fun _ n e => match ho_data e with
                          | m :: l => (Z.of_nat (length m), m, e <| ho_data := l |>)
                          | [] => (0, [], e)
                          end;
  os_open := fun _ _ e => (5, e);
  os_close := fun _ e => (0, e);
  os_lseek := fun _ off e => (off, e <| ho_pos := off |>);
  os_read := fun _ n e => let bytes := take (Z.to_nat n) (drop (Z.to_nat (ho_pos e)) (ho_disk e)) in
                          (Z.of_nat (length bytes), bytes, e);
  os_write := fun _ bytes e => if ho_full e then (-1, e)
                              else (Z.of_nat (length bytes), e <| ho_disk ::= write_at (ho_pos e) bytes |>);
  os_blkflsbuf := fun _ e => e;
  os_load_file := fun name e => ho_files e !! name;
  os_store_file := fun name m e => Some (e <| ho_files ::= fun f => <[name := m]> f |>);
  os_ioctl := host_ioctl;
  os_mmap := fun _ _ e => (Some 1, e);
  os_map_read := fun a e => default [] (vmalloc_area (ho_kernel e) !! a);
  os_map_write := fun a m e =>
    e <| ho_kernel ::= fun k => k <| vmalloc_area ::= fun v => <[a := m]> v |> |>;
  os_mysql_connect := fun _ _ _ e => (0, e);
  os_query := fun sql e => (0, e <| ho_sql ::= fun l => l ++ [sql] |>);
  os_rows := ho_rows;
  os_inet_pton := fun _ => true;
  os_pthread_create := fun e => (0, e);
  os_md5sum := fun _ _ e => (0, e);
  os_md5_text := fun _ _ => EmptyString;
|}.

(** ** The client's machine, connected to a server *)
Record link := mk_link {
  ln_server : world host;   (** the server process *)
  ln_fd : Z;                (** its socket *)
  ln_target : mem;          (** the target disk *)
  ln_pos : Z;
  ln_up : bool;             (** the connection *)
  ln_sql : list string;
}.
#[export] Instance eta_link : Settable link := fun r =>
  mk_link (ln_server r) (ln_fd r) (ln_target r) (ln_pos r) (ln_up r) (ln_sql r).

(** The server receives [h] and handles it. *)
Definition deliver (h : replic_header) (e : link) : Z * link :=
  let s := (ln_server e) <| ext ::= fun x => x <| ho_in := [h] |> <| ho_data := [] |> |> in
  match @server_recv_step host host_os (ln_fd e) zeroed s with
  | Ret (Some _) s' => (1, e <| ln_server := s' |>)
  | Ret None s' | Stop _ s' => (1, e <| ln_server := s' |> <| ln_up := false |>)
  end.

Definition link_os : OS link := {|
  os_errno := fun _ => 0;
  os_malloc := fun _ _ => true;
  os_socket := fun e => (3, e);
  os_connect := fun _ _ _ e => (0, e);
  os_bind := fun _ _ e => (0, e);
  os_listen := fun _ _ e => (0, e);
  os_accept := fun _ e => (-1, e);
  os_shutdown := fun _ e => e;
  os_send_hdr := fun _ h e => if ln_up e then deliver h e else (-1, e);
  os_send := fun _ _ e => (-1, e);
  os_recv_hdr := fun _ e => match ho_out (ext (ln_server e)) with
                            | h :: l => (1, Some h, e <| ln_server ::= fun s => s <| ext ::= fun x => x <| ho_out := l |> |> |>)
                            | [] => (-1, None, e)
                            end;
  os_recv := fun _ n e =>
    match ho_data (ext (ln_server e)) with
    | m :: _ => let got := take (Z.to_nat n) m in if ln_up e then (Z.of_nat (length got), got, e) else (-1, [], e)
    | [] => (-1, [], e)
    end;
  os_open := fun _ _ e => (5, e);
  os_close := fun _ e => (0, e);
  os_lseek := fun _ off e => (off, e <| ln_pos := off |>);
  os_read := fun _ n e => let bytes := take (Z.to_nat n) (drop (Z.to_nat (ln_pos e)) (ln_target e)) in
                          (Z.of_nat (length bytes), bytes, e);
  os_write := fun _ bytes e => (Z.of_nat (length bytes), e <| ln_target ::= write_at (ln_pos e) bytes |>);
  os_blkflsbuf := fun _ e => e;
  os_load_file := fun _ _ => None;
  os_store_file := fun _ _ _ => None;
  os_ioctl := fun _ _ obj e => (-1, obj, e);
  os_mmap := fun _ _ e => (None, e);
  os_map_read := fun _ _ => [];
  os_map_write := fun _ _ e => e;
  os_mysql_connect := fun _ _ _ e => (0, e);
  os_query := fun sql e => (0, e <| ln_sql ::= fun l => l ++ [sql] |>);
  os_rows := fun _ => [];
  os_inet_pton := fun _ => true;
  os_pthread_create := fun e => (0, e);
  os_md5sum := fun _ _ e => (-1, e);
  os_md5_text := fun _ _ => EmptyString;
|}.
End host_instance.
