(* ===== verification/LinkSpec.v ===== *)
(** * The linked server is a peer

    The server process of a [link], when it serves the partner, satisfies the
    laws the resync loop of the client is proved against: a request delivered
    to it runs its receive loop and [get_data], and what comes back are the
    bytes of its disk.  [flaky]: a link whose connection breaks or is closed
    by the server after a number of requests, for the witnesses. *)
From S2P Require Import Prelude Memory KernelState KBitmap KBitmapSpec KernelMain CMonad CString World UBitmap Db Header.
From S2P Require Import ReplicServer ConnServer Resync WorldTac UBitmapSpec TransferLoop ResyncSpec ServerSpec Sim.

(** The image of a disk of [length m] bytes. *)
Definition bytes_image (m : mem) : image := fun a => if 0 <=? a then m !!! Z.to_nat a else 0.

Lemma bytes_image_take_drop m off i :
  0 <= off -> 0 <= i < 4096 -> off + 4096 <= Z.of_nat (length m) ->
  take (Z.to_nat 4096) (drop (Z.to_nat off) m) !!! Z.to_nat i = bytes_image m (off + i).
Proof.
  intros Ho Hi Hl. unfold bytes_image. replace (0 <=? off + i) with true by bool_solve.
  rewrite lookup_total_take_lt by lia. rewrite lookup_total_drop. f_equal. lia.
Qed.

Lemma length_write_at off bytes m :
  0 <= off -> off + Z.of_nat (length bytes) <= Z.of_nat (length m) -> length (write_at off bytes m) = length m.
Proof. intros. unfold write_at. rewrite !length_app, length_take, length_drop. lia. Qed.

Lemma write_at_image off bytes m a :
  0 <= off -> length bytes = 4096%nat -> off + 4096 <= Z.of_nat (length m) ->
  bytes_image (write_at off bytes m) a =
    if in_range off (off + 4095) a then bytes !!! Z.to_nat (a - off) else bytes_image m a.
Proof.
  intros Ho Hb Hl. unfold bytes_image, in_range, write_at. destruct (Z.leb_spec 0 a).
  2:{ replace (_ && _) with false by bool_solve. done. }
  destruct (Z.leb_spec off a); cbn [andb].
  - rewrite lookup_total_app_r by (rewrite length_take; lia). rewrite length_take.
    destruct (Z.leb_spec a (off + 4095)).
    + rewrite lookup_total_app_l by lia. f_equal. lia.
    + rewrite lookup_total_app_r by lia. rewrite lookup_total_drop. f_equal. lia.
  - rewrite lookup_total_app_l by (rewrite length_take; lia). rewrite lookup_total_take_lt by lia. done.
Qed.

Section link_laws.
Context `{KBitops} (env : kenv) (src : mem) (pid dfd pfd fd fdt G C : Z).

(** The server serves the partner from the disk [src], and both disks have the
    same size. *)
Record link_good (e : link) : Prop := {
  lg_up : ln_up e = true;
  lg_serving : serving pid dfd pfd G C (ln_server e);
  lg_send : 0 <= ho_send (ext (ln_server e));
  lg_disk : ho_disk (ext (ln_server e)) = src;
  lg_target : length (ln_target e) = length src;
}.

Definition link_peer : peer link := {|
  pr_src := bytes_image src;
  pr_size := Z.of_nat (length src);
  pr_tgt := fun e => bytes_image (ln_target e);
  pr_works := fun e => length (ln_target e) = length src;
  pr_good := link_good;
|}.

(** What the server has after the request: the chunk, ready to be received. *)
Definition answered (h : replic_header) (bytes : mem) (e : link) : link :=
  e <| ln_server ::= fun s => served (s <| ext ::= fun x => x <| ho_in := [h] |> <| ho_data := [] |> |>) pid
         ((ext s) <| ho_in := [] |> <| ho_data := [bytes] |> <| ho_pos := request_offset G C h |>) |>.

Lemma deliver_request e h bit c :
  link_good e -> is_request pid bit c h -> 0 <= chunk_addr G C bit c -> chunk_addr G C bit c + 4096 <= Z.of_nat (length src) ->
  Z.of_nat (length src) < 2 ^ 62 ->
  deliver env h e = (1, answered h (take (Z.to_nat 4096) (drop (Z.to_nat (chunk_addr G C bit c)) src)) e).
Proof.
  intros [Hup Hsv Hsend Hdisk _] (Hop & Hpid & Hcur & Hpos) Hlo Hhi Hsz.
  assert (Hoff : request_offset G C h = chunk_addr G C bit c).
  { unfold request_offset, chunk_addr. by rewrite Hcur, Hpos. }
  set (s := (ln_server e) <| ext ::= fun x => x <| ho_in := [h] |> <| ho_data := [] |> |>).
  set (bytes := take _ _). assert (Hlen : length bytes = 4096%nat).
  { unfold bytes. rewrite length_take, length_drop. lia. }
  unfold deliver. fold s. unfold server_recv_step.
  erewrite (@bind_sys host); [|cbn; reflexivity]. cbv beta iota. change (1 <? 0) with false. cbv iota.
  set (s1 := s <| ext := _ |>). change (default zeroed (Some h)) with h.
  assert (Hsv1 : serving pid dfd pfd G C s1) by (destruct Hsv; constructor; done).
  rewrite (bind_Ret _ _ s1 h (served s1 pid
    ((ext s1) <| ho_data := [bytes] |> <| ho_pos := chunk_addr G C bit c |>))).
  - unfold answered. rewrite Hoff. done.
  - rewrite (@dispatch_handled host). rewrite Hop.
    change (handler_of DATA) with (Some (@get_data host (host_os env))). cbv iota.
    eapply (@get_data_ok host (host_os env)); [exact Hsv1|done|rewrite Hoff; lia|cbn; reflexivity|rewrite Hoff; done| | | | |].
    + cbn. rewrite Hoff. rewrite Hdisk. fold bytes. reflexivity.
    + lia.
    + done.
    + cbn. rewrite (proj2 (Z.ltb_ge _ _) Hsend). reflexivity.
    + lia.
Qed.

Lemma answered_good e h bytes : link_good e -> link_good (answered h bytes e).
Proof.
  intros [Hup Hsv Hsend Hdisk Htgt]. constructor; try done. unfold answered. cbn [ln_server set_field].
  change (serving pid dfd pfd G C (served ((ln_server e) <| ext ::= fun x => x <| ho_in := [h] |> <| ho_data := [] |> |>) pid
         ((ext (ln_server e)) <| ho_in := [] |> <| ho_data := [bytes] |> <| ho_pos := request_offset G C h |>))).
  apply served_serving. destruct Hsv. by constructor.
Qed.

Lemma deliver_target h e r e1 : deliver env h e = (r, e1) -> ln_target e1 = ln_target e.
Proof.
  unfold deliver. destruct (server_recv_step _ _ _) as [[a|] s'|o s']; intros [= <- <-]; done.
Qed.

#[local] Instance linked : OS link := link_os env.

Lemma link_answer e h bit c r e1 n bytes e2 :
  link_good e -> is_request pid bit c h -> 0 <= chunk_addr G C bit c -> chunk_addr G C bit c + 4096 <= Z.of_nat (length src) ->
  Z.of_nat (length src) < 2 ^ 62 ->
  os_send_hdr fd h e = (r, e1) -> os_recv fd BUF_SIZE_IN_BYTES e1 = (n, bytes, e2) ->
  r = 1 /\ n = 4096 /\ e2 = e1 /\ link_good e1 /\ ln_target e1 = ln_target e /\
  bytes = take (Z.to_nat 4096) (drop (Z.to_nat (chunk_addr G C bit c)) src).
Proof.
  intros Hg Hreq Hlo Hhi Hsz Es Er. cbn in Es. rewrite (lg_up _ Hg) in Es.
  rewrite (deliver_request e h bit c) in Es by done. injection Es as <- <-.
  set (b := take _ _) in Er. pose proof (answered_good e h b Hg) as Hg1. cbn in Er.
  change (match ho_data (ext (ln_server (answered h b e))) with
          | [] => (-1, [], answered h b e)
          | m :: _ => let got := take (Z.to_nat BUF_SIZE_IN_BYTES) m in
                      if ln_up (answered h b e) then (Z.of_nat (length got), got, answered h b e) else (-1, [], answered h b e)
          end = (n, bytes, e2)) in Er.
  rewrite (lg_up _ Hg1) in Er. change (ho_data (ext (ln_server (answered h b e)))) with [b] in Er.
  assert (Hlen : length b = 4096%nat) by (unfold b; rewrite length_take, length_drop; lia).
  cbv iota zeta in Er. rewrite take_ge, Hlen in Er by (rewrite Hlen; unfold BUF_SIZE_IN_BYTES; lia).
  by injection Er as <- <- <-.
Qed.

Lemma link_peer_up : Z.of_nat (length src) < 2 ^ 62 -> peer_up link_peer pid fd G C.
Proof.
  intros Hsz e h bit c r e1 n bytes e2 Hg Hreq Hlo Hhi Es Er.
  destruct (link_answer e h bit c r e1 n bytes e2) as (-> & -> & -> & _); done.
Qed.

(** Whatever the server does, the target disk is the client's. *)
Lemma link_request_target e h r e1 n bytes e2 :
  os_send_hdr fd h e = (r, e1) -> os_recv fd BUF_SIZE_IN_BYTES e1 = (n, bytes, e2) ->
  ln_target e1 = ln_target e /\ ln_target e2 = ln_target e /\
  (0 <= n -> Z.of_nat (length bytes) = n /\ n <= BUF_SIZE_IN_BYTES).
Proof.
  cbn [os_send_hdr os_recv linked link_os]. intros Es Er.
  assert (Ht : ln_target e1 = ln_target e) by (destruct (ln_up e); [by eapply deliver_target|by injection Es as <- <-]).
  split; [done|]. destruct (ho_data (ext (ln_server e1))) as [|m l]; [|destruct (ln_up e1)]; injection Er as <- <- <-.
  - split; [done|lia].
  - split; [done|]. intros _. split; [done|]. rewrite length_take. unfold BUF_SIZE_IN_BYTES. lia.
  - split; [done|lia].
Qed.

Lemma link_laws : Z.of_nat (length src) < 2 ^ 62 -> PeerLaws link_peer pid fd fdt G C.
Proof.
  intros Hsz. constructor.
  - intros e Hg. exact (lg_target _ Hg).
  - intros e h bit c r e1 n bytes e2 Hw Hreq Hlo Hhi Es Er.
    destruct (link_request_target e h r e1 n bytes e2 Es Er) as (Ht1 & Ht2 & Hlen).
    split; [intros a; cbn; by rewrite Ht1|]. split; [intros a; cbn; by rewrite Ht2|]. intros _ Hn _.
    destruct (Hlen Hn) as [Hl Hm]. split; [cbn; by rewrite Ht2|]. split; [done|]. split; [done|]. intros Hg.
    destruct (link_answer e h bit c r e1 n bytes e2) as (_ & -> & -> & Hg1 & _ & ->); try done.
    split; [|done]. intros i Hi. cbn in Hhi. by apply bytes_image_take_drop.
  - intros e off bytes Htl Hlo Hhi Hl. cbn in Hhi, Htl.
    exists off, (e <| ln_pos := off |>), (Z.of_nat (length bytes)), (e <| ln_pos := off |> <| ln_target ::= write_at off bytes |>).
    split; [done|]. split; [done|]. split; [done|]. split; [lia|].
    assert (Hw : length (write_at off bytes (ln_target e)) = length src).
    { rewrite length_write_at; [exact Htl|exact Hlo|rewrite Hl, Htl; exact Hhi]. }
    split; [exact Hw|]. split; [intros []; by constructor|].
    intros a. apply write_at_image; [done|done|]. wsimpl. rewrite Htl. exact Hhi.
  - intros e sql Hw. eexists. split; [reflexivity|]. split; [done|]. split; [|by intros a].
    intros []. by constructor.
  - intros e r e1 [= <- <-]. by intros a.
  - intros e h r e1 Hw _ Es. cbn in Es.
    assert (Ht : ln_target e1 = ln_target e) by (destruct (ln_up e); [by eapply deliver_target|by injection Es as <- <-]).
    split; [cbn; by rewrite Ht|]. intros a. cbn. by rewrite Ht.
Qed.
End link_laws.

(** ** A connection that ends

    A link whose first socket carries a number of answers and is gone then:
    broken, every call fails; or closed by the server, what is sent is accepted
    and [recv] returns 0.  Other sockets work. *)
Record flaky := mk_flaky { fk_link : link; fk_left : nat }.
#[export] Instance eta_flaky : Settable flaky := fun r => mk_flaky (fk_link r) (fk_left r).

Section flaky.
Context `{KBitops} (env : kenv) (bad : Z) (closes : bool).

Definition on_link {A} (call : link -> A * link) (e : flaky) : A * flaky :=
  let '(a, l) := call (fk_link e) in (a, e <| fk_link := l |>).

Lemma on_link_ret {A} (call : link -> A * link) e a l :
  call (fk_link e) = (a, l) -> on_link call e = (a, e <| fk_link := l |>).
Proof. intros E1. unfold on_link. by rewrite E1. Qed.

(** The socket is the first one, and it is gone. *)
Definition gone (fd : Z) (e : flaky) : bool := (fd =? bad) && Nat.eqb (fk_left e) 0.

Definition used (fd : Z) (e : flaky) : flaky := if fd =? bad then e <| fk_left ::= pred |> else e.

Definition flaky_os : OS flaky := let L := link_os env in {|
  os_errno := fun e => os_errno (fk_link e);
  os_malloc := fun n e => os_malloc n (fk_link e);
  os_socket := on_link os_socket;
  os_connect := fun fd ip port => on_link (os_connect fd ip port);
  os_bind := fun fd port => on_link (os_bind fd port);
  os_listen := fun fd n => on_link (os_listen fd n);
  os_accept := fun fd => on_link (os_accept fd);
  os_shutdown := fun fd e => e <| fk_link ::= os_shutdown fd |>;
  os_send_hdr := fun fd h e => if gone fd e then (if closes then 1 else -1, e) else on_link (os_send_hdr fd h) e;
  os_send := fun fd m => on_link (os_send fd m);
  os_recv_hdr := fun fd e => let '(n, h, l) := os_recv_hdr fd (fk_link e) in (n, h, e <| fk_link := l |>);
  os_recv := fun fd n e =>
    if gone fd e then (if closes then 0 else -1, [], e)
    else let '(k, m, l) := os_recv fd n (fk_link e) in (k, m, used fd (e <| fk_link := l |>));
  os_open := fun name flags => on_link (os_open name flags);
  os_close := fun fd => on_link (os_close fd);
  os_lseek := fun fd off => on_link (os_lseek fd off);
  os_read := fun fd n e => let '(k, m, l) := os_read fd n (fk_link e) in (k, m, e <| fk_link := l |>);
  os_write := fun fd m => on_link (os_write fd m);
  os_blkflsbuf := fun fd e => e <| fk_link ::= os_blkflsbuf fd |>;
  os_load_file := fun name e => os_load_file name (fk_link e);
  os_store_file := fun name m e => l ← os_store_file name m (fk_link e); Some (e <| fk_link := l |>);
  os_ioctl := fun fd cmd obj e => let '(r, o, l) := os_ioctl fd cmd obj (fk_link e) in (r, o, e <| fk_link := l |>);
  os_mmap := fun fd n => on_link (os_mmap fd n);
  os_map_read := fun a e => os_map_read a (fk_link e);
  os_map_write := fun a m e => e <| fk_link ::= os_map_write a m |>;
  os_mysql_connect := fun h u p => on_link (os_mysql_connect h u p);
  os_query := fun sql => on_link (os_query sql);
  os_rows := fun e => os_rows (fk_link e);
  os_inet_pton := os_inet_pton;
  os_pthread_create := on_link os_pthread_create;
  os_md5sum := fun n s => on_link (os_md5sum n s);
  os_md5_text := fun s e => os_md5_text s (fk_link e);
|}.

Context (src : mem) (pid dfd pfd fd fdt G C : Z).

Definition flaky_peer : peer flaky := let P := link_peer src pid dfd pfd G C in {|
  pr_src := pr_src P;
  pr_size := pr_size P;
  pr_tgt := fun e => pr_tgt P (fk_link e);
  pr_works := fun e => pr_works P (fk_link e);
  pr_good := fun e => pr_good P (fk_link e);
|}.

#[local] Instance flaky_linked : OS link := link_os env.
#[local] Instance flaky_client : OS flaky := flaky_os.

(** A request and its answer: those of the link, or nothing happened. *)
Lemma flaky_request h e r e1 n bytes e2 :
  os_send_hdr fd h e = (r, e1) -> os_recv fd BUF_SIZE_IN_BYTES e1 = (n, bytes, e2) ->
  (gone fd e = false /\ os_send_hdr fd h (fk_link e) = (r, fk_link e1) /\
     os_recv fd BUF_SIZE_IN_BYTES (fk_link e1) = (n, bytes, fk_link e2)) \/
  (gone fd e = true /\ e1 = e /\ e2 = e /\ bytes = [] /\ (if closes then n = 0 else r = -1 /\ n = -1)).
Proof.
  cbn [os_send_hdr os_recv flaky_client flaky_os]. destruct (gone fd e) eqn:Hg.
  - intros [= <- <-]. rewrite Hg. intros [= <- <- <-]. right. by destruct closes.
  - unfold on_link. destruct (os_send_hdr fd h (fk_link e)) as [r0 l1] eqn:Es. intros [= <- <-].
    change (gone fd (e <| fk_link := l1 |>)) with (gone fd e). rewrite Hg. cbn [fk_link set_field].
    change (fk_link (e <| fk_link := l1 |>)) with l1.
    destruct (os_recv fd BUF_SIZE_IN_BYTES l1) as [[k m] l2] eqn:Er. intros [= <- <- <-]. left.
    split; [done|]. split; [done|]. unfold used. by destruct (fd =? bad).
Qed.

Context (Hsz : Z.of_nat (length src) < 2 ^ 62).

Lemma flaky_laws : PeerLaws flaky_peer pid fd fdt G C.
Proof using Hsz.
  pose proof (link_laws env src pid dfd pfd fd fdt G C Hsz) as L. constructor.
  - intros e. apply (pl_works (PeerLaws := L)).
  - intros e h bit c r e1 n bytes e2 Hw Hr Hlo Hhi Es Er.
    destruct (flaky_request h e r e1 n bytes e2 Es Er) as [(_ & E1 & E2)|(_ & -> & -> & -> & Hn)].
    + exact (pl_request (PeerLaws := L) _ h bit c r _ n bytes _ Hw Hr Hlo Hhi E1 E2).
    + split; [by intros a|]. split; [by intros a|]. intros Hr0 Hn0 _. split; [done|].
      assert (n = 0) as -> by (destruct closes; lia). split; [done|]. unfold BUF_SIZE_IN_BYTES. split; [lia|].
      intros _. split; [lia|done].
  - intros e off bytes Hw Ho Hs Hl.
    destruct (pl_write (PeerLaws := L) (fk_link e) off bytes Hw Ho Hs Hl) as (x & l1 & n & l2 & E1 & Hx & E2 & Hn & Hw2 & Hg2 & Ht).
    exists x, (e <| fk_link := l1 |>), n, (e <| fk_link := l2 |>).
    split; [exact (on_link_ret _ _ _ _ E1)|]. split; [done|]. split; [|done].
    exact (on_link_ret (os_write fdt bytes) (e <| fk_link := l1 |>) _ _ E2).
  - intros e sql Hw. destruct (pl_query (PeerLaws := L) (fk_link e) sql Hw) as (l1 & E1 & Hw1 & Hg1 & Ht).
    exists (e <| fk_link := l1 |>). split; [exact (on_link_ret _ _ _ _ E1)|done].
  - intros e r e1 [= <- <-]. by intros a.
  - intros e h r e1 Hw Hh. cbn [os_send_hdr flaky_client flaky_os].
    destruct (gone fd _); [intros [= <- <-]; by split|]. unfold on_link.
    destruct (os_send_hdr fd h (fk_link (os_blkflsbuf fdt e))) as [r0 l1] eqn:Es. intros [= <- <-].
    exact (pl_end (PeerLaws := L) (fk_link e) h r0 l1 Hw Hh Es).
Qed.

(** Broken, but never closed: no receive is short. *)
Lemma flaky_whole : closes = false -> answers_whole flaky_peer pid fd G C.
Proof using Hsz.
  intros Hc e h bit c r e1 n bytes e2 Hg Hr Hlo Hhi Es Er Hr0 Hn _.
  destruct (flaky_request h e r e1 n bytes e2 Es Er) as [(_ & E1 & E2)|(_ & _ & _ & _ & Hx)].
  - by destruct (link_answer env src pid dfd pfd fd G C (fk_link e) h bit c r (fk_link e1) n bytes (fk_link e2)) as (_ & -> & _).
  - rewrite Hc in Hx. lia.
Qed.

Lemma flaky_up : fd <> bad -> peer_up flaky_peer pid fd G C.
Proof using Hsz.
  intros Hfd e h bit c r e1 n bytes e2 Hg Hr Hlo Hhi Es Er.
  destruct (flaky_request h e r e1 n bytes e2 Es Er) as [(_ & E1 & E2)|(Hx & _)].
  - by destruct (link_answer env src pid dfd pfd fd G C (fk_link e) h bit c r (fk_link e1) n bytes (fk_link e2)) as (-> & -> & _).
  - unfold gone in Hx. by rewrite (proj2 (Z.eqb_neq _ _) Hfd) in Hx.
Qed.
End flaky.
