(* ===== verification/ResyncProps.v ===== *)
(** * Properties of the resync

    A resync that is not interrupted makes the dirty grains of the target those
    of the source and changes nothing else; one that is interrupted by an error
    can be resumed from the position it recorded; whatever the connection does,
    the thread returns and changes nothing outside the grains it copies.  A
    connection the server closes is not noticed: what is written then is the
    old content of the buffer. *)
From S2P Require Import Prelude Memory KernelState KBitmap KBitmapSpec KernelMain CMonad CString World UBitmap Db Header.
From S2P Require Import ReplicServer ConnServer Resync WorldTac UBitmapSpec TransferLoop ResyncSpec ServerSpec Sim LinkSpec.

(** ** A client and a server, concretely

    A disk of four grains of 4096 bytes, the source full of 7, the target full
    of 1; grains 0 and 2 are dirty. *)
Definition ex_bits : mem := 5 :: replicate (Z.to_nat (BITMAP_SIZE - 1)) 0.
Definition ex_src : mem := replicate (Z.to_nat 16384) 7.
Definition ex_tgt : mem := replicate (Z.to_nat 16384) 1.

Definition ex_header : replic_header := zeroed <| hd_grain := 8 |> <| hd_chunk := 8 |>.

Definition ex_server : world host :=
  (world0 (host0 <| ho_disk := ex_src |>))
    <| replic_hdr_server_obj ::= aset 0 (fun _ => ex_header) |>
    <| io_server_obj ::= aset 0 (fun o => o <| io_state := IO_OBJ_IN_USE |>) |>
    <| ebdr_disk_src_obj ::= aset 0 (fun d => d <| dsk_fd := 5 |> <| dsk_ops := Some server_ops |>) |>
    <| all_partner_servers ::= aset 0 (fun p => p <| ptn_fd := 4 |> <| ptn_state := PARTNER_OBJ_IN_USE |>) |>.

Definition ex_link : link := mk_link ex_server 4 ex_tgt 0 true [].

Definition ex_client_on {E} (e : E) : world E :=
  (world0 e)
    <| all_partner_clients ::= aset 0 (fun p => p <| ptn_fd := 3 |> <| ptn_state := PARTNER_OBJ_IN_USE |>) |>
    <| io_client_obj ::= aset 0 (fun o => o <| io_state := IO_OBJ_IN_USE |>) |>
    <| replic_client_obj ::= aset 0 (fun r => r <| rp_conn := Some (PClient 0) |>) |>
    <| ebdr_conn_client ::= aset 0 (fun c => c <| cn_ops := Some client_ops |>) |>
    <| replic_hdr_client_obj ::= aset 0 (fun _ => ex_header) |>
    <| ebdr_disk_target_obj ::= aset 0 (fun d => d <| dsk_name := "/dev/sdb"%string |> <| dsk_fd := 6 |>
         <| dsk_bitmap := Some (PClient 0) |>) |>
    <| bitmap_client_obj ::= aset 0 (fun b => b <| ub_area := Some 0 |> <| ub_size := BITMAP_SIZE |>
         <| ub_ops := Some client_ops |>) |>
    <| heap ::= fun h => <[0 := ex_bits]> h |>.

Definition ex_client : world link := ex_client_on ex_link.

#[local] Existing Instance x86_bitops.

Definition ex_kenv : kenv :=
  mk_kenv true true true (fun n => Some (replicate (Z.to_nat n) 0)) true true true true (fun _ => Some 7) (fun _ => 1048576).

#[local] Instance ex_linked : OS link := link_os ex_kenv.

Definition ex_peer : peer link := link_peer ex_src 0 5 4 8 8.

Lemma length_ex_bits : Z.of_nat (length ex_bits) = BITMAP_SIZE.
Proof. unfold ex_bits. cbn [length]. rewrite length_replicate, Nat2Z.inj_succ, Z2Nat.id by (unfold BITMAP_SIZE; lia). lia. Qed.

Lemma wf_ex_bits : wf_mem ex_bits.
Proof. constructor; [unfold is_byte; lia|apply wf_replicate]. Qed.

Lemma ex_bits_range b : mem_bit ex_bits b = true -> 0 <= b < 3.
Proof.
  intros Hb. pose proof (mem_bit_nonneg _ _ Hb). unfold ex_bits in Hb. rewrite mem_bit_cons in Hb.
  destruct (Z.ltb_spec b 8).
  - destruct (decide (b < 3)); [lia|].
    assert (b = 3 \/ b = 4 \/ b = 5 \/ b = 6 \/ b = 7) as Hc by lia.
    by destruct Hc as [-> | [-> | [-> | [-> | ->]]]].
  - rewrite mem_bit_replicate in Hb. done.
Qed.

Lemma length_ex_src : Z.of_nat (length ex_src) = 16384.
Proof. unfold ex_src. rewrite length_replicate. apply Z2Nat.id. lia. Qed.

Lemma length_ex_tgt : length ex_tgt = length ex_src.
Proof. unfold ex_tgt, ex_src. by rewrite !length_replicate. Qed.

#[global] Opaque ex_bits ex_src ex_tgt.

Lemma ex_serving w : w = ex_server -> serving 0 5 4 8 8 w.
Proof. intros ->. constructor; try done. Qed.

Lemma ex_good : link_good ex_src 0 5 4 8 8 ex_link.
Proof. constructor; [done|by apply ex_serving|cbn; lia|done|exact length_ex_tgt]. Qed.

Lemma ex_ready : ready ex_peer 0 3 6 8 8 0 ex_bits ex_client.
Proof. constructor; try done; exact ex_good. Qed.

Lemma ex_laws : PeerLaws ex_peer 0 3 6 8 8.
Proof. apply link_laws. rewrite length_ex_src. lia. Qed.

Lemma ex_up : peer_up ex_peer 0 3 8 8.
Proof. apply link_peer_up. rewrite length_ex_src. lia. Qed.

(** ** Copying *)
Section copying.
Context {E : Type} `{OS E} (ok : Z -> Z -> Prop) (P : peer E) (pid fd fdt G blk : Z) (m : mem).
Context (Hlaws : RoundLaws ok P pid fd fdt G 8).
Context (Hpid : 0 <= pid < 2048) (Hsize : pr_size P < 2 ^ 62).
Context (Hwf : wf_mem m) (Hlen : Z.of_nat (length m) = BITMAP_SIZE).
Context (HG : 0 < G < 2 ^ 31) (Hmod : G mod 8 = 0).
Context (Hfit : forall b, mem_bit m b = true -> 512 * G * (b + 1) <= pr_size P).

Lemma grain_fits b c :
  0 <= b < MAX_BITS_LEN -> selected m NO_RESYNC b = true -> 0 <= c < G / 8 ->
  0 <= chunk_addr G 8 b c /\ chunk_addr G 8 b c + 4096 <= pr_size P.
Proof.
  intros Hb Hsel Hc. unfold selected in Hsel. rewrite orb_false_r in Hsel. specialize (Hfit b Hsel).
  unfold chunk_addr. assert (G = 8 * (G / 8)) as HG8 by lia. nia.
Qed.

Lemma chunks_range : 0 <= G / 8 < 2 ^ 31.
Proof using HG. clear -HG. lia. Qed.

Lemma resync_run w bit :
  ready P pid fd fdt G 8 blk m w -> slen (dsk_name (aget (ebdr_disk_target_obj w) pid)) <= 38 ->
  0 <= bit <= MAX_BITS_LEN ->
  exists w', restart_resync pid bit NO_RESYNC w = Ret tt w' /\
    run_outcome ok P pid fd G 8 blk m NO_RESYNC bit w w'.
Proof.
  intros Hr Hn Hb. apply (restart_resync_ok ok P pid fd fdt G 8 blk m Hpid Hsize Hwf Hlen NO_RESYNC); try done.
  - exact chunks_range.
  - exact grain_fits.
Qed.

(** The dirty grains from [bit] on, as a set of bytes. *)
Lemma dirty_region bit n a : 0 <= bit ->
  grains_region G 8 (selected m NO_RESYNC) bit n a =
  in_range bit (bit + n - 1) (a / (512 * G)) && mem_bit m (a / (512 * G)).
Proof using HG Hmod. intros Hb. clear -HG Hmod Hb. rewrite grains_region_exact by lia. unfold selected. by rewrite orb_false_r. Qed.

Lemma dirty_in_range k : mem_bit m k = true -> 0 <= k < MAX_BITS_LEN.
Proof.
  intros Hk. clear -Hk Hlen. pose proof (mem_bit_nonneg _ _ Hk). split; [done|].
  destruct (Z.lt_ge_cases k MAX_BITS_LEN) as [|Hge]; [done|].
  rewrite mem_bit_high in Hk; [done|]. rewrite Hlen. unfold MAX_BITS_LEN, BITMAP_SIZE in *. lia.
Qed.
End copying.

(** A complete run. *)
Lemma complete_image src G m t t' :
  0 < G < 2 ^ 31 -> G mod 8 = 0 -> Z.of_nat (length m) = BITMAP_SIZE ->
  filled (the_bytes src) (grains_region G 8 (selected m NO_RESYNC) 0 (MAX_BITS_LEN - 0)) t t' ->
  forall a, t' a = if mem_bit m (a / (512 * G)) then src a else t a.
Proof.
  intros HG Hmod Hlen Hc a. rewrite (filled_source _ _ _ _ Hc), (dirty_region G m HG Hmod) by lia.
  destruct (mem_bit m (a / (512 * G))) eqn:Ek; [|by rewrite andb_false_r].
  pose proof (dirty_in_range m Hlen _ Ek). unfold in_range. by replace (_ && _) with true by bool_solve.
Qed.

(** C3. A resync whose connection holds ends with the dirty grains of the
    target disk equal to those of the source and every other byte as it was;
    the partner is released and the bitmap freed. *)
Theorem resync_copies_dirty_grains {E} `{OS E} (P : peer E) pid fd fdt G blk m w :
  PeerLaws P pid fd fdt G 8 -> peer_up P pid fd G 8 ->
  0 <= pid < 2048 -> pr_size P < 2 ^ 62 -> wf_mem m -> Z.of_nat (length m) = BITMAP_SIZE ->
  0 < G < 2 ^ 31 -> G mod 8 = 0 ->
  (forall b, mem_bit m b = true -> 512 * G * (b + 1) <= pr_size P) ->
  ready P pid fd fdt G 8 blk m w -> slen (dsk_name (aget (ebdr_disk_target_obj w) pid)) <= 38 ->
  exists w', restart_resync pid 0 NO_RESYNC w = Ret tt w' /\ terminated pid blk w' /\
    forall a, pr_tgt P (ext w') a = if mem_bit m (a / (512 * G)) then pr_src P a else pr_tgt P (ext w) a.
Proof.
  intros Hlaws Hup Hpid Hsize Hwf Hlen HG Hmod Hfit Hr Hn.
  pose proof (round_whole P pid fd fdt G 8 (peer_up_whole _ _ _ _ _ Hup)) as Hround.
  destruct (resync_run _ P pid fd fdt G blk m Hround Hpid Hsize Hwf Hlen HG Hmod Hfit w 0 Hr Hn) as (w' & Ew & Ho);
    [unfold MAX_BITS_LEN; lia|].
  exists w'. split; [exact Ew|]. destruct Ho as [[Htm Hc]|[Hnup _]]; [|done]. split; [done|].
  by apply complete_image.
Qed.

Lemma resync_copies_dirty_grains_witness :
  exists w', restart_resync 0 0 NO_RESYNC ex_client = Ret tt w' /\ terminated 0 0 w' /\
    forall a, pr_tgt ex_peer (ext w') a =
      if mem_bit ex_bits (a / (512 * 8)) then pr_src ex_peer a else pr_tgt ex_peer (ext ex_client) a.
Proof.
  apply (resync_copies_dirty_grains ex_peer 0 3 6 8 0 ex_bits ex_client).
  - exact ex_laws.
  - exact ex_up.
  - lia.
  - cbn. rewrite length_ex_src. lia.
  - exact wf_ex_bits.
  - exact length_ex_bits.
  - lia.
  - reflexivity.
  - intros b Hb. apply ex_bits_range in Hb. cbn. rewrite length_ex_src. lia.
  - exact ex_ready.
  - vm_compute. congruence.
Defined.

(** ** Interruption *)

(** What is left to copy after an interruption is copied by a run from the
    recorded position on. *)
Lemma resumed_image src G m b t t1 t' t3 :
  0 < G < 2 ^ 31 -> G mod 8 = 0 -> Z.of_nat (length m) = BITMAP_SIZE ->
  0 <= b < MAX_BITS_LEN -> mem_bit m b = true ->
  filled (the_bytes src) (grains_region G 8 (selected m NO_RESYNC) 0 (b - 0)) t t1 ->
  partly (the_bytes src) (chunks_region G 8 b 0 (G / 8)) t1 t' ->
  filled (the_bytes src) (grains_region G 8 (selected m NO_RESYNC) (if b =? 0 then 0 else b - 1)
    (MAX_BITS_LEN - (if b =? 0 then 0 else b - 1))) t' t3 ->
  forall a, t3 a = if mem_bit m (a / (512 * G)) then src a else t a.
Proof.
  intros HG Hmod Hlen Hb Hbit Hc1 Hp Hc3 a.
  pose proof (filled_source _ _ _ _ Hc1) as H1. pose proof (filled_source _ _ _ _ Hc3) as H3. set (l := if b =? 0 then 0 else b - 1) in *.
  assert (Hl : 0 <= l <= b) by (unfold l; destruct (Z.eqb_spec b 0); lia).
  rewrite H3, (dirty_region G m HG Hmod) by lia. unfold in_range.
  destruct (mem_bit m (a / (512 * G))) eqn:Ek.
  - pose proof (dirty_in_range m Hlen _ Ek). rewrite andb_true_r.
    destruct (Z.leb_spec l (a / (512 * G))).
    { by replace (_ && _) with true by bool_solve. }
    cbn [andb]. destruct (Hp a) as [->|[_ ->]]; [|done].
    rewrite H1, (dirty_region G m HG Hmod) by lia. rewrite Ek. unfold in_range.
    by replace (_ && _) with true by bool_solve.
  - rewrite andb_false_r. destruct (Hp a) as [->|[Hr _]].
    + rewrite H1, (dirty_region G m HG Hmod) by lia. by rewrite Ek, andb_false_r.
    + assert (Hin : grains_region G 8 (selected m NO_RESYNC) b 1 a = true).
      { unfold grains_region. rewrite zseq_cons by lia. cbn [existsb]. unfold selected at 1.
        by rewrite Hbit, Hr. }
      rewrite (dirty_region G m HG Hmod) in Hin by lia. by rewrite Ek, andb_false_r in Hin.
Qed.

(** C13. A resync whose connection breaks at any request with an error can be
    taken up again from the position recorded: the two runs together make the
    dirty grains of the target those of the source and change nothing else.
    The receives that succeed are taken to be whole: a server that closes the
    connection in good order is not noticed, see
    [closed_connection_writes_stale_chunk]. *)
Theorem resync_interrupted_resumes {E} `{OS E} (P : peer E) pid fd fd2 fdt G blk blk2 m w :
  PeerLaws P pid fd fdt G 8 -> answers_whole P pid fd G 8 ->
  PeerLaws P pid fd2 fdt G 8 -> peer_up P pid fd2 G 8 ->
  0 <= pid < 2048 -> pr_size P < 2 ^ 62 -> wf_mem m -> Z.of_nat (length m) = BITMAP_SIZE ->
  0 < G < 2 ^ 31 -> G mod 8 = 0 ->
  (forall b, mem_bit m b = true -> 512 * G * (b + 1) <= pr_size P) ->
  ready P pid fd fdt G 8 blk m w -> slen (dsk_name (aget (ebdr_disk_target_obj w) pid)) <= 38 ->
  last_bit pid w = 0 ->
  exists w1, restart_resync pid 0 NO_RESYNC w = Ret tt w1 /\
    ((terminated pid blk w1 /\
      forall a, pr_tgt P (ext w1) a = if mem_bit m (a / (512 * G)) then pr_src P a else pr_tgt P (ext w) a) \/
     forall w2, ready P pid fd2 fdt G 8 blk2 m w2 -> same_image (pr_tgt P (ext w1)) (pr_tgt P (ext w2)) ->
       slen (dsk_name (aget (ebdr_disk_target_obj w2) pid)) <= 38 ->
       exists w3, restart_resync pid (last_bit pid w1) NO_RESYNC w2 = Ret tt w3 /\ terminated pid blk2 w3 /\
         forall a, pr_tgt P (ext w3) a = if mem_bit m (a / (512 * G)) then pr_src P a else pr_tgt P (ext w) a).
Proof.
  intros Hl1 Hwh Hl2 Hup Hpid Hsize Hwf Hlen HG Hmod Hfit Hr Hn H0.
  pose proof (round_whole P pid fd fdt G 8 Hwh) as Hround1.
  pose proof (round_whole P pid fd2 fdt G 8 (peer_up_whole _ _ _ _ _ Hup)) as Hround2.
  destruct (resync_run _ P pid fd fdt G blk m Hround1 Hpid Hsize Hwf Hlen HG Hmod Hfit w 0 Hr Hn) as (w1 & E1 & Ho);
    [unfold MAX_BITS_LEN; lia|].
  exists w1. split; [exact E1|]. destruct Ho as [[Htm Hc]|(_ & b & Hb & Hsel & Hlast & t1 & Hc1 & Hp)].
  { left. split; [done|]. by apply complete_image. }
  right. intros w2 Hr2 Hsame Hn2. rewrite H0, Z.sub_0_r in *.
  assert (Hl : last_bit pid w1 = if b =? 0 then 0 else b - 1) by exact Hlast.
  destruct (resync_run _ P pid fd2 fdt G blk2 m Hround2 Hpid Hsize Hwf Hlen HG Hmod Hfit w2 (last_bit pid w1) Hr2 Hn2)
    as (w3 & E3 & Ho); [rewrite Hl; destruct (Z.eqb_spec b 0); lia|].
  exists w3. split; [exact E3|]. destruct Ho as [[Htm Hc3]|[Hnup _]]; [|done]. split; [done|].
  unfold selected in Hsel. rewrite orb_false_r in Hsel. rewrite Hl in Hc3.
  rewrite <- (Z.sub_0_r b) in Hc1 at 1. apply (resumed_image _ G m b _ t1 (tgt_of P w1)); [done|done|done|lia|done|done|done|].
  by eapply filled_between; [| |exact Hc3].
Qed.

(** A connection that carries one answer and breaks; the second one holds. *)
Definition ex_flaky (closes : bool) : world flaky := ex_client_on (mk_flaky ex_link 1).

Definition ex_flaky_peer : peer flaky := flaky_peer ex_src 0 5 4 8 8.

Lemma ex_flaky_ready `{OS flaky} closes : ready ex_flaky_peer 0 3 6 8 8 0 ex_bits (ex_flaky closes).
Proof. constructor; try done; exact ex_good. Qed.

Lemma ex_flaky_fit b : mem_bit ex_bits b = true -> 512 * 8 * (b + 1) <= pr_size ex_flaky_peer.
Proof. intros Hb. apply ex_bits_range in Hb. cbn. rewrite length_ex_src. lia. Qed.

Lemma ex_flaky_size : pr_size ex_flaky_peer < 2 ^ 62.
Proof. cbn. rewrite length_ex_src. lia. Qed.

Section breaks.
#[local] Instance ex_breaking : OS flaky := flaky_os ex_kenv 3 false.

Lemma resync_interrupted_resumes_witness :
  exists w1, restart_resync 0 0 NO_RESYNC (ex_flaky false) = Ret tt w1 /\
    ((terminated 0 0 w1 /\
      forall a, pr_tgt ex_flaky_peer (ext w1) a =
        if mem_bit ex_bits (a / (512 * 8)) then pr_src ex_flaky_peer a else pr_tgt ex_flaky_peer (ext (ex_flaky false)) a) \/
     forall w2, ready ex_flaky_peer 0 7 6 8 8 0 ex_bits w2 ->
       same_image (pr_tgt ex_flaky_peer (ext w1)) (pr_tgt ex_flaky_peer (ext w2)) ->
       slen (dsk_name (aget (ebdr_disk_target_obj w2) 0)) <= 38 ->
       exists w3, restart_resync 0 (last_bit 0 w1) NO_RESYNC w2 = Ret tt w3 /\ terminated 0 0 w3 /\
         forall a, pr_tgt ex_flaky_peer (ext w3) a =
           if mem_bit ex_bits (a / (512 * 8)) then pr_src ex_flaky_peer a else pr_tgt ex_flaky_peer (ext (ex_flaky false)) a).
Proof.
  apply (resync_interrupted_resumes ex_flaky_peer 0 3 7 6 8 0 0 ex_bits (ex_flaky false)).
  - apply flaky_laws, ex_flaky_size.
  - by apply flaky_whole; [apply ex_flaky_size|].
  - apply flaky_laws, ex_flaky_size.
  - by apply flaky_up; [apply ex_flaky_size|].
  - lia.
  - apply ex_flaky_size.
  - exact wf_ex_bits.
  - exact length_ex_bits.
  - lia.
  - reflexivity.
  - exact ex_flaky_fit.
  - apply ex_flaky_ready.
  - vm_compute. congruence.
  - reflexivity.
Defined.
End breaks.

(** C14. Whatever the connection does - calls that fail, receives cut short, an
    orderly close by the server -, for every chunk size and mode, the resync
    returns and every byte of the target outside the chunks of the selected
    grains is as it was; and as long as no receive that succeeds is short,
    every byte in them is as it was or the source's. *)
Theorem resync_returns_safe {E} `{OS E} (P : peer E) pid fd fdt G C blk m mode bit w :
  PeerLaws P pid fd fdt G C -> 0 <= pid < 2048 -> pr_size P < 2 ^ 62 ->
  wf_mem m -> Z.of_nat (length m) = BITMAP_SIZE -> C <> 0 -> 0 <= G / C < 2 ^ 31 ->
  (forall b c, 0 <= b < MAX_BITS_LEN -> selected m mode b = true -> 0 <= c < G / C ->
     0 <= chunk_addr G C b c /\ chunk_addr G C b c + 4096 <= pr_size P) ->
  ready P pid fd fdt G C blk m w -> slen (dsk_name (aget (ebdr_disk_target_obj w) pid)) <= 38 ->
  0 <= bit <= MAX_BITS_LEN ->
  let region := grains_region G C (selected m mode) bit (MAX_BITS_LEN - bit) in
  exists w', restart_resync pid bit mode w = Ret tt w' /\
    (forall a, region a = false -> tgt_of P w' a = tgt_of P w a) /\
    (answers_whole P pid fd G C -> partly (the_bytes (pr_src P)) region (tgt_of P w) (tgt_of P w')).
Proof.
  intros Hlaws Hpid Hsize Hwf Hlen HC HGC Hfit Hr Hn Hbit region.
  assert (Hrun : forall ok Q, RoundLaws ok Q pid fd fdt G C -> pr_size Q = pr_size P -> ready Q pid fd fdt G C blk m w ->
    exists w', restart_resync pid bit mode w = Ret tt w' /\ partly ok region (tgt_of Q w) (tgt_of Q w')).
  { intros ok Q HQ Hs HrQ.
    destruct (restart_resync_ok ok Q pid fd fdt G C blk m Hpid ltac:(lia) Hwf Hlen mode HGC ltac:(by rewrite Hs) w bit HrQ HC Hn Hbit)
      as (w' & Ew & [[_ Hc]|(_ & b & Hi)]); exists w'; (split; [exact Ew|]); [by apply filled_partly|by eapply interrupted_partly]. }
  destruct (Hrun any_byte (weak P)) as (w' & Ew & Hany); [by apply round_any|done|by apply ready_weak|].
  exists w'. split; [exact Ew|]. split; [exact (partly_outside _ _ _ _ Hany)|]. intros Hwh.
  destruct (Hrun (the_bytes (pr_src P)) P) as (w2 & Ew2 & Hp); [by apply round_whole|done|done|].
  rewrite Ew in Ew2. by injection Ew2 as <-.
Qed.

(** The server closes the connection after one answer. *)
Section closes.
#[local] Instance ex_closing : OS flaky := flaky_os ex_kenv 3 true.

Lemma resync_returns_safe_witness :
  let region := grains_region 8 8 (selected ex_bits NO_RESYNC) 0 (MAX_BITS_LEN - 0) in
  exists w', restart_resync 0 0 NO_RESYNC (ex_flaky true) = Ret tt w' /\
    (forall a, region a = false -> tgt_of ex_flaky_peer w' a = tgt_of ex_flaky_peer (ex_flaky true) a) /\
    (answers_whole ex_flaky_peer 0 3 8 8 ->
     partly (the_bytes (pr_src ex_flaky_peer)) region (tgt_of ex_flaky_peer (ex_flaky true)) (tgt_of ex_flaky_peer w')).
Proof.
  apply (resync_returns_safe ex_flaky_peer 0 3 6 8 8 0 ex_bits NO_RESYNC 0 (ex_flaky true)).
  - apply flaky_laws, ex_flaky_size.
  - lia.
  - apply ex_flaky_size.
  - exact wf_ex_bits.
  - exact length_ex_bits.
  - lia.
  - cbn. lia.
  - intros b c _ Hb Hc. unfold selected in Hb. rewrite orb_false_r in Hb. pose proof (ex_bits_range b Hb).
    apply ex_flaky_fit in Hb. change (8 / 8) with 1 in Hc. unfold chunk_addr. lia.
  - apply ex_flaky_ready.
  - vm_compute. congruence.
  - unfold MAX_BITS_LEN. lia.
Defined.
End closes.

(** ** What goes wrong *)

(** A round up to the write of the target disk, when request and answer are
    taken for successes. *)
Lemma round_received {E} `{OS E} (P : peer E) pid fd fdt G C blk m bit c buff w r e1 n bytes e2 :
  0 <= pid < 2048 -> ready P pid fd fdt G C blk m w -> 0 <= 512 * (bit * G + c * C) < 2 ^ 63 ->
  let w1 := asked pid bit c w in
  os_send_hdr fd (aget (replic_hdr_client_obj w1) pid) (ext w) = (r, e1) -> 0 <= r ->
  os_recv fd BUF_SIZE_IN_BYTES e1 = (n, bytes, e2) -> 0 <= n -> os_errno e2 <> ETIMEDOUT ->
  chunk_round pid bit c buff w =
    bind (chunk_write_client fdt (fill bytes buff) BUF_SIZE_IN_BYTES (bit * G + c * C))
      (fun r => when (r <? 0)
          (wr MAX_DISKS ebdr_disk_target_obj pid (fun d => d <| dsk_state := DISK_OBJ_PAUSE |>);;;
           ebdr_log;;; pthread_cancel_self);;;
        ret (None, fill bytes buff)) (w1 <| ext := e2 |>).
Proof.
  intros Hpid Hr Hoff w1 Es Hrr Er Hn Herr.
  rewrite (chunk_round_asked P pid fd fdt G C blk m Hpid w bit c buff Hr) by lia. cbv zeta. fold w1.
  pose proof (asked_ready P pid fd fdt G C blk m bit c w Hr) as Hr1. fold w1 in Hr1.
  destruct (client_send_ok P pid fd fdt G C blk m Hpid (aget (replic_hdr_client_obj w1) pid) w1 Hr1) as (r0 & Es0 & Er0).
  change (ext w1) with (ext w) in Es0, Er0. rewrite Es in Es0, Er0. cbn [fst snd] in Es0, Er0.
  rewrite (bind_Ret _ _ _ _ _ Es0), Er0. replace (r <? 0) with false by bool_solve.
  pose proof Hr1 as [Hcan _ _ _ _ _ _ _ _ _ Hdisk _ _ _ _ _ _].
  rewrite bind_log by (wsimpl; done). unfold chunk_read_client. rewrite bind_assoc, bind_log by (wsimpl; done).
  rewrite bind_assoc. erewrite bind_sys by (wsimpl; rewrite Er; reflexivity).
  cbv beta iota. rewrite bind_assoc, bind_get. wsimpl.
  replace ((n <? 0) || _) with false by (symmetry; apply orb_false_iff; split; bool_solve).
  rewrite bind_ret. cbv beta iota. change (0 <? 0) with false. cbv iota.
  rewrite bind_rd by (unfold MAX_DISKS; lia). wsimpl. by rewrite Hdisk.
Qed.

Lemma chunk_write_steps {E} `{OS E} fdt buff off (w : world E) x e1 n e2 :
  cancel_pending w = false -> length buff = 4096%nat -> 0 <= 512 * off < 2 ^ 63 ->
  os_lseek fdt (512 * off) (ext w) = (x, e1) -> 0 <= x -> os_write fdt buff e1 = (n, e2) ->
  chunk_write_client fdt buff BUF_SIZE_IN_BYTES off w = Ret (if n <? 0 then n else 0) (w <| ext := e2 |>).
Proof.
  intros Hcan Hb Hoff Ex Hx En. unfold chunk_write_client. replace (i64 (u64 (off * CHUNK_SIZE))) with (512 * off).
  2:{ unfold CHUNK_SIZE, u64, i64. rewrite (Z.mod_small (off * 512)) by lia. rewrite Z.mod_small; lia. }
  rewrite (bind_sys _ _ _ _ _ Ex). replace (x <? 0) with false by bool_solve.
  rewrite take_ge by (rewrite Hb; unfold BUF_SIZE_IN_BYTES; lia).
  rewrite (bind_sys _ _ _ n e2) by exact En. destruct (n <? 0); by rewrite bind_log by (wsimpl; done).
Qed.

(** If the server closes the connection before it answers, [recv] returns
    0 and the client takes the round for a success: it writes the old content
    of its buffer (the previous chunk) over the chunk of the target disk. *)
Theorem closed_connection_writes_stale_chunk {E} `{OS E} (P : peer E) pid fd fdt G C blk m bit c buff w r e1 e2 x e3 n e4 :
  0 <= pid < 2048 -> ready P pid fd fdt G C blk m w -> length buff = 4096%nat ->
  0 <= 512 * (bit * G + c * C) < 2 ^ 63 ->
  os_send_hdr fd (aget (replic_hdr_client_obj (asked pid bit c w)) pid) (ext w) = (r, e1) -> 0 <= r ->
  os_recv fd BUF_SIZE_IN_BYTES e1 = (0, [], e2) -> os_errno e2 <> ETIMEDOUT ->
  os_lseek fdt (512 * (bit * G + c * C)) e2 = (x, e3) -> 0 <= x ->
  os_write fdt buff e3 = (n, e4) -> 0 <= n ->
  chunk_round pid bit c buff w = Ret (None, buff) (asked pid bit c w <| ext := e4 |>).
Proof.
  intros Hpid Hr Hb Hoff Es Hrr Er Herr Ex Hx En Hn.
  erewrite (round_received P); [|done..|lia|done]. change (fill [] buff) with buff.
  erewrite bind_Ret; [|eapply chunk_write_steps; [exact (rd_cancel _ _ _ _ _ _ _ _ _ Hr)|done|done|exact Ex|done|exact En]].
  replace (n <? 0) with false by bool_solve. done.
Qed.


(** The client on a machine of its own: nothing on its socket. *)
#[local] Instance ex_hosted : OS host := host_os ex_kenv.

Definition host_peer : peer host := {|
  pr_src := fun _ => 0; pr_size := 0; pr_tgt := fun e => bytes_image (ho_disk e);
  pr_works := fun _ => True; pr_good := fun _ => True;
|}.

Lemma ex_host_ready e : ready host_peer 0 3 6 8 8 0 ex_bits (ex_client_on e).
Proof. by constructor. Qed.

Definition ex_chunk (b : Z) : mem := replicate (Z.to_nat 4096) b.

Lemma length_ex_chunk b : length (ex_chunk b) = 4096%nat.
Proof. unfold ex_chunk. by rewrite length_replicate. Qed.

#[global] Opaque ex_chunk.

Lemma closed_connection_writes_stale_chunk_witness :
  exists e, chunk_round 0 2 0 (ex_chunk 9) (ex_client_on (host0 <| ho_disk := ex_tgt |>)) =
    Ret (None, ex_chunk 9) (asked 0 2 0 (ex_client_on (host0 <| ho_disk := ex_tgt |>)) <| ext := e |>) /\
    ho_disk e = write_at 8192 (ex_chunk 9) ex_tgt.
Proof.
  eexists. split.
  - eapply (closed_connection_writes_stale_chunk host_peer 0 3 6 8 8 0 ex_bits 2 0);
      [lia|apply ex_host_ready|apply length_ex_chunk|lia|reflexivity|cbn; lia|reflexivity|cbn; unfold ETIMEDOUT; lia
      |reflexivity|lia|cbn; reflexivity|lia].
  - reflexivity.
Defined.



(** The thread function of a resync writes at least eleven bytes (with
    the terminator) into [char str[10]] for every partner: it never gets to
    the resync itself without undefined behaviour. *)
Theorem resync_handler_overflows {E} `{OS E} slot (w : world E) :
  0 <= slot < MAX_DISKS + CNTRL_THREADS -> resync_handler slot w = Stop Undefined w.
Proof.
  intros Hs. unfold resync_handler. rewrite bind_rd by done. unfold bind. rewrite cstring_overflow; [done|].
  rewrite !slen_app. pose proof (slen_dec_pos (th_pid (aget (thread_params w) slot))).
  change (slen "./log") with 5. change (slen ".txt") with 4. lia.
Qed.

Lemma resync_handler_overflows_witness : resync_handler 0 ex_client = Stop Undefined ex_client.
Proof. apply resync_handler_overflows. unfold MAX_DISKS, CNTRL_THREADS. lia. Defined.
