(* ===== verification/CommonLinkProps.v ===== *)
(** * The link monitor of user/common

    A datagram is a sequence of messages, each padded to a multiple of 4 bytes.
    The loop over the buffer handles exactly the messages received, in order;
    then what a message about a link does to the daemon. *)
From S2P Require Import Prelude Memory KernelState CMonad CString World CommonLink WorldTac Sim ResyncProps.

(** ** Datagrams *)
Record nl_message := mk_nl { nl_type : Z; nl_payload : mem }.

Definition nl_len (m : nl_message) : Z := 16 + Z.of_nat (length (nl_payload m)).
Definition nl_padding (m : nl_message) : nat := Z.to_nat ((- nl_len m) mod 4).

(** The flags, sequence number and port of the header are of no concern. *)
Definition nl_encode (m : nl_message) : mem :=
  le_bytes 4 (nl_len m) ++ le_bytes 2 (nl_type m) ++ le_bytes 10 0 ++ nl_payload m ++ replicate (nl_padding m) 0.

Definition nl_datagram (ms : list nl_message) : mem := mjoin (map nl_encode ms).

(** A message about a link carries a struct ifinfomsg. *)
Definition nl_ok (m : nl_message) : Prop :=
  0 <= nl_type m < 2 ^ 16 /\ nl_len m < 2 ^ 16 /\ (nl_type m = RTM_NEWLINK -> 16 <= Z.of_nat (length (nl_payload m))).

(** The interface of the message is running. *)
Definition nl_running (m : nl_message) : bool :=
  negb (Z.land (le_value (take 4 (drop 8 (nl_payload m)))) IFF_RUNNING =? 0).

Lemma nl_encode_length m : Z.of_nat (length (nl_encode m)) = 4 * ((nl_len m + 3) / 4) /\ 16 <= Z.of_nat (length (nl_encode m)).
Proof.
  unfold nl_encode. rewrite !length_app, !length_le_bytes, length_replicate. unfold nl_padding, nl_len.
  rewrite !Nat2Z.inj_add, Z2Nat.id by (apply Z.mod_pos_bound; lia).
  set (n := Z.of_nat (length (nl_payload m))). assert (0 <= n) by lia. split; Z.to_euclidean_division_equations; lia.
Qed.

Lemma nl_align m : nl_len m < 2 ^ 16 -> NLMSG_ALIGN (nl_len m) = Z.of_nat (length (nl_encode m)).
Proof.
  intros Hl. assert (0 <= nl_len m) by (unfold nl_len; lia). unfold NLMSG_ALIGN. rewrite u32_id by lia.
  rewrite (proj1 (nl_encode_length m)). rewrite <- Z.ldiff_land. change 3 with (Z.ones 2).
  rewrite Z.ldiff_ones_r by lia. rewrite Z.shiftl_mul_pow2, Z.shiftr_div_pow2 by lia. lia.
Qed.

(** ** The loop *)
Section monitor.
Context {E : Type} `{OS E} `{LinkOS E}.

(** What the messages ask for, one after the other. *)
Fixpoint nl_handle (srv : bool) (ms : list nl_message) : MW E (option Z) :=
  match ms with
  | [] => ret None
  | m :: ms' =>
      if nl_type m =? NLMSG_DONE then ret (Some 0) else
      if nl_type m =? NLMSG_ERROR then ret (Some (-1)) else
      (if nl_type m =? RTM_NEWLINK then if nl_running m then link_up srv else link_lost srv else ret tt);;;
      nl_handle srv ms'
  end.

Lemma load_payload n pre m tail off :
  0 <= off -> off + Z.of_nat n <= Z.of_nat (length (nl_payload m)) ->
  load n (pre ++ nl_encode m ++ tail) (Z.of_nat (length pre) + 16 + off) =
    Some (le_value (take n (drop (Z.to_nat off) (nl_payload m)))).
Proof.
  intros Ho Hn. unfold load, nl_encode. replace (in_buffer n _ _) with true.
  2:{ symmetry. apply in_buffer_spec. rewrite !length_app, !length_le_bytes. lia. }
  do 2 f_equal. rewrite !app_assoc.
  set (hd := ((pre ++ le_bytes 4 _) ++ _) ++ _). assert (Hh : length hd = (length pre + 16)%nat).
  { unfold hd. rewrite !length_app, !length_le_bytes. lia. }
  rewrite <- !app_assoc. rewrite drop_app_ge by lia.
  replace (Z.to_nat _ - length hd)%nat with (Z.to_nat off) by lia.
  rewrite drop_app_le by lia. by rewrite take_app_le by (rewrite length_drop; lia).
Qed.

Lemma load_header pre m tail :
  nl_ok m ->
  load 4 (pre ++ nl_encode m ++ tail) (Z.of_nat (length pre)) = Some (nl_len m) /\
  load 2 (pre ++ nl_encode m ++ tail) (Z.of_nat (length pre) + 4) = Some (nl_type m).
Proof.
  intros (Ht & Hl & _). assert (0 <= nl_len m) by (unfold nl_len; lia). unfold nl_encode. rewrite <- !app_assoc. split.
  - rewrite load_app by done. f_equal. apply Z.mod_small. cbn. lia.
  - rewrite (app_assoc pre). rewrite load_app by (rewrite length_app, length_le_bytes; lia). f_equal. apply Z.mod_small. cbn. lia.
Qed.

Lemma link_messages_step fuel srv pre m tail status w :
  nl_ok m -> Z.of_nat (length (nl_encode m)) <= status < 2 ^ 31 ->
  link_messages (S fuel) srv (pre ++ nl_encode m ++ tail) (Z.of_nat (length pre)) status w =
    (if nl_type m =? NLMSG_DONE then ret (Some 0) else
     if nl_type m =? NLMSG_ERROR then ret (Some (-1)) else
     (if nl_type m =? RTM_NEWLINK then if nl_running m then link_up srv else link_lost srv else ret tt);;;
     link_messages fuel srv ((pre ++ nl_encode m) ++ tail) (Z.of_nat (length (pre ++ nl_encode m)))
       (status - Z.of_nat (length (nl_encode m)))) w.
Proof.
  intros Hok Hst. destruct (load_header pre m tail Hok) as [H4 H2]. pose proof (nl_encode_length m) as [Hlen H16].
  destruct Hok as (Ht & Hl & Hnew). pose proof (nl_align m Hl) as Ha.
  assert (Hle : nl_len m <= Z.of_nat (length (nl_encode m))) by (rewrite Hlen; Z.to_euclidean_division_equations; lia).
  assert (16 <= nl_len m) by (unfold nl_len; lia).
  cbn [link_messages]. unfold NLMSG_OK, NLMSG_HDRLEN. rewrite u32_id by lia.
  replace (16 <=? status) with true by bool_solve. cbn [negb andb].
  rewrite H4, bind_of_option.
  replace (16 <=? nl_len m) with true by bool_solve. replace (nl_len m <=? status) with true by bool_solve.
  cbn [negb andb]. rewrite H2, bind_of_option, Ha, length_app, Nat2Z.inj_add, i32_id, <- app_assoc by lia.
  destruct (nl_type m =? NLMSG_DONE); [done|]. destruct (nl_type m =? NLMSG_ERROR); [done|].
  destruct (nl_type m =? RTM_NEWLINK) eqn:En; [|done]. apply Z.eqb_eq, Hnew in En.
  by rewrite load_payload by lia.
Qed.

(** As many rounds as messages, one to find the end. *)
Lemma link_messages_handle srv ms : forall fuel pre tail w,
  Forall nl_ok ms -> (length ms < fuel)%nat -> Z.of_nat (length (nl_datagram ms)) < 2 ^ 31 ->
  link_messages fuel srv (pre ++ nl_datagram ms ++ tail) (Z.of_nat (length pre)) (Z.of_nat (length (nl_datagram ms))) w =
  nl_handle srv ms w.
Proof.
  induction ms as [|m ms IH]; intros fuel pre tail w Hok Hfuel Hlen; destruct fuel as [|fuel]; [cbn in Hfuel; lia|done|cbn in Hfuel; lia|].
  apply Forall_cons in Hok as [Hm Hok]. change (nl_datagram (m :: ms)) with (nl_encode m ++ nl_datagram ms) in *.
  rewrite length_app, Nat2Z.inj_add in Hlen |- *. rewrite <- app_assoc, link_messages_step by (done || lia).
  cbn [nl_handle]. destruct (nl_type m =? NLMSG_DONE); [done|]. destruct (nl_type m =? NLMSG_ERROR); [done|].
  apply bind_ext. intros [] w'. rewrite Z.add_simpl_l. apply IH; [done|cbn in Hfuel; lia|lia].
Qed.

(** [g_pid] is never assigned, so both builds act on element -1. *)
Lemma link_up_client_undefined w : exists w', link_up false w = Stop Undefined w'.
Proof. eexists. reflexivity. Qed.

Lemma link_lost_undefined srv w : exists w', link_lost srv w = Stop Undefined w'.
Proof. destruct srv; eexists; reflexivity. Qed.

Lemma nl_handle_quiet srv ms w :
  Forall (fun m => nl_type m <> RTM_NEWLINK) ms -> exists r, nl_handle srv ms w = Ret r w.
Proof.
  induction 1 as [|m ms Hm _ IH]; cbn [nl_handle]; [by eexists|].
  destruct (nl_type m =? NLMSG_DONE); [by eexists|]. destruct (nl_type m =? NLMSG_ERROR); [by eexists|].
  by rewrite (proj2 (Z.eqb_neq _ _) Hm).
Qed.

Lemma nl_handle_client_link ms m w :
  Forall (fun m => nl_type m <> NLMSG_DONE /\ nl_type m <> NLMSG_ERROR) ms -> m ∈ ms -> nl_type m = RTM_NEWLINK ->
  exists w', nl_handle false ms w = Stop Undefined w'.
Proof.
  intros Hall Hm Ht. revert w. induction Hall as [|m0 ms [Hd He] _ IH]; intros w; [by apply elem_of_nil in Hm|]. cbn [nl_handle].
  rewrite (proj2 (Z.eqb_neq _ _) Hd), (proj2 (Z.eqb_neq _ _) He).
  assert (Hs : forall act : MW E unit, (exists w', act w = Stop Undefined w') ->
    exists w', bind act (fun _ => nl_handle false ms) w = Stop Undefined w').
  { intros act [w' Ha]. unfold bind. rewrite Ha. by eexists. }
  destruct (Z.eqb_spec (nl_type m0) RTM_NEWLINK) as [_|Hn].
  - apply Hs. destruct (nl_running m0); [apply link_up_client_undefined|apply link_lost_undefined].
  - apply elem_of_cons in Hm as [->|Hm]; [done|]. by apply IH.
Qed.

(** C31. The link monitor of user/common reads exactly the messages of the
    datagram it received, in order and up to the first end or error message,
    whatever the buffer held before.  Without a message about a link it changes
    nothing.  With one, the client's daemon does something undefined: the
    partner it would pause or reconnect is element -1. *)
Theorem link_monitor srv fd ms tail (w : world E) e :
  Forall nl_ok ms -> Z.of_nat (length (nl_datagram ms ++ tail)) = 4096 ->
  lo_recvmsg fd (ext w) = (Z.of_nat (length (nl_datagram ms)), nl_datagram ms ++ tail, e) ->
  link_status_check srv fd w = nl_handle srv ms (w <| ext := e |>) /\
  (Forall (fun m => nl_type m <> RTM_NEWLINK) ms -> exists r, link_status_check srv fd w = Ret r (w <| ext := e |>)) /\
  (Forall (fun m => nl_type m <> NLMSG_DONE /\ nl_type m <> NLMSG_ERROR) ms -> Exists (fun m => nl_type m = RTM_NEWLINK) ms ->
   exists w', link_status_check false fd w = Stop Undefined w').
Proof.
  intros Hok Hlen Hr. rewrite length_app in Hlen.
  assert (Hcheck : forall srv, link_status_check srv fd w = nl_handle srv ms (w <| ext := e |>)).
  { intros b. unfold link_status_check, bind, sys. rewrite Hr. replace (_ <? 0) with false by bool_solve.
    apply (link_messages_handle b ms link_fuel [] tail); [done| |lia].
    assert (Hsz : 16 * Z.of_nat (length ms) <= Z.of_nat (length (nl_datagram ms))).
    { clear. induction ms as [|m ms IH]; [done|]. change (nl_datagram (m :: ms)) with (nl_encode m ++ nl_datagram ms).
      rewrite length_app. cbn [length]. pose proof (nl_encode_length m). lia. }
    unfold link_fuel. lia. }
  split; [apply Hcheck|]. split; intros.
  - rewrite Hcheck. by apply nl_handle_quiet.
  - match goal with He : Exists _ _ |- _ => apply Exists_exists in He as (m & Hm & Ht) end.
    rewrite Hcheck. by eapply nl_handle_client_link.
Qed.
End monitor.

(** ** Examples *)
Definition ex_up : nl_message := mk_nl RTM_NEWLINK (replicate 8 0 ++ le_bytes 4 IFF_RUNNING ++ replicate 4 0).
Definition ex_noise : nl_message := mk_nl 20 (replicate 6 7).

(** A machine whose netlink socket delivers [n] bytes into [buf]. *)
#[local] Existing Instance ex_hosted.
Definition ex_netlink (n : Z) (buf : mem) : LinkOS host := {|
  lo_socket e := (9, e); lo_bind _ e := (0, e);
  lo_recvmsg _ e := (n, buf, e);
  lo_select e := ((false, true), e);
  lo_link_down _ := -1; lo_set_link_down _ e := e; |}.

Definition ex_datagram : mem := nl_datagram [ex_noise; ex_up].

Lemma link_monitor_witness :
  let buf := ex_datagram ++ replicate 4040 204 in
  let w := world0 host0 in
  (@link_status_check host _ (ex_netlink 56 buf) true 9 w = @nl_handle host _ (ex_netlink 56 buf) true [ex_noise; ex_up] (w <| ext := ext w |>)) /\
  exists w', @link_status_check host _ (ex_netlink 56 buf) false 9 w = Stop Undefined w'.
Proof.
  intros buf w.
  destruct (@link_monitor host _ (ex_netlink 56 buf) true 9 [ex_noise; ex_up] (replicate 4040 204) w (ext w)) as (H1 & _ & H3);
    [repeat constructor; vm_compute; congruence|reflexivity|reflexivity|].
  split; [exact H1|]. apply H3; [repeat constructor; vm_compute; congruence|].
  apply Exists_cons_tl, Exists_cons_hd. reflexivity.
Defined.

(** NLMSG_OK compares the remaining length as unsigned: after a message whose
    length is not a multiple of 4 and ends the datagram the rest is a negative
    number, and the loop goes on with what the buffer held before. *)
Example unaligned_datagram_reads_on :
  let buf := take 17 (nl_encode (mk_nl 20 [7])) ++ replicate 3 0 ++ nl_encode ex_up ++ replicate 4044 0 in
  exists w', @link_status_check host _ (ex_netlink 17 buf) false 9 (world0 host0) = Stop Undefined w'.
Proof. eexists. vm_compute. reflexivity. Qed.
