(* ===== verification/SnapshotSpec.v ===== *)
(** * The snapshot of the bitmap

    The daemon and the kernel module share the bitmap area of a device.
    [KernelLink] is what the daemon needs of the ioctl and the mapping: they
    are those of the kernel module.  Against it: taking a snapshot copies the
    half the kernel was using and moves the kernel to the other one; releasing
    it clears the copied half only. *)
From S2P Require Import Prelude Memory KernelState KBitmap KBitmapSpec KernelMain KernelInv KernelSteps KernelProps KernelTrace CMonad CString.
From S2P Require Import World UBitmap WorldTac UBitmapSpec.

Class KernelLink {E : Type} `{OS E} `{KBitops} (env : kenv) (kern : E -> kstate) := {
  kl_ioctl : forall fd cmd obj e r obj' k',
    ebdr_ctl_ioctl env cmd obj (kern e) = Some (r, obj', k') ->
    exists e', os_ioctl fd cmd obj e = (r, obj', e') /\ kern e' = k';
  kl_read : forall a m e, vmalloc_area (kern e) !! a = Some m -> os_map_read a e = m;
  kl_write : forall a m e, kern (os_map_write a m e) = (kern e) <| vmalloc_area ::= fun v => <[a := m]> v |>;
}.

(** The source disk [pid] of the daemon maps the area of minor [pid + 1]. *)
Record mapped {E} (pid sz : Z) (w : world E) : Prop := {
  mp_active : dsk_active (aget (ebdr_disk_src_obj w) pid) = Some (mk_mptr (pid + 1) 0);
  mp_backup : dsk_backup (aget (ebdr_disk_src_obj w) pid) = Some (mk_mptr (pid + 1) sz);
  mp_size : dsk_bitmap_size (aget (ebdr_disk_src_obj w) pid) = sz;
}.

(** The daemon's buffer for the partner: [bytes] in block [blk]. *)
Record buffered {E} (pid blk : Z) (bytes : mem) (w : world E) : Prop := {
  bf_area : ub_area (aget (bitmap_server_obj w) pid) = Some blk;
  bf_heap : heap w !! blk = Some bytes;
}.

Section snapshot.
Context {E : Type} `{OS E} `{KBitopsLaws} (env : kenv) (kern : E -> kstate).
Context `{!KernelLink env kern}.
Context (Hcopy : env_copy_from_user env = true).

Definition kernel_of (w : world E) : kstate := kern (ext w).

(** ** The ioctls *)
Lemma ioctl_ok cmd w r obj' k' :
  ebdr_ctl_ioctl env cmd (ioctl_obj w) (kernel_of w) = Some (r, obj', k') -> 0 <= r ->
  exists e', kern e' = k' /\ forall B (k : Z -> MW E B),
    bind (prepare_and_send_ioctl_cmd cmd) k w = k r (w <| ext := e' |> <| ioctl_obj := obj' |>).
Proof.
  intros Hio Hr. destruct (kl_ioctl (kern := kern) (ioctl_fd w) _ _ (ext w) _ _ _ Hio) as (e' & Eio & Hk'). exists e'. split; [done|]. intros B k.
  unfold prepare_and_send_ioctl_cmd. rewrite !bind_assoc, bind_get. rewrite bind_assoc, bind_get. rewrite bind_assoc.
  erewrite bind_sys by (rewrite Eio; reflexivity). cbv beta iota. rewrite bind_assoc, bind_put.
  replace (r <? 0) with false by bool_solve. done.
Qed.

Lemma get_user_ok arg s i bm p m :
  kwf s -> io_index arg = i -> 1 <= i < minor s -> bm_ok s i bm p m ->
  exists s', ebdr_ctl_ioctl env EBDRCTL_GET_USER arg s = Some (kb_user bm, arg, s') /\ kwf s' /\ bm_ok s' i bm p m /\
    minor s' = minor s /\ area_sz s' i = area_sz s i /\ device s' = device s /\ bd_dev s' = bd_dev s.
Proof.
  intros Hwf <- Hi Hok. pose proof Hok as [G A B M W L S Hh [Z1 Z2] D].
  assert (Hget : ioctl_get_user env arg s = Some (kb_user bm, s <| k_ioctl_obj := arg |>)).
  { unfold ioctl_get_user. rewrite Hcopy. cbn [negb].
    rewrite inb_true by (destruct Hwf as [? _]; unfold MAX_MINOR in *; lia). cbn [negb].
    change (get_bmap (io_index arg) (s <| k_ioctl_obj := arg |>)) with (get_bmap (io_index arg) s).
    rewrite G. cbn. rewrite A. cbn. rewrite B, M. cbn.
    destruct (load_Some 8 m (kp_off p)) as [v ->]; [lia..|]. done. }
  exists (s <| k_ioctl_obj := arg |>). cbn [ebdr_ctl_ioctl]. rewrite Hget. cbn. split; [done|].
  assert (Hfr : frames s (s <| k_ioctl_obj := arg |>)) by by eapply get_user_frames.
  split; [by eapply frames_kwf|]. split; [|done]. eapply bm_ok_frame; [|exact Hok].
  apply Hfr; [apply Hwf|done].
Qed.

(** ** Copying a half *)
Lemma bind_map_bytes {B} p m (k : Z * mem -> MW E B) w :
  vmalloc_area (kernel_of w) !! mp_area p = Some m -> bind (map_bytes (Some p)) k w = k (mp_off p, m) w.
Proof.
  intros Hm. unfold map_bytes. rewrite bind_assoc. unfold of_option. rewrite bind_ret, bind_assoc, bind_get, bind_ret.
  by rewrite (kl_read (kern := kern) _ _ (ext w) Hm).
Qed.

Lemma deref_map_ok p m w :
  vmalloc_area (kernel_of w) !! mp_area p = Some m -> 0 <= mp_off p -> mp_off p + 8 <= Z.of_nat (length m) ->
  exists v, deref_map (Some p) w = Ret v w.
Proof.
  intros Hm Hp Hl. destruct (load_Some 8 m (mp_off p)) as [v Hv]; [lia..|]. exists v.
  unfold deref_map. unfold of_option at 1. rewrite bind_ret, bind_get. by rewrite (kl_read (kern := kern) _ _ (ext w) Hm), Hv.
Qed.

(** The world after a half has been copied. *)
Definition taken (pid user blk : Z) (dest : mem) (w : world E) : world E :=
  w <| ioctl_obj ::= fun o => o <| io_bmap_user := user |> |>
    <| bitmap_server_obj ::= aset pid (fun b => b <| ub_user := user |>) |>
    <| heap ::= fun h => <[blk := dest]> h |>.

Lemma bind_take_half {B} pid user half p m blk dest dest' (k : unit -> MW E B) w :
  0 <= pid < 2048 -> cancel_pending w = false -> half (aget (ebdr_disk_src_obj w) pid) = Some p ->
  vmalloc_area (kernel_of w) !! mp_area p = Some m -> buffered pid blk dest w ->
  ebdr_copy_mmaped_bitmap (ub_size (aget (bitmap_server_obj w) pid)) (mp_off p) m dest = Some dest' ->
  bind (take_half pid pid user half) k w = k tt (taken pid user blk dest' w).
Proof.
  intros Hpid Hcan Hhalf Hm [Harea Hheap] Hcp. unfold take_half. rewrite bind_assoc, bind_modify.
  rewrite bind_assoc, bind_wr by (unfold MAX_BITMAP; lia). rewrite bind_assoc, bind_rd by (unfold MAX_BITMAP; lia).
  rewrite bind_assoc, bind_rd by (unfold MAX_DISKS; lia). wsimpl. rewrite Hhalf.
  rewrite bind_assoc, (bind_map_bytes p m) by exact Hm. cbv beta iota.
  rewrite bind_assoc, (bind_block _ blk dest) by (wsimpl; done). rewrite Hcp, bind_assoc, bind_of_option.
  rewrite bind_assoc. unfold set_block at 1. unfold bind at 1. cbn [mbind option_bind]. wsimpl. rewrite Harea. cbn. wsimpl. rewrite Hheap. cbn.
  rewrite bind_log by (wsimpl; done). done.
Qed.

(** ** Taking the snapshot *)
Record snap_ready (pid sz blk : Z) (bytes : mem) (bm : ebdr_bitmap) (p : kptr) (m : mem) (w : world E) : Prop := {
  sr_pid : 0 <= pid < 2048;
  sr_cancel : cancel_pending w = false;
  sr_kwf : kwf (kernel_of w);
  sr_minor : 1 <= pid + 1 < minor (kernel_of w);
  sr_bm : bm_ok (kernel_of w) (pid + 1) bm p m;
  sr_sz : area_sz (kernel_of w) (pid + 1) = sz;
  sr_mapped : mapped pid sz w;
  sr_buffered : buffered pid blk bytes w;
  sr_fits : sz <= Z.of_nat (length bytes);
  sr_recovery : aget (recovery_mode w) pid = 0;
  sr_resume : cn_state (aget (ebdr_conn_server w) pid) <> CONN_OBJ_RESUME;
}.

(** What the snapshot leaves: the copied bits in the buffer, the kernel on the
    other half. *)
Record snapped (pid sz blk : Z) (bm : ebdr_bitmap) (p : kptr) (m : mem) (w w' : world E) : Prop := {
  sn_cancel : cancel_pending w' = false;
  sn_kwf : kwf (kernel_of w');
  sn_minor : minor (kernel_of w') = minor (kernel_of w);
  sn_bm : exists bm' p', bm_ok (kernel_of w') (pid + 1) bm' p' m /\ kp_off p' = sz - kp_off p /\
            kb_grain_size bm' = kb_grain_size bm;
  sn_sz : area_sz (kernel_of w') (pid + 1) = sz;
  sn_dev : device (kernel_of w') = device (kernel_of w) /\ bd_dev (kernel_of w') = bd_dev (kernel_of w);
  sn_mapped : mapped pid sz w';
  sn_bits : exists bytes', buffered pid blk bytes' w' /\ 8 <= Z.of_nat (length bytes') /\
            forall k, 0 <= k < 8 * sz -> mem_bit bytes' k = mem_bit m (8 * kp_off p + k);
  sn_user : ub_user (aget (bitmap_server_obj w') pid) = 1 - kb_user bm;
}.

(** The half the kernel uses is the one the daemon copies. *)
Lemma half_in_use {B} pid sz bm p (f g : B) s m :
  bm_ok s (pid + 1) bm p m -> area_sz s (pid + 1) = sz ->
  (if kb_user bm =? KERNEL then f else g) = (if kp_off p =? 0 then f else g) /\
  (kp_off p = 0 \/ kp_off p = sz) /\ (kb_user bm = KERNEL <-> kp_off p = 0) /\ (kb_user bm = 0 \/ kb_user bm = 1).
Proof.
  intros Hok <-. destruct (bo_half _ _ _ _ _ Hok) as [[Hu Ho]|[Hu Ho]]; rewrite Hu, Ho.
  - unfold KERNEL. split; [done|]. split; [by left|]. split; [done|]. by left.
  - destruct (bo_sz _ _ _ _ _ Hok) as [Hsz _]. unfold KERNEL, USER. split.
    + by replace (area_sz s (pid + 1) =? 0) with false by bool_solve.
    + split; [by right|]. split; [split; lia|]. by right.
Qed.

(** After GET_USER: the copy and the flip. *)
Lemma copy_and_flip pid sz blk bytes bm p m w user half :
  snap_ready pid sz blk bytes bm p m w -> io_index (ioctl_obj w) = pid + 1 ->
  ub_size (aget (bitmap_server_obj w) pid) = sz -> user = 1 - kb_user bm ->
  half (aget (ebdr_disk_src_obj w) pid) = Some (mk_mptr (pid + 1) (kp_off p)) ->
  exists w', snapped pid sz blk bm p m w w' /\
    (take_half pid pid user half;;; ebdr_log;;;
     ret_ <- prepare_and_send_ioctl_cmd EBDR_FLIP_BITMAP_AREA;; when (ret_ <? 0) stop_work;;; ebdr_log) w = Ret tt w'.
Proof.
  intros [Hpid Hcan Hwf Hmin Hok Hsz Hmap Hbuf Hfit _ _] Hidx Hub -> Hhalf.
  pose proof Hok as [G A B M W L S Hh Z1 D]. rewrite Hsz in *.
  assert (Hoff : 0 <= kp_off p /\ kp_off p + sz <= Z.of_nat (length m)) by (destruct Z1; lia).
  destruct (copy_ok sz (kp_off p) m bytes) as (bytes' & Ecp & Hsh & Hbits); [done|lia|destruct Z1; lia|apply Z1|lia|lia|].
  set (w1 := taken pid (1 - kb_user bm) blk bytes' w).
  destruct (flip_spec env (ioctl_obj w1) (kernel_of w1) (pid + 1) bm p m) as (s2 & bm2 & p2 & E2 & Hwf2 & Hok2 & _ & Hp2 & _ & Hm2 & Hs2 & Hg2);
    try done.
  destruct (flip_devices _ _ _ _ _ E2) as [Hd2 Hb2].
  assert (Hio : ebdr_ctl_ioctl env EBDR_FLIP_BITMAP_AREA (ioctl_obj w1) (kernel_of w1) = Some (0, ioctl_obj w1, s2)).
  { cbn [ebdr_ctl_ioctl]. by rewrite E2. }
  destruct (ioctl_ok EBDR_FLIP_BITMAP_AREA w1 0 (ioctl_obj w1) s2 Hio ltac:(lia)) as (e2 & Hk2 & Hflip).
  set (w2 := w1 <| ext := e2 |> <| ioctl_obj := ioctl_obj w1 |>).
  assert (Hkern : kernel_of w2 = s2) by exact Hk2.
  exists w2. split.
  - constructor; rewrite ?Hkern; try done.
    + exists bm2, p2. split; [done|]. split; [|done]. change (kernel_of w1) with (kernel_of w) in Hp2. by rewrite Hp2, Hsz.
    + change (kernel_of w1) with (kernel_of w) in Hs2. by rewrite Hs2.
    + destruct Hmap. by constructor.
    + exists bytes'. split; [destruct Hbuf; unfold w2, w1, taken; constructor; wsimpl; [done|apply lookup_insert_eq]|].
      split; [rewrite (shape_len _ _ Hsh); destruct Z1; lia|]. intros k Hk. rewrite Hbits. unfold in_range.
      by replace (_ && _) with true by bool_solve.
    + unfold w2, w1, taken. by wsimpl.
  - erewrite (bind_take_half pid _ half); [|done|done|exact Hhalf|exact M|exact Hbuf|rewrite Hub; exact Ecp].
    fold w1. rewrite bind_log by done. rewrite Hflip. change (0 <? 0) with false. cbn [when]. rewrite bind_ret.
    by rewrite log_ok by done.
Qed.

Lemma snapshot_ok pid sz blk bytes bm p m w :
  snap_ready pid sz blk bytes bm p m w ->
  exists w', server_bitmap_load_from_memory pid pid w = Ret 0 w' /\ snapped pid sz blk bm p m w w'.
Proof.
  intros Hs. pose proof Hs as [Hpid Hcan Hwf Hmin Hok Hsz Hmap Hbuf Hfit Hrec Hres].
  pose proof Hmap as [Hact Hbak Hsize]. pose proof (bo_mem _ _ _ _ _ Hok) as Hm. pose proof (bo_len _ _ _ _ _ Hok) as Hlen.
  pose proof (bo_sz _ _ _ _ _ Hok) as [Hs1 Hs2]. rewrite Hsz in *.
  unfold server_bitmap_load_from_memory. rewrite bind_modify.
  set (w0 := w <| ioctl_obj ::= _ |>).
  destruct (get_user_ok (ioctl_obj w0) (kernel_of w0) (pid + 1) bm p m) as (s1 & E1 & Hwf1 & Hok1 & Hmin1 & Hsz1 & Hd1 & Hb1); try done.
  destruct (half_in_use pid sz bm p (take_half pid pid USER dsk_active) (take_half pid pid KERNEL dsk_backup) _ _ Hok Hsz)
    as (_ & Hoff & Huser & Hu01).
  destruct (ioctl_ok EBDRCTL_GET_USER w0 (kb_user bm) (ioctl_obj w0) s1 E1 ltac:(lia)) as (e1 & Hk1 & Hget). rewrite Hget.
  set (w1 := w0 <| ext := e1 |> <| ioctl_obj := ioctl_obj w0 |>).
  replace (kb_user bm <? 0) with false by bool_solve. cbn [when]. rewrite bind_ret.
  rewrite bind_rd by (unfold MAX_DISKS; lia). rewrite bind_wr by (unfold MAX_BITMAP; lia).
  change (aget (ebdr_disk_src_obj w1) pid) with (aget (ebdr_disk_src_obj w) pid). rewrite Hact, Hbak, Hsize.
  set (w2 := w1 <| bitmap_server_obj ::= _ |>).
  assert (Hmem2 : vmalloc_area (kernel_of w2) !! (pid + 1) = Some m).
  { change (kernel_of w2) with (kern e1). rewrite Hk1. apply Hok1. }
  assert (Hr2 : snap_ready pid sz blk bytes bm p m w2).
  { constructor; try done; change (kernel_of w2) with (kern e1); rewrite ?Hk1; try done.
    - change (kernel_of w0) with (kernel_of w) in Hmin1. by rewrite Hmin1.
    - change (kernel_of w0) with (kernel_of w) in Hsz1. by rewrite Hsz1.
    - destruct Hbuf. unfold w2. constructor; by wsimpl. }
  destruct (deref_map_ok (mk_mptr (pid + 1) 0) m w2) as [v1 Ev1]; [done|cbn; lia|cbn; lia|].
  destruct (deref_map_ok (mk_mptr (pid + 1) sz) m w2) as [v2 Ev2]; [done|cbn; lia|cbn; lia|].
  rewrite (bind_Ret _ _ _ _ _ Ev1), (bind_Ret _ _ _ _ _ Ev2). rewrite bind_log by done.
  rewrite bind_rd by (unfold MAX_PID; lia). rewrite bind_rd by (unfold MAX_CONN; lia).
  change (aget (recovery_mode w2) pid) with (aget (recovery_mode w) pid). rewrite Hrec.
  change (aget (ebdr_conn_server w2) pid) with (aget (ebdr_conn_server w) pid).
  rewrite (proj2 (Z.eqb_neq _ _) Hres). cbn [andb negb]. change (0 =? 0) with true. cbn [andb].
  assert (Hub2 : ub_size (aget (bitmap_server_obj w2) pid) = sz) by (unfold w2; by wsimpl).
  assert (Hgo : exists w', snapped pid sz blk bm p m w2 w' /\
    ((if kb_user bm =? KERNEL then take_half pid pid USER dsk_active else take_half pid pid KERNEL dsk_backup);;;
     ebdr_log;;; ret_ <- prepare_and_send_ioctl_cmd EBDR_FLIP_BITMAP_AREA;;
     when (ret_ <? 0) stop_work;;; ebdr_log) w2 = Ret tt w').
  { destruct Hu01 as [Hu|Hu]; rewrite Hu; cbn [Z.eqb KERNEL]; apply copy_and_flip with bytes; try done.
    all: try (by rewrite Hu).
    - by rewrite (proj1 Huser Hu).
    - destruct Hoff as [Ho|Ho]; [apply Huser in Ho; unfold KERNEL in Ho; lia|]. by rewrite Ho. }
  destruct Hgo as (w3 & Hsn & Ego). rewrite (bind_Ret _ _ _ _ _ Ego).
  pose proof Hsn as [Hc3 Hw3 Hm3 Hb3 Hz3 [Hd3 Hd3'] Hp3 (bytes' & Hbuf3 & Hl3 & Hbits) Hus3].
  rewrite bind_rd by (unfold MAX_BITMAP; lia). rewrite (bind_block _ blk bytes') by apply Hbuf3.
  destruct (load_Some 8 bytes' 0) as [v ->]; [lia..|]. rewrite bind_of_option, bind_log by done.
  exists w3. split; [done|].
  assert (Hk2 : kernel_of w2 = s1) by exact Hk1. change (kernel_of w0) with (kernel_of w) in *.
  constructor; try done.
  - by rewrite Hm3, Hk2.
  - by rewrite Hd3, Hd3', Hk2.
  - by exists bytes'.
Qed.

(** ** Releasing the snapshot *)
Lemma destroy_ok pid sz blk bytes m off w :
  0 <= pid < 2048 -> cancel_pending w = false -> buffered pid blk bytes w -> mapped pid sz w ->
  (if ub_user (aget (bitmap_server_obj w) pid) =? USER then 0 else sz) = off ->
  vmalloc_area (kernel_of w) !! (pid + 1) = Some m -> wf_mem m -> size_ok sz -> Z.of_nat (length m) = 2 * sz ->
  exists w' m', bitmap_server_destroy pid pid w = Ret tt w' /\ heap w' !! blk = None /\ same_shape m m' /\
    kernel_of w' = (kernel_of w) <| vmalloc_area ::= fun v => <[pid + 1 := m']> v |> /\
    forall k, mem_bit m' k = negb (in_range (8 * off) (8 * off + 8 * sz - 1) k) && mem_bit m k.
Proof.
  intros Hpid Hcan [Har Hhp] [Hact Hbak Hsz] Hoff Hm Hwf Hszok Hlen.
  assert (Ho : 0 <= off /\ off + sz <= Z.of_nat (length m)) by (destruct Hszok; destruct (_ =? USER); lia).
  destruct (clear_active_ok sz off m) as (m' & Ecl & Hsh & Hbits); [done|done|lia|lia|].
  unfold bitmap_server_destroy. rewrite bind_log by done. rewrite bind_rd by (unfold MAX_BITMAP; lia).
  rewrite Har. unfold free. unfold bind at 1. rewrite Hhp. rewrite bind_rd by (unfold MAX_DISKS; lia). wsimpl.
  assert (Hp : (if ub_user (aget (bitmap_server_obj w) pid) =? USER
                then dsk_active (aget (ebdr_disk_src_obj w) pid)
                else dsk_backup (aget (ebdr_disk_src_obj w) pid)) = Some (mk_mptr (pid + 1) off)).
  { destruct (_ =? USER); subst off; [exact Hact|exact Hbak]. }
  rewrite Hp, Hsz. unfold clear_half. rewrite bind_assoc. unfold of_option at 1. rewrite bind_ret, bind_assoc, bind_get. wsimpl.
  rewrite (kl_read (kern := kern) _ _ (ext w) Hm). cbn [mp_off mp_area]. rewrite Ecl, bind_assoc, bind_of_option.
  unfold sys_. rewrite bind_modify, log_ok by (wsimpl; done).
  do 2 eexists. split; [reflexivity|]. split; [wsimpl; apply lookup_delete_eq|]. split; [exact Hsh|].
  split; [|exact Hbits]. unfold kernel_of. wsimpl. apply (kl_write (kern := kern)).
Qed.

Lemma touched_same bm bm' b k :
  kb_grain_size bm' = kb_grain_size bm -> kb_size bm' = kb_size bm -> touched bm' b k = touched bm b k.
Proof. unfold touched. by intros -> ->. Qed.

Lemma touched_by_same bm bm' bs k :
  kb_grain_size bm' = kb_grain_size bm -> kb_size bm' = kb_size bm -> touched_by bm' bs k = touched_by bm bs k.
Proof.
  intros Hg Hs. unfold touched_by. induction bs as [|b bs IH]; [done|]. cbn [existsb].
  by rewrite IH, (touched_same bm bm').
Qed.

(** The world in which the requests [bs] have run between the snapshot and
    its release. *)
Lemma release_after pid sz blk bytes bm p m bs w w1 s2 e2 :
  snap_ready pid sz blk bytes bm p m w -> snapped pid sz blk bm p m w w1 ->
  attached (kernel_of w) (pid + 1) bm -> writes bs ->
  run_requests (pid + 1) bs (kernel_of w1) = Some s2 -> kern e2 = s2 ->
  exists w3 m3 bm' p', bitmap_server_destroy pid pid (w1 <| ext := e2 |>) = Ret tt w3 /\
    bm_ok (kernel_of w3) (pid + 1) bm' p' m3 /\ kp_off p' = sz - kp_off p /\
    (forall k, 0 <= k < 8 * sz ->
       mem_bit m3 (8 * kp_off p' + k) = touched_by bm bs k || mem_bit m (8 * kp_off p' + k)) /\
    (forall k, 0 <= k < 8 * sz -> mem_bit m3 (8 * kp_off p + k) = false).
Proof.
  intros [Hpid _ _ Hmin Hok Hsz _ _ _ _ _] [Hc1 Hw1 Hm1 (bm' & p' & Hok1 & Hp' & Hg') Hz1 [Hd1 Hb1] Hmap1 (by1 & Hbuf1 & _ & _) Hus1] [Hg Hov Hat] Hws Hrun He2.
  pose proof (bo_size _ _ _ _ _ Hok) as Hs0. pose proof (bo_size _ _ _ _ _ Hok1) as Hs1. rewrite Hsz in Hs0. rewrite Hz1 in Hs1.
  assert (Hss : kb_size bm' = kb_size bm) by lia.
  destruct (run_requests_ok (pid + 1) bs (kernel_of w1) bm' p' m) as (s2' & m2 & E2 & Hwf2 & Hok2 & _ & Hbits2); try done.
  { by rewrite Hm1. }
  { split; [by rewrite Hg'|by rewrite Hg', Hss|]. by rewrite Hd1, Hb1. }
  rewrite Hrun in E2. injection E2 as <-.
  destruct (half_in_use pid sz bm p tt tt _ _ Hok Hsz) as (_ & Hoff & Huser & Hu01).
  set (w2 := w1 <| ext := e2 |>). assert (Hk2 : kernel_of w2 = s2) by exact He2.
  pose proof (bo_sz _ _ _ _ _ Hok) as Hszok. rewrite Hsz in Hszok.
  destruct (destroy_ok pid sz blk by1 m2 (kp_off p) w2) as (w3 & m3 & E3 & _ & Hsh3 & Hk3 & Hbits3); try done.
  - destruct Hbuf1. by constructor.
  - destruct Hmap1. by constructor.
  - change (ub_user (aget (bitmap_server_obj w2) pid)) with (ub_user (aget (bitmap_server_obj w1) pid)).
    rewrite Hus1. unfold KERNEL, USER in *. destruct Hu01 as [Hu|Hu]; rewrite Hu.
    + cbn. symmetry. by apply Huser.
    + cbn. destruct Hoff as [Ho|Ho]; [apply Huser in Ho; lia|done].
  - rewrite Hk2. apply Hok2.
  - apply Hok2.
  - pose proof (bo_size _ _ _ _ _ Hok2). rewrite (bo_len _ _ _ _ _ Hok2). lia.
  - exists w3, m3, bm', p'. split; [exact E3|]. split.
    { rewrite Hk3, Hk2. by apply bm_ok_write with m2. }
    split; [done|]. unfold in_range in Hbits3. split; intros k Hk; rewrite Hbits3.
    + replace ((8 * kp_off p <=? 8 * kp_off p' + k) && _) with false
        by (rewrite Hp'; destruct Hoff as [Ho|Ho]; rewrite Ho; bool_solve).
      cbn [negb andb]. rewrite Hbits2. replace (8 * kp_off p' + k - 8 * kp_off p') with k by lia.
      by rewrite (touched_by_same bm bm').
    + by replace (_ && (8 * kp_off p + k <=? _)) with true by bool_solve.
Qed.
End snapshot.
