(* ===== verification/SnapshotProps.v ===== *)
(** * Properties of the snapshot

    A snapshot hands over every bit and loses none that is set after it; a
    write between the copy and the flip is lost; a bitmap larger than the
    daemon's buffer overflows it. *)
From S2P Require Import Prelude Memory KernelState KBitmap KBitmapSpec KernelMain KernelInv KernelSteps KernelProps KernelTrace CMonad CString.
From S2P Require Import World UBitmap WorldTac UBitmapSpec SnapshotSpec Sim.

(** C4. Taking a snapshot, any sequence of writes, releasing the snapshot: the
    daemon has every bit that was set when it asked; the kernel's current half
    has exactly the bits it had plus those of the writes; the half that was
    copied is empty.  No dirty grain is forgotten. *)
Theorem snapshot_loses_nothing {E} `{OS E} `{KBitopsLaws} env (kern : E -> kstate) `{!KernelLink env kern}
    pid sz blk bytes bm p m w bs :
  env_copy_from_user env = true ->
  snap_ready kern pid sz blk bytes bm p m w -> attached (kern (ext w)) (pid + 1) bm -> writes bs ->
  exists w1 bytes' s2, server_bitmap_load_from_memory pid pid w = Ret 0 w1 /\ buffered pid blk bytes' w1 /\
    (forall k, 0 <= k < 8 * sz -> mem_bit bytes' k = mem_bit m (8 * kp_off p + k)) /\
    run_requests (pid + 1) bs (kern (ext w1)) = Some s2 /\
    forall e2, kern e2 = s2 ->
      exists w3 m3 bm' p', bitmap_server_destroy pid pid (w1 <| ext := e2 |>) = Ret tt w3 /\
        bm_ok (kern (ext w3)) (pid + 1) bm' p' m3 /\ kp_off p' = sz - kp_off p /\
        (forall k, 0 <= k < 8 * sz ->
           mem_bit m3 (8 * kp_off p' + k) = touched_by bm bs k || mem_bit m (8 * kp_off p' + k)) /\
        (forall k, 0 <= k < 8 * sz -> mem_bit m3 (8 * kp_off p + k) = false).
Proof.
  intros Hcopy Hr Hat Hws. destruct (snapshot_ok env kern Hcopy pid sz blk bytes bm p m w Hr) as (w1 & E1 & Hsn).
  pose proof Hsn as [_ Hw1 Hm1 (bm' & p' & Hok1 & _ & Hg') Hz1 [Hd1 Hb1] _ (by1 & Hbuf1 & _ & Hbits1) _].
  pose proof Hr as [_ _ _ Hmin Hok Hsz _ _ _ _ _]. pose proof Hat as [Hg Hov Hd].
  pose proof (bo_size _ _ _ _ _ Hok) as Hs0. pose proof (bo_size _ _ _ _ _ Hok1) as Hs1. unfold kernel_of in *.
  assert (Hss : kb_size bm' = kb_size bm) by lia.
  destruct (run_requests_ok (pid + 1) bs (kern (ext w1)) bm' p' m) as (s2 & m2 & E2 & _); try done.
  { by rewrite Hm1. }
  { split; [by rewrite Hg'|by rewrite Hg', Hss|]. by rewrite Hd1, Hb1. }
  exists w1, by1, s2. split; [done|]. split; [done|]. split; [done|]. split; [done|].
  intros e2 He2. by eapply (release_after env kern).
Qed.

Lemma touched_range bm b k :
  512 <= kb_grain_size bm -> bio_ok b -> touched bm b k = true -> k < kb_size bm /\ (0 < kb_size bm -> 0 <= k).
Proof.
  intros Hg (Hs & Hsz & _) Ht. unfold touched, in_range in Ht. bool_to_prop.
  set (g := kb_grain_size bm / 512) in *. assert (0 < g) by (unfold g; lia).
  assert (0 <= bi_sector b / g) by (apply Z.div_pos; lia). lia.
Qed.

Lemma touched_outside bm b sz k :
  512 <= kb_grain_size bm -> bio_ok b -> kb_size bm = 8 * sz -> 0 < sz -> ~ 0 <= k < 8 * sz ->
  touched_by bm [b] k = false.
Proof.
  intros Hg Hb Hsz H0 Hk. unfold touched_by. cbn [existsb]. rewrite orb_false_r. apply not_true_is_false.
  intros Ht. destruct (touched_range bm b k Hg Hb Ht). lia.
Qed.

(** The bits [t] that were set in the half at [off] after it was copied are
    gone once that half has been cleared; the other half never had them. *)
Lemma lost_bits (t : Z -> bool) sz off m m2 m5 k :
  off = 0 \/ off = sz -> (forall j, ~ 0 <= j < 8 * sz -> t j = false) ->
  (forall j, mem_bit m2 j = t (j - 8 * off) || mem_bit m j) ->
  (forall j, mem_bit m5 j = negb (in_range (8 * off) (8 * off + 8 * sz - 1) j) && mem_bit m2 j) ->
  0 <= k < 8 * sz -> mem_bit m (8 * (sz - off) + k) = false ->
  mem_bit m5 k = false /\ mem_bit m5 (8 * sz + k) = false.
Proof.
  intros Hoff Hout H2 H5 Hk Hc. rewrite !H5, !H2. unfold in_range. destruct Hoff as [->|Ho]; [|subst off].
  - replace ((8 * 0 <=? k) && _) with true by bool_solve. split; [done|]. rewrite Hout by lia.
    replace (8 * sz + k) with (8 * (sz - 0) + k) by lia. rewrite Hc. apply andb_false_r.
  - replace ((8 * sz <=? 8 * sz + k) && _) with true by bool_solve. split; [|done]. rewrite Hout by lia.
    replace k with (8 * (sz - sz) + k) by lia. rewrite Hc. apply andb_false_r.
Qed.

(** C32. The order of the two steps matters: a write that is handled between
    the copy of the half and EBDR_FLIP_BITMAP_AREA sets bits in the half
    already copied, and the release of the snapshot clears them: afterwards
    the bits of grains that were clean before are neither in the daemon's
    buffer nor in either half of the kernel's area. *)
Theorem snapshot_race_loses_write {E} `{OS E} `{KBitopsLaws} env (kern : E -> kstate) `{!KernelLink env kern}
    pid sz blk bytes bm p m w b half :
  env_copy_from_user env = true ->
  snap_ready kern pid sz blk bytes bm p m w -> attached (kern (ext w)) (pid + 1) bm -> writes [b] ->
  io_index (ioctl_obj w) = pid + 1 -> ub_size (aget (bitmap_server_obj w) pid) = sz ->
  half (aget (ebdr_disk_src_obj w) pid) = Some (mk_mptr (pid + 1) (kp_off p)) ->
  exists w1 bytes' s2, take_half pid pid (1 - kb_user bm) half w = Ret tt w1 /\ buffered pid blk bytes' w1 /\
    ebdr_make_request (pid + 1) b (kern (ext w1)) = Some s2 /\
    forall e2, kern e2 = s2 ->
      exists w3 m3, (_ <- prepare_and_send_ioctl_cmd EBDR_FLIP_BITMAP_AREA;; bitmap_server_destroy pid pid) (w1 <| ext := e2 |>) =
          Ret tt w3 /\ vmalloc_area (kern (ext w3)) !! (pid + 1) = Some m3 /\
        forall k, 0 <= k < 8 * sz -> touched bm b k = true ->
          mem_bit m (8 * kp_off p + k) = false -> mem_bit m (8 * (sz - kp_off p) + k) = false ->
          mem_bit bytes' k = false /\ mem_bit m3 k = false /\ mem_bit m3 (8 * sz + k) = false.
Proof.
  intros Hcopy Hr Hat Hws Hidx Hub Hhalf.
  pose proof Hr as [Hpid Hcan Hwf Hmin Hok Hsz Hmap Hbuf Hfit _ _]. unfold kernel_of in *.
  pose proof (bo_sz _ _ _ _ _ Hok) as Hszok. pose proof (bo_len _ _ _ _ _ Hok) as Hlen. rewrite Hsz in *.
  destruct (half_in_use pid sz bm p tt tt _ _ Hok Hsz) as (_ & Hoff & Huser & Hu01).
  destruct (copy_ok sz (kp_off p) m bytes) as (bytes' & Ecp & Hsh & Hbits);
    [apply Hok|lia|destruct Hszok; lia|apply Hszok|lia|lia|].
  set (w1 := taken pid (1 - kb_user bm) blk bytes' w).
  assert (Etake : take_half pid pid (1 - kb_user bm) half w = Ret tt w1).
  { rewrite <- bind_ret_r. erewrite (bind_take_half env kern); [done|done|done|exact Hhalf|apply Hok|exact Hbuf|by rewrite Hub]. }
  destruct (run_requests_ok (pid + 1) [b] (kern (ext w1)) bm p m) as (s2 & m2 & E2 & Hwf2 & Hok2 & Hmin2 & Hbits2); try done.
  cbn [run_requests] in E2. destruct (ebdr_make_request (pid + 1) b (kern (ext w1))) as [s2'|] eqn:Eb; [|done].
  cbn in E2. injection E2 as ->.
  exists w1, bytes', s2. split; [exact Etake|].
  split; [destruct Hbuf; unfold w1, taken; constructor; wsimpl; [done|apply lookup_insert_eq]|]. split; [done|].
  intros e2 <-. set (w2 := w1 <| ext := e2 |>).
  assert (Hsz2 : area_sz (kern e2) (pid + 1) = sz).
  { pose proof (bo_size _ _ _ _ _ Hok2). pose proof (bo_size _ _ _ _ _ Hok). lia. }
  destruct (flip_spec env (ioctl_obj w2) (kern (ext w2)) (pid + 1) bm p m2)
    as (s3 & bm3 & p3 & E3 & _ & Hok3 & _ & _ & Hv3 & _); [done|done| |done|done|].
  { change (kern (ext w2)) with (kern e2). by rewrite Hmin2. }
  destruct (ioctl_ok env kern EBDR_FLIP_BITMAP_AREA w2 0 (ioctl_obj w2) s3) as (e4 & Hk4 & Hflip);
    [cbn [ebdr_ctl_ioctl]; unfold kernel_of; by rewrite E3|lia|].
  rewrite Hflip. set (w4 := w2 <| ext := e4 |> <| ioctl_obj := ioctl_obj w2 |>).
  destruct (destroy_ok env kern pid sz blk bytes' m2 (kp_off p) w4) as (w5 & m5 & E5 & _ & _ & Hk5 & Hbits5); try done.
  - destruct Hbuf. unfold w4, w2, w1, taken. constructor; wsimpl; [done|apply lookup_insert_eq].
  - destruct Hmap. by constructor.
  - unfold w4, w2, w1, taken. wsimpl. unfold KERNEL, USER in *. destruct Hu01 as [Hu|Hu]; rewrite Hu; cbn.
    + symmetry. by apply Huser.
    + destruct Hoff as [Ho|Ho]; [apply Huser in Ho; lia|done].
  - change (kernel_of kern w4) with (kern e4). rewrite Hk4. apply Hok3.
  - apply Hok2.
  - rewrite (bo_len _ _ _ _ _ Hok2). lia.
  - exists w5, m5. split; [exact E5|]. split; [unfold kernel_of in Hk5; rewrite Hk5; cbn; by rewrite lookup_insert_eq|].
    intros k Hk Ht Hc0 Hc1. split.
    + rewrite Hbits. unfold in_range. by replace (_ && _) with true by bool_solve.
    + apply (lost_bits (touched_by bm [b]) sz (kp_off p) m m2); try done. intros k0 Hk0.
      apply Forall_cons in Hws as [[_ Hbio] _]. destruct Hat as [Hg _ _].
      apply (touched_outside bm b sz); [done|done| |apply Hszok|done]. by rewrite <- Hsz, (bo_size _ _ _ _ _ Hok).
Qed.

(** ** A machine whose daemon maps the second device of [ex_state] *)
#[local] Existing Instance x86_bitops.
#[local] Existing Instance x86_bitops_laws.
#[local] Instance ex_snap_os : OS host := host_os ex_env.

#[local] Instance host_kernel_link : KernelLink ex_env ho_kernel.
Proof.
  constructor.
  - intros fd cmd obj e r obj' k' Hio. exists (e <| ho_kernel := k' |>). cbn. unfold host_ioctl. by rewrite Hio.
  - intros a m e Hm. cbn. by rewrite Hm.
  - done.
Qed.

Definition ex_snap : world host :=
  (world0 (host0 <| ho_kernel := ex_state |>))
    <| ebdr_disk_src_obj ::= aset 1 (fun d => d <| dsk_active := Some (mk_mptr 2 0) |>
         <| dsk_backup := Some (mk_mptr 2 8) |> <| dsk_bitmap_size := 8 |>) |>
    <| bitmap_server_obj ::= aset 1 (fun b => b <| ub_area := Some 0 |> <| ub_size := 8 |>) |>
    <| ioctl_obj ::= fun o => o <| io_index := 2 |> |>
    <| heap ::= fun h => <[0 := replicate 16 0]> h |>.

Lemma ex_snap_ready : snap_ready ho_kernel 1 8 0 (replicate 16 0) ex_bm (mk_kptr 2 0) (replicate 16 0) ex_snap.
Proof.
  constructor.
  - lia.
  - reflexivity.
  - exact ex_state_kwf.
  - vm_compute. by split.
  - exact ex_state_ok.
  - vm_compute. reflexivity.
  - constructor; vm_compute; reflexivity.
  - constructor; vm_compute; reflexivity.
  - rewrite length_replicate. lia.
  - vm_compute. reflexivity.
  - vm_compute. congruence.
Qed.

Lemma ex_snap_attached : attached (ho_kernel (ext ex_snap)) 2 ex_bm.
Proof. split; [cbn; lia|cbn; lia|]. exists 2, 7. by vm_compute. Qed.

Lemma ex_writes : writes [ex_bio].
Proof. repeat constructor; cbn; lia. Qed.

Lemma snapshot_loses_nothing_witness :
  exists w1 bytes' s2, server_bitmap_load_from_memory 1 1 ex_snap = Ret 0 w1 /\ buffered 1 0 bytes' w1 /\
    (forall k, 0 <= k < 8 * 8 -> mem_bit bytes' k = mem_bit (replicate 16 0) (8 * 0 + k)) /\
    run_requests 2 [ex_bio] (ho_kernel (ext w1)) = Some s2 /\
    forall e2, ho_kernel e2 = s2 ->
      exists w3 m3 bm' p', bitmap_server_destroy 1 1 (w1 <| ext := e2 |>) = Ret tt w3 /\
        bm_ok (ho_kernel (ext w3)) 2 bm' p' m3 /\ kp_off p' = 8 - 0 /\
        (forall k, 0 <= k < 8 * 8 ->
           mem_bit m3 (8 * kp_off p' + k) = touched_by ex_bm [ex_bio] k || mem_bit (replicate 16 0) (8 * kp_off p' + k)) /\
        (forall k, 0 <= k < 8 * 8 -> mem_bit m3 (8 * 0 + k) = false).
Proof.
  apply (snapshot_loses_nothing ex_env ho_kernel 1 8 0 (replicate 16 0) ex_bm (mk_kptr 2 0) (replicate 16 0) ex_snap [ex_bio]);
    [done|exact ex_snap_ready|exact ex_snap_attached|exact ex_writes].
Defined.

Lemma snapshot_race_loses_write_witness :
  exists w1 bytes' s2, take_half 1 1 (1 - 0) dsk_active ex_snap = Ret tt w1 /\ buffered 1 0 bytes' w1 /\
    ebdr_make_request 2 ex_bio (ho_kernel (ext w1)) = Some s2 /\
    forall e2, ho_kernel e2 = s2 ->
      exists w3 m3, (_ <- prepare_and_send_ioctl_cmd EBDR_FLIP_BITMAP_AREA;; bitmap_server_destroy 1 1) (w1 <| ext := e2 |>) =
          Ret tt w3 /\ vmalloc_area (ho_kernel (ext w3)) !! 2 = Some m3 /\
        forall k, 0 <= k < 8 * 8 -> touched ex_bm ex_bio k = true ->
          mem_bit (replicate 16 0) (8 * 0 + k) = false -> mem_bit (replicate 16 0) (8 * (8 - 0) + k) = false ->
          mem_bit bytes' k = false /\ mem_bit m3 k = false /\ mem_bit m3 (8 * 8 + k) = false.
Proof.
  apply (snapshot_race_loses_write ex_env ho_kernel 1 8 0 (replicate 16 0) ex_bm (mk_kptr 2 0) (replicate 16 0) ex_snap ex_bio dsk_active);
    [done|exact ex_snap_ready|exact ex_snap_attached|exact ex_writes|done|done|done].
Defined.

(** ** A bitmap larger than the buffer *)
Lemma copy_loop_bound n : forall a soff src d d',
  iter_up n a (fun i d => v ← load 8 src (soff + 8 * i); store 8 d (8 * i) v) d = Some d' ->
  forall i, a <= i < a + Z.of_nat n -> 8 * i + 8 <= Z.of_nat (length d).
Proof.
  induction n as [|n IH]; intros a soff src d d' Hd i Hi; [lia|]. cbn [iter_up] in Hd.
  destruct (load 8 src (soff + 8 * a)) as [v|]; cbn in Hd; [|done].
  destruct (store 8 d (8 * a) v) as [d1|] eqn:Es; cbn in Hd; [|done].
  pose proof (store_length _ _ _ _ _ Es) as Hl.
  destruct (decide (i = a)) as [->|Hne].
  - unfold store in Es. destruct (in_buffer 8 d (8 * a)) eqn:Eb; [|done]. unfold in_buffer in Eb. bool_to_prop. lia.
  - rewrite <- Hl. eapply IH; [exact Hd|lia].
Qed.

Lemma copy_overflow nbytes soff src d :
  nbytes mod 8 = 0 -> Z.of_nat (length d) < nbytes -> ebdr_copy_mmaped_bitmap nbytes soff src d = None.
Proof.
  intros Hmod Hl. unfold ebdr_copy_mmaped_bitmap. destruct (iter_up _ _ _ _) as [d'|] eqn:Ed; [|done]. exfalso.
  pose proof (copy_loop_bound _ _ _ _ _ _ Ed (nbytes / 8 - 1)). lia.
Qed.

(** The buffer of the snapshot always has BITMAP_SIZE bytes while the size
    copied is that of the disk's bitmap: for a larger bitmap the copy writes
    beyond the end of the buffer. *)
Theorem large_bitmap_overflows_buffer {E} `{OS E} pid user half blk bytes p (w : world E) :
  0 <= pid < MAX_BITMAP -> half (aget (ebdr_disk_src_obj w) pid) = Some p -> buffered pid blk bytes w ->
  Z.of_nat (length bytes) = BITMAP_SIZE ->
  BITMAP_SIZE < ub_size (aget (bitmap_server_obj w) pid) -> ub_size (aget (bitmap_server_obj w) pid) mod 8 = 0 ->
  exists w', take_half pid pid user half w = Stop Undefined w'.
Proof.
  intros Hpid Hhalf [Har Hhp] Hl Hbig Hmod. unfold take_half. rewrite bind_modify.
  rewrite bind_wr by done. rewrite bind_rd by done. rewrite bind_rd by done. wsimpl. rewrite Hhalf.
  unfold map_bytes. rewrite bind_assoc. unfold of_option at 1. rewrite bind_ret, bind_assoc, bind_get, bind_ret.
  rewrite (bind_block _ blk bytes) by (wsimpl; done). rewrite copy_overflow by lia. by eexists.
Qed.

Definition ex_large : world host :=
  (world0 host0)
    <| ebdr_disk_src_obj ::= aset 0 (fun d => d <| dsk_active := Some (mk_mptr 1 0) |>) |>
    <| bitmap_server_obj ::= aset 0 (fun b => b <| ub_area := Some 0 |> <| ub_size := BITMAP_SIZE + 8 |>) |>
    <| heap ::= fun h => <[0 := blank 0]> h |>.

Lemma large_bitmap_overflows_buffer_witness : exists w', take_half 0 0 USER dsk_active ex_large = Stop Undefined w'.
Proof.
  apply (large_bitmap_overflows_buffer 0 USER dsk_active 0 (blank 0) (mk_mptr 1 0));
    [unfold MAX_BITMAP; lia|reflexivity|by constructor|apply length_blank|reflexivity|reflexivity].
Defined.
