(* ===== verification/SnapshotResume.v ===== *)
(** * The snapshot of a resumed connection

    While a partner is being recovered, or its connection resumed, the daemon
    does not exchange the halves.  It takes the first half when its first word
    is not zero and the second otherwise, whichever the kernel module is using:
    the marks of that half are handed over again and cleared at the end. *)
From S2P Require Import Prelude Memory KernelState KBitmap KBitmapSpec KernelMain KernelInv KernelSteps KernelProps KernelTrace CMonad CString.
From S2P Require Import World UBitmap WorldTac UBitmapSpec SnapshotSpec Sim SnapshotProps.

Section resume.
Context {E : Type} `{OS E} `{KBitopsLaws} (env : kenv) (kern : E -> kstate).
Context `{!KernelLink env kern}.
Context (Hcopy : env_copy_from_user env = true).

Abbreviation kernel_of := (kernel_of kern).

Record resume_ready (pid sz blk : Z) (bytes : mem) (bm : ebdr_bitmap) (p : kptr) (m : mem) (w : world E) : Prop := {
  rr_pid : 0 <= pid < 2048;
  rr_cancel : cancel_pending w = false;
  rr_kwf : kwf (kernel_of w);
  rr_minor : 1 <= pid + 1 < minor (kernel_of w);
  rr_bm : bm_ok (kernel_of w) (pid + 1) bm p m;
  rr_sz : area_sz (kernel_of w) (pid + 1) = sz;
  rr_mapped : mapped pid sz w;
  rr_buffered : buffered pid blk bytes w;
  rr_fits : sz <= Z.of_nat (length bytes);
}.

(** The half a resumed snapshot takes. *)
Definition resumed_half (sz : Z) (m : mem) : Z := if le_value (take 8 m) =? 0 then sz else 0.

(** What the snapshot leaves: the bits of that half in the buffer, the kernel
    module where it was, the half at [off] to be cleared. *)
Record resumed (off pid sz blk : Z) (bm : ebdr_bitmap) (p : kptr) (m : mem) (w w' : world E) : Prop := {
  re_cancel : cancel_pending w' = false;
  re_kwf : kwf (kernel_of w');
  re_minor : minor (kernel_of w') = minor (kernel_of w);
  re_bm : bm_ok (kernel_of w') (pid + 1) bm p m;
  re_sz : area_sz (kernel_of w') (pid + 1) = sz;
  re_dev : device (kernel_of w') = device (kernel_of w) /\ bd_dev (kernel_of w') = bd_dev (kernel_of w);
  re_mapped : mapped pid sz w';
  re_bits : exists bytes', buffered pid blk bytes' w' /\
            forall k, 0 <= k < 8 * sz -> mem_bit bytes' k = mem_bit m (8 * resumed_half sz m + k);
  re_user : ub_user (aget (bitmap_server_obj w') pid) = (if off =? 0 then USER else KERNEL);
}.

Lemma resumed_snapshot_ok pid sz blk bytes bm p m w :
  resume_ready pid sz blk bytes bm p m w ->
  aget (recovery_mode w) pid <> 0 \/ cn_state (aget (ebdr_conn_server w) pid) = CONN_OBJ_RESUME ->
  exists w', server_bitmap_load_from_memory pid pid w = Ret 0 w' /\ resumed (resumed_half sz m) pid sz blk bm p m w w'.
Proof.
  intros [Hpid Hcan Hwf Hmin Hok Hsz Hmap Hbuf Hfit] Hres.
  pose proof Hmap as [Hact Hbak Hsize]. pose proof (bo_mem _ _ _ _ _ Hok) as Hm. pose proof (bo_len _ _ _ _ _ Hok) as Hlen.
  pose proof (bo_sz _ _ _ _ _ Hok) as [Hs1 Hs2]. rewrite Hsz in *.
  unfold server_bitmap_load_from_memory. rewrite bind_modify.
  set (w0 := w <| ioctl_obj ::= _ |>).
  destruct (get_user_ok env Hcopy (ioctl_obj w0) (kernel_of w0) (pid + 1) bm p m) as (s1 & E1 & Hwf1 & Hok1 & Hmin1 & Hsz1 & Hd1 & Hb1); try done.
  destruct (half_in_use pid sz bm p tt tt _ _ Hok Hsz) as (_ & _ & _ & Hu01).
  destruct (ioctl_ok env kern EBDRCTL_GET_USER w0 (kb_user bm) (ioctl_obj w0) s1 E1 ltac:(lia)) as (e1 & Hk1 & Hget). rewrite Hget.
  set (w1 := w0 <| ext := e1 |> <| ioctl_obj := ioctl_obj w0 |>).
  replace (kb_user bm <? 0) with false by bool_solve. cbn [when]. rewrite bind_ret.
  rewrite bind_rd by (unfold MAX_DISKS; lia). rewrite bind_wr by (unfold MAX_BITMAP; lia).
  change (aget (ebdr_disk_src_obj w1) pid) with (aget (ebdr_disk_src_obj w) pid). rewrite Hact, Hbak, Hsize.
  set (w2 := w1 <| bitmap_server_obj ::= _ |>).
  assert (Hk2 : kernel_of w2 = s1) by exact Hk1. change (kernel_of w0) with (kernel_of w) in *.
  assert (Hmem2 : vmalloc_area (kernel_of w2) !! (pid + 1) = Some m) by (rewrite Hk2; apply Hok1).
  assert (Hload : load 8 m 0 = Some (le_value (take 8 m))).
  { unfold load. by replace (in_buffer 8 m 0) with true by (symmetry; apply in_buffer_spec; lia). }
  destruct (deref_map_ok env kern (mk_mptr (pid + 1) sz) m w2) as [v2 Ev2]; [done|cbn; lia|cbn; lia|].
  assert (Hderef : forall w', kernel_of w' = s1 -> deref_map (Some (mk_mptr (pid + 1) 0)) w' = Ret (le_value (take 8 m)) w').
  { intros w' Hw'. unfold deref_map. unfold of_option at 1. rewrite bind_ret, bind_get.
    rewrite (kl_read (kern := kern) (pid + 1) m (ext w')) by (change (vmalloc_area (kernel_of w') !! (pid + 1) = Some m); by rewrite Hw', <- Hk2).
    cbn [mp_off]. by rewrite Hload. }
  rewrite (bind_Ret _ _ _ _ _ (Hderef w2 Hk2)), (bind_Ret _ _ _ _ _ Ev2). rewrite bind_log by done.
  rewrite bind_rd by (unfold MAX_PID; lia). rewrite bind_rd by (unfold MAX_CONN; lia).
  change (aget (recovery_mode w2) pid) with (aget (recovery_mode w) pid).
  change (aget (ebdr_conn_server w2) pid) with (aget (ebdr_conn_server w) pid).
  replace (_ && negb _) with false.
  2:{ symmetry. apply andb_false_iff. destruct Hres as [Hr|Hc]; [left; by apply Z.eqb_neq|right]. rewrite Hc. done. }
  rewrite bind_assoc, bind_wr by (unfold MAX_CONN; lia). set (w3 := w2 <| ebdr_conn_server ::= _ |>).
  assert (Hk3 : kernel_of w3 = s1) by exact Hk2. rewrite bind_assoc, (bind_Ret _ _ _ _ _ (Hderef w3 Hk3)).
  set (off := resumed_half sz m). set (user := if off =? 0 then USER else KERNEL).
  assert (Hoff : 0 <= off /\ off + sz <= Z.of_nat (length m)) by (unfold off, resumed_half; destruct (le_value (take 8 m) =? 0); lia).
  destruct (copy_ok sz off m bytes) as (bytes' & Ecp & Hsh & Hbits); [apply Hok|lia|lia|lia|lia|lia|].
  assert (Hub3 : ub_size (aget (bitmap_server_obj w3) pid) = sz) by (unfold w3, w2; by wsimpl).
  assert (Hbuf3 : buffered pid blk bytes w3) by (destruct Hbuf; unfold w3, w2; constructor; by wsimpl).
  assert (Htake : forall B (k : unit -> MW E B),
    bind (if negb (le_value (take 8 m) =? 0) then take_half pid pid USER dsk_active else take_half pid pid KERNEL dsk_backup) k w3 =
    k tt (taken pid user blk bytes' w3)).
  { intros B k. unfold user, off, resumed_half in *. destruct (le_value (take 8 m) =? 0); cbn [negb].
    - replace (sz =? 0) with false by bool_solve.
      apply (bind_take_half env kern pid KERNEL dsk_backup (mk_mptr (pid + 1) sz) m blk bytes); try done.
      by rewrite Hub3.
    - rewrite <- Hub3 in Ecp. cbn [Z.eqb].
      apply (bind_take_half env kern pid USER dsk_active (mk_mptr (pid + 1) 0) m blk bytes); done. }
  rewrite Htake. set (w4 := taken pid user blk bytes' w3).
  rewrite bind_rd by (unfold MAX_BITMAP; lia).
  rewrite (bind_block _ blk bytes') by (unfold w4, taken; wsimpl; first [apply Hbuf3|apply lookup_insert_eq]).
  destruct (load_Some 8 bytes' 0) as [v ->]; [lia|rewrite (shape_len _ _ Hsh); lia|]. rewrite bind_of_option, bind_log by done.
  exists w4. split; [done|]. assert (Hk4 : kernel_of w4 = s1) by exact Hk2.
  constructor; rewrite ?Hk4; try done.
  - by rewrite Hsz1.
  - exists bytes'. split; [unfold w4, taken; constructor; wsimpl; [apply Hbuf3|apply lookup_insert_eq]|].
    intros k Hk. rewrite Hbits. unfold in_range. by replace (_ && _) with true by bool_solve.
  - unfold w4, taken. by wsimpl.
Qed.

(** Its release after any writes: the half at [off] is cleared, nothing else. *)
Lemma resumed_release off pid sz blk bytes bm p m w w1 bs :
  resume_ready pid sz blk bytes bm p m w -> resumed off pid sz blk bm p m w w1 -> off = 0 \/ off = sz ->
  attached (kernel_of w) (pid + 1) bm -> writes bs ->
  exists s2, run_requests (pid + 1) bs (kernel_of w1) = Some s2 /\
    forall e2, kern e2 = s2 ->
      exists w3 m3, bitmap_server_destroy pid pid (w1 <| ext := e2 |>) = Ret tt w3 /\
        bm_ok (kernel_of w3) (pid + 1) bm p m3 /\
        forall k, 0 <= k < 8 * sz -> mem_bit m3 (8 * off + k) = false /\
          mem_bit m3 (8 * kp_off p + k) =
            negb (kp_off p =? off) && (touched_by bm bs k || mem_bit m (8 * kp_off p + k)).
Proof.
  intros Hr Hre Hh Hat Hws. destruct Hre as [Hc1 Hw1 Hm1 Hok1 Hz1 [Hd1 Hb1] Hmap1 (by1 & Hbuf1 & Hbits1) Hus1].
  destruct Hr as [Hpid _ _ Hmin Hok Hsz _ _ _]. destruct Hat as [Hg Hov Hd].
  destruct (run_requests_ok (pid + 1) bs (kernel_of w1) bm p m) as (s2 & m2 & E2 & _ & Hok2 & _ & Hbits2); try done.
  { by rewrite Hm1. }
  { split; [done|done|]. by rewrite Hd1, Hb1. }
  exists s2. split; [done|]. intros e2 He2. set (w2 := w1 <| ext := e2 |>).
  assert (Hk2 : kernel_of w2 = s2) by exact He2.
  destruct (half_in_use pid sz bm p tt tt _ _ Hok Hsz) as (_ & Hoff & _ & _).
  pose proof (bo_sz _ _ _ _ _ Hok) as Hszok. rewrite Hsz in Hszok.
  destruct (destroy_ok env kern pid sz blk by1 m2 off w2) as (w3 & m3 & E3 & _ & Hsh3 & Hk3 & Hbits3); try done.
  - destruct Hbuf1. by constructor.
  - destruct Hmap1. by constructor.
  - change (ub_user (aget (bitmap_server_obj w2) pid)) with (ub_user (aget (bitmap_server_obj w1) pid)). rewrite Hus1.
    destruct Hh as [->| ->]; [done|]. by replace (sz =? 0) with false by (destruct Hszok; bool_solve).
  - rewrite Hk2. apply Hok2.
  - apply Hok2.
  - rewrite (bo_len _ _ _ _ _ Hok2). pose proof (bo_size _ _ _ _ _ Hok2). pose proof (bo_size _ _ _ _ _ Hok). lia.
  - exists w3, m3. split; [exact E3|]. split; [rewrite Hk3, Hk2; by apply bm_ok_write with m2|].
    intros k Hk. rewrite !Hbits3. unfold in_range. split.
    + by replace (_ && (8 * off + k <=? _)) with true by bool_solve.
    + rewrite Hbits2. replace (8 * kp_off p + k - 8 * kp_off p) with k by lia. f_equal. f_equal.
      destruct Hszok. apply eq_true_iff_eq. rewrite andb_true_iff, !Z.leb_le, Z.eqb_eq. lia.
Qed.

Lemma resumed_half_cases sz m : resumed_half sz m = 0 \/ resumed_half sz m = sz.
Proof. unfold resumed_half. destruct (le_value (take 8 m) =? 0); auto. Qed.

(** C28. A resumed snapshot, any writes meanwhile, its release: the daemon has
    the bits of the half it took.  When the driver is on the other half, its
    half keeps its bits and gains those of the writes; when the driver is on
    the half that was taken, the release clears the marks of the writes too:
    the grains written during the transfer are forgotten. *)
Theorem resumed_snapshot_outcome pid sz blk bytes bm p m w bs :
  resume_ready pid sz blk bytes bm p m w ->
  aget (recovery_mode w) pid <> 0 \/ cn_state (aget (ebdr_conn_server w) pid) = CONN_OBJ_RESUME ->
  attached (kernel_of w) (pid + 1) bm -> writes bs ->
  exists w1 bytes' s2, server_bitmap_load_from_memory pid pid w = Ret 0 w1 /\ buffered pid blk bytes' w1 /\
    (forall k, 0 <= k < 8 * sz -> mem_bit bytes' k = mem_bit m (8 * resumed_half sz m + k)) /\
    run_requests (pid + 1) bs (kernel_of w1) = Some s2 /\
    forall e2, kern e2 = s2 ->
      exists w3 m3, bitmap_server_destroy pid pid (w1 <| ext := e2 |>) = Ret tt w3 /\
        bm_ok (kernel_of w3) (pid + 1) bm p m3 /\
        forall k, 0 <= k < 8 * sz -> mem_bit m3 (8 * resumed_half sz m + k) = false /\
          mem_bit m3 (8 * kp_off p + k) =
            negb (kp_off p =? resumed_half sz m) && (touched_by bm bs k || mem_bit m (8 * kp_off p + k)).
Proof.
  intros Hr Hres Hat Hws. destruct (resumed_snapshot_ok pid sz blk bytes bm p m w Hr Hres) as (w1 & E1 & Hre).
  destruct (resumed_release _ _ _ _ _ _ _ _ _ _ bs Hr Hre (resumed_half_cases sz m) Hat Hws) as (s2 & E2 & Hrel).
  destruct (re_bits _ _ _ _ _ _ _ _ _ Hre) as (by1 & Hbuf1 & Hbits1).
  by exists w1, by1, s2.
Qed.
End resume.

(** ** The machine of [ex_snap] with its connection resumed *)
#[local] Existing Instance x86_bitops.
#[local] Existing Instance x86_bitops_laws.
#[local] Instance ex_resume_os : OS host := host_os ex_env.
#[local] Existing Instance host_kernel_link.

Definition ex_resume : world host :=
  ex_snap <| ebdr_conn_server ::= aset 1 (fun c => c <| cn_state := CONN_OBJ_RESUME |>) |>.

(** For [ex_snap] with other changes than to the disks, buffers and machine. *)
Ltac ex_ready :=
  constructor;
  [ lia | reflexivity | exact ex_state_kwf | vm_compute; by split | exact ex_state_ok | vm_compute; reflexivity
  | constructor; vm_compute; reflexivity | constructor; vm_compute; reflexivity | rewrite length_replicate; lia ].

Lemma ex_resume_ready : resume_ready ho_kernel 1 8 0 (replicate 16 0) ex_bm (mk_kptr 2 0) (replicate 16 0) ex_resume.
Proof. ex_ready. Qed.

Lemma resumed_snapshot_outcome_witness :
  exists w1 bytes' s2, server_bitmap_load_from_memory 1 1 ex_resume = Ret 0 w1 /\ buffered 1 0 bytes' w1 /\
    (forall k, 0 <= k < 8 * 8 -> mem_bit bytes' k = mem_bit (replicate 16 0) (8 * resumed_half 8 (replicate 16 0) + k)) /\
    run_requests 2 [ex_bio] (ho_kernel (ext w1)) = Some s2 /\
    forall e2, ho_kernel e2 = s2 ->
      exists w3 m3, bitmap_server_destroy 1 1 (w1 <| ext := e2 |>) = Ret tt w3 /\
        bm_ok (ho_kernel (ext w3)) 2 ex_bm (mk_kptr 2 0) m3 /\
        forall k, 0 <= k < 8 * 8 -> mem_bit m3 (8 * resumed_half 8 (replicate 16 0) + k) = false /\
          mem_bit m3 (8 * 0 + k) =
            negb (0 =? resumed_half 8 (replicate 16 0)) && (touched_by ex_bm [ex_bio] k || mem_bit (replicate 16 0) (8 * 0 + k)).
Proof.
  apply (resumed_snapshot_outcome ex_env ho_kernel eq_refl 1 8 0 (replicate 16 0) ex_bm (mk_kptr 2 0) (replicate 16 0) ex_resume [ex_bio]);
    [exact ex_resume_ready|by right|exact ex_snap_attached|exact ex_writes].
Defined.
