(* ===== verification/CommonProps.v ===== *)
(** * Properties of the daemon of user/common

    No step of the server resets the recovery mode; recovery starts a resync in
    every round; the snapshot of a resumed connection or of a restarted server
    forgets marks. *)
From S2P Require Import Prelude Memory KernelState KBitmap KBitmapSpec KernelMain KernelInv KernelSteps KernelProps KernelTrace CMonad CString.
From S2P Require Import World UBitmap Db Partner Relation Disk Header ReplicServer ConnServer Resync Recovery Daemon.
From S2P Require Import CommonLink CommonDb CommonResync CommonServer CommonDaemon WorldTac UBitmapSpec SnapshotSpec Sim SnapshotProps SnapshotResume.

(** ** The mode of the server

    [db_init] sets [recovery_mode] when the database has a partner.  The
    client's resync clears it; nothing a server does on its own does. *)
Section mode.
Context {E : Type} `{OS E} `{LinkOS E}.

Abbreviation keeps := (preserves (same (recovery_mode (E := E)))).

Lemma keeps_sys {A} (call : E -> A * E) : keeps (sys call).
Proof. by apply preserves_sys. Qed.

Lemma keeps_malloc n fill : keeps (malloc n fill).
Proof. intros w. unfold malloc. by destruct (os_malloc n (ext w)). Qed.

Lemma keeps_free p : keeps (free p).
Proof. intros w. destruct p as [b|]; [|done]. unfold free. by destruct (heap w !! b). Qed.

Lemma keeps_lock : keeps mutex_lock.
Proof. intros w. unfold mutex_lock. by destruct (db_lock w). Qed.

Lemma keeps_log : keeps ebdr_log.
Proof. intros w. unfold ebdr_log, cancellation_point. by destruct (cancel_pending w). Qed.

(** Runs through a function whose parts keep the mode, unfolding its calls. *)
Ltac mode_step :=
  first
    [ assumption | apply keeps_sys | apply keeps_malloc | apply keeps_free | apply keeps_lock | apply keeps_log
    | preserve_step (recovery_mode (E := E)) ltac:(done)
    | match goal with |- preserves _ ?t =>
        let rec head t := lazymatch t with ?f _ => head f | _ => t end in let h := head t in unfold h end ].
Ltac mode_run := repeat mode_step.

Lemma keeps_dispatch table h : Forall (fun e => forall h, keeps (snd e h)) table -> keeps (dispatch table h).
Proof.
  intros Ht. revert h. induction Ht as [|[code f] table Hf _ IH]; intros h; cbn [dispatch]; [mode_run|].
  apply preserves_bind; [apply _| |done]. destruct (_ =? code); [apply Hf|mode_run].
Qed.

Lemma keeps_handlers : Forall (fun e => forall h, keeps (snd e h)) cm_cmdMap.
Proof. unfold cm_cmdMap. repeat (apply Forall_cons; split; [intros h; cbn [snd]; mode_run|]). constructor. Qed.

Lemma keeps_recv_step fd h : keeps (cm_server_recv_step fd h).
Proof.
  unfold cm_server_recv_step.
  repeat first [apply keeps_dispatch, keeps_handlers | mode_step].
Qed.

Lemma keeps_assign pids fd : keeps (cm_assign_loop pids fd).
Proof. induction pids as [|pid pids IH]; cbn [cm_assign_loop]; mode_run. Qed.

Lemma keeps_accept : keeps cm_accept_step.
Proof. unfold cm_accept_step. repeat first [apply keeps_assign | mode_step]. Qed.

Lemma keeps_recovery garbage pids : keeps (cm_recovery_round true garbage pids).
Proof. induction pids as [|pid pids IH]; cbn [cm_recovery_round]; mode_run. Qed.

Lemma keeps_create cmd : keeps (cm_cmd_create cmd).
Proof. unfold cm_cmd_create. mode_run. Qed.

Lemma keeps_snap garbage cmd : keeps (cm_cmd_snap garbage cmd).
Proof. unfold cm_cmd_snap. mode_run. Qed.

Lemma keeps_link_messages fuel buf h status : keeps (link_messages fuel true buf h status).
Proof. revert h status. induction fuel as [|fuel IH]; intros h status; cbn [link_messages]; repeat first [apply IH|mode_step]. Qed.

Lemma keeps_link fd : keeps (link_status_check true fd).
Proof. unfold link_status_check. repeat first [apply keeps_link_messages|mode_step]. Qed.

(** What a server does, to its end or until it is stopped: it receives a
    request, accepts a connection, looks for paused objects, creates a device or
    attaches a snapshot for the administrator, hears of a link; and the rest of
    the machine runs. *)
Inductive server_step (w : world E) : world E -> Prop :=
| step_request fd h : server_step w (end_state (cm_server_recv_step fd h w))
| step_accept : server_step w (end_state (cm_accept_step w))
| step_recovery garbage pids : server_step w (end_state (cm_recovery_round true garbage pids w))
| step_create cmd : server_step w (end_state (cm_cmd_create cmd w))
| step_snap garbage cmd : server_step w (end_state (cm_cmd_snap garbage cmd w))
| step_link fd : server_step w (end_state (link_status_check true fd w))
| step_machine e : server_step w (w <| ext := e |>).

Lemma step_keeps_mode w w' : server_step w w' -> recovery_mode w' = recovery_mode w.
Proof.
  intros [fd h| |garbage pids|cmd|garbage cmd|fd|e].
  - apply keeps_recv_step.
  - apply keeps_accept.
  - apply keeps_recovery.
  - apply keeps_create.
  - apply keeps_snap.
  - apply keeps_link.
  - done.
Qed.

Lemma steps_keep_mode w w' : rtc server_step w w' -> recovery_mode w' = recovery_mode w.
Proof. induction 1 as [|w w1 w2 Hs _ IH]; [done|]. by rewrite IH, (step_keeps_mode _ _ Hs). Qed.

(** The database had a partner when the daemon started, or the connection of
    [pid] has been resumed. *)
Definition reopened (pid : Z) (w : world E) : Prop :=
  (exists w0, aget (recovery_mode w0) 0 = 1 /\ rtc server_step w0 w) \/
  cn_state (aget (ebdr_conn_server w) pid) = CONN_OBJ_RESUME.

Lemma reopened_mode pid w :
  reopened pid w -> aget (recovery_mode w) 0 <> 0 \/ cn_state (aget (ebdr_conn_server w) pid) = CONN_OBJ_RESUME.
Proof. intros [(w0 & H1 & Hs)|Hc]; [left|by right]. rewrite (steps_keep_mode _ _ Hs), H1. done. Qed.
End mode.

(** ** Recovery *)

(** Sockets, connections and threads are available. *)
Record system_up (E : Type) `{OS E} : Prop := {
  su_socket : forall e : E, exists s e', os_socket e = (s, e') /\ 0 <= s;
  su_connect : forall s ip port (e : E), exists e', os_connect s ip port e = (0, e');
  su_thread : forall e : E, exists e', os_pthread_create e = (0, e');
}.

Fixpoint rounds {E} (n : nat) (m : MW E unit) : MW E unit :=
  match n with O => ret tt | S n' => m;;; rounds n' m end.

Definition conn_state {E} (pid : Z) (w : world E) : Z := cn_state (aget (ebdr_conn_client w) pid).

Section recovery.
Context {E : Type} `{OS E} (Hup : system_up E) (pid : Z) (Hpid : 0 <= pid < 2048).

Lemma resync_init_starts bit (w : world E) :
  cancel_pending w = false ->
  exists w', resync_init pid bit w = Ret 0 w' /\ threads w' = threads w ++ [TResync pid] /\
    cancel_pending w' = false /\ conn_state pid w' = conn_state pid w.
Proof.
  intros Hc. unfold resync_init, io_engine_init, io_client_obj_create. rewrite (proj2 (Z.ltb_lt pid MAX_IO)) by (unfold MAX_IO; lia).
  repeat mstep. rewrite (proj2 (Z.ltb_lt pid MAX_DISKS)) by (unfold MAX_DISKS; lia). repeat mstep.
  match goal with |- context [bind _ _ ?w1] => destruct (su_thread E Hup (ext w1)) as [e' Et] end.
  rewrite (bind_sys _ _ _ _ _ Et). change (0 <? 0) with false. cbv iota. repeat mstep.
  eexists. split; [reflexivity|]. unfold conn_state. wsimpl. done.
Qed.

Lemma cm_conn_round (w : world E) :
  cancel_pending w = false -> conn_state pid w = CONN_OBJ_PAUSE ->
  exists w', cm_recovery_conn_client pid w = Ret tt w' /\ threads w' = threads w ++ [TResync pid] /\
    cancel_pending w' = false /\ conn_state pid w' = CONN_OBJ_PAUSE.
Proof.
  intros Hc Hs. unfold cm_recovery_conn_client. mstep. unfold conn_state in Hs. rewrite Hs.
  change (CONN_OBJ_PAUSE =? CONN_OBJ_PAUSE) with true. cbn [when].
  unfold cm_restart_conn_client, cm_create_new_conn_client. repeat mstep.
  destruct (su_socket E Hup (ext w)) as (s & e1 & Es & Hs0). rewrite (bind_sys _ _ _ _ _ Es).
  replace (s <? 0) with false by bool_solve. cbn [when]. repeat mstep.
  match goal with |- context [bind (sys (os_connect ?a ?b ?c)) _ ?w1] => destruct (su_connect E Hup a b c (ext w1)) as [e2 Ec] end.
  rewrite (bind_sys _ _ _ _ _ Ec). change (0 <? 0) with false. cbv iota. repeat mstep. unfold printf. repeat mstep. unfold ignore.
  lazymatch goal with |- context [bind (resync_init pid ?b) _ ?w1] =>
    destruct (resync_init_starts b w1) as (w2 & E2 & Ht & Hc2 & Hs2); [by wsimpl|] end.
  rewrite (bind_Ret _ _ _ _ _ E2). exists w2. split; [done|]. split; [rewrite Ht; by wsimpl|].
  split; [done|]. rewrite Hs2. unfold conn_state. by wsimpl.
Qed.

Lemma conn_round (w : world E) :
  cancel_pending w = false -> conn_state pid w = CONN_OBJ_PAUSE ->
  exists w', recovery_conn_client pid w = Ret tt w' /\ threads w' = threads w ++ [TResync pid] /\
    cancel_pending w' = false /\ conn_state pid w' = CONN_OBJ_RESUME.
Proof.
  intros Hc Hs. unfold recovery_conn_client. mstep. unfold conn_state in Hs. rewrite Hs.
  change (CONN_OBJ_PAUSE =? CONN_OBJ_PAUSE) with true. cbn [when].
  unfold restart_conn_client, create_new_conn_client. repeat mstep.
  lazymatch goal with |- context [bind (sys os_socket) _ ?w1] => destruct (su_socket E Hup (ext w1)) as (s & e1 & Es & Hs0) end.
  rewrite (bind_sys _ _ _ _ _ Es). replace (s <? 0) with false by bool_solve. cbn [when]. repeat mstep.
  match goal with |- context [bind (sys (os_connect ?a ?b ?c)) _ ?w1] => destruct (su_connect E Hup a b c (ext w1)) as [e2 Ec] end.
  rewrite (bind_sys _ _ _ _ _ Ec). change (0 <? 0) with false. cbv iota. repeat mstep. unfold ignore.
  lazymatch goal with |- context [bind (resync_init pid ?b) _ ?w1] =>
    destruct (resync_init_starts b w1) as (w2 & E2 & Ht & Hc2 & Hs2); [by wsimpl|] end.
  rewrite (bind_Ret _ _ _ _ _ E2). exists w2. split; [done|]. split; [rewrite Ht; by wsimpl|].
  split; [done|]. rewrite Hs2. unfold conn_state. by wsimpl.
Qed.

Lemma idle_round n (w : world E) :
  conn_state pid w <> CONN_OBJ_PAUSE -> rounds n (recovery_conn_client pid) w = Ret tt w.
Proof.
  intros Hs. unfold conn_state in Hs. induction n as [|n IH]; [done|]. cbn [rounds].
  unfold recovery_conn_client at 1. rewrite bind_assoc. mstep. by rewrite (proj2 (Z.eqb_neq _ _) Hs).
Qed.

(** C30. A paused connection is reconnected by the recovery thread.  In
    user/common it stays in the PAUSE state: [n] rounds of the thread start [n]
    resync threads for the partner.  user/atdr_linux sets RESUME: one. *)
Theorem recovery_rounds_start_resyncs n (w : world E) :
  cancel_pending w = false -> conn_state pid w = CONN_OBJ_PAUSE ->
  (exists w', rounds n (cm_recovery_conn_client pid) w = Ret tt w' /\
     threads w' = threads w ++ replicate n (TResync pid) /\ conn_state pid w' = CONN_OBJ_PAUSE) /\
  (exists w', rounds (S n) (recovery_conn_client pid) w = Ret tt w' /\
     threads w' = threads w ++ [TResync pid] /\ conn_state pid w' = CONN_OBJ_RESUME).
Proof.
  intros Hc Hs. split.
  - revert w Hc Hs. induction n as [|n IH]; intros w Hc Hs; cbn [rounds replicate].
    + exists w. by rewrite app_nil_r.
    + destruct (cm_conn_round w Hc Hs) as (w1 & E1 & Ht1 & Hc1 & Hs1). rewrite (bind_Ret _ _ _ _ _ E1).
      destruct (IH w1 Hc1 Hs1) as (w2 & E2 & Ht2 & Hs2). exists w2. by rewrite Ht2, Ht1, <- app_assoc.
  - destruct (conn_round w Hc Hs) as (w1 & E1 & Ht1 & _ & Hs1). exists w1. cbn [rounds].
    rewrite (bind_Ret _ _ _ _ _ E1), idle_round; [done|]. by rewrite Hs1.
Qed.
End recovery.

#[local] Existing Instance x86_bitops.
#[local] Existing Instance x86_bitops_laws.
#[local] Instance ex_common_os : OS host := host_os ex_env.

Lemma host_system_up : system_up host.
Proof. constructor; intros; eexists; [exists e; by split|reflexivity|reflexivity]. Qed.

Definition ex_dropped : world host :=
  (world0 host0) <| ebdr_conn_client ::= aset 0 (fun c => c <| cn_state := CONN_OBJ_PAUSE |>) |>.

Lemma recovery_rounds_start_resyncs_witness :
  (exists w', rounds 3 (cm_recovery_conn_client 0) ex_dropped = Ret tt w' /\
     threads w' = [] ++ replicate 3 (TResync 0) /\ conn_state 0 w' = CONN_OBJ_PAUSE) /\
  (exists w', rounds 4 (recovery_conn_client 0) ex_dropped = Ret tt w' /\
     threads w' = [] ++ [TResync 0] /\ conn_state 0 w' = CONN_OBJ_RESUME).
Proof. apply (recovery_rounds_start_resyncs host_system_up 0 ltac:(lia) 3 ex_dropped); reflexivity. Defined.

(** ** The snapshot of a resumed connection *)
Section snapshot.
Context {E : Type} `{OS E} `{LinkOS E} `{KBitopsLaws} (env : kenv) (kern : E -> kstate).
Context `{!KernelLink env kern}.
Context (Hcopy : env_copy_from_user env = true).

Abbreviation kernel_of := (kernel_of kern).

Lemma bind_copy_half {B} pid half p m blk dest dest' (k : unit -> MW E B) w :
  0 <= pid < 2048 -> half (aget (ebdr_disk_src_obj w) pid) = Some p ->
  vmalloc_area (kernel_of w) !! mp_area p = Some m -> buffered pid blk dest w ->
  ebdr_copy_mmaped_bitmap (ub_size (aget (bitmap_server_obj w) pid)) (mp_off p) m dest = Some dest' ->
  bind (copy_half pid pid half) k w = k tt (w <| heap ::= fun h => <[blk := dest']> h |>).
Proof.
  intros Hpid Hhalf Hm [Harea Hheap] Hcp. unfold copy_half. rewrite bind_assoc, bind_rd by (unfold MAX_BITMAP; lia).
  rewrite bind_assoc, bind_rd by (unfold MAX_DISKS; lia). rewrite Hhalf.
  rewrite bind_assoc, (bind_map_bytes env kern p m) by exact Hm. cbv beta iota.
  rewrite bind_assoc, (bind_block _ blk dest) by done. rewrite Hcp, bind_assoc, bind_of_option.
  unfold set_block. unfold bind at 1. cbn [mbind option_bind]. rewrite Harea. cbn. by rewrite Hheap.
Qed.

Lemma cm_resumed_ok pid sz blk bytes bm p m w :
  resume_ready kern pid sz blk bytes bm p m w ->
  aget (recovery_mode w) 0 <> 0 \/ cn_state (aget (ebdr_conn_server w) pid) = CONN_OBJ_RESUME ->
  exists w', cm_load_from_memory pid pid w = Ret 0 w' /\ resumed kern (kp_off p) pid sz blk bm p m w w'.
Proof.
  intros [Hpid Hcan Hwf Hmin Hok Hsz Hmap Hbuf Hfit] Hres. unfold SnapshotSpec.kernel_of in *.
  pose proof Hmap as [Hact Hbak Hsize]. pose proof (bo_mem _ _ _ _ _ Hok) as Hm. pose proof (bo_len _ _ _ _ _ Hok) as Hlen.
  pose proof (bo_sz _ _ _ _ _ Hok) as [Hs1 Hs2]. rewrite Hsz in *.
  unfold cm_load_from_memory. rewrite bind_modify. set (w0 := w <| ioctl_obj ::= _ |>).
  destruct (get_user_ok env Hcopy (ioctl_obj w0) (kernel_of w0) (pid + 1) bm p m) as (s1 & E1 & Hwf1 & Hok1 & Hmin1 & Hsz1 & Hd1 & Hb1); try done.
  destruct (half_in_use pid sz bm p tt tt _ _ Hok Hsz) as (_ & Hoff & Huser & Hu01).
  destruct (ioctl_ok env kern EBDRCTL_GET_USER w0 (kb_user bm) (ioctl_obj w0) s1 E1 ltac:(lia)) as (e1 & Hk1 & Hget). rewrite Hget.
  set (w1 := w0 <| ext := e1 |> <| ioctl_obj := ioctl_obj w0 |>).
  replace (kb_user bm <? 0) with false by bool_solve. cbn [when]. rewrite bind_ret.
  rewrite bind_rd by (unfold MAX_DISKS; lia). rewrite bind_wr by (unfold MAX_BITMAP; lia).
  change (aget (ebdr_disk_src_obj w1) pid) with (aget (ebdr_disk_src_obj w) pid). rewrite Hact, Hsize.
  set (w2 := w1 <| bitmap_server_obj ::= _ |>).
  assert (Hk2 : kernel_of w2 = s1) by exact Hk1. change (kernel_of w0) with (kernel_of w) in *.
  assert (Hub2 : ub_size (aget (bitmap_server_obj w2) pid) = sz) by (unfold w2; by wsimpl).
  assert (Hbuf2 : buffered pid blk bytes w2) by (destruct Hbuf; unfold w2; constructor; by wsimpl).
  assert (Hm2 : vmalloc_area (kernel_of w2) !! (pid + 1) = Some m) by (rewrite Hk2; apply Hok1).
  destruct (copy_ok sz (kp_off p) m bytes) as (by1 & Ecp1 & Hsh1 & _); [apply Hok|lia..|].
  set (user := if kp_off p =? 0 then USER else KERNEL).
  assert (Htake : forall B (k : unit -> MW E B),
    bind (if kb_user bm =? KERNEL then take_half pid pid USER dsk_active else take_half pid pid KERNEL dsk_backup) k w2 =
    k tt (taken pid user blk by1 w2)).
  { intros B k. unfold user. destruct Hoff as [Ho|Ho]; rewrite Ho in *.
    - rewrite (proj2 Huser eq_refl). change (KERNEL =? KERNEL) with true. change (0 =? 0) with true. cbv iota.
      apply (bind_take_half env kern pid USER dsk_active (mk_mptr (pid + 1) 0) m blk bytes); try done. by rewrite Hub2.
    - replace (kb_user bm =? KERNEL) with false by (symmetry; apply Z.eqb_neq; intros Hu; apply Huser in Hu; lia).
      replace (sz =? 0) with false by bool_solve.
      apply (bind_take_half env kern pid KERNEL dsk_backup (mk_mptr (pid + 1) sz) m blk bytes); try done. by rewrite Hub2. }
  rewrite Htake. set (w3 := taken pid user blk by1 w2).
  assert (Hk3 : kernel_of w3 = s1) by exact Hk2. assert (Hm3 : vmalloc_area (kernel_of w3) !! (pid + 1) = Some m) by exact Hm2.
  assert (Hbuf3 : buffered pid blk by1 w3)
    by (destruct Hbuf2; unfold w3, taken; constructor; wsimpl; [assumption|apply lookup_insert_eq]).
  rewrite bind_rd by (unfold MAX_BITMAP; lia). rewrite (bind_block _ blk by1) by apply Hbuf3.
  destruct (load_Some 8 by1 0) as [v1 ->]; [lia|rewrite (shape_len _ _ Hsh1); lia|]. rewrite bind_of_option.
  assert (Hderef : forall w', kernel_of w' = s1 -> deref_map (Some (mk_mptr (pid + 1) 0)) w' = Ret (le_value (take 8 m)) w').
  { intros w' Hw'. unfold deref_map. unfold of_option at 1. rewrite bind_ret, bind_get.
    rewrite (kl_read (kern := kern) (pid + 1) m (ext w')) by (change (vmalloc_area (kernel_of w') !! (pid + 1) = Some m); by rewrite Hw', <- Hk2).
    cbn [mp_off]. unfold load. by replace (in_buffer 8 m 0) with true by (symmetry; apply in_buffer_spec; lia). }
  rewrite (bind_Ret _ _ _ _ _ (Hderef w3 Hk3)), bind_log by done. rewrite bind_rd by (unfold MAX_PID; lia). rewrite bind_rd by (unfold MAX_CONN; lia).
  change (aget (recovery_mode w3) 0) with (aget (recovery_mode w) 0).
  change (aget (ebdr_conn_server w3) pid) with (aget (ebdr_conn_server w) pid).
  replace (_ && negb _) with false.
  2:{ symmetry. apply andb_false_iff. destruct Hres as [Hr|Hc]; [left; by apply Z.eqb_neq|right]. by rewrite Hc. }
  rewrite bind_assoc, bind_wr by (unfold MAX_CONN; lia). set (w4 := w3 <| ebdr_conn_server ::= _ |>).
  assert (Hk4 : kernel_of w4 = s1) by exact Hk3. rewrite bind_assoc, (bind_Ret _ _ _ _ _ (Hderef w4 Hk4)).
  assert (Hhalf : 0 <= resumed_half sz m /\ resumed_half sz m + sz <= Z.of_nat (length m)) by (destruct (resumed_half_cases sz m) as [->| ->]; lia).
  destruct (copy_ok sz (resumed_half sz m) m by1) as (by2 & Ecp2 & Hsh2 & Hbits); [apply Hok|rewrite ?(shape_len _ _ Hsh1); lia..|].
  assert (Hub4 : ub_size (aget (bitmap_server_obj w4) pid) = sz) by (unfold w4, w3, taken; by wsimpl).
  assert (Hbuf4 : buffered pid blk by1 w4) by (destruct Hbuf3; by constructor).
  assert (Hcopy2 : forall B (k : unit -> MW E B),
    bind (if negb (le_value (take 8 m) =? 0) then copy_half pid pid dsk_active else copy_half pid pid dsk_backup) k w4 =
    k tt (w4 <| heap ::= fun h => <[blk := by2]> h |>)).
  { intros B k. unfold resumed_half in Ecp2. destruct (le_value (take 8 m) =? 0); cbn [negb].
    - apply (bind_copy_half pid dsk_backup (mk_mptr (pid + 1) sz) m blk by1); try done. by rewrite Hub4.
    - apply (bind_copy_half pid dsk_active (mk_mptr (pid + 1) 0) m blk by1); try done. by rewrite Hub4. }
  rewrite Hcopy2. set (w5 := w4 <| heap ::= _ |>).
  assert (Hbuf5 : buffered pid blk by2 w5) by (destruct Hbuf4; unfold w5; constructor; wsimpl; [assumption|apply lookup_insert_eq]).
  rewrite bind_rd by (unfold MAX_BITMAP; lia). rewrite (bind_block _ blk by2) by apply Hbuf5.
  destruct (load_Some 8 by2 0) as [v ->]; [lia|rewrite (shape_len _ _ Hsh2), (shape_len _ _ Hsh1); lia|].
  rewrite bind_of_option, bind_log by done. exists w5. split; [done|]. assert (Hk5 : kernel_of w5 = s1) by exact Hk2.
  unfold SnapshotSpec.kernel_of in Hk5. constructor; unfold SnapshotSpec.kernel_of; rewrite ?Hk5; try done.
  - by rewrite Hsz1.
  - exists by2. split; [done|]. intros k Hk. rewrite Hbits. unfold in_range. by replace (_ && _) with true by bool_solve.
  - unfold w5, w4, w3, taken. by wsimpl.
Qed.

(** C29. In user/common, on a server that was started with a partner in its
    database, whatever it has done since, or for a connection that was resumed:
    a snapshot, any writes meanwhile and its release.  The daemon has the bits
    of the half chosen by its first word, while the half cleared is always the
    driver's.  Its marks, those from before and those of the writes, are gone;
    those from before have reached the daemon only if the two are the same. *)
Theorem common_resume_forgets_marks pid sz blk bytes bm p m w bs :
  resume_ready kern pid sz blk bytes bm p m w ->
  reopened pid w ->
  attached (kernel_of w) (pid + 1) bm -> writes bs ->
  exists w1 bytes' s2, cm_load_from_memory pid pid w = Ret 0 w1 /\ buffered pid blk bytes' w1 /\
    (forall k, 0 <= k < 8 * sz -> mem_bit bytes' k = mem_bit m (8 * resumed_half sz m + k)) /\
    run_requests (pid + 1) bs (kernel_of w1) = Some s2 /\
    forall e2, kern e2 = s2 ->
      exists w3 m3, bitmap_server_destroy pid pid (w1 <| ext := e2 |>) = Ret tt w3 /\
        bm_ok (kernel_of w3) (pid + 1) bm p m3 /\
        forall k, 0 <= k < 8 * sz -> mem_bit m3 (8 * kp_off p + k) = false.
Proof.
  intros Hr Hres Hat Hws. destruct (cm_resumed_ok pid sz blk bytes bm p m w Hr (reopened_mode pid w Hres)) as (w1 & E1 & Hre).
  destruct (half_in_use pid sz bm p tt tt _ _ (rr_bm _ _ _ _ _ _ _ _ _ Hr) (rr_sz _ _ _ _ _ _ _ _ _ Hr)) as (_ & Hoff & _ & _).
  destruct (resumed_release env kern _ _ _ _ _ _ _ _ _ _ bs Hr Hre Hoff Hat Hws) as (s2 & E2 & Hrel).
  destruct (re_bits _ _ _ _ _ _ _ _ _ _ Hre) as (by1 & Hbuf1 & Hbits1).
  exists w1, by1, s2. do 4 (split; [done|]). intros e2 He2. destruct (Hrel e2 He2) as (w3 & m3 & E3 & Hok3 & Hb3).
  exists w3, m3. split; [done|]. split; [done|]. intros k Hk. by apply Hb3.
Qed.
End snapshot.

#[local] Existing Instance host_kernel_link.

(** No link event. *)
#[local] Instance ex_no_link : LinkOS host := {|
  lo_socket := fun e => (-1, e); lo_bind := fun _ e => (-1, e); lo_recvmsg := fun _ e => (-1, [], e);
  lo_select := fun e => ((false, false), e); lo_link_down := fun _ => -1; lo_set_link_down := fun _ e => e;
|}.

(** The daemon was restarted; then the second device was written to. *)
Definition ex_restarted : world host := ex_snap <| recovery_mode ::= aset 0 (fun _ => 1) |>.

Lemma ex_restarted_reopened : reopened 1 ex_restarted.
Proof.
  left. exists (ex_restarted <| ext := host0 |>). split; [reflexivity|].
  apply rtc_once. exact (step_machine (ex_restarted <| ext := host0 |>) (ext ex_snap)).
Qed.

Lemma ex_restarted_ready : resume_ready ho_kernel 1 8 0 (replicate 16 0) ex_bm (mk_kptr 2 0) (replicate 16 0) ex_restarted.
Proof. ex_ready. Qed.

Lemma common_resume_forgets_marks_witness :
  exists w1 bytes' s2, cm_load_from_memory 1 1 ex_restarted = Ret 0 w1 /\ buffered 1 0 bytes' w1 /\
    (forall k, 0 <= k < 8 * 8 -> mem_bit bytes' k = mem_bit (replicate 16 0) (8 * resumed_half 8 (replicate 16 0) + k)) /\
    run_requests 2 [ex_bio] (ho_kernel (ext w1)) = Some s2 /\
    forall e2, ho_kernel e2 = s2 ->
      exists w3 m3, bitmap_server_destroy 1 1 (w1 <| ext := e2 |>) = Ret tt w3 /\
        bm_ok (ho_kernel (ext w3)) 2 ex_bm (mk_kptr 2 0) m3 /\
        forall k, 0 <= k < 8 * 8 -> mem_bit m3 (8 * 0 + k) = false.
Proof.
  apply (common_resume_forgets_marks ex_env ho_kernel eq_refl 1 8 0 (replicate 16 0) ex_bm (mk_kptr 2 0) (replicate 16 0) ex_restarted [ex_bio]);
    [exact ex_restarted_ready|exact ex_restarted_reopened|exact ex_snap_attached|exact ex_writes].
Defined.
