(* ===== verification/ServerProps.v ===== *)
(** * Properties of the server's connection

    The answer to a data request, the sizes agreed on, the end of a
    replication, and what a closed connection does to the receive loop. *)
From S2P Require Import Prelude Memory KernelState KBitmap KBitmapSpec KernelMain CMonad CString World UBitmap Db Partner.
From S2P Require Import Relation Disk Header ReplicServer ConnServer Resync WorldTac TransferLoop ResyncSpec ServerSpec Sim LinkSpec ResyncProps.
From S2P Require Import SnapshotProps.

#[local] Existing Instance x86_bitops.
#[local] Existing Instance ex_linked.
#[local] Existing Instance ex_hosted.

(** C15. The server process, run by the requests of its client, is a peer as
    the resync loop needs it: every request is answered with the 4096 bytes
    its disk has at [512 * (grain * bit + chunk * position)], with the sizes
    of the server's header. *)
Theorem server_refines_peer `{KBitops} env src pid dfd pfd fd fdt G C :
  Z.of_nat (length src) < 2 ^ 62 ->
  @PeerLaws link (link_os env) (link_peer src pid dfd pfd G C) pid fd fdt G C.
Proof. apply link_laws. Qed.

Lemma server_refines_peer_witness : PeerLaws (link_peer ex_src 0 5 4 8 8) 0 3 6 8 8.
Proof. apply server_refines_peer. rewrite length_ex_src. lia. Defined.

(** When the client has closed the connection, [recv] returns 0 and the
    server handles the last request again, for ever: the thread of the
    connection never ends. *)
Theorem closed_connection_spins {E} `{OS E} fd h (w : world E) fuel :
  os_recv_hdr fd (ext w) = (0, None, ext w) -> cancel_pending w = false -> hd_opcode h = ACK ->
  send_recv_loop fuel fd h w = Ret (Some h) w.
Proof.
  intros Hrecv Hcan Hop.
  assert (Hw : w <| ext := ext w |> = w) by by destruct w.
  assert (Hstep : server_recv_step fd h w = Ret (Some h) w).
  { unfold server_recv_step. erewrite bind_sys by (rewrite Hrecv; reflexivity). rewrite Hw. cbv beta iota.
    change (default h None) with h. change (0 <? 0) with false. cbv iota.
    erewrite bind_Ret; [reflexivity|]. rewrite dispatch_handled, Hop.
    change (@handler_of E _ ACK) with (Some (ack (E := E))). unfold ack. by rewrite bind_log. }
  induction fuel as [|fuel IH]; [done|]. cbn [send_recv_loop]. by rewrite (bind_Ret _ _ _ _ _ Hstep).
Qed.

Definition ex_ack : replic_header := zeroed <| hd_opcode := ACK |>.

Lemma closed_connection_spins_witness : send_recv_loop 1000 4 ex_ack ex_server = Ret (Some ex_ack) ex_server.
Proof. apply closed_connection_spins; reflexivity. Defined.

(** ** Negotiation *)
Definition same_sizes (h h' : replic_header) : Prop :=
  hd_bitmap h' = hd_bitmap h /\ hd_grain h' = hd_grain h /\ hd_chunk h' = hd_chunk h.

(** The connection object of the partner is set up. *)
Record server_conn {E} (pid : Z) (w : world E) : Prop := {
  sc_conn : rp_conn (aget (replic_server_obj w) pid) = Some (PServer pid);
  sc_ops : cn_ops (aget (ebdr_conn_server w) pid) = Some server_ops;
}.

Lemma bind_server_send {E B} `{OS E} pid h fd (k : Z -> MW E B) (w : world E) r e :
  0 <= pid < 2048 -> server_conn pid w -> os_send_hdr fd h (ext w) = (r, e) -> 0 <= r ->
  bind (server_rep_send pid (PHdr h) fd PROTO_TYPE) k w = k 0 (w <| ext := e |>).
Proof.
  intros Hpid [Hc Ho] Es Hr. unfold server_rep_send. rewrite bind_assoc, bind_rd by (unfold MAX_REPLICATIONS; lia).
  rewrite Hc. rewrite bind_assoc, bind_rd by (unfold MAX_CONN; lia). rewrite Ho.
  unfold ebdr_conn_server_send. change (table_find PROTO_TYPE server_send_cmdMap) with (Some (@server_send_hdr E _)).
  unfold server_send_hdr. rewrite bind_assoc. erewrite bind_sys by exact Es. replace (r <? 0) with false by bool_solve. done.
Qed.

(** C24. A SYN is answered with a SYN_ACK that carries the server's bitmap,
    grain and chunk sizes, whatever the client proposed; the server's relation
    takes the same sizes; and the client that processes the answer has the
    server's sizes in its own header. *)
Theorem negotiation_agrees {E E'} `{OS E} `{OS E'} pid cpid h (w : world E) (wc : world E') r e e1 e2 :
  let s := aget (replic_hdr_server_obj w) pid in
  let h2 := h <| hd_bitmap := hd_bitmap s |> <| hd_grain := hd_grain s |> <| hd_chunk := hd_chunk s |>
              <| hd_opcode := SYN_ACK |> in
  let rel := aget (all_relation_servers w) pid in
  let sql := sql_insert_relation (rel_role rel) (rel_partner rel) (rel_id rel) RELATION_OBJ_IN_USE (rel_device rel)
               (hd_bitmap s) (hd_grain s) (hd_chunk s) in
  0 <= pid < 2048 -> hd_partner h = pid -> 0 <= cpid < 2048 -> cancel_pending w = false -> db_lock w = false ->
  cancel_pending wc = false -> server_conn pid w -> slen sql < 200 ->
  os_send_hdr (ptn_fd (aget (all_partner_servers w) pid)) h2 (ext w) = (r, e) -> 0 <= r ->
  os_query (use_db "ebdrdbs") e = (0, e1) -> os_query sql e1 = (0, e2) ->
  exists w' wc', syn_received h w = Ret h2 w' /\ replic_hdr_client_nego h2 cpid wc = Ret tt wc' /\
    same_sizes s (aget (replic_hdr_server_obj w') pid) /\ same_sizes s (aget (replic_hdr_client_obj wc') cpid) /\
    rel_grain (aget (all_relation_servers w') pid) = hd_grain s /\
    rel_chunk (aget (all_relation_servers w') pid) = hd_chunk s /\
    rel_bitmap (aget (all_relation_servers w') pid) = hd_bitmap s.
Proof.
  intros s h2 rel sql Hpid <- Hcpid Hcan Hlock Hcc Hconn Hsql Es Hr Eq1 Eq2. set (pid := hd_partner h) in *.
  unfold syn_received. fold pid. rewrite bind_wr by (unfold MAX_HDR; lia).
  unfold replic_hdr_server_nego. rewrite bind_assoc, bind_rd by (unfold MAX_HDR; lia). wsimpl. rewrite bind_ret.
  do 2 rewrite bind_log by (wsimpl; done).
  rewrite bind_rd by (unfold MAX_PARTNERS; lia). wsimpl. fold s.
  set (w1 := w <| replic_hdr_server_obj ::= _ |>).
  erewrite (bind_server_send pid h2); [|done|destruct Hconn; constructor; done|exact Es|done].
  rewrite bind_rd by (unfold MAX_HDR; lia). wsimpl. rewrite bind_wr by (unfold MAX_RELATIONS; lia).
  rewrite bind_rd by (unfold MAX_RELATIONS; lia). unfold w1. wsimpl.
  unfold insert_into_relation. cbn [rel_role rel_partner rel_id rel_device rel_bitmap rel_grain rel_chunk set_field]. fold rel s sql.
  erewrite bind_locked_query; [|done|done|done|exact Hsql|wsimpl; exact Eq1|exact Eq2].
  unfold replic_hdr_client_nego. do 2 eexists. split; [reflexivity|].
  split; [rewrite bind_wr by (unfold MAX_HDR; lia); rewrite log_ok by (wsimpl; done); reflexivity|].
  unfold same_sizes, ret. wsimpl. fold s. done.
Qed.

Definition ex_syn_server : world host :=
  ex_server <| replic_server_obj ::= aset 0 (fun r => r <| rp_conn := Some (PServer 0) |>) |>
            <| ebdr_conn_server ::= aset 0 (fun c => c <| cn_ops := Some server_ops |>) |>.

Definition ex_syn : replic_header := zeroed <| hd_grain := 16 |> <| hd_chunk := 4 |>.

Definition ex_syn_ack : replic_header :=
  ex_syn <| hd_bitmap := 0 |> <| hd_grain := 8 |> <| hd_chunk := 8 |> <| hd_opcode := SYN_ACK |>.

Lemma negotiation_agrees_witness :
  exists w' wc', syn_received ex_syn ex_syn_server = Ret ex_syn_ack w' /\
    replic_hdr_client_nego ex_syn_ack 0 ex_client = Ret tt wc' /\
    same_sizes ex_header (aget (replic_hdr_server_obj w') 0) /\
    same_sizes ex_header (aget (replic_hdr_client_obj wc') 0) /\
    rel_grain (aget (all_relation_servers w') 0) = 8 /\ rel_chunk (aget (all_relation_servers w') 0) = 8 /\
    rel_bitmap (aget (all_relation_servers w') 0) = 0.
Proof.
  eapply (negotiation_agrees 0 0 ex_syn ex_syn_server ex_client);
    [lia|reflexivity|lia|reflexivity|reflexivity|reflexivity|constructor; reflexivity|vm_compute; reflexivity
    |reflexivity|cbn; lia|reflexivity|reflexivity].
Defined.

(** ** Ending a replication *)
Section terminate_twice.
Context {E : Type} `{OS E}.

Definition same_partners (w w' : world E) : Prop :=
  all_partner_servers w' = all_partner_servers w /\ replic_client_obj w' = replic_client_obj w.

#[local] Instance same_partners_preorder : PreOrder same_partners.
Proof. split; [by split|]. intros w1 w2 w3 [? ?] [? ?]. split; congruence. Qed.

Lemma locked_query_preserves n db sql : preserves same_partners (@locked_query E _ n db sql).
Proof.
  unfold locked_query, cstring, mysql_query, finish_with_error, stop_work, ebdr_log, mutex_unlock, put.
  repeat first
    [ apply (preserves_bind same_partners); [|intros] | apply (preserves_when same_partners)
    | apply (preserves_if same_partners) | apply (preserves_ret same_partners) | apply (preserves_stop same_partners)
    | apply (preserves_modify same_partners); by split
    | solve [intros w; unfold mutex_lock, cancellation_point, sys; cbn; repeat case_match; by split] ].
Qed.

Lemma preserves_Ret {A} (m : MW E A) w a w' : preserves same_partners m -> m w = Ret a w' -> same_partners w w'.
Proof. intros Hp Em. specialize (Hp w). by rewrite Em in Hp. Qed.

Lemma bind_wr_inv {A B} `{Zeroed A} n (f : world E -> gmap Z A) `{!Setter f} i g (k : unit -> MW E B) w b w' :
  bind (wr n f i g) k w = Ret b w' -> k tt (set_field f (aset i g) w) = Ret b w'.
Proof. unfold bind, wr. by destruct (inb n i). Qed.

Lemma bind_rd_inv {A B} `{Zeroed A} n (f : world E -> gmap Z A) i (k : A -> MW E B) w b w' :
  bind (rd n f i) k w = Ret b w' -> k (aget (f w) i) w = Ret b w'.
Proof. unfold bind, rd. by destruct (inb n i). Qed.

(** Drops the first statement of a run. *)
Ltac skip E := apply bind_Ret_inv in E as (? & ? & _ & E).

Lemma terminate_released h w w' :
  terminate h w = Ret h w' -> ptn_state (aget (all_partner_servers w') (hd_partner h)) = PARTNER_OBJ_RELEASED.
Proof.
  unfold terminate. intros Et. apply bind_rd_inv in Et.
  destruct (Z.eqb_spec (ptn_state (aget (all_partner_servers w) (hd_partner h))) PARTNER_OBJ_RELEASED) as [Hs|Hs];
    cbn [negb when] in Et.
  - rewrite bind_ret in Et. by injection Et as <-.
  - rewrite bind_assoc in Et. do 7 (rewrite ?bind_assoc in Et; skip Et).
    rewrite bind_assoc in Et. apply bind_wr_inv in Et. do 3 (rewrite bind_assoc in Et; apply bind_wr_inv in Et).
  apply bind_Ret_inv in Et as (a & w2 & E1 & E2). injection E2 as <-.
    destruct (preserves_Ret _ _ _ _ (locked_query_preserves _ _ _) E1) as [Hp _]. rewrite Hp. by wsimpl.
Qed.

Lemma bitmap_client_destroy_preserves i : preserves same_partners (bitmap_client_destroy (E := E) i).
Proof.
  unfold bitmap_client_destroy, ebdr_log.
  repeat (apply (preserves_bind same_partners); [|intros]); intros w.
  - unfold cancellation_point. by destruct (cancel_pending w).
  - unfold rd. by destruct (inb _ i).
  - unfold free. destruct (ub_area a0) as [b|]; [|done]. by destruct (heap w !! b).
Qed.

Lemma replication_terminate_completed pid w w' :
  replication_terminate pid w = Ret tt w' -> rp_state (aget (replic_client_obj w') pid) = RESYNC_COMPLETED.
Proof.
  unfold replication_terminate. intros Et. apply bind_rd_inv in Et.
  destruct (Z.eqb_spec (rp_state (aget (replic_client_obj w) pid)) RESYNC_COMPLETED) as [Hs|Hs]; cbn [negb when] in Et.
  - by injection Et as <-.
  - do 14 skip Et. apply bind_wr_inv, bind_rd_inv in Et.
    apply bind_Ret_inv in Et as (u1 & w1 & E1 & Et). apply bind_Ret_inv in Et as (u2 & w2 & E2 & E3).
    assert (H1 : same_partners (x26 <| replic_client_obj ::= aset pid (fun r => r <| rp_state := RESYNC_COMPLETED |>) |>) w1).
    { destruct (ub_ops _) as [[]|]; [done| |done]. by eapply preserves_Ret; [apply bitmap_client_destroy_preserves|]. }
    destruct H1 as [_ H1].
    destruct (preserves_Ret _ _ _ _ (locked_query_preserves _ _ _) E2) as [_ H2].
    destruct (preserves_Ret _ _ _ _ (locked_query_preserves _ _ _) E3) as [_ H3].
    rewrite H3, H2, H1. by wsimpl.
Qed.
End terminate_twice.

(** Both ends of a replication can be ended twice: after RPLC_TERMINATION
    has been handled, handling it again does nothing; after the client has
    ended its side, ending it again does nothing. *)
Theorem terminate_idempotent {E E'} `{OS E} `{OS E'} h pid (w w1 : world E) (c c1 : world E') :
  0 <= hd_partner h < MAX_PARTNERS -> 0 <= pid < MAX_REPLICATIONS ->
  terminate h w = Ret h w1 -> replication_terminate pid c = Ret tt c1 ->
  terminate h w1 = Ret h w1 /\ replication_terminate pid c1 = Ret tt c1.
Proof.
  intros Hh Hpid Et Ec. apply terminate_released in Et. apply replication_terminate_completed in Ec. split.
  - unfold terminate. rewrite bind_rd by done. rewrite Et. done.
  - unfold replication_terminate. rewrite bind_rd by done. by rewrite Ec.
Qed.

#[local] Instance ex_terminating_os : OS host := host_os KernelProps.ex_env.

(** The server of the second device, with a snapshot in hand. *)
Definition ex_ending : world host :=
  ex_snap <| ebdr_disk_src_obj ::= aset 1 (fun d => d <| dsk_ops := Some server_ops |>) |>
          <| bitmap_server_obj ::= aset 1 (fun b => b <| ub_ops := Some server_ops |> <| ub_user := USER |>) |>
          <| all_partner_servers ::= aset 1 (fun p => p <| ptn_state := PARTNER_OBJ_IN_USE |>) |>.

Definition ex_end : replic_header := zeroed <| hd_opcode := RPLC_TERMINATION |> <| hd_partner := 1 |>.

Definition returned {W A} (r : res W A) : bool := match r with Ret _ _ => true | Stop _ _ => false end.

Lemma ex_ending_returns : exists w1, terminate ex_end ex_ending = Ret ex_end w1.
Proof.
  assert (Hr : returned (terminate ex_end ex_ending) = true) by (vm_compute; reflexivity).
  destruct (terminate ex_end ex_ending) as [h' w1|] eqn:Et; [|done]. exists w1.
  by rewrite (terminate_keeps _ _ _ _ Et).
Qed.

Lemma ex_client_ends : exists c1, replication_terminate 0 (ex_client_on host0) = Ret tt c1.
Proof.
  assert (Hr : returned (replication_terminate 0 (ex_client_on host0)) = true) by (vm_compute; reflexivity).
  destruct (replication_terminate 0 (ex_client_on host0)) as [[] c1|]; [by exists c1|done].
Qed.

Lemma terminate_idempotent_witness :
  exists w1 c1, (terminate ex_end ex_ending = Ret ex_end w1 /\ replication_terminate 0 (ex_client_on host0) = Ret tt c1) /\
    terminate ex_end w1 = Ret ex_end w1 /\ replication_terminate 0 c1 = Ret tt c1.
Proof.
  destruct ex_ending_returns as [w1 E1], ex_client_ends as [c1 E2]. exists w1, c1. split; [by split|].
  apply (terminate_idempotent ex_end 0 ex_ending w1 (ex_client_on host0) c1);
    [cbn; unfold MAX_PARTNERS; lia|unfold MAX_REPLICATIONS; lia|exact E1|exact E2].
Defined.
