(* ===== verification/EndToEnd.v ===== *)
(** * From the writes on the source to the copy on the target

    The pieces together: the kernel module tracks the writes on the source
    disk, the bitmap reaches the client, the client's resync loop asks the
    server process for the dirty grains. *)
From S2P Require Import Prelude Memory KernelState KBitmap KBitmapSpec KernelMain KernelInv KernelSteps KernelProps KernelTrace CMonad CString.
From S2P Require Import World UBitmap Db Header ReplicServer ConnServer Resync WorldTac UBitmapSpec TransferLoop ResyncSpec ServerSpec Sim.
From S2P Require Import LinkSpec ResyncProps.

(** The client's copy [m] of the kernel's half at [p]. *)
Definition same_bits (bm : ebdr_bitmap) (p : kptr) (area m : mem) : Prop :=
  forall k, 0 <= k < kb_size bm -> mem_bit m k = mem_bit area (8 * kp_off p + k).

(** C1. Two disks with the same content, any sequence of writes on the source
    through the kernel module, the resulting bitmap at the client, and a
    resync against the server process: the target disk is then, byte for
    byte, the source disk. *)
Theorem writes_reach_the_target `{KBitopsLaws} env s d bs bm p area t0 src pid dfd pfd fd fdt blk m
    (w : world link) :
  let G := kb_grain_size bm / 512 in
  let os := link_os env in
  kwf s -> 1 <= d < minor s -> bm_ok s d bm p area -> attached s d bm ->
  Forall (fun b => bi_write b = true /\ bio_ok b /\ within bm b) bs ->
  0 <= pid < 2048 -> Z.of_nat (length src) < 2 ^ 62 -> G < 2 ^ 31 -> G mod 8 = 0 ->
  Z.of_nat (length src) <= 512 * G * kb_size bm ->
  (forall a, 0 <= a < Z.of_nat (length src) -> bytes_image src a = bios_image bs t0 a) ->
  (forall a, 0 <= a < Z.of_nat (length src) -> bytes_image (ln_target (ext w)) a = t0 a) ->
  wf_mem m -> Z.of_nat (length m) = BITMAP_SIZE ->
  (forall b, mem_bit m b = true -> 512 * G * (b + 1) <= Z.of_nat (length src)) ->
  ready (link_peer src pid dfd pfd G 8) pid fd fdt G 8 blk m w ->
  slen (dsk_name (aget (ebdr_disk_target_obj w) pid)) <= 38 ->
  exists s' area', run_requests d bs s = Some s' /\ bm_ok s' d bm p area' /\
    (same_bits bm p area' m ->
     exists w', restart_resync pid 0 NO_RESYNC w = Ret tt w' /\
       forall a, 0 <= a < Z.of_nat (length src) -> bytes_image (ln_target (ext w')) a = bytes_image src a).
Proof.
  intros G os Hwf Hd Hok Hat Hbs Hpid Hsrc HG Hmod Hcover Hsrc1 Htgt Hwm Hlen Hfit Hr Hn.
  assert (HG0 : 0 < G) by (pose proof (at_grain _ _ _ Hat); unfold G; lia).
  destruct (run_requests_ok d bs s bm p area Hwf Hd Hok Hat) as (s' & area' & E & _ & Hok' & _ & Hbits).
  { eapply Forall_impl; [exact Hbs|]. intros b (? & ? & ?). done. }
  exists s', area'. split; [done|]. split; [done|]. intros Hsame.
  pose proof (link_laws env src pid dfd pfd fd fdt G 8 Hsrc) as Hlaws.
  pose proof (round_whole _ pid fd fdt G 8 (peer_up_whole _ _ _ _ _ (link_peer_up env src pid dfd pfd fd G 8 Hsrc))) as Hround.
  destruct (resync_run _ (link_peer src pid dfd pfd G 8) pid fd fdt G blk m Hround Hpid Hsrc Hwm Hlen ltac:(lia) Hmod Hfit w 0 Hr Hn)
    as (w' & Ew & Ho); [unfold MAX_BITS_LEN; lia|].
  exists w'. split; [exact Ew|]. destruct Ho as [[_ Hc]|[Hnup _]].
  2:{ exfalso. apply Hnup. by apply link_peer_up. }
  intros a Ha. pose proof (complete_image _ G m _ _ ltac:(lia) Hmod Hlen Hc a) as Hca. unfold tgt_of in Hca. cbn in Hca.
  rewrite Hca. destruct (mem_bit m (a / (512 * G))) eqn:Ek; [done|]. rewrite Htgt, Hsrc1 by done. symmetry.
  apply (clean_grain_unchanged bm); [apply Hat| |].
  { eapply Forall_impl; [exact Hbs|]. intros b (? & ? & ?). done. }
  fold G. rewrite Hsame in Ek.
  - rewrite Hbits in Ek. apply orb_false_iff in Ek as [Ek _].
    by replace (8 * kp_off p + a / (512 * G) - 8 * kp_off p) with (a / (512 * G)) in Ek by lia.
  - split; [apply Z.div_pos; lia|]. apply Z.div_lt_upper_bound; lia.
Qed.

(** ** A run

    The disks of [ResyncProps], 4096 bytes written at sector 12 of the second
    device of [KernelProps.ex_state]: grains 1 and 2 are dirty. *)
#[local] Existing Instance x86_bitops.
#[local] Existing Instance x86_bitops_laws.

Definition ex_write : bio := mk_bio 12 4096 true (ex_chunk 9).
Definition ex_written : mem := write_at 6144 (ex_chunk 9) ex_tgt.
Definition ex_dirty : mem := 6 :: replicate (Z.to_nat (BITMAP_SIZE - 1)) 0.

Definition ex_pair : link := mk_link (ex_server <| ext := host0 <| ho_disk := ex_written |> |>) 4 ex_tgt 0 true [].
Definition ex_pair_client : world link := (ex_client_on ex_pair) <| heap ::= fun h => <[0 := ex_dirty]> h |>.

Lemma length_ex_written : length ex_written = length ex_src.
Proof.
  unfold ex_written. rewrite length_write_at; [apply length_ex_tgt|lia|].
  rewrite length_ex_chunk, length_ex_tgt, length_ex_src. lia.
Qed.

Lemma length_ex_dirty : Z.of_nat (length ex_dirty) = BITMAP_SIZE.
Proof.
  unfold ex_dirty. cbn [length]. rewrite length_replicate, Nat2Z.inj_succ, Z2Nat.id by (unfold BITMAP_SIZE; lia). lia.
Qed.

Lemma wf_ex_dirty : wf_mem ex_dirty.
Proof. constructor; [unfold is_byte; lia|apply wf_replicate]. Qed.

Lemma ex_dirty_range b : mem_bit ex_dirty b = true -> 0 <= b < 3.
Proof.
  intros Hb. pose proof (mem_bit_nonneg _ _ Hb). unfold ex_dirty in Hb. rewrite mem_bit_cons in Hb.
  destruct (Z.ltb_spec b 8); [|by rewrite mem_bit_replicate in Hb].
  destruct (decide (b < 3)); [lia|].
  assert (b = 3 \/ b = 4 \/ b = 5 \/ b = 6 \/ b = 7) as Hc by lia.
  by destruct Hc as [-> | [-> | [-> | [-> | ->]]]].
Qed.

Lemma ex_written_image a : bytes_image ex_written a = bios_image [ex_write] (bytes_image ex_tgt) a.
Proof.
  unfold ex_written, bios_image, bio_image. cbn [foldl ex_write bi_sector bi_size bi_data].
  apply write_at_image; [lia|apply length_ex_chunk|]. rewrite length_ex_tgt, length_ex_src. lia.
Qed.

#[global] Opaque ex_dirty ex_written.

Lemma writes_reach_the_target_witness :
  exists s' area', run_requests 2 [ex_write] ex_state = Some s' /\ bm_ok s' 2 ex_bm (mk_kptr 2 0) area' /\
    (same_bits ex_bm (mk_kptr 2 0) area' ex_dirty ->
     exists w', @restart_resync link (link_os ex_env) 0 0 NO_RESYNC ex_pair_client = Ret tt w' /\
       forall a, 0 <= a < Z.of_nat (length ex_written) ->
         bytes_image (ln_target (ext w')) a = bytes_image ex_written a).
Proof.
  apply (writes_reach_the_target ex_env ex_state 2 [ex_write] ex_bm (mk_kptr 2 0) (replicate 16 0) (bytes_image ex_tgt)
    ex_written 0 5 4 3 6 0 ex_dirty ex_pair_client).
  - exact ex_state_kwf.
  - vm_compute. by split.
  - exact ex_state_ok.
  - split; [cbn; lia|cbn; lia|]. exists 2, 7. by vm_compute.
  - constructor; [|constructor]. split; [done|]. split; [repeat split; cbn; lia|]. split; cbn; [reflexivity|lia].
  - lia.
  - rewrite length_ex_written, length_ex_src. lia.
  - cbn. lia.
  - reflexivity.
  - rewrite length_ex_written, length_ex_src. cbn. lia.
  - intros a _. apply ex_written_image.
  - done.
  - exact wf_ex_dirty.
  - exact length_ex_dirty.
  - intros b Hb. apply ex_dirty_range in Hb. rewrite length_ex_written, length_ex_src.
    change (kb_grain_size ex_bm / 512) with 8. lia.
  - by constructor.
  - vm_compute. congruence.
Defined.
