(* ===== verification/DaemonProps.v ===== *)
(** * Properties of the daemon's commands

    The commands of the administrator from the command line to the daemon,
    the database statements and their lock, the allocation of partner ids, the
    configuration file, the start from the database and its lock, recovery. *)
From S2P Require Import Prelude Memory KernelState KBitmap KernelMain CMonad CString World UBitmap Db Config Partner.
From S2P Require Import Relation Disk Header ReplicServer ConnServer Resync ReplicClient Recovery Daemon Adm WorldTac TransferLoop ResyncSpec.
From S2P Require Import Sim ResyncProps.
From Stdlib Require Import Ascii.

#[local] Existing Instance x86_bitops.
#[local] Existing Instance ex_hosted.

(** ** The database lock *)

(** How a statement may end, and whether the lock is free then. *)
Definition lock_outcome {E} (r : res (world E) unit) : Prop :=
  match r with
  | Ret _ w' => db_lock w' = false
  | Stop Exited w' => db_lock w' = false
  | Stop Cancelled w' => db_lock w' = true
  | Stop Blocked _ => False
  | Stop Undefined _ => True
  end.

Lemma query_lock {E} `{OS E} sql (k : unit -> MW E unit) (w : world E) :
  db_lock w = true ->
  (forall e, lock_outcome (k tt (w <| ext := e |>))) -> lock_outcome (bind (mysql_query sql) k w).
Proof.
  intros Hl Hk. unfold mysql_query. rewrite bind_assoc. unfold bind at 1, cancellation_point.
  destruct (cancel_pending w) eqn:Hc; [exact Hl|]. rewrite bind_assoc. unfold bind at 1, sys.
  destruct (os_query sql (ext w)) as [r e]. rewrite bind_when. destruct (negb (r =? 0)); [|apply Hk].
  unfold finish_with_error, stop_work, mutex_unlock, put, modify, bind, ebdr_log, cancellation_point.
  wsimpl. by rewrite Hc.
Qed.

(** C25. A database statement taken with the lock free gives it back when it
    returns and when it ends the process on an error, whatever the database
    answers; it never blocks; only a cancellation of the thread leaves the
    lock locked. *)
Theorem statement_lock_discipline {E} `{OS E} n db sql (w : world E) :
  db_lock w = false -> lock_outcome (locked_query n db sql w).
Proof.
  intros Hl. unfold locked_query. unfold cstring at 1. destruct (cstr_fits n (use_db db)); [|exact I].
  rewrite bind_ret. unfold bind at 1, mutex_lock. rewrite Hl.
  apply query_lock; [done|]. intros e. unfold cstring. destruct (cstr_fits n sql); [|exact I]. rewrite bind_ret.
  by apply query_lock.
Qed.

Lemma statement_lock_discipline_witness :
  lock_outcome (locked_query 100 "ebdrdbc" "select" (world0 host0)).
Proof. by apply statement_lock_discipline. Defined.

(** ** Statements and their buffers *)
Lemma dec_digit z : 0 <= z < 10 -> slen (dec z) = 1.
Proof. intros Hz. pose proof (slen_dec z 1). pose proof (slen_dec_pos z). lia. Qed.

(** Disk names may have up to 63 characters, the statement that records a
    snapshot has a buffer of 100 bytes: as soon as the two names together
    have 51 characters it overflows. *)
Theorem disk_names_overflow_statement {E} `{OS E} pid name snap (w : world E) e :
  cancel_pending w = false -> db_lock w = false ->
  os_query (use_db "ebdrdbs") (ext w) = (0, e) -> 51 <= slen name + slen snap ->
  exists w', update_into_disk pid name snap "ebdrdbs" w = Stop Undefined w'.
Proof.
  intros Hc Hl Hq Hn. unfold update_into_disk. eapply locked_query_overflow; [done|done|done| |exact Hq].
  unfold sql_update_disk. slen_literals. pose proof (slen_dec_pos pid). lia.
Qed.

Definition long_name : string := "/dev/mapper/volume_group-source_disk".

Lemma disk_names_overflow_statement_witness :
  exists w', update_into_disk 0 long_name long_name "ebdrdbs" (world0 host0) = Stop Undefined w'.
Proof. eapply disk_names_overflow_statement; [done|done|reflexivity|vm_compute; congruence]. Defined.

(** ** Partner ids *)
Lemma first_index_spec n test :
  let i := first_index n test in
  (i = -1 /\ forall j, 0 <= j < n -> test j = false) \/
  (0 <= i < n /\ test i = true /\ forall j, 0 <= j < i -> test j = false).
Proof.
  unfold first_index.
  assert (Hgen : forall k a, let r := List.find test (zseq a (Z.of_nat k)) in
    (r = None /\ forall j, a <= j < a + Z.of_nat k -> test j = false) \/
    exists i, r = Some i /\ a <= i < a + Z.of_nat k /\ test i = true /\ forall j, a <= j < i -> test j = false).
  { induction k as [|k IH]; intros a; cbn zeta.
    - left. split; [done|]. intros; lia.
    - rewrite zseq_cons by lia. cbn [List.find]. destruct (test a) eqn:Ea.
      + right. exists a. split; [done|]. split; [lia|]. split; [done|]. intros; lia.
      + replace (Z.of_nat (S k) - 1) with (Z.of_nat k) by lia.
        destruct (IH (a + 1)) as [[-> Hno]|(i & -> & Hi & Hti & Hlo)]; [left|right; exists i]; split; try done.
        * intros j Hj. destruct (decide (j = a)) as [->|]; [done|apply Hno; lia].
        * split; [lia|]. split; [done|]. intros j Hj. destruct (decide (j = a)) as [->|]; [done|apply Hlo; lia]. }
  destruct (Z.le_gt_cases 0 n) as [Hn|Hn].
  - specialize (Hgen (Z.to_nat n) 0). rewrite Z2Nat.id in Hgen by lia. cbn zeta in *.
    destruct Hgen as [[-> Hno]|(i & -> & Hi & Hti & Hlo)]; [by left|right]. done.
  - left. rewrite zseq_nil by lia. split; [done|]. intros; lia.
Qed.

(** A new client partner gets the first id whose object is neither in use
    nor released; there is none (-1) exactly when all are.  A paused partner's
    id is therefore given away while its resync is only suspended. *)
Theorem new_client_id_first_free {E} (w : world E) :
  let st i := ptn_state (aget (all_partner_clients w) i) in
  let free i := st i <> PARTNER_OBJ_IN_USE /\ st i <> PARTNER_OBJ_RELEASED in
  let id := get_new_partner_client_id w in
  ((id = -1 /\ forall j, 0 <= j < MAX_PARTNERS -> ~ free j) \/
   (0 <= id < MAX_PARTNERS /\ free id /\ forall j, 0 <= j < id -> ~ free j)) /\
  (st 0 = PARTNER_OBJ_PAUSE -> id = 0).
Proof.
  intros st free id.
  set (test := fun i => negb (st i =? PARTNER_OBJ_IN_USE) && negb (st i =? PARTNER_OBJ_IN_USE) && negb (st i =? PARTNER_OBJ_RELEASED)).
  assert (Htest : forall i, test i = true <-> free i).
  { intros i. unfold test, free. rewrite !andb_true_iff, !negb_true_iff, !Z.eqb_neq. tauto. }
  assert (Hno : forall i, test i = false <-> ~ free i).
  { intros i. rewrite <- Htest. by destruct (test i). }
  assert (Hspec : (id = -1 /\ forall j, 0 <= j < MAX_PARTNERS -> test j = false) \/
    (0 <= id < MAX_PARTNERS /\ test id = true /\ forall j, 0 <= j < id -> test j = false)) by apply first_index_spec.
  split.
  - destruct Hspec as [[Hid Hall]|(Hid & Ht & Hlo)]; [left|right]; split; try done.
    + intros j Hj. by apply Hno, Hall.
    + split; [by apply Htest|]. intros j Hj. by apply Hno, Hlo.
  - intros H0. assert (Ht0 : test 0 = true) by (apply Htest; unfold free; rewrite H0; unfold PARTNER_OBJ_PAUSE, PARTNER_OBJ_IN_USE, PARTNER_OBJ_RELEASED; lia).
    destruct Hspec as [[_ Hall]|(Hid & _ & Hlo)].
    + rewrite Hall in Ht0; [done|unfold MAX_PARTNERS; lia].
    + destruct (decide (id = 0)) as [|Hne]; [done|]. rewrite Hlo in Ht0; [done|lia].
Qed.

(** On a daemon that has no partner at all, the id 0 passes both
    validations, since the objects start zeroed: the commands that check the
    id then work on an empty object. *)
Theorem fresh_id_zero_valid {E} (e : E) :
  is_client_partner_id_valid 0 (world0 e) = true /\ is_server_partner_id_valid 0 (world0 e) = true.
Proof. split; reflexivity. Qed.

(** ** From the command line to the daemon *)

Section admin.
Context {E : Type} `{OS E} (garbage : Z) (garbage_str : string).

(** The command writes one message to the fifo of a daemon, and an iteration of
    the control loop of that daemon (the server's reads the first fifo, the
    client's the second) which reads it does [act]. *)
Definition adm_reaches (ch : ascii) (argv : list string) (f : fifo) (act : MW E unit) : Prop :=
  exists msg, adm_main ch argv = Some (AWrite f msg) /\
    forall fd w e, os_read fd CMD_LEN (ext w) = (slen msg, string_bytes msg, e) ->
      cntrl_step garbage garbage_str (match f with serverfifo => true | clientfifo => false end) fd w = act (w <| ext := e |>).

(** The option's case prints [word], the arguments and [tail]; the daemon scans
    the word and the arguments. *)
Lemma adm_line_reaches ch prog opt f word fmt args tail act :
  let text := word +:+ line args tail in
  let argv := prog :: opt :: map parg_text args in
  adm_main ch argv = with_args (2 + length fmt) argv f word tail ->
  slen text < 200 -> is_word word -> no_nul word -> starts_space tail -> no_nul tail ->
  Forall2 parg_ok fmt args -> Forall parg_no_nul args ->
  (scan (Cs :: fmt) text = AStr word :: map parg_scanned args ->
   forall srv w, parse_daemon_request garbage garbage_str srv text w = bind act (fun _ => ret 0) w) ->
  adm_reaches ch argv f act.
Proof.
  intros text argv Hsw Hlen Hw Hnw Ht Hnt Hok Hargs Hact.
  assert (Hline : word +:+ adm_args argv tail = text).
  { unfold text, adm_args, argv. cbn [drop]. rewrite drop_0. f_equal. clear. unfold line.
    induction args as [|a args IH]; [done|]. cbn [map foldr]. rewrite IH. by destruct a. }
  assert (Hn : no_nul text) by by apply no_nul_app, line_no_nul.
  assert (H0 : 0 < slen text).
  { unfold text. rewrite slen_app. destruct Hw as [Hne _]. destruct word; [done|]. unfold slen. cbn. lia. }
  exists text. split.
  - rewrite Hsw. unfold with_args, put_cmd.
    rewrite decide_True by (unfold argv; cbn; by rewrite length_map, (Forall2_length _ _ _ Hok)).
    rewrite Hline. unfold cstr_fits. by rewrite (proj2 (Z.ltb_lt _ _)).
  - intros fd w e Hread. unfold cntrl_step, read_from_fifo. rewrite bind_assoc. unfold bind at 1, sys. rewrite Hread.
    cbv beta iota. replace (slen text <? 0) with false by bool_solve. rewrite bind_ret. cbv beta iota.
    rewrite bind_assert by (unfold CMD_LEN; bool_solve). replace (slen text =? 0) with false by bool_solve. cbn [negb when].
    rewrite bytes_of_string by done. unfold ignore, bind at 1. rewrite Hact by by apply scan_command.
    unfold bind. by destruct (act _) as [[] w'|].
Qed.

(** The ids are validated. *)
Definition on_client (pid : Z) (m : MW E unit) : MW E unit :=
  ebdr_log;;; w <- get (fun w => w);; if is_client_partner_id_valid pid w then m else ebdr_log.
Definition on_server (pid : Z) (m : MW E unit) : MW E unit :=
  ebdr_log;;; w <- get (fun w => w);; if is_server_partner_id_valid pid w then m else ebdr_log.

(** A line of arguments whose lengths are bounded. *)
Ltac short_line word tail :=
  let n := eval vm_compute in (slen word) in let k := eval vm_compute in (slen tail) in
  rewrite slen_app, !slen_line_cons; cbn [parg_text]; change (slen (line [] tail)) with k; change (slen word) with n; lia.

(** The side conditions of [adm_line_reaches] for a given command; the last one
    is left, with the daemon's case for the text being [h]. *)
Ltac reaches word fmt args tail h :=
  match goal with
  | |- adm_reaches ?ch (?prog :: ?opt :: _) ?f _ =>
      apply (adm_line_reaches ch prog opt f word fmt args tail);
        [ reflexivity
        | assumption || short_line word tail
        | done | by repeat constructor | done | by repeat constructor
        | repeat (apply List.Forall2_cons; [cbn; assumption || lia|]); apply List.Forall2_nil
        | repeat (apply Forall_cons_2; [cbn; assumption || lia|]); apply Forall_nil_2
        | intros Hscan srv w;
          match goal with |- _ = bind ?act _ w => transitivity (bind (h (word +:+ line args tail)) (fun _ => ret 0) w);
            [reflexivity|] end ]
  end.

(** C26. From the command line to the daemon: for creating a device, setting the
    grain, making and removing a partner or a relation, a snapshot, the
    metadata, a resync, its pause and its resumption, the command writes one
    message to the fifo of a daemon, and the control loop that reads it does
    exactly the operation asked for with the arguments of the command line. *)
Theorem admin_daemon_round_trip (prog opt disk ip target snap : string) (g b bw bs gs cs pid role : Z) :
  name64 disk -> name64 ip -> name64 target -> name64 snap ->
  0 <= g < 2 ^ 64 -> 0 <= b < 2 ^ 64 -> 0 <= bw < 2 ^ 64 -> 0 <= bs < 2 ^ 64 -> 0 <= gs < 2 ^ 64 -> 0 <= cs < 2 ^ 64 ->
  0 <= pid < 2 ^ 31 -> 0 <= role < 2 ^ 31 ->
  slen ("partner" +:+ line [PStr ip; PInt bw; PStr target; PInt bs; PInt gs; PInt cs] "") < 200 ->
  slen ("x" +:+ line [PInt pid; PInt role; PStr disk; PInt bs; PInt gs; PInt cs] " ") < 200 ->
  slen ("y" +:+ line [PInt pid; PInt role; PStr target; PInt bs; PInt gs; PInt cs] " ") < 200 ->
  adm_reaches "c" [prog; opt; disk; dec g; dec b] serverfifo
    (ebdr_log;;;
     modify (fun w => w <| ioctl_obj ::= fun o => o <| src_disk ::= put_string disk |> |>);;;
     modify (fun w => w <| ioctl_obj ::= fun o => o <| u_grain_size := g |> <| u_bitmap_size := b |> |>);;;
     create_source) /\
  adm_reaches "g" [prog; opt; dec g; dec b] serverfifo
    (ebdr_log;;;
     modify (fun w => w <| ioctl_obj ::= fun o => o <| u_grain_size := g |> <| u_bitmap_size := b |> |>);;;
     ignore (prepare_and_send_ioctl_cmd EBDRCTL_SET_GRAIN_SIZE)) /\
  adm_reaches "p" [prog; opt; ip; dec bw; target; dec bs; dec gs; dec cs] clientfifo
    (ebdr_log;;; if validate_ipaddr ip then make_partner_with_server ip bw target bs gs cs else ebdr_log) /\
  adm_reaches "k" [prog; opt; dec pid] clientfifo (on_server pid (remove_partner_with_server pid)) /\
  adm_reaches "x" [prog; opt; dec pid; dec role; disk; dec bs; dec gs; dec cs] serverfifo
    (on_server pid (ignore (make_relation_with_client pid role disk bs gs cs))) /\
  adm_reaches "y" [prog; opt; dec pid; dec role; target; dec bs; dec gs; dec cs] clientfifo
    (on_client pid (ignore (make_relation_with_server pid role target bs gs cs))) /\
  adm_reaches "o" [prog; opt; dec pid] clientfifo (ebdr_log;;; remove_relation_in_client pid) /\
  adm_reaches "s" [prog; opt; snap; dec pid] serverfifo (on_server pid (snapshot_disk_init snap pid)) /\
  adm_reaches "m" [prog; opt; dec pid] clientfifo (on_client pid (ignore (request_server_for_metadata pid))) /\
  adm_reaches "r" [prog; opt; dec pid] clientfifo (on_client pid (ignore (resync_init pid 0))) /\
  adm_reaches "n" [prog; opt; dec pid] clientfifo (on_client pid (pause_resync pid)) /\
  adm_reaches "l" [prog; opt; dec pid] clientfifo (on_client pid (resume_resync pid)).
Proof.
  intros Hdisk Hip Htarget Hsnap Hg Hb Hbw Hbs Hgs Hcs Hpid Hrole Hlp Hlx Hly.
  pose proof Hdisk as (Hd1 & Hd2 & Hd3). pose proof Hip as (Hi1 & Hi2 & _). pose proof Htarget as (Ht1 & Ht2 & _).
  pose proof Hsnap as (Hs1 & Hs2 & Hs3). pose proof (slen_dec pid 10). pose proof (slen_dec g 20). pose proof (slen_dec b 20).
  split_and!.
  - reaches "create" [Cs; Clu; Clu] [PStr disk; PInt g; PInt b] EmptyString (cmd_create (E := E)).
    unfold cmd_create. rewrite Hscan. rewrite !bind_assoc. apply bind_ext. intros [] w1.
    cbn [map parg_scanned lookup list_lookup]. by rewrite !bind_assoc, bind_name64.
  - reaches "grainset" [Clu; Clu] [PInt g; PInt b] EmptyString (cmd_grain (E := E)). unfold cmd_grain. by rewrite Hscan.
  - reaches "partner" [Cs; Clu; Cs; Clu; Clu; Clu] [PStr ip; PInt bw; PStr target; PInt bs; PInt gs; PInt cs] EmptyString
      (cmd_mkpartner (E := E) garbage garbage_str).
    unfold cmd_mkpartner. rewrite Hscan. rewrite !bind_assoc. apply bind_ext. intros [] w1.
    change (arg_str _ 1 _) with ip. change (arg_str _ 3 _) with target. by rewrite bind_assoc, bind_name64, bind_assoc, bind_name64.
  - reaches "killpartner" [Cd] [PInt pid] EmptyString (cmd_rmpartner (E := E) garbage). unfold cmd_rmpartner. by rewrite Hscan.
  - reaches "x" [Cd; Cd; Cs; Clu; Clu; Clu] [PInt pid; PInt role; PStr disk; PInt bs; PInt gs; PInt cs] " "%string
      (cmd_mkrelation (E := E) garbage garbage_str).
    unfold cmd_mkrelation, on_server. rewrite Hscan. rewrite !bind_assoc. apply bind_ext. intros [] w1.
    change (arg_str _ 3 _) with disk. by rewrite bind_assoc, bind_name64.
  - reaches "y" [Cd; Cd; Cs; Clu; Clu; Clu] [PInt pid; PInt role; PStr target; PInt bs; PInt gs; PInt cs] " "%string
      (cmd_mkrelationpeer (E := E) garbage garbage_str).
    unfold cmd_mkrelationpeer, on_client. rewrite Hscan. rewrite !bind_assoc. apply bind_ext. intros [] w1.
    change (arg_str _ 3 _) with target. by rewrite bind_assoc, bind_name64.
  - reaches "ormrelation" [Cd] [PInt pid] EmptyString (cmd_rmrelationpeer (E := E) garbage). unfold cmd_rmrelationpeer. by rewrite Hscan.
  - reaches "snap" [Cs; Cd] [PStr snap; PInt pid] EmptyString (cmd_snap (E := E) garbage).
    unfold cmd_snap, on_server. rewrite Hscan. rewrite !bind_assoc. apply bind_ext. intros [] w1.
    change (arg_str _ 1 _) with snap. by rewrite bind_assoc, bind_name64.
  - reaches "metadata" [Cd] [PInt pid] EmptyString (cmd_metadata (E := E) garbage). unfold cmd_metadata. by rewrite Hscan.
  - reaches "resync" [Cd] [PInt pid] EmptyString (cmd_resync (E := E) garbage). unfold cmd_resync. by rewrite Hscan.
  - reaches "npause" [Cd] [PInt pid] EmptyString (cmd_pause (E := E) garbage). unfold cmd_pause. by rewrite Hscan.
  - reaches "lresume" [Cd] [PInt pid] EmptyString (cmd_resume (E := E) garbage). unfold cmd_resume. by rewrite Hscan.
Qed.
End admin.

#[local] Abbreviation ex_reaches := (adm_reaches (E := host) (-1) EmptyString).

Lemma admin_daemon_round_trip_witness :
  ex_reaches "c" ["adm"; "-o"; "/dev/sdb"; "4096"; "1024"]%string serverfifo
    (ebdr_log;;;
     modify (fun w => w <| ioctl_obj ::= fun o => o <| src_disk ::= put_string "/dev/sdb" |> |>);;;
     modify (fun w => w <| ioctl_obj ::= fun o => o <| u_grain_size := 4096 |> <| u_bitmap_size := 1024 |> |>);;;
     create_source) /\
  ex_reaches "g" ["adm"; "-o"; "4096"; "1024"]%string serverfifo
    (ebdr_log;;;
     modify (fun w => w <| ioctl_obj ::= fun o => o <| u_grain_size := 4096 |> <| u_bitmap_size := 1024 |> |>);;;
     ignore (prepare_and_send_ioctl_cmd EBDRCTL_SET_GRAIN_SIZE)) /\
  ex_reaches "p" ["adm"; "-o"; "10.0.0.2"; "100"; "/dev/sdc"; "1024"; "8"; "8"]%string clientfifo
    (ebdr_log;;; if validate_ipaddr "10.0.0.2" then make_partner_with_server "10.0.0.2" 100 "/dev/sdc" 1024 8 8 else ebdr_log) /\
  ex_reaches "k" ["adm"; "-o"; "3"]%string clientfifo (on_server 3 (remove_partner_with_server 3)) /\
  ex_reaches "x" ["adm"; "-o"; "3"; "1"; "/dev/sdb"; "1024"; "8"; "8"]%string serverfifo
    (on_server 3 (ignore (make_relation_with_client 3 1 "/dev/sdb" 1024 8 8))) /\
  ex_reaches "y" ["adm"; "-o"; "3"; "1"; "/dev/sdc"; "1024"; "8"; "8"]%string clientfifo
    (on_client 3 (ignore (make_relation_with_server 3 1 "/dev/sdc" 1024 8 8))) /\
  ex_reaches "o" ["adm"; "-o"; "3"]%string clientfifo (ebdr_log;;; remove_relation_in_client 3) /\
  ex_reaches "s" ["adm"; "-o"; "/dev/snap"; "3"]%string serverfifo (on_server 3 (snapshot_disk_init "/dev/snap" 3)) /\
  ex_reaches "m" ["adm"; "-o"; "3"]%string clientfifo (on_client 3 (ignore (request_server_for_metadata 3))) /\
  ex_reaches "r" ["adm"; "-o"; "3"]%string clientfifo (on_client 3 (ignore (resync_init 3 0))) /\
  ex_reaches "n" ["adm"; "-o"; "3"]%string clientfifo (on_client 3 (pause_resync 3)) /\
  ex_reaches "l" ["adm"; "-o"; "3"]%string clientfifo (on_client 3 (resume_resync 3)).
Proof.
  apply (admin_daemon_round_trip (-1) EmptyString "adm" "-o" "/dev/sdb" "10.0.0.2" "/dev/sdc" "/dev/snap" 4096 1024 100 1024 8 8 3 1);
    first [lia | reflexivity | by split_and!; repeat constructor].
Defined.

(** ** Pausing *)

(** The database answers every statement. *)
Definition db_up (E : Type) `{OS E} : Prop := forall sql (e : E), exists e', os_query sql e = (0, e').

Lemma locked_query_up {E} `{OS E} n db sql (w : world E) :
  db_up E -> cancel_pending w = false -> db_lock w = false -> slen (use_db db) < n -> slen sql < n ->
  exists e, locked_query n db sql w = Ret tt (w <| ext := e |>).
Proof.
  intros Hup Hc Hl Hu Hs. destruct (Hup (use_db db) (ext w)) as [e1 E1]. destruct (Hup sql e1) as [e2 E2].
  exists e2. by eapply locked_query_ok.
Qed.

Definition pause_line (pid : Z) : string := "npause" +:+ line [PInt pid] "".

Lemma pause_scan pid : 0 <= pid < 2 ^ 31 -> arg_int (scan [Cs; Cd] (pause_line pid)) 1 0 = pid.
Proof.
  intros Hp. unfold pause_line. rewrite scan_command; [done|by split|done|].
  apply List.Forall2_cons; [done|apply List.Forall2_nil].
Qed.

(** The pause command stops a running resync: the partner and its resync
    are recorded as paused, and the next round of the resync loop ends without
    sending a request or touching a disk. *)
Theorem pause_command_stops_resync {E} `{OS E} pid bit c buff (w : world E) :
  db_up E -> 0 <= pid < 2048 -> cancel_pending w = false -> db_lock w = false ->
  is_client_partner_id_valid pid w = true -> rp_last_bit (aget (replic_client_obj w) pid) <> 0 ->
  exists w1, parse_daemon_request 0 EmptyString false (pause_line pid) w = Ret 0 w1 /\
    ptn_state (aget (all_partner_clients w1) pid) = PARTNER_OBJ_PAUSE /\
    rp_state (aget (replic_client_obj w1) pid) = RESYNC_PAUSE /\ db_lock w1 = false /\
    exists w2, chunk_round pid bit c buff w1 = Ret (Some chunks_paused, buff) w2 /\ ext w2 = ext w1.
Proof.
  intros Hup Hpid Hcan Hlock Hval Hlast.
  change (parse_daemon_request 0 EmptyString false (pause_line pid)) with
    (cmd_pause (E := E) 0 (pause_line pid);;; ret 0).
  unfold cmd_pause, pause_resync. rewrite bind_assoc, bind_log by done. rewrite pause_scan by lia. rewrite bind_assoc, bind_get, Hval.
  rewrite bind_assoc, bind_rd by (unfold MAX_REPLICATIONS; lia). rewrite (proj2 (Z.eqb_neq _ _) Hlast).
  rewrite bind_assoc, bind_wr by (unfold MAX_PARTNERS; lia). rewrite bind_assoc, bind_wr by (unfold MAX_REPLICATIONS; lia).
  set (w1 := _ <| replic_client_obj ::= _ |>).
  pose proof (slen_dec pid 4). 
  destruct (locked_query_up 100 "ebdrdbc" (sql_update_partner pid PARTNER_OBJ_PAUSE) w1 Hup) as [e1 E1]; [done|done|done| |].
  { unfold sql_update_partner. slen_literals. change (slen (dec PARTNER_OBJ_PAUSE)) with 1. lia. }
  unfold update_into_partner. rewrite bind_assoc, (bind_Ret _ _ _ _ _ E1).
  destruct (locked_query_up 100 "ebdrdbc" (sql_update_resync_state pid RESYNC_PAUSE "RESYNC_PAUSE") (w1 <| ext := e1 |>) Hup)
    as [e2 E2]; [done|done|done| |].
  { unfold sql_update_resync_state. slen_literals. change (slen (dec RESYNC_PAUSE)) with 1. lia. }
  unfold update_resync_state. rewrite (bind_Ret _ _ _ _ _ E2).
  eexists. split; [reflexivity|]. unfold w1. split; [by wsimpl|]. split; [by wsimpl|]. split; [done|].
  unfold chunk_round. rewrite bind_wr by (unfold MAX_HDR; lia). rewrite bind_log by (wsimpl; done).
  rewrite bind_wr by (unfold MAX_IO; lia). rewrite bind_rd by (unfold MAX_PARTNERS; lia). wsimpl.
  change (PARTNER_OBJ_PAUSE =? PARTNER_OBJ_PAUSE) with true. eexists. split; [reflexivity|done].
Qed.

Lemma host_db_up : db_up host.
Proof. intros sql e. by eexists. Qed.

Definition ex_running : world host :=
  (ex_client_on host0) <| replic_client_obj ::= aset 0 (fun r => r <| rp_last_bit := 5 |>) |>.

Lemma pause_command_stops_resync_witness :
  exists w1, parse_daemon_request 0 EmptyString false (pause_line 0) ex_running = Ret 0 w1 /\
    ptn_state (aget (all_partner_clients w1) 0) = PARTNER_OBJ_PAUSE /\
    rp_state (aget (replic_client_obj w1) 0) = RESYNC_PAUSE /\ db_lock w1 = false /\
    exists w2, chunk_round 0 6 0 [] w1 = Ret (Some chunks_paused, []) w2 /\ ext w2 = ext w1.
Proof.
  apply pause_command_stops_resync; [exact host_db_up|lia|reflexivity|reflexivity|reflexivity|vm_compute; congruence].
Defined.

(** A pause that comes while the first grain is being copied is refused,
    as if the resync were over: nothing changes and the resync runs on. *)
Theorem pause_at_first_grain_ignored {E} `{OS E} pid (w : world E) :
  0 <= pid < 2048 -> cancel_pending w = false -> rp_last_bit (aget (replic_client_obj w) pid) = 0 ->
  parse_daemon_request 0 EmptyString false (pause_line pid) w = Ret 0 w.
Proof.
  intros Hpid Hcan Hlast.
  change (parse_daemon_request 0 EmptyString false (pause_line pid)) with
    (cmd_pause (E := E) 0 (pause_line pid);;; ret 0).
  unfold cmd_pause, pause_resync. rewrite bind_assoc, bind_log by done. rewrite pause_scan by lia. rewrite bind_assoc, bind_get.
  destruct (is_client_partner_id_valid pid w).
  - rewrite bind_assoc, bind_rd by (unfold MAX_REPLICATIONS; lia). rewrite Hlast. cbn [Z.eqb]. by rewrite bind_log.
  - by rewrite bind_log.
Qed.

Lemma pause_at_first_grain_ignored_witness :
  parse_daemon_request 0 EmptyString false (pause_line 0) (ex_client_on host0) = Ret 0 (ex_client_on host0).
Proof. apply pause_at_first_grain_ignored; [lia|reflexivity|reflexivity]. Defined.

(** ** The configuration file *)
Definition known_key (key : string) : Prop := key = "username"%string \/ key = "password"%string \/ key = "host"%string.

(** What the three keys set. *)
Definition key_value {E} (key : string) (w : world E) : string :=
  if String.eqb "username" key then db_user w else if String.eqb "password" key then db_pswrd w else db_host w.

(** The value of a known key is stored when it has at most nine
    characters; a longer one (the address 192.168.1.10, say) overflows the
    buffer of ten bytes it is copied into. *)
Theorem config_value_limit {E} `{OS E} key v (w : world E) :
  known_key key ->
  (slen v < 10 -> exists w', keyVar key (Some v) w = Ret tt w' /\ key_value key w' = v /\ ext w' = ext w) /\
  (10 <= slen v -> exists w', keyVar key (Some v) w = Stop Undefined w').
Proof.
  intros Hk. unfold keyVar, key_value. split; intros Hv; destruct Hk as [-> | [-> | ->]];
    repeat match goal with
      | |- context [String.eqb ?a ?b] => let r := eval vm_compute in (String.eqb a b) in change (String.eqb a b) with r
      end; cbn [when of_option]; rewrite ?bind_ret.
  1-2: rewrite bind_assoc, bind_ret, bind_assoc, bind_cstring by done; by eexists.
  1: rewrite bind_cstring by done; by eexists.
  1-2: rewrite bind_assoc, bind_ret, bind_assoc; unfold bind; rewrite cstring_overflow by done; by eexists.
  unfold bind; rewrite cstring_overflow by done; by eexists.
Qed.

Lemma config_value_limit_witness :
  (slen "192.168.1.10" < 10 -> exists w', keyVar "host" (Some "192.168.1.10"%string) (world0 host0) = Ret tt w' /\
     key_value "host" w' = "192.168.1.10"%string /\ ext w' = host0) /\
  (10 <= slen "192.168.1.10" -> exists w', keyVar "host" (Some "192.168.1.10"%string) (world0 host0) = Stop Undefined w').
Proof. apply config_value_limit. by right; right. Defined.

(** ** Recovery *)

(** The lock is held when a function that starts with it returns; it is held
    when a function returns, whatever it was before. *)
Definition holds_lock {E A} (m : MW E A) : Prop := forall w a w', db_lock w = true -> m w = Ret a w' -> db_lock w' = true.
Definition takes_lock {E A} (m : MW E A) : Prop := forall w a w', m w = Ret a w' -> db_lock w' = true.

Lemma bind_returns {E A B} (m : MW E A) (k : A -> MW E B) w b w' :
  bind m k w = Ret b w' -> exists a w1, m w = Ret a w1 /\ k a w1 = Ret b w'.
Proof. unfold bind. destruct (m w) as [a w1|]; [|done]. intros Hk. by exists a, w1. Qed.

Section lock.
Context {E : Type} `{OS E}.

Lemma holds_bind {A B} (m : MW E A) (k : A -> MW E B) : holds_lock m -> (forall a, holds_lock (k a)) -> holds_lock (bind m k).
Proof. intros Hm Hk w b w' Hl (a & w1 & E1 & E2)%bind_returns. eapply Hk; [|exact E2]. by eapply Hm. Qed.

Lemma takes_bind_l {A B} (m : MW E A) (k : A -> MW E B) : takes_lock m -> (forall a, holds_lock (k a)) -> takes_lock (bind m k).
Proof. intros Hm Hk w b w' (a & w1 & E1 & E2)%bind_returns. eapply Hk; [|exact E2]. by eapply Hm. Qed.

Lemma takes_bind_r {A B} (m : MW E A) (k : A -> MW E B) : (forall a, takes_lock (k a)) -> takes_lock (bind m k).
Proof. intros Hk w b w' (a & w1 & E1 & E2)%bind_returns. by eapply Hk. Qed.

Lemma holds_view {A} (m : MW E A) : preserves (same db_lock) m -> holds_lock m.
Proof. intros Hm w a w' Hl Ew. specialize (Hm w). rewrite Ew in Hm. unfold same, end_state in Hm. by rewrite Hm. Qed.

Lemma holds_log : holds_lock (E := E) ebdr_log.
Proof. apply holds_view. intros w. unfold ebdr_log, cancellation_point. by destruct (cancel_pending w). Qed.

Lemma holds_sys {A} (call : E -> A * E) : holds_lock (sys call).
Proof. apply holds_view. by apply preserves_sys. Qed.

(** A statement that fails ends the process. *)
Lemma holds_exit {A} : holds_lock (E := E) (A := A) finish_with_error.
Proof.
  intros w a w' _ (? & ? & _ & (? & ? & _ & Hs)%bind_returns)%bind_returns. done.
Qed.

Ltac lock_step :=
  first
    [ apply holds_log | apply holds_sys | apply holds_exit | assumption
    | apply holds_bind; [|intros]
    | apply holds_view; solve [repeat preserve_step (db_lock (E := E)) ltac:(done)]
    | match goal with
      | |- holds_lock (when ?b _) => destruct b; cbn [when]
      | |- holds_lock (let '_ := ?x in _) => destruct x
      | |- holds_lock ?t => let rec head t := lazymatch t with ?f _ => head f | _ => t end in let h := head t in unfold h
      end ].
Ltac lock_run := repeat lock_step.

Lemma holds_query sql : holds_lock (E := E) (mysql_query sql).
Proof.
  unfold mysql_query, cancellation_point. apply holds_bind; [|intros _; lock_run].
  apply holds_view. intros w. by destruct (cancel_pending w).
Qed.

Lemma holds_fetch body i rows : (forall i row, holds_lock (body i row)) -> holds_lock (E := E) (fetch_rows body i rows).
Proof. intros Hb. revert i. induction rows as [|row rows IH]; intros i; cbn [fetch_rows]; [lock_run|]. apply holds_bind; [apply Hb|done]. Qed.

Lemma holds_for f ids : (forall i, holds_lock (f i)) -> holds_lock (E := E) (for_ids f ids).
Proof. intros Hf. induction ids as [|i ids IH]; cbn [for_ids]; [lock_run|]. apply holds_bind; [apply Hf|done]. Qed.

Lemma connect_takes_lock db_name : takes_lock (E := E) (db_connect db_name).
Proof.
  unfold db_connect. do 3 (apply takes_bind_r; intros _). apply takes_bind_l.
  - intros w a w' Hs. unfold mutex_lock in Hs. destruct (db_lock w); [done|]. by injection Hs as _ <-.
  - intros _. repeat first [apply holds_query|lock_step].
Qed.

Lemma read_takes_lock db_name : takes_lock (E := E) (db_read_server db_name).
Proof.
  unfold db_read_server. apply takes_bind_l; [apply connect_takes_lock|]. intros _.
  unfold mkpartner_from_db_on_server, mkrelation_from_db_on_server, mkdisk_from_db_on_server.
  unfold retrieve_from_partner, retrieve_from_relation, retrieve_from_disk.
  repeat first [apply holds_query | apply holds_fetch; intros | apply holds_for; intros | lock_step].
Qed.

(** The creation of the source disk of the next slot, with the lock held. *)
Lemma create_blocks i (w : world E) :
  0 <= i < MAX_PARTNERS -> 0 <= ptn_id (aget (all_partner_servers w) i) < MAX_DISKS ->
  0 <= ds_count w < MAX_DISKS -> aget (recovery_mode w) (ds_count w) <> 1 ->
  cancel_pending w = false -> db_lock w = true ->
  exists w', recover_source i w = Stop Blocked w'.
Proof.
  intros Hi Hp Hd Hrm Hcan Hlock. unfold MAX_PARTNERS, MAX_DISKS in *. unfold recover_source.
  set (pid := ptn_id (aget (all_partner_servers w) i)) in *.
  rewrite bind_rd by (unfold MAX_PARTNERS; lia). fold pid. rewrite bind_rd by (unfold MAX_DISKS; lia).
  unfold ebdr_disk_init. rewrite !bind_assoc, bind_wr by (unfold MAX_DISKS; lia).
  unfold disk_source_create. rewrite bind_assoc, bind_get. wsimpl. rewrite (proj2 (Z.ltb_lt _ _)) by (unfold MAX_DISKS; lia).
  rewrite bind_assoc, bind_wr by (unfold MAX_DISKS; lia). rewrite bind_assoc, bind_log by (wsimpl; done).
  rewrite bind_assoc, bind_rd by (unfold MAX_PID; lia). wsimpl. rewrite (proj2 (Z.eqb_neq _ _) Hrm). cbn [negb when].
  rewrite !bind_assoc, bind_get, bind_assoc, bind_wr by (unfold MAX_DISKS; lia).
  rewrite bind_assoc, bind_rd by (unfold MAX_DISKS; lia).
  unfold insert_into_disk, bind. rewrite locked_query_blocked by (wsimpl; done). by eexists.
Qed.
End lock.

(** C40. The start of a server daemon whose database has a disk: [db_init] takes
    [db_lock] and holds it while it recreates the source disks, and the
    creation of a disk records it in the database, under the same lock, unless
    [recovery_mode] of the next free slot is set; the marks are set at the ids
    of the partners the database has.  If the next slot is not the id of one of
    them (partner 0 was released, say) the daemon blocks on its own lock and
    never starts. *)
Theorem db_init_blocks_on_own_lock {E} `{OS E} db_name n (w w1 : world E) :
  db_read_server db_name w = Ret n w1 -> 0 < n ->
  0 <= ptn_id (aget (all_partner_servers w1) 0) < MAX_DISKS ->
  0 <= ds_count w1 < MAX_DISKS -> aget (recovery_mode w1) (ds_count w1) <> 1 -> cancel_pending w1 = false ->
  exists w', db_init_server db_name w = Stop Blocked w'.
Proof.
  intros Hr Hn Hp Hd Hrm Hcan. pose proof (read_takes_lock db_name w n w1 Hr) as Hlock.
  unfold db_init_server. rewrite (bind_Ret _ _ _ _ _ Hr). rewrite (proj2 (Z.ltb_lt _ _)) by lia. cbn [when].
  rewrite zseq_cons by lia. cbn [for_ids].
  destruct (create_blocks 0 w1) as [w' Ew]; [unfold MAX_PARTNERS; lia|done..|].
  exists w'. rewrite !bind_assoc. unfold bind. by rewrite Ew.
Qed.

(** A database with one partner, of id 1, and one disk; every select of this
    machine answers the same row. *)
Definition ex_database : world host :=
  world0 (host0 <| ho_files := {["/root/ebdr_db.conf"%string := []]} |>
                <| ho_rows := [["1"; "0"; "0"; "4"; "4"; "0"; "8"; "8"]%string] |>).

Lemma db_init_blocks_on_own_lock_witness :
  exists w', db_init_server "ebdrdbs" ex_database = Stop Blocked w'.
Proof.
  eapply (db_init_blocks_on_own_lock "ebdrdbs" 1 ex_database); [vm_compute; reflexivity|lia|vm_compute..].
  - by split.
  - by split.
  - done.
  - done.
Defined.

(** The recovery thread of a server process looks at the client's
    connection objects, which a server never uses: a paused connection is
    never resumed by it. *)
Theorem server_recovery_never_resumes {E} `{OS E} pid (w : world E) :
  0 <= pid < MAX_PARTNERS -> ebdr_conn_client w = ∅ -> cn_state (aget (ebdr_conn_server w) pid) = CONN_OBJ_PAUSE ->
  exists w', recovery_conn_server pid w = Ret tt w' /\ ebdr_conn_client w' = ∅ /\
    cn_state (aget (ebdr_conn_server w') pid) = CONN_OBJ_PAUSE.
Proof.
  intros Hpid Hcl Hst. unfold MAX_PARTNERS in *. unfold recovery_conn_server.
  rewrite bind_rd by (unfold MAX_CONN; lia). rewrite Hst. change (CONN_OBJ_PAUSE =? CONN_OBJ_PAUSE) with true. cbn [when].
  unfold restart_conn_server. rewrite bind_rd by (unfold MAX_CONN; lia).
  rewrite bind_wr by (unfold MAX_PARTNERS; lia). rewrite bind_rd by (unfold MAX_CONN; lia). wsimpl.
  rewrite Hcl, aget_empty. eexists. split; [reflexivity|]. wsimpl. done.
Qed.

Lemma server_recovery_never_resumes_witness :
  exists w', recovery_conn_server 0 ((world0 host0) <| ebdr_conn_server ::= aset 0 (fun c => c <| cn_state := CONN_OBJ_PAUSE |>) |>)
      = Ret tt w' /\ ebdr_conn_client w' = ∅ /\ cn_state (aget (ebdr_conn_server w') 0) = CONN_OBJ_PAUSE.
Proof. apply (server_recovery_never_resumes (E := host)); [unfold MAX_PARTNERS; lia|reflexivity|reflexivity]. Defined.
