(* ===== verification/WinSnapshot.v ===== *)
(** * The Windows daemon and the filter driver

    The daemon and the driver share the bitmap of a volume through the mapping
    ATDRCTL_DEV_CREATE returns.  [WinLink] is what the daemon needs of the I/O
    manager: its Win32 calls on the volume are requests to the driver.  Against
    it: the specifications of a control request, of the snapshot of the
    driver's half and of its release. *)
From S2P Require Import Prelude Memory KernelState KBitmap KBitmapSpec KernelMain KernelInv KernelSteps KernelProps KernelTrace.
From S2P Require Import Tracker WinState WinFilter WinSpec WinProps TrackerProps WinInv WinLoad WinLimits.
From S2P Require Import CMonad CString World UBitmap Disk WorldTac UBitmapSpec SnapshotSpec WinDb WinClient.

(** ** Words of four bytes *)
Lemma win_copy_ok nbytes soff src dest :
  wf_mem src -> 0 <= soff -> 0 <= nbytes -> nbytes mod 4 = 0 ->
  soff + nbytes <= Z.of_nat (length src) -> nbytes <= Z.of_nat (length dest) ->
  exists d', atdr_copy_mmaped_bitmap nbytes soff src dest = Some d' /\ same_shape dest d' /\
    forall k, mem_bit d' k = if in_range 0 (8 * nbytes - 1) k then mem_bit src (8 * soff + k) else mem_bit dest k.
Proof. intros. apply (copy_words_ok 4); auto. Qed.

Lemma win_clear_ok nbytes off m :
  0 <= off -> 0 <= nbytes -> nbytes mod 4 = 0 -> off + nbytes <= Z.of_nat (length m) ->
  exists m', atdr_clear_active_bitmap nbytes off m = Some m' /\ same_shape m m' /\
    forall k, mem_bit m' k = negb (in_range (8 * off) (8 * off + 8 * nbytes - 1) k) && mem_bit m k.
Proof.
  intros Ho Hn Hmod Hl. unfold atdr_clear_active_bitmap.
  destruct (iter_up_inv (fun i m1 => same_shape m m1 /\
      forall k, mem_bit m1 k = negb (in_range (8 * off) (8 * off + 32 * i - 1) k) && mem_bit m k)
    (fun i m => store 4 m (off + 4 * i) 0) (Z.to_nat (nbytes / 4)) 0 m) as (m' & E & Hsh & Hb).
  - split; [apply same_shape_refl|]. intros k. unfold in_range. by replace ((8 * off <=? k) && _) with false by bool_solve.
  - intros i m1 Hi [Hs1 Hb1]. destruct (store_Some 4 m1 (off + 4 * i) 0) as [m2 E2]; [lia|rewrite (shape_len _ _ Hs1); lia|].
    exists m2. split; [done|]. split.
    { eapply same_shape_trans; [done|]. split; [by eapply store_length|by intros; eapply store_wf]. }
    intros k. rewrite (store_bit _ _ _ _ _ _ E2), Hb1. unfold in_range.
    destruct (_ && (k <? _)) eqn:Er.
    + bool_to_prop. rewrite Z.testbit_0_l. by replace (_ && (k <=? _)) with true by bool_solve.
    + f_equal. f_equal. apply andb_false_iff in Er as [Er|Er]; [apply Z.leb_gt in Er|apply Z.ltb_ge in Er]; bool_solve.
  - exists m'. split; [done|]. split; [done|]. intros k. rewrite Hb.
    by replace (8 * off + 32 * (0 + Z.of_nat (Z.to_nat (nbytes / 4))) - 1) with (8 * off + 8 * nbytes - 1) by lia.
Qed.

(** The daemon counts the set bits as on Linux. *)
Lemma win_check_bit_same m pos :
  0 <= pos < MAX_BITS_LEN -> atdr_check_bit_set m pos = ebdr_check_bit_set m pos.
Proof.
  unfold MAX_BITS_LEN. intros Hp. unfold atdr_check_bit_set, ebdr_check_bit_set.
  change (Z.shiftr pos (PAGE_SHIFT + 3)) with (Z.shiftr pos 15). change NUM_BITS_PER_PAGE with 32768.
  rewrite Z.shiftr_div_pow2 by lia. change (2 ^ 15) with 32768. rewrite land_page_mask, (u32_id (pos / 32768 * 32768)), u64_id by lia.
  unfold atdr_test_bit2, ebdr_test_bit2. rewrite (u32_id (pos mod 32768 mod 8)), (u32_id (pos mod 32768 / 8)) by lia.
  by rewrite u32_id by lia.
Qed.

Lemma win_total_same m : win_get_total_bits_set m = get_total_bits_set m.
Proof.
  unfold win_get_total_bits_set, get_total_bits_set.
  assert (Hgen : forall n a (x : Z), 0 <= a -> a + Z.of_nat n <= MAX_BITS_LEN ->
    iter_up n a (fun bit_pos bits_set => r ← atdr_check_bit_set m bit_pos;
                   Some (if r =? 0 then bits_set else bits_set + 1)) x =
    iter_up n a (fun bit_pos bits_set => r ← ebdr_check_bit_set m bit_pos;
                   Some (if r =? 0 then bits_set else bits_set + 1)) x).
  { induction n as [|n IH]; intros a x Ha Hn; [done|]. cbn [iter_up]. rewrite win_check_bit_same by lia.
    destruct (ebdr_check_bit_set m a); cbn [mbind option_bind]; [|done]. apply IH; lia. }
  apply Hgen; [lia|]. by rewrite Z2Nat.id by (unfold MAX_BITS_LEN; lia).
Qed.

(** ** The request block and the output buffer *)
Definition request_ok (b g : Z) (o : IOCTL) : Prop :=
  length (src_disk o) = 64%nat /\ u_bitmap_size o = b /\ u_grain_size o = g /\ 0 <= b < 2 ^ 32 /\ 0 <= g < 2 ^ 32.

Lemma request_bitmap_size b g o : request_ok b g o -> ioctl_bitmap_size (ioctl_bytes o) = Some b.
Proof.
  intros (Hl & Hb & _ & Hr & _). unfold ioctl_bitmap_size, ioctl_bytes. rewrite app_assoc.
  rewrite load_app by (rewrite length_app, length_le_bytes; lia). rewrite Hb. f_equal. by apply Z.mod_small.
Qed.

Lemma request_grain_size b g o : request_ok b g o -> ioctl_grain_size (ioctl_bytes o) = Some g.
Proof.
  intros (Hl & _ & Hg & _ & Hr). unfold ioctl_grain_size, ioctl_bytes.
  rewrite load_app by lia. rewrite Hg. f_equal. by apply Z.mod_small.
Qed.

(** ** The I/O manager between the two *)
Definition IRP_MJ_CREATE : Z := 0x00.
Definition IRP_MJ_CLOSE : Z := 0x02.
Definition IRP_MJ_CLEANUP : Z := 0x12.

(** A request without parameters, and a buffered control request of the
    daemon: its input is the system buffer, no shorter than its output. *)
Definition file_irp (major : Z) : IRP := mk_IRP 0 major 0 [] 0 0 0 0 0 0 true.

Definition ioctl_irp (cmd : Z) (input : mem) : IRP :=
  mk_IRP 0 IRP_MJ_DEVICE_CONTROL 0 input (Z.of_nat (length input)) cmd 0 0 0 0 true.

(** What the daemon finds in its output buffer: nothing after a failure. *)
Definition irp_output (outlen st : Z) (irp : IRP) : mem :=
  if NT_SUCCESS st then take (Z.to_nat (Z.min outlen (io_Information irp))) (SystemBuffer irp) else [].

(** The volume [name] is the filter device [d]; [volume_handle h]: the handle
    refers to it.  The mapping the driver has recorded is that of its area. *)
Class WinLink {E : Type} `{WinOS E} `{MountDev} (env : wenv) (d : Z) (name : string) (drv : E -> wstate)
    (volume_handle : Z -> Prop) := {
  wl_name : 0 < wos_MultiByteToWideChar 32 name;
  wl_open : forall share flags e st irp' s',
    dispatch_irp env d (file_irp IRP_MJ_CREATE) (drv e) = Some (st, irp', s') -> NT_SUCCESS st = true ->
    exists h e', wos_CreateFile ("\\.\" +:+ name) share flags e = (Some h, e') /\ volume_handle h /\ drv e' = s';
  wl_close : forall h e st1 irp1 s1 st2 irp2 s2,
    volume_handle h -> dispatch_irp env d (file_irp IRP_MJ_CLEANUP) (drv e) = Some (st1, irp1, s1) ->
    dispatch_irp env d (file_irp IRP_MJ_CLOSE) s1 = Some (st2, irp2, s2) -> drv (wos_CloseHandle h e) = s2;
  wl_ioctl : forall h cmd input outlen e st irp' s',
    volume_handle h -> outlen <= Z.of_nat (length input) ->
    dispatch_irp env d (ioctl_irp cmd input) (drv e) = Some (st, irp', s') ->
    exists e', wos_DeviceIoControl h cmd input outlen e = (NT_SUCCESS st, irp_output outlen st irp', e') /\ drv e' = s';
  wl_read : forall e bm p m,
    vol_bitmap d (drv e) = Some bm -> ab_start bm = Some p -> pool (drv e) !! wp_blk p = Some m ->
    wos_user_read (ab_mapped bm) e = m;
  wl_write : forall e bm p m,
    vol_bitmap d (drv e) = Some bm -> ab_start bm = Some p ->
    drv (wos_user_write (ab_mapped bm) m e) = (drv e) <| pool ::= fun b => <[wp_blk p := m]> b |>;
}.

Section link.
Context {E : Type} `{WinOS E} `{MountDev} (env : wenv) (d : Z) (name : string) (drv : E -> wstate).
Context (volume_handle : Z -> Prop) `{!WinLink env d name drv volume_handle}.
Context (Hcall : NT_SUCCESS (we_call env) = true).

(** A request every driver but the one below ignores. *)
Record same_volume (s s' : wstate) : Prop := {
  sv_devices : devices s' = devices s;
  sv_control : ControlObj s' = ControlObj s;
  sv_pool : pool s' = pool s;
  sv_table : dispatch_table s' = dispatch_table s;
  sv_block : WinState.next_block s' = WinState.next_block s;
}.

Lemma same_volume_trans s1 s2 s3 : same_volume s1 s2 -> same_volume s2 s3 -> same_volume s1 s3.
Proof. intros [] []. split; congruence. Qed.

Lemma same_volume_ok s s' bm blk m : same_volume s s' -> vol_ok s d bm blk m -> vol_ok s' d bm blk m.
Proof. intros [A B C _ _] Hok. eapply vol_ok_frame; [exact Hok|done|done|by rewrite C]. Qed.

Lemma file_irp_passes major s l :
  table_ok (dispatch_table s) -> ControlObj s <> Some d -> lower_of d s = Some l ->
  major = IRP_MJ_CREATE \/ major = IRP_MJ_CLOSE \/ major = IRP_MJ_CLEANUP ->
  exists s', dispatch_irp env d (file_irp major) s = Some (we_call env, file_irp major, s') /\ same_volume s s'.
Proof.
  intros Ht Hc Hl Hm. unfold dispatch_irp.
  assert (Hr : dispatch_table s !! MajorFunction (file_irp major) = Some FltSendToNextDriver).
  { rewrite Ht; [|destruct Hm as [-> |[-> | ->]]; done]. by destruct Hm as [-> |[-> | ->]]. }
  rewrite Hr. cbn [mbind option_bind run_dispatch]. unfold atdrFltSendToNextDriver. rewrite is_control_false by done.
  rewrite (skip_and_call_ok env d _ s l Hl). eexists. split; [done|]. by split.
Qed.

(** ** One control request *)
Record opened (e : E) (h : Z) (e' : E) : Prop := {
  op_handle : volume_handle h;
  op_same : same_volume (drv e) (drv e');
}.

Lemma open_ok share flags e l :
  table_ok (dispatch_table (drv e)) -> ControlObj (drv e) <> Some d -> lower_of d (drv e) = Some l ->
  exists h e', wos_CreateFile ("\\.\" +:+ name) share flags e = (Some h, e') /\ opened e h e'.
Proof.
  intros Ht Hc Hl. destruct (file_irp_passes IRP_MJ_CREATE (drv e) l) as (s' & Es & Hs); [done..|by left|].
  destruct (wl_open (drv := drv) share flags e _ _ _ Es Hcall) as (h & e' & E1 & Hh & E2).
  exists h, e'. split; [done|]. split; [done|]. by rewrite E2.
Qed.

Lemma close_ok h e l :
  volume_handle h -> table_ok (dispatch_table (drv e)) -> ControlObj (drv e) <> Some d -> lower_of d (drv e) = Some l ->
  same_volume (drv e) (drv (wos_CloseHandle h e)).
Proof.
  intros Hh Ht Hc Hl. destruct (file_irp_passes IRP_MJ_CLEANUP (drv e) l) as (s1 & E1 & H1); [done..|by right; right|].
  destruct (file_irp_passes IRP_MJ_CLOSE s1 l) as (s2 & E2 & H2); [|  | |by right; left|].
  - by rewrite (sv_table _ _ H1).
  - by rewrite (sv_control _ _ H1).
  - unfold lower_of, extension in *. by rewrite (sv_devices _ _ H1).
  - rewrite (wl_close (drv := drv) h e _ _ _ _ _ _ Hh E1 E2). by eapply same_volume_trans.
Qed.

(** The filter device is in its stack and the driver loaded. *)
Record present (s : wstate) : Prop := {
  pr_table : table_ok (dispatch_table s);
  pr_filter : ControlObj s <> Some d;
  pr_lower : is_Some (lower_of d s);
}.

Lemma same_present s s' : same_volume s s' -> present s -> present s'.
Proof.
  intros [A B C D _] [P Q R]. unfold lower_of, extension in *.
  split; unfold lower_of, extension; rewrite ?A, ?B, ?D; done.
Qed.

(** ** The daemon's side *)

(** The source disk [pid] is the volume; its pointers are those of the mapping
    the driver has recorded, and the daemon and the driver agree on the size. *)
Record win_mapped (pid sz : Z) (bm : ATDR_BITMAP) (w : world E) : Prop := {
  wm_name : dsk_name (aget (ebdr_disk_src_obj w) pid) = name;
  wm_active : dsk_active (aget (ebdr_disk_src_obj w) pid) = Some (mk_mptr (ab_mapped bm) 0);
  wm_backup : dsk_backup (aget (ebdr_disk_src_obj w) pid) = Some (mk_mptr (ab_mapped bm) sz);
  wm_size : dsk_bitmap_size (aget (ebdr_disk_src_obj w) pid) = sz;
  wm_ab_size : ab_size bm = sz;
}.

Lemma vol_read e bm blk m : vol_ok (drv e) d bm blk m -> wos_user_read (ab_mapped bm) e = m.
Proof. intros [Hbm _ _ _ Ha Hm _ _]. by apply (wl_read (drv := drv) e bm (mk_wptr blk 0)); [..|apply (ao_start _ _ Ha)|]. Qed.

Lemma mapped_flip pid sz bm blk w : area_ok bm blk -> win_mapped pid sz bm w -> win_mapped pid sz (flip_halves bm) w.
Proof.
  intros Ha [A B C D F]. destruct (flip_area bm blk Ha) as (_ & _ & Hs & _ & _).
  assert (Hm : ab_mapped (flip_halves bm) = ab_mapped bm) by (unfold flip_halves; by destruct (_ =? _)).
  split; rewrite ?Hm, ?Hs; done.
Qed.

(** ** Writes, and the release of the snapshot *)
Lemma run_writes_ok qs s bm blk m :
  vol_ok s d bm blk m -> present s -> 512 <= ab_grain_size bm ->
  let g := ab_grain_size bm / 512 in
  ab_total_num_bits bm * g < 2 ^ 32 -> Forall (op_fits (ab_total_num_bits bm) g) (map TWrite qs) ->
  exists s' m', @tr_run wstate (windows_tracker env d) (map TWrite qs) s = Some s' /\ vol_ok s' d bm blk m' /\ present s' /\
    forall k, mem_bit m' k = writes_touch g qs (k - 8 * driver_off bm) || mem_bit m k.
Proof.
  intros Hok Hp Hg g Hov Hqs. revert s m Hok Hp.
  induction qs as [|q qs IH]; intros s m Hok Hp; [by exists s, m|].
  cbn [map] in Hqs. apply Forall_cons in Hqs as [Hq Hqs]. pose proof Hq as (Hs & Hc & Hend).
  assert (Hdiv : (512 * wq_sector q + 512 * wq_count q) / 512 = wq_sector q + wq_count q) by lia.
  assert (Hw : write_ok bm (write_irp q)).
  { unfold write_ok. cbn [ByteOffset wr_Length write_irp]. rewrite Hdiv. split_and!; lia. }
  destruct (write_passes env d (write_irp q) s bm blk m Hok Hw)
    as (s1 & m1 & l & E1 & Hok1 & _ & _ & _ & _ & Htab & Hbits).
  cbn [map tr_run tr_step]. unfold tr_write, windows_tracker. unfold dispatch_irp.
  rewrite (pr_table _ Hp) by done. change (driver_routine _) with FltWrite. cbn [mbind option_bind run_dispatch].
  rewrite E1. cbn [mbind option_bind].
  destruct (IH Hqs s1 m1 Hok1) as (s' & m' & Er & Hok' & Hp' & Hbits').
  { split; [by rewrite Htab; apply Hp|apply Hok1|apply Hok1]. }
  exists s', m'. split; [exact Er|]. split; [done|]. split; [done|]. intros k. rewrite Hbits', Hbits.
  unfold write_touches, writes_touch. cbn [existsb ByteOffset wr_Length write_irp]. rewrite Hdiv, (Z.mul_comm 512), Z.div_mul by lia.
  unfold req_touches at 2. fold g. destruct (existsb _ qs), (in_range _ _ _); done.
Qed.

(** The driver's half is left alone; the other one is cleared. *)
Lemma win_destroy_ok pid sz blk bytes bm pblk m w :
  0 <= pid < 2048 -> vol_ok (drv (ext w)) d bm pblk m -> win_mapped pid sz bm w -> buffered pid blk bytes w ->
  ub_user (aget (bitmap_server_obj w) pid) = ab_user bm ->
  exists w' m', win_bitmap_server_destroy pid pid w = Ret tt w' /\ heap w' !! blk = None /\
    vol_ok (drv (ext w')) d bm pblk m' /\ dispatch_table (drv (ext w')) = dispatch_table (drv (ext w)) /\
    ebdr_disk_src_obj w' = ebdr_disk_src_obj w /\
    forall k, mem_bit m' k = negb (in_range (8 * reader_off bm) (8 * reader_off bm + 8 * sz - 1) k) && mem_bit m k.
Proof.
  intros Hpid Hok Hmap [Har Hhp] Hus. pose proof Hok as [Hbm Htr Hc Hlo Ha Hm Hwf Hlen].
  pose proof (ao_size _ _ Ha) as [Hs Hs4]. pose proof Hmap as [_ Hact Hbak Hsize Hab].
  assert (Hro : reader_off bm = 0 \/ reader_off bm = sz) by (unfold reader_off; destruct (driver_off_cases bm); lia).
  destruct (win_clear_ok sz (reader_off bm) m) as (m' & Ecl & Hsh & Hbits); [lia|lia|by rewrite <- Hab|lia|].
  unfold win_bitmap_server_destroy, atdr_log. rewrite bind_ret, bind_rd by (unfold MAX_BITMAP; lia).
  rewrite Har. unfold free. unfold bind at 1. rewrite Hhp. rewrite bind_rd by (unfold MAX_DISKS; lia). wsimpl. rewrite Hus.
  assert (Hp : (if ab_user bm =? USER then dsk_active (aget (ebdr_disk_src_obj w) pid)
                else dsk_backup (aget (ebdr_disk_src_obj w) pid)) = Some (mk_mptr (ab_mapped bm) (reader_off bm))).
  { unfold reader_off, driver_off. destruct (ab_user bm =? USER).
    - by rewrite Hact, Z.sub_diag.
    - by rewrite Hbak, Z.sub_0_r, Hab. }
  rewrite Hp, bind_of_option, bind_get. cbn [mp_off mp_area]. wsimpl. rewrite (vol_read _ _ _ _ Hok), Hsize, Ecl, bind_of_option.
  do 2 eexists. split; [reflexivity|]. split; [wsimpl; apply lookup_delete_eq|].
  assert (Hd : drv (wos_user_write (ab_mapped bm) m' (ext w)) = (drv (ext w)) <| pool ::= fun b => <[pblk := m']> b |>).
  { apply (wl_write (drv := drv) _ bm (mk_wptr pblk 0)); [done|apply (ao_start _ _ Ha)]. }
  unfold sys_, modify. wsimpl. rewrite Hd. split; [|split; [done|split; [done|exact Hbits]]].
  split; try done; cbn; [by rewrite lookup_insert_eq|by apply Hsh|by rewrite (shape_len _ _ Hsh)].
Qed.

(** What the locals of the daemon hold before they are written. *)
Context (garbage : mem) (Hgarbage : 16 <= Z.of_nat (length garbage)).

Definition with_user (u : Z) (w : world E) : world E := w <| ioctl_obj ::= fun o => o <| io_bmap_user := u |> |>.

Lemma ioctl_bytes_length o : 16 <= Z.of_nat (length (ioctl_bytes o)).
Proof. unfold ioctl_bytes. rewrite !length_app, !length_le_bytes. lia. Qed.

Lemma bind_win_sys {A B} (call : E -> A * E) (k : A -> MW E B) (w : world E) a e :
  call (ext w) = (a, e) -> bind (sys call) k w = k a (w <| ext := e |>).
Proof. intros Hc. unfold bind, sys. by rewrite Hc. Qed.

(** A request that does not create the bitmap, and that the driver serves in
    every state the opening of the volume can lead to. *)
Lemma send_ok cmd w (Q : wstate -> Z -> Prop) :
  present (drv (ext w)) -> bytes_string (src_disk (ioctl_obj w)) = name -> cmd <> ATDRCTL_DEV_CREATE ->
  (forall s, same_volume (drv (ext w)) s ->
     exists irp' s' u, dispatch_irp env d (ioctl_irp cmd (ioctl_bytes (ioctl_obj w))) s = Some (STATUS_SUCCESS, irp', s') /\
       Q s' u /\ present s' /\ load 1 (output_buffer garbage 1 (irp_output 1 STATUS_SUCCESS irp')) 0 = Some u) ->
  (forall s s' u, same_volume s s' -> Q s u -> Q s' u) ->
  exists e' u, Q (drv e') u /\ present (drv e') /\ forall B (k : Z -> MW E B),
    bind (win_prepare_and_send_ioctl_cmd garbage cmd) k w = k 1 (with_user u (w <| ext := e' |>)).
Proof.
  intros Hp Hname Hcmd Hserve HQ. pose proof Hp as [Ht Hc [l Hl]].
  destruct (open_ok (Z.lor FILE_SHARE_READ FILE_SHARE_WRITE) FILE_FLAG_NO_BUFFERING (ext w) l) as (h & e1 & Eo & [Hh Hs1]); [done..|].
  destruct (Hserve (drv e1) Hs1) as (irp' & s2 & u & E2 & HQ2 & Hp2 & Hu).
  destruct (wl_ioctl (drv := drv) h cmd (ioctl_bytes (ioctl_obj w)) 1 e1 _ _ _ Hh ltac:(pose proof (ioctl_bytes_length (ioctl_obj w)); lia) E2) as (e2 & Ei & Hd2).
  subst s2. pose proof Hp2 as [Ht2 Hc2 [l2 Hl2]].
  pose proof (close_ok h e2 l2 Hh Ht2 Hc2 Hl2) as Hs3. exists (wos_CloseHandle h e2), u.
  split; [by eapply HQ|]. split; [by eapply same_present|]. intros B k.
  unfold win_prepare_and_send_ioctl_cmd. rewrite bind_assoc, bind_get. rewrite Hname.
  pose proof (wl_name (drv := drv)). replace (_ <=? 0) with false by bool_solve.
  rewrite bind_assoc. erewrite bind_win_sys by exact Eo. cbv beta iota.
  unfold atdr_log. rewrite bind_assoc, bind_ret. rewrite bind_assoc.
  unfold MAX_RETRIES. cbn [ioctl_tries]. unfold ioctl_try. rewrite bind_assoc, bind_assoc, bind_get.
  rewrite (proj2 (Z.eqb_neq _ _) Hcmd), bind_assoc.
  change (ioctl_obj (w <| ext := e1 |>)) with (ioctl_obj w).
  erewrite bind_win_sys by (change (ext (w <| ext := e1 |>)) with e1; unfold sizeof_user_OUTPUT_USER; rewrite Ei; reflexivity).
  cbv beta iota. unfold atdr_log. rewrite bind_assoc, bind_ret. change (NT_SUCCESS STATUS_SUCCESS) with true.
  unfold sizeof_user_OUTPUT_USER. rewrite Hu, bind_assoc. unfold of_option at 1. rewrite bind_ret, bind_assoc, bind_modify, bind_ret, bind_ret.
  unfold sys_. rewrite bind_assoc, bind_modify, bind_ret. reflexivity.
Qed.

(** ** The requests of a snapshot *)
Lemma get_user_served s bm blk m input :
  present s -> vol_ok s d bm blk m -> input <> [] -> IOCTL_MOUNTDEV_LINK_CREATED <> ATDRCTL_GET_USER ->
  exists irp' s', dispatch_irp env d (ioctl_irp ATDRCTL_GET_USER input) s = Some (STATUS_SUCCESS, irp', s') /\
    vol_ok s' d bm blk m /\ present s' /\
    load 1 (output_buffer garbage 1 (irp_output 1 STATUS_SUCCESS irp')) 0 = Some (ab_user bm).
Proof.
  intros Hp Hok Hin Hlink. pose proof Hok as [Hbm Htr Hc Hlo Ha Hm _ _].
  rewrite (dispatch_control env d ATDRCTL_GET_USER) by (done || (by apply Hp) || (eapply vol_extension; exact Hok)).
  cbn -[ioctl_user]. unfold ioctl_user. rewrite Hbm. cbn [mbind option_bind].
  assert (Hu : (if ab_user bm =? KERNEL then 0 else 1) = ab_user bm /\ (ab_user bm = 0 \/ ab_user bm = 1)).
  { destruct (ao_half _ _ Ha) as [[-> _]|[-> _]]; cbn; unfold KERNEL, USER; lia. }
  destruct Hu as [-> Hu01]. destruct input as [|x input]; [done|].
  destruct (store_Some 1 (x :: input) 0 (ab_user bm)) as [buf Hbuf]; [lia|cbn; lia|]. 
  change (SystemBuffer (ioctl_irp ATDRCTL_GET_USER (x :: input))) with (x :: input). rewrite Hbuf. cbn [mbind option_bind].
  do 2 eexists. split; [done|]. split; [by eapply vol_ok_frame|]. split; [eapply same_present; [|exact Hp]; by split|].
  unfold store in Hbuf. destruct (in_buffer _ _ _); [|done]. injection Hbuf as <-.
  by destruct Hu01 as [-> | ->].
Qed.

Lemma output_byte out : exists u, load 1 (output_buffer garbage 1 out) 0 = Some u.
Proof.
  unfold output_buffer. apply load_Some; [lia|]. rewrite length_take, length_app, length_drop. lia.
Qed.

Lemma flip_served s bm blk m input :
  present s -> vol_ok s d bm blk m -> IOCTL_MOUNTDEV_LINK_CREATED <> ATDR_FLIP_BITMAP_AREA ->
  exists irp' s' u, dispatch_irp env d (ioctl_irp ATDR_FLIP_BITMAP_AREA input) s = Some (STATUS_SUCCESS, irp', s') /\
    vol_ok s' d (flip_halves bm) blk m /\ present s' /\
    load 1 (output_buffer garbage 1 (irp_output 1 STATUS_SUCCESS irp')) 0 = Some u.
Proof.
  intros Hp Hok Hlink.
  destruct (flip_exchanges env d (ioctl_irp ATDR_FLIP_BITMAP_AREA input) s bm blk m) as (irp' & s' & Ef & Hok' & Ht & _ & _); [done..|].
  destruct (output_byte (irp_output 1 STATUS_SUCCESS irp')) as [u Hu]. exists irp', s', u. split.
  - unfold dispatch_irp. rewrite (pr_table _ Hp) by done. exact Ef.
  - split; [done|]. split; [|done]. split; [by rewrite Ht; apply Hp|apply Hok'|apply Hok'].
Qed.

(** Requests of the daemon on a volume that satisfies [vol_ok]. *)
Context (Hget_link : IOCTL_MOUNTDEV_LINK_CREATED <> ATDRCTL_GET_USER).
Context (Hflip_link : IOCTL_MOUNTDEV_LINK_CREATED <> ATDR_FLIP_BITMAP_AREA).

Lemma send_get_user w bm blk m :
  present (drv (ext w)) -> bytes_string (src_disk (ioctl_obj w)) = name -> vol_ok (drv (ext w)) d bm blk m ->
  exists e', vol_ok (drv e') d bm blk m /\ present (drv e') /\ forall B (k : Z -> MW E B),
    bind (win_prepare_and_send_ioctl_cmd garbage ATDRCTL_GET_USER) k w = k 1 (with_user (ab_user bm) (w <| ext := e' |>)).
Proof.
  intros Hp Hn Hok.
  destruct (send_ok ATDRCTL_GET_USER w (fun s u => vol_ok s d bm blk m /\ u = ab_user bm)) as (e' & u & [Hok' ->] & Hp' & Hk); try done.
  - intros s Hs. destruct (get_user_served s bm blk m (ioctl_bytes (ioctl_obj w))) as (irp' & s' & E' & Hok' & Hp' & Hu).
    + by eapply same_present.
    + by eapply same_volume_ok.
    + intros Hnil. pose proof (ioctl_bytes_length (ioctl_obj w)) as Hl. rewrite Hnil in Hl. cbn in Hl. lia.
    + done.
    + by exists irp', s', (ab_user bm).
  - intros s s' u Hs [Hok' ->]. split; [by eapply same_volume_ok|done].
  - by exists e'.
Qed.

Lemma send_flip w bm blk m :
  present (drv (ext w)) -> bytes_string (src_disk (ioctl_obj w)) = name -> vol_ok (drv (ext w)) d bm blk m ->
  exists e' u, vol_ok (drv e') d (flip_halves bm) blk m /\ present (drv e') /\ forall B (k : Z -> MW E B),
    bind (win_prepare_and_send_ioctl_cmd garbage ATDR_FLIP_BITMAP_AREA) k w = k 1 (with_user u (w <| ext := e' |>)).
Proof.
  intros Hp Hn Hok.
  destruct (send_ok ATDR_FLIP_BITMAP_AREA w (fun s u => vol_ok s d (flip_halves bm) blk m)) as (e' & u & Hok' & Hp' & Hk); try done.
  - intros s Hs. destruct (flip_served s bm blk m (ioctl_bytes (ioctl_obj w))) as (irp' & s' & u & E' & Hok' & Hp' & Hu).
    + by eapply same_present.
    + by eapply same_volume_ok.
    + done.
    + by exists irp', s', u.
  - intros s s' u Hs Hok'. by eapply same_volume_ok.
  - by exists e', u.
Qed.

Lemma load4_some m off : 0 <= off -> off + 4 <= Z.of_nat (length m) -> exists v, load 4 m off = Some v.
Proof. intros. apply load_Some; lia. Qed.

Lemma bind_win_deref w bm blk m off :
  vol_ok (drv (ext w)) d bm blk m -> 0 <= off -> off + 4 <= Z.of_nat (length m) ->
  exists v, forall B (k : Z -> MW E B), bind (win_deref_map (Some (mk_mptr (ab_mapped bm) off))) k w = k v w.
Proof.
  intros Hok Ho Hl. destruct (load4_some m off Ho Hl) as [v Hv]. exists v. intros B k.
  unfold win_deref_map, win_map_bytes. rewrite !bind_assoc. unfold of_option at 1. rewrite bind_ret, bind_assoc, bind_get, bind_ret.
  cbn [mp_off mp_area]. by rewrite (vol_read _ _ _ _ Hok), Hv, bind_of_option.
Qed.

Lemma bind_take {B} pid user half bm pblk m off blk dest dest' (k : unit -> MW E B) w :
  0 <= pid < 2048 -> vol_ok (drv (ext w)) d bm pblk m ->
  half (aget (ebdr_disk_src_obj w) pid) = Some (mk_mptr (ab_mapped bm) off) -> buffered pid blk dest w ->
  4 <= Z.of_nat (length dest') ->
  atdr_copy_mmaped_bitmap (ub_size (aget (bitmap_server_obj w) pid)) off m dest = Some dest' ->
  bind (win_take_half pid pid user half) k w = k tt (taken pid user blk dest' w).
Proof.
  intros Hpid Hok Hhalf [Harea Hheap] Hlen Hcp. unfold win_take_half, win_copy_half.
  rewrite bind_assoc, bind_modify, bind_assoc, bind_wr by (unfold MAX_BITMAP; lia).
  rewrite !bind_assoc, bind_rd by (unfold MAX_BITMAP; lia). rewrite bind_assoc, bind_rd by (unfold MAX_DISKS; lia). wsimpl.
  rewrite Hhalf. unfold win_map_bytes. rewrite !bind_assoc. unfold of_option at 1. rewrite bind_ret, bind_assoc, bind_get, bind_ret.
  cbv beta iota. cbn [mp_off mp_area]. wsimpl. rewrite (vol_read _ _ _ _ Hok).
  rewrite bind_assoc, (bind_block _ blk dest) by (wsimpl; done). rewrite Hcp, bind_assoc, bind_of_option.
  unfold set_block at 1. unfold bind at 1. cbn [mbind option_bind]. wsimpl. rewrite Harea. cbn. wsimpl. rewrite Hheap. cbn.
  rewrite bind_assoc, bind_rd by (unfold MAX_BITMAP; lia). wsimpl.
  rewrite bind_assoc, (bind_block _ blk dest') by (wsimpl; rewrite ?Harea; done || apply lookup_insert_eq).
  destruct (load4_some dest' 0) as [v ->]; [lia..|]. reflexivity.
Qed.

(** ** Taking the snapshot *)
Record win_ready (pid sz blk : Z) (bytes : mem) (bm : ATDR_BITMAP) (pblk : Z) (m : mem) (w : world E) : Prop := {
  wr_pid : 0 <= pid < 2048;
  wr_name : slen name < 64 /\ no_nul name;
  wr_present : present (drv (ext w));
  wr_vol : vol_ok (drv (ext w)) d bm pblk m;
  wr_mapped : win_mapped pid sz bm w;
  wr_buffered : buffered pid blk bytes w;
  wr_fits : sz <= Z.of_nat (length bytes);
  wr_recovery : aget (recovery_mode w) 0 = 0;
  wr_resume : cn_state (aget (ebdr_conn_server w) pid) <> CONN_OBJ_RESUME;
}.

(** What the snapshot leaves: the driver's bits in the buffer, the driver on
    the other half. *)
Record win_snapped (pid sz blk : Z) (bytes : mem) (bm : ATDR_BITMAP) (pblk : Z) (m : mem) (w' : world E) : Prop := {
  ws_present : present (drv (ext w'));
  ws_vol : vol_ok (drv (ext w')) d (flip_halves bm) pblk m;
  ws_mapped : win_mapped pid sz (flip_halves bm) w';
  ws_bits : exists bytes', buffered pid blk bytes' w' /\ same_shape bytes bytes' /\
    forall k, 0 <= k < 8 * sz -> mem_bit bytes' k = mem_bit m (8 * driver_off bm + k);
  ws_user : ub_user (aget (bitmap_server_obj w') pid) = 1 - ab_user bm;
  ws_size : ub_size (aget (bitmap_server_obj w') pid) = sz;
}.

(** The half the driver uses is the one the daemon copies. *)
Lemma user_half pid sz bm blk (w : world E) :
  area_ok bm blk -> win_mapped pid sz bm w ->
  ab_user bm = KERNEL /\ dsk_active (aget (ebdr_disk_src_obj w) pid) = Some (mk_mptr (ab_mapped bm) (driver_off bm)) \/
  ab_user bm = USER /\ dsk_backup (aget (ebdr_disk_src_obj w) pid) = Some (mk_mptr (ab_mapped bm) (driver_off bm)).
Proof.
  intros Ha [A B C D F]. unfold driver_off. destruct (ao_half _ _ Ha) as [[Hu _]|[Hu _]]; [left|right]; rewrite Hu; cbn.
  - by rewrite B.
  - by rewrite C, F.
Qed.

(** After the half has been copied: the exchange. *)
Lemma copied_then_flip pid sz blk bytes bm pblk m w user half :
  win_ready pid sz blk bytes bm pblk m w -> bytes_string (src_disk (ioctl_obj w)) = name ->
  ub_size (aget (bitmap_server_obj w) pid) = sz -> user = 1 - ab_user bm ->
  half (aget (ebdr_disk_src_obj w) pid) = Some (mk_mptr (ab_mapped bm) (driver_off bm)) ->
  exists w1, (forall B (k : unit -> MW E B), bind (win_take_half pid pid user half) k w = k tt w1) /\
    present (drv (ext w1)) /\ vol_ok (drv (ext w1)) d bm pblk m /\ win_mapped pid sz bm w1 /\
    bytes_string (src_disk (ioctl_obj w1)) = name /\ recovery_mode w1 = recovery_mode w /\
    ebdr_conn_server w1 = ebdr_conn_server w /\ ub_user (aget (bitmap_server_obj w1) pid) = user /\
    ub_size (aget (bitmap_server_obj w1) pid) = sz /\
    exists bytes', buffered pid blk bytes' w1 /\ same_shape bytes bytes' /\
      forall k, 0 <= k < 8 * sz -> mem_bit bytes' k = mem_bit m (8 * driver_off bm + k).
Proof.
  intros [Hpid Hname Hp Hok Hmap Hbuf Hfit Hrec Hres] Hn Hub -> Hhalf.
  pose proof Hok as [_ _ _ _ Ha _ Hwf Hlen]. pose proof (ao_size _ _ Ha) as [Hs Hs4]. pose proof (driver_off_cases bm) as Hoff.
  pose proof (wm_ab_size _ _ _ _ Hmap) as Hsz.
  destruct (win_copy_ok sz (driver_off bm) m bytes) as (bytes' & Ecp & Hsh & Hbits); [done|lia..|].
  set (w1 := taken pid (1 - ab_user bm) blk bytes' w). exists w1.
  assert (Hl : sz <= Z.of_nat (length bytes')) by by rewrite (shape_len _ _ Hsh).
  split; [|split; [done|split; [done|split; [|split; [done|split; [done|split; [done|split; [|split]]]]]]]].
  - intros B k. eapply (bind_take pid _ half bm pblk m _ blk bytes); [done|done|exact Hhalf|exact Hbuf|lia|by rewrite Hub].
  - destruct Hmap. by constructor.
  - unfold w1, taken. by wsimpl.
  - unfold w1, taken. by wsimpl.
  - exists bytes'. split; [|split; [done|]].
    + destruct Hbuf. unfold w1, taken. constructor; wsimpl; [done|apply lookup_insert_eq].
    + intros k Hk. rewrite Hbits. unfold in_range. by replace (_ && _) with true by bool_solve.
Qed.

Lemma win_snapshot_ok pid sz blk bytes bm pblk m w :
  win_ready pid sz blk bytes bm pblk m w ->
  exists w', win_server_bitmap_load_from_memory garbage pid pid w = Ret 0 w' /\ win_snapped pid sz blk bytes bm pblk m w'.
Proof.
  intros Hr. pose proof Hr as [Hpid [Hname Hnul] Hp Hok Hmap Hbuf Hfit Hrec Hres].
  pose proof Hmap as [Hnm Hact Hbak Hsize Hab]. pose proof Hok as [_ _ _ _ Ha _ _ Hlen]. pose proof (ao_size _ _ Ha) as [Hs Hs4].
  unfold win_server_bitmap_load_from_memory. rewrite bind_modify, bind_rd by (unfold MAX_DISKS; lia). wsimpl. rewrite Hnm.
  rewrite bind_cstring by done. rewrite bind_modify. set (w0 := set_field ioctl_obj _ _).
  assert (Hn0 : bytes_string (src_disk (ioctl_obj w0)) = name) by (unfold w0; wsimpl; by apply bytes_put_string).
  destruct (send_get_user w0 bm pblk m Hp Hn0 Hok) as (e1 & Hok1 & Hp1 & ->).
  change (1 <? 0) with false. cbn [when]. rewrite bind_ret. set (w1 := with_user _ _).
  rewrite bind_rd by (unfold MAX_DISKS; lia). rewrite bind_wr by (unfold MAX_BITMAP; lia). rewrite bind_get.
  change (aget (ebdr_disk_src_obj w1) pid) with (aget (ebdr_disk_src_obj w) pid). rewrite Hsize.
  set (w2 := set_field bitmap_server_obj _ w1).
  assert (Hr2 : win_ready pid sz blk bytes bm pblk m w2).
  { constructor; try done. destruct Hbuf. unfold w2. constructor; by wsimpl. }
  assert (Hn2 : bytes_string (src_disk (ioctl_obj w2)) = name) by (unfold w2, w1, with_user; wsimpl; exact Hn0).
  assert (Hub2 : ub_size (aget (bitmap_server_obj w2) pid) = sz) by (unfold w2; by wsimpl).
  assert (Hu2 : io_bmap_user (ioctl_obj w2) = ab_user bm) by (unfold w2, w1, with_user; by wsimpl).
  rewrite Hu2.
  assert (Htake : exists w3, (forall B (k : unit -> MW E B),
      bind (if ab_user bm =? KERNEL then win_take_half pid pid USER dsk_active else win_take_half pid pid KERNEL dsk_backup) k w2 = k tt w3) /\
    present (drv (ext w3)) /\ vol_ok (drv (ext w3)) d bm pblk m /\ win_mapped pid sz bm w3 /\
    bytes_string (src_disk (ioctl_obj w3)) = name /\ recovery_mode w3 = recovery_mode w2 /\
    ebdr_conn_server w3 = ebdr_conn_server w2 /\ ub_user (aget (bitmap_server_obj w3) pid) = 1 - ab_user bm /\
    ub_size (aget (bitmap_server_obj w3) pid) = sz /\ exists bytes', buffered pid blk bytes' w3 /\ same_shape bytes bytes' /\
      forall k, 0 <= k < 8 * sz -> mem_bit bytes' k = mem_bit m (8 * driver_off bm + k)).
  { destruct (user_half pid sz bm pblk w2 Ha (wr_mapped _ _ _ _ _ _ _ _ Hr2)) as [[Hu Hh]|[Hu Hh]]; rewrite Hu; cbn [Z.eqb KERNEL USER];
      eapply copied_then_flip; try done; by rewrite Hu. }
  destruct Htake as (w3 & -> & Hp3 & Hok3 & Hmap3 & Hn3 & Hrec3 & Hcn3 & Hus3 & Hsz3 & bytes' & Hbuf3 & Hsh3 & Hbits).
  pose proof (shape_len _ _ Hsh3) as Hl3.
  unfold atdr_log. rewrite bind_ret. rewrite bind_rd by (unfold MAX_BITMAP; lia). rewrite (bind_block _ blk bytes') by apply Hbuf3.
  destruct (load4_some bytes' 0) as [v1 Hv1]; [lia..|]. rewrite Hv1. unfold ignore. rewrite bind_assoc, bind_of_option, bind_ret.
  rewrite bind_assoc, Hact. destruct (bind_win_deref w3 bm pblk m 0 Hok3) as [v2 Hv2]; [lia..|]. rewrite Hv2, bind_ret.
  rewrite bind_rd by (unfold MAX_PID; lia). rewrite bind_rd by (unfold MAX_CONN; lia).
  rewrite Hrec3, Hcn3. change (recovery_mode w2) with (recovery_mode w). change (ebdr_conn_server w2) with (ebdr_conn_server w).
  rewrite Hrec, (proj2 (Z.eqb_neq _ _) Hres). change (0 =? 0) with true. cbn [andb negb]. rewrite bind_assoc, bind_ret.
  destruct (send_flip w3 bm pblk m Hp3 Hn3 Hok3) as (e4 & u & Hok4 & Hp4 & Hk4). rewrite bind_assoc, Hk4.
  set (w4 := with_user u _). change (1 <? 0) with false. cbn [when]. rewrite bind_assoc, bind_ret, bind_ret.
  assert (Hbuf4 : buffered pid blk bytes' w4) by (destruct Hbuf3; by constructor).
  rewrite bind_rd by (unfold MAX_BITMAP; lia). rewrite (bind_block _ blk bytes') by apply Hbuf4.
  rewrite Hv1, bind_assoc, bind_of_option, bind_ret, bind_ret. exists w4. split; [done|].
  split; [done|done| |by exists bytes'|exact Hus3|exact Hsz3].
  eapply mapped_flip; [done|]. destruct Hmap3. by constructor.
Qed.

(** ** ATDRCTL_DEV_CREATE *)
Lemma stacked_same s s' : same_volume s s' -> stacked d s -> stacked d s'.
Proof.
  intros [A B C D _] [P (l & Q & Q') R (v & bm & S1 & S2 & S3)]. unfold lower_of, vol_info, extension in *.
  split; unfold lower_of, vol_info, extension; rewrite ?A, ?B, ?D; [done|by exists l|done|by exists v, bm].
Qed.

Lemma stacked_present s : stacked d s -> present s.
Proof. intros [P (l & Q & Q') R _]. split; [done|done|by exists l]. Qed.

(** The address the driver has stored is what the daemon reads. *)
Lemma output_address a buf0 buf :
  store 8 buf0 0 a = Some buf -> 0 <= a < 2 ^ 64 ->
  load 8 (output_buffer garbage 16 (take 8 buf)) 0 = Some a.
Proof.
  intros Hs Ha. unfold store in Hs. destruct (in_buffer 8 buf0 0); [|done]. injection Hs as <-.
  assert (Hb : take 8 (le_bytes 8 a ++ drop 8 buf0) = le_bytes 8 a).
  { rewrite take_app_le by (rewrite length_le_bytes; lia). apply take_ge. rewrite length_le_bytes. lia. }
  change (take 8 _) with (take 8 (le_bytes 8 a ++ drop 8 buf0)). rewrite Hb. unfold output_buffer.
  rewrite take_app_ge by (rewrite length_le_bytes; lia).
  change (le_bytes 8 a ++ ?x) with ([] ++ le_bytes 8 a ++ x). rewrite load_app by done. f_equal. by apply Z.mod_small.
Qed.

(** After a failure it is what the buffer held. *)
Lemma output_garbage : exists a, load 8 (output_buffer garbage 16 []) 0 = Some a.
Proof. unfold output_buffer. apply load_Some; [lia|]. cbn [app length]. rewrite length_take, length_drop. lia. Qed.

Definition with_mapping (a b : Z) (w : world E) : world E :=
  w <| ebdr_disk_src_obj ::= aset (ds_count w) (fun x => x <| dsk_active := Some (mk_mptr a 0) |> <| dsk_backup := Some (mk_mptr a b) |>) |>.

(** One attempt: the pointers of the next source disk are set, to the address
    in the output buffer, whether the driver has succeeded or not. *)
Lemma create_attempt h w a b g ok out e' :
  wos_DeviceIoControl h ATDRCTL_DEV_CREATE (ioctl_bytes (ioctl_obj w)) 16 (ext w) = (ok, out, e') ->
  load 8 (output_buffer garbage 16 out) 0 = Some a -> 0 <= ds_count w < MAX_DISKS ->
  request_ok b g (ioctl_obj w) -> b mod 4 = 0 ->
  ioctl_try garbage h ATDRCTL_DEV_CREATE w = Ret ok (with_mapping a b (w <| ext := e' |>)).
Proof.
  intros Hio Ha Hn (_ & Hb & _) Hmod. unfold ioctl_try. rewrite bind_get. change (ATDRCTL_DEV_CREATE =? ATDRCTL_DEV_CREATE) with true.
  cbv iota. erewrite bind_win_sys by (unfold sizeof_user_OUTPUT_CREATE; rewrite Hio; reflexivity). cbv beta iota.
  unfold atdr_log. rewrite bind_ret. unfold sizeof_user_OUTPUT_CREATE. rewrite Ha, bind_of_option, bind_get.
  change (ds_count (w <| ext := e' |>)) with (ds_count w). rewrite bind_wr by done.
  unfold sizeof_ulong_t. rewrite Hb. replace (4 * (b / 4)) with b by lia. reflexivity.
Qed.

Lemma tries_first n h cmd w w' : ioctl_try garbage h cmd w = Ret true w' -> ioctl_tries garbage n h cmd w = Ret true w'.
Proof. intros Ht. destruct n; cbn [ioctl_tries]; by rewrite (bind_Ret _ _ _ _ _ Ht). Qed.

Lemma tries_again n h cmd w w' :
  ioctl_try garbage h cmd w = Ret false w' -> ioctl_tries garbage (S n) h cmd w = ioctl_tries garbage n h cmd w'.
Proof. intros Ht. cbn [ioctl_tries]. by rewrite (bind_Ret _ _ _ _ _ Ht). Qed.

(** The driver's end of the request. *)
Lemma dispatch_create input s :
  table_ok (dispatch_table s) -> is_Some (lower_of d s) -> IOCTL_MOUNTDEV_LINK_CREATED <> ATDRCTL_DEV_CREATE ->
  dispatch_irp env d (ioctl_irp ATDRCTL_DEV_CREATE input) s = ioctl_create env d (ioctl_irp ATDRCTL_DEV_CREATE input) s.
Proof.
  intros Ht [l Hl] Hlink. rewrite (dispatch_control env d ATDRCTL_DEV_CREATE) by (done || by eapply lower_extension). done.
Qed.

(** The daemon opens the volume, makes its attempts [tries], and closes it. *)
Lemma send_create h w e1 w2 :
  wos_CreateFile ("\\.\" +:+ name) (Z.lor FILE_SHARE_READ FILE_SHARE_WRITE) FILE_FLAG_NO_BUFFERING (ext w) = (Some h, e1) ->
  bytes_string (src_disk (ioctl_obj w)) = name ->
  ioctl_tries garbage MAX_RETRIES h ATDRCTL_DEV_CREATE (w <| ext := e1 |>) = Ret true w2 ->
  win_prepare_and_send_ioctl_cmd garbage ATDRCTL_DEV_CREATE w = Ret 1 (w2 <| ext ::= wos_CloseHandle h |>).
Proof.
  intros Ho Hname Ht. unfold win_prepare_and_send_ioctl_cmd. rewrite bind_get, Hname.
  pose proof (wl_name (drv := drv)). replace (_ <=? 0) with false by bool_solve.
  erewrite bind_win_sys by exact Ho. cbv beta iota. unfold atdr_log. rewrite bind_ret. by rewrite (bind_Ret _ _ _ _ _ Ht).
Qed.

(** A successful creation: the daemon's pointers are the driver's halves. *)
Lemma create_maps w b g a m :
  stacked d (drv (ext w)) -> bytes_string (src_disk (ioctl_obj w)) = name -> request_ok b g (ioctl_obj w) ->
  0 <= ds_count w < MAX_DISKS -> 0 < b <= MAX_BITMAP_BYTES -> b mod 4 = 0 -> 0 <= a < 2 ^ 64 ->
  IOCTL_MOUNTDEV_LINK_CREATED <> ATDRCTL_DEV_CREATE ->
  we_pool env (2 * b) = Some m -> Z.of_nat (length m) = 2 * b -> we_mdl env = true -> we_map env = Some a ->
  exists e' bm pblk, win_prepare_and_send_ioctl_cmd garbage ATDRCTL_DEV_CREATE w = Ret 1 (with_mapping a b (w <| ext := e' |>)) /\
    present (drv e') /\ vol_ok (drv e') d bm pblk (replicate (length m) 0) /\
    ab_size bm = b /\ ab_user bm = KERNEL /\ ab_mapped bm = a /\ ab_grain_size bm = g /\ ab_total_num_bits bm = 8 * b.
Proof.
  intros Hst Hname Hreq Hn Hsz Hmod Ha Hlink Hp Hlen Hmdl Hmap. pose proof (stacked_present _ Hst) as [Ht Hc [l Hl]].
  destruct (open_ok (Z.lor FILE_SHARE_READ FILE_SHARE_WRITE) FILE_FLAG_NO_BUFFERING (ext w) l) as (h & e1 & Eo & [Hh Hs1]); [done..|].
  pose proof (stacked_same _ _ Hs1 Hst) as Hst1. pose proof (stacked_present _ Hst1) as [Ht1 Hc1 Hl1].
  set (input := ioctl_bytes (ioctl_obj w)). set (irp := ioctl_irp ATDRCTL_DEV_CREATE input).
  destruct (create_volume env d irp (drv e1) b g m a) as (irp' & s2 & bm & E2 & Hbuf & Hinf & Hok & Hb & Hu & Hma & Hg & Htot & Ht2 & Hl2 & _ & _);
    try done; [by apply (request_bitmap_size b g)|by apply (request_grain_size b g)|].
  unfold irp in E2. rewrite <- (dispatch_create input (drv e1)) in E2 by done.
  destruct (wl_ioctl (drv := drv) h ATDRCTL_DEV_CREATE input 16 e1 _ _ _ Hh (ioctl_bytes_length _) E2) as (e2 & Ei & Hd2).
  subst s2. assert (Hp2 : present (drv e2)) by (split; [by rewrite Ht2|apply Hok|apply Hok]).
  pose proof Hp2 as [Ht2' Hc2 [l2 Hl2']]. pose proof (close_ok h e2 l2 Hh Ht2' Hc2 Hl2') as Hs3.
  exists (wos_CloseHandle h e2), bm, (WinState.next_block (drv e1)). split.
  - erewrite send_create; [|exact Eo|done|].
    2:{ apply tries_first.
        eapply (create_attempt h (w <| ext := e1 |>) a b g true); [exact Ei| |done|done|done].
        unfold irp_output. change (NT_SUCCESS STATUS_SUCCESS) with true. cbv iota. rewrite Hinf.
        eapply output_address; [exact Hbuf|done]. }
    reflexivity.
  - split; [by eapply same_present|]. split; [by eapply same_volume_ok|done].
Qed.

(** A failed one: the second attempt succeeds, with a null address. *)
Lemma create_retried w b g m :
  stacked d (drv (ext w)) -> bytes_string (src_disk (ioctl_obj w)) = name -> request_ok b g (ioctl_obj w) ->
  0 <= ds_count w < MAX_DISKS -> 0 < b <= MAX_BITMAP_BYTES -> b mod 4 = 0 ->
  IOCTL_MOUNTDEV_LINK_CREATED <> ATDRCTL_DEV_CREATE ->
  we_pool env (2 * b) = Some m -> Z.of_nat (length m) = 2 * b -> we_mdl env = true -> we_map env = None ->
  exists w', win_prepare_and_send_ioctl_cmd garbage ATDRCTL_DEV_CREATE w = Ret 1 w' /\
    dsk_active (aget (ebdr_disk_src_obj w') (ds_count w)) = Some (mk_mptr 0 0) /\
    present (drv (ext w')) /\ dangling d b (drv (ext w')).
Proof.
  intros Hst Hname Hreq Hn Hsz Hmod Hlink Hp Hlen Hmdl Hmap. pose proof (stacked_present _ Hst) as [Ht Hc [l Hl]].
  destruct (open_ok (Z.lor FILE_SHARE_READ FILE_SHARE_WRITE) FILE_FLAG_NO_BUFFERING (ext w) l) as (h & e1 & Eo & [Hh Hs1]); [done..|].
  pose proof (stacked_same _ _ Hs1 Hst) as Hst1. pose proof (stacked_present _ Hst1) as [Ht1 Hc1 Hl1].
  set (input := ioctl_bytes (ioctl_obj w)). set (irp := ioctl_irp ATDRCTL_DEV_CREATE input).
  pose proof (request_bitmap_size b g _ Hreq) as Hib. pose proof (request_grain_size b g _ Hreq) as Hig.
  destruct (create_fails env d irp (drv e1) b g m) as (irp2 & s2 & E2 & Hdg2); try done.
  unfold irp in E2. rewrite <- (dispatch_create input (drv e1)) in E2 by done.
  destruct (wl_ioctl (drv := drv) h ATDRCTL_DEV_CREATE input 16 e1 _ _ _ Hh (ioctl_bytes_length _) E2) as (e2 & Ei2 & <-).
  destruct (create_dangling env d irp (drv e2) b g Hdg2) as (irp3 & s3 & E3 & Hdg3 & Hbuf & Hinf); try done.
  unfold irp in E3. rewrite <- (dispatch_create input (drv e2)) in E3 by (done || apply Hdg2).
  destruct (wl_ioctl (drv := drv) h ATDRCTL_DEV_CREATE input 16 e2 _ _ _ Hh (ioctl_bytes_length _) E3) as (e3 & Ei3 & <-).
  destruct (dg_lower _ _ _ Hdg3) as [l3 Hl3]. destruct (dg_area _ _ _ Hdg3) as (bm3 & blk3 & Htk3 & _).
  pose proof (close_ok h e3 l3 Hh (dg_table _ _ _ Hdg3) (tk_filter _ _ _ _ Htk3) Hl3) as Hs4.
  destruct (output_garbage) as [a1 Ha1].
  exists ((with_mapping 0 b ((with_mapping a1 b (w <| ext := e2 |>)) <| ext := e3 |>)) <| ext ::= wos_CloseHandle h |>). split.
  - assert (T1 : ioctl_try garbage h ATDRCTL_DEV_CREATE (w <| ext := e1 |>) = Ret false (with_mapping a1 b (w <| ext := e2 |>)))
      by exact (create_attempt h (w <| ext := e1 |>) a1 b g false [] e2 Ei2 Ha1 Hn Hreq Hmod).
    assert (T2 : ioctl_try garbage h ATDRCTL_DEV_CREATE (with_mapping a1 b (w <| ext := e2 |>)) =
        Ret true (with_mapping 0 b ((with_mapping a1 b (w <| ext := e2 |>)) <| ext := e3 |>))).
    { refine (create_attempt h (with_mapping a1 b (w <| ext := e2 |>)) 0 b g true _ e3 Ei3 _ Hn Hreq Hmod).
      unfold irp_output. change (NT_SUCCESS STATUS_SUCCESS) with true. cbv iota. rewrite Hinf. by eapply output_address. }
    eapply send_create; [exact Eo|done|]. unfold MAX_RETRIES. rewrite (tries_again _ _ _ _ _ T1). by apply tries_first.
  - split; [|split].
    + unfold with_mapping. wsimpl. change (ds_count _) with (ds_count w). by wsimpl.
    + change (present (drv (wos_CloseHandle h e3))).
      split; [by rewrite (sv_table _ _ Hs4); apply Hdg3|rewrite (sv_control _ _ Hs4); apply (tk_filter _ _ _ _ Htk3)|].
      exists l3. unfold lower_of, extension in *. by rewrite (sv_devices _ _ Hs4).
    + change (dangling d b (drv (wos_CloseHandle h e3))). eapply dangling_same; [apply Hs4..|exact Hdg3].
Qed.
End link.
