(* ===== verification/WinClientProps.v ===== *)
(** * Properties of the Windows daemon

    The daemon and the filter driver together: from the request that creates
    the bitmap to a snapshot of it, what a snapshot keeps, a mapping that
    fails; the offsets of the I/O engines; a failed statement. *)
From S2P Require Import Prelude Memory KernelState KBitmap KBitmapSpec KernelMain KernelInv KernelSteps KernelProps KernelTrace.
From S2P Require Import Tracker WinState WinFilter WinSpec WinProps TrackerProps WinInv WinLoad WinLimits WinExample.
From S2P Require Import CMonad CString World Db UBitmap Disk WorldTac UBitmapSpec SnapshotSpec WinDb WinClient WinSnapshot.

(** ** Snapshots *)
Section snapshots.
Context {E : Type} `{WinOS E} `{MountDev} (env : wenv) (d : Z) (name : string) (drv : E -> wstate) (vh : Z -> Prop).
Context `{!WinLink env d name drv vh} (Hcall : NT_SUCCESS (we_call env) = true).
Context (garbage : mem) (Hgarbage : 16 <= Z.of_nat (length garbage)).

Lemma writes_outside n g qs k :
  0 < g -> n <= k -> Forall (op_fits n g) (map TWrite qs) -> 0 <= k -> writes_touch g qs k = false.
Proof.
  intros Hg Hk Hqs Hk0. induction qs as [|q qs IH]; [done|]. cbn [map] in Hqs. apply Forall_cons in Hqs as [(Hs & Hc & He) Hqs].
  unfold writes_touch. cbn [existsb]. rewrite orb_false_iff. split; [|by apply IH]. unfold req_touches, in_range.
  assert ((wq_sector q + wq_count q) / g < n) by (apply Z.div_lt_upper_bound; lia). bool_solve.
Qed.

(** The codes of the driver are none of the mount manager's. *)
Definition codes_distinct : Prop :=
  IOCTL_MOUNTDEV_LINK_CREATED <> ATDRCTL_GET_USER /\ IOCTL_MOUNTDEV_LINK_CREATED <> ATDR_FLIP_BITMAP_AREA /\
  IOCTL_MOUNTDEV_LINK_CREATED <> ATDRCTL_DEV_CREATE.

(** C6. Taking a snapshot, any writes that end before the last tracked sector
    (for the others see [WinLimits.write_to_the_end_leaves_half]), releasing the
    snapshot, on Windows: the daemon has every mark the driver had when it asked; afterwards the
    driver's half has the marks the other half had and those of the writes,
    and the half that was copied is empty.  No dirty grain is forgotten, and
    the daemon's pointers are still those of the driver's halves. *)
Theorem windows_snapshot_loses_nothing pid sz blk bytes bm pblk m w qs :
  codes_distinct -> win_ready d name drv pid sz blk bytes bm pblk m w -> 512 <= ab_grain_size bm ->
  let n := 8 * sz in let g := ab_grain_size bm / 512 in
  n * g < 2 ^ 32 -> Forall (op_fits n g) (map TWrite qs) ->
  exists w1 bytes' s2, win_server_bitmap_load_from_memory garbage pid pid w = Ret 0 w1 /\ buffered pid blk bytes' w1 /\
    (forall k, 0 <= k < n -> fst <$> windows_bits d (drv (ext w)) k = Some (mem_bit bytes' k)) /\
    @tr_run wstate (windows_tracker env d) (map TWrite qs) (drv (ext w1)) = Some s2 /\
    forall e2, drv e2 = s2 ->
      exists w3, win_bitmap_server_destroy pid pid (w1 <| ext := e2 |>) = Ret tt w3 /\
        (exists m3, vol_ok (drv (ext w3)) d (flip_halves bm) pblk m3) /\ win_mapped name pid sz (flip_halves bm) w3 /\
        forall k, 0 <= k < n -> windows_bits d (drv (ext w3)) k =
          (fun '(_, rd) => (writes_touch g qs k || rd, false)) <$> windows_bits d (drv (ext w)) k.
Proof.
  intros (Hg1 & Hg2 & _) Hr Hgr n g Hov Hqs. pose proof Hr as [Hpid _ _ Hok Hmap _ _ _ _].
  pose proof (vo_area _ _ _ _ _ Hok) as Ha. pose proof (wm_ab_size _ _ _ _ _ Hmap) as Hsz. pose proof (ao_bits _ _ Ha) as Hnb.
  destruct (flip_area bm pblk Ha) as (Ha' & Hoff & Hs' & Hgr' & Hu').
  destruct (win_snapshot_ok env d name drv vh Hcall garbage Hgarbage Hg1 Hg2 pid sz blk bytes bm pblk m w Hr)
    as (w1 & E1 & [Hp1 Hok1 Hmap1 (bytes' & Hbuf1 & _ & Hbits1) Hus1 _]).
  pose proof (ao_bits _ _ Ha') as Hnb'.
  destruct (run_writes_ok env d qs (drv (ext w1)) (flip_halves bm) pblk m) as (s2 & m2 & E2 & Hok2 & Hp2 & Hbits2);
    rewrite ?Hgr', ?Hnb', ?Hs', ?Hsz; try done.
  exists w1, bytes', s2. split; [done|]. split; [done|]. split.
  { intros k Hk. rewrite (windows_bits_ok _ _ _ _ _ _ Hok). cbn. by rewrite Hbits1. }
  split; [done|]. intros e2 <-.
  destruct (win_destroy_ok env d name drv vh pid sz blk bytes' (flip_halves bm) pblk m2 (w1 <| ext := e2 |>)) as (w3 & m3 & E3 & _ & Hok3 & _ & Hsrc3 & Hbits3).
  { done. } { exact Hok2. } { destruct Hmap1. by constructor. } { destruct Hbuf1. by constructor. } { by rewrite Hu'. }
  exists w3. split; [done|]. assert (Hro : reader_off (flip_halves bm) = driver_off bm) by (unfold reader_off; rewrite Hoff, Hs'; unfold reader_off; lia).
  split; [by exists m3|]. split.
  - destruct Hmap1. split; rewrite ?Hsrc3; done.
  - intros k Hk. rewrite (windows_bits_ok _ _ _ _ _ _ Hok3), (windows_bits_ok _ _ _ _ _ _ Hok). cbn. do 2 f_equal.
    + rewrite Hbits3, Hbits2, Hro, Hoff, Hgr'. fold g. unfold in_range, reader_off. destruct (driver_off_cases bm) as [Ho|Ho]; rewrite Ho, ?Hsz.
      * replace (_ && (8 * (sz - 0) + k <=? _)) with false by bool_solve. cbn [negb andb]. do 2 f_equal. lia.
      * replace (_ && (8 * (sz - sz) + k <=? _)) with false by bool_solve. cbn [negb andb]. do 2 f_equal. lia.
    + rewrite Hbits3, Hro. unfold in_range. by replace (_ && (8 * driver_off bm + k <=? _)) with true by bool_solve.
Qed.

(** The answers of the kernel to a creation: memory for the halves and a
    descriptor list; [a] is the address of the mapping, if there is one. *)
Definition creation_env (b : Z) (a : option Z) : Prop :=
  (exists m, we_pool env (2 * b) = Some m /\ Z.of_nat (length m) = 2 * b) /\ we_mdl env = true /\ we_map env = a.

(** The daemon about to send the request of [b] bytes and grains of [g]. *)
Record creating (b g : Z) (w : world E) : Prop := {
  cr_stacked : stacked d (drv (ext w));
  cr_name : bytes_string (src_disk (ioctl_obj w)) = name;
  cr_request : request_ok b g (ioctl_obj w);
  cr_count : 0 <= ds_count w < 2048;
  cr_size : 0 < b <= MAX_BITMAP_BYTES /\ b mod 4 = 0;
}.

(** The daemon in which the disk [pid] of [w] has been registered with its
    name and size, and has a buffer of its own. *)
Record registered_disk (pid b blk : Z) (bytes : mem) (w w' : world E) : Prop := {
  rd_active : dsk_active (aget (ebdr_disk_src_obj w') pid) = dsk_active (aget (ebdr_disk_src_obj w) pid);
  rd_backup : dsk_backup (aget (ebdr_disk_src_obj w') pid) = dsk_backup (aget (ebdr_disk_src_obj w) pid);
  rd_name : dsk_name (aget (ebdr_disk_src_obj w') pid) = name;
  rd_size : dsk_bitmap_size (aget (ebdr_disk_src_obj w') pid) = b;
  rd_buffer : buffered pid blk bytes w';
  rd_fits : b <= Z.of_nat (length bytes);
  rd_recovery : aget (recovery_mode w') 0 = 0;
  rd_resume : cn_state (aget (ebdr_conn_server w') pid) <> CONN_OBJ_RESUME;
}.

(** C5. From the creation of the bitmap to the first snapshot, through the
    daemon, the I/O manager and the driver: once ATDRCTL_DEV_CREATE has
    returned and the daemon has registered the disk, any writes to the volume
    that end before the last tracked sector succeed, and the snapshot that
    follows gives the daemon exactly the grains they touched; the driver goes
    on with an empty half.  A write that reaches the end of the tracked range
    is left out by [op_fits]: it misbehaves, see
    [WinLimits.write_to_the_end_leaves_half]. *)
Theorem windows_writes_reach_daemon w b g a qs :
  codes_distinct -> slen name < 64 /\ no_nul name -> creating b g w -> creation_env b (Some a) -> 0 <= a < 2 ^ 64 ->
  512 <= g -> 8 * b * (g / 512) < 2 ^ 32 -> Forall (op_fits (8 * b) (g / 512)) (map TWrite qs) ->
  exists w1 s2, win_prepare_and_send_ioctl_cmd garbage ATDRCTL_DEV_CREATE w = Ret 1 w1 /\
    @tr_run wstate (windows_tracker env d) (map TWrite qs) (drv (ext w1)) = Some s2 /\
    forall w2 blk bytes, registered_disk (ds_count w) b blk bytes w1 w2 -> drv (ext w2) = s2 ->
      exists w3 bytes', win_server_bitmap_load_from_memory garbage (ds_count w) (ds_count w) w2 = Ret 0 w3 /\
        buffered (ds_count w) blk bytes' w3 /\
        forall k, 0 <= k < 8 * b -> mem_bit bytes' k = writes_touch (g / 512) qs k /\
          windows_bits d (drv (ext w3)) k = Some (false, writes_touch (g / 512) qs k).
Proof.
  intros (Hg1 & Hg2 & Hg3) Hname [Hst Hn Hreq Hcnt [Hsz Hmod]] ((m & Hp & Hlen) & Hmdl & Hmap) Ha Hgr Hov Hqs.
  destruct (create_maps env d name drv vh Hcall garbage w b g a m)
    as (e1 & bm & pblk & E1 & Hp1 & Hok1 & Hs1 & Hu1 & Hma1 & Hgr1 & Htot1); try done.
  set (w1 := with_mapping _ _ _) in E1.
  destruct (run_writes_ok env d qs (drv e1) bm pblk (replicate (length m) 0)) as (s2 & m2 & E2 & Hok2 & Hp2 & Hbits2);
    rewrite ?Hgr1, ?Htot1; try done.
  exists w1, s2. split; [done|]. split; [done|]. intros w2 blk bytes [Hact Hbak Hnm Hsize Hbuf Hfit Hrec Hres] Hd2. subst s2.
  unfold w1, with_mapping in Hact, Hbak. revert Hact Hbak. wsimpl. intros Hact Hbak.
  assert (Hr : win_ready d name drv (ds_count w) b blk bytes bm pblk m2 w2).
  { split; try done. split; [done|by rewrite Hact, Hma1|by rewrite Hbak, Hma1|done|done]. }
  destruct (win_snapshot_ok env d name drv vh Hcall garbage Hgarbage Hg1 Hg2 _ _ _ _ _ _ _ _ Hr)
    as (w3 & E3 & [_ Hok3 _ (bytes' & Hbuf3 & _ & Hbits3) _ _]).
  pose proof (vo_area _ _ _ _ _ Hok1) as Hao. destruct (flip_area bm pblk Hao) as (_ & Hoff & Hss & _ & _).
  assert (Hd0 : driver_off bm = 0) by (unfold driver_off; by rewrite Hu1).
  exists w3, bytes'. split; [done|]. split; [done|]. intros k Hk.
  assert (Hread : mem_bit m2 k = writes_touch (g / 512) qs k).
  { rewrite Hbits2, Hd0, Hgr1, mem_bit_replicate, orb_false_r. f_equal. lia. }
  split; [by rewrite Hbits3, Hd0|]. rewrite (windows_bits_ok _ _ _ _ _ _ Hok3).
  assert (Hro : reader_off (flip_halves bm) = 0) by (unfold reader_off; rewrite Hoff, Hss; unfold reader_off; lia).
  rewrite Hro, Hoff. unfold reader_off. rewrite Hd0, Hs1. replace (8 * 0 + k) with k by lia.
  rewrite Hread, Hbits2, Hd0, Hgr1, mem_bit_replicate, orb_false_r.
  do 2 f_equal. apply writes_outside with (n := 8 * b); [lia|lia|done|lia].
Qed.

(** C37. When the mapping of the bitmap fails, the driver frees the bitmap but
    keeps its pointers and goes on tracking.  The daemon retries; the second
    attempt finds the volume tracked, maps nothing and reports success: the
    daemon has a null bitmap, and the next write to the volume is a bug check
    of the system. *)
Theorem failed_mapping_reported_as_success w b g :
  codes_distinct -> creating b g w -> creation_env b None ->
  exists w', win_prepare_and_send_ioctl_cmd garbage ATDRCTL_DEV_CREATE w = Ret 1 w' /\
    dsk_active (aget (ebdr_disk_src_obj w') (ds_count w)) = Some (mk_mptr 0 0) /\
    forall env' irp, MajorFunction irp = IRP_MJ_WRITE -> dispatch_irp env' d irp (drv (ext w')) = None.
Proof.
  intros (_ & _ & Hg3) [Hst Hn Hreq Hcnt [Hsz Hmod]] ((m & Hp & Hlen) & Hmdl & Hmap).
  destruct (create_retried env d name drv vh Hcall garbage Hgarbage w b g m) as (w' & E1 & Hnull & [Ht _ _] & Hdg); try done.
  exists w'. split; [done|]. split; [done|]. intros env' irp Hmaj. unfold dispatch_irp. rewrite Ht, Hmaj by (rewrite Hmaj; done).
  change (driver_routine IRP_MJ_WRITE) with FltWrite. cbn [mbind option_bind run_dispatch]. by eapply dangling_write.
Qed.
End snapshots.

(** ** The I/O engines *)

(** The offset of a chunk is a product of 32 bits: a chunk is read and
    written at the place of the one 4 GB before it.  On a disk above 4 GB the
    resync of a grain overwrites another one. *)
Theorem chunks_4GB_apart_collide {E} `{WinOS E} h buff size start_lba (w : world E) :
  win_chunk_read_server h buff size (start_lba + 2 ^ 23) w = win_chunk_read_server h buff size start_lba w /\
  win_chunk_write_client h buff size (start_lba + 2 ^ 23) w = win_chunk_write_client h buff size start_lba w.
Proof.
  assert (Ho : win_offset (start_lba + 2 ^ 23) = win_offset start_lba).
  { unfold win_offset, u32, CHUNK_SIZE. rewrite <- (Z.mod_add (start_lba * 512) 1) by lia. f_equal. lia. }
  unfold win_chunk_read_server, win_chunk_write_client. by rewrite Ho.
Qed.

(** A ReadFile that fails is the code 0 of success, with the buffer as it was:
    the caller sends it. *)
Lemma failed_read_is_success {E} `{WinOS E} h buff size start_lba (w : world E) e1 e2 :
  wos_SetFilePointer h (win_offset start_lba) (ext w) = (true, e1) -> wos_ReadFile h size e1 = (false, [], e2) ->
  win_chunk_read_server h buff size start_lba w = Ret (0, buff) (w <| ext := e2 |>).
Proof.
  intros Hs Hr. unfold win_chunk_read_server. erewrite bind_win_sys by exact Hs. cbv beta iota. cbn [negb].
  erewrite bind_win_sys by (change (ext (w <| ext := e1 |>)) with e1; rewrite Hr; reflexivity). reflexivity.
Qed.

(** ** Statements *)

(** The connection object of the client library: once closed, no statement
    can use it. *)
Class WinDbLaws (E : Type) `{WinOS E} := {
  wdb_closed : E -> Prop;
  wdb_close : forall e, ~ wdb_closed e -> exists e', wos_mysql_close e = Some e' /\ wdb_closed e';
  wdb_query : forall sql e, wdb_closed e -> wos_mysql_query sql e = None;
  wdb_open : forall sql e r e', wos_mysql_query sql e = Some (r, e') -> ~ wdb_closed e';
  wdb_wait : forall e, wdb_closed e -> wdb_closed (snd (wos_WaitForSingleObject e));
  wdb_release : forall e, wdb_closed e -> wdb_closed (snd (wos_ReleaseMutex e));
}.

Section statements.
Context {E : Type} `{WinDbLaws E}.

Lemma bind_lock {B} (k : unit -> MW E B) w :
  exists e, bind (ignore win_mutex_lock) k w = k tt (w <| ext := e |>) /\ e = snd (wos_WaitForSingleObject (ext w)).
Proof.
  unfold ignore, win_mutex_lock. rewrite !bind_assoc. destruct (wos_WaitForSingleObject (ext w)) as [r e] eqn:Ew.
  exists e. split; [|done]. erewrite bind_win_sys by exact Ew. unfold atdr_log. by repeat case_match.
Qed.

Lemma bind_unlock {B} (k : unit -> MW E B) w :
  exists e, bind (ignore win_mutex_unlock) k w = k tt (w <| ext := e |>) /\ e = snd (wos_ReleaseMutex (ext w)).
Proof.
  unfold ignore, win_mutex_unlock. rewrite !bind_assoc. destruct (wos_ReleaseMutex (ext w)) as [ok e] eqn:Ew.
  exists e. split; [|done]. erewrite bind_win_sys by exact Ew. unfold atdr_log. by destruct ok.
Qed.

Lemma statement_on_closed n db sql w :
  wdb_closed (ext w) -> slen (use_db db) < n -> exists w', win_locked_query n db sql w = Stop Undefined w'.
Proof.
  intros Hc Hn. unfold win_locked_query. rewrite bind_cstring by done.
  destruct (bind_lock (fun _ => win_mysql_query (use_db db);;; str <- cstring n sql;; win_mysql_query str;;; ignore win_mutex_unlock;;; ret 0) w)
    as (e & -> & ->). unfold win_mysql_query at 1, wsys at 1. rewrite !bind_assoc. unfold bind at 1. cbn [ext].
  change (ext (w <| ext := _ |>)) with (snd (wos_WaitForSingleObject (ext w))). rewrite wdb_query by by apply wdb_wait. by eexists.
Qed.

Lemma bind_wsys {A B} (call : E -> option (A * E)) (k : A -> MW E B) w a e :
  call (ext w) = Some (a, e) -> bind (wsys call) k w = k a (w <| ext := e |>).
Proof. intros Hc. unfold bind, wsys. by rewrite Hc. Qed.

(** The error path: the connection is closed and the mutex released. *)
Lemma bind_finish {B} (k : unit -> MW E B) w :
  ~ wdb_closed (ext w) -> exists e, bind win_finish_with_error k w = k tt (w <| ext := e |>) /\ wdb_closed e.
Proof.
  intros Ho. destruct (wdb_close (ext w) Ho) as (e1 & Ec & Hc). destruct (wos_ReleaseMutex e1) as [ok e2] eqn:Er.
  exists e2. split.
  - unfold win_finish_with_error. rewrite !bind_assoc. erewrite bind_wsys by (rewrite Ec; reflexivity).
    rewrite bind_assoc. erewrite bind_win_sys by exact Er. unfold atdr_log. by destruct ok.
  - change e2 with (snd (ok, e2)). rewrite <- Er. by apply wdb_release.
Qed.

(** A statement the database refuses closes the connection and is still
    reported as done (0): every later statement of the daemon, of whatever
    thread, uses the connection that was closed. *)
Theorem failed_statement_closes_connection n db sql w e1 r e2 :
  slen (use_db db) < n -> slen sql < n ->
  wos_mysql_query (use_db db) (snd (wos_WaitForSingleObject (ext w))) = Some (0, e1) ->
  wos_mysql_query sql e1 = Some (r, e2) -> r <> 0 ->
  exists w', win_locked_query n db sql w = Ret 0 w' /\
    forall n' db' sql', slen (use_db db') < n' -> exists w'', win_locked_query n' db' sql' w' = Stop Undefined w''.
Proof.
  intros Hu Hs Hq1 Hq2 Hr. unfold win_locked_query at 1. rewrite bind_cstring by done.
  destruct (bind_lock (fun _ => win_mysql_query (use_db db);;; str <- cstring n sql;; win_mysql_query str;;; ignore win_mutex_unlock;;; ret 0) w)
    as (e0 & El & ->). rewrite El. unfold win_mysql_query at 1. rewrite bind_assoc.
  erewrite bind_wsys by exact Hq1. change (negb (0 =? 0)) with false. rewrite bind_when, bind_cstring by done.
  unfold win_mysql_query. rewrite bind_assoc. erewrite bind_wsys by exact Hq2.
  rewrite (proj2 (Z.eqb_neq _ _) Hr). cbn [negb when].
  match goal with |- context [bind win_finish_with_error ?k ?v] => destruct (bind_finish k v) as (e3 & -> & Hc) end.
  { by eapply wdb_open. }
  match goal with |- context [bind (ignore win_mutex_unlock) ?k ?v] => destruct (bind_unlock k v) as (e4 & -> & ->) end.
  eexists. split; [reflexivity|]. intros n' db' sql' Hn'. apply statement_on_closed; [|done]. by apply wdb_release.
Qed.
End statements.
