(* ===== verification/WinHost.v ===== *)
(** * A Windows machine

    One volume, E:, with the filter driver of [WinExample] above it, and one
    database connection: the concrete platform at which the theorems on the
    Windows daemon apply. *)
From S2P Require Import Prelude Memory KernelState KBitmap KBitmapSpec KernelMain KernelInv KernelSteps KernelProps KernelTrace.
From S2P Require Import Tracker WinState WinFilter WinSpec WinProps TrackerProps WinInv WinLoad WinLimits WinExample.
From S2P Require Import CMonad CString World Db UBitmap Disk WorldTac UBitmapSpec SnapshotSpec WinDb WinClient WinSnapshot WinClientProps.

(** The driver, whether the connection is open, and how often this thread owns
    the mutex; the database refuses the statement [wh_refused]. *)
Record whost := mk_whost { wh_drv : wstate; wh_con : bool; wh_owned : nat; wh_refused : string }.

#[export] Instance eta_whost : Settable whost := fun r => mk_whost (wh_drv r) (wh_con r) (wh_owned r) (wh_refused r).

Section machine.
Context (env : wenv).

Definition wh_dispatch (irp : IRP) (e : whost) : option (Z * IRP * whost) :=
  '(st, irp', s) ← dispatch_irp env 1 irp (wh_drv e); Some (st, irp', e <| wh_drv := s |>).

Definition wh_send (irp : IRP) (e : whost) : whost := default e (snd <$> wh_dispatch irp e).

(** The block the driver's area is in. *)
Definition wh_area (a : Z) (e : whost) : option Z :=
  bm ← vol_bitmap 1 (wh_drv e); p ← ab_start bm; if ab_mapped bm =? a then Some (wp_blk p) else None.

Definition whost_os : WinOS whost := {|
  wos_malloc _ _ := true;
  wos_MultiByteToWideChar n s := if slen s + 1 <=? n then slen s + 1 else 0;
  wos_CreateFile name _ _ e :=
    if decide (name = "\\.\E:"%string) then
      match wh_dispatch (file_irp IRP_MJ_CREATE) e with
      | Some (st, _, e') => (if NT_SUCCESS st then Some 1 else None, e')
      | None => (None, e)
      end
    else (None, e);
  wos_CloseHandle _ e := wh_send (file_irp IRP_MJ_CLOSE) (wh_send (file_irp IRP_MJ_CLEANUP) e);
  wos_DeviceIoControl _ cmd input outlen e :=
    match wh_dispatch (ioctl_irp cmd input) e with
    | Some (st, irp', e') => (NT_SUCCESS st, irp_output outlen st irp', e')
    | None => (false, [], e)
    end;
  wos_SetFilePointer _ _ e := (true, e);
  wos_ReadFile _ size e := (true, replicate (Z.to_nat size) 7, e);
  wos_WriteFile _ _ e := (true, e);
  wos_send _ m e := (Z.of_nat (length m), e);
  wos_recv _ _ e := (0, [], e);
  wos_errno _ := 0;
  wos_user_read a e := default [] (b ← wh_area a e; pool (wh_drv e) !! b);
  wos_user_write a m e := default e (b ← wh_area a e; Some (e <| wh_drv ::= fun s => s <| pool ::= <[b := m]> |> |>));
  wos_WaitForSingleObject e := (WAIT_OBJECT_0, e <| wh_owned ::= S |>);
  wos_ReleaseMutex e := match wh_owned e with O => (false, e) | S k => (true, e <| wh_owned := k |>) end;
  wos_mysql_query sql e := if wh_con e then Some (if decide (sql = wh_refused e) then 1 else 0, e) else None;
  wos_mysql_close e := if wh_con e then Some (e <| wh_con := false |>) else None;
|}.

#[local] Existing Instance whost_os.

Lemma whost_link : WinLink env 1 "E:" wh_drv (fun _ => True).
Proof.
  split.
  - done.
  - intros share flags e st irp' s' Ed Hst. exists 1, (e <| wh_drv := s' |>).
    split; [|done]. cbn. unfold wh_dispatch. rewrite Ed. cbn. by rewrite Hst.
  - intros h e st1 irp1 s1 st2 irp2 s2 _ E1 E2. cbn. unfold wh_send, wh_dispatch. rewrite E1. cbn. by rewrite E2.
  - intros h cmd input outlen e st irp' s' _ _ Ed. exists (e <| wh_drv := s' |>). split; [|done].
    cbn. unfold wh_dispatch. by rewrite Ed.
  - intros e bm p m Hb Hp Hm. cbn. unfold wh_area. rewrite Hb. cbn. rewrite Hp. cbn. rewrite Z.eqb_refl. cbn. by rewrite Hm.
  - intros e bm p m Hb Hp. cbn. unfold wh_area. rewrite Hb. cbn. rewrite Hp. cbn. by rewrite Z.eqb_refl.
Qed.

Lemma whost_db : WinDbLaws whost.
Proof.
  apply (Build_WinDbLaws whost _ (fun e => wh_con e = false)).
  - intros e He. destruct e as [s [] o r]; [|by destruct He]. by eexists.
  - intros sql e He. cbn. by rewrite He.
  - intros sql e r e' Hq. cbn in Hq. destruct (wh_con e) eqn:Hc; [|done]. injection Hq as _ <-. by rewrite Hc.
  - done.
  - intros e He. cbn. by destruct (wh_owned e).
Qed.
End machine.

(** ** Witnesses *)
Definition ex_garbage : mem := replicate 16 165.
Definition wh0 (s : wstate) : whost := mk_whost s true 0 "bad".

Definition ex_win_request (b g : Z) : IOCTL :=
  mk_IOCTL (put_string "E:" (replicate 64 0)) g b 0 0 0.

(** The daemon before its first request. *)
Definition ex_win_daemon : world whost := (world0 (wh0 ex_added)) <| ioctl_obj := ex_win_request 8 4096 |>.

Lemma ex_codes : codes_distinct.
Proof. unfold codes_distinct. split_and!; by vm_compute. Qed.

Lemma ex_name_ok : slen "E:" < 64 /\ no_nul "E:".
Proof. split; [done|]. by repeat constructor. Qed.

Lemma ex_creating : creating 1 "E:" wh_drv 8 4096 ex_win_daemon.
Proof. split; [apply ex_stacked|by vm_compute|by split_and!; vm_compute|by vm_compute|by vm_compute]. Qed.

(** The daemon with the source disk 0 mapped. *)
Definition ex_win_mapped : world whost :=
  (world0 (wh0 ex_tracked))
    <| ioctl_obj := ex_win_request 8 4096 |>
    <| ebdr_disk_src_obj ::= aset 0 (fun x => x <| dsk_name := "E:"%string |> <| dsk_active := Some (mk_mptr 0x7f0000 0) |>
         <| dsk_backup := Some (mk_mptr 0x7f0000 8) |> <| dsk_bitmap_size := 8 |>) |>
    <| bitmap_server_obj ::= aset 0 (fun x => x <| ub_area := Some 0 |>) |>
    <| ebdr_conn_server ::= aset 0 (fun x => x <| cn_state := CONN_OBJ_IN_USE |>) |>
    <| heap := {[0 := replicate 16 0]} |>.

Lemma ex_win_ready : win_ready 1 "E:" wh_drv 0 8 0 (replicate 16 0) ex_win_bm 0 (replicate 16 0) ex_win_mapped.
Proof.
  split; [done|apply ex_name_ok| |apply ex_vol_ok|by split|by split|by vm_compute|by vm_compute|by vm_compute].
  split; [by apply ex_table|by vm_compute|by vm_compute; eexists].
Qed.

Definition ex_win_writes : list write_req := [mk_write_req 12 8; mk_write_req 100 1].

Lemma ex_win_writes_fit : Forall (op_fits 64 8) (map TWrite ex_win_writes).
Proof. repeat apply Forall_cons_2; try apply Forall_nil_2; cbn; lia. Qed.

#[local] Instance ex_win_os : WinOS whost := whost_os ex_wenv.

Lemma windows_snapshot_loses_nothing_witness :
  exists w1 bytes' s2, win_server_bitmap_load_from_memory ex_garbage 0 0 ex_win_mapped = Ret 0 w1 /\ buffered 0 0 bytes' w1 /\
    (forall k, 0 <= k < 64 -> fst <$> windows_bits 1 ex_tracked k = Some (mem_bit bytes' k)) /\
    @tr_run wstate (windows_tracker ex_wenv 1) (map TWrite ex_win_writes) (wh_drv (ext w1)) = Some s2 /\
    forall e2, wh_drv e2 = s2 ->
      exists w3, win_bitmap_server_destroy 0 0 (w1 <| ext := e2 |>) = Ret tt w3 /\
        (exists m3, vol_ok (wh_drv (ext w3)) 1 (flip_halves ex_win_bm) 0 m3) /\ win_mapped "E:" 0 8 (flip_halves ex_win_bm) w3 /\
        forall k, 0 <= k < 64 -> windows_bits 1 (wh_drv (ext w3)) k =
          (fun '(_, rd) => (writes_touch 8 ex_win_writes k || rd, false)) <$> windows_bits 1 ex_tracked k.
Proof.
  apply (@windows_snapshot_loses_nothing whost ex_win_os _ ex_wenv 1 "E:" wh_drv (fun _ => True) (whost_link ex_wenv) eq_refl ex_garbage
    ltac:(by vm_compute) 0 8 0 (replicate 16 0) ex_win_bm 0 (replicate 16 0) ex_win_mapped ex_win_writes ex_codes ex_win_ready);
    [by vm_compute|by vm_compute|exact ex_win_writes_fit].
Defined.

Lemma windows_writes_reach_daemon_witness :
  exists w1 s2, win_prepare_and_send_ioctl_cmd ex_garbage ATDRCTL_DEV_CREATE ex_win_daemon = Ret 1 w1 /\
    @tr_run wstate (windows_tracker ex_wenv 1) (map TWrite ex_win_writes) (wh_drv (ext w1)) = Some s2 /\
    forall w2 blk bytes, registered_disk "E:" 0 8 blk bytes w1 w2 -> wh_drv (ext w2) = s2 ->
      exists w3 bytes', win_server_bitmap_load_from_memory ex_garbage 0 0 w2 = Ret 0 w3 /\
        buffered 0 blk bytes' w3 /\
        forall k, 0 <= k < 64 -> mem_bit bytes' k = writes_touch 8 ex_win_writes k /\
          windows_bits 1 (wh_drv (ext w3)) k = Some (false, writes_touch 8 ex_win_writes k).
Proof.
  apply (@windows_writes_reach_daemon whost ex_win_os _ ex_wenv 1 "E:" wh_drv (fun _ => True) (whost_link ex_wenv) eq_refl ex_garbage
    ltac:(by vm_compute) ex_win_daemon 8 4096 0x7f0000 ex_win_writes ex_codes ex_name_ok ex_creating);
    [split; [by eexists|done]|done|done|done|exact ex_win_writes_fit].
Defined.

Lemma failed_statement_closes_connection_witness :
  exists w', win_locked_query 100 "atdrdbs" "bad" ex_win_mapped = Ret 0 w' /\
    forall n' db' sql', slen (use_db db') < n' -> exists w'', win_locked_query n' db' sql' w' = Stop Undefined w''.
Proof.
  exact (@failed_statement_closes_connection whost ex_win_os (whost_db ex_wenv) 100 "atdrdbs" "bad" ex_win_mapped
    ((wh0 ex_tracked) <| wh_owned := 1%nat |>) 1 ((wh0 ex_tracked) <| wh_owned := 1%nat |>)
    eq_refl eq_refl eq_refl eq_refl ltac:(done)).
Defined.

(** The whole of it on the machine: the bitmap is created, two writes are made
    to grains 1, 2 and 12, the daemon registers the disk and takes a snapshot. *)
Definition ex_win_run : option mem :=
  match win_prepare_and_send_ioctl_cmd ex_garbage ATDRCTL_DEV_CREATE ex_win_daemon with
  | Ret _ w1 =>
      s2 ← @tr_run wstate (windows_tracker ex_wenv 1) (map TWrite ex_win_writes) (wh_drv (ext w1));
      match (ignore (atdr_disk_init PRIMARY "E:" 0);;; win_bitmap_server_create 0;;;
             win_server_bitmap_load_from_memory ex_garbage 0 0) (w1 <| ext ::= fun e => e <| wh_drv := s2 |> |>) with
      | Ret 0 w3 => b ← ub_area (aget (bitmap_server_obj w3) 0); take 8 <$> heap w3 !! b
      | _ => None
      end
  | _ => None
  end.

Example ex_win_run_marks : ex_win_run = Some [6; 16; 0; 0; 0; 0; 0; 0].
Proof. vm_compute. reflexivity. Qed.

(** The same machine when user mappings fail. *)
Definition ex_unmapped_wenv : wenv :=
  mk_wenv 0 0 (Some 100) (Some (mk_VOL_INFO 0 (replicate 74 0) None true)) (Some ex_garbage_bitmap)
    (fun n => Some (replicate (Z.to_nat n) 165)) true true None 0 0.

#[local] Instance ex_unmapped_os : WinOS whost := whost_os ex_unmapped_wenv.

Lemma failed_mapping_reported_as_success_witness :
  exists w', win_prepare_and_send_ioctl_cmd ex_garbage ATDRCTL_DEV_CREATE ex_win_daemon = Ret 1 w' /\
    dsk_active (aget (ebdr_disk_src_obj w') 0) = Some (mk_mptr 0 0) /\
    forall env' irp, MajorFunction irp = IRP_MJ_WRITE -> dispatch_irp env' 1 irp (wh_drv (ext w')) = None.
Proof.
  apply (@failed_mapping_reported_as_success whost ex_unmapped_os _ ex_unmapped_wenv 1 "E:" wh_drv (fun _ => True)
    (whost_link ex_unmapped_wenv) eq_refl ex_garbage ltac:(by vm_compute) ex_win_daemon 8 4096 ex_codes ex_creating).
  split; [by eexists|done].
Defined.
