(* ===== verification/WinResyncSpec.v ===== *)
(** * The Windows resync loop against an abstract peer

    [WinPeerLaws] says what the loop of [WinResync] relies on: the answer to a
    DATA request is the beginning of the 4096 bytes the source disk has at the
    requested position, as much of it as [recv] delivers; the target volume
    opens, a write of it changes those bytes, the database answers.  A request
    or its answer may fail at any time; the client's [recv] has no MSG_WAITALL,
    so that on a stream socket it may deliver fewer bytes than asked for at any
    time (none when the peer has closed the connection), and what is left of
    the answer is read by the next call.

    As in [ResyncSpec], the lemmas are proved against [WinRoundLaws], derived
    from [WinPeerLaws] once for any bytes and once for those of the source, as
    long as every receive is whole.  The loops themselves are those of
    [TransferLoop]. *)
From S2P Require Import Prelude Memory KernelState KBitmap KBitmapSpec CMonad CString World UBitmap Db Header ReplicServer Resync.
From S2P Require Import WinDb WinClient WinObjects WinServer WinResync WorldTac UBitmapSpec TransferLoop.

Class WinPeerLaws {E : Type} `{WinOS E} `{WinSock E} (P : peer E) (pid fd fdt G C : Z) (name : string) := {
  wpl_works : forall e, pr_good P e -> pr_works P e;
  (** A request and its answer leave the target disk alone.  [recv] delivers at
      most what was asked for; when nothing sent before is unread, that is the
      beginning of the source's bytes, and all of it when it is whole. *)
  wpl_request : forall e h bit c r e1 n bytes e2,
    pr_works P e -> is_request pid bit c h -> chunk_fits (pr_size P) G C bit c ->
    wos_send_hdr fd h e = (r, e1) -> wos_recv fd BUF_SIZE_IN_BYTES e1 = (n, bytes, e2) ->
    same_image (pr_tgt P e) (pr_tgt P e1) /\ same_image (pr_tgt P e) (pr_tgt P e2) /\
    (0 < r -> 0 <= n -> wos_errno e2 <> MSVC_ETIMEDOUT ->
     pr_works P e2 /\ Z.of_nat (length bytes) = n /\ n <= BUF_SIZE_IN_BYTES /\
     (pr_good P e -> (forall i, 0 <= i < n -> bytes !!! Z.to_nat i = pr_src P (chunk_addr G C bit c + i)) /\
        (n = BUF_SIZE_IN_BYTES -> pr_good P e2)));
  wpl_write : forall e off bytes,
    pr_works P e -> 0 <= off -> off + 4096 <= pr_size P -> length bytes = 4096%nat ->
    exists e1 e2, wos_SetFilePointer fdt off e = (true, e1) /\ wos_WriteFile fdt bytes e1 = (true, e2) /\
      pr_works P e2 /\ (pr_good P e -> pr_good P e2) /\
      forall a, pr_tgt P e2 a = if in_range off (off + 4095) a then bytes !!! Z.to_nat (a - off) else pr_tgt P e a;
  wpl_open : forall e share flags, pr_works P e ->
    exists e1, wos_CreateFile ("\\.\" +:+ name) share flags e = (Some fdt, e1) /\ pr_works P e1 /\
      (pr_good P e -> pr_good P e1) /\ same_image (pr_tgt P e) (pr_tgt P e1);
  wpl_control : forall e cmd, pr_works P e ->
    let e1 := snd (wos_DeviceIoControl fdt cmd [] 0 e) in
    pr_works P e1 /\ (pr_good P e -> pr_good P e1) /\ same_image (pr_tgt P e) (pr_tgt P e1);
  wpl_query : forall e sql, pr_works P e ->
    exists e1, wos_mysql_query sql e = Some (0, e1) /\ pr_works P e1 /\ (pr_good P e -> pr_good P e1) /\
      same_image (pr_tgt P e) (pr_tgt P e1);
  wpl_lock : forall e, pr_works P e ->
    let e1 := snd (wos_WaitForSingleObject e) in
    pr_works P e1 /\ (pr_good P e -> pr_good P e1) /\ same_image (pr_tgt P e) (pr_tgt P e1);
  wpl_unlock : forall e, pr_works P e ->
    let e1 := snd (wos_ReleaseMutex e) in
    pr_works P e1 /\ (pr_good P e -> pr_good P e1) /\ same_image (pr_tgt P e) (pr_tgt P e1);
  wpl_drop : forall e, same_image (pr_tgt P e) (pr_tgt P (wos_closesocket fd (wos_shutdown fd e)));
  wpl_end : forall e h r e1, pr_works P e -> hd_opcode h = RPLC_TERMINATION ->
    wos_send_hdr fd h (wos_CloseHandle fdt e) = (r, e1) ->
    pr_works P e1 /\ same_image (pr_tgt P e) (pr_tgt P e1);
}.

(** No receive that succeeds is short.  Winsock does not promise it: the
    network decides. *)
Definition win_answers_whole {E} `{WinOS E} `{WinSock E} (P : peer E) (pid fd G C : Z) : Prop :=
  forall e h bit c r e1 n bytes e2, pr_good P e -> is_request pid bit c h -> chunk_fits (pr_size P) G C bit c ->
    wos_send_hdr fd h e = (r, e1) -> wos_recv fd BUF_SIZE_IN_BYTES e1 = (n, bytes, e2) ->
    0 < r -> 0 <= n -> wos_errno e2 <> MSVC_ETIMEDOUT -> n = BUF_SIZE_IN_BYTES.

(** The connection never fails. *)
Definition win_peer_up {E} `{WinOS E} `{WinSock E} (P : peer E) (pid fd G C : Z) : Prop :=
  forall e h bit c r e1 n bytes e2, pr_good P e -> is_request pid bit c h -> chunk_fits (pr_size P) G C bit c ->
    wos_send_hdr fd h e = (r, e1) -> wos_recv fd BUF_SIZE_IN_BYTES e1 = (n, bytes, e2) ->
    0 < r /\ 0 <= n /\ wos_errno e2 <> MSVC_ETIMEDOUT.

(** ** What one round needs *)
Class WinRoundLaws {E : Type} `{WinOS E} `{WinSock E} (ok : Z -> Z -> Prop) (P : peer E) (pid fd fdt G C : Z) (name : string) := {
  wrl_request : forall e h bit c r e1 n bytes e2,
    pr_good P e -> is_request pid bit c h -> chunk_fits (pr_size P) G C bit c ->
    wos_send_hdr fd h e = (r, e1) -> wos_recv fd BUF_SIZE_IN_BYTES e1 = (n, bytes, e2) ->
    same_image (pr_tgt P e) (pr_tgt P e1) /\ same_image (pr_tgt P e) (pr_tgt P e2) /\
    (0 < r -> 0 <= n -> wos_errno e2 <> MSVC_ETIMEDOUT ->
     pr_good P e2 /\ (length bytes <= 4096)%nat /\
     forall buff i, length buff = 4096%nat -> 0 <= i < 4096 ->
       ok (chunk_addr G C bit c + i) (fill bytes buff !!! Z.to_nat i));
  wrl_write : forall e off bytes,
    pr_good P e -> 0 <= off -> off + 4096 <= pr_size P -> length bytes = 4096%nat ->
    exists e1 e2, wos_SetFilePointer fdt off e = (true, e1) /\ wos_WriteFile fdt bytes e1 = (true, e2) /\
      pr_good P e2 /\
      forall a, pr_tgt P e2 a = if in_range off (off + 4095) a then bytes !!! Z.to_nat (a - off) else pr_tgt P e a;
  wrl_open : forall e share flags, pr_good P e ->
    exists e1, wos_CreateFile ("\\.\" +:+ name) share flags e = (Some fdt, e1) /\ pr_good P e1 /\
      same_image (pr_tgt P e) (pr_tgt P e1);
  wrl_control : forall e cmd, pr_good P e ->
    let e1 := snd (wos_DeviceIoControl fdt cmd [] 0 e) in pr_good P e1 /\ same_image (pr_tgt P e) (pr_tgt P e1);
  wrl_works : forall e, pr_good P e -> pr_works P e;
  wrl_query : forall e sql, pr_works P e ->
    exists e1, wos_mysql_query sql e = Some (0, e1) /\ pr_works P e1 /\ (pr_good P e -> pr_good P e1) /\
      same_image (pr_tgt P e) (pr_tgt P e1);
  wrl_lock : forall e, pr_works P e ->
    let e1 := snd (wos_WaitForSingleObject e) in
    pr_works P e1 /\ (pr_good P e -> pr_good P e1) /\ same_image (pr_tgt P e) (pr_tgt P e1);
  wrl_unlock : forall e, pr_works P e ->
    let e1 := snd (wos_ReleaseMutex e) in
    pr_works P e1 /\ (pr_good P e -> pr_good P e1) /\ same_image (pr_tgt P e) (pr_tgt P e1);
  wrl_drop : forall e, same_image (pr_tgt P e) (pr_tgt P (wos_closesocket fd (wos_shutdown fd e)));
  wrl_end : forall e h r e1, pr_good P e -> hd_opcode h = RPLC_TERMINATION ->
    wos_send_hdr fd h (wos_CloseHandle fdt e) = (r, e1) ->
    pr_works P e1 /\ same_image (pr_tgt P e) (pr_tgt P e1);
}.

Section derived.
Context {E : Type} `{WinOS E} `{WinSock E} (P : peer E) (pid fd fdt G C : Z) (name : string).
Context `{!WinPeerLaws P pid fd fdt G C name}.

(** Whatever is received, short or not. *)
Lemma win_round_any : WinRoundLaws any_byte (weak P) pid fd fdt G C name.
Proof.
  constructor; cbn [weak pr_good pr_works pr_tgt pr_size]; try done.
  - intros e h bit c r e1 n bytes e2 Hg Hr Hf Es Er.
    destruct (wpl_request e h bit c r e1 n bytes e2 Hg Hr Hf Es Er) as (Hs1 & Hs2 & Ha).
    split; [done|]. split; [done|]. intros H1 H2 H3. destruct (Ha H1 H2 H3) as (Hw & Hl & Hn & _).
    split; [done|]. split; [|done]. unfold BUF_SIZE_IN_BYTES in Hn. lia.
  - intros e off bytes Hg Ho Hs Hl. destruct (wpl_write e off bytes Hg Ho Hs Hl) as (e1 & e2 & ? & ? & ? & _ & ?). by exists e1, e2.
  - intros e share flags Hg. destruct (wpl_open e share flags Hg) as (e1 & ? & ? & _ & ?). by exists e1.
  - intros e cmd Hg. destruct (wpl_control e cmd Hg) as (? & _ & ?). done.
  - intros e sql Hw. destruct (wpl_query e sql Hw) as (e1 & ? & ? & _ & ?). by exists e1.
  - intros e Hw. destruct (wpl_lock e Hw) as (? & _ & ?). done.
  - intros e Hw. destruct (wpl_unlock e Hw) as (? & _ & ?). done.
  - apply wpl_drop.
  - apply wpl_end.
Qed.

(** As long as every receive is whole: the source's bytes. *)
Lemma win_round_whole : win_answers_whole P pid fd G C -> WinRoundLaws (the_bytes (pr_src P)) P pid fd fdt G C name.
Proof.
  intros Hall. constructor.
  - intros e h bit c r e1 n bytes e2 Hg Hr Hf Es Er.
    destruct (wpl_request e h bit c r e1 n bytes e2 (wpl_works e Hg) Hr Hf Es Er) as (Hs1 & Hs2 & Ha).
    split; [done|]. split; [done|]. intros H1 H2 H3. destruct (Ha H1 H2 H3) as (Hw & Hl & Hn & Hb).
    pose proof (Hall e h bit c r e1 n bytes e2 Hg Hr Hf Es Er H1 H2 H3) as ->. destruct (Hb Hg) as [Hbytes Hg2].
    unfold BUF_SIZE_IN_BYTES in *. split; [by apply Hg2|]. split; [lia|]. intros buff i Hbl Hi.
    rewrite fill_full by lia. by apply Hbytes.
  - intros e off bytes Hg Ho Hs Hl.
    destruct (wpl_write e off bytes (wpl_works e Hg) Ho Hs Hl) as (e1 & e2 & ? & ? & ? & Hg2 & ?).
    exists e1, e2. split_and!; auto.
  - intros e share flags Hg. destruct (wpl_open e share flags (wpl_works e Hg)) as (e1 & ? & ? & Hg2 & ?). exists e1. auto.
  - intros e cmd Hg. destruct (wpl_control e cmd (wpl_works e Hg)) as (? & Hg2 & ?). split; [by apply Hg2|done].
  - apply wpl_works.
  - apply wpl_query.
  - apply wpl_lock.
  - apply wpl_unlock.
  - apply wpl_drop.
  - intros e h r e1 Hg. by apply wpl_end, wpl_works.
Qed.
End derived.

(** The client is set up for the partner: connection, engine, disk, bitmap [m]
    in heap block [blk]; nobody has paused the resync. *)
Record win_prepared {E} (P : peer E) (pid fd G C blk : Z) (name : string) (m : mem) (w : world E) : Prop := {
  wp_state : ptn_state (aget (all_partner_clients w) pid) <> PARTNER_OBJ_PAUSE;
  wp_sock : ptn_fd (aget (all_partner_clients w) pid) = fd;
  wp_io : io_state (aget (io_client_obj w) pid) <> IO_OBJ_RELEASED;
  wp_conn : rp_conn (aget (replic_client_obj w) pid) = Some (PClient pid);
  wp_ops : cn_ops (aget (ebdr_conn_client w) pid) = Some client_ops;
  wp_rep : 0 <= rp_state (aget (replic_client_obj w) pid) < RESYNC_COMPLETED;
  wp_grain : hd_grain (aget (replic_hdr_client_obj w) pid) = G;
  wp_chunk : hd_chunk (aget (replic_hdr_client_obj w) pid) = C;
  wp_name : dsk_name (aget (ebdr_disk_target_obj w) pid) = name;
  wp_dops : dsk_ops (aget (ebdr_disk_target_obj w) pid) = Some client_ops;
  wp_bitmap : dsk_bitmap (aget (ebdr_disk_target_obj w) pid) = Some (PClient pid);
  wp_area : ub_area (aget (bitmap_client_obj w) pid) = Some blk;
  wp_size : ub_size (aget (bitmap_client_obj w) pid) = BITMAP_SIZE;
  wp_bmops : ub_ops (aget (bitmap_client_obj w) pid) = Some client_ops;
  wp_heap : heap w !! blk = Some m;
  wp_good : pr_good P (ext w);
}.

Lemma prepared_weak {E} `{WinOS E} `{WinSock E} (P : peer E) pid fd fdt G C blk name m w :
  WinPeerLaws P pid fd fdt G C name -> win_prepared P pid fd G C blk name m w -> win_prepared (weak P) pid fd G C blk name m w.
Proof. intros L []. constructor; try done. by apply (wpl_works (WinPeerLaws := L)). Qed.

(** ... and the target volume is open. *)
Definition win_linked {E} (P : peer E) (pid fd fdt G C blk : Z) (name : string) (m : mem) (w : world E) : Prop :=
  win_prepared P pid fd G C blk name m w /\ dsk_fd (aget (ebdr_disk_target_obj w) pid) = fdt.

Ltac solve_prepared := constructor; wsimpl; first [assumption | done | lia | idtac].

Definition win_tgt {E} (P : peer E) (w : world E) : image := pr_tgt P (ext w).

Definition win_last {E} (pid : Z) (w : world E) : Z := rp_last_bit (aget (replic_client_obj w) pid).

(** A call that only changes the environment, keeping it usable. *)
Definition passes {E} (P : peer E) (w : world E) (e : E) : Prop :=
  pr_works P e /\ (pr_good P (ext w) -> pr_good P e) /\ same_image (pr_tgt P (ext w)) (pr_tgt P e).

Section winrounds.
Context {E : Type} `{WinOS E} `{WinSock E} (ok : Z -> Z -> Prop) (P : peer E) (pid fd fdt G C blk : Z) (name : string) (m : mem).
Context `{!WinRoundLaws ok P pid fd fdt G C name}.
Context (Hpid : 0 <= pid < 2048) (Hsize : pr_size P <= 2 ^ 32).

#[local] Abbreviation prepared := (win_prepared P pid fd G C blk name m).
#[local] Abbreviation linked := (win_linked P pid fd fdt G C blk name m).

Lemma prepared_ext w e : prepared w -> pr_good P e -> prepared (w <| ext := e |>).
Proof. intros [] He. solve_prepared. Qed.

Lemma linked_ext w e : linked w -> pr_good P e -> linked (w <| ext := e |>).
Proof. intros [Hp Hd] He. split; [by apply prepared_ext|done]. Qed.

(** ** Statements *)
Lemma win_statement_ok n db sql w :
  pr_works P (ext w) -> slen (use_db db) < n -> slen sql < n ->
  exists e, win_locked_query n db sql w = Ret 0 (w <| ext := e |>) /\ passes P w e.
Proof.
  intros Hd Hu Hs. unfold win_locked_query, passes. rewrite bind_cstring by done.
  unfold ignore, win_mutex_lock. rewrite !bind_assoc.
  pose proof (wrl_lock (ext w) Hd) as (Hd1 & Hg1 & Ht1).
  destruct (wos_WaitForSingleObject (ext w)) as [r e1] eqn:Ew. cbn [snd] in *. rewrite (bind_sys _ _ _ _ _ Ew).
  assert (Hgo : forall k : unit -> MW E Z, bind (if r =? WAIT_OBJECT_0 then atdr_log;;; ret 1
    else if r =? WAIT_ABANDONED then atdr_log;;; ret 0 else ret 0) (fun _ => bind (ret tt) k) (w <| ext := e1 |>) = k tt (w <| ext := e1 |>)).
  { intros k. destruct (r =? WAIT_OBJECT_0), (r =? WAIT_ABANDONED); done. }
  rewrite Hgo. destruct (wrl_query e1 (use_db db) Hd1) as (e2 & E2 & Hd2 & Hg2 & Ht2).
  assert (Hq : forall e e' s (k : unit -> MW E Z), wos_mysql_query s e = Some (0, e') ->
    bind (win_mysql_query s) k (w <| ext := e |>) = k tt (w <| ext := e' |>)).
  { intros e e' s k Hs1. unfold win_mysql_query, wsys, bind. change (ext (w <| ext := e |>)) with e. by rewrite Hs1. }
  rewrite (Hq _ _ _ _ E2). rewrite bind_cstring by done.
  destruct (wrl_query e2 sql Hd2) as (e3 & E3 & Hd3 & Hg3 & Ht3). rewrite (Hq _ _ _ _ E3).
  unfold win_mutex_unlock. rewrite !bind_assoc. pose proof (wrl_unlock e3 Hd3) as (Hd4 & Hg4 & Ht4).
  destruct (wos_ReleaseMutex e3) as [b e4] eqn:Er. cbn [snd] in *. exists e4. split.
  - erewrite bind_sys by exact Er. by destruct b.
  - split; [done|]. split; [auto|]. intros a. by rewrite Ht4, Ht3, Ht2, Ht1.
Qed.

Lemma ignore_statement n db sql w :
  pr_works P (ext w) -> slen (use_db db) < n -> slen sql < n ->
  exists e, ignore (win_locked_query n db sql) w = Ret tt (w <| ext := e |>) /\ passes P w e.
Proof.
  intros Hd Hu Hs. destruct (win_statement_ok n db sql w) as (e & Ee & Hp); [done..|].
  exists e. split; [|done]. unfold ignore. by rewrite (bind_Ret _ _ _ _ _ Ee).
Qed.

(** ** A round *)
Lemma bind_client_conn {B} w (k : unit -> MW E B) :
  rp_conn (aget (replic_client_obj w) pid) = Some (PClient pid) ->
  cn_ops (aget (ebdr_conn_client w) pid) = Some client_ops -> bind (win_client_conn pid) k w = k tt w.
Proof.
  intros Hc Ho. unfold win_client_conn. rewrite bind_assoc, bind_rd by (unfold MAX_REPLICATIONS; lia). rewrite Hc.
  rewrite bind_assoc, bind_rd by (unfold MAX_CONN; lia). by rewrite Ho.
Qed.

(** Sending a header: negative when the call does not answer a positive
    number. *)
Lemma win_send_ok h w :
  rp_conn (aget (replic_client_obj w) pid) = Some (PClient pid) ->
  cn_ops (aget (ebdr_conn_client w) pid) = Some client_ops ->
  exists r, win_client_rep_send pid (PHdr h) fd PROTO_TYPE w =
    Ret r (w <| ext := snd (wos_send_hdr fd h (ext w)) |>) /\
    (r <? 0) = (fst (wos_send_hdr fd h (ext w)) <=? 0).
Proof.
  intros Hc Ho. unfold win_client_rep_send. rewrite bind_client_conn by done. unfold atdr_conn_client_send.
  change (table_find PROTO_TYPE win_ccmdMap) with (Some (@win_send_hdr E _)). unfold win_send_hdr.
  destruct (wos_send_hdr fd h (ext w)) as [r e1] eqn:Es. rewrite (bind_sys _ _ _ _ _ Es). cbn [fst snd].
  destruct (r <=? 0); [by exists (-1)|by exists 0].
Qed.

Lemma win_abandon_ok w :
  ptn_fd (aget (all_partner_clients w) pid) = fd ->
  exists w', win_abandon_conn pid w = Ret tt w' /\ same_image (win_tgt P w) (win_tgt P w') /\ win_last pid w' = win_last pid w.
Proof.
  intros Hfd. unfold win_abandon_conn. rewrite bind_rd by (unfold MAX_PARTNERS; lia). rewrite Hfd. unfold sys_.
  rewrite !bind_modify. rewrite bind_wr by (unfold MAX_PARTNERS; lia). rewrite wr_ok by (unfold MAX_CONN; lia).
  eexists. split; [reflexivity|]. unfold win_tgt, win_last. wsimpl. split; [apply wrl_drop|done].
Qed.

Lemma win_abandoned w e buff :
  ptn_fd (aget (all_partner_clients w) pid) = fd ->
  exists w', bind (win_abandon_conn pid) (fun _ => ret (Some resync_returned, buff) : MW E (option chunk_result * mem))
      (w <| ext := e |>) = Ret (Some resync_returned, buff) w' /\ same_image (pr_tgt P e) (win_tgt P w') /\ win_last pid w' = win_last pid w.
Proof.
  intros Hfd. destruct (win_abandon_ok (w <| ext := e |>)) as (w' & E1 & Ht & Hl); [done|].
  rewrite (bind_Ret _ _ _ _ _ E1). by exists w'.
Qed.

(** The state after the header of a request has been prepared. *)
Definition win_asked (bit c : Z) (w : world E) : world E :=
  w <| replic_hdr_client_obj ::= aset pid (fun h => h <| hd_curr := bit |> <| hd_chunk_pos := c |>
       <| hd_partner := pid |> <| hd_opcode := DATA |>) |>
    <| io_client_obj ::= aset pid (fun o => o <| io_ops := Some client_ops |>) |>.

Lemma win_asked_linked bit c w : linked w -> linked (win_asked bit c w).
Proof. intros [[] Hd]. unfold win_asked. split; [solve_prepared|by wsimpl]. Qed.

Lemma win_write_ok off bytes w :
  linked w -> 0 <= 512 * off -> 512 * off + 4096 <= pr_size P -> length bytes = 4096%nat ->
  exists e, win_chunk_write_client fdt bytes BUF_SIZE_IN_BYTES off w = Ret 0 (w <| ext := e |>) /\ pr_good P e /\
    forall a, pr_tgt P e a =
      if in_range (512 * off) (512 * off + 4095) a then bytes !!! Z.to_nat (a - 512 * off) else win_tgt P w a.
Proof.
  intros [Hr _] Ho Hs Hl.
  destruct (wrl_write (ext w) (512 * off) bytes (wp_good _ _ _ _ _ _ _ _ _ Hr) Ho Hs Hl) as (e1 & e2 & Ex & En & Hg & Ht).
  unfold win_chunk_write_client. replace (win_offset off) with (512 * off).
  2:{ unfold win_offset, u32, CHUNK_SIZE. rewrite Z.mod_small; lia. }
  rewrite (bind_sys _ _ _ _ _ Ex). cbn [negb]. rewrite take_ge by (rewrite Hl; unfold BUF_SIZE_IN_BYTES; lia).
  erewrite bind_sys by exact En. cbn [negb]. by exists e2.
Qed.

(** The part of a round after its request has been prepared. *)
Lemma win_round_asked w bit c buff :
  linked w -> 0 <= bit * G + c * C < 2 ^ 32 ->
  let w1 := win_asked bit c w in
  win_chunk_round pid bit c buff w =
    bind (win_client_rep_send pid (PHdr (aget (replic_hdr_client_obj w1) pid)) fd PROTO_TYPE)
      (fun r => if r <? 0 then win_abandon_conn pid;;; ret (Some resync_returned, buff) else
        '(r, buff) <- win_chunk_read_client fd buff BUF_SIZE_IN_BYTES (bit * G + c * C);;
        if r <? 0 then win_abandon_conn pid;;; ret (Some resync_returned, buff) else
        d <- rd MAX_DISKS ebdr_disk_target_obj pid;;
        r <- win_chunk_write_client (dsk_fd d) buff BUF_SIZE_IN_BYTES (bit * G + c * C);;
        when (r <? 0)
          (wr MAX_DISKS ebdr_disk_target_obj pid (fun d => d <| dsk_state := DISK_OBJ_PAUSE |>);;; exit_thread);;;
        ret (None, buff)) w1.
Proof.
  intros Hr Hlt w1. destruct (win_asked_linked bit c w Hr) as [[] _]. fold w1 in wp_state0, wp_io0, wp_sock0, wp_grain0, wp_chunk0.
  unfold win_chunk_round. rewrite bind_wr by (unfold MAX_HDR; lia). rewrite bind_wr by (unfold MAX_IO; lia).
  lazymatch goal with |- bind _ _ ?s = _ => change s with w1 end.
  rewrite bind_rd by (unfold MAX_PARTNERS; lia). rewrite (proj2 (Z.eqb_neq _ _) wp_state0).
  rewrite bind_rd by (unfold MAX_IO; lia). rewrite (proj2 (Z.eqb_neq _ _) wp_io0).
  rewrite bind_rd by (unfold MAX_HDR; lia). by rewrite wp_sock0, wp_grain0, wp_chunk0, u32_id by lia.
Qed.

(** The answer is received: bytes of it replace those of the buffer. *)
Lemma bind_read_client {B} buff start n bytes e (k : Z * mem -> MW E B) w :
  wos_recv fd BUF_SIZE_IN_BYTES (ext w) = (n, bytes, e) ->
  bind (win_chunk_read_client fd buff BUF_SIZE_IN_BYTES start) k w =
    k (if (n <? 0) || (wos_errno e =? MSVC_ETIMEDOUT) then -1 else 0, if n <? 0 then buff else fill bytes buff) (w <| ext := e |>).
Proof.
  intros Hr. unfold win_chunk_read_client, atdr_log. rewrite bind_assoc, bind_ret, bind_assoc.
  erewrite bind_sys by (rewrite Hr; reflexivity). cbv beta iota. rewrite bind_assoc, bind_get. wsimpl. by destruct (_ || _).
Qed.

#[local] Abbreviation round_end := (round_outcome linked (win_tgt P) (win_peer_up P pid fd G C) ok G C).

Lemma win_round_ok w bit c buff :
  linked w -> chunk_fits (pr_size P) G C bit c -> length buff = 4096%nat ->
  exists o buff' w', win_chunk_round pid bit c buff w = Ret (o, buff') w' /\
    (o = None -> length buff' = 4096%nat) /\ win_last pid w' = win_last pid w /\ round_end bit c w o w'.
Proof.
  intros Hr Hf Hbuf. pose proof Hf as [Hlo Hhi]. unfold chunk_addr in Hlo, Hhi.
  rewrite win_round_asked by (done || lia). cbv zeta. pose proof (win_asked_linked bit c w Hr) as Hr1.
  assert (Hreq : is_request pid bit c (aget (replic_hdr_client_obj (win_asked bit c w)) pid)) by (unfold win_asked; by wsimpl).
  assert (Hl1 : win_last pid (win_asked bit c w) = win_last pid w) by done.
  assert (Ht1 : win_tgt P (win_asked bit c w) = win_tgt P w) by done.
  set (w1 := win_asked bit c w) in *. set (h := aget (replic_hdr_client_obj w1) pid) in *. clearbody w1.
  pose proof Hr1 as [[] Hdisk]. destruct (win_send_ok h w1) as (r & Es & Ersign); [done..|].
  rewrite (bind_Ret _ _ _ _ _ Es), Ersign. destruct (wos_send_hdr fd h (ext w1)) as [r0 e1] eqn:Esend. cbn [fst snd] in *.
  destruct (wos_recv fd BUF_SIZE_IN_BYTES e1) as [[n bytes] e2] eqn:Erecv.
  destruct (wrl_request (ext w1) h bit c r0 e1 n bytes e2) as (Hs1 & Hs2 & Hans); [done..|].
  pose proof (fun Hup : win_peer_up P pid fd G C => Hup (ext w1) h bit c r0 e1 n bytes e2 wp_good0 Hreq Hf Esend Erecv) as Hup.
  assert (Hgone : forall e b, same_image (win_tgt P w1) (pr_tgt P e) -> ~ win_peer_up P pid fd G C ->
    exists o buff' w', bind (win_abandon_conn pid) (fun _ => ret (Some resync_returned, b) : MW E (option chunk_result * mem)) (w1 <| ext := e |>) = Ret (o, buff') w' /\
      (o = None -> length buff' = 4096%nat) /\ win_last pid w' = win_last pid w /\ round_end bit c w o w').
  { intros e b Hse Hnu. destruct (win_abandoned w1 e b) as (w' & Ew & Ht & Hl); [done|].
    exists (Some resync_returned), b, w'. split; [exact Ew|]. split; [done|]. split; [congruence|]. split; [done|].
    split; [|done]. rewrite <- Ht1. exact (same_image_trans _ _ _ Hse Ht). }
  destruct (r0 <=? 0) eqn:Er.
  { apply Hgone; [done|]. intros HU. apply Hup in HU. bool_to_prop. lia. }
  erewrite bind_read_client by (wsimpl; exact Erecv). cbv beta iota.
  destruct ((n <? 0) || (wos_errno e2 =? MSVC_ETIMEDOUT)) eqn:En.
  { apply Hgone; [done|]. intros HU. apply Hup in HU. apply orb_true_iff in En as [En|En]; bool_to_prop; lia. }
  bool_to_prop. destruct Hans as (Hg2 & Hlb & Hbytes); [lia|lia|done|].
  change (0 <? 0) with false. cbv iota. replace (n <? 0) with false by bool_solve.
  rewrite bind_rd by (unfold MAX_DISKS; lia). wsimpl. rewrite Hdisk.
  pose proof (length_fill _ _ Hlb Hbuf) as Hlf.
  destruct (win_write_ok (bit * G + c * C) (fill bytes buff) (w1 <| ext := e2 |>)) as (e3 & Ew & Hg3 & Ht3);
    [by apply linked_ext|lia|lia|done|].
  rewrite (bind_Ret _ _ _ _ _ Ew). cbn [when]. change (0 <? 0) with false.
  eexists None, (fill bytes buff), _. split; [reflexivity|]. split; [done|]. split; [rewrite <- Hl1; done|].
  split; [by apply (linked_ext (w1 <| ext := e2 |>)), Hg3; apply linked_ext|].
  intros a. unfold win_tgt at 1 2. wsimpl. rewrite Ht3. unfold chunk_region. change (512 * (bit * G + c * C)) with (chunk_addr G C bit c).
  destruct (in_range _ _ a) eqn:Ea.
  - unfold in_range in Ea. bool_to_prop. replace a with (chunk_addr G C bit c + (a - chunk_addr G C bit c)) at 1 by lia.
    apply Hbytes; [done|lia].
  - unfold win_tgt at 1. wsimpl. by rewrite Hs2, <- Ht1.
Qed.

(** ** The loops *)
Context (Hwf : wf_mem m) (Hlen : Z.of_nat (length m) = BITMAP_SIZE) (mode : rep_mode_t).

(** The grains the loop transfers. *)
Definition win_selected (b : Z) : bool :=
  mem_bit m b || match mode with FULL_RESYNC => true | NO_RESYNC => false end.

Context (HGC : 0 <= G / C < 2 ^ 32).
Context (Hfit : forall b c, 0 <= b < MAX_BITS_LEN -> win_selected b = true -> 0 <= c < G / C -> chunk_fits (pr_size P) G C b c).

Lemma win_target_bits_ok w : linked w -> win_target_bits pid w = Ret MAX_BITS_LEN w.
Proof using Hpid.
  clear - Hpid. intros [[] _]. unfold win_target_bits. rewrite bind_rd by (unfold MAX_DISKS; lia). rewrite wp_bitmap0.
  rewrite bind_rd by (unfold MAX_BITMAP; lia). by rewrite wp_size0.
Qed.

Lemma win_target_bit_ok w b : linked w -> 0 <= b < MAX_BITS_LEN -> win_target_bit pid b w = Ret (mem_bit m b) w.
Proof using Hpid Hwf Hlen.
  clear - Hpid Hwf Hlen. intros [[] _] Hb. unfold win_target_bit. rewrite bind_rd by (unfold MAX_DISKS; lia). rewrite wp_bitmap0.
  rewrite bind_rd by (unfold MAX_BITMAP; lia). rewrite (bind_block _ blk m) by done.
  rewrite (proj2 (Z.ltb_lt _ _)) by lia. rewrite is_bit_set_ok by done. rewrite bind_of_option.
  by destruct (mem_bit m b).
Qed.

Lemma win_resync_statement_fits last state :
  0 <= last < 10 ^ 6 -> 0 <= state < 10 -> slen (sql_update_resync pid last state) < 100.
Proof using Hpid.
  clear - Hpid. intros Hl Hs. unfold sql_update_resync. slen_literals.
  pose proof (slen_dec last 6). pose proof (slen_dec pid 4). pose proof (slen_dec state 1). lia.
Qed.

(** The transfer of one grain, record included. *)
Definition win_grain_step (bit : Z) (buff : mem) : MW E (chunk_result * mem) :=
  '(c, buff) <- win_chunk_loop (Z.to_nat (G / C)) pid bit 0 buff;;
  match c with
  | resync_returned => ret (c, buff)
  | _ =>
      r <- rd MAX_REPLICATIONS replic_client_obj pid;;
      d <- rd MAX_DISKS ebdr_disk_target_obj pid;;
      ignore (win_update_into_resync pid (dsk_name d) bit (rp_state r) "atdrdbc");;;
      ret (c, buff)
  end.

#[local] Abbreviation chunks_end := (chunks_outcome linked (win_tgt P) (win_peer_up P pid fd G C) ok G C).

Lemma win_chunk_loop_ok n w bit c buff :
  linked w -> length buff = 4096%nat -> (forall c', c <= c' < c + Z.of_nat n -> chunk_fits (pr_size P) G C bit c') ->
  exists o buff' w', win_chunk_loop n pid bit c buff w = Ret (o, buff') w' /\ win_last pid w' = win_last pid w /\
    chunks_end bit c (Z.of_nat n) w o buff' w'.
Proof.
  apply (chunks_ok _ (win_tgt P) (win_last pid) (win_peer_up P pid fd G C) ok (pr_size P) G C (win_chunk_round pid)
    (fun n => win_chunk_loop n pid)); [done|done|exact win_round_ok].
Qed.

Lemma win_grain_step_ok w bit buff :
  linked w -> length buff = 4096%nat -> 0 <= bit < MAX_BITS_LEN -> win_selected bit = true ->
  exists o buff' w', win_grain_step bit buff w = Ret (o, buff') w' /\ win_last pid w' = win_last pid w /\
    chunks_end bit 0 (G / C) w o buff' w'.
Proof.
  intros Hr Hb Hbit Hsel. unfold win_grain_step.
  destruct (win_chunk_loop_ok (Z.to_nat (G / C)) w bit 0 buff Hr Hb) as (o & buff1 & w1 & E1 & Hl1 & Ho).
  { intros c' Hc'. apply Hfit; [done|done|lia]. }
  rewrite Z2Nat.id in Ho by lia. rewrite (bind_Ret _ _ _ _ _ E1). cbv beta iota.
  destruct Ho as [(-> & Hb1 & Hr1 & Hc1)|(-> & Hup & Hp)]; [|exists resync_returned, buff1, w1; split; [done|split; [done|by right]]].
  pose proof Hr1 as [[] _]. rewrite bind_rd by (unfold MAX_REPLICATIONS; lia). rewrite bind_rd by (unfold MAX_DISKS; lia).
  unfold win_update_into_resync. 
  destruct (ignore_statement 100 "atdrdbc" (sql_update_resync pid bit (rp_state (aget (replic_client_obj w1) pid))) w1)
    as (e & Ee & _ & Hg & Ht);
    [exact (wrl_works _ wp_good0)|done|apply win_resync_statement_fits; unfold MAX_BITS_LEN, RESYNC_COMPLETED in *; lia|].
  rewrite (bind_Ret _ _ _ _ _ Ee).
  eexists chunks_done, buff1, _. split; [reflexivity|]. split; [rewrite <- Hl1; done|].
  left. split; [done|]. split; [done|]. split; [apply linked_ext; auto|].
  by eapply filled_between; [| |exact Hc1].
Qed.

Definition win_passed (bit : Z) (w : world E) : world E :=
  w <| replic_client_obj ::= aset pid (fun r => r <| rp_last_bit := bit |>) |>.

Lemma win_passed_linked bit w : linked w -> linked (win_passed bit w).
Proof. intros [[] Hd]. unfold win_passed. split; [solve_prepared|by wsimpl]. Qed.

Lemma win_last_passed bit w : win_last pid (win_passed bit w) = bit.
Proof. unfold win_last, win_passed. by wsimpl. Qed.

Lemma win_grain_loop_step fuel bit buff w :
  linked w -> 0 <= bit <= MAX_BITS_LEN -> win_grain_loop (S fuel) pid bit (G / C) mode buff w =
  if bit <? MAX_BITS_LEN then
    bind (if win_selected bit then win_grain_step bit buff else ret (chunks_done, buff)) (fun '(c, buff) =>
      match c with resync_returned => ret false | _ => fun w => win_grain_loop fuel pid (bit + 1) (G / C) mode buff (win_passed bit w) end) w
  else Ret true w.
Proof using Hpid Hwf Hlen.
  clear -Hpid Hwf Hlen. intros Hr Hbit. cbn [win_grain_loop].
  rewrite (bind_Ret _ _ _ _ _ (win_target_bits_ok w Hr)). rewrite bind_rd by (unfold MAX_PARTNERS; lia).
  pose proof Hr as [[] _]. rewrite (proj2 (Z.eqb_neq _ _) wp_state0).
  destruct (Z.ltb_spec bit MAX_BITS_LEN); cbn [andb negb]; [|done].
  rewrite (bind_Ret _ _ _ _ _ (win_target_bit_ok w bit Hr ltac:(lia))). fold (win_selected bit).
  apply bind_ext. intros [[] buff1] w1; [| |done]; by rewrite bind_wr by (unfold MAX_REPLICATIONS; lia).
Qed.

#[local] Abbreviation loop_end :=
  (loop_outcome linked (win_tgt P) (win_last pid) (win_peer_up P pid fd G C) ok G C win_selected).

Lemma win_grain_loop_ok fuel w bit buff :
  linked w -> length buff = 4096%nat -> 0 <= bit <= MAX_BITS_LEN -> MAX_BITS_LEN - bit < Z.of_nat fuel ->
  exists finished w', win_grain_loop fuel pid bit (G / C) mode buff w = Ret finished w' /\ loop_end bit w w' finished.
Proof.
  apply (grains_ok _ (win_tgt P) (win_last pid) (win_peer_up P pid fd G C) ok G C win_selected win_grain_step win_passed
    (fun fuel bit buff => win_grain_loop fuel pid bit (G / C) mode buff));
    [exact win_grain_loop_step|exact win_passed_linked|done|exact win_last_passed|exact win_grain_step_ok].
Qed.

(** ** Before the loop *)
Context (Hname : slen name <= 38) (Hwide : 0 < wos_MultiByteToWideChar 14 name).

Lemma win_insert_resync_fits :
  slen (sql_insert_resync pid name 0 RESYNC_IN_PROGRESS "RESYNC_IN_PROGRESS") < 100.
Proof using Hpid Hname.
  clear - Hpid Hname. unfold sql_insert_resync. slen_literals. change (slen (dec 0)) with 1.
  change (slen (dec RESYNC_IN_PROGRESS)) with 1. pose proof (slen_dec pid 4). lia.
Qed.

(** Opening the target volume. *)
Lemma win_target_setup_ok w :
  prepared w -> exists w', win_disk_target_setup pid w = Ret 0 w' /\ linked w' /\
    same_image (win_tgt P w) (win_tgt P w') /\ win_last pid w' = win_last pid w.
Proof using Hpid Hwide WinRoundLaws0.
  clear - Hpid Hwide WinRoundLaws0. intros Hr. pose proof Hr as []. unfold win_disk_target_setup.
  rewrite bind_rd by (unfold MAX_DISKS; lia). rewrite wp_name0.   replace (_ <=? 0) with false by bool_solve.
  edestruct (wrl_open (ext w)) as (e1 & E1 & Hg1 & Ht1); [done|]. rewrite (bind_sys _ _ _ _ _ E1).
  rewrite bind_wr by (unfold MAX_DISKS; lia). unfold prepare_to_write, ignore, sys_, atdr_log.
  repeat first [rewrite bind_assoc | rewrite bind_modify | rewrite bind_ret]; cbv beta.
  pose proof (wrl_control (pid := pid) (fd := fd) (fdt := fdt) (G := G) (C := C) (name := name) e1 FSCTL_DISMOUNT_VOLUME Hg1) as [Hg2 Ht2].
  pose proof (wrl_control (pid := pid) (fd := fd) (fdt := fdt) (G := G) (C := C) (name := name) _ FSCTL_LOCK_VOLUME Hg2) as [Hg3 Ht3].
  eexists. split; [reflexivity|]. split; [split|].
  - solve_prepared.
  - by wsimpl.
  - unfold win_tgt, win_last. wsimpl. split; [|done]. intros a. by rewrite Ht3, Ht2, Ht1.
Qed.

Lemma win_prologue_ok w bit :
  prepared w -> C <> 0 ->
  exists w', win_resync_prologue pid bit w = Ret (G / C) w' /\ linked w' /\
    same_image (win_tgt P w) (win_tgt P w') /\ win_last pid w' = win_last pid w.
Proof.
  intros Hr HC. pose proof Hr as []. unfold win_resync_prologue. rewrite bind_rd by (unfold MAX_HDR; lia).
  rewrite wp_grain0, wp_chunk0. rewrite bind_assert by bool_solve. rewrite bind_wr by (unfold MAX_HDR; lia).
  set (w1 := w <| replic_hdr_client_obj ::= _ |>).
  assert (Hr1 : prepared w1) by (unfold w1; solve_prepared).
  assert (Hopen : forall w2, prepared w2 -> same_image (win_tgt P w1) (win_tgt P w2) -> win_last pid w2 = win_last pid w1 ->
    exists w', bind (rd MAX_DISKS ebdr_disk_target_obj pid) (fun d => ignore (win_op_target_setup (dsk_ops d) pid);;; ret (G / C)) w2 =
      Ret (G / C) w' /\ linked w' /\ same_image (win_tgt P w) (win_tgt P w') /\ win_last pid w' = win_last pid w).
  { intros w2 Hr2 Ht2 Hl2. rewrite bind_rd by (unfold MAX_DISKS; lia). rewrite (wp_dops _ _ _ _ _ _ _ _ _ Hr2).
    unfold ignore, win_op_target_setup. rewrite bind_assoc.
    destruct (win_target_setup_ok w2 Hr2) as (w3 & E3 & Hr3 & Ht3 & Hl3). rewrite (bind_Ret _ _ _ _ _ E3).
    exists w3. split; [done|]. split; [done|]. split; [exact (same_image_trans _ _ _ Ht2 Ht3)|]. by rewrite Hl3, Hl2. }
  rewrite bind_rd by (unfold MAX_PID; lia). destruct (_ =? 1); [|destruct (bit =? 0) eqn:Eb; cbn [when]].
  - rewrite bind_wr by (unfold MAX_PID; lia). apply Hopen; [destruct Hr1; solve_prepared|done|done].
  - bool_to_prop. subst bit. rewrite bind_assoc, bind_rd by (unfold MAX_DISKS; lia). rewrite bind_assoc.
    rewrite (wp_name _ _ _ _ _ _ _ _ _ Hr1). unfold win_insert_into_resync.
    destruct (ignore_statement 100 "atdrdbc" (sql_insert_resync pid name 0 RESYNC_IN_PROGRESS "RESYNC_IN_PROGRESS") w1)
      as (e & Ee & _ & Hg & Ht); [exact (wrl_works _ (wp_good _ _ _ _ _ _ _ _ _ Hr1))|done|exact win_insert_resync_fits|].
    rewrite (bind_Ret _ _ _ _ _ Ee).
    rewrite bind_wr by (unfold MAX_REPLICATIONS; lia). pose proof (Hg (wp_good _ _ _ _ _ _ _ _ _ Hr1)) as Hge.
    apply Hopen; [destruct Hr1; solve_prepared; unfold RESYNC_COMPLETED, RESYNC_IN_PROGRESS; lia|exact Ht|].
    unfold win_last. by wsimpl.
  - by apply Hopen.
Qed.

(** ** After the loop: everything of the partner released, the bitmap freed. *)
Record win_terminated (w : world E) : Prop := {
  wtm_partner : ptn_state (aget (all_partner_clients w) pid) = PARTNER_OBJ_RELEASED;
  wtm_relation : rel_state (aget (all_relation_clients w) pid) = RELATION_OBJ_RELEASED;
  wtm_disk : dsk_state (aget (ebdr_disk_target_obj w) pid) = DISK_OBJ_RELEASED;
  wtm_io : io_state (aget (io_client_obj w) pid) = IO_OBJ_RELEASED;
  wtm_rep : rp_state (aget (replic_client_obj w) pid) = RESYNC_COMPLETED;
  wtm_last : win_last pid w = 0;
  wtm_heap : heap w !! blk = None;
}.

Lemma win_final_statements_fit :
  slen (sql_update_partner pid PARTNER_OBJ_RELEASED) < 100 /\
  slen (sql_update_resync_state pid RESYNC_COMPLETED "RESYNC_COMPLETED") < 100.
Proof using Hpid.
  clear - Hpid. pose proof (slen_dec pid 4).
  unfold sql_update_partner, sql_update_resync_state. split; slen_literals;
    [change (slen (dec PARTNER_OBJ_RELEASED)) with 1|change (slen (dec RESYNC_COMPLETED)) with 1]; lia.
Qed.

(** The part of [win_replication_terminate] after the last message. *)
Definition win_release_tail : MW E unit :=
  wr MAX_PARTNERS all_partner_clients pid (fun p => p <| ptn_state := PARTNER_OBJ_RELEASED |>);;;
  wr MAX_RELATIONS all_relation_clients pid (fun r => r <| rel_state := RELATION_OBJ_RELEASED |>);;;
  wr MAX_DISKS ebdr_disk_target_obj pid (fun d => d <| dsk_state := DISK_OBJ_RELEASED |>);;;
  wr MAX_IO io_client_obj pid (fun o => o <| io_state := IO_OBJ_RELEASED |>);;;
  wr MAX_REPLICATIONS replic_client_obj pid (fun r => r <| rp_state := RESYNC_COMPLETED |>);;;
  b <- rd MAX_BITMAP bitmap_client_obj pid;;
  (match ub_ops b with Some client_ops => win_bitmap_client_destroy pid | _ => undefined end);;;
  ignore (win_update_into_partner pid PARTNER_OBJ_RELEASED "atdrdbc");;;
  ignore (win_update_resync_state pid RESYNC_COMPLETED "RESYNC_COMPLETED" "atdrdbc").

Lemma win_release_ok w e :
  prepared w -> win_last pid w = 0 -> pr_works P e ->
  exists w', win_release_tail (w <| ext := e |>) = Ret tt w' /\ win_terminated w' /\ same_image (pr_tgt P e) (win_tgt P w').
Proof using Hpid WinRoundLaws0.
  clear - Hpid WinRoundLaws0. intros [] Hl Hd. unfold win_release_tail. unfold win_last in Hl.
  do 5 rewrite bind_wr by (unfold MAX_PARTNERS, MAX_RELATIONS, MAX_DISKS, MAX_IO, MAX_REPLICATIONS; lia).
  rewrite bind_rd by (unfold MAX_BITMAP; lia). wsimpl. rewrite wp_bmops0.
  unfold win_bitmap_client_destroy, atdr_log. rewrite bind_assoc, bind_ret, bind_assoc, bind_rd by (unfold MAX_BITMAP; lia).
  wsimpl. rewrite wp_area0. unfold free, bind at 1. wsimpl. rewrite wp_heap0.
  lazymatch goal with |- exists w', bind _ _ ?s = _ /\ _ => set (w2 := s) end.
  destruct win_final_statements_fit as [Hf1 Hf2].
  destruct (ignore_statement 100 "atdrdbc" (sql_update_partner pid PARTNER_OBJ_RELEASED) w2) as (e1 & E1 & Hd1 & _ & Ht1); [done..|].
  unfold win_update_into_partner. rewrite (bind_Ret _ _ _ _ _ E1).
  destruct (ignore_statement 100 "atdrdbc" (sql_update_resync_state pid RESYNC_COMPLETED "RESYNC_COMPLETED") (w2 <| ext := e1 |>))
    as (e2 & E2 & _ & _ & Ht2); [done..|].
  unfold win_update_resync_state. rewrite E2. eexists. split; [reflexivity|]. split.
  - unfold w2. constructor; unfold win_last; wsimpl; [done|done|done|done|done|exact Hl|apply lookup_delete_eq].
  - exact (same_image_trans _ _ _ Ht1 Ht2).
Qed.

Lemma win_epilogue_ok w :
  linked w -> exists w', win_resync_epilogue pid w = Ret tt w' /\ win_terminated w' /\ same_image (win_tgt P w) (win_tgt P w').
Proof using Hpid WinRoundLaws0.
  clear - Hpid WinRoundLaws0. intros [Hr Hfd]. pose proof Hr as [].
  unfold win_resync_epilogue. rewrite bind_rd by (unfold MAX_PARTNERS; lia).
  rewrite (proj2 (Z.eqb_neq _ _) wp_state0). cbn [when]. rewrite bind_ret. unfold win_replication_terminate.
  rewrite bind_rd by (unfold MAX_DISKS; lia). rewrite wp_dops0. unfold win_op_target_unsetup, win_disk_target_unsetup, atdr_log.
  rewrite bind_assoc, bind_ret, bind_assoc, bind_rd by (unfold MAX_DISKS; lia). rewrite Hfd. unfold sys_. rewrite bind_modify.
  rewrite bind_rd by (unfold MAX_REPLICATIONS; lia). wsimpl.
  replace (_ =? RESYNC_COMPLETED) with false by bool_solve. cbn [negb when].
  rewrite bind_wr by (unfold MAX_HDR; lia). rewrite bind_rd by (unfold MAX_PARTNERS; lia). wsimpl.
  rewrite (proj2 (Z.eqb_neq _ _) wp_state0). cbn [negb when]. rewrite bind_wr by (unfold MAX_REPLICATIONS; lia).
  rewrite bind_rd by (unfold MAX_HDR; lia). wsimpl. rewrite wp_sock0.
  set (h := (aget (replic_hdr_client_obj w) pid) <| hd_opcode := RPLC_TERMINATION |>).
  match goal with |- context [bind (ignore (win_client_rep_send _ _ _ _)) _ ?s] => set (w1 := s) end.
  destruct (win_send_ok h w1) as (r & Es & _); [unfold w1; by wsimpl..|].
  unfold ignore at 1. rewrite bind_assoc, (bind_Ret _ _ _ _ _ Es), bind_ret.
  destruct (wos_send_hdr fd h (ext w1)) as [r0 e1] eqn:Esend. cbn [snd].
  destruct (wrl_end (ext w) h r0 e1) as [Hd1 Ht1]; [done|done|exact Esend|].
  set (w0 := w <| replic_hdr_client_obj ::= aset pid (fun h => h <| hd_opcode := RPLC_TERMINATION |>) |>
               <| replic_client_obj ::= aset pid (fun r => r <| rp_last_bit := 0 |>) |>).
  assert (Hr0 : prepared w0) by (unfold w0; solve_prepared).
  destruct (win_release_ok w0 e1 Hr0) as (w' & E' & Htm & Ht'); [unfold win_last, w0; by wsimpl|done|].
  exists w'. split; [exact E'|]. split; [done|]. exact (same_image_trans _ _ _ Ht1 Ht').
Qed.

(** ** A run of the resync *)
Definition win_run_outcome (bit : Z) (w w' : world E) : Prop :=
  (win_terminated w' /\
   filled ok (grains_region G C win_selected bit (MAX_BITS_LEN - bit)) (win_tgt P w) (win_tgt P w')) \/
  (~ win_peer_up P pid fd G C /\
   exists b, interrupted (win_tgt P) (win_last pid) ok G C win_selected bit w w' b).

Lemma win_restart_ok w bit :
  prepared w -> C <> 0 -> 0 <= bit <= MAX_BITS_LEN ->
  exists w', win_restart_resync pid bit mode w = Ret tt w' /\ win_run_outcome bit w w'.
Proof.
  intros Hr HC Hbit. destruct (win_prologue_ok w bit Hr HC) as (w1 & E1 & Hr1 & Ht1 & Hl1).
  unfold win_restart_resync. rewrite (bind_Ret _ _ _ _ _ E1).
  destruct (win_grain_loop_ok (Z.to_nat (MAX_BITS_LEN + 1)) w1 bit (replicate (Z.to_nat BUF_SIZE_IN_BYTES) 0))
    as (fin & w2 & E2 & Ho); [done|by rewrite length_replicate|done|rewrite Z2Nat.id; unfold MAX_BITS_LEN in *; lia|].
  rewrite (bind_Ret _ _ _ _ _ E2). destruct fin; cbn [when].
  - destruct Ho as [Hr2 Hc]. destruct (win_epilogue_ok w2 Hr2) as (w3 & E3 & Htm & Ht3).
    exists w3. split; [exact E3|]. left. split; [done|]. by eapply filled_between; [| |exact Hc].
  - destruct Ho as (Hup & b & Hb & Hsel & Hl & t1 & Hc1 & Hp). exists w2. split; [done|]. right.
    split; [done|]. exists b. split; [done|]. split; [done|]. split; [by rewrite Hl, Hl1|].
    exists t1. split; [|done]. by eapply filled_between; [| |exact Hc1].
Qed.
End winrounds.
