(* ===== verification/WinServerSpec.v ===== *)
(** * The Windows server's request handling

    Each request is handled by exactly one handler of [win_cmdMap]; a DATA
    request is answered with the bytes of the source disk at the position it
    names, computed in 32 bits. *)
From S2P Require Import Prelude Memory KernelState CMonad CString World UBitmap Db Partner Relation Disk Header.
From S2P Require Import ReplicServer ConnServer WinDb WinClient WinObjects WinServer WorldTac ServerSpec.

Section handlers.
Context {E : Type} `{WinOS E} `{WinSock E} (garbage : mem).

Ltac keeps_header := intros h; returns_end; by apply returns_ret.

Lemma win_get_bitmap_keeps : keeps (win_get_bitmap (E:=E) garbage).
Proof. unfold win_get_bitmap. keeps_header. Qed.

Lemma win_get_data_keeps : keeps (win_get_data (E:=E)).
Proof. unfold win_get_data. keeps_header. Qed.

Lemma win_make_partner_keeps : keeps (win_make_partner (E:=E)).
Proof. unfold win_make_partner. keeps_header. Qed.

Lemma win_remove_partner_keeps : keeps (win_remove_partner (E:=E)).
Proof. unfold win_remove_partner. keeps_header. Qed.

Lemma win_remove_relation_keeps : keeps (win_remove_relation (E:=E)).
Proof. unfold win_remove_relation. keeps_header. Qed.

Lemma win_ack_keeps : keeps (win_ack (E:=E)).
Proof. unfold win_ack. keeps_header. Qed.

Lemma win_terminate_keeps : keeps (win_terminate (E:=E)).
Proof. unfold win_terminate. keeps_header. Qed.

Ltac answers_header := intros h; returns_end; apply returns_ret; repeat case_match; cbn; set_solver.

Lemma win_syn_received_answers : answers (win_syn_received (E:=E)) [SYN_ACK].
Proof. unfold win_syn_received. answers_header. Qed.

Lemma win_data_req_answers : answers (win_data_req (E:=E)) [DATA_PREP].
Proof. unfold win_data_req. answers_header. Qed.

Lemma win_verify_data_answers : answers (win_verify_data (E:=E)) [VERIFY_DATA_IGN; VERIFY_DATA_RSP].
Proof. unfold win_verify_data. answers_header. Qed.
End handlers.

#[export] Hint Resolve win_get_bitmap_keeps win_get_data_keeps win_make_partner_keeps win_remove_partner_keeps
  win_remove_relation_keeps win_ack_keeps win_terminate_keeps win_syn_received_answers win_data_req_answers
  win_verify_data_answers : handlers.

Section dispatching.
Context {E : Type} `{WinOS E} `{WinSock E} (garbage : mem).

Lemma win_cmdMap_once : handled_once (win_cmdMap (E:=E) garbage).
Proof. unfold win_cmdMap. table_once. Qed.

Lemma win_dispatch_handled h (w : world E) :
  dispatch (win_cmdMap garbage) h w =
  match table_find (opcode_code (hd_opcode h)) (win_cmdMap garbage) with Some f => f h w | None => Ret h w end.
Proof. apply dispatch_table, win_cmdMap_once. Qed.

(** ** The answer to a DATA request *)
Lemma win_get_data_ok pid dfd pfd g c w h e1 bytes e2 r e3 :
  serving pid dfd pfd g c w -> hd_partner h = pid -> 0 <= request_offset g c h < 2 ^ 32 ->
  wos_SetFilePointer dfd (request_offset g c h) (ext w) = (true, e1) ->
  wos_ReadFile dfd BUF_SIZE_IN_BYTES e1 = (true, bytes, e2) -> length bytes = 4096%nat ->
  wos_send pfd bytes e2 = (r, e3) -> 0 < r ->
  win_get_data h w = Ret h (served w pid e3).
Proof.
  intros [Hpid _ Hio Hdisk Hfd Hgrain Hchunk] <- Hoff Ex En Hl Er Hr. unfold request_offset in *. unfold win_get_data.
  rewrite bind_wr by (unfold MAX_IO; lia). rewrite bind_rd by (unfold MAX_HDR; lia). wsimpl.
  rewrite Hgrain, Hchunk. rewrite bind_rd by (unfold MAX_IO; lia). wsimpl.
  rewrite (proj2 (Z.eqb_neq _ _) Hio). rewrite bind_rd by (unfold MAX_DISKS; lia). wsimpl. rewrite Hdisk.
  unfold win_chunk_read_server. rewrite bind_assoc. rewrite (u32_id (hd_curr h * g + hd_chunk_pos h * c)) by lia.
  replace (win_offset _) with (512 * (hd_curr h * g + hd_chunk_pos h * c))
    by (unfold win_offset, CHUNK_SIZE, u32; rewrite Z.mod_small; lia).
  erewrite bind_sys by (wsimpl; exact Ex). cbn [negb]. rewrite bind_assoc.
  erewrite bind_sys by (wsimpl; rewrite En; reflexivity). cbv beta iota.
  replace (_ || _) with false by (rewrite Hl; reflexivity).
  unfold atdr_log at 1. rewrite bind_assoc, !bind_ret. cbv beta iota. change (0 <? 0) with false. cbn [when].
  rewrite bind_ret, bind_rd by (unfold MAX_PARTNERS; lia). wsimpl. rewrite Hfd.
  fold (fill bytes (replicate (Z.to_nat BUF_SIZE_IN_BYTES) 0)).
  rewrite fill_full by (done || by rewrite length_replicate).
  unfold win_chunk_write_server, atdr_log. rewrite bind_assoc, bind_ret, bind_assoc.
  rewrite take_ge by (rewrite Hl; unfold BUF_SIZE_IN_BYTES; lia).
  erewrite bind_sys by (wsimpl; exact Er). replace (r <=? 0) with false by bool_solve. done.
Qed.
End dispatching.
