(* ===== verification/WinPair.v ===== *)
(** * Two Windows machines

    The server's machine is that of [WinHost] (a volume with the filter driver
    above it, a database) with a disk to read the snapshot from and a socket.
    The client's machine has a target disk and is connected to a server
    process: sending a header runs one round of the server's receive loop
    ([win_server_recv_step]), whose bytes go to the end of the stream the client
    receives from.  How much of the stream one [recv] delivers is the network's
    choice ([net]); what it leaves is delivered by the next ones.  Such a link
    satisfies the laws of [WinPeerLaws], whatever the network does. *)
From S2P Require Import Prelude Memory KernelState KBitmap KBitmapSpec KernelMain CMonad CString World UBitmap Db Header.
From S2P Require Import WinState ReplicServer ConnServer Resync WinDb WinClient WinObjects WinServer WinResync WorldTac.
From S2P Require Import UBitmapSpec TransferLoop ServerSpec Sim LinkSpec WinHost WinResyncSpec WinServerSpec.

(** ** The server's machine *)
Record shost := mk_shost {
  sh_host : whost;               (** driver, database *)
  sh_disk : mem;                 (** the disk the snapshot is read from *)
  sh_pos : Z;
  sh_in : list replic_header;    (** what waits on the socket *)
  sh_out : list replic_header;   (** what has been sent *)
  sh_data : list mem;
}.
#[export] Instance eta_shost : Settable shost := fun r =>
  mk_shost (sh_host r) (sh_disk r) (sh_pos r) (sh_in r) (sh_out r) (sh_data r).

Section server_machine.
Context (env : wenv).

Definition on_host {A} (call : whost -> A * whost) (e : shost) : A * shost :=
  let '(a, h) := call (sh_host e) in (a, e <| sh_host := h |>).

Definition shost_os : WinOS shost := let W := whost_os env in {|
  wos_malloc n e := true;
  wos_MultiByteToWideChar := @wos_MultiByteToWideChar whost W;
  wos_CreateFile name share flags e :=
    if decide (name = "\\.\E:"%string) then on_host (@wos_CreateFile whost W name share flags) e else (Some 5, e);
  wos_CloseHandle h e := if h =? 5 then e else e <| sh_host ::= @wos_CloseHandle whost W h |>;
  wos_DeviceIoControl h cmd input outlen e :=
    let '(ok, out, h') := @wos_DeviceIoControl whost W h cmd input outlen (sh_host e) in (ok, out, e <| sh_host := h' |>);
  wos_SetFilePointer _ off e := (true, e <| sh_pos := off |>);
  wos_ReadFile _ n e := (true, take (Z.to_nat n) (drop (Z.to_nat (sh_pos e)) (sh_disk e)), e);
  wos_WriteFile _ _ e := (true, e);
  wos_send _ m e := (Z.of_nat (length m), e <| sh_data ::= fun l => l ++ [m] |>);
  wos_recv _ _ e := (0, [], e);
  wos_errno _ := 0;
  wos_user_read a e := @wos_user_read whost W a (sh_host e);
  wos_user_write a m e := e <| sh_host ::= @wos_user_write whost W a m |>;
  wos_WaitForSingleObject := on_host (@wos_WaitForSingleObject whost W);
  wos_ReleaseMutex := on_host (@wos_ReleaseMutex whost W);
  wos_mysql_query sql e := '(r, h) ← @wos_mysql_query whost W sql (sh_host e); Some (r, e <| sh_host := h |>);
  wos_mysql_close e := h ← @wos_mysql_close whost W (sh_host e); Some (e <| sh_host := h |>);
|}.

Definition shost_sock : WinSock shost := {|
  wos_WSAStartup e := (0, e);
  wos_socket e := (3, e);
  wos_connect _ _ _ e := (0, e);
  wos_bind _ _ e := (0, e);
  wos_listen _ _ e := (0, e);
  wos_accept _ e := (4, e);
  wos_shutdown _ e := e;
  wos_closesocket _ e := e;
  wos_send_hdr _ h e := (1, e <| sh_out ::= fun l => l ++ [h] |>);
  wos_recv_hdr _ e := match sh_in e with
                      | h :: l => (1, Some h, e <| sh_in := l |>)
                      | [] => (0, None, e)
                      end;
  wos_CreateThread e := (true, e);
  wos_fread _ _ := None;
  wos_fwrite _ _ _ := None;
  wos_rows _ := None;
  wos_CreateMutex e := (true, e);
  wos_mysql_init e := (true, e);
  wos_mysql_real_connect _ _ _ e := (true, e);
|}.
End server_machine.

(** ** The client's machine, connected to a server *)
Record wlink := mk_wlink {
  wk_server : world shost;        (** the server process *)
  wk_fd : Z;                      (** its socket *)
  wk_target : mem;                (** the target disk *)
  wk_pos : Z;
  wk_up : bool;                   (** the connection *)
  wk_files : gmap string mem;
  wk_stream : mem;                (** sent by the server and not yet received *)
  wk_recvs : nat;                 (** receives so far *)
}.
#[export] Instance eta_wlink : Settable wlink := fun r =>
  mk_wlink (wk_server r) (wk_fd r) (wk_target r) (wk_pos r) (wk_up r) (wk_files r)
    (wk_stream r) (wk_recvs r).

(** [net f k]: how many bytes the [k]-th receive delivers at most, on socket
    [f] (one byte at least, if there is one); [None]: the connection is reset,
    and with it what was on its way is lost. *)
Definition network : Type := Z -> nat -> option Z.

(** The network never cuts what one call of the server sent; it never breaks
    the connection. *)
Definition unsegmented (net : network) (f : Z) : Prop := forall k n, net f k = Some n -> BITMAP_SIZE <= n.
Definition keeps (net : network) (f : Z) : Prop := forall k, net f k <> None.

Section client_machine.
Context (env : wenv) (garbage : mem) (net : network).

Definition stream_recv (f n : Z) (e : wlink) : Z * mem * wlink :=
  match net f (wk_recvs e) with
  | Some k =>
      let got := take (Z.to_nat (Z.min n (Z.max 1 k))) (wk_stream e) in
      (Z.of_nat (length got), got, e <| wk_stream := drop (length got) (wk_stream e) |> <| wk_recvs ::= S |>)
  | None => (-1, [], e <| wk_stream := [] |> <| wk_recvs ::= S |>)
  end.

(** The server receives [h] and handles it; what it sends joins the stream. *)
Definition win_deliver (h : replic_header) (e : wlink) : Z * wlink :=
  let s := (wk_server e) <| ext ::= fun x => x <| sh_in := [h] |> <| sh_data := [] |> |> in
  match @win_server_recv_step shost (shost_os env) shost_sock garbage (wk_fd e) zeroed s with
  | Ret (Some _) s' => (1, e <| wk_server := s' |> <| wk_stream ::= fun b => b ++ concat (sh_data (ext s')) |>)
  | Ret None s' | Stop _ s' => (1, e <| wk_server := s' |> <| wk_up := false |>)
  end.

Definition wlink_os : WinOS wlink := {|
  wos_malloc _ _ := true;
  wos_MultiByteToWideChar n s := if slen s + 1 <=? n then slen s + 1 else 0;
  wos_CreateFile _ _ _ e := (Some 6, e);
  wos_CloseHandle _ e := e;
  wos_DeviceIoControl _ _ _ _ e := (true, [], e);
  wos_SetFilePointer _ off e := (true, e <| wk_pos := off |>);
  wos_ReadFile _ n e := (true, take (Z.to_nat n) (drop (Z.to_nat (wk_pos e)) (wk_target e)), e);
  wos_WriteFile _ m e := (true, e <| wk_target ::= write_at (wk_pos e) m |>);
  wos_send _ _ e := (-1, e);
  wos_recv f n e :=
    match wk_stream e with
    | [] => (-1, [], e)
    | _ => if wk_up e then stream_recv f n e else (-1, [], e)
    end;
  wos_errno _ := 0;
  wos_user_read _ _ := [];
  wos_user_write _ _ e := e;
  wos_WaitForSingleObject e := (WAIT_OBJECT_0, e);
  wos_ReleaseMutex e := (true, e);
  wos_mysql_query _ e := Some (0, e);
  wos_mysql_close e := Some e;
|}.

Definition wlink_sock : WinSock wlink := {|
  wos_WSAStartup e := (0, e);
  wos_socket e := (3, e);
  wos_connect _ _ _ e := (0, e);
  wos_bind _ _ e := (0, e);
  wos_listen _ _ e := (0, e);
  wos_accept _ e := (-1, e);
  wos_shutdown _ e := e;
  wos_closesocket _ e := e;
  wos_send_hdr _ h e := if wk_up e then win_deliver h e else (-1, e);
  wos_recv_hdr _ e := match sh_out (ext (wk_server e)) with
                      | h :: l => (1, Some h, e <| wk_server ::= fun s => s <| ext ::= fun x => x <| sh_out := l |> |> |>)
                      | [] => (-1, None, e)
                      end;
  wos_CreateThread e := (true, e);
  wos_fread name e := wk_files e !! name;
  wos_fwrite name m e := Some (e <| wk_files ::= <[name := m]> |>);
  wos_rows _ := None;
  wos_CreateMutex e := (true, e);
  wos_mysql_init e := (true, e);
  wos_mysql_real_connect _ _ _ e := (true, e);
|}.
End client_machine.

(** ** The laws *)
Section link_laws.
Context (env : wenv) (garbage : mem) (net : network) (src : mem) (pid dfd pfd fd G C : Z) (name : string).

#[local] Instance server_os : WinOS shost := shost_os env.
#[local] Instance server_sock : WinSock shost := shost_sock.
#[local] Instance client_os : WinOS wlink := wlink_os net.
#[local] Instance client_sock : WinSock wlink := wlink_sock env garbage.

(** The server serves the partner from the disk [src], both disks have the
    same size, and everything the server sent has been received. *)
Record win_link_good (e : wlink) : Prop := {
  wlg_up : wk_up e = true;
  wlg_serving : serving pid dfd pfd G C (wk_server e);
  wlg_disk : sh_disk (ext (wk_server e)) = src;
  wlg_target : length (wk_target e) = length src;
  wlg_stream : wk_stream e = [];
}.

Definition win_link_peer : peer wlink := {|
  pr_src := bytes_image src;
  pr_size := Z.of_nat (length src);
  pr_tgt := fun e => bytes_image (wk_target e);
  pr_works := fun e => length (wk_target e) = length src;
  pr_good := win_link_good;
|}.

(** What the server has after the request, with the chunk on its way. *)
Definition win_answered (h : replic_header) (bytes : mem) (e : wlink) : wlink :=
  e <| wk_server ::= fun s => served (s <| ext ::= fun x => x <| sh_in := [h] |> <| sh_data := [] |> |>) pid
         ((ext s) <| sh_in := [] |> <| sh_data := [bytes] |> <| sh_pos := request_offset G C h |>) |>
    <| wk_stream ::= fun b => b ++ bytes |>.

Definition chunk_of (bit c : Z) : mem := take (Z.to_nat 4096) (drop (Z.to_nat (chunk_addr G C bit c)) src).

Lemma length_chunk_of bit c : chunk_fits (Z.of_nat (length src)) G C bit c -> length (chunk_of bit c) = 4096%nat.
Proof. intros [Hlo Hhi]. unfold chunk_of. rewrite length_take, length_drop. lia. Qed.

Lemma win_deliver_request e h bit c :
  win_link_good e -> is_request pid bit c h -> chunk_fits (Z.of_nat (length src)) G C bit c -> Z.of_nat (length src) <= 2 ^ 32 ->
  win_deliver env garbage h e = (1, win_answered h (chunk_of bit c) e).
Proof.
  intros [Hup Hsv Hdisk _ _] (Hop & Hpid & Hcur & Hpos) Hfit Hsz. pose proof (length_chunk_of bit c Hfit) as Hlen. destruct Hfit as [Hlo Hhi].
  assert (Hoff : request_offset G C h = chunk_addr G C bit c).
  { unfold request_offset, chunk_addr. by rewrite Hcur, Hpos. }
  set (s := (wk_server e) <| ext ::= fun x => x <| sh_in := [h] |> <| sh_data := [] |> |>).
  unfold win_deliver. fold s. unfold win_server_recv_step.
  erewrite (@bind_sys shost); [|cbn; reflexivity]. cbv beta iota. change (1 <? 0) with false. cbv iota.
  set (s1 := s <| ext := _ |>). change (default zeroed (Some h)) with h.
  assert (Hsv1 : serving pid dfd pfd G C s1) by (destruct Hsv; constructor; done).
  rewrite (bind_Ret _ _ s1 h (served s1 pid ((ext s1) <| sh_data := [chunk_of bit c] |> <| sh_pos := chunk_addr G C bit c |>))).
  - unfold win_answered. rewrite Hoff. do 2 f_equal. unfold served. wsimpl.
    by replace (concat [chunk_of bit c]) with (chunk_of bit c) by (symmetry; apply app_nil_r).
  - rewrite win_dispatch_handled. rewrite Hop.
    change (table_find (opcode_code DATA) (win_cmdMap garbage)) with (Some (@win_get_data shost _ _)). cbv iota.
    eapply win_get_data_ok; [exact Hsv1|done|rewrite Hoff; lia|cbn; rewrite Hoff; reflexivity|cbn; rewrite Hdisk; reflexivity|exact Hlen|cbn; reflexivity|].
    change (0 < Z.of_nat (length (chunk_of bit c))). lia.
Qed.

Lemma win_answered_serving h bytes e :
  win_link_good e -> serving pid dfd pfd G C (wk_server (win_answered h bytes e)) /\
    sh_disk (ext (wk_server (win_answered h bytes e))) = src.
Proof.
  intros [Hup Hsv Hdisk Htgt _]. split; [|done]. unfold win_answered. cbn [wk_server set_field].
  change (serving pid dfd pfd G C (served ((wk_server e) <| ext ::= fun x => x <| sh_in := [h] |> <| sh_data := [] |> |>) pid
         ((ext (wk_server e)) <| sh_in := [] |> <| sh_data := [bytes] |> <| sh_pos := request_offset G C h |>))).
  apply served_serving. destruct Hsv. by constructor.
Qed.

Lemma win_answered_stream h bytes e : wk_stream e = [] -> wk_stream (win_answered h bytes e) = bytes.
Proof. intros He. unfold win_answered. wsimpl. by rewrite He. Qed.

Lemma win_deliver_target h e r e1 : win_deliver env garbage h e = (r, e1) -> wk_target e1 = wk_target e.
Proof. unfold win_deliver. destruct (win_server_recv_step _ _ _ _) as [[a|] s'|o s']; intros [= <- <-]; done. Qed.

Lemma win_send_target h e r e1 : wos_send_hdr fd h e = (r, e1) -> wk_target e1 = wk_target e.
Proof.
  cbn [wos_send_hdr client_sock wlink_sock]. destruct (wk_up e); [by apply win_deliver_target|by intros [= <- <-]].
Qed.

Lemma take_length_take {A} q (s : list A) : take (length (take q s)) s = take q s.
Proof.
  rewrite length_take. destruct (Nat.le_gt_cases q (length s)); [by rewrite Nat.min_l|].
  by rewrite Nat.min_r, !take_ge by lia.
Qed.

(** What [recv] delivers: the beginning of the stream. *)
Lemma win_recv_stream f n e k bytes e' :
  0 < n -> wos_recv f n e = (k, bytes, e') -> 0 <= k ->
  bytes = take (Z.to_nat k) (wk_stream e) /\ Z.of_nat (length bytes) = k /\ 0 < k <= n /\
  wk_stream e' = drop (Z.to_nat k) (wk_stream e) /\ wk_server e' = wk_server e /\ wk_up e' = wk_up e /\
  wk_target e' = wk_target e.
Proof.
  intros Hn. cbn [wos_recv client_os wlink_os]. destruct (wk_stream e) as [|x s] eqn:Est; [intros [= <- <- <-]; lia|].
  destruct (wk_up e) eqn:Hup; [|intros [= <- <- <-]; lia]. unfold stream_recv. rewrite Est.
  destruct (net f (wk_recvs e)) as [j|]; [|intros [= <- <- <-]; lia]. intros [= <- <- <-] _.
  set (q := Z.to_nat _). assert (Hq : (0 < q)%nat /\ Z.of_nat q <= n) by (unfold q; lia).
  rewrite Nat2Z.id. split; [symmetry; apply take_length_take|]. split; [done|].
  split; [rewrite length_take; cbn [length]; lia|]. done.
Qed.

(** A request to a server that has nothing outstanding. *)
Lemma win_link_answer e h bit c r e1 n bytes e2 :
  win_link_good e -> is_request pid bit c h -> chunk_fits (Z.of_nat (length src)) G C bit c -> Z.of_nat (length src) <= 2 ^ 32 ->
  wos_send_hdr fd h e = (r, e1) -> wos_recv fd BUF_SIZE_IN_BYTES e1 = (n, bytes, e2) ->
  r = 1 /\ (keeps net fd -> 0 <= n) /\
  (0 <= n -> bytes = take (Z.to_nat n) (chunk_of bit c) /\ (n = BUF_SIZE_IN_BYTES -> win_link_good e2) /\
    (unsegmented net fd -> n = BUF_SIZE_IN_BYTES)).
Proof.
  intros Hg Hreq Hfit Hsz Es Er. cbn [wos_send_hdr client_sock wlink_sock] in Es. rewrite (wlg_up _ Hg) in Es.
  rewrite (win_deliver_request e h bit c) in Es by done. injection Es as <- <-.
  pose proof (length_chunk_of bit c Hfit) as Hlen. destruct (win_answered_serving h (chunk_of bit c) e Hg) as [Hsv Hdisk].
  set (e1 := win_answered h (chunk_of bit c) e) in *.
  assert (Hst : wk_stream e1 = chunk_of bit c) by apply win_answered_stream, Hg.
  assert (Hup : wk_up e1 = true) by (unfold e1, win_answered; wsimpl; exact (wlg_up _ Hg)).
  assert (Htg : wk_target e1 = wk_target e) by done. clearbody e1.
  assert (Hrun : stream_recv net fd BUF_SIZE_IN_BYTES e1 = (n, bytes, e2)).
  { rewrite <- Er. cbn [wos_recv client_os wlink_os]. rewrite Hup, Hst. by destruct (chunk_of bit c). }
  split; [done|]. split.
  { intros Hk. specialize (Hk (wk_recvs e1)). unfold stream_recv in Hrun.
    destruct (net fd (wk_recvs e1)); [injection Hrun as <- _ _; lia|done]. }
  intros Hn0. destruct (win_recv_stream fd BUF_SIZE_IN_BYTES e1 n bytes e2) as (-> & _ & Hn & Hs2 & Hv2 & Hu2 & Ht2); [done|done|done|].
  rewrite Hst in *. split; [done|]. unfold BUF_SIZE_IN_BYTES in *. split.
  - intros ->. constructor; [congruence|by rewrite Hv2|by rewrite Hv2|rewrite Ht2, Htg; exact (wlg_target _ Hg)|].
    rewrite Hs2. apply drop_ge. lia.
  - intros Hnet. specialize (Hnet (wk_recvs e1)). unfold BITMAP_SIZE in Hnet. unfold stream_recv in Hrun.
    destruct (net fd (wk_recvs e1)) as [j|]; [|injection Hrun as <- _ _; lia]. specialize (Hnet j eq_refl).
    rewrite Hst in Hrun. injection Hrun as <- _ _. rewrite length_take. lia.
Qed.

Lemma win_link_up : Z.of_nat (length src) <= 2 ^ 32 -> keeps net fd -> win_peer_up win_link_peer pid fd G C.
Proof.
  intros Hsz Hk e h bit c r e1 n bytes e2 Hg Hreq Hfit Es Er.
  destruct (win_link_answer e h bit c r e1 n bytes e2) as (-> & Hn & _); [done..|]. split; [lia|]. split; [by apply Hn|done].
Qed.

Lemma win_link_whole : Z.of_nat (length src) <= 2 ^ 32 -> unsegmented net fd -> win_answers_whole win_link_peer pid fd G C.
Proof.
  intros Hsz Hnet e h bit c r e1 n bytes e2 Hg Hreq Hfit Es Er _ Hn _.
  destruct (win_link_answer e h bit c r e1 n bytes e2) as (_ & _ & Ha); [done..|]. by apply Ha.
Qed.

Lemma win_link_laws : Z.of_nat (length src) <= 2 ^ 32 -> WinPeerLaws win_link_peer pid fd 6 G C name.
Proof.
  intros Hsz. constructor.
  - intros e Hg. exact (wlg_target _ Hg).
  - intros e h bit c r e1 n bytes e2 Hw Hreq Hfit Es Er. pose proof (win_send_target h e r e1 Es) as Ht1.
    assert (Ht2 : wk_target e2 = wk_target e1).
    { destruct (Z.lt_ge_cases n 0) as [Hn|Hn]; [|by apply (win_recv_stream fd BUF_SIZE_IN_BYTES e1 n bytes e2)].
      cbn [wos_recv client_os wlink_os] in Er. destruct (wk_stream e1); [by injection Er as _ _ <-|].
      destruct (wk_up e1); [unfold stream_recv in Er; destruct (net fd _)|]; by injection Er as _ _ <-. }
    split; [intros a; cbn; by rewrite Ht1|]. split; [intros a; cbn; by rewrite Ht2, Ht1|]. intros _ Hn _.
    destruct (win_recv_stream fd BUF_SIZE_IN_BYTES e1 n bytes e2) as (_ & Hl & Hm & _); [done|done|done|].
    split; [cbn; by rewrite Ht2, Ht1|]. split; [done|]. split; [lia|]. intros Hg.
    destruct (win_link_answer e h bit c r e1 n bytes e2) as (_ & _ & Ha); [done..|].
    destruct (Ha Hn) as (-> & Hg2 & _). split; [|exact Hg2].
    destruct Hfit as [Hlo Hhi]. cbn in Hhi. unfold BUF_SIZE_IN_BYTES in Hm.
    intros i Hi. rewrite lookup_total_take_lt by lia. apply bytes_image_take_drop; lia.
  - intros e off bytes Htl Hlo Hhi Hl. cbn in Hhi, Htl.
    exists (e <| wk_pos := off |>), (e <| wk_pos := off |> <| wk_target ::= write_at off bytes |>).
    split; [done|]. split; [done|].
    assert (Hw : length (write_at off bytes (wk_target e)) = length src).
    { rewrite length_write_at; [exact Htl|exact Hlo|rewrite Hl, Htl; exact Hhi]. }
    split; [exact Hw|]. split; [intros []; by constructor|].
    intros a. apply write_at_image; [done|done|]. wsimpl. rewrite Htl. exact Hhi.
  - intros e share flags Hg. by exists e.
  - done.
  - intros e sql Hw. by exists e.
  - done.
  - done.
  - done.
  - intros e h r e1 Hw _ Es. apply (win_send_target h e r e1) in Es. split; [cbn; by rewrite Es|].
    intros a. cbn. by rewrite Es.
Qed.
End link_laws.
