(* ===== verification/WinResyncProps.v ===== *)
(** * Properties of the Windows resync

    The resync loop of user/atdr_windows against a peer: what a run copies as
    long as every receive is whole, what a receive cut short by the network
    makes it write, that it returns whatever the connection does, that an
    interrupted run can be taken up again, that the modelled server process is
    such a peer.  All for disks of at most 4 GB: offsets have 32 bits. *)
From S2P Require Import Prelude Memory KernelState KBitmap KBitmapSpec KernelMain CMonad CString World UBitmap Db Header.
From S2P Require Import WinState ReplicServer ConnServer Resync WinDb WinClient WinObjects WinServer WinResync WorldTac.
From S2P Require Import UBitmapSpec TransferLoop ResyncSpec ServerSpec Sim LinkSpec ResyncProps WinExample WinHost WinResyncSpec WinServerSpec WinPair.

(** ** Copying *)
Section copying.
Context {E : Type} `{WinOS E} `{WinSock E} (ok : Z -> Z -> Prop) (P : peer E) (pid fd fdt G blk : Z) (name : string) (m : mem).
Context (Hlaws : WinRoundLaws ok P pid fd fdt G 8 name).
Context (Hpid : 0 <= pid < 2048) (Hsize : pr_size P <= 2 ^ 32).
Context (Hwf : wf_mem m) (Hlen : Z.of_nat (length m) = BITMAP_SIZE).
Context (HG : 0 < G < 2 ^ 31) (Hmod : G mod 8 = 0).
Context (Hfit : forall b, mem_bit m b = true -> 512 * G * (b + 1) <= pr_size P).
Context (Hname : slen name <= 38) (Hwide : 0 < wos_MultiByteToWideChar 14 name).

Lemma win_grain_fits b c :
  0 <= b < MAX_BITS_LEN -> win_selected m NO_RESYNC b = true -> 0 <= c < G / 8 -> chunk_fits (pr_size P) G 8 b c.
Proof using Hfit HG Hmod.
  clear -Hfit HG Hmod. intros Hb Hsel Hc. unfold win_selected in Hsel. rewrite orb_false_r in Hsel. specialize (Hfit b Hsel).
  unfold chunk_fits, chunk_addr. assert (G = 8 * (G / 8)) as HG8 by lia. nia.
Qed.

Lemma win_resync_run w bit :
  win_prepared P pid fd G 8 blk name m w -> 0 <= bit <= MAX_BITS_LEN ->
  exists w', win_restart_resync pid bit NO_RESYNC w = Ret tt w' /\
    win_run_outcome ok P pid fd G 8 blk m NO_RESYNC bit w w'.
Proof.
  intros Hr Hb. apply (win_restart_ok ok P pid fd fdt G 8 blk name m Hpid Hsize Hwf Hlen NO_RESYNC); try done.
  - clear -HG. lia.
  - exact win_grain_fits.
Qed.
End copying.

(** ** Two machines, concretely

    The disks of [ResyncProps]: four grains of 4096 bytes, the source full of 7,
    the target full of 1; grains 0 and 2 are dirty. *)
Definition ex_wserver_on (e : shost) : world shost :=
  (world0 e)
    <| replic_hdr_server_obj ::= aset 0 (fun _ => ex_header) |>
    <| io_server_obj ::= aset 0 (fun o => o <| io_state := IO_OBJ_IN_USE |>) |>
    <| ebdr_disk_src_obj ::= aset 0 (fun d => d <| dsk_fd := 5 |> <| dsk_ops := Some server_ops |>) |>
    <| all_partner_servers ::= aset 0 (fun p => p <| ptn_fd := 4 |> <| ptn_state := PARTNER_OBJ_IN_USE |>) |>.

Definition ex_wlink : wlink :=
  mk_wlink (ex_wserver_on (mk_shost (wh0 ex_tracked) ex_src 0 [] [] [])) 4 ex_tgt 0 true ∅ [] 0.

Definition ex_wclient : world wlink :=
  (world0 ex_wlink)
    <| all_partner_clients ::= aset 0 (fun p => p <| ptn_fd := 3 |> <| ptn_state := PARTNER_OBJ_IN_USE |>) |>
    <| io_client_obj ::= aset 0 (fun o => o <| io_state := IO_OBJ_IN_USE |>) |>
    <| replic_client_obj ::= aset 0 (fun r => r <| rp_conn := Some (PClient 0) |>) |>
    <| ebdr_conn_client ::= aset 0 (fun c => c <| cn_ops := Some client_ops |>) |>
    <| replic_hdr_client_obj ::= aset 0 (fun _ => ex_header) |>
    <| ebdr_disk_target_obj ::= aset 0 (fun d => d <| dsk_name := "F:"%string |> <| dsk_ops := Some client_ops |>
         <| dsk_bitmap := Some (PClient 0) |>) |>
    <| bitmap_client_obj ::= aset 0 (fun b => b <| ub_area := Some 0 |> <| ub_size := BITMAP_SIZE |>
         <| ub_ops := Some client_ops |>) |>
    <| heap ::= fun h => <[0 := ex_bits]> h |>.

(** A network that delivers what was sent in one piece, one that delivers
    packets of 1460 bytes, one that loses the connection of socket 3 at the
    second receive. *)
Definition ex_net : network := fun _ _ => Some BITMAP_SIZE.
Definition ex_packets : network := fun _ _ => Some 1460.
Definition ex_resets : network := fun f k => if (f =? 3) && (0 <? Z.of_nat k) then None else Some BITMAP_SIZE.

#[local] Instance ex_wclient_sock : WinSock wlink := wlink_sock ex_wenv ex_garbage.

Definition ex_wpeer : peer wlink := win_link_peer ex_src 0 5 4 8 8.

Lemma ex_src_4G : Z.of_nat (length ex_src) <= 2 ^ 32.
Proof. rewrite length_ex_src. lia. Qed.

Section on_network.
Context (net : network).
#[local] Instance ex_on_network : WinOS wlink := wlink_os net.

Lemma ex_wlaws fd : WinPeerLaws ex_wpeer 0 fd 6 8 8 "F:".
Proof. apply win_link_laws, ex_src_4G. Qed.

Lemma ex_wup fd : keeps net fd -> win_peer_up ex_wpeer 0 fd 8 8.
Proof. intros Hk. by apply win_link_up; [apply ex_src_4G|]. Qed.

Lemma ex_wwhole fd : unsegmented net fd -> win_answers_whole ex_wpeer 0 fd 8 8.
Proof. intros Hk. by apply win_link_whole; [apply ex_src_4G|]. Qed.
End on_network.

Lemma ex_net_keeps fd : keeps ex_net fd.
Proof. done. Qed.

Lemma ex_net_unsegmented fd : unsegmented ex_net fd.
Proof. by intros k n [= <-]. Qed.

Lemma ex_resets_keeps fd : fd <> 3 -> keeps ex_resets fd.
Proof. intros Hf k. unfold ex_resets. by rewrite (proj2 (Z.eqb_neq _ _) Hf). Qed.

Lemma ex_resets_unsegmented fd : unsegmented ex_resets fd.
Proof. intros k n. unfold ex_resets. destruct (_ && _); [done|]. by intros [= <-]. Qed.

Lemma ex_wgood : win_link_good ex_src 0 5 4 8 8 ex_wlink.
Proof. constructor; [done|by constructor|done|exact length_ex_tgt|done]. Qed.

Lemma ex_wready : win_prepared ex_wpeer 0 3 8 8 0 "F:" ex_bits ex_wclient.
Proof. constructor; try done; exact ex_wgood. Qed.

Lemma ex_wsize : pr_size ex_wpeer <= 2 ^ 32.
Proof. cbn [pr_size ex_wpeer win_link_peer]. rewrite length_ex_src. lia. Qed.

Lemma ex_wfit b : mem_bit ex_bits b = true -> 512 * 8 * (b + 1) <= pr_size ex_wpeer.
Proof. intros Hb. apply ex_bits_range in Hb. cbn [pr_size ex_wpeer win_link_peer]. rewrite length_ex_src. lia. Qed.

#[local] Instance ex_wclient_os : WinOS wlink := wlink_os ex_net.

(** C7. The Windows client, on a volume of at most 4 GB: a resync whose
    connection holds, and none of whose receives the network cuts short, ends
    with the dirty grains of the target volume equal to those of the source and
    every other byte as it was; partner, relation, disk and engine are released
    and the bitmap is freed. *)
Theorem windows_resync_copies_dirty_grains {E} `{WinOS E} `{WinSock E} (P : peer E) pid fd fdt G blk name m w :
  WinPeerLaws P pid fd fdt G 8 name -> win_peer_up P pid fd G 8 -> win_answers_whole P pid fd G 8 ->
  0 <= pid < 2048 -> pr_size P <= 2 ^ 32 -> wf_mem m -> Z.of_nat (length m) = BITMAP_SIZE ->
  0 < G < 2 ^ 31 -> G mod 8 = 0 ->
  (forall b, mem_bit m b = true -> 512 * G * (b + 1) <= pr_size P) ->
  slen name <= 38 -> 0 < wos_MultiByteToWideChar 14 name ->
  win_prepared P pid fd G 8 blk name m w ->
  exists w', win_restart_resync pid 0 NO_RESYNC w = Ret tt w' /\ win_terminated pid blk w' /\
    forall a, pr_tgt P (ext w') a = if mem_bit m (a / (512 * G)) then pr_src P a else pr_tgt P (ext w) a.
Proof.
  intros Hlaws Hup Hwh Hpid Hsize Hwf Hlen HG Hmod Hfit Hname Hwide Hr.
  pose proof (win_round_whole P pid fd fdt G 8 name Hwh) as Hround.
  destruct (win_resync_run _ P pid fd fdt G blk name m Hround Hpid Hsize Hwf Hlen HG Hmod Hfit Hname Hwide w 0 Hr) as (w' & Ew & Ho);
    [unfold MAX_BITS_LEN; lia|].
  exists w'. split; [exact Ew|]. destruct Ho as [[Htm Hc]|[Hnup _]]; [|done]. split; [done|].
  by apply (complete_image _ G m (win_tgt P w) (win_tgt P w')).
Qed.

Lemma windows_resync_copies_dirty_grains_witness :
  exists w', win_restart_resync 0 0 NO_RESYNC ex_wclient = Ret tt w' /\ win_terminated 0 0 w' /\
    forall a, pr_tgt ex_wpeer (ext w') a =
      if mem_bit ex_bits (a / (512 * 8)) then pr_src ex_wpeer a else pr_tgt ex_wpeer (ext ex_wclient) a.
Proof.
  apply (windows_resync_copies_dirty_grains ex_wpeer 0 3 6 8 0 "F:" ex_bits ex_wclient (ex_wlaws _ 3) (ex_wup _ 3 (ex_net_keeps 3))
    (ex_wwhole _ 3 (ex_net_unsegmented 3)));
    [lia|exact ex_wsize|exact wf_ex_bits|exact length_ex_bits|lia|reflexivity|exact ex_wfit|vm_compute; congruence|vm_compute; reflexivity|exact ex_wready].
Defined.

(** C16. Whatever the connection does - calls that fail, receives cut short by
    the network, an orderly close by the server -, for every chunk size and
    mode, on a volume of at most 4 GB, the Windows resync returns and every
    byte of the target outside the chunks of the selected grains is as it was;
    and as long as no receive that succeeds is short, every byte in them is as
    it was or the source's. *)
Theorem windows_resync_returns_safe {E} `{WinOS E} `{WinSock E} (P : peer E) pid fd fdt G C blk name m mode bit w :
  WinPeerLaws P pid fd fdt G C name -> 0 <= pid < 2048 -> pr_size P <= 2 ^ 32 ->
  wf_mem m -> Z.of_nat (length m) = BITMAP_SIZE -> C <> 0 -> 0 <= G / C < 2 ^ 32 ->
  (forall b c, 0 <= b < MAX_BITS_LEN -> win_selected m mode b = true -> 0 <= c < G / C -> chunk_fits (pr_size P) G C b c) ->
  slen name <= 38 -> 0 < wos_MultiByteToWideChar 14 name ->
  win_prepared P pid fd G C blk name m w -> 0 <= bit <= MAX_BITS_LEN ->
  let region := grains_region G C (win_selected m mode) bit (MAX_BITS_LEN - bit) in
  exists w', win_restart_resync pid bit mode w = Ret tt w' /\
    (forall a, region a = false -> win_tgt P w' a = win_tgt P w a) /\
    (win_answers_whole P pid fd G C -> partly (the_bytes (pr_src P)) region (win_tgt P w) (win_tgt P w')).
Proof.
  intros Hlaws Hpid Hsize Hwf Hlen HC HGC Hfit Hname Hwide Hr Hbit region.
  assert (Hrun : forall ok Q, WinRoundLaws ok Q pid fd fdt G C name -> pr_size Q = pr_size P -> win_prepared Q pid fd G C blk name m w ->
    exists w', win_restart_resync pid bit mode w = Ret tt w' /\ partly ok region (win_tgt Q w) (win_tgt Q w')).
  { intros ok Q HQ Hs HrQ.
    destruct (win_restart_ok ok Q pid fd fdt G C blk name m Hpid ltac:(lia) Hwf Hlen mode HGC ltac:(by rewrite Hs) Hname Hwide w bit HrQ HC Hbit)
      as (w' & Ew & [[_ Hc]|(_ & b & Hi)]); exists w'; (split; [exact Ew|]); [by apply filled_partly|by eapply interrupted_partly]. }
  destruct (Hrun any_byte (weak P)) as (w' & Ew & Hany); [by apply win_round_any|done|by eapply prepared_weak|].
  exists w'. split; [exact Ew|]. split; [exact (partly_outside _ _ _ _ Hany)|]. intros Hwh.
  destruct (Hrun (the_bytes (pr_src P)) P) as (w2 & Ew2 & Hp); [by apply win_round_whole|done|done|].
  rewrite Ew in Ew2. by injection Ew2 as <-.
Qed.

Lemma ex_wgrain_fits b c :
  0 <= b < MAX_BITS_LEN -> win_selected ex_bits NO_RESYNC b = true -> 0 <= c < 8 / 8 -> chunk_fits (pr_size ex_wpeer) 8 8 b c.
Proof. intros Hb Hs Hc. apply (win_grain_fits ex_wpeer 8 ex_bits); [lia|reflexivity|exact ex_wfit|done..]. Qed.

(** The network delivers packets of 1460 bytes. *)
Section packets.
#[local] Instance ex_wpackets : WinOS wlink := wlink_os ex_packets.

Lemma windows_resync_returns_safe_witness :
  let region := grains_region 8 8 (win_selected ex_bits NO_RESYNC) 0 (MAX_BITS_LEN - 0) in
  exists w', win_restart_resync 0 0 NO_RESYNC ex_wclient = Ret tt w' /\
    (forall a, region a = false -> win_tgt ex_wpeer w' a = win_tgt ex_wpeer ex_wclient a) /\
    (win_answers_whole ex_wpeer 0 3 8 8 ->
     partly (the_bytes (pr_src ex_wpeer)) region (win_tgt ex_wpeer ex_wclient) (win_tgt ex_wpeer w')).
Proof.
  apply (windows_resync_returns_safe ex_wpeer 0 3 6 8 8 0 "F:" ex_bits NO_RESYNC 0 ex_wclient (ex_wlaws _ 3));
    [lia|exact ex_wsize|exact wf_ex_bits|exact length_ex_bits|lia|cbn; lia|exact ex_wgrain_fits|vm_compute; congruence|vm_compute; reflexivity
    |exact ex_wready|unfold MAX_BITS_LEN; lia].
Defined.
End packets.

(** C17. On Windows too, on a volume of at most 4 GB, a resync whose connection
    breaks at any request with an error can be taken up again from the position
    recorded: the two runs together make the dirty grains of the target those
    of the source and change nothing else, provided that the network cuts none
    of their receives short (see
    [windows_short_receive_writes_stale_bytes]). *)
Theorem windows_resync_interrupted_resumes {E} `{WinOS E} `{WinSock E} (P : peer E) pid fd fd2 fdt G blk blk2 name m w :
  WinPeerLaws P pid fd fdt G 8 name -> win_answers_whole P pid fd G 8 ->
  WinPeerLaws P pid fd2 fdt G 8 name -> win_peer_up P pid fd2 G 8 -> win_answers_whole P pid fd2 G 8 ->
  0 <= pid < 2048 -> pr_size P <= 2 ^ 32 -> wf_mem m -> Z.of_nat (length m) = BITMAP_SIZE ->
  0 < G < 2 ^ 31 -> G mod 8 = 0 ->
  (forall b, mem_bit m b = true -> 512 * G * (b + 1) <= pr_size P) ->
  slen name <= 38 -> 0 < wos_MultiByteToWideChar 14 name ->
  win_prepared P pid fd G 8 blk name m w -> win_last pid w = 0 ->
  exists w1, win_restart_resync pid 0 NO_RESYNC w = Ret tt w1 /\
    ((win_terminated pid blk w1 /\
      forall a, pr_tgt P (ext w1) a = if mem_bit m (a / (512 * G)) then pr_src P a else pr_tgt P (ext w) a) \/
     forall w2, win_prepared P pid fd2 G 8 blk2 name m w2 -> same_image (pr_tgt P (ext w1)) (pr_tgt P (ext w2)) ->
       exists w3, win_restart_resync pid (win_last pid w1) NO_RESYNC w2 = Ret tt w3 /\ win_terminated pid blk2 w3 /\
         forall a, pr_tgt P (ext w3) a = if mem_bit m (a / (512 * G)) then pr_src P a else pr_tgt P (ext w) a).
Proof.
  intros Hl1 Hwh1 Hl2 Hup Hwh2 Hpid Hsize Hwf Hlen HG Hmod Hfit Hname Hwide Hr H0'.
  pose proof (win_round_whole P pid fd fdt G 8 name Hwh1) as Hround1.
  pose proof (win_round_whole P pid fd2 fdt G 8 name Hwh2) as Hround2.
  destruct (win_resync_run _ P pid fd fdt G blk name m Hround1 Hpid Hsize Hwf Hlen HG Hmod Hfit Hname Hwide w 0 Hr) as (w1 & E1 & Ho);
    [unfold MAX_BITS_LEN; lia|].
  exists w1. split; [exact E1|]. destruct Ho as [[Htm Hc]|(_ & b & Hb & Hsel & Hlast & t1 & Hc1 & Hp)].
  { left. split; [done|]. by apply (complete_image _ G m (win_tgt P w) (win_tgt P w1)). }
  right. intros w2 Hr2 Hsame. rewrite H0' in Hlast.
  destruct (win_resync_run _ P pid fd2 fdt G blk2 name m Hround2 Hpid Hsize Hwf Hlen HG Hmod Hfit Hname Hwide w2 (win_last pid w1) Hr2)
    as (w3 & E3 & Ho); [rewrite Hlast; destruct (Z.eqb_spec b 0); lia|].
  exists w3. split; [exact E3|]. destruct Ho as [[Htm Hc3]|[Hnup _]]; [|done]. split; [done|].
  unfold win_selected in Hsel. rewrite orb_false_r in Hsel. rewrite Hlast in Hc3.
  apply (resumed_image _ G m b _ t1 (win_tgt P w1)); [done|done|done|lia|done|exact Hc1|exact Hp|].
  by eapply filled_between; [| |exact Hc3].
Qed.

(** The connection of socket 3 is reset at its second answer; socket 7 holds. *)
Section resets.
#[local] Instance ex_wresets : WinOS wlink := wlink_os ex_resets.

Lemma windows_resync_interrupted_resumes_witness :
  exists w1, win_restart_resync 0 0 NO_RESYNC ex_wclient = Ret tt w1 /\
    ((win_terminated 0 0 w1 /\
      forall a, pr_tgt ex_wpeer (ext w1) a =
        if mem_bit ex_bits (a / (512 * 8)) then pr_src ex_wpeer a else pr_tgt ex_wpeer (ext ex_wclient) a) \/
     forall w2, win_prepared ex_wpeer 0 7 8 8 0 "F:" ex_bits w2 -> same_image (pr_tgt ex_wpeer (ext w1)) (pr_tgt ex_wpeer (ext w2)) ->
       exists w3, win_restart_resync 0 (win_last 0 w1) NO_RESYNC w2 = Ret tt w3 /\ win_terminated 0 0 w3 /\
         forall a, pr_tgt ex_wpeer (ext w3) a =
           if mem_bit ex_bits (a / (512 * 8)) then pr_src ex_wpeer a else pr_tgt ex_wpeer (ext ex_wclient) a).
Proof.
  apply (windows_resync_interrupted_resumes ex_wpeer 0 3 7 6 8 0 0 "F:" ex_bits ex_wclient (ex_wlaws _ 3)
    (ex_wwhole _ 3 (ex_resets_unsegmented 3)) (ex_wlaws _ 7) (ex_wup _ 7 (ex_resets_keeps 7 ltac:(done)))
    (ex_wwhole _ 7 (ex_resets_unsegmented 7)));
    [lia|exact ex_wsize|exact wf_ex_bits|exact length_ex_bits|lia|reflexivity|exact ex_wfit|vm_compute; congruence|vm_compute; reflexivity
    |exact ex_wready|reflexivity].
Defined.
End resets.

(** ** A receive cut short *)
Lemma fill_lookup bytes buff i :
  fill bytes buff !!! i = if (i <? length bytes)%nat then bytes !!! i else buff !!! i.
Proof.
  unfold fill. destruct (Nat.ltb_spec i (length bytes)).
  - by apply lookup_total_app_l.
  - rewrite lookup_total_app_r by done. rewrite lookup_total_drop. f_equal. lia.
Qed.

(** The Windows client asks for a chunk and the network delivers only the
    first [n] bytes of it (none if the server has closed the connection).  The
    round counts as a success: the chunk of the target gets these [n] bytes of
    the source and, behind them, what the buffer held, the chunk before. *)
Theorem windows_short_receive_writes_stale_bytes {E} `{WinOS E} `{WinSock E} (P : peer E) pid fd fdt G C blk name m
    bit c buff w r e1 n bytes e2 :
  WinPeerLaws P pid fd fdt G C name -> 0 <= pid < 2048 -> pr_size P <= 2 ^ 32 ->
  win_linked P pid fd fdt G C blk name m w -> chunk_fits (pr_size P) G C bit c -> length buff = 4096%nat ->
  wos_send_hdr fd (aget (replic_hdr_client_obj (win_asked pid bit c w)) pid) (ext w) = (r, e1) -> 0 < r ->
  wos_recv fd BUF_SIZE_IN_BYTES e1 = (n, bytes, e2) -> 0 <= n < BUF_SIZE_IN_BYTES -> wos_errno e2 <> MSVC_ETIMEDOUT ->
  exists w', win_chunk_round pid bit c buff w = Ret (None, fill bytes buff) w' /\
    forall a, let i := a - chunk_addr G C bit c in
      win_tgt P w' a =
        if (0 <=? i) && (i <? n) then pr_src P a
        else if (n <=? i) && (i <? BUF_SIZE_IN_BYTES) then buff !!! Z.to_nat i
        else win_tgt P w a.
Proof.
  intros L Hpid Hsize Hr Hf Hb Es Hr0 Er Hn Herr. pose proof Hf as [Hlo Hhi]. unfold chunk_addr in Hlo, Hhi.
  pose proof (win_round_any P pid fd fdt G C name) as Lw. pose proof Hr as [Hp Hd].
  rewrite (win_round_asked P pid fd fdt G C blk name m Hpid w bit c buff Hr) by lia. cbv zeta.
  set (w1 := win_asked pid bit c w) in *.
  assert (Hr1 : win_linked P pid fd fdt G C blk name m w1) by by apply win_asked_linked.
  pose proof Hr1 as [Hp1 Hd1]. set (h := aget (replic_hdr_client_obj w1) pid) in *.
  destruct (wpl_request (ext w) h bit c r e1 n bytes e2 (wpl_works _ (wp_good _ _ _ _ _ _ _ _ _ Hp))) as (_ & Hs2 & Hans);
    [unfold h, w1, win_asked; by wsimpl|done|exact Es|exact Er|].
  destruct (Hans Hr0 ltac:(lia) Herr) as (Hw2 & Hl & _ & Hsrc). destruct (Hsrc (wp_good _ _ _ _ _ _ _ _ _ Hp)) as [Hbytes _].
  destruct (win_send_ok pid fd Hpid h w1 (wp_conn _ _ _ _ _ _ _ _ _ Hp1) (wp_ops _ _ _ _ _ _ _ _ _ Hp1)) as (r1 & E1 & Er1).
  change (ext w1) with (ext w) in E1, Er1. rewrite Es in E1, Er1. cbn [fst snd] in E1, Er1.
  rewrite (bind_Ret _ _ _ _ _ E1), Er1. replace (r <=? 0) with false by bool_solve.
  erewrite bind_read_client by exact Er. replace (n <? 0) with false by bool_solve.
  replace (wos_errno e2 =? MSVC_ETIMEDOUT) with false by bool_solve. cbn [orb]. change (0 <? 0) with false. cbv iota.
  rewrite bind_rd by (unfold MAX_DISKS; lia). wsimpl. rewrite Hd1. unfold BUF_SIZE_IN_BYTES in Hn.
  destruct (win_write_ok any_byte (weak P) pid fd fdt G C blk name m Hpid Hsize (bit * G + c * C) (fill bytes buff)
    (w1 <| ext := e2 |>)) as (e3 & E3 & _ & Ht3); [|lia|exact Hhi|apply length_fill; lia|].
  { split; [|exact Hd1]. apply (prepared_ext (weak P) pid fd G C blk name m w1); [by eapply prepared_weak|exact Hw2]. }
  rewrite (bind_Ret _ _ _ _ _ E3). cbn [when]. change (0 <? 0) with false.
  eexists. split; [reflexivity|]. intros a. cbv zeta. unfold win_tgt at 1. wsimpl. cbn [weak pr_tgt] in Ht3. rewrite Ht3.
  change (512 * (bit * G + c * C)) with (chunk_addr G C bit c). unfold in_range.
  set (i := a - chunk_addr G C bit c). assert (Ha : a = chunk_addr G C bit c + i) by (unfold i; lia).
  destruct ((chunk_addr G C bit c <=? a) && (a <=? chunk_addr G C bit c + 4095)) eqn:Ein; bool_to_prop.
  - rewrite fill_lookup. destruct (Z.ltb_spec i n).
    + replace (0 <=? i) with true by bool_solve. cbn [andb]. rewrite (proj2 (Nat.ltb_lt _ _)) by lia.
      rewrite Hbytes by lia. by rewrite <- Ha.
    + rewrite andb_false_r, (proj2 (Nat.ltb_ge _ _)) by lia. unfold BUF_SIZE_IN_BYTES.
      by replace ((n <=? i) && (i <? 4096)) with true by bool_solve.
  - assert (Hout : i < 0 \/ 4096 <= i) by lia. unfold BUF_SIZE_IN_BYTES.
    replace ((0 <=? i) && (i <? n)) with false by (destruct Hout; bool_solve).
    replace ((n <=? i) && (i <? 4096)) with false by (destruct Hout; bool_solve).
    exact (Hs2 a).
Qed.

(** The target volume is open; packets of 1460 bytes. *)
Definition ex_wopen : world wlink := ex_wclient <| ebdr_disk_target_obj ::= aset 0 (fun d => d <| dsk_fd := 6 |>) |>.

Lemma ex_wopen_linked : win_linked ex_wpeer 0 3 6 8 8 0 "F:" ex_bits ex_wopen.
Proof. split; [constructor; try done; exact ex_wgood|done]. Qed.

Section cut_short.
#[local] Instance ex_wcut : WinOS wlink := wlink_os ex_packets.

Lemma windows_short_receive_writes_stale_bytes_witness :
  exists bytes w', win_chunk_round 0 0 0 (ex_chunk 9) ex_wopen = Ret (None, fill bytes (ex_chunk 9)) w' /\
    forall a, let i := a - chunk_addr 8 8 0 0 in
      win_tgt ex_wpeer w' a =
        if (0 <=? i) && (i <? 1460) then pr_src ex_wpeer a
        else if (1460 <=? i) && (i <? BUF_SIZE_IN_BYTES) then ex_chunk 9 !!! Z.to_nat i
        else win_tgt ex_wpeer ex_wopen a.
Proof.
  assert (Hfit : chunk_fits (pr_size ex_wpeer) 8 8 0 0).
  { unfold chunk_fits, chunk_addr. cbn [pr_size ex_wpeer win_link_peer]. rewrite length_ex_src. lia. }
  set (h := aget (replic_hdr_client_obj (win_asked 0 0 0 ex_wopen)) 0).
  pose proof (win_deliver_request ex_wenv ex_garbage ex_src 0 5 4 8 8 (ext ex_wopen) h 0 0 ex_wgood ltac:(done) Hfit ex_src_4G) as Ed.
  set (chunk := chunk_of ex_src 8 8 0 0) in *. set (e1 := win_answered 0 8 8 h chunk (ext ex_wopen)) in *.
  assert (Hc : length chunk = 4096%nat) by by apply length_chunk_of.
  assert (Hst : wk_stream e1 = chunk) by (by apply win_answered_stream).
  assert (Hup : wk_up e1 = true) by done. clearbody chunk e1.
  assert (Er : wos_recv 3 BUF_SIZE_IN_BYTES e1 = stream_recv ex_packets 3 BUF_SIZE_IN_BYTES e1).
  { cbn [wos_recv ex_wcut wlink_os]. rewrite Hst, Hup. by destruct chunk. }
  unfold stream_recv, ex_packets in Er. rewrite Hst, length_take, Hc in Er.
  change (Z.of_nat (_ `min` 4096)) with 1460 in Er. eexists.
  eapply (windows_short_receive_writes_stale_bytes ex_wpeer 0 3 6 8 8 0 "F:" ex_bits 0 0 (ex_chunk 9) ex_wopen 1 e1 1460);
    [apply (ex_wlaws _ 3)|lia|exact ex_wsize|exact ex_wopen_linked|exact Hfit|apply length_ex_chunk|exact Ed|lia|exact Er|by vm_compute|done].
Defined.
End cut_short.

(** C18. The modelled Windows server process, over a disk of at most 4 GB and
    any network, satisfies the laws of the peer that the theorems on the resync
    assume; its connection does not fail unless the network breaks it, and its
    answers arrive whole unless the network cuts them. *)
Theorem windows_server_refines_peer (env : wenv) (garbage : mem) (net : network) (src : mem) pid dfd pfd fd G C name :
  Z.of_nat (length src) <= 2 ^ 32 ->
  @WinPeerLaws wlink (wlink_os net) (wlink_sock env garbage) (win_link_peer src pid dfd pfd G C) pid fd 6 G C name /\
  (keeps net fd -> @win_peer_up wlink (wlink_os net) (wlink_sock env garbage) (win_link_peer src pid dfd pfd G C) pid fd G C) /\
  (unsegmented net fd ->
   @win_answers_whole wlink (wlink_os net) (wlink_sock env garbage) (win_link_peer src pid dfd pfd G C) pid fd G C).
Proof. intros Hsz. split; [by apply win_link_laws|]. split; [by apply win_link_up|by apply win_link_whole]. Qed.

Lemma windows_server_refines_peer_witness :
  WinPeerLaws ex_wpeer 0 3 6 8 8 "F:" /\ (keeps ex_net 3 -> win_peer_up ex_wpeer 0 3 8 8) /\
  (unsegmented ex_net 3 -> win_answers_whole ex_wpeer 0 3 8 8).
Proof. apply (windows_server_refines_peer ex_wenv ex_garbage ex_net ex_src 0 5 4 3 8 8 "F:"). exact ex_src_4G. Defined.

(** C8. The two ports of the resync agree on volumes of at most 4 GB whose
    connections hold: given the same bitmap, the same source and the same
    target, the loop of user/atdr_linux and the loop of user/atdr_windows both
    finish and leave the same target, provided that the network cuts no receive
    of the Windows client short; the Linux client asks for whole receives. *)
Theorem resync_ports_agree {E1} `{OS E1} {E2} `{WinOS E2} `{WinSock E2} (P1 : peer E1) (P2 : peer E2)
    pid fd1 fd2 fdt1 fdt2 G blk1 blk2 name m (w1 : world E1) (w2 : world E2) :
  PeerLaws P1 pid fd1 fdt1 G 8 -> peer_up P1 pid fd1 G 8 ->
  WinPeerLaws P2 pid fd2 fdt2 G 8 name -> win_peer_up P2 pid fd2 G 8 -> win_answers_whole P2 pid fd2 G 8 ->
  0 <= pid < 2048 -> pr_size P1 = pr_size P2 -> pr_size P2 <= 2 ^ 32 -> wf_mem m -> Z.of_nat (length m) = BITMAP_SIZE ->
  0 < G < 2 ^ 31 -> G mod 8 = 0 ->
  (forall b, mem_bit m b = true -> 512 * G * (b + 1) <= pr_size P2) ->
  slen name <= 38 -> 0 < wos_MultiByteToWideChar 14 name -> slen (dsk_name (aget (ebdr_disk_target_obj w1) pid)) <= 38 ->
  ready P1 pid fd1 fdt1 G 8 blk1 m w1 -> win_prepared P2 pid fd2 G 8 blk2 name m w2 ->
  (forall a, pr_src P1 a = pr_src P2 a) -> (forall a, pr_tgt P1 (ext w1) a = pr_tgt P2 (ext w2) a) ->
  exists v1 v2, restart_resync pid 0 NO_RESYNC w1 = Ret tt v1 /\ win_restart_resync pid 0 NO_RESYNC w2 = Ret tt v2 /\
    forall a, pr_tgt P1 (ext v1) a = pr_tgt P2 (ext v2) a.
Proof.
  intros L1 U1 L2 U2 A2 Hpid Hss Hsize Hwf Hlen HG Hmod Hfit Hname Hwide Hn1 R1 R2 Hsrc Htgt.
  pose proof (round_whole P1 pid fd1 fdt1 G 8 (peer_up_whole _ _ _ _ _ U1)) as Hround1.
  pose proof (win_round_whole P2 pid fd2 fdt2 G 8 name A2) as Hround2.
  destruct (resync_run _ P1 pid fd1 fdt1 G blk1 m Hround1 Hpid ltac:(lia) Hwf Hlen HG Hmod ltac:(by rewrite Hss) w1 0 R1 Hn1) as (v1 & E1' & O1);
    [unfold MAX_BITS_LEN; lia|].
  destruct (win_resync_run _ P2 pid fd2 fdt2 G blk2 name m Hround2 Hpid Hsize Hwf Hlen HG Hmod Hfit Hname Hwide w2 0 R2) as (v2 & E2' & O2);
    [unfold MAX_BITS_LEN; lia|].
  exists v1, v2. split; [exact E1'|]. split; [exact E2'|].
  destruct O1 as [[_ C1]|[N1 _]]; [|done]. destruct O2 as [[_ C2]|[N2 _]]; [|done].
  pose proof (complete_image _ G m _ _ HG Hmod Hlen C1) as I1. pose proof (complete_image _ G m (win_tgt P2 w2) (win_tgt P2 v2) HG Hmod Hlen C2) as I2.
  intros a. unfold tgt_of in I1. unfold win_tgt in I2. by rewrite I1, I2, Hsrc, Htgt.
Qed.

#[local] Instance ex_linux_client : OS link := link_os ex_kenv.

Lemma resync_ports_agree_witness :
  exists v1 v2, restart_resync 0 0 NO_RESYNC ex_client = Ret tt v1 /\ win_restart_resync 0 0 NO_RESYNC ex_wclient = Ret tt v2 /\
    forall a, pr_tgt ex_peer (ext v1) a = pr_tgt ex_wpeer (ext v2) a.
Proof.
  apply (resync_ports_agree ex_peer ex_wpeer 0 3 3 6 6 8 0 0 "F:" ex_bits ex_client ex_wclient ex_laws ex_up (ex_wlaws _ 3)
    (ex_wup _ 3 (ex_net_keeps 3)) (ex_wwhole _ 3 (ex_net_unsegmented 3)));
    [lia|reflexivity|exact ex_wsize|exact wf_ex_bits|exact length_ex_bits|lia|reflexivity|exact ex_wfit|vm_compute; congruence
    |vm_compute; reflexivity|vm_compute; congruence|exact ex_ready|exact ex_wready|done|done].
Defined.
