(* ===== verification/WinFetch.v ===== *)
(** * The bitmap on its way to the client

    What the server does for BITMAP_METADATA ([win_get_bitmap]: a new buffer, a
    snapshot of the driver's half, the answer), and what else stays as it was
    meanwhile. *)
From S2P Require Import Prelude Memory KernelState KBitmap KBitmapSpec KernelMain KernelInv KernelSteps KernelProps KernelTrace.
From S2P Require Import Tracker WinState WinFilter WinSpec WinProps TrackerProps WinInv WinLoad WinLimits.
From S2P Require Import CMonad CString World UBitmap Db Disk Partner Relation Header ReplicServer ConnServer WorldTac UBitmapSpec SnapshotSpec ServerSpec.
From S2P Require Import WinDb WinClient WinObjects WinServer WinSnapshot.

(** A field of one object after an update of another, or of other fields. *)
Lemma field_aset {A T} `{Zeroed A} (g : A -> T) (m : gmap Z A) i f pid :
  (forall x, g (f x) = g x) -> g (aget (aset i f m) pid) = g (aget m pid).
Proof.
  intros Hg. destruct (decide (i = pid)) as [->|Hne]; [by rewrite aget_aset_eq|by rewrite aget_aset_ne].
Qed.

(** The environment beside the driver: the control path leaves it alone. *)
Class WinQuiet {E R : Type} `{WinOS E} (rest : E -> R) := {
  wq_open : forall name share flags e, rest (snd (wos_CreateFile name share flags e)) = rest e;
  wq_close : forall h e, rest (wos_CloseHandle h e) = rest e;
  wq_ioctl : forall h cmd input n e, rest (snd (wos_DeviceIoControl h cmd input n e)) = rest e;
}.

Section quiet.
Context {E R : Type} `{WinOS E} (rest : E -> R) `{!WinQuiet rest} (garbage : mem) (pid : Z).

(** What the server needs of its state besides the snapshot. *)
Definition server_view (w : world E) :=
  (rest (ext w), (all_partner_servers w, replic_hdr_server_obj w, replic_server_obj w, io_server_obj w, cancel_pending w),
   dsk_fd (aget (ebdr_disk_src_obj w) pid), cn_ops (aget (ebdr_conn_server w) pid), ub_ops (aget (bitmap_server_obj w) pid)).

Ltac view_step :=
  preserve_step server_view ltac:(intros; unfold server_view; cbn; rewrite ?field_aset by done; done).

Ltac view_run := repeat view_step.

Lemma win_sys_quiet {A} (call : E -> A * E) :
  (forall e, rest (snd (call e)) = rest e) -> preserves (same server_view) (sys call).
Proof. intros Hc. apply preserves_sys. intros w. unfold server_view. cbn. by rewrite Hc. Qed.

Lemma ioctl_try_quiet h cmd : preserves (same server_view) (ioctl_try garbage h cmd).
Proof.
  unfold ioctl_try, atdr_log. view_run; apply win_sys_quiet; intros e;
    match goal with |- context [wos_DeviceIoControl ?h ?c ?i ?n e] => pose proof (wq_ioctl (rest := rest) h c i n e) as Hq end;
    by destruct (wos_DeviceIoControl _ _ _ _ e) as [[? ?] ?].
Qed.

Lemma ioctl_tries_quiet n h cmd : preserves (same server_view) (ioctl_tries garbage n h cmd).
Proof.
  induction n as [|n IH]; cbn [ioctl_tries]; unfold win_stop_work, atdr_log;
    apply (preserves_bind (same server_view)); try apply ioctl_try_quiet; intros []; view_run.
Qed.

#[local] Opaque ioctl_tries.

Lemma win_ioctl_quiet cmd : preserves (same server_view) (win_prepare_and_send_ioctl_cmd garbage cmd).
Proof.
  unfold win_prepare_and_send_ioctl_cmd, atdr_log, undefined, sys_. view_run.
  - apply win_sys_quiet. intros e. apply wq_open.
  - apply ioctl_tries_quiet.
  - apply (preserves_modify (same server_view)). intros w. unfold same, server_view. cbn. by rewrite wq_close.
Qed.

#[local] Opaque win_prepare_and_send_ioctl_cmd.

Lemma win_copy_half_quiet ub half : preserves (same server_view) (win_copy_half ub pid half).
Proof. unfold win_copy_half, win_map_bytes. view_run. Qed.

#[local] Opaque win_copy_half.

Lemma win_load_quiet : preserves (same server_view) (win_server_bitmap_load_from_memory garbage pid pid).
Proof.
  unfold win_server_bitmap_load_from_memory, win_take_half, win_deref_map, win_map_bytes, win_stop_work, atdr_log.
  view_run; first [apply win_ioctl_quiet|apply win_copy_half_quiet].
Qed.
End quiet.

(** ** The answer to BITMAP_METADATA *)
Definition no_bits : mem := replicate (Z.to_nat BITMAP_SIZE) 0.

Lemma length_no_bits : Z.of_nat (length no_bits) = BITMAP_SIZE.
Proof. unfold no_bits. rewrite length_replicate. apply Z2Nat.id. unfold BITMAP_SIZE. lia. Qed.

Lemma wf_no_bits : wf_mem no_bits.
Proof. apply wf_replicate. Qed.

Lemma mem_bit_no_bits k : mem_bit no_bits k = false.
Proof. apply mem_bit_replicate. Qed.

#[global] Opaque no_bits.

Section get_bitmap.
Context {E R : Type} `{WinOS E} `{WinSock E} `{MountDev} (env : wenv) (d : Z) (name : string) (drv : E -> wstate) (vh : Z -> Prop).
Context `{!WinLink env d name drv vh} (Hcall : NT_SUCCESS (we_call env) = true).
Context (rest : E -> R) `{!WinQuiet rest} (garbage : mem) (Hgarbage : 16 <= Z.of_nat (length garbage)).
Context (Huser : IOCTL_MOUNTDEV_LINK_CREATED <> ATDRCTL_GET_USER) (Hflip : IOCTL_MOUNTDEV_LINK_CREATED <> ATDR_FLIP_BITMAP_AREA).
Context (Hmalloc : forall n e, wos_malloc n e = true).

(** The server has a partner on the volume: connection [pfd], snapshot open as
    [dfd], sizes [G] and [C] negotiated, the driver's bitmap mapped. *)
Record win_serves (pid dfd pfd G C sz : Z) (bm : ATDR_BITMAP) (pblk : Z) (m : mem) (w : world E) : Prop := {
  vs_pid : 0 <= pid < 2048;
  vs_name : slen name < 64 /\ no_nul name;
  vs_present : present d (drv (ext w));
  vs_vol : vol_ok (drv (ext w)) d bm pblk m;
  vs_mapped : win_mapped name pid sz bm w;
  vs_size : sz <= BITMAP_SIZE;
  vs_recovery : aget (recovery_mode w) 0 = 0;
  vs_resume : cn_state (aget (ebdr_conn_server w) pid) <> CONN_OBJ_RESUME;
  vs_cancel : cancel_pending w = false;
  vs_state : ptn_state (aget (all_partner_servers w) pid) <> PARTNER_OBJ_RELEASED;
  vs_pfd : ptn_fd (aget (all_partner_servers w) pid) = pfd;
  vs_dfd : dsk_fd (aget (ebdr_disk_src_obj w) pid) = dfd;
  vs_grain : hd_grain (aget (replic_hdr_server_obj w) pid) = G;
  vs_chunk : hd_chunk (aget (replic_hdr_server_obj w) pid) = C;
  vs_conn : rp_conn (aget (replic_server_obj w) pid) = Some (PServer pid);
  vs_ops : cn_ops (aget (ebdr_conn_server w) pid) = Some server_ops;
}.

(** The state in which the snapshot is taken: a new buffer for the partner. *)
Definition with_buffer (pid : Z) (w : world E) : world E :=
  w <| heap ::= fun h => <[next_block w := no_bits]> h |> <| next_block ::= Z.succ |>
    <| bitmap_server_obj ::= aset pid (fun b => b <| ub_area := Some (next_block w) |>) |>
    <| bitmap_server_obj ::= aset pid (fun b => b <| ub_size := BITMAP_SIZE |> <| ub_state := EBDR_UBITMAP_INIT |>
         <| ub_mmap := MMAP_UNUSED |> <| ub_user := KERNEL |>) |>
    <| bitmap_server_obj ::= aset pid (fun b => b <| ub_ops := Some server_ops |>) |>
    <| ebdr_disk_src_obj ::= aset pid (fun x => x <| dsk_bitmap := Some (PServer pid) |>) |>.

Lemma bind_buffer {B} pid (k : unit -> MW E B) w :
  0 <= pid < 2048 ->
  bind (atdr_user_bitmap_init LOCAL pid) (fun _ =>
    bind (wr MAX_DISKS ebdr_disk_src_obj pid (fun x => x <| dsk_bitmap := Some (PServer pid) |>)) k) w = k tt (with_buffer pid w).
Proof.
  intros Hp. unfold atdr_user_bitmap_init, win_bitmap_server_create, atdr_log.
  assert (Hm : win_malloc BITMAP_SIZE no_bits w =
    Ret (Some (next_block w)) (w <| heap ::= fun h => <[next_block w := no_bits]> h |> <| next_block ::= Z.succ |>)).
  { unfold win_malloc. by rewrite Hmalloc. }
  rewrite bind_assoc. change (replicate (Z.to_nat BITMAP_SIZE) 0) with no_bits. rewrite (bind_Ret _ _ _ _ _ Hm).
  rewrite bind_assoc, bind_wr by (unfold MAX_BITMAP; lia). rewrite bind_assoc, bind_ret.
  rewrite bind_assoc, bind_wr by (unfold MAX_BITMAP; lia). rewrite bind_assoc, bind_ret.
  rewrite bind_wr by (unfold MAX_BITMAP; lia). by rewrite bind_wr by (unfold MAX_DISKS; lia).
Qed.

Lemma with_buffer_ready pid dfd pfd G C sz bm pblk m w :
  win_serves pid dfd pfd G C sz bm pblk m w ->
  win_ready d name drv pid sz (next_block w) no_bits bm pblk m (with_buffer pid w).
Proof.
  intros [Hpid Hname Hp Hok Hmap Hsz Hrec Hres _ _ _ _ _ _ _ _]. constructor; try done.
  - destruct Hmap. unfold with_buffer. constructor; by wsimpl.
  - unfold with_buffer. constructor; wsimpl; [done|apply lookup_insert_eq].
Qed.

(** What the handler has done when it sends its answer. *)
Record bitmap_taken (pid sz : Z) (bm : ATDR_BITMAP) (pblk : Z) (m bytes : mem) (w w1 : world E) : Prop := {
  bt_view : server_view rest pid w1 = server_view rest pid (with_buffer pid w);
  bt_vol : vol_ok (drv (ext w1)) d (flip_halves bm) pblk m;
  bt_wf : wf_mem bytes;
  bt_len : Z.of_nat (length bytes) = BITMAP_SIZE;
  bt_bits : forall k, 0 <= k < 8 * sz -> mem_bit bytes k = mem_bit m (8 * driver_off bm + k);
  bt_area : buffered pid (next_block w) bytes w1;
  bt_size : ub_size (aget (bitmap_server_obj w1) pid) = sz;
}.

Lemma win_bitmap_setup_ok pid dfd pfd G C sz bm pblk m w :
  win_serves pid dfd pfd G C sz bm pblk m w ->
  exists w1 bytes, win_bitmap_server_setup garbage pid pid (with_buffer pid w) = Ret 0 w1 /\
    bitmap_taken pid sz bm pblk m bytes w w1.
Proof.
  intros Hs. pose proof (vs_pid _ _ _ _ _ _ _ _ _ _ Hs) as Hpid. pose proof (with_buffer_ready _ _ _ _ _ _ _ _ _ _ Hs) as Hr.
  destruct (win_snapshot_ok env d name drv vh Hcall garbage Hgarbage Huser Hflip pid sz _ no_bits bm pblk m (with_buffer pid w) Hr)
    as (w2 & E2 & [Hp2 Hok2 Hmap2 (bytes & Hbuf & Hsh & Hbits) Hus Hsz2]).
  pose proof (win_load_quiet rest garbage pid (with_buffer pid w)) as Hview. rewrite E2 in Hview. cbn [end_state] in Hview.
  pose proof (shape_len _ _ Hsh) as Hlen. assert (Hlenz : Z.of_nat (length bytes) = BITMAP_SIZE) by (rewrite Hlen; apply length_no_bits).
  assert (Hwf : wf_mem bytes) by (apply Hsh, wf_no_bits).
  unfold win_bitmap_server_setup, atdr_log. rewrite bind_ret, bind_rd by (unfold MAX_BITMAP; lia).
  replace (ub_ops _) with (Some server_ops) by (unfold with_buffer; by wsimpl).
  rewrite (bind_Ret _ _ _ _ _ E2). change (0 <? 0) with false. cbn [when]. rewrite bind_ret.
  rewrite bind_rd by (unfold MAX_BITMAP; lia). rewrite (bind_block _ (next_block w) bytes) by apply Hbuf.
  rewrite win_total_same, get_total_bits_set_counts by done. rewrite bind_of_option.
  rewrite bind_wr by (unfold MAX_BITMAP; lia). rewrite bind_ret. rewrite bind_wr by (unfold MAX_BITMAP; lia).
  eexists _, bytes. split; [reflexivity|]. constructor; [|done|done|done|done| |].
  - rewrite <- Hview. unfold server_view. cbn. by rewrite !field_aset by done.
  - destruct Hbuf. constructor; by wsimpl.
  - by wsimpl.
Qed.

Lemma win_get_bitmap_ok pid dfd pfd G C sz bm pblk m h w :
  win_serves pid dfd pfd G C sz bm pblk m w -> hd_partner h = pid ->
  exists w1 bytes, bitmap_taken pid sz bm pblk m bytes w w1 /\
    forall r e', wos_send pfd (take (Z.to_nat sz) bytes) (ext w1) = (r, e') -> 0 <= r ->
      exists w2, win_get_bitmap garbage h w = Ret h w2 /\ ext w2 = e' /\ serving pid dfd pfd G C w2.
Proof.
  intros Hs <-. pose proof (vs_pid _ _ _ _ _ _ _ _ _ _ Hs) as Hpid.
  destruct (win_bitmap_setup_ok _ _ _ _ _ _ _ _ _ _ Hs) as (w1 & bytes & E1 & Ht). exists w1, bytes. split; [done|].
  intros r e' Es Hr. destruct Ht as [Hview Hok Hwf Hlen Hbits [Harea Hheap] Hsz]. destruct Hs.
  injection Hview as Hrest Hptn Hhdr Hrep Hio Hcan Hdfd Hops Hbm.
  unfold win_get_bitmap. rewrite bind_rd by (unfold MAX_PARTNERS; lia). rewrite (proj2 (Z.eqb_neq _ _) vs_state0). cbn [when].
  rewrite bind_ret, bind_buffer by done. rewrite bind_rd by (unfold MAX_BITMAP; lia).
  replace (ub_ops _) with (Some server_ops) by (unfold with_buffer; by wsimpl).
  unfold ignore at 1. rewrite bind_assoc, (bind_Ret _ _ _ _ _ E1), bind_ret.
  rewrite bind_rd by (unfold MAX_BITMAP; lia). rewrite (bind_block _ (next_block w) bytes) by done.
  rewrite bind_assert by (rewrite Hsz; bool_solve). rewrite bind_rd by (unfold MAX_PARTNERS; lia).
  unfold win_server_rep_send, win_rep_conn. rewrite !bind_assoc, bind_rd by (unfold MAX_REPLICATIONS; lia).
  rewrite Hrep, vs_conn0, bind_rd by (unfold MAX_CONN; lia). rewrite Hops, Hptn, vs_pfd0, Hsz.
  rewrite vs_ops0. unfold atdr_conn_server_send. change (table_find DATA_TYPE _) with (Some (@win_server_send_data E _)).
  unfold win_server_send_data. rewrite bind_assoc, (bind_sys _ _ _ _ _ Es). replace (r <? 0) with false by bool_solve.
  rewrite bind_ret. change (0 <? 0) with false. cbv iota.
  destruct (load_Some 4 bytes 0) as [v Hv]; [lia|rewrite Hlen; unfold BITMAP_SIZE; lia|]. rewrite Hv.
  unfold ignore. rewrite bind_assoc, bind_of_option, bind_ret.
  unfold win_io_engine_init, win_io_server_obj_create, atdr_log. rewrite (proj2 (Z.ltb_lt _ _)) by (unfold MAX_IO; lia).
  rewrite !bind_assoc, bind_wr by (unfold MAX_IO; lia). rewrite bind_ret.
  eexists. split; [reflexivity|]. split; [done|].
  constructor; wsimpl; rewrite ?Hptn, ?Hhdr, ?Hdfd, ?Hcan, ?field_aset by done; done.
Qed.
End get_bitmap.
