(* ===== verification/WinClientFetch.v ===== *)
(** * The client: fetching the bitmap, starting the resync

    [win_request_server_for_metadata] puts the bytes the server sends into a
    new buffer; [win_resync_init] and the thread it creates,
    [win_resync_handler], run the resync on it.  A bitmap cut short by the
    network loses the marks behind the cut ([short_bitmap_forgets_grains]). *)
From S2P Require Import Prelude Memory KernelState KBitmap KBitmapSpec CMonad CString World UBitmap Db Partner Header ReplicServer Resync.
From S2P Require Import WinDb WinClient WinObjects WinServer WinResync WinProtocol WorldTac UBitmapSpec TransferLoop WinResyncSpec WinFetch.

(** The partner [pid] has been made: connection [fd], sizes negotiated, target
    disk [name]; nothing is paused. *)
Record win_client_set {E} (pid fd G C : Z) (name : string) (w : world E) : Prop := {
  cs_pause : ptn_state (aget (all_partner_clients w) pid) <> PARTNER_OBJ_PAUSE;
  cs_released : ptn_state (aget (all_partner_clients w) pid) <> PARTNER_OBJ_RELEASED;
  cs_valid : is_client_partner_id_valid pid w = true;
  cs_sock : ptn_fd (aget (all_partner_clients w) pid) = fd;
  cs_conn : rp_conn (aget (replic_client_obj w) pid) = Some (PClient pid);
  cs_ops : cn_ops (aget (ebdr_conn_client w) pid) = Some client_ops;
  cs_rep : 0 <= rp_state (aget (replic_client_obj w) pid) < RESYNC_COMPLETED;
  cs_grain : hd_grain (aget (replic_hdr_client_obj w) pid) = G;
  cs_chunk : hd_chunk (aget (replic_hdr_client_obj w) pid) = C;
  cs_name : dsk_name (aget (ebdr_disk_target_obj w) pid) = name;
  cs_dops : dsk_ops (aget (ebdr_disk_target_obj w) pid) = Some client_ops;
  cs_bitmap : ub_obj_state (aget (bitmap_client_obj w) pid) <> BITMAP_OBJ_PAUSE;
}.

(** ... and the bitmap [m] is in block [blk]. *)
Record win_client_fetched {E} (pid fd G C : Z) (name : string) (blk : Z) (m : mem) (w : world E) : Prop := {
  cf_set : win_client_set pid fd G C name w;
  cf_bitmap : dsk_bitmap (aget (ebdr_disk_target_obj w) pid) = Some (PClient pid);
  cf_area : ub_area (aget (bitmap_client_obj w) pid) = Some blk;
  cf_size : ub_size (aget (bitmap_client_obj w) pid) = BITMAP_SIZE;
  cf_bmops : ub_ops (aget (bitmap_client_obj w) pid) = Some client_ops;
  cf_heap : heap w !! blk = Some m;
}.

Section fetch.
Context {E : Type} `{WinOS E} `{WinSock E} (pid fd G C : Z) (name : string).
Context (Hpid : 0 <= pid < 2048) (Hmalloc : forall n e, wos_malloc n e = true).
Context (Hwrite : forall nm m e, is_Some (wos_fwrite nm m e)).

#[local] Abbreviation client_set := (win_client_set pid fd G C name).
#[local] Abbreviation fetched := (win_client_fetched pid fd G C name).

Ltac solve_set := constructor; unfold is_client_partner_id_valid in *; wsimpl; try assumption.

Lemma set_ext (w : world E) e : client_set w -> client_set (w <| ext := e |>).
Proof. intros []. by constructor. Qed.

Lemma fetched_ext blk m (w : world E) e : fetched blk m w -> fetched blk m (w <| ext := e |>).
Proof. intros [Hs]. constructor; try done. by apply set_ext. Qed.

(** The new buffer, and the header of the request. *)
Definition asking (w : world E) : world E :=
  w <| heap ::= fun h => <[next_block w := no_bits]> h |> <| next_block ::= Z.succ |>
    <| bitmap_client_obj ::= aset pid (fun b => b <| ub_area := Some (next_block w) |>) |>
    <| bitmap_client_obj ::= aset pid (fun b => b <| ub_size := BITMAP_SIZE |> <| ub_state := EBDR_UBITMAP_INIT |> <| ub_ops := Some client_ops |>) |>
    <| replic_hdr_client_obj ::= aset pid (fun h => h <| hd_opcode := BITMAP_METADATA |> <| hd_partner := pid |>) |>.

Lemma bind_asking {B} (k : unit -> MW E B) w :
  bind (atdr_user_bitmap_init REMOTE pid) (fun _ =>
    bind (wr MAX_HDR replic_hdr_client_obj pid (fun h => h <| hd_opcode := BITMAP_METADATA |> <| hd_partner := pid |>)) k) w = k tt (asking w).
Proof using Hpid Hmalloc.
  unfold atdr_user_bitmap_init, win_bitmap_client_create.
  assert (Hm : win_malloc BITMAP_SIZE no_bits w =
    Ret (Some (next_block w)) (w <| heap ::= fun h => <[next_block w := no_bits]> h |> <| next_block ::= Z.succ |>)).
  { unfold win_malloc. by rewrite Hmalloc. }
  rewrite bind_assoc. change (replicate (Z.to_nat BITMAP_SIZE) 0) with no_bits. rewrite (bind_Ret _ _ _ _ _ Hm).
  rewrite bind_assoc, bind_wr by (unfold MAX_BITMAP; lia). rewrite bind_assoc, bind_ret.
  rewrite bind_wr by (unfold MAX_BITMAP; lia). by rewrite bind_wr by (unfold MAX_HDR; lia).
Qed.

Definition bitmap_request (w : world E) : replic_header :=
  (aget (replic_hdr_client_obj w) pid) <| hd_opcode := BITMAP_METADATA |> <| hd_partner := pid |>.

(** The answer arrives in the buffer; the file is written when its first word
    is not zero. *)
Lemma bind_received {B} n bytes e2 (k : unit -> MW E B) w blk m :
  rp_conn (aget (replic_client_obj w) pid) = Some (PClient pid) ->
  cn_ops (aget (ebdr_conn_client w) pid) = Some client_ops ->
  ub_area (aget (bitmap_client_obj w) pid) = Some blk -> heap w !! blk = Some m -> Z.of_nat (length m) = BITMAP_SIZE ->
  wos_recv fd BITMAP_SIZE (ext w) = (n, bytes, e2) -> 0 < n -> Z.of_nat (length bytes) <= BITMAP_SIZE ->
  bind (ignore (win_client_rep_recv_data pid pid BITMAP_SIZE fd)) k w =
    k tt (w <| ext := e2 |> <| heap ::= fun h => <[blk := bytes ++ drop (length bytes) m]> h |>).
Proof using Hpid.
  clear -Hpid. intros Hc Ho Ha Hh Hl Hr Hn Hb.
  assert (Hrun : win_recv_data pid BITMAP_SIZE fd w =
    Ret 0 (w <| ext := e2 |> <| heap ::= fun h => <[blk := bytes ++ drop (length bytes) m]> h |>)).
  { unfold win_recv_data. rewrite bind_rd by (unfold MAX_BITMAP; lia). rewrite (bind_block _ blk m) by done.
    rewrite bind_assert by bool_solve. erewrite bind_sys by (rewrite Hr; reflexivity).
    cbv beta iota. replace (n <=? 0) with false by bool_solve. cbn [when]. rewrite bind_ret, Ha.
    unfold set_block at 1. unfold bind at 1. cbn [mbind option_bind]. wsimpl. rewrite Hh. cbn.
    rewrite (bind_block _ blk (bytes ++ drop (length bytes) m)) by (wsimpl; done || apply lookup_insert_eq).
    destruct (load_Some 4 (bytes ++ drop (length bytes) m) 0) as [v ->]; [lia|rewrite length_app, length_drop; unfold BITMAP_SIZE in *; lia|].
    reflexivity. }
  unfold win_client_rep_recv_data, ignore. rewrite !bind_assoc, bind_client_conn by done.
  rewrite ?bind_assoc, (bind_Ret _ _ _ _ _ Hrun). by rewrite ?bind_ret.
Qed.

Lemma win_fetch_ok (w : world E) r e1 n bytes e2 :
  client_set w -> wos_send_hdr fd (bitmap_request w) (ext w) = (r, e1) ->
  wos_recv fd BITMAP_SIZE e1 = (n, bytes, e2) -> 0 < n -> Z.of_nat (length bytes) <= BITMAP_SIZE ->
  exists v w', win_request_server_for_metadata pid w = Ret v w' /\
    fetched (next_block w) (bytes ++ drop (length bytes) no_bits) w' /\
    (ext w' = e2 \/ exists nm m, wos_fwrite nm m e2 = Some (ext w')).
Proof.
  intros Hs Es Er Hn Hb. pose proof Hs as []. set (m := bytes ++ drop (length bytes) no_bits).
  unfold win_request_server_for_metadata. rewrite bind_asking.
  rewrite bind_rd by (unfold MAX_PARTNERS; lia). change (all_partner_clients (asking w)) with (all_partner_clients w).
  rewrite (proj2 (Z.eqb_neq _ _) cs_released0). cbn [when]. rewrite bind_ret, bind_rd by (unfold MAX_BITMAP; lia).
  replace (ub_obj_state _ =? BITMAP_OBJ_PAUSE) with false by (symmetry; unfold asking; wsimpl; by apply Z.eqb_neq).
  replace (ub_ops _) with (Some client_ops) by (unfold asking; by wsimpl).
  unfold win_bitmap_client_setup, atdr_log, ignore at 1. rewrite bind_assoc, bind_assoc, bind_wr by (unfold MAX_BITMAP; lia).
  rewrite bind_assoc, bind_ret, bind_ret, bind_ret. set (w1 := set_field bitmap_client_obj _ (asking w)).
  assert (Hs1 : client_set w1).
  { unfold w1, asking. solve_set. done. }
  assert (Ha1 : ub_area (aget (bitmap_client_obj w1) pid) = Some (next_block w)) by (unfold w1, asking; by wsimpl).
  assert (Hz1 : ub_size (aget (bitmap_client_obj w1) pid) = BITMAP_SIZE) by (unfold w1, asking; by wsimpl).
  assert (Ho1 : ub_ops (aget (bitmap_client_obj w1) pid) = Some client_ops) by (unfold w1, asking; by wsimpl).
  assert (Hh1 : heap w1 !! next_block w = Some no_bits) by (unfold w1, asking; wsimpl; apply lookup_insert_eq).
  assert (Hq1 : aget (replic_hdr_client_obj w1) pid = bitmap_request w) by (unfold w1, asking, bitmap_request; by wsimpl).
  assert (He1 : ext w1 = ext w) by done. clearbody w1.
  rewrite bind_rd by (unfold MAX_HDR; lia). rewrite bind_rd by (unfold MAX_PARTNERS; lia). rewrite Hq1, (cs_sock _ _ _ _ _ _ Hs1).
  destruct (win_send_ok pid fd Hpid (bitmap_request w) w1 (cs_conn _ _ _ _ _ _ Hs1) (cs_ops _ _ _ _ _ _ Hs1)) as (r0 & Es1 & _).
  unfold ignore at 1. rewrite bind_assoc, (bind_Ret _ _ _ _ _ Es1), bind_ret, He1, Es. cbn [snd].
  rewrite bind_rd by (unfold MAX_BITMAP; lia). change (bitmap_client_obj (w1 <| ext := e1 |>)) with (bitmap_client_obj w1). rewrite Hz1, Ha1.
  rewrite (bind_received n bytes e2 _ _ (next_block w) no_bits);
    [|apply (cs_conn _ _ _ _ _ _ Hs1)|apply (cs_ops _ _ _ _ _ _ Hs1)|exact Ha1|exact Hh1|exact length_no_bits|exact Er|done|done].
  fold m. rewrite bind_wr by (unfold MAX_DISKS; lia). set (w2 := set_field ebdr_disk_target_obj _ _).
  assert (Hf2 : fetched (next_block w) m w2).
  { unfold w2. destruct Hs1. constructor; wsimpl; try done; [solve_set|apply lookup_insert_eq]. }
  assert (He2 : ext w2 = e2) by done. clearbody w2. pose proof Hf2 as [Hs2 _ Ha2 Hz2 Ho2 Hh2].
  assert (Hlm : Z.of_nat (length m) = BITMAP_SIZE).
  { unfold m. rewrite length_app, length_drop. pose proof length_no_bits. lia. }
  rewrite (bind_block _ (next_block w) m) by done.
  destruct (load_Some 4 m 0) as [v Hv]; [lia|rewrite Hlm; unfold BITMAP_SIZE; lia|]. rewrite Hv, bind_of_option.
  destruct (v =? 0).
  { exists 0, w2. split; [done|]. split; [done|]. by left. }
  rewrite bind_rd by (unfold MAX_BITMAP; lia). rewrite Ho2. unfold ignore, win_store_bitmap_to_disk, win_bitmap_file. rewrite !bind_assoc.
  rewrite bind_cstring by (rewrite slen_app; change (slen "c:\bitmlap") with 10; pose proof (slen_dec pid 4); lia).
  rewrite bind_assoc, bind_rd by (unfold MAX_BITMAP; lia). rewrite Ha2, Hz2. rewrite bind_assoc, (bind_block _ (next_block w) m) by done.
  rewrite bind_assoc, bind_assert by (rewrite Hlm; bool_solve). rewrite bind_assoc, bind_get, He2.
  destruct (Hwrite ("c:\bitmlap" +:+ dec pid) (text_write (take (Z.to_nat BITMAP_SIZE) m)) e2) as [e3 He3]. rewrite He3.
  rewrite bind_assoc, bind_put, !bind_ret. exists 1, (w2 <| ext := e3 |>). split; [done|]. split; [by apply fetched_ext|].
  right. by eexists _, _.
Qed.

(** The client asks for the bitmap in one [recv] and does not look at what came:
    if the network delivers the first [n] bytes of it, the grains behind them
    are taken for clean, and no request for them is ever sent. *)
Theorem short_bitmap_forgets_grains (w : world E) r e1 n bytes e2 :
  client_set w -> wos_send_hdr fd (bitmap_request w) (ext w) = (r, e1) ->
  wos_recv fd BITMAP_SIZE e1 = (n, bytes, e2) -> 0 < n < BITMAP_SIZE -> Z.of_nat (length bytes) = n ->
  exists v w' m, win_request_server_for_metadata pid w = Ret v w' /\ fetched (next_block w) m w' /\
    forall k, mem_bit m k = (k <? 8 * n) && mem_bit bytes k.
Proof.
  intros Hs Es Er [Hn Hlt] Hl. destruct (win_fetch_ok w r e1 n bytes e2 Hs Es Er Hn) as (v & w' & Ew & Hf & _); [lia|].
  exists v, w', (bytes ++ drop (length bytes) no_bits). split; [exact Ew|]. split; [exact Hf|].
  intros k. rewrite mem_bit_app, mem_bit_drop, mem_bit_no_bits, Hl. rewrite ?andb_false_r. by destruct (k <? 8 * n).
Qed.

(** ** The thread *)

(** What [win_resync_init] leaves to the thread. *)
Definition started (created : bool) (e : E) (w : world E) : world E :=
  let w1 := w <| io_client_obj ::= aset pid (fun o => o <| io_state := IO_OBJ_IN_USE |> <| io_ops := Some client_ops |>) |>
              <| thread_params ::= aset pid (fun t => t <| th_pid := pid |> <| th_bit_pos := 0 |>) |> <| ext := e |> in
  w1 <| threads ::= fun l => l ++ [TResync pid] |>.

Lemma win_resync_init_ok w e :
  is_client_partner_id_valid pid w = true -> wos_CreateThread (ext w) = (true, e) ->
  win_resync_init pid 0 w = Ret 0 (started true e w).
Proof using Hpid.
  clear -Hpid. intros Hv Ht. unfold win_resync_init, win_io_engine_init, win_io_client_obj_create, atdr_log.
  rewrite (proj2 (Z.ltb_lt _ _)) by (unfold MAX_IO; lia). rewrite !bind_assoc, bind_wr by (unfold MAX_IO; lia).
  rewrite bind_ret, bind_get. change (is_client_partner_id_valid pid _) with (is_client_partner_id_valid pid w). rewrite Hv. cbn [negb].
  rewrite (proj2 (Z.ltb_lt _ _)) by (unfold MAX_DISKS; lia). cbn [when].
  rewrite bind_assoc, bind_wr by (unfold MAX_DISKS, CNTRL_THREADS; lia). rewrite bind_assoc.
  erewrite bind_sys by exact Ht. cbn [negb]. reflexivity.
Qed.

Lemma win_resync_handler_runs w bit :
  th_bit_pos (aget (thread_params w) pid) = bit ->
  win_resync_handler pid w = win_restart_resync pid bit NO_RESYNC
    (w <| thread_params ::= aset pid (fun t => t <| th_pid := pid |> <| th_level := 4 |> <| th_str := "DATUG"%string |>) |>).
Proof using Hpid.
  clear -Hpid. intros <-. unfold win_resync_handler. rewrite bind_rd by (unfold MAX_DISKS, CNTRL_THREADS; lia).
  unfold ignore. rewrite bind_assoc, bind_cstring.
  2:{ rewrite !slen_app. change (slen "./log") with 5. change (slen ".txt") with 4. pose proof (slen_dec pid 4). lia. }
  rewrite bind_ret. unfold win_log_setup. by rewrite bind_wr by (unfold MAX_DISKS, CNTRL_THREADS; lia).
Qed.

(** Fetched and started: the resync loop's precondition. *)
Lemma fetched_prepared (P : peer E) blk m e (w : world E) :
  fetched blk m w -> pr_good P e ->
  win_prepared P pid fd G C blk name m
    ((started true e w) <| thread_params ::= aset pid (fun t => t <| th_pid := pid |> <| th_level := 4 |> <| th_str := "DATUG"%string |>) |>).
Proof using Hpid.
  clear -Hpid. intros [[] ] Hg. unfold started. constructor; wsimpl; first [assumption|done].
Qed.
End fetch.
