(* ===== verification/WinEndToEnd.v ===== *)
(** * From the writes on the source to the copy on the target, on Windows

    The pieces together: the filter driver marks the writes on the source
    volume, the client asks the server process for the bitmap, the server takes
    its snapshot of the driver's half, the client's resync thread asks for the
    dirty grains.  The network is taken to keep the connection and to cut no
    receive short; a bitmap cut short loses the grains behind the cut
    ([short_bitmap_forgets_grains]). *)
From S2P Require Import Prelude Memory KernelState KBitmap KBitmapSpec KernelMain KernelInv KernelSteps KernelProps KernelTrace.
From S2P Require Import Tracker WinState WinFilter WinSpec WinProps TrackerProps WinInv WinLoad WinLimits WinExample.
From S2P Require Import CMonad CString World UBitmap Db Disk Partner Relation Header ReplicServer ConnServer Resync WorldTac UBitmapSpec SnapshotSpec.
From S2P Require Import TransferLoop ServerSpec Sim LinkSpec ResyncProps WinDb WinClient WinObjects WinServer WinResync WinProtocol WinSnapshot.
From S2P Require Import WinClientProps WinHost WinResyncSpec WinServerSpec WinPair WinResyncProps WinFetch WinClientFetch.

Section pair.
Context (env : wenv) (garbage : mem) (net : network).

#[local] Instance pair_server_os : WinOS shost := shost_os env.
#[local] Instance pair_server_sock : WinSock shost := shost_sock.
#[local] Instance pair_client_os : WinOS wlink := wlink_os net.
#[local] Instance pair_client_sock : WinSock wlink := wlink_sock env garbage.

(** ** The server's machine has the driver *)
Definition sh_drv (e : shost) : wstate := wh_drv (sh_host e).

Lemma shost_link : WinLink env 1 "E:" sh_drv (fun h => h = 1).
Proof.
  pose proof (whost_link env) as L. split.
  - done.
  - intros share flags e st irp' s' Ed Hst. exists 1, (e <| sh_host ::= fun h => h <| wh_drv := s' |> |>).
    split; [|done]. cbn. unfold on_host. cbn. unfold wh_dispatch. unfold sh_drv in Ed. rewrite Ed. cbn. by rewrite Hst.
  - intros h e st1 irp1 s1 st2 irp2 s2 -> E1 E2. cbn. unfold sh_drv. cbn. unfold wh_send, wh_dispatch.
    unfold sh_drv in E1. rewrite E1. cbn. by rewrite E2.
  - intros h cmd input outlen e st irp' s' -> Hl Ed. exists (e <| sh_host ::= fun h => h <| wh_drv := s' |> |>).
    split; [|done]. cbn. unfold wh_dispatch. unfold sh_drv in Ed. by rewrite Ed.
  - intros e bm p m Hb Hp Hm. exact (@wl_read _ _ _ _ _ _ _ _ L (sh_host e) bm p m Hb Hp Hm).
  - intros e bm p m Hb Hp. exact (@wl_write _ _ _ _ _ _ _ _ L (sh_host e) bm p m Hb Hp).
Qed.

(** What the driver's requests leave alone. *)
Definition sh_rest (e : shost) : mem * list mem := (sh_disk e, sh_data e).

Lemma shost_quiet : WinQuiet sh_rest.
Proof.
  split.
  - intros nm share flags e. cbn. destruct (decide _); [|done]. unfold on_host.
    match goal with |- context [let '(_, _) := ?x in _] => by destruct x end.
  - intros h e. cbn. by destruct (h =? 5).
  - intros h cmd input n e. cbn. by destruct (wh_dispatch env _ _) as [[[st irp] h']|].
Qed.

(** ** The bitmap over the link *)
Context (Hcall : NT_SUCCESS (we_call env) = true) (Hgarbage : 16 <= Z.of_nat (length garbage)) (Hcodes : codes_distinct).

#[local] Abbreviation serves := (win_serves 1 "E:" sh_drv).

Lemma serves_ext pid dfd pfd G C sz bm pblk m s e :
  serves pid dfd pfd G C sz bm pblk m s -> sh_host e = sh_host (ext s) -> serves pid dfd pfd G C sz bm pblk m (s <| ext := e |>).
Proof.
  intros [] He. constructor; try done; unfold sh_drv; wsimpl; rewrite ?He; try done.
  match goal with Hm : win_mapped _ _ _ _ _ |- _ => destruct Hm end. by constructor.
Qed.

Lemma win_deliver_bitmap src pid dfd pfd G C sz bm pblk m h e :
  wk_up e = true -> wk_stream e = [] -> serves pid dfd pfd G C sz bm pblk m (wk_server e) -> sh_disk (ext (wk_server e)) = src ->
  length (wk_target e) = length src -> hd_opcode h = BITMAP_METADATA -> hd_partner h = pid ->
  exists e1 bytes, win_deliver env garbage h e = (1, e1) /\ wk_stream e1 = take (Z.to_nat sz) bytes /\
    win_link_good src pid dfd pfd G C (e1 <| wk_stream := [] |>) /\ wk_target e1 = wk_target e /\
    wf_mem bytes /\ Z.of_nat (length bytes) = BITMAP_SIZE /\
    forall k, 0 <= k < 8 * sz -> mem_bit bytes k = mem_bit m (8 * driver_off bm + k).
Proof.
  intros Hup Hst Hsv Hdisk Htgt Hop Hp. destruct Hcodes as (Hc1 & Hc2 & _).
  set (s := (wk_server e) <| ext ::= fun x => x <| sh_in := [h] |> <| sh_data := [] |> |>).
  set (s1 := s <| ext := (ext s) <| sh_in := [] |> |>).
  assert (Hsv1 : serves pid dfd pfd G C sz bm pblk m s1) by (unfold s1, s; apply serves_ext; [by apply serves_ext|done]).
  destruct (@win_get_bitmap_ok shost _ _ _ _ env 1 "E:" sh_drv (fun h => h = 1) shost_link Hcall sh_rest shost_quiet garbage Hgarbage
    Hc1 Hc2 ltac:(done) pid dfd pfd G C sz bm pblk m h s1 Hsv1 Hp) as (w1 & bytes & [Hview _ Hwf Hlen Hbits _ _] & Hrun).
  injection Hview as Hrd Hrdata _ _ _ _ _ _ _ _.
  destruct (Hrun (Z.of_nat (length (take (Z.to_nat sz) bytes)))
    ((ext w1) <| sh_data ::= fun l => l ++ [take (Z.to_nat sz) bytes] |>)) as (w2 & Ew & He2 & Hs2); [done|lia|].
  exists (e <| wk_server := w2 |> <| wk_stream ::= fun b => b ++ concat (sh_data (ext w2)) |>), bytes. split.
  - unfold win_deliver. fold s. unfold win_server_recv_step. erewrite (@bind_sys shost); [|cbn; reflexivity].
    cbv beta iota. change (1 <? 0) with false. cbv iota. change (default zeroed (Some h)) with h.
    change (s <| ext := _ |>) with s1. rewrite (bind_Ret _ _ s1 h w2); [done|].
    rewrite win_dispatch_handled, Hop.
    change (table_find (opcode_code BITMAP_METADATA) (win_cmdMap garbage)) with (Some (@win_get_bitmap shost _ _ garbage)). exact Ew.
  - split; [|split; [|split; [done|split; [done|split; [done|done]]]]].
    + cbn. rewrite Hst, He2. cbn. rewrite Hrdata. apply app_nil_r.
    + constructor; [done|exact Hs2| |done|done]. cbn. rewrite He2. cbn. by rewrite Hrd.
Qed.

(** ** The whole way *)

(** The bytes a list of writes may have changed. *)
Definition written (qs : list write_req) (a : Z) : Prop :=
  Exists (fun q => 512 * wq_sector q <= a < 512 * (wq_sector q + wq_count q)) qs.

Lemma written_touched g qs a : 0 < g -> written qs a -> writes_touch g qs (a / (512 * g)) = true.
Proof.
  intros Hg Hw. unfold writes_touch. apply existsb_exists. apply Exists_exists in Hw as (q & Hq & Ha).
  exists q. split; [by apply list_elem_of_In|]. unfold req_touches, in_range.
  rewrite <- Z.div_div by lia. set (s := a / 512).
  assert (wq_sector q <= s < wq_sector q + wq_count q) as Hs by (unfold s; lia).
  pose proof (Z.div_le_mono (wq_sector q) s g ltac:(lia) ltac:(lia)).
  pose proof (Z.div_le_mono s (wq_sector q + wq_count q) g ltac:(lia) ltac:(lia)). bool_solve.
Qed.

(** The driver's state after the writes, seen from the client's machine. *)
Definition after_writes (s : wstate) (w : world wlink) : world wlink :=
  w <| ext ::= fun e => e <| wk_server ::= fun v => v <| ext ::= fun x => x <| sh_host ::= fun h => h <| wh_drv := s |> |> |> |> |>.

(** The client's bitmap: what was sent, then zeros. *)
Definition received (sz : Z) (bytes : mem) : mem :=
  take (Z.to_nat sz) bytes ++ drop (length (take (Z.to_nat sz) bytes)) no_bits.

Lemma received_bits sz bytes k :
  0 <= sz <= BITMAP_SIZE -> Z.of_nat (length bytes) = BITMAP_SIZE ->
  mem_bit (received sz bytes) k = (k <? 8 * sz) && mem_bit bytes k.
Proof.
  intros Hs Hl. unfold received. rewrite mem_bit_app, mem_bit_take, mem_bit_drop, mem_bit_no_bits, andb_false_r.
  rewrite length_take. replace (Z.of_nat (Z.to_nat sz `min` length bytes)) with sz by lia.
  rewrite Z2Nat.id by lia. by destruct (k <? 8 * sz).
Qed.

Lemma received_wf sz bytes : wf_mem bytes -> wf_mem (received sz bytes).
Proof. intros Hb. apply Forall_app. split; [by apply Forall_take|apply Forall_drop, wf_no_bits]. Qed.

Lemma length_received sz bytes :
  0 <= sz <= BITMAP_SIZE -> Z.of_nat (length bytes) = BITMAP_SIZE -> Z.of_nat (length (received sz bytes)) = BITMAP_SIZE.
Proof. intros Hs Hl. unfold received. rewrite length_app, length_drop, length_take. pose proof length_no_bits. lia. Qed.
(** A grain that is not marked was not written. *)
Lemma received_images G sz bytes m m2 bm qs src t0 t :
  0 < G -> 0 <= sz <= BITMAP_SIZE -> Z.of_nat (length bytes) = BITMAP_SIZE -> Z.of_nat (length src) = 512 * G * (8 * sz) ->
  (forall k, 0 <= k < 8 * sz -> mem_bit bytes k = mem_bit m2 (8 * driver_off bm + k)) ->
  (forall k, mem_bit m2 k = writes_touch G qs (k - 8 * driver_off bm) || mem_bit m k) ->
  (forall a, 0 <= a < Z.of_nat (length src) -> ~ written qs a -> t0 a = bytes_image src a) ->
  (forall a, t a = if mem_bit (received sz bytes) (a / (512 * G)) then bytes_image src a else t0 a) ->
  forall a, 0 <= a < Z.of_nat (length src) -> t a = bytes_image src a.
Proof.
  intros HG Hsz Hlen Hsrc Hb Hm Ht0 Ht a Ha. rewrite Ht, received_bits by done. set (k := a / (512 * G)).
  assert (Hk : 0 <= k < 8 * sz) by (unfold k; split; [apply Z.div_pos; lia|apply Z.div_lt_upper_bound; lia]).
  rewrite (proj2 (Z.ltb_lt _ _)) by lia. cbn [andb]. rewrite Hb, Hm by done.
  replace (8 * driver_off bm + k - 8 * driver_off bm) with k by lia.
  destruct (writes_touch G qs k) eqn:Ew; [done|]. cbn [orb]. destruct (mem_bit m _); [done|].
  apply Ht0; [done|]. intros Hw. apply (written_touched G) in Hw; [|done]. fold k in Hw. congruence.
Qed.

#[local] Abbreviation client_set := (win_client_set (E := wlink)).

(** A receive the network leaves whole. *)
Lemma stream_recv_whole fd n e :
  keeps net fd -> unsegmented net fd -> Z.of_nat (length (wk_stream e)) <= n -> n <= BITMAP_SIZE ->
  exists e', stream_recv net fd n e = (Z.of_nat (length (wk_stream e)), wk_stream e, e') /\ wk_stream e' = [] /\
    wk_server e' = wk_server e /\ wk_up e' = wk_up e /\ wk_target e' = wk_target e.
Proof.
  intros Hk Hu Hl Hn. unfold stream_recv. destruct (net fd (wk_recvs e)) as [j|] eqn:Ej; [|by destruct (Hk _ Ej)].
  pose proof (Hu _ _ Ej). rewrite take_ge by lia. eexists. split; [reflexivity|]. split; [by apply drop_ge|done].
Qed.

(** The fetch over the link. *)
Lemma win_fetch_over_link src pid dfd pfd fd G name sz bm pblk m (w : world wlink) :
  serves pid dfd pfd G 8 sz bm pblk m (wk_server (ext w)) -> client_set pid fd G 8 name w -> 0 < sz <= BITMAP_SIZE ->
  wk_up (ext w) = true -> wk_stream (ext w) = [] -> keeps net fd -> unsegmented net fd ->
  sh_disk (ext (wk_server (ext w))) = src -> length (wk_target (ext w)) = length src ->
  exists v w1 bytes, win_request_server_for_metadata pid w = Ret v w1 /\
    win_client_fetched pid fd G 8 name (next_block w) (received sz bytes) w1 /\
    win_link_good src pid dfd pfd G 8 (ext w1) /\ wk_target (ext w1) = wk_target (ext w) /\
    wf_mem bytes /\ Z.of_nat (length bytes) = BITMAP_SIZE /\
    forall k, 0 <= k < 8 * sz -> mem_bit bytes k = mem_bit m (8 * driver_off bm + k).
Proof.
  intros Hsv Hset Hsz Hup Hst Hkeep Huns Hdisk Htgt. pose proof (vs_pid _ _ _ _ _ _ _ _ _ _ _ _ _ Hsv) as Hpid.
  destruct (win_deliver_bitmap src pid dfd pfd G 8 sz bm pblk m (bitmap_request pid w) (ext w))
    as (e1 & bytes & Ed & Hdata & Hgood & Ht1 & Hwf & Hlen & Hbits); [done..|].
  assert (Hls : Z.of_nat (length (take (Z.to_nat sz) bytes)) = sz) by (rewrite length_take; lia).
  destruct (stream_recv_whole fd BITMAP_SIZE e1 Hkeep Huns) as (e2 & Er & Hst2 & Hsv2 & Hup2 & Htg2); [by rewrite Hdata, Hls; lia|done|].
  destruct (win_fetch_ok pid fd G 8 name Hpid ltac:(done) ltac:(by eexists) w 1 e1 sz (take (Z.to_nat sz) bytes) e2 Hset)
    as (v & w1 & Ew & Hf & He).
  - cbn. rewrite Hup. exact Ed.
  - cbn [wos_recv pair_client_os wlink_os]. rewrite Hdata in Er |- *. rewrite Hls in Er.
    rewrite (wlg_up _ _ _ _ _ _ _ Hgood : wk_up e1 = true). by destruct (take (Z.to_nat sz) bytes); [cbn in Hls; lia|].
  - lia.
  - lia.
  - exists v, w1, bytes. split; [exact Ew|]. split; [exact Hf|].
    assert (Hg2 : win_link_good src pid dfd pfd G 8 e2).
    { destruct Hgood. constructor; by rewrite ?Hsv2, ?Hup2, ?Htg2. }
    assert (Hsame : wk_target (ext w1) = wk_target e2 /\ win_link_good src pid dfd pfd G 8 (ext w1)).
    { destruct He as [->|(nm & mm & [= <-])]; [done|]. split; [done|]. by destruct Hg2. }
    destruct Hsame as [Ht Hg]. split; [exact Hg|]. split; [by rewrite Ht, Htg2|done].
Qed.

(** C2. The whole way on Windows: while the two volumes agree, writes go through
    the filter driver of the source; then the client asks for the bitmap and
    starts the resync.  The driver marks the writes, the server sends the marks
    and the grains, and the target ends byte for byte equal to the source - for
    volumes of at most 4 GB, writes that end before the last tracked sector,
    and a network that keeps the connection and cuts no receive short. *)
Theorem windows_writes_reach_the_target src pid dfd pfd fd G name sz bm pblk m qs (w : world wlink) :
  let sv := wk_server (ext w) in
  serves pid dfd pfd G 8 sz bm pblk m sv -> client_set pid fd G 8 name w ->
  wk_up (ext w) = true -> wk_stream (ext w) = [] -> keeps net fd -> unsegmented net fd -> sh_disk (ext sv) = src -> length (wk_target (ext w)) = length src ->
  G = ab_grain_size bm / 512 -> 0 < G -> G mod 8 = 0 ->
  Z.of_nat (length src) = 512 * G * (8 * sz) -> Z.of_nat (length src) <= 2 ^ 32 ->
  slen name < 14 -> Forall (op_fits (8 * sz) G) (map TWrite qs) ->
  (forall a, 0 <= a < Z.of_nat (length src) -> ~ written qs a -> bytes_image (wk_target (ext w)) a = bytes_image src a) ->
  exists s2, @tr_run wstate (windows_tracker env 1) (map TWrite qs) (sh_drv (ext sv)) = Some s2 /\
    exists v w1 w2 w3, win_request_server_for_metadata pid (after_writes s2 w) = Ret v w1 /\
      win_resync_init pid 0 w1 = Ret 0 w2 /\ win_resync_handler pid w2 = Ret tt w3 /\
      forall a, 0 <= a < Z.of_nat (length src) -> bytes_image (wk_target (ext w3)) a = bytes_image src a.
Proof.
  intros sv Hsv Hset Hup Hst Hkeep Huns Hdisk Htgt HG HG0 Hmod Hsrc H4G Hname Hqs Hsame.
  pose proof (vs_pid _ _ _ _ _ _ _ _ _ _ _ _ _ Hsv) as Hpid. pose proof (vs_vol _ _ _ _ _ _ _ _ _ _ _ _ _ Hsv) as Hvol.
  pose proof (vs_size _ _ _ _ _ _ _ _ _ _ _ _ _ Hsv) as Hfits. pose proof (vs_mapped _ _ _ _ _ _ _ _ _ _ _ _ _ Hsv) as Hmap.
  pose proof (wm_ab_size _ _ _ _ _ Hmap) as Hab. pose proof (vo_area _ _ _ _ _ Hvol) as Ha.
  pose proof (ao_size _ _ Ha) as [Hs0 _]. pose proof (ao_bits _ _ Ha) as Htot. rewrite Hab in Hs0, Htot.
  destruct (run_writes_ok env 1 qs (sh_drv (ext sv)) bm pblk m Hvol (vs_present _ _ _ _ _ _ _ _ _ _ _ _ _ Hsv))
    as (s2 & m2 & E2 & Hvol2 & Hp2 & Hbits2); rewrite ?Htot, <- ?HG; [lia|lia|done|].
  exists s2. split; [exact E2|]. rewrite <- HG in Hbits2. set (w0 := after_writes s2 w).
  assert (Hsv2 : serves pid dfd pfd G 8 sz bm pblk m2 (wk_server (ext w0))).
  { clear -Hsv Hvol2 Hp2. destruct Hsv. constructor; try done.
    match goal with Hm : win_mapped _ _ _ _ _ |- _ => destruct Hm end. by constructor. }
  assert (Hset0 : client_set pid fd G 8 name w0) by (destruct Hset; by constructor).
  destruct (win_fetch_over_link src pid dfd pfd fd G name sz bm pblk m2 w0)
    as (v & w1 & bytes & E1 & Hf & Hgood & Ht1 & Hwf & Hlen & Hbits); [done|done|lia|done..|].
  assert (Hrl : Z.of_nat (length (received sz bytes)) = BITMAP_SIZE) by (apply length_received; [lia|done]).
  pose proof (win_resync_init_ok pid Hpid w1 (ext w1) (cs_valid _ _ _ _ _ _ (cf_set _ _ _ _ _ _ _ _ Hf)) eq_refl) as Ei.
  pose proof (fetched_prepared pid fd G 8 name Hpid (win_link_peer src pid dfd pfd G 8) (next_block w0) (received sz bytes) (ext w1) w1 Hf Hgood) as Hprep.
  set (w2 := started pid true (ext w1) w1) in *.
  pose proof (win_link_laws env garbage net src pid dfd pfd fd G 8 name H4G) as Hlaws.
  pose proof (win_round_whole _ _ _ _ _ _ _ (win_link_whole env garbage net src pid dfd pfd fd G 8 H4G Huns)) as Hround.
  assert (Hfit : forall b, mem_bit (received sz bytes) b = true -> 512 * G * (b + 1) <= pr_size (win_link_peer src pid dfd pfd G 8)).
  { intros b Hb. rewrite received_bits in Hb by (done || lia). cbn [pr_size win_link_peer]. bool_to_prop. nia. }
  assert (Hwide : 0 < wos_MultiByteToWideChar 14 name).
  { cbn. replace (slen name + 1 <=? 14) with true by bool_solve. unfold slen. lia. }
  destruct (win_resync_run _ (win_link_peer src pid dfd pfd G 8) pid fd 6 G (next_block w0) name (received sz bytes)
    Hround Hpid H4G (received_wf _ _ Hwf) Hrl ltac:(lia) Hmod Hfit ltac:(lia) Hwide _ 0 Hprep) as (w3 & E3 & Ho); [unfold MAX_BITS_LEN; lia|].
  exists v, w1, w2, w3. split; [exact E1|]. split; [exact Ei|]. split.
  { rewrite (win_resync_handler_runs pid Hpid w2 0); [exact E3|]. unfold w2, started. by wsimpl. }
  destruct Ho as [[_ Hc]|[Hnup _]]; [|destruct Hnup; by apply win_link_up].
  pose proof (complete_image _ G (received sz bytes) _ _ ltac:(lia) Hmod Hrl Hc) as Hca.
  eapply (received_images G sz bytes m m2 bm qs src (bytes_image (wk_target (ext w)))); [lia|lia|done|done|done|done|done|].
  intros a. unfold win_tgt in Hca. cbn in Hca. rewrite Hca. destruct (mem_bit _ _); [done|].
  change (wk_target (ext w2)) with (wk_target (ext w1)). by rewrite Ht1.
Qed.
End pair.

(** ** A run

    The volume of [WinExample], 64 grains of 4096 bytes; 4096 bytes are written
    at sector 12: grains 1 and 2 are dirty. *)
Definition ex_vol_tgt : mem := replicate (Z.to_nat 262144) 1.
Definition ex_vol_src : mem := write_at 6144 (ex_chunk 9) ex_vol_tgt.

Lemma length_ex_vol_tgt : Z.of_nat (length ex_vol_tgt) = 262144.
Proof. unfold ex_vol_tgt. rewrite length_replicate. apply Z2Nat.id. lia. Qed.

Lemma length_ex_vol_src : length ex_vol_src = length ex_vol_tgt.
Proof.
  unfold ex_vol_src. apply length_write_at; [lia|]. pose proof length_ex_vol_tgt as Hl.
  rewrite length_ex_chunk. lia.
Qed.

Lemma ex_vol_same a :
  ~ written [mk_write_req 12 8] a -> bytes_image ex_vol_tgt a = bytes_image ex_vol_src a.
Proof.
  intros Hw. unfold ex_vol_src. pose proof length_ex_vol_tgt as Hl. rewrite write_at_image; [|lia|apply length_ex_chunk|rewrite Hl; lia].
  destruct (in_range 6144 (6144 + 4095) a) eqn:Ea; [|done]. destruct Hw. constructor. cbn. unfold in_range in Ea. bool_to_prop. lia.
Qed.

#[global] Opaque ex_vol_tgt ex_vol_src.

Definition ex_vol_server : world shost :=
  (world0 (mk_shost (wh0 ex_tracked) ex_vol_src 0 [] [] []))
    <| ebdr_disk_src_obj ::= aset 0 (fun x => x <| dsk_name := "E:"%string |> <| dsk_active := Some (mk_mptr 0x7f0000 0) |>
         <| dsk_backup := Some (mk_mptr 0x7f0000 8) |> <| dsk_bitmap_size := 8 |> <| dsk_fd := 5 |> <| dsk_ops := Some server_ops |>) |>
    <| ebdr_conn_server ::= aset 0 (fun c => c <| cn_state := CONN_OBJ_IN_USE |> <| cn_ops := Some server_ops |>) |>
    <| all_partner_servers ::= aset 0 (fun p => p <| ptn_fd := 4 |> <| ptn_state := PARTNER_OBJ_IN_USE |>) |>
    <| replic_hdr_server_obj ::= aset 0 (fun _ => ex_header) |>
    <| replic_server_obj ::= aset 0 (fun r => r <| rp_conn := Some (PServer 0) |>) |>.

Definition ex_vol_client : world wlink :=
  (world0 (mk_wlink ex_vol_server 4 ex_vol_tgt 0 true ∅ [] 0))
    <| all_partner_clients ::= aset 0 (fun p => p <| ptn_fd := 3 |> <| ptn_state := PARTNER_OBJ_IN_USE |>) |>
    <| replic_client_obj ::= aset 0 (fun r => r <| rp_conn := Some (PClient 0) |>) |>
    <| ebdr_conn_client ::= aset 0 (fun c => c <| cn_ops := Some client_ops |>) |>
    <| replic_hdr_client_obj ::= aset 0 (fun _ => ex_header) |>
    <| ebdr_disk_target_obj ::= aset 0 (fun d => d <| dsk_name := "F:"%string |> <| dsk_ops := Some client_ops |>) |>.

Lemma ex_vol_serves : win_serves 1 "E:" sh_drv 0 5 4 8 8 8 ex_win_bm 0 (replicate 16 0) ex_vol_server.
Proof.
  constructor; [lia|exact ex_name_ok| |apply ex_vol_ok|by split|by vm_compute|done..].
  split; [by apply ex_table|by vm_compute|by vm_compute; eexists].
Qed.

Lemma ex_vol_client_set : win_client_set 0 3 8 8 "F:" ex_vol_client.
Proof. by constructor. Qed.

#[local] Instance ex_pair_os : WinOS wlink := wlink_os ex_net.
#[local] Instance ex_pair_sock : WinSock wlink := wlink_sock ex_wenv ex_garbage.

Lemma windows_writes_reach_the_target_witness :
  exists s2, @tr_run wstate (windows_tracker ex_wenv 1) (map TWrite [mk_write_req 12 8]) ex_tracked = Some s2 /\
    exists v w1 w2 w3,
      win_request_server_for_metadata 0 (after_writes s2 ex_vol_client) = Ret v w1 /\
      win_resync_init 0 0 w1 = Ret 0 w2 /\
      win_resync_handler 0 w2 = Ret tt w3 /\
      forall a, 0 <= a < Z.of_nat (length ex_vol_src) -> bytes_image (wk_target (ext w3)) a = bytes_image ex_vol_src a.
Proof.
  pose proof length_ex_vol_tgt as Hl.
  apply (windows_writes_reach_the_target ex_wenv ex_garbage ex_net eq_refl ltac:(by vm_compute) ex_codes ex_vol_src 0 5 4 3 8 "F:" 8 ex_win_bm 0
    (replicate 16 0) [mk_write_req 12 8] ex_vol_client ex_vol_serves ex_vol_client_set);
    [done|done|exact (ex_net_keeps 3)|exact (ex_net_unsegmented 3)|done|exact (eq_sym length_ex_vol_src)|done|lia|done|rewrite length_ex_vol_src; lia|rewrite length_ex_vol_src; lia
    |done| |].
  { repeat apply Forall_cons_2; try apply Forall_nil_2; cbn; lia. }
  intros a _. apply ex_vol_same.
Defined.
