(* ===== verification/WinFiles.v ===== *)
(** * The client's bitmap in a file, on Windows

    atdr_bitmap_client.c opens the file in text mode.  What is stored comes
    back up to the first byte 26 (Ctrl-Z, the end of a text file). *)
From S2P Require Import Prelude Memory KernelState KBitmap KBitmapSpec CMonad CString World UBitmap Db Header.
From S2P Require Import WinState WinDb WinClient WinObjects WorldTac UBitmapSpec WinExample WinHost WinPair WinFetch.

(** What comes before the first Ctrl-Z. *)
Fixpoint before_eof (m : mem) : mem :=
  match m with
  | [] => []
  | b :: m' => if b =? 26 then [] else b :: before_eof m'
  end.

Lemma before_eof_all m : 26 ∉ m -> before_eof m = m.
Proof.
  induction m as [|b m IH]; [done|]. intros [Hb Hm]%not_elem_of_cons. cbn [before_eof].
  rewrite (proj2 (Z.eqb_neq _ _)) by congruence. by rewrite IH.
Qed.

Lemma before_eof_prefix m : exists m', m = before_eof m ++ m'.
Proof.
  induction m as [|b m [m' IH]]; [by exists []|]. cbn [before_eof]. destruct (b =? 26); [by exists (b :: m)|].
  exists m'. cbn. by rewrite <- IH.
Qed.

Lemma length_before_eof m : (length (before_eof m) <= length m)%nat.
Proof. destruct (before_eof_prefix m) as [m' E]. rewrite E at 2. rewrite length_app. lia. Qed.

(** Line feeds survive the two translations, carriage returns too. *)
Lemma text_write_cons b m : b <> 10 -> text_write (b :: m) = b :: text_write m.
Proof. intros Hb. cbn. by rewrite (proj2 (Z.eqb_neq _ _) Hb). Qed.

Lemma text_write_no_lf m : head (text_write m) <> Some 10.
Proof. destruct m as [|b m]; [done|]. cbn. destruct (Z.eqb_spec b 10); cbn; congruence. Qed.

Lemma text_read_cons b m : b <> 26 -> head m <> Some 10 -> text_read (b :: m) = b :: text_read m.
Proof.
  intros Hb Hm. cbn [text_read]. rewrite (proj2 (Z.eqb_neq _ _) Hb). destruct m as [|c m]; [done|].
  replace (c =? 10) with false; [by rewrite andb_false_r|]. symmetry. apply Z.eqb_neq. cbn in Hm. congruence.
Qed.

Lemma text_round_trip m : text_read (text_write m) = before_eof m.
Proof.
  induction m as [|b m IH]; [done|]. cbn [before_eof]. destruct (Z.eqb_spec b 26) as [->|Hb]; [done|].
  destruct (Z.eqb_spec b 10) as [->|Hlf].
  - cbn [text_write]. change (10 =? 10) with true. cbv iota. cbn [text_read]. change (13 =? 26) with false. cbv iota.
    change ((13 =? 13) && (10 =? 10)) with true. cbv iota. by rewrite IH.
  - rewrite text_write_cons, text_read_cons by (done || apply text_write_no_lf). by rewrite IH.
Qed.

Section files.
Context {E : Type} `{WinOS E} `{WinSock E}.

(** Element [ub] has its buffer [m] in block [blk]. *)
Record client_buffer (ub blk : Z) (m : mem) (w : world E) : Prop := {
  cb_area : ub_area (aget (bitmap_client_obj w) ub) = Some blk;
  cb_size : ub_size (aget (bitmap_client_obj w) ub) = BITMAP_SIZE;
  cb_heap : heap w !! blk = Some m;
  cb_len : Z.of_nat (length m) = BITMAP_SIZE;
}.

Lemma bitmap_file_fits pid : 0 <= pid < 2048 -> slen (win_bitmap_file pid) < 128.
Proof.
  intros Hp. unfold win_bitmap_file. rewrite slen_app. change (slen "c:\bitmlap") with 10. pose proof (slen_dec pid 4). lia.
Qed.

Lemma win_store_ok ub pid blk m w e :
  0 <= ub < 2048 -> 0 <= pid < 2048 -> client_buffer ub blk m w ->
  wos_fwrite (win_bitmap_file pid) (text_write m) (ext w) = Some e ->
  win_store_bitmap_to_disk ub pid w = Ret 0 (w <| ext := e |>).
Proof.
  intros Hub Hpid [Ha Hs Hh Hl] Hw. unfold win_store_bitmap_to_disk. rewrite bind_cstring by by apply bitmap_file_fits.
  rewrite bind_rd by (unfold MAX_BITMAP; lia). rewrite (bind_block _ blk m) by done. rewrite Hs, bind_assert by (rewrite Hl; bool_solve).
  rewrite bind_get, take_ge by lia. by rewrite Hw, bind_put.
Qed.

Lemma win_load_ok ub pid blk old bytes w :
  0 <= ub < 2048 -> 0 <= pid < 2048 -> client_buffer ub blk old w ->
  wos_fread (win_bitmap_file pid) (ext w) = Some bytes -> Z.of_nat (length (text_read bytes)) <= BITMAP_SIZE ->
  win_load_bitmap_from_disk ub pid w =
    Ret 1 (w <| heap ::= fun h => <[blk := text_read bytes ++ drop (length (text_read bytes)) old]> h |>).
Proof.
  intros Hub Hpid [Ha Hs Hh Hl] Hr Hfit. unfold win_load_bitmap_from_disk. rewrite bind_cstring by by apply bitmap_file_fits.
  rewrite bind_get, Hr. rewrite bind_rd by (unfold MAX_BITMAP; lia). rewrite (bind_block _ blk old) by done. rewrite Hs, take_ge by lia.
  rewrite bind_assert by bool_solve. unfold set_block, bind at 1. cbn [mbind option_bind]. rewrite Ha. cbn. rewrite Hh. cbn.
  set (m := text_read bytes ++ _). rewrite (bind_block _ blk m) by (wsimpl; done || apply lookup_insert_eq).
  destruct (load_Some 4 m 0) as [v ->]; [lia|unfold m; rewrite length_app, length_drop; unfold BITMAP_SIZE in *; lia|]. done.
Qed.
End files.

(** C20. The client's bitmap on disk: after a restart the buffer is what was
    stored, up to its first byte 26, and what the buffer held from there on.
    So a bitmap without such a byte comes back whole, and one with it loses
    every dirty grain behind. *)
Theorem windows_bitmap_file {E} `{WinOS E} `{WinSock E} ub pid blk m w e blk2 old w2 :
  0 <= ub < 2048 -> 0 <= pid < 2048 -> client_buffer ub blk m w ->
  wos_fwrite (win_bitmap_file pid) (text_write m) (ext w) = Some e ->
  client_buffer ub blk2 old w2 -> wos_fread (win_bitmap_file pid) (ext w2) = Some (text_write m) ->
  win_store_bitmap_to_disk ub pid w = Ret 0 (w <| ext := e |>) /\
  exists w3 m3, win_load_bitmap_from_disk ub pid w2 = Ret 1 w3 /\ heap w3 !! blk2 = Some m3 /\
    (26 ∉ m -> m3 = m) /\
    forall i, before_eof m = take i m -> (i <= length m)%nat ->
      forall k, mem_bit m3 k = mem_bit (if k <? 8 * Z.of_nat i then m else old) k.
Proof.
  intros Hub Hpid Hb Hw Hb2 Hr. split; [by eapply win_store_ok|]. pose proof (length_before_eof m) as Hle.
  pose proof (cb_len _ _ _ _ Hb) as Hlm. pose proof (cb_len _ _ _ _ Hb2) as Hlo.
  rewrite (win_load_ok ub pid blk2 old (text_write m)); rewrite ?text_round_trip; [|done|done|done|done|lia].
  eexists _, _. split; [reflexivity|]. split; [apply lookup_insert_eq|]. split.
  - intros Hn. rewrite before_eof_all by done. rewrite drop_ge by lia. apply app_nil_r.
  - intros i Hi Hil k. rewrite Hi, mem_bit_app, length_take, Nat.min_l by done.
    destruct (Z.ltb_spec k (8 * Z.of_nat i)).
    + rewrite mem_bit_take. by rewrite (proj2 (Z.ltb_lt _ _)) by done.
    + rewrite mem_bit_drop. destruct (Z.leb_spec 0 (k - 8 * Z.of_nat i)); [cbn [andb]; f_equal; lia|lia].
Qed.

(** A bitmap whose second byte is 26, on the client's machine of [WinPair]. *)
Definition ex_text_bits : mem := 6 :: 26 :: 5 :: replicate (Z.to_nat (BITMAP_SIZE - 3)) 0.

Lemma length_ex_text_bits : Z.of_nat (length ex_text_bits) = BITMAP_SIZE.
Proof.
  unfold ex_text_bits. cbn [length]. rewrite length_replicate, !Nat2Z.inj_succ, Z2Nat.id by (unfold BITMAP_SIZE; lia). lia.
Qed.

Definition ex_file_client (m : mem) (files : gmap string mem) : world wlink :=
  (world0 (mk_wlink (world0 (mk_shost (wh0 ex_tracked) [] 0 [] [] [])) 4 [] 0 true files [] 0))
    <| bitmap_client_obj ::= aset 0 (fun b => b <| ub_area := Some 0 |> <| ub_size := BITMAP_SIZE |>) |>
    <| heap ::= fun h => <[0 := m]> h |>.

Lemma ex_before_eof : before_eof ex_text_bits = take 1 ex_text_bits.
Proof. reflexivity. Qed.

#[global] Opaque ex_text_bits.

Lemma ex_file_buffer m files : Z.of_nat (length m) = BITMAP_SIZE -> client_buffer 0 0 m (ex_file_client m files).
Proof. intros Hl. constructor; [done|done|apply lookup_insert_eq|done]. Qed.

#[local] Instance ex_file_os : WinOS wlink := wlink_os (fun _ _ => Some BITMAP_SIZE).
#[local] Instance ex_file_sock : WinSock wlink := wlink_sock ex_wenv ex_garbage.

Lemma windows_bitmap_file_witness :
  let files : gmap string mem := {[ "c:\bitmlap0"%string := text_write ex_text_bits ]} in
  (exists e, win_store_bitmap_to_disk 0 0 (ex_file_client ex_text_bits ∅) = Ret 0 ((ex_file_client ex_text_bits ∅) <| ext := e |>)) /\
  exists w3 m3, win_load_bitmap_from_disk 0 0 (ex_file_client no_bits files) = Ret 1 w3 /\ heap w3 !! 0 = Some m3 /\
    (26 ∉ ex_text_bits -> m3 = ex_text_bits) /\
    forall k, mem_bit m3 k = mem_bit (if k <? 8 then ex_text_bits else no_bits) k.
Proof.
  intros files. destruct (windows_bitmap_file 0 0 0 ex_text_bits (ex_file_client ex_text_bits ∅)
    ((ext (ex_file_client ex_text_bits ∅)) <| wk_files := <[win_bitmap_file 0 := text_write ex_text_bits]> ∅ |>) 0 no_bits (ex_file_client no_bits files))
    as (Hs & w3 & m3 & E3 & H3 & Hall & Hcut).
  - lia.
  - lia.
  - apply ex_file_buffer, length_ex_text_bits.
  - reflexivity.
  - apply ex_file_buffer, length_no_bits.
  - change (wk_files (ext (ex_file_client no_bits files)) !! win_bitmap_file 0 = Some (text_write ex_text_bits)).
    change (win_bitmap_file 0) with "c:\bitmlap0"%string. apply lookup_singleton_eq.
  - split; [eexists; exact Hs|]. exists w3, m3. split; [exact E3|]. split; [exact H3|]. split; [exact Hall|].
    assert (Hl : (1 <= length ex_text_bits)%nat) by (pose proof length_ex_text_bits as Hl; unfold BITMAP_SIZE in Hl; lia).
    exact (Hcut 1%nat ex_before_eof Hl).
Defined.
