(* ===== verification/WinServerProps.v ===== *)
(** * Properties of the Windows server

    How requests are dispatched and connections accepted; the record of a
    control request. *)
From S2P Require Import Prelude Memory KernelState KBitmap KBitmapSpec KernelMain KernelInv KernelSteps KernelProps KernelTrace.
From S2P Require Import Tracker WinState WinFilter WinSpec WinProps TrackerProps WinInv WinLoad WinLimits WinExample.
From S2P Require Import CMonad CString World UBitmap Db Disk Partner Relation Header ReplicServer ConnServer WorldTac SnapshotSpec ServerSpec.
From S2P Require Import WinDb WinClient WinObjects WinServer WinSnapshot WinClientProps WinHost WinServerSpec WinPair WinFetch.

(** C19. On Windows too a request is handled by its own handler and by no other
    one, although the loop goes on through the table with the opcode the
    handler left in the header. *)
Theorem windows_dispatch_one_handler {E} `{WinOS E} `{WinSock E} garbage h (w : world E) :
  dispatch (win_cmdMap garbage) h w =
  match table_find (opcode_code (hd_opcode h)) (win_cmdMap garbage) with Some f => f h w | None => Ret h w end.
Proof. apply win_dispatch_handled. Qed.

(** ** The record of a control request *)

(** C21. The daemon's record of a control request is the driver's: 84 bytes, the
    volume's name in the first 64 and the two sizes at the offsets the driver
    reads. *)
Theorem windows_request_layout b g name (o : IOCTL) :
  request_ok b g o -> bytes_string (src_disk o) = name -> wf_mem (src_disk o) ->
  length (ioctl_bytes o) = 84%nat /\ wf_mem (ioctl_bytes o) /\
  bytes_string (take 64 (ioctl_bytes o)) = name /\
  ioctl_bitmap_size (ioctl_bytes o) = Some b /\ ioctl_grain_size (ioctl_bytes o) = Some g.
Proof.
  intros Hreq Hname Hwf. pose proof Hreq as (Hl & _). split_and!.
  - unfold ioctl_bytes. by rewrite !length_app, !length_le_bytes, Hl.
  - unfold ioctl_bytes. repeat (apply Forall_app; split; [try exact Hwf; apply wf_le_bytes|]). apply wf_le_bytes.
  - unfold ioctl_bytes. by rewrite take_app_le, take_ge by lia.
  - by apply (request_bitmap_size b g).
  - by apply (request_grain_size b g).
Qed.

Lemma windows_request_layout_witness :
  length (ioctl_bytes (ex_win_request 8 4096)) = 84%nat /\ wf_mem (ioctl_bytes (ex_win_request 8 4096)) /\
  bytes_string (take 64 (ioctl_bytes (ex_win_request 8 4096))) = "E:"%string /\
  ioctl_bitmap_size (ioctl_bytes (ex_win_request 8 4096)) = Some 8 /\
  ioctl_grain_size (ioctl_bytes (ex_win_request 8 4096)) = Some 4096.
Proof.
  apply windows_request_layout; [by split_and!; vm_compute|by vm_compute|].
  repeat apply Forall_cons_2; try apply Forall_nil_2; unfold is_byte; vm_compute; split; congruence.
Defined.

(** ** Accepting a connection *)
Section accepting.
Context {E : Type} `{WinOS E} `{WinSock E}.

Ltac threads_step := preserve_step (@threads E) ltac:(intros; done).

Lemma threads_sys {A} (call : E -> A * E) : preserves (same threads) (sys call).
Proof. by apply preserves_sys. Qed.

Lemma threads_rows body i rows :
  (forall i row, preserves (same threads) (body i row)) -> preserves (same (@threads E)) (fetch_rows body i rows).
Proof.
  intros Hb. revert i. induction rows as [|row rows IH]; intros i; cbn [fetch_rows]; [threads_step|].
  apply (preserves_bind (same threads)); [apply Hb|intros; apply IH].
Qed.

Lemma threads_assign fuel pid rows fd : preserves (same threads) (assign_loop (E := E) fuel pid rows fd).
Proof.
  revert pid. induction fuel as [|fuel IH]; intros pid; cbn [assign_loop]; unfold put; repeat first [apply IH|threads_step].
Qed.

Lemma threads_select sql : preserves (same threads) (win_select_rows (E := E) sql).
Proof.
  unfold win_select_rows, win_finish_with_error, win_mutex_unlock, atdr_log, undefined, wsys, sys.
  repeat first [threads_step|apply threads_sys]; intros w; unfold same.
  - by destruct (wos_mysql_query sql (ext w)) as [[]|].
  - by destruct (wos_mysql_close (ext w)) as [|].
Qed.
Lemma threads_mkpartner : preserves (same threads) (win_mkpartner_from_db_on_server (E := E)).
Proof.
  unfold win_mkpartner_from_db_on_server, win_retrieve_from_partner.
  apply (preserves_bind (same threads)); [apply threads_select|intros rows]. apply threads_rows. intros i row.
  unfold column. repeat threads_step.
Qed.

(** At most one receiving thread is started, and it is given element 0. *)
Definition threads_grow (w w' : world E) : Prop :=
  threads w' = threads w \/ threads w' = threads w ++ [TSendRecv 0].

Lemma accept_threads (w : world E) : threads_grow w (end_state (win_accept_step w)).
Proof.
  unfold win_accept_step.
  assert (Hpre : forall A (f : MW E A) (k : A -> MW E unit) v, preserves (same threads) f ->
    (forall a v, threads_grow v (end_state (k a v))) -> threads_grow v (end_state (bind f k v))).
  { intros A f k v Hf Hk. specialize (Hf v). unfold bind. destruct (f v) as [a v'|o v']; cbn in *; [|by left].
    specialize (Hk a v'). unfold threads_grow, same in *. by rewrite Hf in Hk. }
  apply Hpre; [threads_step|intros _ v1]. apply Hpre; [threads_step|intros c v2]. apply Hpre; [apply threads_sys|intros s v3].
  destruct (u64 s <? 0); [by left|]. unfold put.
  apply Hpre; [threads_step|intros _ v4]. apply Hpre; [threads_step|intros _ v5]. apply Hpre; [apply threads_mkpartner|intros n v6].
  apply Hpre; [destruct (n <=? 0); [repeat threads_step|apply threads_assign]|intros pid v7].
  apply Hpre; [threads_step|intros _ v8]. apply Hpre; [apply threads_sys|intros [] v9]; [by right|by left].
Qed.
End accepting.

(** A connection accepted on Windows: whatever partner it is assigned to,
    the thread started for it is given element 0 of [sockfd_pid_var]; and an
    [accept] that fails with INVALID_SOCKET is taken for a connection. *)
Theorem windows_accept_hands_over_slot_0 {E} `{WinOS E} `{WinSock E} (w : world E) :
  threads_grow w (end_state (win_accept_step w)) /\
  forall s e e1 e2 sql, sql = "select * from partner where state != 2"%string ->
    wos_accept (cn_sockFd (aget (ebdr_conn_server w) (MAX_CONN + 1))) (ext w) = (s, e) -> -1 <= s ->
    wos_mysql_query sql e = Some (0, e1) -> wos_rows e1 = Some [] -> wos_CreateThread e1 = (true, e2) ->
    exists w', win_accept_step w = Ret tt w' /\ threads w' = threads w ++ [TSendRecv 0] /\
      aget (sockfd_pid_var w') 0 = (s, 0).
Proof.
  split; [apply accept_threads|]. intros s e e1 e2 sql -> Ha Hs Hq Hr Ht. unfold win_accept_step.
  rewrite bind_wr by (unfold MAX_CONN; lia). rewrite bind_rd by (unfold MAX_CONN; lia).
  erewrite bind_sys by (wsimpl; exact Ha). replace (u64 s <? 0) with false.
  2:{ symmetry. apply Z.ltb_ge. unfold u64. apply Z.mod_pos_bound. lia. }
  rewrite bind_put, bind_wr by (unfold MAX_CONN; lia).
  set (w1 := set_field ebdr_conn_server _ _).
  assert (Hm : win_mkpartner_from_db_on_server w1 = Ret 0 (w1 <| ext := e1 |>)).
  { unfold win_mkpartner_from_db_on_server, win_retrieve_from_partner, win_select_rows. rewrite bind_assoc.
    unfold wsys, bind at 1. change (ext w1) with e. rewrite Hq. change (0 =? 0) with true. cbn [negb when].
    rewrite bind_assoc, bind_ret, bind_assoc, bind_get. change (ext (w1 <| ext := e1 |>)) with e1. by rewrite Hr. }
  rewrite (bind_Ret _ _ _ _ _ Hm). change (0 <=? 0) with true. cbv iota.
  rewrite bind_assoc, bind_wr by (unfold MAX_PID; lia). rewrite bind_assoc, bind_wr by (unfold MAX_CONN; lia). rewrite bind_ret.
  rewrite bind_wr by (unfold MAX_CONN; lia). erewrite bind_sys by exact Ht. cbn [when].
  eexists. split; [reflexivity|]. split; [done|]. by wsimpl.
Qed.

(** A machine whose [accept] fails. *)
#[local] Instance ex_deaf_os : WinOS shost := shost_os ex_wenv.
#[local] Instance ex_deaf_sock : WinSock shost := {|
  wos_WSAStartup e := (0, e); wos_socket e := (3, e); wos_connect _ _ _ e := (0, e); wos_bind _ _ e := (0, e);
  wos_listen _ _ e := (0, e); wos_accept _ e := (-1, e); wos_shutdown _ e := e; wos_closesocket _ e := e;
  wos_send_hdr _ _ e := (1, e); wos_recv_hdr _ e := (-1, None, e); wos_CreateThread e := (true, e);
  wos_fread _ _ := None; wos_fwrite _ _ _ := None; wos_rows _ := Some []; wos_CreateMutex e := (true, e);
  wos_mysql_init e := (true, e); wos_mysql_real_connect _ _ _ e := (true, e); |}.

Lemma windows_accept_hands_over_slot_0_witness :
  exists w', win_accept_step (world0 (mk_shost (wh0 ex_added) [] 0 [] [] [])) = Ret tt w' /\
    threads w' = [] ++ [TSendRecv 0] /\ aget (sockfd_pid_var w') 0 = (-1, 0).
Proof.
  set (w := world0 (mk_shost (wh0 ex_added) [] 0 [] [] [])).
  exact (proj2 (windows_accept_hands_over_slot_0 w) (-1) (ext w) (ext w) (ext w) _ eq_refl eq_refl ltac:(lia) eq_refl eq_refl eq_refl).
Defined.
