(* ===== verification/WinAdmProps.v ===== *)
(** * From the Windows command line to the Windows daemon

    What the administration command sends through a pipe, and what the control
    thread of the daemon does with it. *)
From S2P Require Import Prelude Memory KernelState WinState CMonad CString World UBitmap Db Config Partner Relation Disk Header.
From S2P Require Import ReplicServer WorldTac WinDb WinClient WinObjects WinServer WinResync WinProtocol WinDaemon Adm WinAdm.
From S2P Require Import WinFilter WinExample WinHost WinPair.
From Stdlib Require Import Ascii.

Section admin.
Context {P : Type} `{AdmPipe P} {E : Type} `{WinOS E} `{WinSock E}.
Context (ch : ascii) (buf : mem) (behind : string -> mem) (buffer : mem) (garbage : Z) (garbage_str : string).

(** The command writes one message to the pipe of [f] and succeeds; the
    control thread that receives it does [act], then closes its end. *)
Definition admin_reaches (argv : list string) (f : fifo) (act : MW E unit) : Prop :=
  exists msg, length msg = CMD_BUFFER_LEN /\
    (forall p p', ap_fopen p = (true, p') ->
       win_adm_main ch buf behind argv p = Some (0, snd (write_on_fifo f msg p'))) /\
    (forall fd w e, wos_ReadFile fd CMD_LEN (ext w) = (true, msg, e) ->
       win_cntrl_step buffer garbage garbage_str fd w =
       bind act (fun _ => sys_ (wos_CloseHandle fd)) (w <| ext := e |>)).

Lemma read_message fd text (w : world E) e :
  length buf = CMD_BUFFER_LEN -> slen text < 200 -> wos_ReadFile fd CMD_LEN (ext w) = (true, put_string text buf, e) ->
  win_read_from_fifo fd w = Ret (put_string text buf) (w <| ext := e |>).
Proof.
  intros Hbuf Hlen Hread. unfold win_read_from_fifo, bind, sys. rewrite Hread. cbn [negb orb].
  rewrite length_put_string, Hbuf by (rewrite Hbuf; exact Hlen). change (Z.of_nat CMD_BUFFER_LEN =? 0) with false.
  cbv iota. replace (existsb (Z.eqb 0) (put_string text buf)) with true; [done|].
  symmetry. apply existsb_exists. exists 0. split; [|done]. unfold put_string. apply in_app_iff. right. by left.
Qed.

(** The commands with arguments: the option's case prints [word], then the
    arguments, then [tail]; the daemon scans the word and the arguments. *)
Lemma admin_line_reaches c prog opt f word fmt args tail act :
  let text := word +:+ line args tail in
  let argv := prog :: opt :: map parg_text args in
  find_option adm_cmdMap opt ch = c ->
  win_adm_switch c argv = win_with_args (2 + length fmt) argv f word tail ->
  length buf = CMD_BUFFER_LEN -> slen text < 200 ->
  is_word word -> no_nul word -> starts_space tail -> no_nul tail ->
  Forall2 parg_ok fmt args -> Forall parg_no_nul args ->
  (scan (Cs :: fmt) text = AStr word :: map parg_scanned args ->
   forall w, win_parse_daemon_request buffer garbage garbage_str text w = bind act (fun _ => ret 0) w) ->
  admin_reaches argv f act.
Proof.
  intros text argv Hc Hsw Hbuf Hlen Hw Hnw Ht Hnt Hok Hargs Hact.
  assert (Hline : word +:+ adm_args argv tail = text).
  { unfold text, adm_args, argv. cbn [drop]. rewrite drop_0. f_equal. clear. unfold line.
    induction args as [|a args IH]; [done|]. cbn [map foldr]. rewrite IH. by destruct a. }
  assert (Hn : no_nul text) by by apply no_nul_app, line_no_nul.
  exists (put_string text buf). split_and!.
  - rewrite length_put_string; [done|]. rewrite Hbuf. exact Hlen.
  - intros p p' Hp. unfold win_adm_main. rewrite Hp. cbn [negb]. subst c.
    change (argv !! 1%nat) with (Some opt). cbv iota. rewrite Hsw. unfold win_with_args.
    rewrite decide_True by (unfold argv; cbn; by rewrite length_map, (Forall2_length _ _ _ Hok)).
    rewrite Hline. unfold cstr_fits. by rewrite (proj2 (Z.ltb_lt _ _)).
  - intros fd w e Hread. unfold win_cntrl_step. erewrite bind_Ret by by apply read_message.
    rewrite bytes_put_string by done. unfold ignore. rewrite bind_assoc. unfold bind at 1.
    rewrite Hact by by apply scan_command. unfold bind. by destruct (act _).
Qed.

(** The client ids are validated. *)
Definition if_client (pid : Z) (m : MW E unit) : MW E unit :=
  w <- get (fun w => w);; when (is_client_partner_id_valid pid w) m.

(** The side conditions of [admin_line_reaches] for a given command; the last
    one is left. *)
Ltac reaches opt c f word fmt args tail :=
  match goal with
  | |- admin_reaches (?prog :: _) _ _ =>
      apply (admin_line_reaches c prog opt f word fmt args tail);
        [ reflexivity | reflexivity | assumption
        | assumption
        | done | by repeat constructor | done | by repeat constructor
        | repeat (apply List.Forall2_cons; [cbn; assumption || lia|]); apply List.Forall2_nil
        | repeat (apply Forall_cons_2; [cbn; assumption || lia|]); apply Forall_nil_2
        | intros Hscan w ]
  end.
(** The daemon's case for a text is the handler [h]. *)
Ltac handled h :=
  match goal with
  | |- win_parse_daemon_request _ _ _ ?text ?w = _ =>
      transitivity (bind (h text) (fun _ => ret 0) w); [reflexivity|]
  end.

(** C27. From the command line to the daemon: for a partner, a relation, a
    snapshot, the metadata, a resync and a full resync the command writes one
    message to the pipe of the right daemon, and the control thread that
    receives it does exactly the operation asked for with the arguments of the
    command line, whatever the rest of the command's buffer holds. *)
Theorem windows_admin_round_trip (prog ip target snap : string) (bw bs gs cs pid role : Z) :
  length buf = CMD_BUFFER_LEN -> name64 ip -> name64 target -> name64 snap ->
  0 <= bw < 2 ^ 32 -> 0 <= bs < 2 ^ 32 -> 0 <= gs < 2 ^ 32 -> 0 <= cs < 2 ^ 32 -> 0 <= pid < 2 ^ 31 -> 0 <= role < 2 ^ 31 ->
  slen ("partner" +:+ line [PStr ip; PInt bw; PStr target; PInt bs; PInt gs; PInt cs] "") < 200 ->
  slen ("y" +:+ line [PInt pid; PInt role; PStr target; PInt bs; PInt gs; PInt cs] " ") < 200 ->
  slen ("snap" +:+ line [PStr snap; PInt pid] "") < 200 -> slen ("qfullresync" +:+ line [PInt pid] "") < 200 ->
  admin_reaches [prog; "--mkpartner"; ip; dec bw; target; dec bs; dec gs; dec cs] clientfifo
    (win_make_partner_with_server ip bw target bs gs cs) /\
  admin_reaches [prog; "--mkrelationpeer"; dec pid; dec role; target; dec bs; dec gs; dec cs] clientfifo
    (if_client pid (ignore (win_make_relation_with_server pid role target bs gs cs))) /\
  admin_reaches [prog; "--snap"; snap; dec pid] serverfifo
    (w <- get (fun w => w);; when (is_server_partner_id_valid pid w) (win_snapshot_disk_init snap pid)) /\
  admin_reaches [prog; "--metadata"; dec pid] clientfifo (if_client pid (ignore (win_request_server_for_metadata pid))) /\
  admin_reaches [prog; "--resync"; dec pid] clientfifo (if_client pid (ignore (win_resync_init pid 0))) /\
  admin_reaches [prog; "--fullresync"; dec pid] clientfifo (win_restart_resync pid 0 FULL_RESYNC).
Proof.
  intros Hbuf Hip Htarget Hsnap Hbw Hbs Hgs Hcs Hpid Hrole Hlp Hly Hls Hlq.
  pose proof Hip as (Hip1 & Hip2 & _). pose proof Htarget as (Ht1 & Ht2 & _). pose proof Hsnap as (Hs1 & Hs2 & _).
  assert (Hl : slen (line [PInt pid] "") < 189) by (rewrite slen_app in Hlq; change (slen "qfullresync") with 11 in Hlq; lia).
  assert (Hlm : slen ("metadata" +:+ line [PInt pid] "") < 200) by (rewrite slen_app; change (slen "metadata") with 8; lia).
  assert (Hlr : slen ("resync" +:+ line [PInt pid] "") < 200) by (rewrite slen_app; change (slen "resync") with 6; lia).
  split_and!.
  - reaches "--mkpartner" "p"%char clientfifo "partner" [Cs; Cu; Cs; Cu; Cu; Cu]
      [PStr ip; PInt bw; PStr target; PInt bs; PInt gs; PInt cs] EmptyString.
    handled (win_cmd_mkpartner (E := E) garbage garbage_str). unfold win_cmd_mkpartner. rewrite Hscan.
    change (arg_str _ 1 _) with ip. change (arg_str _ 3 _) with target.
    by rewrite bind_assoc, bind_name64, bind_assoc, bind_name64.
  - reaches "--mkrelationpeer" "y"%char clientfifo "y" [Cd; Cd; Cs; Cu; Cu; Cu]
      [PInt pid; PInt role; PStr target; PInt bs; PInt gs; PInt cs] " ".
    handled (win_cmd_mkrelationpeer (E := E) garbage garbage_str). unfold win_cmd_mkrelationpeer. rewrite Hscan.
    change (arg_str _ 3 _) with target. by rewrite bind_assoc, bind_name64.
  - reaches "--snap" "s"%char serverfifo "snap" [Cs; Cd] [PStr snap; PInt pid] EmptyString.
    handled (win_cmd_snap (E := E) garbage). unfold win_cmd_snap. rewrite Hscan.
    change (arg_str _ 1 _) with snap. by rewrite bind_assoc, bind_name64.
  - reaches "--metadata" "m"%char clientfifo "metadata" [Cd] [PInt pid] EmptyString.
    handled (win_cmd_metadata (E := E) garbage). unfold win_cmd_metadata. by rewrite Hscan.
  - reaches "--resync" "r"%char clientfifo "resync" [Cd] [PInt pid] EmptyString.
    handled (win_cmd_resync (E := E) garbage). unfold win_cmd_resync. by rewrite Hscan.
  - reaches "--fullresync" "q"%char clientfifo "qfullresync" [Cd] [PInt pid] EmptyString.
    handled (win_cmd_fullresync (E := E) garbage). unfold win_cmd_fullresync. by rewrite Hscan.
Qed.
End admin.

(** ** What the daemon does not serve, and what the command does not report *)

(** Half of the commands reach a daemon that does nothing on them: among them
    the removal of partners and relations, and the server's side of a relation. *)
Lemma unserved_commands {E} `{WinOS E} `{WinSock E} buffer garbage garbage_str c s (w : world E) :
  c ∈ ["a"; "b"; "d"; "e"; "f"; "g"; "h"; "i"; "j"; "k"; "o"; "w"; "x"; "z"]%char ->
  win_parse_daemon_request buffer garbage garbage_str (String c s) w = Ret 0 w.
Proof.
  intros Hc. repeat (apply elem_of_cons in Hc as [->|Hc]; [reflexivity|]). by apply elem_of_nil in Hc.
Qed.

(** The exit status does not depend on whether the message got to the daemon. *)
Lemma delivery_not_reported {P} `{AdmPipe P} ch buf behind opt prog args p p' r q out :
  ap_fopen p = (true, p') ->
  win_adm_switch (find_option adm_cmdMap opt ch) (prog :: opt :: args) = Some out ->
  win_adm_main ch buf behind (prog :: opt :: args) p = Some (r, q) ->
  r = match out with WUnknown => -2 | _ => 0 end.
Proof.
  unfold win_adm_main. intros -> Hs. cbn [negb]. change ((prog :: opt :: args) !! 1%nat) with (Some opt). cbv iota.
  rewrite Hs. by destruct out; intros [= <- _].
Qed.

(** ** A pipe that keeps the messages *)
#[local] Instance ex_pipe : AdmPipe (list mem) := {|
  ap_fopen p := (true, p);
  ap_CreateFile f p := (Some (match f with serverfifo => 1 | clientfifo => 2 end), p);
  ap_WriteFile _ m p := (true, p ++ [m]);
  ap_DisconnectNamedPipe _ p := p;
  ap_CloseHandle _ p := p; |}.
#[local] Instance ex_adm_os : WinOS shost := shost_os ex_wenv.
#[local] Instance ex_adm_sock : WinSock shost := shost_sock.

Abbreviation ex_reaches := (admin_reaches "0"%char (replicate CMD_BUFFER_LEN 204) (fun _ => []) [] (-1) EmptyString).

Lemma windows_admin_round_trip_witness :
  ex_reaches ["adm"; "--mkpartner"; "10.0.0.2"; "100"; "E:"; "1024"; "8"; "8"]%string clientfifo
    (win_make_partner_with_server "10.0.0.2" 100 "E:" 1024 8 8) /\
  ex_reaches ["adm"; "--mkrelationpeer"; "3"; "1"; "E:"; "1024"; "8"; "8"]%string clientfifo
    (if_client 3 (ignore (win_make_relation_with_server 3 1 "E:" 1024 8 8))) /\
  ex_reaches ["adm"; "--snap"; "F:"; "3"]%string serverfifo
    (w <- get (fun w => w);; when (is_server_partner_id_valid 3 w) (win_snapshot_disk_init "F:" 3)) /\
  ex_reaches ["adm"; "--metadata"; "3"]%string clientfifo (if_client 3 (ignore (win_request_server_for_metadata 3))) /\
  ex_reaches ["adm"; "--resync"; "3"]%string clientfifo (if_client 3 (ignore (win_resync_init 3 0))) /\
  ex_reaches ["adm"; "--fullresync"; "3"]%string clientfifo (win_restart_resync 3 0 FULL_RESYNC).
Proof.
  apply (windows_admin_round_trip "0"%char (replicate CMD_BUFFER_LEN 204) (fun _ => []) [] (-1) EmptyString
    "adm" "10.0.0.2" "E:" "F:" 100 1024 8 8 3 1);
    first [lia | reflexivity | by split_and!; repeat constructor].
Defined.
